(* ===== verification/_CoqProject ===== *)
-Q . S2P
Prelude.v
Schedule.v
Structs.v
Kernel.v
Concrete.v
Npt.v
NptProps.v
Race.v
RaceProps.v
RaceLoss.v
Vmcb.v
VcpuRun.v
Vcpu.v
VcpuSwitch.v
Vm.v
Creators.v
Driver.v
System.v
Handlers.v
HandlersVcpu.v
Spec.v
Safety.v
Machine.v
SafetyProps.v
RaceSystem.v
VcpuProps.v
SwitchProps.v
Emulator.v
EmulatorProps.v
GuestMemory.v
Guest.v
Process.v
ProcessProps.v
GuestRun.v
