(* ===== verification/Prelude.v ===== *)
(** * yakvm, verified

    yakvm is a small virtual machine monitor for AMD processors: a Linux driver
    (src/driver, src/include), a process that runs a guest with it (src/tool) and
    a guest. This library models the three, with the world switch in assembly,
    over parameters for what is not in the repository, and proves what makes them
    correct.

    ** The program

    The driver registers /dev/yakvm. Its ioctl creates a machine ([struct vm],
    driver/vm.c) with a four-level nested page table ([struct vmm],
    driver/memory.c); the machine's ioctl creates its one vcpu ([struct vcpu],
    driver/cpu.c) and pages of guest memory; the vcpu's ioctl runs the guest until
    the next #VMEXIT (driver/vcpu_run.S) and reads and writes its registers. A
    machine is shared by its two descriptors, counted in [vm->refcount]; the last
    to be closed destroys everything. The process maps guest memory, whose pages
    the fault handler of the driver creates, and a page the vcpu shares, from
    which it reads why the guest stopped; it emulates two devices of a byte, one
    behind an intercepted port and one behind a page that is never present.

    ** The files

    - Prelude: C integers, outcomes, the state monad [M], its weakest
      preconditions [wp] and their rules, record update, loops over a range.
    - Structs: the declarations of include/. A C structure [s] is the record
      [s.t], the packed ones also as lists of members with their sizes, from
      which offsets are computed. [Config] holds the values the Makefile passes.
    - Kernel: [KernelOps], the services of Linux the driver calls, as parameters,
      with [KernelLaws], their documented behaviour; [kstate], the state of the
      driver: pages, kmalloc'ed objects, open files, processors and statics.
      A page is an array of words until it is used as a control block or as the
      shared page; an access to what is not there is [BadAccess].
    - Concrete, Machine: an executable kernel and processor with the laws, for
      evaluation and for witnesses; its allocators follow a script of answers.
    - Npt, NptProps: driver/memory.c and include/memory.h. The specification is a
      tree of pages indexed by paths and the processor's walk, [hw_translate].
    - Race, RaceProps: the walk of the table again, cut at each access to memory
      that others see, and any number of calls interleaved by a schedule: page
      faults of several threads run at once, and the driver takes no lock.
    - Vmcb: initialisation of the control block and of the I/O permission map
      (driver/cpu.c). VcpuRun: driver/vcpu_run.S, an instruction list with an
      interpreter, over [Processor], what a guest does between VMRUN and #VMEXIT.
      Vcpu, VcpuSwitch: the rest of driver/cpu.c and the facts about a run.
      VcpuProps, SwitchProps: the theorems about vcpus and about the switch.
    - Vm: driver/vm.c. Driver: driver/main.c and [step], which dispatches a system
      call through the file operations of its descriptor.
    - System: the abstract state (a [world] of machines with their trees, vcpus
      and descriptors) and the invariant [inv] that relates it to [kstate].
      Handlers, HandlersVcpu, Safety: every operation keeps it. SafetyProps: what
      follows for whole runs of the driver.
    - RaceSystem: runs of the driver in which races happen between the calls.
    - Emulator: src/tool but the guest, over [Host], the system calls and memory
      accesses it makes. EmulatorProps: what its handlers do, over [HostLaws].
    - GuestMemory: bytes of guest memory. Guest: src/tool/guest.h and guest.c as
      encoded instructions, and a processor that executes them, an instance of
      [Processor] with its laws. Process: a process over the driver, an instance
      of [Host]; ProcessProps discharges [HostLaws] for it. GuestRun: the whole
      system evaluated on the guest of the repository.

    ** What the theorems show

    - Whole driver (SafetyProps): from a booted machine any sequence of system
      calls returns or panics for a reason that is named, uses no freed memory,
      frees nothing twice and waits for no lock of its own ([run_safe]); when all
      descriptors are closed everything is freed ([run_no_leak]); each call is a
      step of the abstract system ([syscall_refines]) and leaves the other
      machines as they were ([guests_isolated]); the MMIO page is never mapped.
    - Nested page tables (NptProps): page creation refines growth of the tree, the
      processor then translates the address to that page and every other as
      before, distinct pages get distinct frames; destruction frees every page.
    - Racing faults (Race, RaceProps): callers in turn do what the calls do
      ([in_turn_is_sequence]); under any schedule the table stays well formed,
      keeps what it had and no memory that is not allocated is touched
      ([race_safe]), every caller ends within 13 steps of its own
      ([race_wait_free]), and faults whose paths meet only in tables that exist
      map their pages ([race_apart]); others may lose pages ([race_loses_page]). A
      race is a step of the abstract system ([race_refines]), so that runs with
      races are as safe as those without ([races_safe]).
    - Vcpus and the switch: creation takes everything or nothing and arms the
      intercepts the emulator relies on, the control block passes the checks of
      VMRUN, the assembly is equal to a reference definition and keeps what the
      calling convention asks for, a run gives the processor back as it was,
      registers round trip.
    - Emulator: each exit is emulated as documented, a nested page fault makes
      progress, the loop ends only when the guest halts, the guest of the
      repository runs to its end with everything freed, also under any one failed
      allocation without a kernel panic.
    - Defects, each a theorem: an error of vcpu creation answered as a success, a
      leak in [yakvm_create_vmm], identifiers that are never recycled, segment
      bases cut to 16 bits, a guest that panics its host through the hidden page,
      pages and tables lost by faults that race.

    ** Bounds and fuel

    Recursion is structural but for [yakvm_cpu_run], whose loop runs as long as
    the guest does: it takes the iterations it is allowed and says whether it
    ended; [cpu_run_halts] shows that more of them make no difference and
    [guest_runs_to_end] that 20 are enough for the guest of the repository. The
    table walk recurs over the four levels. Integers are [Z] with the width of
    the C type written out where a value can leave it. [guest_run] is a total
    function: a guest that never leaves guest mode is outside of the model.

    ** Not modelled

    Log messages, [sleep], file modes and protections; the FPU, debug registers
    and what VMSAVE does not move, which the driver does not save either; outside
    of Race system calls are made one at a time, so the mutexes are checked for
    self-deadlock but races between callers that take them are not. In Race the
    accesses are atomic and sequentially consistent, and nobody else runs. The guest's program is the instructions its inline assembly writes: the
    code the compiler adds around them (a stack frame) is not in the repository.
    argp and the C library are represented by what the emulator sees of them.
    test.py and the Makefiles are not modelled. *)

From stdpp Require Export base gmap sets list strings pretty.
From Stdlib Require Export ZArith Lia.

#[export] Set Warnings "-clear-no-such-hyp".

Declare Scope yakvm_scope.
Delimit Scope yakvm_scope with yakvm.
Global Open Scope list_scope.
Global Open Scope Z_scope.
Global Open Scope yakvm_scope.

(** ** C integers

    An unsigned C integer of [w] bits is a [Z] in [0, 2^w); [wrap w] is the
    conversion to that type and [sint w] the conversion to the signed type of
    the same width. *)
Definition wrap (w x : Z) : Z := x mod 2 ^ w.

Definition sint (w x : Z) : Z :=
  let y := x mod 2 ^ w in if y <? 2 ^ (w - 1) then y else y - 2 ^ w.

Definition u64 (x : Z) : Prop := 0 <= x < 2 ^ 64.

(** [~x] on an [unsigned long]. *)
Definition not64 (x : Z) : Z := wrap 64 (Z.lnot x).

(** ** Outcomes and the state monad

    A call returns a value and a new state, or stops the machine: [Panicked] is
    the kernel's [panic()] behind [assert], [Aborted] the emulator's
    [assert]/[abort], [BadAccess] an access the C standard leaves undefined
    (memory that is not allocated, an object of another type, a double free),
    [Deadlocked] a wait for a lock that its holder waits for too. *)
Inductive stop : Type := Panicked | Aborted | BadAccess | Deadlocked | Escaped.

Inductive outcome (S A : Type) : Type :=
| Ok (a : A) (s : S)
| Stop (w : stop).
Arguments Ok {S A} a s.
Arguments Stop {S A} w.

Definition M (S A : Type) : Type := S -> outcome S A.

#[global] Instance stop_eq_dec : EqDecision stop.
Proof. solve_decision. Defined.

#[global] Instance M_ret S : MRet (M S) := fun A a s => Ok a s.

#[global] Instance M_bind S : MBind (M S) := fun A B k m s =>
  match m s with
  | Ok a s' => k a s'
  | Stop w => Stop w
  end.

Section ops.
Context {S : Type}.

Definition halt {A} (w : stop) : M S A := fun _ => Stop w.

Definition gets {A} (f : S -> A) : M S A := fun s => Ok (f s) s.

Definition modify (f : S -> S) : M S unit := fun s => Ok tt (f s).

(** [assert] of the driver: a failed condition panics the kernel. *)
Definition kassert (b : bool) : M S unit :=
  if b then mret tt else halt Panicked.

(** Use of a pointer or of an object that may not be there. *)
Definition need {A} (o : option A) : M S A :=
  match o with Some a => mret a | None => halt BadAccess end.

(** [for (x in l) body] *)
Fixpoint foreach {A} (l : list A) (body : A -> M S unit) : M S unit :=
  match l with
  | [] => mret tt
  | x :: l => body x ;; foreach l body
  end.

(** *** Weakest preconditions

    [wp m Q E s]: run from [s], [m] returns [a] in [s'] with [Q a s'], or stops
    with a reason [E] allows. *)
Definition wp {A} (m : M S A) (Q : A -> S -> Prop) (E : stop -> Prop) (s : S) : Prop :=
  match m s with Ok a s' => Q a s' | Stop w => E w end.

End ops.

(** The value a run returns and the state it leaves. *)
Definition result {S A} (m : M S A) (s : S) : option A :=
  match m s with Ok a _ => Some a | Stop _ => None end.

Definition final {S A} (m : M S A) (s : S) : S :=
  match m s with Ok _ s' => s' | Stop _ => s end.

Definition never : stop -> Prop := fun _ => False.

(** ** Record update

    [r <| f := v |>] is [r] with the field [f] set to [v]; a record type gets it
    with an [Eta] instance, its eta expansion. *)
Class Eta (R : Type) := eta : R -> R.
Class Setter {R T : Type} (f : R -> T) := set_field : T -> R -> R.
Arguments set_field {R T} f {_} _ _.

Ltac solve_setter :=
  lazymatch goal with
  | |- @Setter ?R ?T ?f =>
      let i := constr:(_ : Eta R) in
      let h := eval hnf in i in
      lazymatch eval pattern f in h with
      | ?g _ => let r := eval cbv beta in (fun (v : T) => g (fun _ : R => v)) in exact r
      end
  end.
#[global] Hint Extern 1 (Setter _) => solve_setter : typeclass_instances.

Notation "r <| f := v |>" := (set_field f v r)
  (at level 1, left associativity, f at next level, v at level 200,
   format "r  <| f  :=  v |>").

(** ** Rules of the program logic *)
Create HintDb yakvm discriminated.

Section wp_rules.
Context {S : Type}.
Implicit Types (s : S) (E : stop -> Prop).

Lemma wp_ret {A} (a : A) (Q : A -> S -> Prop) E s : Q a s -> wp (mret a) Q E s.
Proof. done. Qed.

Lemma wp_bind {A B} (m : M S A) (k : A -> M S B) (Q : B -> S -> Prop) E s :
  wp m (fun a s' => wp (k a) Q E s') E s -> wp (m ≫= k) Q E s.
Proof. unfold wp, mbind, M_bind. by destruct (m s). Qed.

Lemma bind_ok {A B} (m : M S A) (k : A -> M S B) s b s' :
  (m ≫= k) s = Ok b s' -> exists a s1, m s = Ok a s1 /\ k a s1 = Ok b s'.
Proof. unfold mbind, M_bind. destruct (m s); naive_solver. Qed.

Lemma wp_bind_inv {A B} (m : M S A) (k : A -> M S B) (Q : B -> S -> Prop) E s :
  wp (m ≫= k) Q E s -> wp m (fun a s' => wp (k a) Q E s') E s.
Proof. unfold wp, mbind, M_bind. by destruct (m s). Qed.

Lemma wp_mono {A} (m : M S A) (Q Q' : A -> S -> Prop) E s :
  wp m Q E s -> (forall a s', Q a s' -> Q' a s') -> wp m Q' E s.
Proof. unfold wp. destruct (m s); naive_solver. Qed.

Lemma wp_stop_mono {A} (m : M S A) (Q : A -> S -> Prop) (E E' : stop -> Prop) s :
  wp m Q E s -> (forall w, E w -> E' w) -> wp m Q E' s.
Proof. unfold wp. destruct (m s); naive_solver. Qed.

(** Two facts of one run. *)
Lemma wp_both {A} (m : M S A) (Q1 Q2 : A -> S -> Prop) (E1 E2 : stop -> Prop) s :
  wp m Q1 E1 s -> wp m Q2 E2 s -> wp m (fun a s' => Q1 a s' /\ Q2 a s') E1 s.
Proof. unfold wp. destruct (m s); naive_solver. Qed.

Lemma wp_ok {A} (m : M S A) (Q : A -> S -> Prop) E s a s' :
  m s = Ok a s' -> Q a s' -> wp m Q E s.
Proof. unfold wp. by intros ->. Qed.

Lemma wp_ok_inv {A} (m : M S A) (Q : A -> S -> Prop) E s a s' :
  wp m Q E s -> m s = Ok a s' -> Q a s'.
Proof. unfold wp. intros H Hm. by rewrite Hm in H. Qed.

Lemma result_final {A} (m : M S A) s a : result m s = Some a -> m s = Ok a (final m s).
Proof. unfold result, final. destruct (m s); naive_solver. Qed.

Lemma wp_result {A} (m : M S A) (Q : A -> S -> Prop) E s a :
  wp m Q E s -> result m s = Some a -> Q a (final m s).
Proof. unfold wp, result, final. destruct (m s); naive_solver. Qed.

Lemma result_stop {A} (m : M S A) s a w : result m s = Some a -> m s = Stop w -> False.
Proof. unfold result. by destruct (m s). Qed.

Lemma wp_never_ok {A} (m : M S A) (Q : A -> S -> Prop) s :
  wp m Q never s -> exists a s', m s = Ok a s' /\ Q a s'.
Proof. unfold wp, never. destruct (m s); naive_solver. Qed.

Lemma wp_exact {A} (m : M S A) a s s' :
  wp m (fun b t => b = a /\ t = s') never s -> m s = Ok a s'.
Proof. unfold wp, never. destruct (m s); naive_solver. Qed.

Lemma wp_stops {A} (m : M S A) w s :
  wp m (fun _ _ => False) (fun w' => w' = w) s -> m s = Stop w.
Proof. unfold wp. destruct (m s); naive_solver. Qed.

(** Every run returns what it returns. *)
Lemma wp_self {A} (m : M S A) s :
  wp m (fun a s' => m s = Ok a s') (fun w => m s = Stop w) s.
Proof. unfold wp. by destruct (m s). Qed.

Lemma wp_gets {A} (f : S -> A) (Q : A -> S -> Prop) E s : Q (f s) s -> wp (gets f) Q E s.
Proof. done. Qed.

Lemma wp_modify (f : S -> S) (Q : unit -> S -> Prop) E s : Q tt (f s) -> wp (modify f) Q E s.
Proof. done. Qed.

Lemma wp_kassert (b : bool) (Q : unit -> S -> Prop) E s :
  b = true -> Q tt s -> wp (kassert b) Q E s.
Proof. by intros ->. Qed.

Lemma wp_need {A} (o : option A) a (Q : A -> S -> Prop) E s :
  o = Some a -> Q a s -> wp (need o) Q E s.
Proof. by intros ->. Qed.

(** The rule of a loop over a list: [I done s] is the invariant once the
    elements of [done] have been handled. *)
Lemma wp_foreach {A} (I : list A -> S -> Prop) (l done : list A) (body : A -> M S unit) E s :
  I done s ->
  (forall pre x post s0, done ++ l = pre ++ x :: post -> I pre s0 ->
     wp (body x) (fun _ s1 => I (pre ++ [x]) s1) E s0) ->
  wp (foreach l body) (fun _ s' => I (done ++ l) s') E s.
Proof.
  revert done s. induction l as [|x l IH]; intros dn s HI Hbody; simpl.
  - by rewrite app_nil_r.
  - apply wp_bind. eapply wp_mono; [by eapply Hbody|].
    intros [] s1 H1. rewrite cons_middle, app_assoc. apply IH; [done|].
    intros pre y post s0 Heq. apply Hbody with (post := post).
    by rewrite <- Heq, cons_middle, app_assoc.
Qed.

End wp_rules.

(** The results of [wp] may be weakened pointwise, so specifications can be
    rewritten under it. *)
#[global] Instance wp_proper {S A : Type} (m : M S A) :
  Proper (pointwise_relation A (pointwise_relation S impl) ==>
          pointwise_relation stop impl ==> eq ==> impl) (wp m).
Proof.
  intros Q Q' HQ E E' HE s s' -> H. unfold wp in *. destruct (m s'); [by apply HQ | by apply HE].
Qed.

(** One step of a symbolic execution: binds are sequenced, the primitives that
    need no side condition are run. *)
Ltac wp_step :=
  lazymatch goal with
  | |- wp (mbind _ _) _ _ _ => apply wp_bind
  | |- wp (mret _) _ _ _ => apply wp_ret
  | |- wp (gets _) _ _ _ => apply wp_gets
  | |- wp (modify _) _ _ _ => apply wp_modify
  | |- wp (need (Some _)) _ _ _ => eapply wp_need; [reflexivity|]
  end.
Ltac wp_steps := repeat (wp_step; cbv beta).

(** ** Loops over a range *)

Lemma seqZ_split n pre x post :
  seqZ 0 n = pre ++ x :: post -> 0 <= x < n /\ (x ∉ pre).
Proof.
  intros Heq. pose proof (NoDup_seqZ 0 n) as Hnd.
  assert (x ∈ seqZ 0 n) as Hin.
  { rewrite Heq. apply elem_of_app. right. constructor. }
  apply elem_of_seqZ in Hin. rewrite Heq in Hnd.
  apply NoDup_app in Hnd as (_ & Hnd & _).
  split; [lia|]. intros Hx. apply (Hnd _ Hx). constructor.
Qed.

Lemma exists_elem_snoc {A} (P : A -> Prop) l y :
  (exists i, i ∈ l ++ [y] /\ P i) <-> (exists i, i ∈ l /\ P i) \/ P y.
Proof.
  split.
  - intros (i & [Hi| ->%list_elem_of_singleton]%elem_of_app & HP); eauto.
  - intros [(i & Hi & HP)|HP].
    + exists i. split; [|done]. apply elem_of_app. by left.
    + exists y. split; [|done]. apply elem_of_app. right. constructor.
Qed.

Lemma exists_elem_seqZ (P : Z -> Prop) n :
  (exists i, i ∈ seqZ 0 n /\ P i) <-> exists i, 0 <= i < n /\ P i.
Proof. setoid_rewrite elem_of_seqZ. by rewrite Z.add_0_l. Qed.

(** ** Bits *)

(** The low [k] bits of a multiple of [2^k] are clear, so adding flags is
    setting them. *)
Lemma lor_add_low k a f :
  0 <= k -> a mod 2 ^ k = 0 -> 0 <= f < 2 ^ k -> Z.lor a f = a + f.
Proof.
  intros Hk Ha Hf.
  assert (Z.land a f = 0) as Hand.
  { apply Z.bits_inj'. intros i Hi. rewrite Z.land_spec, Z.bits_0.
    destruct (decide (i < k)) as [Hlt|Hge].
    - rewrite <- (Z.mod_pow2_bits_low a k i) by lia. by rewrite Ha, Z.bits_0.
    - rewrite <- (Z.mod_small f (2 ^ k)) by lia.
      rewrite (Z.mod_pow2_bits_high f k i) by lia. apply andb_false_r. }
  rewrite <- Z.lxor_lor by done. symmetry. by apply Z.add_nocarry_lxor.
Qed.

(** Masking with the complement of [m] clears the bits of [m]. *)
Lemma land_not64 x m : u64 x -> Z.land x (not64 m) = Z.ldiff x m.
Proof.
  intros Hx. unfold not64, wrap. rewrite <- Z.land_ones by lia.
  rewrite (Z.land_comm (Z.lnot m)), Z.land_assoc, Z.land_ones by lia.
  rewrite Z.mod_small by exact Hx. symmetry. apply Z.ldiff_land.
Qed.

Lemma ldiff_ones_mod x k : 0 <= k -> Z.ldiff x (Z.ones k) = x - x mod 2 ^ k.
Proof.
  intros Hk. rewrite Z.ldiff_ones_r, Z.shiftl_mul_pow2, Z.shiftr_div_pow2 by lia.
  pose proof (Z.div_mod x (2 ^ k)). lia.
Qed.

Lemma land_ones_mod x k : 0 <= k -> Z.land x (Z.ones k) = x mod 2 ^ k.
Proof. apply Z.land_ones. Qed.

(** Quotient and remainder are determined by the number. *)
Lemma add_mul_inj P a b a' b' :
  0 <= a < P -> 0 <= a' < P -> a + P * b = a' + P * b' -> a = a' /\ b = b'.
Proof.
  intros Ha Ha' H. assert (b = b') as -> by nia. split; [lia|done].
Qed.

Lemma wrap_range w x : 0 <= w -> 0 <= wrap w x < 2 ^ w.
Proof. intros Hw. apply Z.mod_pos_bound. lia. Qed.

Lemma wrap_small w x : 0 <= x < 2 ^ w -> wrap w x = x.
Proof. apply Z.mod_small. Qed.

Lemma sint_small w x : 0 < w -> - 2 ^ (w - 1) <= x < 2 ^ (w - 1) -> sint w x = x.
Proof.
  intros Hw Hx. unfold sint.
  assert (2 ^ w = 2 * 2 ^ (w - 1)) as Hp.
  { rewrite <- Z.pow_succ_r by lia. f_equal. lia. }
  destruct (decide (0 <= x)).
  - rewrite Z.mod_small by lia. destruct (Z.ltb_spec x (2 ^ (w - 1))); lia.
  - rewrite <- (Z_mod_plus_full x 1), Z.mod_small by lia.
    destruct (Z.ltb_spec (x + 1 * 2 ^ w) (2 ^ (w - 1))); lia.
Qed.

Lemma sint_range w x : 0 < w -> - 2 ^ (w - 1) <= sint w x < 2 ^ (w - 1).
Proof.
  intros Hw. unfold sint.
  assert (2 ^ w = 2 * 2 ^ (w - 1)) as Hp.
  { rewrite <- Z.pow_succ_r by lia. f_equal. lia. }
  pose proof (Z.mod_pos_bound x (2 ^ w)).
  destruct (Z.ltb_spec (x mod 2 ^ w) (2 ^ (w - 1))); lia.
Qed.
