(* ===== verification/Schedule.v ===== *)
(** * Schedules

    Calls that run at the same time, each cut into atomic steps: a list of
    threads and a list that says whose turn it is. The laws of such runs that do
    not depend on what the threads do. *)

From S2P Require Import Prelude.

(** ** Sums over the threads *)
Section total.
Context {T : Type} (f : T -> nat).
Implicit Types (ts : list T).

Fixpoint total ts : nat := match ts with [] => O | t :: ts => (f t + total ts)%nat end.

Lemma total_app l1 l2 : total (l1 ++ l2) = (total l1 + total l2)%nat.
Proof. induction l1 as [|t l1 IH]; simpl; [done|]. rewrite IH. lia. Qed.

Lemma total_split ts i t :
  ts !! i = Some t -> exists n, total ts = (f t + n)%nat /\ forall t', total (<[i := t']> ts) = (f t' + n)%nat.
Proof.
  intros Hi. exists (total (take i ts) + total (drop (S i) ts))%nat.
  apply lookup_lt_Some in Hi as Hlt. split.
  - rewrite <- (take_drop_middle ts i t) at 1 by done. rewrite total_app. simpl. lia.
  - intros t'. rewrite insert_take_drop by done. rewrite total_app. simpl. lia.
Qed.

Lemma total_insert ts i t t' :
  ts !! i = Some t -> (total (<[i := t']> ts) + f t = total ts + f t')%nat.
Proof. intros (n & H1 & H2)%total_split. rewrite H2. lia. Qed.

Lemma total_le ts i t : ts !! i = Some t -> (f t <= total ts)%nat.
Proof. intros (n & H1 & _)%total_split. lia. Qed.

Lemma total_le_two ts i j t u :
  ts !! i = Some t -> ts !! j = Some u -> i <> j -> (f t + f u <= total ts)%nat.
Proof.
  revert i j. induction ts as [|x ts IH]; intros [|i] [|j]; simpl; try done.
  - intros [= ->] Hj%total_le _. lia.
  - intros Hi%total_le [= ->] _. lia.
  - intros Hi Hj Hne. assert (i <> j) as Hne' by congruence.
    pose proof (IH i j Hi Hj Hne') as H. lia.
Qed.

Lemma total_pos ts : (0 < total ts)%nat -> exists i t, ts !! i = Some t /\ (0 < f t)%nat.
Proof.
  induction ts as [|t ts IH]; simpl; [lia|]. intros H.
  destruct (f t) as [|k] eqn:Ht; [|exists 0%nat, t; split; [done|lia]].
  destruct IH as (i & u & Hi & Hu); [exact H|]. by exists (S i), u.
Qed.

Lemma total_zero ts i t : total ts = 0%nat -> ts !! i = Some t -> f t = 0%nat.
Proof. intros H Hi%total_le. lia. Qed.

Lemma total_length ts : (forall t, f t <= 1)%nat -> (total ts <= length ts)%nat.
Proof. intros Hf. induction ts as [|t ts IH]; simpl; [lia|]. pose proof (Hf t). lia. Qed.

Lemma total_replicate n t : total (replicate n t) = (n * f t)%nat.
Proof. induction n as [|n IH]; [done|]. simpl. by rewrite IH. Qed.

End total.

Section schedule.
Context {X T : Type} (step : T -> M X T).
Implicit Types (s : X) (t : T) (ts : list T).

(** A turn of nobody is none. *)
Definition turn (i : nat) ts : M X (list T) :=
  match ts !! i with
  | Some t => t ← step t; mret (<[i := t]> ts)
  | None => mret ts
  end.

Fixpoint interleave (sched : list nat) ts : M X (list T) :=
  match sched with
  | [] => mret ts
  | i :: sched => ts ← turn i ts; interleave sched ts
  end.

(** A thread that nobody disturbs, for [n] steps. *)
Fixpoint steps (n : nat) t : M X T :=
  match n with
  | O => mret t
  | S n => t ← step t; steps n t
  end.

(** [n] threads one after the other, each for [k] steps. *)
Definition in_turn (k n : nat) : list nat := seq 0 n ≫= replicate k.

(** How often it is the turn of [i]. *)
Definition turns (i : nat) (sched : list nat) : nat := length (filter (eq i) sched).

(** ** Running alone *)

Lemma steps_add n k t s : steps (n + k) t s = (steps n t ≫= steps k) s.
Proof.
  revert t s. induction n as [|n IH]; intros t s; [done|]. cbn [steps Nat.add].
  unfold mbind, M_bind. destruct (step t s) as [t' s'|]; [|done]. apply IH.
Qed.

Lemma steps_end n t s : (forall s, step t s = Ok t s) -> steps n t s = Ok t s.
Proof.
  intros Ht. induction n as [|n IH]; [done|]. cbn [steps]. unfold mbind, M_bind. by rewrite Ht.
Qed.

Lemma interleave_app l1 l2 ts s :
  interleave (l1 ++ l2) ts s = (interleave l1 ts ≫= interleave l2) s.
Proof.
  revert ts s. induction l1 as [|i l1 IH]; intros ts s; [done|]. cbn [app interleave].
  unfold mbind, M_bind. by destruct (turn i ts s) as [ts' s'|]; [apply IH|].
Qed.

(** A thread whose turn it is [n] times runs [n] steps. *)
Lemma interleave_alone i n ts t s :
  ts !! i = Some t ->
  interleave (replicate n i) ts s = (t ← steps n t; mret (<[i := t]> ts)) s.
Proof.
  revert ts t s. induction n as [|n IH]; intros ts t s Hi.
  - transitivity (Ok (S := X) ts s); [done|]. rewrite <- (list_insert_id ts i t) at 1 by done. done.
  - cbn [replicate interleave steps]. unfold turn. rewrite Hi. unfold mbind, M_bind.
    destruct (step t s) as [t' s'|]; [|done]. unfold mret at 1, M_ret at 1.
    rewrite (IH _ t') by (apply list_lookup_insert_eq; by eapply lookup_lt_Some).
    unfold mbind, M_bind. destruct (steps n t' s') as [t2 s2|]; [|done].
    unfold mret, M_ret. by rewrite list_insert_insert_eq.
Qed.

(** *** In turn *)
Section sequence.
Context {A B : Type} (call : A -> M X B) (start : A -> T) (answer : A -> B -> T) (k : nat).

(** The calls in sequence. *)
Fixpoint calls (l : list A) : M X (list T) :=
  match l with
  | [] => mret []
  | a :: l => r ← call a; ts ← calls l; mret (answer a r :: ts)
  end.

(** A thread alone is the call, but where the call stops for a reason of [Ex]. *)
Context (Ex : stop -> Prop).
#[local] Abbreviation apart m s := (forall w, m s = Stop w -> ~ Ex w).
Hypothesis alone : forall a s, apart (call a) s ->
  steps k (start a) s = (r ← call a; mret (answer a r)) s.

Lemma interleave_from done l s :
  apart (calls l) s ->
  interleave (seq (length done) (length l) ≫= replicate k) (done ++ (start <$> l)) s =
  (ts ← calls l; mret (done ++ ts)) s.
Proof using alone.
  revert done s. induction l as [|a l IH]; intros dn s Hap; [done|]. cbn [calls] in Hap.
  cbn [length seq mbind list_bind]. rewrite interleave_app. cbn [fmap list_fmap].
  unfold mbind at 1, M_bind at 1.
  rewrite (interleave_alone _ _ _ (start a)) by by apply list_lookup_middle.
  unfold mbind at 1, M_bind at 1. rewrite alone.
  2:{ intros w Hw. apply Hap. unfold mbind, M_bind. by rewrite Hw. }
  cbn [calls]. unfold mbind, M_bind in *.
  destruct (call a s) as [r s1|]; [|done].
  unfold mret at 1 2, M_ret at 1 2. rewrite insert_app_r_alt, Nat.sub_diag by lia.
  cbn [insert list_insert].
  specialize (IH (dn ++ [answer a r]) s1).
  rewrite length_app, <- app_assoc in IH. cbn [length app] in IH. rewrite Nat.add_1_r in IH.
  unfold mbind, M_bind in IH. rewrite IH; [|intros w Hw; apply Hap; by rewrite Hw].
  destruct (calls l s1) as [ts s2|]; [|done]. unfold mret, M_ret. by rewrite <- app_assoc.
Qed.

Lemma interleave_in_turn l s :
  apart (calls l) s ->
  interleave (in_turn k (length l)) (start <$> l) s = calls l s.
Proof using alone.
  intros Hap. unfold in_turn. rewrite (interleave_from [] l) by done. unfold mbind, M_bind. by destruct (calls l s).
Qed.

End sequence.

(** ** Invariants *)

Lemma wp_interleave (I : list T -> X -> Prop) E sched ts s :
  (forall i t ts s, I ts s -> ts !! i = Some t ->
     wp (step t) (fun t' s' => I (<[i := t']> ts) s') E s) ->
  I ts s -> wp (interleave sched ts) I E s.
Proof.
  intros Hstep. revert ts s. induction sched as [|i sched IH]; intros ts s Hinv; cbn [interleave].
  { by apply wp_ret. }
  apply wp_bind. eapply wp_mono; [|intros ts' s'; apply IH]. unfold turn.
  destruct (ts !! i) as [t|] eqn:Hi; [|by apply wp_ret].
  apply wp_bind. eapply wp_mono; [by eapply Hstep|]. intros t' s' H. by apply wp_ret.
Qed.

Lemma wp_interleave_app l1 l2 ts (Q : list T -> X -> Prop) E s :
  wp (interleave l1 ts) (fun ts' s' => wp (interleave l2 ts') Q E s') E s ->
  wp (interleave (l1 ++ l2) ts) Q E s.
Proof. intros H. unfold wp at 1. rewrite interleave_app. by apply wp_bind in H. Qed.

Lemma wp_steps_add n k t (Q : T -> X -> Prop) E s :
  wp (steps n t) (fun t' s' => wp (steps k t') Q E s') E s -> wp (steps (n + k) t) Q E s.
Proof. intros H. unfold wp. rewrite steps_add. exact (wp_bind _ (steps k) Q E s H). Qed.

(** ** Progress *)

(** Each turn of a thread brings it one step nearer to its end, and the others'
    turns leave it where it is. *)
Lemma interleave_left (left : T -> nat) (P : T -> Prop) sched ts s ts' s' i t :
  (forall t s t' s', P t -> step t s = Ok t' s' -> P t' /\ (left t' <= pred (left t))%nat) ->
  interleave sched ts s = Ok ts' s' -> ts !! i = Some t -> P t ->
  exists t', ts' !! i = Some t' /\ P t' /\ (left t' <= left t - turns i sched)%nat.
Proof.
  intros Hleft. revert ts s t. induction sched as [|j sched IH]; intros ts s t Hrun Hi HP.
  - injection Hrun as <- _. exists t. unfold turns. simpl. split_and!; [done..|lia].
  - apply bind_ok in Hrun as (ts1 & s1 & Hturn & Hrun). unfold turn in Hturn.
    unfold turns. rewrite filter_cons. destruct (decide (i = j)) as [<-|Hne].
    + rewrite Hi in Hturn. apply bind_ok in Hturn as (t1 & s2 & Ht1 & [= <- <-]).
      destruct (Hleft _ _ _ _ HP Ht1) as [HP1 Hle1].
      destruct (IH _ _ t1 Hrun) as (t' & Ht' & HP' & Hle); [|done|].
      { apply list_lookup_insert_eq. by eapply lookup_lt_Some. }
      exists t'. unfold turns in Hle. simpl. split_and!; [done..|lia].
    + apply (IH ts1 s1); [done| |done]. destruct (ts !! j) as [u|].
      * apply bind_ok in Hturn as (t1 & s2 & _ & [= <- <-]). by rewrite list_lookup_insert_ne.
      * by injection Hturn as <- _.
Qed.

(** *** No deadlock

    Threads that wait for one another: a turn either brings a thread nearer to its
    end or finds it idle and changes nothing; some thread is not idle as long as
    one has not reached its end. Then a run in which each has its turn again and
    again ends. *)
Section fair.
Context (I : list T -> X -> Prop) (E : stop -> Prop) (left : T -> nat) (idle : list T -> T -> Prop).

Hypothesis step_ok : forall i t ts s, I ts s -> ts !! i = Some t ->
  wp (step t) (fun t' s' => I (<[i := t']> ts) s' /\
    ((left t' < left t)%nat \/ t' = t /\ s' = s /\ idle ts t)) E s.
Hypothesis no_deadlock : forall ts s, I ts s -> (0 < total left ts)%nat ->
  exists i t, ts !! i = Some t /\ ~ idle ts t.

(** Either nothing has changed or a thread is nearer to its end. *)
Definition moved ts s ts' s' : Prop :=
  I ts' s' /\ length ts' = length ts /\
  ((total left ts' < total left ts)%nat \/ ts' = ts /\ s' = s).

Lemma wp_turn_moved i ts s :
  I ts s -> wp (turn i ts) (fun ts' s' => moved ts s ts' s' /\
    (forall t, ts !! i = Some t -> ~ idle ts t -> (total left ts' < total left ts)%nat)) E s.
Proof using step_ok.
  intros HI. unfold turn. destruct (ts !! i) as [t|] eqn:Hi.
  2:{ apply wp_ret. split; [|done]. split; [done|]. split; [done|]. by right. }
  apply wp_bind. eapply wp_mono; [by eapply step_ok|]. intros t' s' [HI' Ht]. apply wp_ret.
  pose proof (total_insert left _ _ _ t' Hi) as Hsum. destruct Ht as [Hlt|(-> & -> & Hidle)].
  - assert (total left (<[i:=t']> ts) < total left ts)%nat by lia.
    split; [|done]. split; [done|]. split; [apply length_insert|]. by left.
  - rewrite list_insert_id in * by done. split; [|naive_solver].
    split; [done|]. split; [done|]. by right.
Qed.

Lemma wp_moved r ts s : I ts s -> wp (interleave r ts) (moved ts s) E s.
Proof using step_ok.
  intros HI. apply (wp_interleave (moved ts s)); [|split; [done|]; split; [done|]; by right].
  intros i t ts1 s1 (HI1 & Hlen & Hm) Hi. eapply wp_mono; [by eapply step_ok|].
  intros t' s' [HI' Ht]. split; [done|]. split; [by rewrite length_insert|].
  pose proof (total_insert left _ _ _ t' Hi) as Hsum. destruct Ht as [Hlt|(-> & -> & _)].
  - left. destruct Hm as [Hm|[-> ->]]; lia.
  - by rewrite list_insert_id.
Qed.

(** A round in which each thread has its turn. *)
Lemma wp_round r ts s :
  I ts s -> (forall i, (i < length ts)%nat -> i ∈ r) ->
  wp (interleave r ts) (fun ts' s' => I ts' s' /\ length ts' = length ts /\
    (total left ts' <= pred (total left ts))%nat) E s.
Proof using step_ok no_deadlock.
  intros HI Hr. destruct (total left ts) as [|k] eqn:Hk.
  { eapply wp_mono; [by apply wp_moved|]. intros ts' s' (? & ? & [H|[-> ->]]); split_and!; try done; lia. }
  destruct (no_deadlock ts s HI) as (p & t & Hp & Hidle); [lia|].
  apply lookup_lt_Some in Hp as Hlt. destruct (list_elem_of_split _ _ (Hr p Hlt)) as (r1 & r2 & ->).
  apply wp_interleave_app. eapply wp_mono; [by apply wp_moved|].
  intros ts1 s1 (HI1 & Hl1 & Hm1). cbn [interleave]. apply wp_bind.
  eapply wp_mono; [by apply wp_turn_moved|]. intros ts2 s2 ((HI2 & Hl2 & Hm2) & Hp2).
  eapply wp_mono; [by apply wp_moved|]. intros ts3 s3 (HI3 & Hl3 & Hm3).
  split; [done|]. split; [congruence|].
  assert (total left ts2 < S k)%nat as H2.
  { destruct Hm1 as [Hm1|[-> ->]].
    - destruct Hm2 as [Hm2|[-> ->]]; lia.
    - specialize (Hp2 _ Hp Hidle). lia. }
  destruct Hm3 as [Hm3|[-> ->]]; lia.
Qed.

Lemma wp_fair rs ts s :
  I ts s -> (total left ts <= length rs)%nat ->
  Forall (fun r => forall i, (i < length ts)%nat -> i ∈ r) rs ->
  wp (interleave (concat rs) ts) (fun ts' s' => I ts' s' /\ total left ts' = 0%nat) E s.
Proof using step_ok no_deadlock.
  revert ts s. induction rs as [|r rs IH]; intros ts s HI Hlen Hrs.
  { apply wp_ret. split; [done|]. simpl in Hlen. lia. }
  apply Forall_cons in Hrs as [Hr Hrs]. cbn [concat]. apply wp_interleave_app.
  eapply wp_mono; [by apply wp_round|]. intros ts1 s1 (HI1 & Hl1 & Hle).
  apply IH; [done|simpl in Hlen; lia|]. by rewrite Hl1.
Qed.

End fair.

End schedule.
