(* ===== verification/Structs.v ===== *)
(** * The declarations of include/

    The constants, the enumerations, the C structures and the memory layout of
    the packed ones, as include/yakvm.h, include/vm.h, include/memory.h,
    include/cpu.h and include/vcpu_run.h declare them. A structure [struct s] is
    the record [s.t] of a module [s], its fields under the source's names; a
    kernel pointer is the [Z] of its address. *)

From S2P Require Import Prelude.

Local Open Scope string_scope.
Local Open Scope Z_scope.

(** ** Build configuration

    The values the Makefile passes with -D. *)
Class Config : Type := {
  YAKVM_MEMORY : Z;
  YAKVM_ENTRY : Z;
  YAKVM_STACK : Z;
  YAKVM_PIO_HAWK : Z;
  YAKVM_MMIO_HAWK : Z
}.

(** What the sources need of them: a port is 16 bits wide and an address 64,
    and the emulator asserts that entry and stack are page aligned. *)
Class ConfigOk (C : Config) : Prop := {
  pio_hawk_port : 0 <= YAKVM_PIO_HAWK < 2 ^ 16;
  mmio_hawk_u64 : u64 YAKVM_MMIO_HAWK;
  entry_page : YAKVM_ENTRY mod 4096 = 0;
  stack_page : YAKVM_STACK mod 4096 = 0
}.

Definition makefile_config : Config := {|
  YAKVM_MEMORY := 1 * 1024 * 1024;
  YAKVM_ENTRY := 1 * 4096;
  YAKVM_STACK := 2 * 4096;
  YAKVM_PIO_HAWK := 0;
  YAKVM_MMIO_HAWK := 0
|}.

#[global] Instance makefile_config_ok : ConfigOk makefile_config.
Proof. by repeat split. Qed.

(** ** Error numbers of the kernel's ABI *)
Definition EINTR : Z := 4.
Definition E2BIG : Z := 7.
Definition ENOMEM : Z := 12.
Definition EFAULT : Z := 14.
Definition EBUSY : Z := 16.
Definition EEXIST : Z := 17.
Definition EINVAL : Z := 22.
Definition EOPNOTSUPP : Z := 95.

(** A pointer that may hold an error: [inl e] is [ERR_PTR(e)]. *)
Definition err_ptr : Type := (Z + Z)%type.

Definition IS_ERR (p : err_ptr) : bool := if p is inl _ then true else false.

(** [PTR_ERR] stored in an [int]: on a pointer that holds no error it is the
    low half of the address. *)
Definition PTR_ERR (p : err_ptr) : Z :=
  match p with inl e => e | inr a => sint 32 a end.

(** ** Pages and page-table entries *)
Definition PAGE_SHIFT : Z := 12.
Definition PAGE_SIZE : Z := 4096.
Definition KiB (n : Z) : Z := n * 1024.
Definition PTRS_PER_PAGE : Z := PAGE_SIZE / 8.
Definition PAGE_MASK : Z := not64 (PAGE_SIZE - 1).
Definition PHYS_ADDR_MASK : Z := Z.shiftl 1 52 - 1.
Definition _PAGE_PRESENT : Z := 1.
Definition _PAGE_RW : Z := 2.
Definition _PAGE_USER : Z := 4.

Definition PT : Z := 1.
Definition P_SHIFT : Z := 12.
Definition PDT : Z := 2.
Definition PD_SHIFT : Z := 21.
Definition PDPT : Z := 3.
Definition PDP_SHIFT : Z := 30.
Definition PML4T : Z := 4.
Definition PML4_SHIFT : Z := 39.

(** ** The ioctls

    [_IO(type, nr)] puts the type in the second byte. *)
Definition _IO (type nr : Z) : Z := Z.lor (Z.shiftl type 8) nr.
Definition YAKVMIO : Z := 0x29.
Definition YAKVM_CREATE_VM : Z := _IO YAKVMIO 0x00.
Definition YAKVM_CREATE_VCPU : Z := _IO YAKVMIO 0x10.
Definition YAKVM_MMAP_PAGE : Z := _IO YAKVMIO 0x11.
Definition YAKVM_RUN : Z := _IO YAKVMIO 0x20.
Definition YAKVM_GET_REGS : Z := _IO YAKVMIO 0x21.
Definition YAKVM_SET_REGS : Z := _IO YAKVMIO 0x22.

(** ** Enumerations

    An enumerator without a value is one more than the one before it. *)
Fixpoint enum_from (next : Z) (l : list (string * option Z)) : list (string * Z) :=
  match l with
  | [] => []
  | (n, v) :: l => let x := default next v in (n, x) :: enum_from (x + 1) l
  end.

Fixpoint assoc (n : string) (l : list (string * Z)) : option Z :=
  match l with
  | [] => None
  | (m, x) :: l => if String.eqb n m then Some x else assoc n l
  end.

(** The value of an enumerator or macro; 0 for a name that is not there. *)
Definition value_of (l : list (string * Z)) (n : string) : Z := default 0 (assoc n l).

(** The enumeration of the intercept bits. *)
Definition intercept_enum : list (string * option Z) :=
  [("INTERCEPT_CR0_READ", Some 0); ("INTERCEPT_CR3_READ", Some 3);
   ("INTERCEPT_CR4_READ", Some 4); ("INTERCEPT_CR8_READ", Some 8);
   ("INTERCEPT_CR0_WRITE", Some 16); ("INTERCEPT_CR3_WRITE", Some (16 + 3));
   ("INTERCEPT_CR4_WRITE", Some (16 + 4)); ("INTERCEPT_CR8_WRITE", Some (16 + 8));
   ("INTERCEPT_DR0_READ", Some 32); ("INTERCEPT_DR1_READ", None);
   ("INTERCEPT_DR2_READ", None); ("INTERCEPT_DR3_READ", None);
   ("INTERCEPT_DR4_READ", None); ("INTERCEPT_DR5_READ", None);
   ("INTERCEPT_DR6_READ", None); ("INTERCEPT_DR7_READ", None);
   ("INTERCEPT_DR0_WRITE", Some 48); ("INTERCEPT_DR1_WRITE", None);
   ("INTERCEPT_DR2_WRITE", None); ("INTERCEPT_DR3_WRITE", None);
   ("INTERCEPT_DR4_WRITE", None); ("INTERCEPT_DR5_WRITE", None);
   ("INTERCEPT_DR6_WRITE", None); ("INTERCEPT_DR7_WRITE", None);
   ("INTERCEPT_EXCEPTION_OFFSET", Some 64); ("INTERCEPT_INTR", Some 96);
   ("INTERCEPT_NMI", None); ("INTERCEPT_SMI", None); ("INTERCEPT_INIT", None);
   ("INTERCEPT_VINTR", None); ("INTERCEPT_SELECTIVE_CR0", None);
   ("INTERCEPT_STORE_IDTR", None); ("INTERCEPT_STORE_GDTR", None);
   ("INTERCEPT_STORE_LDTR", None); ("INTERCEPT_STORE_TR", None);
   ("INTERCEPT_LOAD_IDTR", None); ("INTERCEPT_LOAD_GDTR", None);
   ("INTERCEPT_LOAD_LDTR", None); ("INTERCEPT_LOAD_TR", None);
   ("INTERCEPT_RDTSC", None); ("INTERCEPT_RDPMC", None); ("INTERCEPT_PUSHF", None);
   ("INTERCEPT_POPF", None); ("INTERCEPT_CPUID", None); ("INTERCEPT_RSM", None);
   ("INTERCEPT_IRET", None); ("INTERCEPT_INTn", None); ("INTERCEPT_INVD", None);
   ("INTERCEPT_PAUSE", None); ("INTERCEPT_HLT", None); ("INTERCEPT_INVLPG", None);
   ("INTERCEPT_INVLPGA", None); ("INTERCEPT_IOIO_PROT", None);
   ("INTERCEPT_MSR_PROT", None); ("INTERCEPT_TASK_SWITCH", None);
   ("INTERCEPT_FERR_FREEZE", None); ("INTERCEPT_SHUTDOWN", None);
   ("INTERCEPT_VMRUN", Some 128); ("INTERCEPT_VMMCALL", None);
   ("INTERCEPT_VMLOAD", None); ("INTERCEPT_VMSAVE", None); ("INTERCEPT_STGI", None);
   ("INTERCEPT_CLGI", None); ("INTERCEPT_SKINIT", None); ("INTERCEPT_RDTSCP", None);
   ("INTERCEPT_ICEBP", None); ("INTERCEPT_WBINVD", None); ("INTERCEPT_MONITOR", None);
   ("INTERCEPT_MWAIT", None); ("INTERCEPT_MWAIT_COND", None);
   ("INTERCEPT_XSETBV", None); ("INTERCEPT_RDPRU", None); ("TRAP_EFER_WRITE", None);
   ("TRAP_CR0_WRITE", None); ("TRAP_CR1_WRITE", None); ("TRAP_CR2_WRITE", None);
   ("TRAP_CR3_WRITE", None); ("TRAP_CR4_WRITE", None); ("TRAP_CR5_WRITE", None);
   ("TRAP_CR6_WRITE", None); ("TRAP_CR7_WRITE", None); ("TRAP_CR8_WRITE", None);
   ("INTERCEPT_INVLPGB", Some 160); ("INTERCEPT_INVLPGB_ILLEGAL", None);
   ("INTERCEPT_INVPCID", None); ("INTERCEPT_MCOMMIT", None);
   ("INTERCEPT_TLBSYNC", None)].

Definition intercept_bits : list (string * Z) := enum_from 0 intercept_enum.

Definition intercept_words : list (string * Z) :=
  enum_from 0
    [("INTERCEPT_CR", Some 0); ("INTERCEPT_DR", None); ("INTERCEPT_EXCEPTION", None);
     ("INTERCEPT_WORD3", None); ("INTERCEPT_WORD4", None); ("INTERCEPT_WORD5", None);
     ("MAX_INTERCEPT", None)].

Definition MAX_INTERCEPT : Z := value_of intercept_words "MAX_INTERCEPT".
Definition INTERCEPT_EXCEPTION_OFFSET : Z :=
  value_of intercept_bits "INTERCEPT_EXCEPTION_OFFSET".
Definition INTERCEPT_HLT : Z := value_of intercept_bits "INTERCEPT_HLT".
Definition INTERCEPT_IOIO_PROT : Z := value_of intercept_bits "INTERCEPT_IOIO_PROT".
Definition INTERCEPT_VMRUN : Z := value_of intercept_bits "INTERCEPT_VMRUN".

(** The exit codes. *)
Definition svm_exit_codes : list (string * Z) :=
  [("SVM_EXIT_READ_CR0", 0x0); ("SVM_EXIT_READ_CR2", 0x2); ("SVM_EXIT_READ_CR3", 0x3);
   ("SVM_EXIT_READ_CR4", 0x4); ("SVM_EXIT_READ_CR8", 0x8);
   ("SVM_EXIT_WRITE_CR0", 0x10); ("SVM_EXIT_WRITE_CR2", 0x12);
   ("SVM_EXIT_WRITE_CR3", 0x13); ("SVM_EXIT_WRITE_CR4", 0x14);
   ("SVM_EXIT_WRITE_CR8", 0x18); ("SVM_EXIT_READ_DR0", 0x20);
   ("SVM_EXIT_READ_DR1", 0x21); ("SVM_EXIT_READ_DR2", 0x22);
   ("SVM_EXIT_READ_DR3", 0x23); ("SVM_EXIT_READ_DR4", 0x24);
   ("SVM_EXIT_READ_DR5", 0x25); ("SVM_EXIT_READ_DR6", 0x26);
   ("SVM_EXIT_READ_DR7", 0x27); ("SVM_EXIT_WRITE_DR0", 0x30);
   ("SVM_EXIT_WRITE_DR1", 0x31); ("SVM_EXIT_WRITE_DR2", 0x32);
   ("SVM_EXIT_WRITE_DR3", 0x33); ("SVM_EXIT_WRITE_DR4", 0x34);
   ("SVM_EXIT_WRITE_DR5", 0x35); ("SVM_EXIT_WRITE_DR6", 0x36);
   ("SVM_EXIT_WRITE_DR7", 0x37); ("SVM_EXIT_EXCP_BASE", 0x40);
   ("SVM_EXIT_LAST_EXCP", 0x5f); ("SVM_EXIT_INTR", 0x60); ("SVM_EXIT_NMI", 0x61);
   ("SVM_EXIT_SMI", 0x62); ("SVM_EXIT_INIT", 0x63); ("SVM_EXIT_VINTR", 0x64);
   ("SVM_EXIT_CR0_SEL_WRITE", 0x65); ("SVM_EXIT_IDTR_READ", 0x66);
   ("SVM_EXIT_GDTR_READ", 0x67); ("SVM_EXIT_LDTR_READ", 0x68);
   ("SVM_EXIT_TR_READ", 0x69); ("SVM_EXIT_IDTR_WRITE", 0x6a);
   ("SVM_EXIT_GDTR_WRITE", 0x6b); ("SVM_EXIT_LDTR_WRITE", 0x6c);
   ("SVM_EXIT_TR_WRITE", 0x6d); ("SVM_EXIT_RDTSC", 0x6e); ("SVM_EXIT_RDPMC", 0x6f);
   ("SVM_EXIT_PUSHF", 0x70); ("SVM_EXIT_POPF", 0x71); ("SVM_EXIT_CPUID", 0x72);
   ("SVM_EXIT_RSM", 0x73); ("SVM_EXIT_IRET", 0x74); ("SVM_EXIT_SWINT", 0x75);
   ("SVM_EXIT_INVD", 0x76); ("SVM_EXIT_PAUSE", 0x77); ("SVM_EXIT_HLT", 0x78);
   ("SVM_EXIT_INVLPG", 0x79); ("SVM_EXIT_INVLPGA", 0x7a); ("SVM_EXIT_IOIO", 0x7b);
   ("SVM_EXIT_MSR", 0x7c); ("SVM_EXIT_TASK_SWITCH", 0x7d);
   ("SVM_EXIT_FERR_FREEZE", 0x7e); ("SVM_EXIT_SHUTDOWN", 0x7f);
   ("SVM_EXIT_VMRUN", 0x80); ("SVM_EXIT_VMMCALL", 0x81); ("SVM_EXIT_VMLOAD", 0x82);
   ("SVM_EXIT_VMSAVE", 0x83); ("SVM_EXIT_STGI", 0x84); ("SVM_EXIT_CLGI", 0x85);
   ("SVM_EXIT_SKINIT", 0x86); ("SVM_EXIT_RDTSCP", 0x87); ("SVM_EXIT_ICEBP", 0x88);
   ("SVM_EXIT_WBINVD", 0x89); ("SVM_EXIT_MONITOR", 0x8a); ("SVM_EXIT_MWAIT", 0x8b);
   ("SVM_EXIT_MWAIT_COND", 0x8c); ("SVM_EXIT_XSETBV", 0x8d); ("SVM_EXIT_RDPRU", 0x8e);
   ("SVM_EXIT_EFER_WRITE_TRAP", 0x8f); ("SVM_EXIT_CR0_WRITE_TRAP", 0x90);
   ("SVM_EXIT_CR1_WRITE_TRAP", 0x91); ("SVM_EXIT_CR2_WRITE_TRAP", 0x92);
   ("SVM_EXIT_CR3_WRITE_TRAP", 0x93); ("SVM_EXIT_CR4_WRITE_TRAP", 0x94);
   ("SVM_EXIT_CR5_WRITE_TRAP", 0x95); ("SVM_EXIT_CR6_WRITE_TRAP", 0x96);
   ("SVM_EXIT_CR7_WRITE_TRAP", 0x97); ("SVM_EXIT_CR8_WRITE_TRAP", 0x98);
   ("SVM_EXIT_CR9_WRITE_TRAP", 0x99); ("SVM_EXIT_CR10_WRITE_TRAP", 0x9a);
   ("SVM_EXIT_CR11_WRITE_TRAP", 0x9b); ("SVM_EXIT_CR12_WRITE_TRAP", 0x9c);
   ("SVM_EXIT_CR13_WRITE_TRAP", 0x9d); ("SVM_EXIT_CR14_WRITE_TRAP", 0x9e);
   ("SVM_EXIT_CR15_WRITE_TRAP", 0x9f); ("SVM_EXIT_INVPCID", 0xa2);
   ("SVM_EXIT_NPF", 0x400); ("SVM_EXIT_AVIC_INCOMPLETE_IPI", 0x401);
   ("SVM_EXIT_AVIC_UNACCELERATED_ACCESS", 0x402); ("SVM_EXIT_VMGEXIT", 0x403);
   ("SVM_EXIT_INVALID", -1)].

Definition DB_VECTOR : Z := 1.
Definition SVM_EXIT_EXCP_BASE : Z := value_of svm_exit_codes "SVM_EXIT_EXCP_BASE".
Definition SVM_EXIT_HLT : Z := value_of svm_exit_codes "SVM_EXIT_HLT".
Definition SVM_EXIT_IOIO : Z := value_of svm_exit_codes "SVM_EXIT_IOIO".
Definition SVM_EXIT_NPF : Z := value_of svm_exit_codes "SVM_EXIT_NPF".

(** ** Bits of the control registers and of the segment attributes *)
Definition SVM_NESTED_CTL_NP_ENABLE : Z := Z.shiftl 1 0.
Definition SVM_SELECTOR_S_MASK : Z := Z.shiftl 1 4.
Definition SVM_SELECTOR_P_MASK : Z := Z.shiftl 1 7.
Definition SVM_SELECTOR_WRITE_MASK : Z := Z.shiftl 1 1.
Definition SVM_SELECTOR_READ_MASK : Z := SVM_SELECTOR_WRITE_MASK.
Definition SVM_SELECTOR_CODE_MASK : Z := Z.shiftl 1 3.
Definition SEG_TYPE_LDT : Z := 2.
Definition SEG_TYPE_BUSY_TSS16 : Z := 3.
Definition DR6_ACTIVE_LOW : Z := 0xffff0ff0.
Definition DR7_FIXED_1 : Z := 0x00000400.
Definition X86_CR0_ET : Z := Z.shiftl 1 4.
Definition X86_CR0_NW : Z := Z.shiftl 1 29.
Definition X86_CR0_CD : Z := Z.shiftl 1 30.
Definition X86_EFLAGS_FIXED : Z := Z.shiftl 1 1.
Definition X86_EFLAGS_TF : Z := Z.shiftl 1 8.
Definition EFER_SVME : Z := Z.shiftl 1 12.

(** ** Structures *)

(** [struct state] of include/cpu.h: what a run shares with userspace. *)
Module state.
Record t : Type := mk {
  exit_code : Z;
  exit_info_1 : Z;
  exit_info_2 : Z;
  cs : Z;
  rip : Z
}.
#[global] Instance eta_t : Eta t := fun r => mk (exit_code r) (exit_info_1 r)
  (exit_info_2 r) (cs r) (rip r).
Definition zero : t := mk 0 0 0 0 0.
End state.

(** [struct registers] of include/cpu.h: the buffer of YAKVM_GET_REGS and
    YAKVM_SET_REGS; [cs] and [ss] are 16 bits wide, the others 64. *)
Module registers.
Record t : Type := mk {
  rax : Z;
  rbx : Z;
  rcx : Z;
  rdx : Z;
  rdi : Z;
  rsi : Z;
  rbp : Z;
  rsp : Z;
  r8 : Z;
  r9 : Z;
  r10 : Z;
  r11 : Z;
  r12 : Z;
  r13 : Z;
  r14 : Z;
  r15 : Z;
  rip : Z;
  cs : Z;
  ss : Z
}.
#[global] Instance eta_t : Eta t := fun r => mk (rax r) (rbx r) (rcx r) (rdx r) (rdi r)
  (rsi r) (rbp r) (rsp r) (r8 r) (r9 r) (r10 r) (r11 r) (r12 r) (r13 r) (r14 r) (r15 r)
  (rip r) (cs r) (ss r).
Definition zero : t := mk 0 0 0 0 0 0 0 0 0 0 0 0 0 0 0 0 0 0 0.
End registers.

(** [struct vmcb_seg] of include/cpu.h. *)
Module vmcb_seg.
Record t : Type := mk {
  selector : Z;
  attrib : Z;
  limit : Z;
  base : Z
}.
#[global] Instance eta_t : Eta t := fun r => mk (selector r) (attrib r) (limit r) (base
  r).
Definition zero : t := mk 0 0 0 0.
End vmcb_seg.

(** [struct vmcb_control_area] of include/cpu.h, without its reserved bytes. *)
Module control.
Record t : Type := mk {
  intercepts : list Z;
  pause_filter_thresh : Z;
  pause_filter_count : Z;
  iopm_base_pa : Z;
  msrpm_base_pa : Z;
  tsc_offset : Z;
  asid : Z;
  tlb_ctl : Z;
  int_ctl : Z;
  int_vector : Z;
  int_state : Z;
  exit_code : Z;
  exit_code_hi : Z;
  exit_info_1 : Z;
  exit_info_2 : Z;
  exit_int_info : Z;
  exit_int_info_err : Z;
  nested_ctl : Z;
  avic_vapic_bar : Z;
  ghcb_gpa : Z;
  event_inj : Z;
  event_inj_err : Z;
  nested_cr3 : Z;
  virt_ext : Z;
  clean : Z;
  next_rip : Z;
  insn_len : Z;
  insn_bytes : list Z;
  avic_backing_page : Z;
  avic_logical_id : Z;
  avic_physical_id : Z;
  vmsa_pa : Z
}.
#[global] Instance eta_t : Eta t := fun r => mk (intercepts r) (pause_filter_thresh r)
  (pause_filter_count r) (iopm_base_pa r) (msrpm_base_pa r) (tsc_offset r) (asid r)
  (tlb_ctl r) (int_ctl r) (int_vector r) (int_state r) (exit_code r) (exit_code_hi r)
  (exit_info_1 r) (exit_info_2 r) (exit_int_info r) (exit_int_info_err r) (nested_ctl r)
  (avic_vapic_bar r) (ghcb_gpa r) (event_inj r) (event_inj_err r) (nested_cr3 r)
  (virt_ext r) (clean r) (next_rip r) (insn_len r) (insn_bytes r) (avic_backing_page r)
  (avic_logical_id r) (avic_physical_id r) (vmsa_pa r).
Definition zero : t := mk (replicate 6 0) 0 0 0 0 0 0 0 0 0 0 0 0 0 0 0 0 0 0 0 0 0 0 0
  0 0 0 (replicate 15 0) 0 0 0 0.
End control.

(** [struct vmcb_save_area] of include/cpu.h, without its reserved bytes. *)
Module save.
Record t : Type := mk {
  es : vmcb_seg.t;
  cs : vmcb_seg.t;
  ss : vmcb_seg.t;
  ds : vmcb_seg.t;
  fs : vmcb_seg.t;
  gs : vmcb_seg.t;
  gdtr : vmcb_seg.t;
  ldtr : vmcb_seg.t;
  idtr : vmcb_seg.t;
  tr : vmcb_seg.t;
  vmpl : Z;
  cpl : Z;
  efer : Z;
  cr4 : Z;
  cr3 : Z;
  cr0 : Z;
  dr7 : Z;
  dr6 : Z;
  rflags : Z;
  rip : Z;
  rsp : Z;
  s_cet : Z;
  ssp : Z;
  isst_addr : Z;
  rax : Z;
  star : Z;
  lstar : Z;
  cstar : Z;
  sfmask : Z;
  kernel_gs_base : Z;
  sysenter_cs : Z;
  sysenter_esp : Z;
  sysenter_eip : Z;
  cr2 : Z;
  g_pat : Z;
  dbgctl : Z;
  br_from : Z;
  br_to : Z;
  last_excp_from : Z;
  last_excp_to : Z;
  spec_ctrl : Z
}.
#[global] Instance eta_t : Eta t := fun r => mk (es r) (cs r) (ss r) (ds r) (fs r) (gs
  r) (gdtr r) (ldtr r) (idtr r) (tr r) (vmpl r) (cpl r) (efer r) (cr4 r) (cr3 r) (cr0 r)
  (dr7 r) (dr6 r) (rflags r) (rip r) (rsp r) (s_cet r) (ssp r) (isst_addr r) (rax r)
  (star r) (lstar r) (cstar r) (sfmask r) (kernel_gs_base r) (sysenter_cs r)
  (sysenter_esp r) (sysenter_eip r) (cr2 r) (g_pat r) (dbgctl r) (br_from r) (br_to r)
  (last_excp_from r) (last_excp_to r) (spec_ctrl r).
Definition zero : t := mk vmcb_seg.zero vmcb_seg.zero vmcb_seg.zero vmcb_seg.zero
  vmcb_seg.zero vmcb_seg.zero vmcb_seg.zero vmcb_seg.zero vmcb_seg.zero vmcb_seg.zero 0
  0 0 0 0 0 0 0 0 0 0 0 0 0 0 0 0 0 0 0 0 0 0 0 0 0 0 0 0 0 0.
End save.

(** [struct vmcb] of include/cpu.h. *)
Module vmcb.
Record t : Type := mk {
  control : control.t;
  save : save.t
}.
#[global] Instance eta_t : Eta t := fun r => mk (control r) (save r).
Definition zero : t := mk control.zero save.zero.
End vmcb.

(** [struct context] of include/cpu.h; [vmcb] is a kernel pointer. *)
Module context.
Record t : Type := mk {
  vmcb : Z;
  rbx : Z;
  rcx : Z;
  rdx : Z;
  rdi : Z;
  rsi : Z;
  rbp : Z;
  r8 : Z;
  r9 : Z;
  r10 : Z;
  r11 : Z;
  r12 : Z;
  r13 : Z;
  r14 : Z;
  r15 : Z
}.
#[global] Instance eta_t : Eta t := fun r => mk (vmcb r) (rbx r) (rcx r) (rdx r) (rdi r)
  (rsi r) (rbp r) (r8 r) (r9 r) (r10 r) (r11 r) (r12 r) (r13 r) (r14 r) (r15 r).
Definition zero : t := mk 0 0 0 0 0 0 0 0 0 0 0 0 0 0 0.
End context.

(** [struct vcpu] of include/cpu.h; [lock] tells whether the mutex is held. *)
Module vcpu.
Record t : Type := mk {
  lock : bool;
  gctx : context.t;
  hctx : context.t;
  hsave : Z;
  iopm : Z;
  state : Z;
  vm : Z
}.
#[global] Instance eta_t : Eta t := fun r => mk (lock r) (gctx r) (hctx r) (hsave r)
  (iopm r) (state r) (vm r).
Definition zero : t := mk false context.zero context.zero 0 0 0 0.
End vcpu.

(** [struct vm] of include/vm.h; [vcpu] and [vmm] are kernel pointers, 0 is NULL. *)
Module vm.
Record t : Type := mk {
  lock : bool;
  refcount : Z;
  vcpu : Z;
  vmm : Z;
  id : string
}.
#[global] Instance eta_t : Eta t := fun r => mk (lock r) (refcount r) (vcpu r) (vmm r)
  (id r).
Definition zero : t := mk false 0 0 0 EmptyString.
End vm.

(** [struct vmm] of include/memory.h. *)
Module vmm.
Record t : Type := mk {
  ncr3 : Z;
  vm : Z
}.
#[global] Instance eta_t : Eta t := fun r => mk (ncr3 r) (vm r).
Definition zero : t := mk 0 0.
End vmm.

(** ** Layout

    A member has a name, the size of its elements and their number. The members
    of a packed structure follow one another; otherwise each is aligned to its
    element size. *)
Inductive field : Type := Field (name : string) (size count : Z).

Definition field_size (f : field) : Z := let 'Field _ s c := f in s * c.

Definition align_up (off a : Z) : Z := (off + a - 1) / a * a.

Fixpoint layout (packed : bool) (off : Z) (l : list field) : list (string * Z) :=
  match l with
  | [] => []
  | (Field n s c as f) :: l =>
      let off := if packed then off else align_up off s in
      (n, off) :: layout packed (off + field_size f) l
  end.

Definition sizeof_packed (l : list field) : Z := foldr (fun f n => field_size f + n) 0 l.

Definition offsetof (packed : bool) (l : list field) (n : string) : option Z :=
  assoc n (layout packed 0 l).

(** The members of [struct vmcb_control_area], reserved bytes included. *)
Definition control_fields : list field :=
  [Field "intercepts" 4 6; Field "reserved_1" 4 9; Field "pause_filter_thresh" 2 1;
   Field "pause_filter_count" 2 1; Field "iopm_base_pa" 8 1;
   Field "msrpm_base_pa" 8 1; Field "tsc_offset" 8 1; Field "asid" 4 1;
   Field "tlb_ctl" 1 1; Field "reserved_2" 1 3; Field "int_ctl" 4 1;
   Field "int_vector" 4 1; Field "int_state" 4 1; Field "reserved_3" 1 4;
   Field "exit_code" 4 1; Field "exit_code_hi" 4 1; Field "exit_info_1" 8 1;
   Field "exit_info_2" 8 1; Field "exit_int_info" 4 1; Field "exit_int_info_err" 4 1;
   Field "nested_ctl" 8 1; Field "avic_vapic_bar" 8 1; Field "ghcb_gpa" 8 1;
   Field "event_inj" 4 1; Field "event_inj_err" 4 1; Field "nested_cr3" 8 1;
   Field "virt_ext" 8 1; Field "clean" 4 1; Field "reserved_5" 4 1;
   Field "next_rip" 8 1; Field "insn_len" 1 1; Field "insn_bytes" 1 15;
   Field "avic_backing_page" 8 1; Field "reserved_6" 1 8; Field "avic_logical_id" 8 1;
   Field "avic_physical_id" 8 1; Field "reserved_7" 1 8; Field "vmsa_pa" 8 1;
   Field "reserved_8" 1 720; Field "reserved_sw" 1 32].

(** The members of [struct vmcb_save_area], reserved bytes included. *)
Definition save_fields : list field :=
  [Field "es" 16 1; Field "cs" 16 1; Field "ss" 16 1; Field "ds" 16 1;
   Field "fs" 16 1; Field "gs" 16 1; Field "gdtr" 16 1; Field "ldtr" 16 1;
   Field "idtr" 16 1; Field "tr" 16 1; Field "reserved_0xa0" 1 42; Field "vmpl" 1 1;
   Field "cpl" 1 1; Field "reserved_0xcc" 1 4; Field "efer" 8 1;
   Field "reserved_0xd8" 1 112; Field "cr4" 8 1; Field "cr3" 8 1; Field "cr0" 8 1;
   Field "dr7" 8 1; Field "dr6" 8 1; Field "rflags" 8 1; Field "rip" 8 1;
   Field "reserved_0x180" 1 88; Field "rsp" 8 1; Field "s_cet" 8 1; Field "ssp" 8 1;
   Field "isst_addr" 8 1; Field "rax" 8 1; Field "star" 8 1; Field "lstar" 8 1;
   Field "cstar" 8 1; Field "sfmask" 8 1; Field "kernel_gs_base" 8 1;
   Field "sysenter_cs" 8 1; Field "sysenter_esp" 8 1; Field "sysenter_eip" 8 1;
   Field "cr2" 8 1; Field "reserved_0x248" 1 32; Field "g_pat" 8 1;
   Field "dbgctl" 8 1; Field "br_from" 8 1; Field "br_to" 8 1;
   Field "last_excp_from" 8 1; Field "last_excp_to" 8 1; Field "reserved_0x298" 1 72;
   Field "spec_ctrl" 8 1].

(** The members of [struct context]. *)
Definition context_fields : list field :=
  (fun n => Field n 8 1) <$>
    ["vmcb"; "rbx"; "rcx"; "rdx"; "rdi"; "rsi"; "rbp"; "r8"; "r9"; "r10"; "r11"; "r12";
     "r13"; "r14"; "r15"].

(** The offsets include/vcpu_run.h gives the assembly. *)
Definition YAKVM_VCPU_CONTEXT_VMCB_OFF : Z := 0.
Definition YAKVM_VCPU_CONTEXT_RBX_OFF : Z := 8.
Definition YAKVM_VCPU_CONTEXT_RCX_OFF : Z := 16.
Definition YAKVM_VCPU_CONTEXT_RDX_OFF : Z := 24.
Definition YAKVM_VCPU_CONTEXT_RDI_OFF : Z := 32.
Definition YAKVM_VCPU_CONTEXT_RSI_OFF : Z := 40.
Definition YAKVM_VCPU_CONTEXT_RBP_OFF : Z := 48.
Definition YAKVM_VCPU_CONTEXT_R8_OFF : Z := 56.
Definition YAKVM_VCPU_CONTEXT_R9_OFF : Z := 64.
Definition YAKVM_VCPU_CONTEXT_R10_OFF : Z := 72.
Definition YAKVM_VCPU_CONTEXT_R11_OFF : Z := 80.
Definition YAKVM_VCPU_CONTEXT_R12_OFF : Z := 88.
Definition YAKVM_VCPU_CONTEXT_R13_OFF : Z := 96.
Definition YAKVM_VCPU_CONTEXT_R14_OFF : Z := 104.
Definition YAKVM_VCPU_CONTEXT_R15_OFF : Z := 112.
