(* ===== verification/Kernel.v ===== *)
(** * The kernel under the driver

    The driver calls Linux for memory, file descriptors, user memory and
    address translation. [KernelOps] lists those services as parameters,
    [KernelLaws] what the driver relies on; the driver's state [kstate] holds
    the pages and objects it owns, its open files and its static variables. *)

From S2P Require Import Prelude Structs.

(** ** Services *)
Class KernelOps : Type := {
  (** the allocators' own state *)
  mm : Type;
  (** [alloc_pages(GFP_KERNEL_ACCOUNT | __GFP_ZERO, order)]: a [struct page *] *)
  alloc_pages_op : mm -> Z -> option Z * mm;
  (** [free_pages], on the physical address of the first page *)
  free_pages_op : mm -> Z -> Z -> mm;
  (** [get_page]: one more reference to the page at a physical address *)
  get_page_op : mm -> Z -> mm;
  kmalloc_op : mm -> option Z * mm;
  kfree_op : mm -> Z -> mm;
  (** [anon_inode_getfd]: a descriptor or a negative error number *)
  getfd_op : mm -> Z * mm;
  (** the last reference to an open file goes away *)
  putfd_op : mm -> Z -> mm;
  (** [misc_register], [misc_deregister] of /dev/yakvm *)
  misc_register_op : mm -> Z * mm;
  misc_deregister_op : mm -> mm;
  page_to_phys : Z -> Z;
  pfn_to_page : Z -> Z;
  phys_to_virt : Z -> Z;
  virt_to_phys : Z -> Z;
  get_order : Z -> Z;
  (** user memory and the rest of the world; the copies return the number of
      bytes not copied *)
  umem : Type;
  copy_to_user : umem -> Z -> registers.t -> Z * umem;
  copy_from_user : umem -> Z -> Z * registers.t;
  (** [remap_pfn_range(vma, start, pfn, size, prot)] *)
  remap_pfn_range : umem -> Z -> Z -> Z -> Z * umem;
  (** [cpuid_ebx(leaf)] *)
  cpuid_ebx : Z -> Z;
  (** what /proc/cpuinfo says of a processor *)
  x86_vendor : nat -> Z;
  cpu_has_svm : nat -> bool;
  task_pid : Z
}.

(** The [n] page frames from frame [pfn] on, as physical addresses. *)
Definition frames (pfn n : Z) : gset Z :=
  list_to_set ((fun i => (pfn + i) * PAGE_SIZE) <$> seqZ 0 n).

(** Documented behaviour of the services: an allocator hands out what is not in
    use, aligned and below 2^52, and takes back what it is given. [used_pages]
    are the page frames on which the driver holds the reference it was given;
    [get_page] counts another one, that of a user mapping. *)
Class KernelLaws (K : KernelOps) : Type := {
  used_pages : mm -> gset Z;
  used_objs : mm -> gset Z;
  used_fds : mm -> gset Z;
  alloc_pages_some k o p k' :
    0 <= o -> alloc_pages_op k o = (Some p, k') ->
    used_objs k' = used_objs k /\ used_fds k' = used_fds k /\
    exists n, p = pfn_to_page n /\ 0 < n /\ n + 2 ^ o <= 2 ^ 40 /\
      frames n (2 ^ o) ## used_pages k /\
      used_pages k' = (frames n (2 ^ o)) ∪ used_pages k;
  alloc_pages_none k o k' :
    alloc_pages_op k o = (None, k') ->
    used_pages k' = used_pages k /\ used_objs k' = used_objs k /\ used_fds k' = used_fds k;
  free_pages_used k n o :
    0 <= o -> frames n (2 ^ o) ⊆ used_pages k ->
    used_pages (free_pages_op k (n * PAGE_SIZE) o) = used_pages k ∖ (frames n (2 ^ o)) /\
    used_objs (free_pages_op k (n * PAGE_SIZE) o) = used_objs k /\
    used_fds (free_pages_op k (n * PAGE_SIZE) o) = used_fds k;
  get_page_used k pa :
    used_pages (get_page_op k pa) = used_pages k /\
    used_objs (get_page_op k pa) = used_objs k /\ used_fds (get_page_op k pa) = used_fds k;
  misc_register_used k r k' :
    misc_register_op k = (r, k') ->
    used_pages k' = used_pages k /\ used_objs k' = used_objs k /\ used_fds k' = used_fds k;
  misc_deregister_used k :
    used_pages (misc_deregister_op k) = used_pages k /\
    used_objs (misc_deregister_op k) = used_objs k /\
    used_fds (misc_deregister_op k) = used_fds k;
  kmalloc_some k a k' :
    kmalloc_op k = (Some a, k') ->
    0 < a < 2 ^ 64 - 4096 /\ (a ∉ used_objs k) /\ used_objs k' = {[a]} ∪ used_objs k /\
    used_pages k' = used_pages k /\ used_fds k' = used_fds k;
  kmalloc_none k k' :
    kmalloc_op k = (None, k') ->
    used_pages k' = used_pages k /\ used_objs k' = used_objs k /\ used_fds k' = used_fds k;
  kfree_used k a :
    a ∈ used_objs k ->
    used_objs (kfree_op k a) = used_objs k ∖ {[a]} /\
    used_pages (kfree_op k a) = used_pages k /\ used_fds (kfree_op k a) = used_fds k;
  getfd_ok k fd k' :
    getfd_op k = (fd, k') ->
    used_pages k' = used_pages k /\ used_objs k' = used_objs k /\
    - 4095 <= fd < 2 ^ 31 /\
    (if bool_decide (0 <= fd) then (fd ∉ used_fds k) /\ used_fds k' = {[fd]} ∪ used_fds k
     else used_fds k' = used_fds k);
  putfd_used k fd :
    fd ∈ used_fds k ->
    used_fds (putfd_op k fd) = used_fds k ∖ {[fd]} /\
    used_pages (putfd_op k fd) = used_pages k /\ used_objs (putfd_op k fd) = used_objs k;
  page_to_phys_pfn n : 0 <= n < 2 ^ 40 -> page_to_phys (pfn_to_page n) = n * PAGE_SIZE;
  virt_phys pa : 0 <= pa < 2 ^ 52 -> virt_to_phys (phys_to_virt pa) = pa;
  get_order_range size : 0 < size <= 2 ^ 40 ->
    0 <= get_order size <= 28 /\ size <= PAGE_SIZE * 2 ^ get_order size;
  (** the number of address space identifiers of the processor *)
  cpuid_asids : cpuid_ebx 0x8000000a < 2 ^ 31;
  copy_to_user_bytes u a r u' n : copy_to_user u a r = (n, u') -> 0 <= n;
  copy_round_trip u a r u' :
    copy_to_user u a r = (0, u') -> copy_from_user u' a = (0, r)
}.

(** ** State of the driver *)

(** A page the driver owns: 512 words, or the structure a pointer to the page
    was cast to. *)
Inductive page : Type :=
| PWords (ws : list Z)
| PVmcb (v : vmcb.t)
| PState (s : state.t).

Definition zero_page : page := PWords (replicate 512 0).

(** A cast of a page: one that is still all zero can become any structure. *)
Definition as_words (p : page) : option (list Z) :=
  match p with PWords ws => Some ws | _ => None end.

Definition as_vmcb (p : page) : option vmcb.t :=
  match p with
  | PVmcb v => Some v
  | PWords ws => if bool_decide (ws = replicate 512 0) then Some vmcb.zero else None
  | PState _ => None
  end.

Definition as_state (p : page) : option state.t :=
  match p with
  | PState s => Some s
  | PWords ws => if bool_decide (ws = replicate 512 0) then Some state.zero else None
  | PVmcb _ => None
  end.

(** A kmalloc'ed object. *)
Inductive obj : Type :=
| OVm (v : vm.t)
| OVcpu (v : vcpu.t)
| OVmm (v : vmm.t).

(** An open file: its [f_op] tells the constructor, its [private_data] the
    argument. *)
Inductive file : Type :=
| FDev
| FVm (vm : Z)
| FVcpu (vcpu : Z).

#[global] Instance file_eq_dec : EqDecision file.
Proof. solve_decision. Defined.

(** The processor state VMSAVE and VMLOAD move (AMD64 APM volume 3): it is not
    switched by VMRUN and #VMEXIT. *)
Module hidden.
Record t : Type := mk {
  fs : vmcb_seg.t;
  gs : vmcb_seg.t;
  tr : vmcb_seg.t;
  ldtr : vmcb_seg.t;
  kernel_gs_base : Z;
  star : Z;
  lstar : Z;
  cstar : Z;
  sfmask : Z;
  sysenter_cs : Z;
  sysenter_esp : Z;
  sysenter_eip : Z
}.
Definition zero : t := mk vmcb_seg.zero vmcb_seg.zero vmcb_seg.zero vmcb_seg.zero
  0 0 0 0 0 0 0 0.
End hidden.

(** A physical processor: its preemption count, the global interrupt flag, the
    two MSRs the driver writes and the state VMSAVE and VMLOAD move. *)
Module pcpu.
Record t : Type := mk {
  preempt : Z;
  gif : bool;
  efer : Z;
  hsave_pa : Z;
  extra : hidden.t
}.
#[global] Instance eta_t : Eta t := fun r =>
  mk (preempt r) (gif r) (efer r) (hsave_pa r) (extra r).
End pcpu.

Record kstate `{KernelOps} : Type := KState {
  ks_mm : mm;
  ks_pages : gmap Z page;       (** pages by physical address *)
  ks_heap : gmap Z obj;         (** objects by address *)
  ks_files : gmap Z file;       (** open files by descriptor *)
  ks_user : umem;
  ks_asid : Z;                  (** [static atomic_t asid] *)
  ks_status : Z;                (** [static atomic_t yakvm_status] *)
  ks_misc : bool;               (** /dev/yakvm is registered *)
  ks_cpus : list pcpu.t;
  ks_cpu : nat                  (** the processor the caller runs on *)
}.

#[global] Instance eta_kstate `{K : KernelOps} : Eta kstate := fun s =>
  KState K (ks_mm s) (ks_pages s) (ks_heap s) (ks_files s) (ks_user s) (ks_asid s)
    (ks_status s) (ks_misc s) (ks_cpus s) (ks_cpu s).

Section kernel.
Context `{K : KernelOps}.

Definition KM : Type -> Type := M kstate.

(** ** Pages *)

Fixpoint add_zero_pages (pa : Z) (n : nat) (m : gmap Z page) : gmap Z page :=
  match n with
  | O => m
  | S n => <[pa := zero_page]> (add_zero_pages (pa + PAGE_SIZE) n m)
  end.

Fixpoint remove_pages (pa : Z) (n : nat) (m : gmap Z page) : option (gmap Z page) :=
  match n with
  | O => Some m
  | S n => match m !! pa with
           | Some _ => remove_pages (pa + PAGE_SIZE) n (delete pa m)
           | None => None
           end
  end.

Definition alloc_pages (order : Z) : KM (option Z) := fun s =>
  match alloc_pages_op (ks_mm s) order with
  | (Some p, k) =>
      Ok (Some p) (s <| ks_mm := k |>
                     <| ks_pages := add_zero_pages (page_to_phys p) (Z.to_nat (2 ^ order))
                                      (ks_pages s) |>)
  | (None, k) => Ok None (s <| ks_mm := k |>)
  end.

Definition alloc_page : KM (option Z) := alloc_pages 0.

Definition page_address (p : Z) : Z := phys_to_virt (page_to_phys p).

(** [free_pages(addr, order)]; freeing what is not allocated is undefined. *)
Definition free_pages (addr order : Z) : KM unit := fun s =>
  let pa := virt_to_phys addr in
  match remove_pages pa (Z.to_nat (2 ^ order)) (ks_pages s) with
  | Some m => Ok tt (s <| ks_mm := free_pages_op (ks_mm s) pa order |> <| ks_pages := m |>)
  | None => Stop BadAccess
  end.

Definition free_page (addr : Z) : KM unit := free_pages addr 0.

(** [__free_page(page)] *)
Definition __free_page (p : Z) : KM unit := free_page (page_address p).

(** An access through the kernel pointer [addr] to a page seen as [view]. *)
Definition load {A} (view : page -> option A) (addr : Z) : KM A :=
  m ← gets ks_pages;
  p ← need (m !! virt_to_phys addr);
  need (view p).

Definition store {A} (view : page -> option A) (mk : A -> page) (addr : Z) (f : A -> A) : KM unit :=
  a ← load view addr;
  modify (fun s => s <| ks_pages := <[virt_to_phys addr := mk (f a)]> (ks_pages s) |>).

(** [((unsigned long * )addr)[i]] *)
Definition load_word (addr i : Z) : KM Z :=
  ws ← load as_words addr;
  need (ws !! Z.to_nat i).

Definition store_word (addr i v : Z) : KM unit :=
  ws ← load as_words addr;
  need (ws !! Z.to_nat i) ;;
  store as_words PWords addr (fun ws => <[Z.to_nat i := v]> ws).

Definition load_vmcb : Z -> KM vmcb.t := load as_vmcb.
Definition update_vmcb : Z -> (vmcb.t -> vmcb.t) -> KM unit := store as_vmcb PVmcb.
Definition update_state : Z -> (state.t -> state.t) -> KM unit := store as_state PState.

(** ** Objects *)

Definition kmalloc (o : obj) : KM (option Z) := fun s =>
  match kmalloc_op (ks_mm s) with
  | (Some a, k) => Ok (Some a) (s <| ks_mm := k |> <| ks_heap := <[a := o]> (ks_heap s) |>)
  | (None, k) => Ok None (s <| ks_mm := k |>)
  end.

Definition kfree (a : Z) : KM unit := fun s =>
  match ks_heap s !! a with
  | Some _ => Ok tt (s <| ks_mm := kfree_op (ks_mm s) a |> <| ks_heap := delete a (ks_heap s) |>)
  | None => Stop BadAccess
  end.

Definition get_obj {A} (view : obj -> option A) (a : Z) : KM A :=
  h ← gets ks_heap;
  o ← need (h !! a);
  need (view o).

Definition as_vm (o : obj) : option vm.t := if o is OVm v then Some v else None.
Definition as_vcpu (o : obj) : option vcpu.t := if o is OVcpu v then Some v else None.
Definition as_vmm (o : obj) : option vmm.t := if o is OVmm v then Some v else None.

Definition get_vm : Z -> KM vm.t := get_obj as_vm.
Definition get_vcpu : Z -> KM vcpu.t := get_obj as_vcpu.
Definition get_vmm : Z -> KM vmm.t := get_obj as_vmm.

Definition put_obj (a : Z) (o : obj) : KM unit :=
  modify (fun s => s <| ks_heap := <[a := o]> (ks_heap s) |>).

Definition update_vm (a : Z) (f : vm.t -> vm.t) : KM unit :=
  v ← get_vm a; put_obj a (OVm (f v)).
Definition update_vcpu (a : Z) (f : vcpu.t -> vcpu.t) : KM unit :=
  v ← get_vcpu a; put_obj a (OVcpu (f v)).
Definition update_vmm (a : Z) (f : vmm.t -> vmm.t) : KM unit :=
  v ← get_vmm a; put_obj a (OVmm (f v)).

(** ** Files *)

(** A descriptor the kernel may hand out. *)
Definition kernel_fd (fd : Z) : Prop := 0 <= fd /\ exists k, (getfd_op k).1 = fd.

Definition anon_inode_getfd (f : file) : KM Z := fun s =>
  let '(fd, k) := getfd_op (ks_mm s) in
  if 0 <=? fd
  then Ok fd (s <| ks_mm := k |> <| ks_files := <[fd := f]> (ks_files s) |>)
  else Ok fd (s <| ks_mm := k |>).

(** [s] with another allocator state and other pages. *)
Definition with_mem (k : mm) (m : gmap Z page) (s : kstate) : kstate :=
  s <| ks_mm := k |> <| ks_pages := m |>.

(** [s] with other objects. *)
Definition with_heap (h : gmap Z obj) (s : kstate) : kstate := s <| ks_heap := h |>.

(** A physical address a page can have. *)
Definition valid_pa (pa : Z) : Prop := 0 < pa < 2 ^ 52 /\ pa mod PAGE_SIZE = 0.

End kernel.

(** ** Ownership

    What the driver holds is a part of what the allocators have handed out. *)
Record mm_ok `{KernelLaws} (s : kstate) : Prop := {
  mm_pages : dom (ks_pages s) ⊆ used_pages (ks_mm s);
  mm_objs : dom (ks_heap s) ⊆ used_objs (ks_mm s);
  mm_fds : dom (ks_files s) ⊆ used_fds (ks_mm s)
}.

Section kernel_facts.
Context `{L : KernelLaws}.
Implicit Types (s : kstate) (m : gmap Z page).

Lemma with_mem_twice k m k' m' s : with_mem k' m' (with_mem k m s) = with_mem k' m' s.
Proof. done. Qed.

Lemma with_mem_id s : with_mem (ks_mm s) (ks_pages s) s = s.
Proof. by destruct s. Qed.

Lemma frames_1 n : frames n 1 = {[n * PAGE_SIZE]}.
Proof.
  unfold frames. change (seqZ 0 1) with [0]. simpl. rewrite Z.add_0_r. set_solver.
Qed.

Lemma elem_of_frames n c x :
  x ∈ frames n c <-> exists i, 0 <= i < c /\ x = (n + i) * PAGE_SIZE.
Proof.
  unfold frames. rewrite elem_of_list_to_set, list_elem_of_fmap.
  setoid_rewrite elem_of_seqZ. split; intros (i & H1 & H2); exists i; split; first [done | lia].
Qed.

Lemma valid_pa_frame pa : valid_pa pa -> exists n, pa = n * PAGE_SIZE /\ 0 < n < 2 ^ 40.
Proof.
  unfold valid_pa, PAGE_SIZE. intros [H1 H2]. exists (pa / 4096).
  pose proof (Z.div_mod pa 4096). split; [lia|].
  split; [apply Z.div_str_pos; lia | apply Z.div_lt_upper_bound; lia].
Qed.

Lemma valid_pa_round_trip pa : valid_pa pa -> virt_to_phys (phys_to_virt pa) = pa.
Proof. intros [H _]. apply virt_phys. lia. Qed.

(** One page: a fresh page of zeroes, or nothing. *)
Lemma wp_alloc_page (Q : option Z -> kstate -> Prop) E s :
  mm_ok s ->
  (forall k, mm_ok (with_mem k (ks_pages s) s) ->
     alloc_pages_op (ks_mm s) 0 = (None, k) -> Q None (with_mem k (ks_pages s) s)) ->
  (forall k p pa, page_to_phys p = pa -> valid_pa pa -> ks_pages s !! pa = None ->
     pfn_to_page (pa / PAGE_SIZE) = p ->
     mm_ok (with_mem k (<[pa := zero_page]> (ks_pages s)) s) ->
     Q (Some p) (with_mem k (<[pa := zero_page]> (ks_pages s)) s)) ->
  wp alloc_page Q E s.
Proof.
  intros Hs Hnone Hsome. unfold wp, alloc_page, alloc_pages.
  destruct (alloc_pages_op (ks_mm s) 0) as [[p|] k] eqn:Hop.
  - apply alloc_pages_some in Hop as (Ho & Hf & n & -> & H0 & Hn & Hfresh & Hp); [|lia].
    change (2 ^ 0) with 1 in *. rewrite frames_1 in *.
    rewrite page_to_phys_pfn by lia.
    destruct Hs as [Hs1 Hs2 Hs3].
    apply (Hsome k (pfn_to_page n) (n * PAGE_SIZE)).
    + apply page_to_phys_pfn. lia.
    + unfold valid_pa, PAGE_SIZE. split; [lia|]. apply Z_mod_mult.
    + apply not_elem_of_dom. set_solver.
    + unfold PAGE_SIZE. by rewrite Z.div_mul.
    + split; simpl; [rewrite dom_insert_L, Hp; set_solver | by rewrite Ho | by rewrite Hf].
  - apply alloc_pages_none in Hop as Hu. destruct Hu as (Hp & Ho & Hf).
    destruct Hs. apply (Hnone k); [|done].
    split; simpl; [by rewrite Hp | by rewrite Ho | by rewrite Hf].
Qed.

(** [add_zero_pages] and [remove_pages] by their lookups. *)
Lemma add_zero_pages_in n c m x :
  x ∈ frames n (Z.of_nat c) -> add_zero_pages (n * PAGE_SIZE) c m !! x = Some zero_page.
Proof.
  revert n. induction c as [|c IH]; intros n (i & Hi & ->)%elem_of_frames; [lia|]. simpl.
  destruct (decide (i = 0)) as [->|Hne].
  - rewrite Z.add_0_r. apply lookup_insert_eq.
  - rewrite lookup_insert_ne by (unfold PAGE_SIZE; nia).
    replace (n * PAGE_SIZE + PAGE_SIZE) with ((n + 1) * PAGE_SIZE) by lia. apply IH.
    apply elem_of_frames. exists (i - 1). split; [lia|]. f_equal. lia.
Qed.

Lemma add_zero_pages_out n c m x :
  x ∉ frames n (Z.of_nat c) -> add_zero_pages (n * PAGE_SIZE) c m !! x = m !! x.
Proof.
  revert n. induction c as [|c IH]; intros n Hx; [done|]. simpl.
  rewrite lookup_insert_ne.
  - replace (n * PAGE_SIZE + PAGE_SIZE) with ((n + 1) * PAGE_SIZE) by lia. apply IH.
    intros (i & Hi & ->)%elem_of_frames. apply Hx, elem_of_frames. exists (i + 1).
    split; [lia|]. f_equal. lia.
  - intros <-. apply Hx, elem_of_frames. exists 0. split; [lia|]. f_equal. lia.
Qed.

Lemma remove_pages_spec n c m :
  frames n (Z.of_nat c) ⊆ dom m ->
  exists m', remove_pages (n * PAGE_SIZE) c m = Some m' /\
    (forall x, x ∈ frames n (Z.of_nat c) -> m' !! x = None) /\
    (forall x, x ∉ frames n (Z.of_nat c) -> m' !! x = m !! x).
Proof.
  revert n m. induction c as [|c IH]; intros n m Hs; simpl.
  { exists m. split; [done|]. split; [|done]. intros x (i & Hi & _)%elem_of_frames. lia. }
  assert (n * PAGE_SIZE ∈ dom m) as Hn.
  { apply Hs, elem_of_frames. exists 0. split; [lia|]. f_equal. lia. }
  apply elem_of_dom in Hn as [p ->].
  replace (n * PAGE_SIZE + PAGE_SIZE) with ((n + 1) * PAGE_SIZE) by lia.
  assert (forall x, x ∈ frames n (Z.of_nat (S c)) <->
            x = n * PAGE_SIZE \/ x ∈ frames (n + 1) (Z.of_nat c)) as Hfr.
  { intros x. rewrite !elem_of_frames. split.
    - intros (i & Hi & ->). destruct (decide (i = 0)) as [->|]; [left; f_equal; lia|].
      right. exists (i - 1). split; [lia|]. f_equal. lia.
    - intros [->|(i & Hi & ->)]; [exists 0 | exists (i + 1)]; (split; [lia|]; f_equal; lia). }
  assert (n * PAGE_SIZE ∉ frames (n + 1) (Z.of_nat c)) as Hnin.
  { intros (i & Hi & He)%elem_of_frames. unfold PAGE_SIZE in He. nia. }
  destruct (IH (n + 1) (delete (n * PAGE_SIZE) m)) as (m' & -> & Hin & Hout).
  { intros x Hx. rewrite dom_delete_L. apply elem_of_difference. split; [|set_solver].
    apply Hs, Hfr. by right. }
  exists m'. split; [done|]. split; intros x Hx; rewrite Hfr in Hx.
  - destruct Hx as [->|Hx]; [|by apply Hin]. by rewrite Hout, lookup_delete_eq.
  - rewrite Hout by tauto. apply lookup_delete_ne. intros <-. tauto.
Qed.

(** Several pages: fresh contiguous pages of zeroes, or nothing. *)
Lemma wp_alloc_pages o (Q : option Z -> kstate -> Prop) E s :
  mm_ok s -> 0 <= o ->
  (forall k, mm_ok (with_mem k (ks_pages s) s) -> Q None (with_mem k (ks_pages s) s)) ->
  (forall k p n m', page_to_phys p = n * PAGE_SIZE -> 0 < n -> n + 2 ^ o <= 2 ^ 40 ->
     frames n (2 ^ o) ## dom (ks_pages s) ->
     (forall x, x ∈ frames n (2 ^ o) -> m' !! x = Some zero_page) ->
     (forall x, x ∉ frames n (2 ^ o) -> m' !! x = ks_pages s !! x) ->
     mm_ok (with_mem k m' s) -> Q (Some p) (with_mem k m' s)) ->
  wp (alloc_pages o) Q E s.
Proof.
  intros Hs Ho Hnone Hsome. unfold wp, alloc_pages. destruct Hs as [Hs1 Hs2 Hs3].
  destruct (alloc_pages_op (ks_mm s) o) as [[p|] k] eqn:Hop.
  - apply alloc_pages_some in Hop as (Hu & Hf & n & -> & H0 & Hn & Hfresh & Hp); [|done].
    assert (0 < 2 ^ o) by (apply Z.pow_pos_nonneg; lia).
    rewrite page_to_phys_pfn by lia.
    pose proof (add_zero_pages_in n (Z.to_nat (2 ^ o)) (ks_pages s)) as Hin.
    pose proof (add_zero_pages_out n (Z.to_nat (2 ^ o)) (ks_pages s)) as Hout.
    rewrite Z2Nat.id in Hin, Hout by lia.
    set (m' := add_zero_pages _ _ _) in *. clearbody m'.
    apply (Hsome k (pfn_to_page n) n m'); try done.
    + apply page_to_phys_pfn. lia.
    + set_solver.
    + split; simpl; [|by rewrite Hu|by rewrite Hf]. rewrite Hp.
      intros x Hx. destruct (decide (x ∈ frames n (2 ^ o))) as [|Hnx]; [set_solver|].
      apply elem_of_dom in Hx. rewrite Hout in Hx by done. apply elem_of_dom in Hx. set_solver.
  - apply alloc_pages_none in Hop as Hu. destruct Hu as (Hp & Hu & Hf).
    apply (Hnone k). split; simpl; [by rewrite Hp | by rewrite Hu | by rewrite Hf].
Qed.

(** Freeing contiguous pages the driver owns. *)
Lemma wp_free_pages o n (Q : unit -> kstate -> Prop) E s addr :
  mm_ok s -> 0 <= o -> virt_to_phys addr = n * PAGE_SIZE ->
  frames n (2 ^ o) ⊆ dom (ks_pages s) ->
  (forall k m', mm_ok (with_mem k m' s) ->
     (forall x, x ∈ frames n (2 ^ o) -> m' !! x = None) ->
     (forall x, x ∉ frames n (2 ^ o) -> m' !! x = ks_pages s !! x) ->
     Q tt (with_mem k m' s)) ->
  wp (free_pages addr o) Q E s.
Proof.
  intros [Hs1 Hs2 Hs3] Ho Ha Hfr HQ. unfold wp, free_pages. rewrite Ha.
  assert (0 < 2 ^ o) by (apply Z.pow_pos_nonneg; lia).
  destruct (remove_pages_spec n (Z.to_nat (2 ^ o)) (ks_pages s)) as (m' & -> & Hin & Hout).
  { by rewrite Z2Nat.id by lia. }
  rewrite Z2Nat.id in Hin, Hout by lia.
  destruct (free_pages_used (ks_mm s) n o Ho) as (Hp & Hu & Hf); [set_solver|].
  set (k := free_pages_op _ _ _) in *. clearbody k. apply (HQ k m'); [|done..].
  split; simpl; [|by rewrite Hu|by rewrite Hf]. rewrite Hp. intros x Hx.
  destruct (decide (x ∈ frames n (2 ^ o))) as [Hi|Hi]; apply elem_of_dom in Hx.
  - rewrite Hin in Hx by done. by destruct Hx.
  - rewrite Hout in Hx by done. apply elem_of_dom in Hx. set_solver.
Qed.

(** Freeing one page the driver owns. *)
Lemma wp_free_page pa (Q : unit -> kstate -> Prop) E s addr :
  mm_ok s -> virt_to_phys addr = pa -> valid_pa pa -> is_Some (ks_pages s !! pa) ->
  (forall k, mm_ok (with_mem k (delete pa (ks_pages s)) s) ->
     Q tt (with_mem k (delete pa (ks_pages s)) s)) ->
  wp (free_page addr) Q E s.
Proof.
  intros Hs Ha Hpa [x Hx] HQ. unfold wp, free_page, free_pages. rewrite Ha. simpl.
  rewrite Hx. apply HQ.
  destruct (valid_pa_frame _ Hpa) as (n & -> & Hn). destruct Hs as [Hs1 Hs2 Hs3].
  destruct (free_pages_used (ks_mm s) n 0) as (Hp & Ho & Hf); [lia| |].
  { change (2 ^ 0) with 1. rewrite frames_1. apply elem_of_dom_2 in Hx. set_solver. }
  split; simpl; [|by rewrite Ho|by rewrite Hf].
  change (2 ^ 0) with 1 in Hp. rewrite Hp, frames_1, dom_delete_L. set_solver.
Qed.

Lemma wp_load {A} (view : page -> option A) addr pa p a (Q : A -> kstate -> Prop) E s :
  virt_to_phys addr = pa -> ks_pages s !! pa = Some p -> view p = Some a -> Q a s ->
  wp (load view addr) Q E s.
Proof.
  intros Ha Hp Hv HQ. unfold load. wp_steps. rewrite Ha, Hp. wp_steps.
  by eapply wp_need.
Qed.

Lemma wp_load_word addr pa ws i v (Q : Z -> kstate -> Prop) E s :
  virt_to_phys addr = pa -> ks_pages s !! pa = Some (PWords ws) ->
  ws !! Z.to_nat i = Some v -> Q v s -> wp (load_word addr i) Q E s.
Proof.
  intros Ha Hp Hv HQ. unfold load_word. wp_steps.
  eapply wp_load; [done..|]. by eapply wp_need.
Qed.

Lemma wp_store_word addr pa ws i v (Q : unit -> kstate -> Prop) E s :
  virt_to_phys addr = pa -> ks_pages s !! pa = Some (PWords ws) ->
  is_Some (ws !! Z.to_nat i) ->
  Q tt (with_mem (ks_mm s) (<[pa := PWords (<[Z.to_nat i := v]> ws)]> (ks_pages s)) s) ->
  wp (store_word addr i v) Q E s.
Proof.
  intros Ha Hp [x Hx] HQ. unfold store_word, store. wp_steps.
  eapply wp_load; [done..|]. wp_steps. eapply wp_need; [done|]. wp_steps.
  eapply wp_load; [done..|]. wp_steps. rewrite Ha. by destruct s.
Qed.

(** Overwriting a page the driver owns keeps the ownership. *)
Lemma mm_ok_store k m pa p s :
  mm_ok (with_mem k m s) -> is_Some (m !! pa) -> mm_ok (with_mem k (<[pa := p]> m) s).
Proof.
  intros [H1 H2 H3] Hm%elem_of_dom. split; simpl in *; [|done..].
  rewrite dom_insert_L. set_solver.
Qed.

Lemma mm_ok_put a o h s :
  mm_ok (with_heap h s) -> is_Some (h !! a) -> mm_ok (with_heap (<[a := o]> h) s).
Proof.
  intros [H1 H2 H3] Ha%elem_of_dom. split; simpl in *; [done| |done].
  rewrite dom_insert_L. set_solver.
Qed.

Lemma mm_ok_sub s s' :
  mm_ok s -> ks_mm s' = ks_mm s -> dom (ks_pages s') ⊆ dom (ks_pages s) ->
  dom (ks_heap s') ⊆ dom (ks_heap s) -> dom (ks_files s') ⊆ dom (ks_files s) -> mm_ok s'.
Proof. intros [H1 H2 H3] He Hp Hh Hf. split; rewrite He; set_solver. Qed.

(** *** Objects *)

Lemma wp_get_obj {A} (view : obj -> option A) a o v (Q : A -> kstate -> Prop) E s :
  ks_heap s !! a = Some o -> view o = Some v -> Q v s -> wp (get_obj view a) Q E s.
Proof.
  intros Ho Hv HQ. unfold get_obj. wp_steps. rewrite Ho. wp_steps. by eapply wp_need.
Qed.

Lemma wp_kmalloc o (Q : option Z -> kstate -> Prop) E s :
  mm_ok s ->
  (forall k, mm_ok (with_mem k (ks_pages s) s) -> Q None (with_mem k (ks_pages s) s)) ->
  (forall k a, ks_heap s !! a = None -> 0 < a < 2 ^ 64 - 4096 ->
     mm_ok (with_heap (<[a := o]> (ks_heap s)) (with_mem k (ks_pages s) s)) ->
     Q (Some a) (with_heap (<[a := o]> (ks_heap s)) (with_mem k (ks_pages s) s))) ->
  wp (kmalloc o) Q E s.
Proof.
  intros [H1 H2 H3] Hn Hs. unfold wp, kmalloc.
  destruct (kmalloc_op (ks_mm s)) as [[a|] k] eqn:Hop.
  - apply kmalloc_some in Hop as (Ha & Hfr & Ho & Hp & Hf). apply (Hs k a).
    + apply not_elem_of_dom. set_solver.
    + done.
    + split; simpl; [by rewrite Hp| |by rewrite Hf]. rewrite dom_insert_L. set_solver.
  - apply kmalloc_none in Hop as (Hp & Ho & Hf). apply (Hn k).
    split; simpl; [by rewrite Hp|by rewrite Ho|by rewrite Hf].
Qed.

Lemma wp_kfree a (Q : unit -> kstate -> Prop) E s :
  mm_ok s -> is_Some (ks_heap s !! a) ->
  (forall k, mm_ok (with_heap (delete a (ks_heap s)) (with_mem k (ks_pages s) s)) ->
     Q tt (with_heap (delete a (ks_heap s)) (with_mem k (ks_pages s) s))) ->
  wp (kfree a) Q E s.
Proof.
  intros [H1 H2 H3] [o Ho] HQ.
  destruct (kfree_used (ks_mm s) a) as (Hu & Hp & Hf).
  { apply elem_of_dom_2 in Ho. set_solver. }
  unfold wp, kfree. rewrite Ho. set (k := kfree_op _ _) in *. clearbody k. apply (HQ k).
  split; simpl; [by rewrite Hp| |by rewrite Hf]. rewrite dom_delete_L, Hu. set_solver.
Qed.

Lemma wp___free_page pa p (Q : unit -> kstate -> Prop) E s :
  mm_ok s -> page_to_phys p = pa -> valid_pa pa -> is_Some (ks_pages s !! pa) ->
  (forall k, mm_ok (with_mem k (delete pa (ks_pages s)) s) ->
     Q tt (with_mem k (delete pa (ks_pages s)) s)) ->
  wp (__free_page p) Q E s.
Proof.
  intros Hok Hp Hv Hs HQ. unfold __free_page, page_address.
  eapply wp_free_page; [done| |exact Hv|done|done]. rewrite Hp. by apply valid_pa_round_trip.
Qed.

(** *** Acquiring pages with a clean-up *)

(** [cont] does its work on the objects [h] and the pages [m], whatever the
    allocators' state. *)
Definition from_pages {B} (h : gmap Z obj) m s (Q : B -> kstate -> Prop) E (cont : KM B) : Prop :=
  forall k, mm_ok (with_heap h (with_mem k m s)) -> wp cont Q E (with_heap h (with_mem k m s)).

Lemma from_pages_free {B} h m s (Q : B -> kstate -> Prop) E cont p pa :
  page_to_phys p = pa -> valid_pa pa -> m !! pa = None ->
  from_pages h m s Q E cont ->
  from_pages h (<[pa := zero_page]> m) s Q E (__free_page p ;; cont).
Proof.
  intros Hp Hv Hm H k Hok. apply wp_bind.
  eapply wp___free_page; [done|exact Hp|done|exists zero_page; apply lookup_insert_eq|].
  intros k' Hok'. change (ks_pages _) with (<[pa := zero_page]> m) in *.
  rewrite delete_insert_id in * by done. by apply H.
Qed.

Lemma from_pages_alloc {B} h m s (Q : B -> kstate -> Prop) E cont (body : Z -> KM B) :
  from_pages h m s Q E cont ->
  (forall p pa, page_to_phys p = pa -> valid_pa pa -> m !! pa = None ->
     from_pages h (<[pa := zero_page]> m) s Q E (body p)) ->
  from_pages h m s Q E (x ← alloc_page; match x with None => cont | Some p => body p end).
Proof.
  intros Hn Hs k Hok. apply wp_bind, wp_alloc_page; [done| |].
  - intros k' Hok' _. by apply Hn.
  - intros k' p pa Hp Hv Hm _ Hok'. by eapply Hs.
Qed.

Lemma wp_update_vm a f v (Q : unit -> kstate -> Prop) E s :
  ks_heap s !! a = Some (OVm v) ->
  Q tt (with_heap (<[a := OVm (f v)]> (ks_heap s)) s) -> wp (update_vm a f) Q E s.
Proof. intros Hv HQ. unfold update_vm. apply wp_bind. by eapply wp_get_obj. Qed.

Lemma wp_update_vcpu a f v (Q : unit -> kstate -> Prop) E s :
  ks_heap s !! a = Some (OVcpu v) ->
  Q tt (with_heap (<[a := OVcpu (f v)]> (ks_heap s)) s) -> wp (update_vcpu a f) Q E s.
Proof. intros Hv HQ. unfold update_vcpu. apply wp_bind. by eapply wp_get_obj. Qed.

Lemma wp_update_vmm a f v (Q : unit -> kstate -> Prop) E s :
  ks_heap s !! a = Some (OVmm v) ->
  Q tt (with_heap (<[a := OVmm (f v)]> (ks_heap s)) s) -> wp (update_vmm a f) Q E s.
Proof. intros Hv HQ. unfold update_vmm. apply wp_bind. by eapply wp_get_obj. Qed.

End kernel_facts.

(** Projections and updates of states in the form
    [with_heap h (with_mem k m s)]. *)
Ltac mem_change T :=
  lazymatch T with
  | ks_pages (with_mem ?k ?m ?s) => m
  | ks_mm (with_mem ?k ?m ?s) => k
  | ks_heap (with_mem ?k ?m ?s) => constr:(ks_heap s)
  | ks_files (with_mem ?k ?m ?s) => constr:(ks_files s)
  | ks_pages (with_heap ?h ?s) => constr:(ks_pages s)
  | ks_mm (with_heap ?h ?s) => constr:(ks_mm s)
  | ks_heap (with_heap ?h ?s) => h
  | ks_files (with_heap ?h ?s) => constr:(ks_files s)
  | with_mem ?k ?m (with_mem _ _ ?s) => constr:(with_mem k m s)
  | with_heap ?h (with_heap _ ?s) => constr:(with_heap h s)
  | with_mem ?k ?m (with_heap ?h ?s) => constr:(with_heap h (with_mem k m s))
  end.
Ltac mem_simpl :=
  repeat match goal with
  | |- context [?T] => let T' := mem_change T in change T with T'
  | H : context [?T] |- _ => let T' := mem_change T in change T with T' in H
  end.

(** Pages taken and given back. *)
Lemma pages_restored (X : gset Z) (m m1 m2 : gmap Z page) :
  m ⊆ m1 -> dom m1 = dom m ∪ X -> X ## dom m ->
  (forall x, x ∈ X -> m2 !! x = None) -> (forall x, x ∉ X -> m2 !! x = m1 !! x) -> m2 = m.
Proof.
  intros Hs Hd Hx Hn Hf. apply map_eq. intros x. destruct (decide (x ∈ X)) as [Hi|Hi].
  - rewrite Hn by done. symmetry. apply not_elem_of_dom. set_solver.
  - rewrite Hf by done. destruct (m !! x) eqn:Hm; [by eapply lookup_weaken|].
    apply not_elem_of_dom. apply not_elem_of_dom in Hm. rewrite Hd. set_solver.
Qed.
