(* ===== verification/Concrete.v ===== *)
(** * A concrete kernel

    An executable instance of the kernel's services, used to evaluate the
    driver on concrete inputs. Its allocators keep the sets of what is in use,
    hand out what lies above, and follow a script of answers: [false] makes the
    next allocation fail; after the script they all succeed. *)

From S2P Require Import Prelude Structs Kernel.

Record cmm : Type := CMM {
  c_pages : gset Z;
  c_objs : gset Z;
  c_fds : gset Z;
  c_script : list bool
}.

#[global] Instance eta_cmm : Eta cmm := fun c =>
  CMM (c_pages c) (c_objs c) (c_fds c) (c_script c).

Definition set_max (base : Z) (X : gset Z) : Z := foldr Z.max base (elements X).

(** The next answer of the script. *)
Definition next_answer (c : cmm) : bool * cmm :=
  match c_script c with
  | [] => (true, c)
  | b :: l => (b, c <| c_script := l |>)
  end.

Definition c_alloc_pages (c : cmm) (o : Z) : option Z * cmm :=
  let '(ok, c) := next_answer c in
  let n := set_max 0 (c_pages c) / PAGE_SIZE + 1 in
  if ok && (n + 2 ^ o <=? 2 ^ 40)
  then (Some (0xffffea0000000000 + 64 * n), c <| c_pages := frames n (2 ^ o) ∪ c_pages c |>)
  else (None, c).

Definition c_free_pages (c : cmm) (pa o : Z) : cmm :=
  c <| c_pages := c_pages c ∖ frames (pa / PAGE_SIZE) (2 ^ o) |>.

Definition c_kmalloc (c : cmm) : option Z * cmm :=
  let '(ok, c) := next_answer c in
  let a := set_max 0xffff888100000000 (c_objs c) + 192 in
  if ok && (a <? 2 ^ 64 - 4096) then (Some a, c <| c_objs := {[a]} ∪ c_objs c |>) else (None, c).

Definition c_kfree (c : cmm) (a : Z) : cmm := c <| c_objs := c_objs c ∖ {[a]} |>.

Definition c_getfd (c : cmm) : Z * cmm :=
  let '(ok, c) := next_answer c in
  let fd := set_max 2 (c_fds c) + 1 in
  if ok && (fd <? 2 ^ 31) then (fd, c <| c_fds := {[fd]} ∪ c_fds c |>) else (-24, c).

Definition c_putfd (c : cmm) (fd : Z) : cmm := c <| c_fds := c_fds c ∖ {[fd]} |>.

Definition concrete : KernelOps := {|
  mm := cmm;
  alloc_pages_op := c_alloc_pages;
  free_pages_op := c_free_pages;
  get_page_op k _ := k;
  misc_register_op k := let '(ok, k) := next_answer k in (if ok then 0 else -12, k);
  misc_deregister_op k := k;
  kmalloc_op := c_kmalloc;
  kfree_op := c_kfree;
  getfd_op := c_getfd;
  putfd_op := c_putfd;
  page_to_phys p := (p - 0xffffea0000000000) / 64 * PAGE_SIZE;
  pfn_to_page n := 0xffffea0000000000 + 64 * n;
  phys_to_virt pa := pa + 0xffff888000000000;
  virt_to_phys v := v - 0xffff888000000000;
  get_order size := Z.log2_up ((size + 4095) / PAGE_SIZE);
  umem := gmap Z registers.t;
  copy_to_user u a r := if a =? 0 then (144, u) else (0, <[a := r]> u);
  copy_from_user u a := match u !! a with Some r => (0, r) | None => (144, registers.zero) end;
  remap_pfn_range u _ _ _ := (0, u);
  x86_vendor _ := 2;
  cpu_has_svm _ := true;
  cpuid_ebx leaf := if leaf =? 0x8000000a then 16 else 0;
  task_pid := 1000
|}.

(** A freshly booted machine whose allocators follow [script]. *)
Definition boot (script : list bool) : @kstate concrete :=
  KState concrete (CMM ∅ ∅ ∅ script) ∅ ∅ ∅ ∅ 1 0 false
    [pcpu.mk 0 true 0xd01 0 hidden.zero; pcpu.mk 0 true 0xd01 0 hidden.zero] 0.

Lemma set_max_base base X : base <= set_max base X.
Proof. unfold set_max. induction (elements X); simpl; lia. Qed.

Lemma set_max_elem base X x : x ∈ X -> x <= set_max base X.
Proof.
  rewrite <- elem_of_elements. unfold set_max.
  induction (elements X) as [|y l IH]; simpl; [by intros ?%not_elem_of_nil|].
  intros [->|Hx]%elem_of_cons; [lia|]. specialize (IH Hx). lia.
Qed.

Lemma next_answer_used c b c' :
  next_answer c = (b, c') ->
  c_pages c' = c_pages c /\ c_objs c' = c_objs c /\ c_fds c' = c_fds c.
Proof. unfold next_answer. destruct (c_script c); by intros [= <- <-]. Qed.

Ltac next_ans c :=
  let b := fresh "b" in let c' := fresh "c'" in
  let Hp := fresh "Hp" in let Ho := fresh "Ho" in let Hf := fresh "Hf" in
  destruct (next_answer c) as [b c'] eqn:Hans;
  apply next_answer_used in Hans as (Hp & Ho & Hf).

#[global] Instance concrete_laws : KernelLaws concrete.
Proof.
  refine {| used_pages := c_pages : @mm concrete -> gset Z; used_objs := c_objs; used_fds := c_fds |}.
  - intros k o p k' Ho. simpl. unfold c_alloc_pages. next_ans k.
    destruct b; simpl; [|done].
    set (n := set_max 0 (c_pages c') / PAGE_SIZE + 1).
    destruct (Z.leb_spec (n + 2 ^ o) (2 ^ 40)); [|done]. intros [= <- <-]. simpl.
    split; [done|]. split; [done|]. exists n. split; [done|].
    pose proof (set_max_base 0 (c_pages c')) as Hb. unfold PAGE_SIZE in *.
    split; [subst n; pose proof (Z.div_pos _ 4096 Hb); lia|]. split; [done|].
    rewrite <- Hp. split; [|done].
    intros x (i & Hi & ->)%elem_of_frames Hx. apply (set_max_elem 0) in Hx.
    unfold PAGE_SIZE in *.
    pose proof (Z.mul_succ_div_gt (set_max 0 (c_pages c')) 4096). subst n. nia.
  - intros k o k'. simpl. unfold c_alloc_pages. next_ans k.
    destruct (b && _); [done|]. by intros [= <-].
  - intros k n o Ho Hs. simpl. unfold PAGE_SIZE. by rewrite Z.div_mul by lia.
  - done.
  - intros k r k'. simpl. next_ans k. by intros [= <- <-].
  - done.
  - intros k a k'. simpl. unfold c_kmalloc. next_ans k.
    destruct b; simpl; [|done]. set (x := set_max _ _ + 192).
    destruct (Z.ltb_spec x (2 ^ 64 - 4096)); [|done]. intros [= <- <-]. simpl.
    pose proof (set_max_base 0xffff888100000000 (c_objs c')).
    split; [subst x; lia|]. split; [|by rewrite <- Ho].
    rewrite <- Ho. intros Hx%(set_max_elem 0xffff888100000000). subst x. lia.
  - intros k k'. simpl. unfold c_kmalloc. next_ans k.
    destruct (b && _); [done|]. by intros [= <-].
  - done.
  - intros k fd k'. simpl. unfold c_getfd. next_ans k.
    pose proof (set_max_base 2 (c_fds c')).
    set (x := set_max _ _ + 1).
    destruct (b && (x <? 2 ^ 31)) eqn:Hb; intros [= <- <-]; simpl;
      (split; [done|]); (split; [done|]);
      [|split; [lia|done]].
    apply andb_true_iff in Hb as [_ Hb%Z.ltb_lt].
    split; [subst x; lia|]. rewrite bool_decide_true by (subst x; lia).
    rewrite <- Hf. split; [|done]. intros Hx%(set_max_elem 2). subst x. lia.
  - done.
  - intros n Hn. simpl. replace (_ - _) with (n * 64) by lia. by rewrite Z.div_mul.
  - intros pa Hpa. simpl. lia.
  - intros size Hs. simpl. set (q := (size + 4095) / PAGE_SIZE).
    assert (1 <= q <= 2 ^ 28 /\ size <= PAGE_SIZE * q) as [Hq Hsq].
    { subst q. unfold PAGE_SIZE in *.
      pose proof (Z.div_mod (size + 4095) 4096). pose proof (Z.mod_pos_bound (size + 4095) 4096).
      split; [|lia]. split; [lia|]. lia. }
    split; [split; [apply Z.log2_up_nonneg|]|].
    + apply Z.log2_up_le_pow2; lia.
    + destruct (decide (q = 1)) as [Hq1|Hq1]; [|].
      { rewrite Hq1 in *. change (PAGE_SIZE * 2 ^ Z.log2_up 1) with (PAGE_SIZE * 1). lia. }
      pose proof (Z.log2_up_spec q). unfold PAGE_SIZE in *. nia.
  - done.
  - intros u a r u' n. simpl. destruct (a =? 0); intros [= <- <-]; lia.
  - intros u a r u'. simpl. destruct (a =? 0); [done|]. intros [= <-].
    by rewrite lookup_insert_eq.
Defined.

Lemma boot_ok script : mm_ok (boot script).
Proof. split; simpl; set_solver. Qed.
