(* ===== verification/Npt.v ===== *)
(** * Nested page tables: driver/memory.c and include/memory.h

    [yakvm_vmm_npt_create] walks the four levels of the nested page table of a
    guest, creating what is missing; [yakvm_create_vmm] makes an empty table
    with the MMIO page intercepted and [yakvm_destroy_vmm] frees a table. The
    abstract state of a table is a tree: a finite map from the path of indices
    to the page found there. *)

From S2P Require Import Prelude Structs Kernel Concrete.

Section npt.
Context `{K : KernelOps} `{C : Config}.

(** ** Definitions *)

Definition table_index (addr level : Z) : KM Z :=
  if level =? PT then mret (Z.land (Z.shiftr addr P_SHIFT) (PTRS_PER_PAGE - 1))
  else if level =? PDT then mret (Z.land (Z.shiftr addr PD_SHIFT) (PTRS_PER_PAGE - 1))
  else if level =? PDPT then mret (Z.land (Z.shiftr addr PDP_SHIFT) (PTRS_PER_PAGE - 1))
  else if level =? PML4T then mret (Z.land (Z.shiftr addr PML4_SHIFT) (PTRS_PER_PAGE - 1))
  else kassert false ;; mret 0.

(** transfer physical base address to its page physical address *)
Definition yakvm_vmm_page (pa : Z) : Z := Z.land (Z.land pa PHYS_ADDR_MASK) PAGE_MASK.

(** transfer physical base address to virtual address *)
Definition yakvm_vmm_phys_to_virt (pa : Z) : Z := phys_to_virt (yakvm_vmm_page pa).

Definition has_flag (entry flag : Z) : bool := negb (Z.land entry flag =? 0).

(** The [for] loop over the levels, [level] counting down to [PT]; [r] is the
    local of that name, which the loop sets and nobody reads. *)
Fixpoint npt_create_levels (gpa : Z) (level : nat) (entry table index : Z) (r : option Z) :
    KM (Z + Z * Z * Z) :=
  match level with
  | O => mret (inr (entry, table, index))
  | S level' =>
      index ← table_index gpa (Z.of_nat level);
      let table := yakvm_vmm_phys_to_virt entry in
      entry ← load_word table index;
      step ← (if entry =? 0 then
                page ← alloc_page;
                match page with
                | None => mret (inl (- ENOMEM))
                | Some page =>
                    let entry := Z.lor (Z.lor (Z.lor (page_to_phys page) _PAGE_PRESENT)
                                          _PAGE_RW) _PAGE_USER in
                    store_word table index entry ;;
                    mret (inr (entry, r))
                end
              else if Z.of_nat level =? PT then mret (inr (entry, Some (- EEXIST)))
              else mret (inr (entry, r)));
      match step with
      | inl e => mret (inl e)
      | inr (entry, r) =>
          kassert (has_flag entry _PAGE_PRESENT && has_flag entry _PAGE_RW &&
                   has_flag entry _PAGE_USER) ;;
          npt_create_levels gpa level' entry table index r
      end
  end.

(** create the pte for [gpa] *)
Definition yakvm_vmm_npt_create (vmm gpa : Z) (is_mmio : bool) : KM err_ptr :=
  v ← get_vmm vmm;
  res ← npt_create_levels gpa (Z.to_nat PML4T) (vmm.ncr3 v) 0 0 None;
  match res with
  | inl r => mret (inl r)
  | inr (entry, table, index) =>
      (if is_mmio : bool then
         e ← load_word table index;
         store_word table index (Z.land e (not64 _PAGE_PRESENT))
       else mret tt) ;;
      mret (inr (pfn_to_page (Z.shiftr entry PAGE_SHIFT)))
  end.

Definition yakvm_create_vmm (vm : Z) : KM err_ptr :=
  pml4t ← alloc_page;
  match pml4t with
  | None => mret (inl (- ENOMEM))
  | Some pml4t =>
      vmm ← kmalloc (OVmm vmm.zero);
      match vmm with
      | None => __free_page pml4t ;; mret (inl (- ENOMEM))
      | Some vmm =>
          update_vmm vmm (fun v => v <| vmm.ncr3 := page_to_phys pml4t |>) ;;
          update_vmm vmm (fun v => v <| vmm.vm := vm |>) ;;
          mmio ← yakvm_vmm_npt_create vmm YAKVM_MMIO_HAWK true;
          if IS_ERR mmio then
            let r := PTR_ERR mmio in
            kfree vmm ;; __free_page pml4t ;; mret (inl r)
          else mret (inr vmm)
      end
  end.

Fixpoint yakvm_vmm_destroy_table (table : Z) (level : nat) : KM unit :=
  match level with
  | O => halt BadAccess     (** the recursion stops at [PT] *)
  | S level' =>
      foreach (seqZ 0 PTRS_PER_PAGE) (fun idx =>
        entry ← load_word table idx;
        if entry =? 0 then mret tt
        else
          kassert (has_flag entry _PAGE_USER && has_flag entry _PAGE_RW) ;;
          if Z.of_nat level =? PT then free_page (yakvm_vmm_phys_to_virt entry)
          else yakvm_vmm_destroy_table (yakvm_vmm_phys_to_virt entry) level') ;;
      free_page table
  end.

Definition yakvm_destroy_vmm (vmm : Z) : KM unit :=
  v ← get_vmm vmm;
  yakvm_vmm_destroy_table (yakvm_vmm_phys_to_virt (vmm.ncr3 v)) (Z.to_nat PML4T) ;;
  kfree vmm.

(** ** Specification

    The index of a guest physical address at a level, and its path from the
    root. *)
Definition index (gpa level : Z) : Z := Z.shiftr gpa (12 + 9 * (level - 1)) mod 512.

Fixpoint path_from (gpa : Z) (level : nat) : list Z :=
  match level with
  | O => []
  | S l => index gpa (Z.of_nat level) :: path_from gpa l
  end.

Definition path (gpa : Z) : list Z := path_from gpa 4.

(** The processor's walk of a nested page table (AMD64 APM volume 2, 5.3 and
    15.25): four levels, every entry present, the page of the last. *)
Fixpoint hw_walk (m : gmap Z page) (level : nat) (table gpa : Z) : option Z :=
  match level with
  | O => Some table
  | S l =>
      p ← m !! table;
      ws ← as_words p;
      e ← ws !! Z.to_nat (index gpa (Z.of_nat level));
      if Z.testbit e 0 then hw_walk m l ((e / 4096) mod 2 ^ 40 * 4096) gpa else None
  end.

(** Translation of a guest physical address to a system physical address. *)
Definition hw_translate (m : gmap Z page) (ncr3 gpa : Z) : option Z :=
  pa ← hw_walk m 4 ncr3 gpa; Some (pa + gpa mod 4096).

(** The abstract tree: the page at a path, and whether its entry is present. *)
#[local] Abbreviation tree := (gmap (list Z) (Z * bool)).

Definition flags (present : bool) : Z := if present then 7 else 6.

Definition encode (n : Z * bool) : Z := n.1 + flags n.2.

(** The entry a tree has for child [i] of the table at [p]. *)
Definition child_entry (t : tree) (p : list Z) (i : Z) : Z :=
  match t !! (p ++ [i]) with Some n => encode n | None => 0 end.

(** The pages [m] hold the table of root [root] whose tree is [t]. *)
Record npt_repr (m : gmap Z page) (root : Z) (t : tree) : Prop := {
  repr_root : t !! [] = Some (root, true);
  repr_path p n : t !! p = Some n -> (length p <= 4)%nat /\ Forall (fun i => 0 <= i < 512) p;
  repr_parent p i n : t !! (p ++ [i]) = Some n -> exists a, t !! p = Some (a, true);
  repr_inj p q a b c : t !! p = Some (a, b) -> t !! q = Some (a, c) -> p = q;
  repr_addr p a b : t !! p = Some (a, b) -> valid_pa a;
  repr_table p a b : t !! p = Some (a, b) ->
    exists ws, m !! a = Some (PWords ws) /\ length ws = 512%nat /\
      ((length p < 4)%nat -> b = true /\
        forall i, 0 <= i < 512 -> ws !! Z.to_nat i = Some (child_entry t p i))
}.

End npt.

Abbreviation tree := (gmap (list Z) (Z * bool)).

#[export] Hint Unfold valid_pa : yakvm.

(** ** Entries *)

Lemma valid_pa_mul a : valid_pa a -> exists n, a = n * 4096 /\ 0 < n < 2 ^ 40.
Proof. apply valid_pa_frame. Qed.

Lemma flags_range b : 0 <= flags b < 4096.
Proof. by destruct b. Qed.

Lemma encode_range n : valid_pa n.1 -> 0 < encode n < 2 ^ 52.
Proof.
  intros (k & Hk & Hr)%valid_pa_mul. unfold encode. pose proof (flags_range n.2). lia.
Qed.

Lemma encode_nonzero n : valid_pa n.1 -> (encode n =? 0) = false.
Proof. intros H%encode_range. lia. Qed.

Lemma encode_testbit n i :
  valid_pa n.1 -> 0 <= i < 12 -> Z.testbit (encode n) i = Z.testbit (flags n.2) i.
Proof.
  intros (k & Hk & Hr)%valid_pa_mul Hi. unfold encode. rewrite Hk.
  rewrite <- (Z.mod_pow2_bits_low _ 12 i) by lia. change (2 ^ 12) with 4096.
  rewrite Z.add_comm, Z_mod_plus_full, Z.mod_small by apply flags_range. done.
Qed.

Lemma has_flag_testbit e i : 0 <= i -> has_flag e (2 ^ i) = Z.testbit e i.
Proof.
  intros Hi. unfold has_flag. destruct (Z.testbit e i) eqn:Hb.
  - destruct (Z.eqb_spec (Z.land e (2 ^ i)) 0) as [H0|]; [|done].
    assert (Z.testbit (Z.land e (2 ^ i)) i = true) as Ht.
    { by rewrite Z.land_spec, Hb, Z.pow2_bits_true. }
    by rewrite H0, Z.bits_0 in Ht.
  - replace (Z.land e (2 ^ i)) with 0; [done|]. symmetry. apply Z.bits_inj'. intros j Hj.
    rewrite Z.land_spec, Z.bits_0, Z.pow2_bits_eqb by done.
    destruct (Z.eqb_spec i j) as [->|]; [by rewrite Hb | apply andb_false_r].
Qed.

Lemma encode_present n : valid_pa n.1 -> has_flag (encode n) _PAGE_PRESENT = n.2.
Proof.
  intros H. change _PAGE_PRESENT with (2 ^ 0). rewrite has_flag_testbit by lia.
  rewrite encode_testbit by (done || lia). by destruct n as [a []].
Qed.

Lemma encode_rw n : valid_pa n.1 -> has_flag (encode n) _PAGE_RW = true.
Proof.
  intros H. change _PAGE_RW with (2 ^ 1). rewrite has_flag_testbit by lia.
  rewrite encode_testbit by (done || lia). by destruct n as [a []].
Qed.

Lemma encode_user n : valid_pa n.1 -> has_flag (encode n) _PAGE_USER = true.
Proof.
  intros H. change _PAGE_USER with (2 ^ 2). rewrite has_flag_testbit by lia.
  rewrite encode_testbit by (done || lia). by destruct n as [a []].
Qed.

Lemma encode_frame n : valid_pa n.1 -> encode n / 4096 = n.1 / 4096.
Proof.
  intros (k & Hk & Hr)%valid_pa_mul. unfold encode. rewrite Hk.
  rewrite Z.add_comm, Z.div_add, Z.div_mul by lia.
  by rewrite Z.div_small by apply flags_range.
Qed.

Lemma encode_shiftr n : valid_pa n.1 -> Z.shiftr (encode n) PAGE_SHIFT = n.1 / PAGE_SIZE.
Proof. intros H. unfold PAGE_SHIFT. rewrite Z.shiftr_div_pow2 by lia. by apply encode_frame. Qed.

Lemma encode_walk n : valid_pa n.1 -> (encode n / 4096) mod 2 ^ 40 * 4096 = n.1.
Proof.
  intros H. rewrite encode_frame by done. apply valid_pa_mul in H as (k & -> & Hr).
  rewrite Z.div_mul, Z.mod_small by lia. done.
Qed.

Lemma yakvm_vmm_page_spec x : u64 x -> yakvm_vmm_page x = (x / 4096) mod 2 ^ 40 * 4096.
Proof.
  intros Hx. unfold yakvm_vmm_page.
  change PHYS_ADDR_MASK with (Z.ones 52). change PAGE_MASK with (not64 (Z.ones 12)).
  rewrite (Z.land_ones x 52) by lia. unfold u64 in Hx.
  assert (0 <= x mod 2 ^ 52 < 2 ^ 52) by (apply Z.mod_pos_bound; lia).
  rewrite land_not64, ldiff_ones_mod by (unfold u64; lia).
  change (2 ^ 52) with (4096 * 2 ^ 40). rewrite Z.rem_mul_r by lia.
  change (2 ^ 12) with 4096.
  rewrite (Z.mul_comm 4096), Z_mod_plus_full, Z.mod_mod by lia. lia.
Qed.

Lemma yakvm_vmm_page_encode n : valid_pa n.1 -> yakvm_vmm_page (encode n) = n.1.
Proof.
  intros H. pose proof (encode_range _ H).
  rewrite yakvm_vmm_page_spec by (unfold u64; lia). by apply encode_walk.
Qed.

Lemma yakvm_vmm_page_valid a : valid_pa a -> yakvm_vmm_page a = a.
Proof.
  intros (k & -> & Hr)%valid_pa_mul. rewrite yakvm_vmm_page_spec by (unfold u64; lia).
  by rewrite Z.div_mul, Z.mod_small by lia.
Qed.

(** The accessed and dirty bits, 5 and 6 of an entry that has them clear, are read
    by nobody: the tests of the driver, the page it takes from the entry and the
    walk of the processor see the same without them. *)
Lemma ad_bits_unread n ad :
  valid_pa n.1 -> ad ∈ [0; 2 ^ 5; 2 ^ 6; 2 ^ 5 + 2 ^ 6] ->
  (encode n + ad =? 0) = (encode n =? 0) /\
  (forall i, 0 <= i < 5 -> has_flag (encode n + ad) (2 ^ i) = has_flag (encode n) (2 ^ i)) /\
  yakvm_vmm_page (encode n + ad) = yakvm_vmm_page (encode n) /\
  (encode n + ad) / 4096 = encode n / 4096.
Proof.
  intros H Had. pose proof (valid_pa_mul _ H) as (k & Hk & Hr). pose proof (flags_range n.2) as Hf.
  assert (0 <= ad < 128 /\ ad mod 32 = 0) as [Ha Hm].
  { rewrite !elem_of_cons in Had. destruct Had as [->|[->|[->|[->|Hn]]]]; [done..|].
    by apply not_elem_of_nil in Hn. }
  assert (flags n.2 <= 7) as Hf7 by (by destruct n.2).
  assert ((encode n + ad) / 4096 = encode n / 4096) as Hdiv.
  { unfold encode. rewrite Hk. Z.to_euclidean_division_equations; lia. }
  split; [unfold encode; rewrite Hk; lia|]. split; [|split; [|done]].
  - intros i Hi. rewrite !has_flag_testbit by lia.
    rewrite <- (Z.mod_pow2_bits_low (_ + _) 5 i), <- (Z.mod_pow2_bits_low (encode n) 5 i) by lia.
    f_equal. change (2 ^ 5) with 32. rewrite Z.add_mod, Hm, Z.add_0_r, Z.mod_mod by lia. done.
  - pose proof (encode_range _ H). rewrite !yakvm_vmm_page_spec, Hdiv; [done|..];
      unfold u64; lia.
Qed.

(** The entry the code stores for a new page. *)
Lemma encode_new a :
  valid_pa a ->
  Z.lor (Z.lor (Z.lor a _PAGE_PRESENT) _PAGE_RW) _PAGE_USER = encode (a, true).
Proof.
  intros (k & -> & Hr)%valid_pa_mul. rewrite <- !Z.lor_assoc.
  change (Z.lor _PAGE_PRESENT (Z.lor _PAGE_RW _PAGE_USER)) with 7.
  apply (lor_add_low 12); [lia| |lia]. apply Z_mod_mult.
Qed.

(** Clearing the present bit of an entry. *)
Lemma encode_hide a :
  valid_pa a -> Z.land (encode (a, true)) (not64 _PAGE_PRESENT) = encode (a, false).
Proof.
  intros Ha. pose proof (encode_range (a, true) Ha) as Hr.
  change _PAGE_PRESENT with (Z.ones 1).
  rewrite land_not64, ldiff_ones_mod by (unfold u64; lia).
  unfold encode. simpl. change (2 ^ 1) with 2.
  apply valid_pa_mul in Ha as (k & -> & _).
  replace (k * 4096 + 7) with (1 + (k * 2048 + 3) * 2) by lia.
  rewrite Z_mod_plus_full. change (1 mod 2) with 1. lia.
Qed.

(** ** Indices and paths *)

Lemma index_range gpa level : 0 <= index gpa level < 512.
Proof. apply Z.mod_pos_bound. lia. Qed.

Lemma table_index_spec `{K : KernelOps} gpa level (s : kstate) :
  1 <= level <= 4 -> table_index gpa level s = Ok (index gpa level) s.
Proof.
  intros Hl. unfold index. change 512 with (2 ^ 9). rewrite <- Z.land_ones by lia.
  assert (level = 1 \/ level = 2 \/ level = 3 \/ level = 4) as [->|[->|[->| ->]]] by lia; done.
Qed.

Lemma path_from_length gpa l : length (path_from gpa l) = l.
Proof. induction l; simpl; congruence. Qed.

Lemma path_from_range gpa l : Forall (fun i => 0 <= i < 512) (path_from gpa l).
Proof. induction l; simpl; constructor; auto using index_range. Qed.

(** The number of the guest page of an address: the hardware looks at 48 bits. *)
Definition guest_page (gpa : Z) : Z := (gpa / 4096) mod 2 ^ 36.

(** The page number a path of indices spells, most significant first. *)
Definition path_number (p : list Z) : Z := foldl (fun acc i => acc * 512 + i) 0 p.

Lemma index_div gpa l : index gpa (Z.of_nat (S l)) = (gpa / 4096 / 512 ^ Z.of_nat l) mod 512.
Proof.
  unfold index. rewrite Z.shiftr_div_pow2 by lia.
  replace (12 + 9 * (Z.of_nat (S l) - 1)) with (12 + 9 * Z.of_nat l) by lia.
  change 512 with (2 ^ 9) at 2. change 4096 with (2 ^ 12).
  rewrite <- Z.pow_mul_r, Z.div_div, <- Z.pow_add_r by lia. done.
Qed.

Lemma path_from_number gpa l acc :
  foldl (fun acc i => acc * 512 + i) acc (path_from gpa l) =
  acc * 512 ^ Z.of_nat l + (gpa / 4096) mod 512 ^ Z.of_nat l.
Proof.
  revert acc. induction l as [|l IH]; intros acc.
  - cbn [path_from foldl]. change (512 ^ Z.of_nat 0) with 1. rewrite Z.mod_1_r. lia.
  - cbn [path_from foldl]. rewrite IH, index_div.
    replace (Z.of_nat (S l)) with (Z.of_nat l + 1) by lia.
    rewrite Z.pow_add_r by lia. change (512 ^ 1) with 512.
    assert (0 < 512 ^ Z.of_nat l) by lia.
    rewrite (Z.rem_mul_r (gpa / 4096) (512 ^ Z.of_nat l) 512) by lia. lia.
Qed.

Lemma path_number_path gpa : path_number (path gpa) = guest_page gpa.
Proof. apply (path_from_number gpa 4 0). Qed.

Lemma path_eq_page gpa gpa' : path gpa = path gpa' <-> guest_page gpa = guest_page gpa'.
Proof.
  split; [intros H; by rewrite <- !path_number_path, H|].
  intros H. unfold path. unfold guest_page in H.
  change (2 ^ 36) with (512 ^ Z.of_nat 4) in H. revert H.
  generalize 4%nat as n. induction n as [|l IH]; [done|]. intros H. cbn [path_from].
  replace (Z.of_nat (S l)) with (Z.of_nat l + 1) in H by lia.
  rewrite Z.pow_add_r in H by lia. change (512 ^ 1) with 512 in H.
  assert (0 < 512 ^ Z.of_nat l) by lia.
  rewrite !(Z.rem_mul_r _ (512 ^ Z.of_nat l) 512) in H by lia.
  apply add_mul_inj in H as [Hlow Hhigh]; [|by apply Z.mod_pos_bound..].
  rewrite !index_div. f_equal; [done|by apply IH].
Qed.

(** ** The tree of a table *)

Definition tree_pages (t : tree) : gset Z := map_img (fst <$> t).

Lemma elem_of_tree_pages t x : x ∈ tree_pages t <-> exists q b, t !! q = Some (x, b).
Proof.
  unfold tree_pages. rewrite elem_of_map_img. setoid_rewrite lookup_fmap_Some.
  split; [intros (q & [y b] & <- & Hq); eauto | intros (q & b & Hq)].
  exists q, (x, b). done.
Qed.

Lemma child_entry_insert p i n t : child_entry (<[p ++ [i] := n]> t) p i = encode n.
Proof. unfold child_entry. by rewrite lookup_insert_eq. Qed.

Lemma child_entry_insert_ne p i q j n t :
  (q, j) <> (p, i) -> child_entry (<[p ++ [i] := n]> t) q j = child_entry t q j.
Proof.
  intros Hne. unfold child_entry. rewrite lookup_insert_ne; [done|].
  intros [-> ->]%app_inj_tail. done.
Qed.

Section repr.
Context {m : gmap Z page} {root : Z} {t : tree} (R : npt_repr m root t).

Lemma repr_none_app p q : t !! p = None -> t !! (p ++ q) = None.
Proof using R.
  intros Hp. induction q as [|i q IH] using rev_ind; [by rewrite app_nil_r|].
  rewrite app_assoc. destruct (t !! ((p ++ q) ++ [i])) as [n|] eqn:Hn; [|done].
  destruct (repr_parent _ _ _ R _ _ _ Hn) as [a Ha]. congruence.
Qed.

Lemma repr_page p a b : t !! p = Some (a, b) -> is_Some (m !! a).
Proof using R. intros (ws & Hw & _)%(repr_table _ _ _ R). eauto. Qed.

Lemma repr_pages_dom : tree_pages t ⊆ dom m.
Proof using R.
  intros x (q & b & Hq)%elem_of_tree_pages. apply elem_of_dom. by eapply repr_page.
Qed.

Lemma repr_present p a b : t !! p = Some (a, b) -> (length p < 4)%nat -> b = true.
Proof using R. intros (ws & _ & _ & H)%(repr_table _ _ _ R) Hl. by apply H. Qed.

Lemma repr_no_child p i : length p = 4%nat -> t !! (p ++ [i]) = None.
Proof using R.
  intros Hl. destruct (t !! (p ++ [i])) as [n|] eqn:Hn; [|done].
  apply (repr_path _ _ _ R) in Hn as [Hn _]. rewrite length_app in Hn. simpl in Hn. lia.
Qed.

Lemma repr_lookup_entry p a i :
  t !! p = Some (a, true) -> (length p < 4)%nat -> 0 <= i < 512 ->
  exists ws, m !! a = Some (PWords ws) /\ ws !! Z.to_nat i = Some (child_entry t p i).
Proof using R.
  intros (ws & Hw & _ & H)%(repr_table _ _ _ R) Hl Hi. exists ws. split; [done|]. by apply H.
Qed.

(** Writing entry [i] of the table at [p]: page [b] becomes its child. Outside
    [b], which hangs nowhere else, [m'] is [m]. *)
Section set.
Context {m' : gmap Z page} {p : list Z} {i a : Z} {ws : list Z} {b : Z} {c : bool}.
Hypothesis (Hp : t !! p = Some (a, true)) (Hl : (length p < 4)%nat) (Hi : 0 <= i < 512).
Hypothesis (Hws : m !! a = Some (PWords ws)) (Hc : c = false -> length p = 3%nat).
Hypothesis (Hb : valid_pa b) (Hab : a <> b).
Hypothesis Hinj : forall q d, t !! q = Some (b, d) -> q = p ++ [i].
Hypothesis Hm' : forall x, x <> b -> m' !! x = m !! x.
Hypothesis Hnew : exists ws', m' !! b = Some (PWords ws') /\ length ws' = 512%nat /\
  ((length p < 3)%nat -> forall j, 0 <= j < 512 ->
     ws' !! Z.to_nat j = Some (child_entry t (p ++ [i]) j)).

Lemma set_other q n : t !! q = Some n -> q <> p ++ [i] -> n.1 <> b.
Proof using Hinj. destruct n as [x d]. simpl. intros Hq Hne ->. by eapply Hne, Hinj. Qed.

(** The pages hold the entries of the longer tree. *)
Lemma set_table q x d :
  <[p ++ [i] := (b, c)]> t !! q = Some (x, d) ->
  exists wq,
    <[a := PWords (<[Z.to_nat i := encode (b, c)]> ws)]> m' !! x = Some (PWords wq) /\
    length wq = 512%nat /\
    ((length q < 4)%nat -> d = true /\ forall j, 0 <= j < 512 ->
      wq !! Z.to_nat j = Some (child_entry (<[p ++ [i] := (b, c)]> t) q j)).
Proof using R Hp Hl Hi Hws Hc Hab Hinj Hm' Hnew.
  destruct Hnew as (ws' & Hw' & Hlen' & Hch').
  destruct (decide (q = p ++ [i])) as [->|Hne].
  - rewrite lookup_insert_eq. intros [= <- <-]. exists ws'.
    rewrite lookup_insert_ne by done. split; [done|]. split; [done|].
    rewrite length_app. simpl. intros Hl4. split; [destruct c; [done|]; pose proof (Hc eq_refl); lia|].
    intros j Hj. rewrite child_entry_insert_ne; [apply Hch'; [lia|done]|].
    intros [= Heq _]. apply (f_equal length) in Heq. rewrite length_app in Heq. simpl in Heq. lia.
  - rewrite lookup_insert_ne by done. intros Hq.
    destruct (repr_table _ _ _ R _ _ _ Hq) as (wq & Hwq & Hlq & Hcq).
    destruct (decide (x = a)) as [->|Hxa].
    + rewrite lookup_insert_eq. pose proof (repr_inj _ _ _ R _ _ _ _ _ Hq Hp) as ->.
      rewrite Hws in Hwq. injection Hwq as <-. eexists. split; [done|].
      rewrite length_insert. split; [done|]. intros Hl4. split; [by apply Hcq|].
      intros j Hj. destruct (decide (j = i)) as [->|Hji].
      * rewrite list_lookup_insert_eq by lia. by rewrite child_entry_insert.
      * rewrite list_lookup_insert_ne, child_entry_insert_ne by (congruence || lia).
        by apply Hcq.
    + rewrite lookup_insert_ne by done. rewrite Hm' by (by apply (set_other _ _ Hq)).
      exists wq. split; [done|]. split; [done|]. intros Hl4. split; [by apply Hcq|].
      intros j Hj. rewrite child_entry_insert_ne; [by apply Hcq|].
      intros [= -> ->]. congruence.
Qed.

Lemma repr_set :
  npt_repr (<[a := PWords (<[Z.to_nat i := encode (b, c)]> ws)]> m') root
    (<[p ++ [i] := (b, c)]> t).
Proof using R Hp Hl Hi Hws Hc Hb Hab Hinj Hm' Hnew.
  split; [..|apply set_table].
  - rewrite lookup_insert_ne by (by destruct p). apply (repr_root _ _ _ R).
  - intros q n. destruct (decide (q = p ++ [i])) as [->|Hne].
    + intros _. pose proof (repr_path _ _ _ R _ _ Hp) as [_ Hf].
      rewrite length_app. simpl. split; [lia|]. apply Forall_app; split; [done|]. by constructor.
    + rewrite lookup_insert_ne by done. apply (repr_path _ _ _ R).
  - intros q j n. destruct (decide (q ++ [j] = p ++ [i])) as [Heq|Hne].
    + intros _. apply app_inj_tail in Heq as [-> ->]. exists a.
      rewrite lookup_insert_ne; [done|]. intros Heq%(f_equal length).
      rewrite length_app in Heq. simpl in Heq. lia.
    + rewrite lookup_insert_ne by done. intros Hq.
      destruct (repr_parent _ _ _ R _ _ _ Hq) as [x Hx].
      destruct (decide (q = p ++ [i])) as [->|Hne']; [|exists x; by rewrite lookup_insert_ne].
      destruct c; [exists b; by rewrite lookup_insert_eq|].
      apply (repr_path _ _ _ R) in Hq as [Hq _]. rewrite !length_app in Hq. simpl in Hq.
      pose proof (Hc eq_refl). lia.
  - intros q1 q2 x d1 d2.
    destruct (decide (q1 = p ++ [i])) as [->|H1], (decide (q2 = p ++ [i])) as [->|H2];
      rewrite ?lookup_insert_eq, ?lookup_insert_ne by done; [done|..].
    + intros [= <- <-] Hq. exfalso. by apply (set_other _ _ Hq).
    + intros Hq [= <- <-]. exfalso. by apply (set_other _ _ Hq).
    + apply (repr_inj _ _ _ R).
  - intros q x d. destruct (decide (q = p ++ [i])) as [->|Hne].
    + rewrite lookup_insert_eq. by intros [= <- <-].
    + rewrite lookup_insert_ne by done. apply (repr_addr _ _ _ R).
Qed.

End set.

(** A fresh zeroed page becomes a child. *)
Lemma repr_new p i a ws b :
  t !! p = Some (a, true) -> (length p < 4)%nat -> 0 <= i < 512 ->
  t !! (p ++ [i]) = None -> m !! a = Some (PWords ws) ->
  valid_pa b -> m !! b = None ->
  npt_repr (<[a := PWords (<[Z.to_nat i := encode (b, true)]> ws)]> (<[b := zero_page]> m))
    root (<[p ++ [i] := (b, true)]> t).
Proof using R.
  intros Hp Hl Hi Hnone Hws Hb Hfresh.
  apply repr_set; try done; [congruence|..].
  - intros q d Hq. apply repr_page in Hq as [? Hq]. congruence.
  - intros x Hx. by rewrite lookup_insert_ne.
  - exists (replicate 512 0). rewrite lookup_insert_eq, length_replicate.
    split; [done|]. split; [done|]. intros _ j Hj. unfold child_entry.
    rewrite <- app_assoc, app_assoc, repr_none_app by done.
    rewrite lookup_replicate_2; [done|lia].
Qed.

(** A leaf loses its present bit. *)
Lemma repr_hide p i a ws b c :
  t !! p = Some (a, true) -> length p = 3%nat ->
  t !! (p ++ [i]) = Some (b, c) -> m !! a = Some (PWords ws) ->
  npt_repr (<[a := PWords (<[Z.to_nat i := encode (b, false)]> ws)]> m)
    root (<[p ++ [i] := (b, false)]> t).
Proof using R.
  intros Hp Hl Hi Hws.
  pose proof (repr_path _ _ _ R _ _ Hi) as [_ [_ Hr]%Forall_app].
  apply Forall_inv in Hr.
  apply repr_set; try done; [lia|..].
  - by eapply (repr_addr _ _ _ R).
  - intros ->. pose proof (repr_inj _ _ _ R _ _ _ _ _ Hp Hi) as Heq%(f_equal length).
    rewrite length_app in Heq. simpl in Heq. lia.
  - intros q d Hq. by eapply (repr_inj _ _ _ R).
  - destruct (repr_table _ _ _ R _ _ _ Hi) as (w & Hw & Hlen & _). exists w.
    split; [done|]. split; [done|]. lia.
Qed.

(** The processor finds in [m] what the tree says. *)
Lemma hw_walk_repr gpa l p a :
  t !! p = Some (a, true) -> (length p + l = 4)%nat ->
  hw_walk m l a gpa =
    match t !! (p ++ path_from gpa l) with Some (x, true) => Some x | _ => None end.
Proof using R.
  revert p a. induction l as [|l IH]; intros p a Hp Hl.
  { cbn [path_from hw_walk]. by rewrite app_nil_r, Hp. }
  cbn [path_from hw_walk]. set (i := index gpa (Z.of_nat (S l))).
  destruct (repr_lookup_entry p a i Hp) as (ws & Hws & Hi); [lia|apply index_range|].
  rewrite Hws. cbn -[Z.pow encode flags Z.testbit]. rewrite Hi. cbn -[Z.pow encode flags Z.testbit].
  rewrite cons_middle, app_assoc. unfold child_entry.
  destruct (t !! (p ++ [i])) as [[x b]|] eqn:Hx; [|by rewrite repr_none_app].
  pose proof (repr_addr _ _ _ R _ _ _ Hx) as Ha.
  rewrite encode_testbit by (done || lia). destruct b; cbn -[Z.pow encode flags Z.testbit].
  - rewrite (encode_walk (x, true)) by done. apply IH; [done|].
    rewrite length_app. simpl. lia.
  - destruct l as [|l]; [cbn [path_from]; by rewrite app_nil_r, Hx|].
    apply repr_present in Hx; [done|]. rewrite length_app. simpl. lia.
Qed.

Lemma hw_translate_repr gpa :
  hw_translate m root gpa =
    match t !! path gpa with Some (x, true) => Some (x + gpa mod 4096) | _ => None end.
Proof using R.
  unfold hw_translate. rewrite (hw_walk_repr gpa 4 [] root (repr_root _ _ _ R) eq_refl).
  change ([] ++ path_from gpa 4) with (path gpa). by destruct (t !! path gpa) as [[x []]|].
Qed.

End repr.

(** ** What a walk may do

    From pages [m] with tree [t] to pages [m'] with tree [t']: nodes are only
    added, on the path of [gpa], in pages that were not owned before; nothing
    outside the tree and no data page changes. *)
Record npt_ext (gpa : Z) (m : gmap Z page) (t : tree) (m' : gmap Z page) (t' : tree) : Prop := {
  ext_sub : t ⊆ t';
  ext_new q a b : t' !! q = Some (a, b) -> t !! q = None ->
    q `prefix_of` path gpa /\ b = true /\ m !! a = None;
  ext_frame x : x ∉ tree_pages t' -> m' !! x = m !! x;
  ext_data q a b : t !! q = Some (a, b) -> length q = 4%nat -> m' !! a = m !! a;
  ext_dom : dom m' = dom m ∪ tree_pages t'
}.

Section ext.
Context {gpa root : Z}.

Lemma tree_pages_mono t t' : t ⊆ t' -> tree_pages t ⊆ tree_pages t'.
Proof.
  intros Hs x (q & b & Hq)%elem_of_tree_pages. apply elem_of_tree_pages.
  exists q, b. by eapply lookup_weaken.
Qed.

Lemma npt_ext_refl m t : npt_repr m root t -> npt_ext gpa m t m t.
Proof.
  intros R. split; [done|congruence|done|done|].
  pose proof (repr_pages_dom R). set_solver.
Qed.

Lemma npt_ext_trans m1 t1 m2 t2 m3 t3 :
  npt_ext gpa m1 t1 m2 t2 -> npt_ext gpa m2 t2 m3 t3 -> npt_ext gpa m1 t1 m3 t3.
Proof.
  intros [S1 N1 F1 D1 M1] [S2 N2 F2 D2 M2].
  pose proof (tree_pages_mono _ _ S1). pose proof (tree_pages_mono _ _ S2). split.
  - by etrans.
  - intros q a b Hq3 Hq1. destruct (t2 !! q) as [n|] eqn:Hq2.
    + eapply N1; [|done]. rewrite <- Hq3, Hq2. symmetry. by eapply lookup_weaken.
    + destruct (N2 _ _ _ Hq3 Hq2) as (Hp & Hb & Hm). split; [done|]. split; [done|].
      apply not_elem_of_dom in Hm. apply not_elem_of_dom. set_solver.
  - intros x Hx. rewrite F2, F1; [done|set_solver|done].
  - intros q a b Hq Hl. erewrite D2, D1; [done|done|done|by eapply lookup_weaken|done].
  - rewrite M2, M1, <- (assoc_L (∪)). f_equal. by apply subseteq_union_1_L.
Qed.

(** Creating one table is such a step. *)
Lemma npt_ext_new m t p i a ws b v :
  npt_repr m root t -> t !! p = Some (a, true) -> (length p < 4)%nat ->
  p ++ [i] `prefix_of` path gpa ->
  t !! (p ++ [i]) = None -> m !! a = Some (PWords ws) -> m !! b = None ->
  npt_ext gpa m t (<[a := PWords v]> (<[b := zero_page]> m)) (<[p ++ [i] := (b, true)]> t).
Proof.
  intros R Hp Hl Hpre Hnone Hws Hb.
  assert (tree_pages (<[p ++ [i]:=(b, true)]> t) = {[b]} ∪ tree_pages t) as Hpages.
  { apply set_eq. intros x. rewrite elem_of_union, elem_of_singleton, !elem_of_tree_pages.
    split.
    - intros (q & d & Hq). destruct (decide (q = p ++ [i])) as [->|Hne].
      + rewrite lookup_insert_eq in Hq. injection Hq as <- <-. by left.
      + rewrite lookup_insert_ne in Hq by done. right. eauto.
    - intros [->|(q & d & Hq)]; [exists (p ++ [i]), true; by rewrite lookup_insert_eq|].
      exists q, d. rewrite lookup_insert_ne; [done|congruence]. }
  assert (a ∈ tree_pages t) as Ha by (apply elem_of_tree_pages; eauto).
  pose proof (repr_pages_dom R) as Hdom.
  split.
  - by apply insert_subseteq.
  - intros q x d Hq Hq0. destruct (decide (q = p ++ [i])) as [->|Hne].
    + rewrite lookup_insert_eq in Hq. by injection Hq as <- <-.
    + rewrite lookup_insert_ne in Hq by done. congruence.
  - intros x Hx. rewrite !lookup_insert_ne; set_solver.
  - intros q x d Hq Hlq. rewrite !lookup_insert_ne; [done|..].
    + intros ->. apply (repr_page R) in Hq as [? ?]. congruence.
    + intros ->. pose proof (repr_inj _ _ _ R _ _ _ _ _ Hq Hp) as ->. lia.
  - rewrite !dom_insert_L. set_solver.
Qed.

End ext.

(** ** The loop over the levels *)
Section levels.
Context `{L : KernelLaws}.
Implicit Types (s : kstate).

(** What the walk from the node at [p] leaves. *)
Definition levels_post (gpa root : Z) (s : kstate) (t : tree)
    (res : Z + Z * Z * Z) (s' : kstate) : Prop :=
  exists k m' t',
    s' = with_mem k m' s /\ mm_ok s' /\ npt_repr m' root t' /\
    npt_ext gpa (ks_pages s) t m' t' /\
    (is_Some (t !! path gpa) -> s' = s) /\
    match res with
    | inl e => e = - ENOMEM /\ t' !! path gpa = None /\
        exists k0 k1, alloc_pages_op k0 0 = (None, k1)
    | inr (entry, table, index) =>
        exists q b a, path gpa = q ++ [index] /\ t' !! q = Some (b, true) /\
          table = phys_to_virt b /\ t' !! path gpa = Some (a, true) /\
          entry = encode (a, true)
    end.

(** The walk stops in one case: the leaf is there and not present. *)
Definition levels_stop (gpa : Z) (t : tree) (w : stop) : Prop :=
  w = Panicked /\ exists a, t !! path gpa = Some (a, false).

Lemma levels_post_step gpa root s k m t1 t res s' :
  npt_ext gpa (ks_pages s) t m t1 ->
  (is_Some (t !! path gpa) -> with_mem k m s = s) ->
  levels_post gpa root (with_mem k m s) t1 res s' ->
  levels_post gpa root s t res s'.
Proof.
  intros He Hid (k' & m' & t' & -> & Hok & R & He' & Hid' & Hres).
  exists k', m', t'. split; [done|]. split; [done|]. split; [done|].
  split; [by eapply npt_ext_trans|]. split; [|done].
  intros Hp. rewrite Hid'; [by apply Hid|].
  destruct Hp as [x Hx]. exists x. eapply lookup_weaken; [done|apply He].
Qed.

(** The last level's node, as the loop leaves it. *)
Definition at_leaf (p : list Z) (t : tree) (a entry table index : Z) : Prop :=
  entry = encode (a, true) /\
  exists q b, p = q ++ [index] /\ t !! q = Some (b, true) /\ table = phys_to_virt b.

(** What the walk of [l] more levels from the node at [p] does. *)
Definition levels_spec (gpa root : Z) (l : nat) : Prop :=
  forall p entry tbl idx r s t a,
    mm_ok s -> npt_repr (ks_pages s) root t ->
    path gpa = p ++ path_from gpa l -> (length p + l = 4)%nat ->
    t !! p = Some (a, true) -> yakvm_vmm_page entry = a ->
    (l = 0%nat -> at_leaf p t a entry tbl idx) ->
    wp (npt_create_levels gpa l entry tbl idx r)
      (levels_post gpa root s t) (levels_stop gpa t) s.

(** The end of a round, the table or page of the next level being at hand; a leaf
    that is not present stops the machine. *)
Lemma wp_levels_next gpa root l p b (c : bool) i a r s t :
  levels_spec gpa root l ->
  mm_ok s -> npt_repr (ks_pages s) root t ->
  path gpa = (p ++ [i]) ++ path_from gpa l -> (length (p ++ [i]) + l = 4)%nat ->
  t !! p = Some (a, true) -> t !! (p ++ [i]) = Some (b, c) ->
  wp (kassert (has_flag (encode (b, c)) _PAGE_PRESENT && has_flag (encode (b, c)) _PAGE_RW &&
               has_flag (encode (b, c)) _PAGE_USER) ;;
      npt_create_levels gpa l (encode (b, c)) (phys_to_virt a) i r)
    (levels_post gpa root s t) (levels_stop gpa t) s.
Proof.
  intros IH Hok R Hpath Hlen Hp Hb.
  assert (valid_pa b) as Hvb by (by eapply (repr_addr _ _ _ R)).
  rewrite encode_present, encode_rw, encode_user by done. destruct c; simpl.
  - apply wp_bind, wp_ret. apply (IH (p ++ [i]) _ _ _ _ s t b); try done.
    + by apply (yakvm_vmm_page_encode (b, true)).
    + intros ->. split; [done|]. exists p, a. done.
  - destruct l as [|l'].
    + split; [done|]. exists b. rewrite Hpath. cbn [path_from]. by rewrite app_nil_r.
    + apply (repr_present R) in Hb; [done|]. lia.
Qed.

(** A new page on the path adds no hidden leaf. *)
Lemma levels_stop_new gpa q b t w :
  levels_stop gpa (<[q := (b, true)]> t) w -> levels_stop gpa t w.
Proof.
  intros (-> & x & Hx). split; [done|]. exists x.
  apply lookup_insert_Some in Hx as [[_ ?]|[_ ?]]; [congruence|done].
Qed.

(** A round that finds nothing: a page is allocated and linked. *)
Lemma wp_levels_new gpa root l p i ws a r s t :
  levels_spec gpa root l ->
  mm_ok s -> npt_repr (ks_pages s) root t ->
  path gpa = (p ++ [i]) ++ path_from gpa l -> (length (p ++ [i]) + l = 4)%nat ->
  t !! p = Some (a, true) -> 0 <= i < 512 -> t !! (p ++ [i]) = None ->
  ks_pages s !! a = Some (PWords ws) -> is_Some (ws !! Z.to_nat i) ->
  wp (step ← (page ← alloc_page;
              match page with
              | None => mret (inl (- ENOMEM))
              | Some page =>
                  let entry := Z.lor (Z.lor (Z.lor (page_to_phys page) _PAGE_PRESENT)
                                        _PAGE_RW) _PAGE_USER in
                  store_word (phys_to_virt a) i entry ;;
                  mret (inr (entry, r))
              end);
      match step with
      | inl e => mret (inl e)
      | inr (entry, r) =>
          kassert (has_flag entry _PAGE_PRESENT && has_flag entry _PAGE_RW &&
                   has_flag entry _PAGE_USER) ;;
          npt_create_levels gpa l entry (phys_to_virt a) i r
      end)
    (levels_post gpa root s t) (levels_stop gpa t) s.
Proof.
  intros IH Hok R Hpath Hlen Hp Hi Hnone Hws He. pose proof (repr_addr _ _ _ R _ _ _ Hp) as Ha.
  assert (length p < 4)%nat as Hl by (rewrite length_app in Hlen; simpl in Hlen; lia).
  assert (t !! path gpa = None) as Hpn by (by rewrite Hpath, (repr_none_app R)).
  apply wp_bind, wp_bind, wp_alloc_page; [done|..].
  - intros k Hk Hfail. apply wp_ret, wp_ret. exists k, (ks_pages s), t.
    split_and!; [done|done|done|by eapply npt_ext_refl| |done|done|by eauto].
    intros [x Hx]. congruence.
  - intros k pg pa Hpg Hpa Hfresh _ Hok'. rewrite Hpg, encode_new by done.
    apply wp_bind. cbv zeta.
    eapply wp_store_word with (ws := ws); [by apply valid_pa_round_trip| |done|].
    { simpl. rewrite lookup_insert_ne; [done|congruence]. }
    mem_simpl. apply wp_ret. cbv beta iota.
    set (m1 := <[a := _]> _). set (t1 := <[p ++ [i] := (pa, true)]> t).
    assert (npt_repr m1 root t1) as R1 by (by apply (repr_new R)).
    assert (npt_ext gpa (ks_pages s) t m1 t1) as E1.
    { eapply npt_ext_new; [done|done|done| |done|done|done]. rewrite Hpath. by apply prefix_app_r. }
    eapply wp_mono; [eapply wp_stop_mono|].
    + apply (wp_levels_next gpa root l p pa true i a r _ t1); try done.
      * apply mm_ok_store; [done|]. rewrite lookup_insert_ne by congruence. eauto.
      * unfold t1. rewrite lookup_insert_ne; [done|].
        intros Heq%(f_equal length). rewrite length_app in Heq. simpl in Heq. lia.
      * apply lookup_insert_eq.
    + intros w. apply levels_stop_new.
    + intros res s'. apply levels_post_step; [done|]. intros [x Hx]. congruence.
Qed.

Lemma wp_npt_create_levels gpa root l : levels_spec gpa root l.
Proof.
  induction l as [|l IH]; intros p entry tbl idx r s t a Hok R Hpath Hlen Hp Hentry Hleaf.
  { destruct (Hleaf eq_refl) as (-> & q & b & -> & Hq & ->).
    rewrite app_nil_r in Hpath. apply wp_ret.
    exists (ks_mm s), (ks_pages s), t. rewrite with_mem_id.
    split_and!; [done..|by eapply npt_ext_refl|done|].
    exists q, b, a. rewrite Hpath. done. }
  clear Hleaf. cbn [npt_create_levels]. apply wp_bind.
  eapply wp_ok; [apply table_index_spec; lia|].
  unfold yakvm_vmm_phys_to_virt. rewrite Hentry. cbv zeta.
  set (i := index gpa (Z.of_nat (S l))).
  assert (valid_pa a) as Ha by (by eapply (repr_addr _ _ _ R)).
  destruct (repr_lookup_entry R p a i Hp) as (ws & Hws & Hi); [lia|apply index_range|].
  apply wp_bind. eapply wp_load_word; [by apply valid_pa_round_trip|done|done|].
  assert (path gpa = (p ++ [i]) ++ path_from gpa l) as Hpath'.
  { rewrite Hpath, <- app_assoc. done. }
  assert ((length (p ++ [i]) + l = 4)%nat) as Hlen'.
  { rewrite length_app. simpl. lia. }
  unfold child_entry in *. destruct (t !! (p ++ [i])) as [[b c]|] eqn:Hb.
  - rewrite encode_nonzero by (by eapply (repr_addr _ _ _ R)).
    match goal with |- wp (mbind ?k ?m) _ _ _ =>
      assert (exists r', m s = Ok (inr (encode (b, c), r')) s) as [r' Hm]
    end.
    { destruct (Z.of_nat (S l) =? PT); eauto. }
    apply wp_bind. eapply wp_ok; [exact Hm|]. by eapply wp_levels_next.
  - rewrite Z.eqb_refl. eapply wp_levels_new; try done. apply index_range.
Qed.

Lemma wp_npt_create_all gpa root s t :
  mm_ok s -> npt_repr (ks_pages s) root t ->
  wp (npt_create_levels gpa (Z.to_nat PML4T) root 0 0 None)
    (levels_post gpa root s t) (levels_stop gpa t) s.
Proof.
  intros Hok R. pose proof (repr_root _ _ _ R) as Hr.
  apply (wp_npt_create_levels gpa root 4 [] _ _ _ _ s t root); try done.
  apply yakvm_vmm_page_valid. by eapply (repr_addr _ _ _ R).
Qed.

(** ** [yakvm_vmm_npt_create]

    The outcome of a call on the table [t]: the walk extended the tree to
    [t'], and either the leaf is the page returned, or memory ran out. *)
Definition create_post (gpa root : Z) (s : kstate) (t : tree) (res : err_ptr) (s' : kstate) : Prop :=
  exists k m' t',
    s' = with_mem k m' s /\ mm_ok s' /\ npt_repr m' root t' /\
    npt_ext gpa (ks_pages s) t m' t' /\
    (is_Some (t !! path gpa) -> s' = s) /\
    match res with
    | inl e => e = - ENOMEM /\ t' !! path gpa = None /\
        exists k0 k1, alloc_pages_op k0 0 = (None, k1)
    | inr page => exists a, page = pfn_to_page (a / PAGE_SIZE) /\ page_to_phys page = a /\
        t' !! path gpa = Some (a, true)
    end.

Lemma leaf_page m root t q a b :
  npt_repr m root t -> t !! q = Some (a, b) -> page_to_phys (pfn_to_page (a / PAGE_SIZE)) = a.
Proof.
  intros R (n & -> & Hn)%(repr_addr _ _ _ R)%valid_pa_frame.
  unfold PAGE_SIZE. rewrite Z.div_mul by lia. apply page_to_phys_pfn. lia.
Qed.

Lemma wp_npt_create vmm v gpa s t :
  mm_ok s -> ks_heap s !! vmm = Some (OVmm v) -> npt_repr (ks_pages s) (vmm.ncr3 v) t ->
  wp (yakvm_vmm_npt_create vmm gpa false)
    (create_post gpa (vmm.ncr3 v) s t) (levels_stop gpa t) s.
Proof.
  intros Hok Hv R. unfold yakvm_vmm_npt_create. apply wp_bind.
  eapply wp_get_obj; [done..|]. apply wp_bind.
  eapply wp_mono; [by apply wp_npt_create_all|].
  intros res s' (k & m' & t' & -> & Hok' & R' & He & Hid & Hres).
  destruct res as [e|[[entry table] idx]]; wp_steps.
  - by exists k, m', t'.
  - destruct Hres as (q & b & a & Hpath & Hq & -> & Ha & ->).
    exists k, m', t'. split_and!; [done..|].
    pose proof (repr_addr _ _ _ R' _ _ _ Ha) as Hva.
    exists a. rewrite encode_shiftr by done. split; [done|]. split; [|done].
    by eapply leaf_page.
Qed.

(** With [is_mmio] the leaf is hidden afterwards. *)
Definition create_mmio_post (gpa root : Z) (s : kstate) (t : tree) (res : err_ptr) (s' : kstate) : Prop :=
  exists k m' t',
    s' = with_mem k m' s /\ mm_ok s' /\
    (forall x, x ∉ tree_pages t' -> m' !! x = ks_pages s !! x) /\
    dom m' = dom (ks_pages s) ∪ tree_pages t' /\
    (forall q a b, t' !! q = Some (a, b) -> t !! q = None ->
       q `prefix_of` path gpa /\ ks_pages s !! a = None) /\
    match res with
    | inl e => e = - ENOMEM /\ npt_repr m' root t' /\ t ⊆ t' /\ t' !! path gpa = None
    | inr page => exists a, page = pfn_to_page (a / PAGE_SIZE) /\ page_to_phys page = a /\
        npt_repr m' root t' /\ t ⊆ <[path gpa := (a, true)]> t' /\
        t' !! path gpa = Some (a, false)
    end.

Lemma tree_pages_rehide t p a b c :
  t !! p = Some (a, b) -> tree_pages (<[p := (a, c)]> t) = tree_pages t.
Proof.
  intros Hp. apply set_eq. intros x. rewrite !elem_of_tree_pages. split.
  - intros (q & d & Hq). destruct (decide (q = p)) as [->|Hne].
    + rewrite lookup_insert_eq in Hq. injection Hq as <- <-. eauto.
    + rewrite lookup_insert_ne in Hq by done. eauto.
  - intros (q & d & Hq). destruct (decide (q = p)) as [->|Hne].
    + exists p, c. rewrite lookup_insert_eq. congruence.
    + exists q, d. by rewrite lookup_insert_ne.
Qed.

Lemma wp_npt_create_mmio vmm v gpa s t :
  mm_ok s -> ks_heap s !! vmm = Some (OVmm v) -> npt_repr (ks_pages s) (vmm.ncr3 v) t ->
  wp (yakvm_vmm_npt_create vmm gpa true)
    (create_mmio_post gpa (vmm.ncr3 v) s t) (levels_stop gpa t) s.
Proof.
  intros Hok Hv R. unfold yakvm_vmm_npt_create. apply wp_bind.
  eapply wp_get_obj; [done..|]. apply wp_bind.
  eapply wp_mono; [by apply wp_npt_create_all|].
  intros res s' (k & m' & t' & -> & Hok' & R' & He & Hid & Hres).
  destruct res as [e|[[entry table] idx]]; wp_steps.
  { destruct Hres as (He' & Hn & _). exists k, m', t'.
    split_and!; [done|done|apply He|apply He| |done|done|apply He|done].
    intros q a b Hq Hq0. by destruct (ext_new _ _ _ _ _ He _ _ _ Hq Hq0) as (? & ? & ?). }
  destruct Hres as (q & b & a & Hpath & Hq & -> & Ha & ->).
  pose proof (repr_addr _ _ _ R' _ _ _ Hq) as Hvb.
  pose proof (repr_addr _ _ _ R' _ _ _ Ha) as Hva.
  assert (length q = 3%nat) as Hlq.
  { apply (f_equal length) in Hpath. unfold path in Hpath.
    rewrite path_from_length, length_app in Hpath. simpl in Hpath. lia. }
  pose proof (repr_path _ _ _ R' _ _ Ha) as [_ Hidx].
  rewrite Hpath in Hidx. apply Forall_app in Hidx as [_ Hidx%Forall_inv].
  destruct (repr_lookup_entry R' q b idx Hq) as (ws & Hws & Hi); [lia|done|].
  unfold child_entry in Hi. rewrite <- Hpath, Ha in Hi.
  eapply wp_load_word; [by apply valid_pa_round_trip|done|done|].
  eapply wp_store_word; [by apply valid_pa_round_trip|done|eauto|].
  mem_simpl. rewrite encode_hide by done. wp_steps.
  set (t2 := <[path gpa := (a, false)]> t'). exists k, (<[b := PWords (<[Z.to_nat idx := encode (a, false)]> ws)]> m'), t2.
  assert (tree_pages t2 = tree_pages t') as Hpages by by eapply tree_pages_rehide.
  assert (b ∈ tree_pages t') as Hbt by (apply elem_of_tree_pages; eauto).
  split_and!; [done|by apply mm_ok_store|..].
  - intros x Hx. rewrite lookup_insert_ne by set_solver. apply He. set_solver.
  - rewrite dom_insert_L, Hpages, (ext_dom _ _ _ _ _ He). set_solver.
  - intros q' x c Hq' Hn. unfold t2 in Hq'. destruct (decide (q' = path gpa)) as [->|Hne].
    + rewrite lookup_insert_eq in Hq'. injection Hq' as <- <-.
      by destruct (ext_new _ _ _ _ _ He _ _ _ Ha Hn) as (? & ? & ?).
    + rewrite lookup_insert_ne in Hq' by done.
      by destruct (ext_new _ _ _ _ _ He _ _ _ Hq' Hn) as (? & ? & ?).
  - exists a. rewrite encode_shiftr by done. split; [done|].
    split; [by eapply leaf_page|]. split.
    + unfold t2. rewrite Hpath in *. by eapply (repr_hide R').
    + unfold t2. rewrite insert_insert_eq, insert_id by done. rewrite lookup_insert_eq.
      split; [apply He|done].
Qed.

End levels.

(** ** Destruction

    [under t p x]: page [x] hangs at or below the node [p]. *)
Definition under (t : tree) (p : list Z) (x : Z) : Prop :=
  exists q b, t !! (p ++ q) = Some (x, b).

Section under.
Context {m : gmap Z page} {root : Z} {t : tree} (R : npt_repr m root t).

Lemma under_nil x : under t [] x <-> x ∈ tree_pages t.
Proof. by rewrite elem_of_tree_pages. Qed.

Lemma under_split p x a b :
  t !! p = Some (a, b) ->
  under t p x <-> x = a \/ exists i, 0 <= i < 512 /\ under t (p ++ [i]) x.
Proof using R.
  intros Hp. split.
  - intros (q & c & Hq). destruct q as [|i q].
    + rewrite app_nil_r in Hq. left. congruence.
    + right. pose proof (repr_path _ _ _ R _ _ Hq) as [_ [_ Hr]%Forall_app].
      apply Forall_cons in Hr as [Hi _].
      exists i. split; [done|]. exists q, c. by rewrite <- app_assoc.
  - intros [->|(i & _ & q & c & Hq)]; [exists [], b; by rewrite app_nil_r|].
    exists (i :: q), c. by rewrite <- app_assoc in Hq.
Qed.

Lemma under_disjoint p i j x : under t (p ++ [i]) x -> under t (p ++ [j]) x -> i = j.
Proof using R.
  intros (q1 & b1 & H1) (q2 & b2 & H2).
  pose proof (repr_inj _ _ _ R _ _ _ _ _ H1 H2) as Heq.
  rewrite <- !app_assoc in Heq. apply app_inv_head in Heq. by injection Heq.
Qed.

Lemma under_not_self p i a b : t !! p = Some (a, b) -> ~ under t (p ++ [i]) a.
Proof using R.
  intros Hp (q & c & Hq). pose proof (repr_inj _ _ _ R _ _ _ _ _ Hq Hp) as Heq%(f_equal length).
  rewrite !length_app in Heq. simpl in Heq. lia.
Qed.

Lemma under_none p x : t !! p = None -> ~ under t p x.
Proof using R. intros Hp (q & b & Hq). by rewrite (repr_none_app R) in Hq. Qed.

Lemma under_leaf p x a b : length p = 4%nat -> t !! p = Some (a, b) -> under t p x <-> x = a.
Proof using R.
  intros Hl Hp. rewrite under_split by done. split; [|by left].
  intros [->|(i & _ & Hu)]; [done|]. exfalso. by eapply under_none; [apply (repr_no_child R)|].
Qed.

End under.

(** [s'] is [s] without the pages [P] tells, which have gone back to the
    allocator. *)
Definition freed `{KernelLaws} (P : Z -> Prop) (s s' : kstate) : Prop :=
  exists k m', s' = with_mem k m' s /\ mm_ok s' /\
    (forall x, P x -> m' !! x = None) /\
    (forall x, ~ P x -> m' !! x = ks_pages s !! x).

Section destroy.
Context `{L : KernelLaws}.
Context {m : gmap Z page} {root : Z} {t : tree} (R : npt_repr m root t).
Implicit Types (s : kstate).

Lemma freed_nothing s (P : Z -> Prop) : mm_ok s -> (forall x, ~ P x) -> freed P s s.
Proof.
  intros Hok HP. exists (ks_mm s), (ks_pages s). rewrite with_mem_id.
  split; [done|]. split; [done|]. split; [|done]. intros x Hx. by destruct (HP x).
Qed.

Lemma freed_ext (P P' : Z -> Prop) s s' :
  (forall x, P x <-> P' x) -> freed P s s' -> freed P' s s'.
Proof.
  intros HP (k & m' & ? & ? & H1 & H2). exists k, m'. split_and!; [done..| |].
  - intros x Hx. by apply H1, HP.
  - intros x Hx. apply H2. by rewrite HP.
Qed.

(** Two disjoint deletions after one another. *)
Lemma freed_trans (P1 P2 : Z -> Prop) s1 s2 s3 :
  (forall x, P1 x -> ~ P2 x) ->
  freed P1 s1 s2 -> freed P2 s2 s3 -> freed (fun x => P1 x \/ P2 x) s1 s3.
Proof.
  intros Hd (k1 & m1 & -> & Hok1 & N1 & F1) (k2 & m2 & -> & Hok2 & N2 & F2).
  exists k2, m2. mem_simpl. split; [done|]. split; [done|]. split.
  - intros x [Hx|Hx]; [|by apply N2]. rewrite F2 by by apply Hd. by apply N1.
  - intros x Hx. rewrite F2, F1; tauto.
Qed.

Lemma wp_free_page_freed pa addr s :
  mm_ok s -> virt_to_phys addr = pa -> valid_pa pa -> is_Some (ks_pages s !! pa) ->
  wp (free_page addr) (fun _ s' => freed (fun x => x = pa) s s') never s.
Proof.
  intros Hok Ha Hv Hs. eapply wp_free_page; [done..|]. intros k Hk.
  exists k, (delete pa (ks_pages s)). split; [done|]. split; [done|]. split.
  - intros x ->. apply lookup_delete_eq.
  - intros x Hx. by apply lookup_delete_ne.
Qed.

(** The pages under the child at [idx] are untouched when those under the
    children before it are gone. *)
Lemma under_kept p idx (dn : list Z) s s1 :
  is_Some (t !! p) -> 0 <= idx < 512 -> idx ∉ dn ->
  (forall x, under t p x -> ks_pages s !! x = m !! x) ->
  (forall x, ~ (exists i, i ∈ dn /\ under t (p ++ [i]) x) -> ks_pages s1 !! x = ks_pages s !! x) ->
  forall x, under t (p ++ [idx]) x -> ks_pages s1 !! x = m !! x.
Proof using R.
  intros [[a b] Hp] Hi Hnin Hm Hframe x Hx. rewrite Hframe, Hm; [done| |].
  - rewrite (under_split R) by done. right. by exists idx.
  - intros (i & Hi' & Hu). apply Hnin. by rewrite <- (under_disjoint R _ _ _ _ Hu Hx).
Qed.

(** One entry, given that the recursion frees a child table. *)
Lemma wp_destroy_entry l p a idx s :
  mm_ok s -> t !! p = Some (a, true) -> (length p + S l = 4)%nat -> 0 <= idx < 512 ->
  ks_pages s !! a = m !! a ->
  (forall x, under t (p ++ [idx]) x -> ks_pages s !! x = m !! x) ->
  (forall b, l <> O -> t !! (p ++ [idx]) = Some (b, true) ->
     wp (yakvm_vmm_destroy_table (phys_to_virt b) l)
       (fun _ s' => freed (under t (p ++ [idx])) s s') never s) ->
  wp (entry ← load_word (phys_to_virt a) idx;
      if entry =? 0 then mret tt
      else
        kassert (has_flag entry _PAGE_USER && has_flag entry _PAGE_RW) ;;
        if Z.of_nat (S l) =? PT then free_page (yakvm_vmm_phys_to_virt entry)
        else yakvm_vmm_destroy_table (yakvm_vmm_phys_to_virt entry) l)
    (fun _ s' => freed (under t (p ++ [idx])) s s') never s.
Proof using R.
  intros Hok Hp Hl Hidx Ha Hm Hrec.
  destruct (repr_lookup_entry R p a idx Hp) as (ws & Hws & Hi); [lia|done|].
  rewrite <- Ha in Hws. apply wp_bind. eapply wp_load_word; [|exact Hws|exact Hi|].
  { apply valid_pa_round_trip. by eapply (repr_addr _ _ _ R). }
  unfold child_entry. destruct (t !! (p ++ [idx])) as [[b c]|] eqn:Hb.
  2:{ apply wp_ret, freed_nothing; [done|]. intros x. by apply (under_none R). }
  assert (valid_pa b) as Hvb by (by eapply (repr_addr _ _ _ R)).
  rewrite encode_nonzero, encode_rw, encode_user by done. simpl (kassert _).
  apply wp_bind, wp_ret. unfold yakvm_vmm_phys_to_virt. rewrite yakvm_vmm_page_encode by done.
  assert (length (p ++ [idx]) = 4 - l)%nat as Hl' by (rewrite length_app; simpl; lia).
  destruct l as [|l'].
  - change (Z.of_nat 1 =? PT) with true. cbv iota.
    assert (forall x, under t (p ++ [idx]) x <-> x = b) as Hu by (intros x; by eapply (under_leaf R)).
    eapply wp_mono; [apply wp_free_page_freed; [done|by apply valid_pa_round_trip|done|]|].
    + rewrite Hm by (by apply Hu). by eapply (repr_page R).
    + intros [] s'. by apply freed_ext.
  - destruct (Z.eqb_spec (Z.of_nat (S (S l'))) PT) as [Heq|_]; [unfold PT in Heq; lia|].
    apply Hrec; [done|]. assert (c = true) as -> by (eapply (repr_present R); [done|lia]). done.
Qed.

Lemma wp_destroy_table l p a s :
  mm_ok s -> t !! p = Some (a, true) -> (length p + S l = 4)%nat ->
  (forall x, under t p x -> ks_pages s !! x = m !! x) ->
  wp (yakvm_vmm_destroy_table (phys_to_virt a) (S l))
    (fun _ s' => freed (under t p) s s') never s.
Proof using R.
  revert p a s. induction l as [l IH] using lt_wf_ind. intros p a s Hok Hp Hl Hm.
  cbn [yakvm_vmm_destroy_table]. apply wp_bind.
  assert (under t p a) as Hself by (exists [], true; by rewrite app_nil_r).
  eapply wp_mono.
  { apply (wp_foreach (fun dn s1 => freed (fun x => exists i, i ∈ dn /\ under t (p ++ [i]) x) s s1) _ []).
    - apply freed_nothing; [done|]. intros x (i & Hi & _). by apply not_elem_of_nil in Hi.
    - intros pre idx post s1 Hseq Hpre.
      apply seqZ_split in Hseq as [Hidx Hnin]. change PTRS_PER_PAGE with 512 in Hidx.
      pose proof Hpre as (k & m' & Hs1 & Hok' & _ & Hframe).
      assert (ks_pages s1 = m') as Hpg by (by rewrite Hs1). rewrite <- Hpg in Hframe.
      assert (forall x, under t (p ++ [idx]) x -> ks_pages s1 !! x = m !! x) as Hm'
        by (by eapply under_kept).
      eapply wp_mono; [apply wp_destroy_entry with (l := l); try done|].
      + rewrite Hframe, Hm; [done..|]. intros (i & _ & Hu). by eapply (under_not_self R).
      + intros b Hl0 Hb. destruct l as [|l']; [done|].
        apply IH; [lia|done|done|rewrite length_app; simpl; lia|done].
      + intros [] s' Hs'. eapply freed_ext; [|eapply freed_trans; [|exact Hpre|exact Hs']].
        * intros x. symmetry. apply (exists_elem_snoc (fun i => under t (p ++ [i]) x)).
        * intros x (i & Hi' & Hu1) Hu2. apply Hnin.
          by rewrite <- (under_disjoint R _ _ _ _ Hu1 Hu2). }
  intros [] s1 H1. simpl in H1.
  apply wp_mono with (Q := fun _ s' => freed (fun x => x = a) s1 s').
  - destruct H1 as (k & m' & -> & Hok' & Hnone & Hframe).
    apply wp_free_page_freed; [done|apply valid_pa_round_trip|..]; try (by eapply (repr_addr _ _ _ R)).
    mem_simpl. rewrite Hframe, Hm; [by eapply (repr_page R)|done|].
    intros (i & _ & Hu). by eapply (under_not_self R).
  - intros [] s2 H2. eapply freed_ext; [|eapply freed_trans; [|exact H1|exact H2]].
    + intros x. rewrite (under_split R _ x) by done. simpl.
      rewrite (exists_elem_seqZ (fun i => under t (p ++ [i]) x)).
      change PTRS_PER_PAGE with 512. tauto.
    + intros x (i & _ & Hu) ->. by eapply (under_not_self R).
Qed.

End destroy.

(** ** Framing *)

(** A table is a matter of its own pages only. *)
Lemma npt_repr_frame m m' root t :
  npt_repr m root t -> (forall x, x ∈ tree_pages t -> m' !! x = m !! x) -> npt_repr m' root t.
Proof.
  intros R Hf. split; try apply R.
  intros p a b Hp. rewrite Hf; [by eapply (repr_table _ _ _ R)|].
  apply elem_of_tree_pages. by exists p, b.
Qed.

(** The contents of the data pages do not matter. *)
Lemma npt_repr_data m m' root t :
  npt_repr m root t ->
  (forall q x b, t !! q = Some (x, b) -> (length q < 4)%nat -> m' !! x = m !! x) ->
  (forall q x b, t !! q = Some (x, b) -> length q = 4%nat ->
     exists ws, m' !! x = Some (PWords ws) /\ length ws = 512%nat) ->
  npt_repr m' root t.
Proof.
  intros R Hf Hd. split; try apply R. intros q x b Hq.
  destruct (decide (length q < 4)%nat) as [Hl|Hl].
  - rewrite (Hf _ _ _ Hq Hl). by eapply (repr_table _ _ _ R).
  - destruct (repr_path _ _ _ R _ _ Hq) as [Hle _].
    destruct (Hd _ _ _ Hq) as (ws & Hws & Hlen); [lia|]. exists ws. split; [done|].
    split; [done|]. lia.
Qed.

Lemma encode_inj a b c d :
  valid_pa a -> valid_pa b -> encode (a, c) = encode (b, d) -> a = b /\ c = d.
Proof.
  intros Ha Hb Heq.
  pose proof (yakvm_vmm_page_encode (a, c) Ha) as H1.
  pose proof (yakvm_vmm_page_encode (b, d) Hb) as H2.
  pose proof (encode_present (a, c) Ha) as H3. pose proof (encode_present (b, d) Hb) as H4.
  rewrite Heq in H1, H3. simpl in *. split; congruence.
Qed.

Lemma child_entry_encode m root t p i b c :
  npt_repr m root t -> valid_pa b -> child_entry t p i = encode (b, c) ->
  t !! (p ++ [i]) = Some (b, c).
Proof.
  intros R Hb Heq. unfold child_entry in Heq.
  destruct (t !! (p ++ [i])) as [[x d]|] eqn:Hx.
  - apply encode_inj in Heq as [-> ->]; [done| |done]. by eapply (repr_addr _ _ _ R).
  - pose proof (encode_nonzero (b, c) Hb). lia.
Qed.

(** The pages determine the tree they hold. *)
Lemma npt_repr_sub m root t1 t2 : npt_repr m root t1 -> npt_repr m root t2 -> t1 ⊆ t2.
Proof.
  intros R1 R2. apply map_subseteq_spec. intros p.
  induction p as [|i p IH] using rev_ind; intros [b c] Hn.
  { rewrite (repr_root _ _ _ R1) in Hn. rewrite (repr_root _ _ _ R2). done. }
  destruct (repr_parent _ _ _ R1 _ _ _ Hn) as [a Ha].
  destruct (repr_path _ _ _ R1 _ _ Hn) as [Hl [_ Hi%Forall_inv]%Forall_app].
  rewrite length_app in Hl. simpl in Hl.
  destruct (repr_lookup_entry R1 p a i Ha) as (ws & Hws & He1); [lia|done|].
  destruct (repr_lookup_entry R2 p a i (IH _ Ha)) as (ws2 & Hws2 & He2); [lia|done|].
  eapply child_entry_encode; [done|by eapply (repr_addr _ _ _ R1)|].
  assert (ws2 = ws) as -> by congruence. rewrite He1 in He2. injection He2 as <-.
  unfold child_entry. by rewrite Hn.
Qed.

Lemma npt_repr_unique m root t1 t2 : npt_repr m root t1 -> npt_repr m root t2 -> t1 = t2.
Proof. intros R1 R2. apply (anti_symm (⊆)); by eapply npt_repr_sub. Qed.

(** Growing a table keeps it apart from the pages it was apart from. *)
Lemma npt_ext_apart gpa m t m' t' (X : gset Z) :
  npt_ext gpa m t m' t' -> X ⊆ dom m -> tree_pages t ## X -> tree_pages t' ## X.
Proof.
  intros He HX Hd x (q & b & Hq)%elem_of_tree_pages Hx.
  destruct (t !! q) as [[y c]|] eqn:Ht.
  - pose proof (lookup_weaken _ _ _ _ Ht (ext_sub _ _ _ _ _ He)) as Hq'.
    rewrite Hq in Hq'. injection Hq' as <- <-. apply (Hd x); [|done].
    apply elem_of_tree_pages. by exists q, b.
  - destruct (ext_new _ _ _ _ _ He _ _ _ Hq Ht) as (_ & _ & Hn).
    apply HX, elem_of_dom in Hx. rewrite Hn in Hx. by destruct Hx.
Qed.

(** ** Creating and destroying a guest's memory *)
Section vmm.
Context `{L : KernelLaws} `{C : Config}.
Implicit Types (s : kstate).

Lemma repr_root_only m a :
  valid_pa a -> npt_repr (<[a := zero_page]> m) a {[ [] := (a, true) ]}.
Proof.
  intros Ha. split.
  - apply lookup_singleton_eq.
  - intros p n [<- <-]%lookup_singleton_Some. split; [simpl; lia|constructor].
  - intros p i n [Hp _]%lookup_singleton_Some. by destruct p.
  - intros p q x b c [<- _]%lookup_singleton_Some [<- _]%lookup_singleton_Some. done.
  - intros p x b [_ [= <- <-]]%lookup_singleton_Some. done.
  - intros p x b [<- [= <- <-]]%lookup_singleton_Some. exists (replicate 512 0).
    rewrite lookup_insert_eq, length_replicate. split; [done|]. split; [done|].
    intros _. split; [done|]. intros i Hi. unfold child_entry.
    rewrite lookup_singleton_ne by done. rewrite lookup_replicate_2; [done|lia].
Qed.

(** [yakvm_create_vmm]: a new object whose table holds the path of the MMIO page
    and nothing else, the leaf hidden; or [-ENOMEM], and everything there was is
    as it was. *)
Definition create_vmm_post (vm : Z) (s : kstate) (res : err_ptr) (s' : kstate) : Prop :=
  match res with
  | inl e => e = - ENOMEM /\ mm_ok s' /\
      exists k m', s' = with_mem k m' s /\ ks_pages s ⊆ m'
  | inr a => mm_ok s' /\ ks_heap s !! a = None /\ 0 < a < 2 ^ 64 - 4096 /\
      exists k m' root t x,
        s' = with_heap (<[a := OVmm (vmm.mk root vm)]> (ks_heap s)) (with_mem k m' s) /\
        ks_pages s ⊆ m' /\ npt_repr m' root t /\
        dom m' = dom (ks_pages s) ∪ tree_pages t /\
        tree_pages t ## dom (ks_pages s) /\
        t !! path YAKVM_MMIO_HAWK = Some (x, false) /\
        (forall q n, t !! q = Some n -> q `prefix_of` path YAKVM_MMIO_HAWK)
  end.

(** The fresh root page and what the walk added to it are all new. *)
Lemma mmio_walk_fresh (m0 m' : gmap Z page) (root : Z) (t' : tree) :
  (forall x, x ∉ tree_pages t' -> m' !! x = <[root := zero_page]> m0 !! x) ->
  (forall q a b, t' !! q = Some (a, b) -> ({[ [] := (root, true) ]} : tree) !! q = None ->
     q `prefix_of` path YAKVM_MMIO_HAWK /\ <[root := zero_page]> m0 !! a = None) ->
  m0 !! root = None -> t' !! [] = Some (root, true) ->
  tree_pages t' ## dom m0 /\ m0 ⊆ m'.
Proof.
  intros Hframe Hnew Hroot Hnil.
  assert (tree_pages t' ## dom m0) as Hd.
  { intros x (q & b & Hq)%elem_of_tree_pages Hx%elem_of_dom.
    destruct (decide (q = [])) as [->|Hne].
    - rewrite Hnil in Hq. injection Hq as <- <-. by rewrite Hroot in Hx; destruct Hx.
    - apply Hnew in Hq as [_ Hn]; [|by rewrite lookup_singleton_ne].
      apply lookup_insert_None in Hn as [Hn _]. by rewrite Hn in Hx; destruct Hx. }
  split; [done|]. apply map_subseteq_spec. intros x y Hx.
  assert (x ∉ tree_pages t') as Hnin.
  { intros Hin. apply (Hd x); [done|]. by eapply elem_of_dom_2. }
  rewrite Hframe, lookup_insert_ne; [done|congruence|done].
Qed.

Lemma wp_create_vmm vm s :
  mm_ok s -> wp (yakvm_create_vmm vm) (create_vmm_post vm s) never s.
Proof.
  intros Hok. unfold yakvm_create_vmm. apply wp_bind, wp_alloc_page; [done|..].
  { intros k Hk _. apply wp_ret. split; [done|]. split; [done|]. by eexists _, _. }
  intros k pg root Hpg Hroot Hfresh _ Hok1. apply wp_bind, wp_kmalloc; [done|..].
  { intros k' Hk'. apply wp_bind. mem_simpl.
    eapply wp___free_page; [done|exact Hpg|done|mem_simpl; rewrite lookup_insert_eq; eauto|].
    intros k2 Hk2. mem_simpl. apply wp_ret. split; [done|]. split; [done|].
    eexists _, _. split; [done|]. by rewrite delete_insert_id. }
  mem_simpl. intros k1 a Ha Hr Hok2. mem_simpl.
  set (m0 := <[root := zero_page]> (ks_pages s)) in *.
  apply wp_bind. eapply wp_update_vmm; [apply lookup_insert_eq|].
  apply wp_bind. eapply wp_update_vmm; [apply lookup_insert_eq|].
  mem_simpl. rewrite !insert_insert_eq.
  apply wp_bind. eapply wp_mono; [eapply wp_stop_mono|].
  { eapply (wp_npt_create_mmio a) with (t := {[ [] := (root, true) ]});
      [|apply lookup_insert_eq|].
    - eapply mm_ok_put with (o := OVmm _) in Hok2; [|rewrite lookup_insert_eq; eauto].
      rewrite insert_insert_eq in Hok2. exact Hok2.
    - mem_simpl. simpl. rewrite Hpg. by apply repr_root_only. }
  { intros w (_ & x & Hx). by apply lookup_singleton_Some in Hx as [? ?]. }
  intros res s' (k' & m' & t' & -> & Hok' & Hframe & Hdom & Hnew & Hres). mem_simpl.
  simpl in Hres. rewrite Hpg in Hres.
  destruct res as [e|page]; simpl.
  - destruct Hres as (-> & R & Hsub & _).
    destruct (mmio_walk_fresh _ _ _ _ Hframe Hnew Hfresh (repr_root _ _ _ R)) as [Hd Hsub'].
    apply wp_bind, wp_kfree; [done|mem_simpl; rewrite lookup_insert_eq; eauto|].
    intros k2 Hk2. mem_simpl. rewrite delete_insert_id in * by done.
    apply wp_bind. eapply wp___free_page; [done|exact Hpg|done|mem_simpl|].
    { eapply (repr_page R). apply (repr_root _ _ _ R). }
    intros k3 Hk3. mem_simpl. apply wp_ret. split; [done|]. split; [done|].
    exists k3, (delete root m'). split; [by destruct s|].
    apply map_subseteq_spec. intros x y Hx. rewrite lookup_delete_ne by congruence.
    by eapply lookup_weaken.
  - destruct Hres as (x & -> & _ & R & Hsub & Hleaf).
    destruct (mmio_walk_fresh _ _ _ _ Hframe Hnew Hfresh (repr_root _ _ _ R)) as [Hd Hsub'].
    apply wp_ret. split; [done|]. split; [done|]. split; [done|].
    exists k', m', root, t', x. split; [unfold with_heap; simpl; by rewrite Hpg|].
    split; [done|]. split; [done|]. split.
    { rewrite Hdom. unfold m0. rewrite dom_insert_L.
      assert (root ∈ tree_pages t'); [|set_solver].
      apply elem_of_tree_pages. exists [], true. apply (repr_root _ _ _ R). }
    split; [done|]. split; [done|].
    intros q [y b] Hq. destruct (decide (q = [])) as [->|Hne]; [apply prefix_nil|].
    apply Hnew in Hq as [? _]; [done|]. by rewrite lookup_singleton_ne.
Qed.

Lemma wp_destroy_vmm a v t s :
  mm_ok s -> ks_heap s !! a = Some (OVmm v) -> npt_repr (ks_pages s) (vmm.ncr3 v) t ->
  wp (yakvm_destroy_vmm a)
    (fun _ s' => mm_ok s' /\ exists k m',
       s' = with_heap (delete a (ks_heap s)) (with_mem k m' s) /\
       (forall x, x ∈ tree_pages t -> m' !! x = None) /\
       (forall x, x ∉ tree_pages t -> m' !! x = ks_pages s !! x)) never s.
Proof.
  intros Hok Hv R. unfold yakvm_destroy_vmm. apply wp_bind. eapply wp_get_obj; [done..|].
  pose proof (repr_root _ _ _ R) as Hr. pose proof (repr_addr _ _ _ R _ _ _ Hr) as Hva.
  unfold yakvm_vmm_phys_to_virt. rewrite yakvm_vmm_page_valid by done.
  apply wp_bind. eapply wp_mono; [by eapply (wp_destroy_table R 3 [])|].
  intros [] s' (k & m' & -> & Hok' & Hnone & Hframe).
  apply wp_kfree; [done|mem_simpl; eauto|]. intros k' Hok2. mem_simpl.
  split; [done|]. exists k', m'. split; [done|].
  setoid_rewrite (under_nil (t := t)) in Hnone. setoid_rewrite (under_nil (t := t)) in Hframe.
  done.
Qed.

End vmm.
