(* ===== verification/NptProps.v ===== *)
(** * What the nested page tables guarantee

    The properties of driver/memory.c over the facts of Npt, with the concrete
    tables that witness them. *)

From S2P Require Import Prelude Structs Kernel Concrete Npt.

(** A concrete table: one page, the root, and its [struct vmm]. *)
Definition demo_root : Z := 4096.
Definition demo_vmm : Z := 0xffff888100000100.
Definition demo : @kstate concrete :=
  KState concrete (CMM {[demo_root]} {[demo_vmm]} ∅ []) {[demo_root := zero_page]}
    {[demo_vmm := OVmm (vmm.mk demo_root 1)]} ∅ ∅ 1 0 false [] 0.
Definition demo_tree : tree := {[ [] := (demo_root, true) ]}.

(** The same with the page of address 0 mapped, then hidden. *)
Definition demo_mapped : @kstate concrete := final (yakvm_vmm_npt_create demo_vmm 0 false) demo.
Definition demo_hidden : @kstate concrete := final (yakvm_vmm_npt_create demo_vmm 0 true) demo.

Lemma demo_ok : mm_ok demo.
Proof. split; simpl; set_solver. Qed.

Lemma demo_repr : npt_repr (ks_pages demo) demo_root demo_tree.
Proof. apply (repr_root_only ∅). by repeat split. Qed.

Lemma demo_obj : ks_heap demo !! demo_vmm = Some (OVmm (vmm.mk demo_root 1)).
Proof. apply lookup_singleton_eq. Qed.

Lemma create_final `{L : KernelLaws} vmm v gpa (s : kstate) t page :
  mm_ok s -> ks_heap s !! vmm = Some (OVmm v) -> npt_repr (ks_pages s) (vmm.ncr3 v) t ->
  result (yakvm_vmm_npt_create vmm gpa false) s = Some (inr page) ->
  let s' := final (yakvm_vmm_npt_create vmm gpa false) s in
  mm_ok s' /\ ks_heap s' !! vmm = Some (OVmm v) /\
  exists t' a, npt_repr (ks_pages s') (vmm.ncr3 v) t' /\ t' !! path gpa = Some (a, true).
Proof.
  intros Hok Hv R Hres s'.
  pose proof (wp_result _ _ _ _ _ (wp_npt_create _ _ gpa _ _ Hok Hv R) Hres) as Hpost.
  fold s' in Hpost. clearbody s'.
  destruct Hpost as (k & m' & t' & -> & Hok' & R' & _ & _ & a & _ & _ & Ha).
  split; [done|]. split; [done|]. by exists t', a.
Qed.

Lemma create_mmio_final `{L : KernelLaws} vmm v gpa (s : kstate) t page :
  mm_ok s -> ks_heap s !! vmm = Some (OVmm v) -> npt_repr (ks_pages s) (vmm.ncr3 v) t ->
  result (yakvm_vmm_npt_create vmm gpa true) s = Some (inr page) ->
  let s' := final (yakvm_vmm_npt_create vmm gpa true) s in
  mm_ok s' /\ ks_heap s' !! vmm = Some (OVmm v) /\
  exists t' a, npt_repr (ks_pages s') (vmm.ncr3 v) t' /\ t' !! path gpa = Some (a, false).
Proof.
  intros Hok Hv R Hres s'.
  pose proof (wp_result _ _ _ _ _ (wp_npt_create_mmio _ _ gpa _ _ Hok Hv R) Hres) as Hpost.
  fold s' in Hpost. clearbody s'.
  destruct Hpost as (k & m' & t' & -> & Hok' & _ & _ & _ & a & _ & _ & R' & _ & Ha).
  split; [done|]. split; [done|]. by exists t', a.
Qed.

Definition demo_page : Z := @pfn_to_page concrete 5.

Lemma demo_mapped_result :
  result (yakvm_vmm_npt_create demo_vmm 0 false) demo = Some (inr demo_page).
Proof. vm_compute. reflexivity. Qed.

Lemma demo_hidden_result :
  result (yakvm_vmm_npt_create demo_vmm 0 true) demo = Some (inr demo_page).
Proof. vm_compute. reflexivity. Qed.

Lemma demo_mapped_repr :
  mm_ok demo_mapped /\ ks_heap demo_mapped !! demo_vmm = Some (OVmm (vmm.mk demo_root 1)) /\
  exists t a, npt_repr (ks_pages demo_mapped) demo_root t /\ t !! path 0 = Some (a, true).
Proof. exact (create_final _ _ 0 _ _ _ demo_ok demo_obj demo_repr demo_mapped_result). Qed.

Lemma demo_hidden_repr :
  mm_ok demo_hidden /\ ks_heap demo_hidden !! demo_vmm = Some (OVmm (vmm.mk demo_root 1)) /\
  exists t a, npt_repr (ks_pages demo_hidden) demo_root t /\ t !! path 0 = Some (a, false).
Proof. exact (create_mmio_final _ _ 0 _ _ _ demo_ok demo_obj demo_repr demo_hidden_result). Qed.

Section npt_properties.
Context `{L : KernelLaws} `{C : Config}.
Implicit Types (s : kstate).

Lemma ext_other_path gpa gpa' m t m' t' :
  npt_ext gpa m t m' t' -> guest_page gpa' <> guest_page gpa ->
  t' !! path gpa' = t !! path gpa'.
Proof.
  intros He Hne. destruct (t !! path gpa') as [n|] eqn:Hn.
  { eapply lookup_weaken; [done|apply He]. }
  destruct (t' !! path gpa') as [[a b]|] eqn:Ha; [|done].
  destruct (ext_new _ _ _ _ _ He _ _ _ Ha Hn) as ([r Hr] & _ & _).
  exfalso. apply Hne, path_eq_page.
  apply (f_equal length) in Hr as Hlen. unfold path in Hlen.
  rewrite length_app, !path_from_length in Hlen. destruct r; [|simpl in Hlen; lia].
  by rewrite app_nil_r in Hr.
Qed.

(** C7: a successful [yakvm_vmm_npt_create] maps the page of [gpa]: the processor's
    nested walk of the new table translates [gpa] to the page returned, at the
    same offset, and translates every other guest page as before. *)
Theorem npt_create_maps vmm v gpa s t page s' :
  mm_ok s -> ks_heap s !! vmm = Some (OVmm v) -> npt_repr (ks_pages s) (vmm.ncr3 v) t ->
  yakvm_vmm_npt_create vmm gpa false s = Ok (inr page) s' ->
  hw_translate (ks_pages s') (vmm.ncr3 v) gpa = Some (page_to_phys page + gpa mod 4096) /\
  forall gpa', guest_page gpa' <> guest_page gpa ->
    hw_translate (ks_pages s') (vmm.ncr3 v) gpa' = hw_translate (ks_pages s) (vmm.ncr3 v) gpa'.
Proof.
  intros Hok Hv R Hrun. pose proof (wp_npt_create _ _ gpa _ _ Hok Hv R) as Hwp.
  eapply wp_ok_inv in Hwp; [|exact Hrun].
  destruct Hwp as (k & m' & t' & -> & _ & R' & He & _ & a & -> & Hp & Ha). mem_simpl.
  split; [by rewrite (hw_translate_repr R'), Ha, Hp|].
  intros gpa' Hne. rewrite (hw_translate_repr R'), (hw_translate_repr R).
  by rewrite (ext_other_path _ _ _ _ _ _ He).
Qed.

(** C6: refinement of the abstract tree: on a well-formed table a call never
    touches memory the driver does not own, keeps the table well formed, only
    adds nodes on the path of [gpa] in fresh pages, leaves data pages and every
    page outside the table alone, and returns the leaf's page or [-ENOMEM] (then
    an allocation did fail); it panics only where the leaf is the hidden one. *)
Theorem npt_create_refines vmm v gpa s t :
  mm_ok s -> ks_heap s !! vmm = Some (OVmm v) -> npt_repr (ks_pages s) (vmm.ncr3 v) t ->
  wp (yakvm_vmm_npt_create vmm gpa false)
    (create_post gpa (vmm.ncr3 v) s t) (levels_stop gpa t) s.
Proof. apply wp_npt_create. Qed.

(** A second call for the same guest page returns the page of the first one
    and changes nothing; in particular it never fails with [-EEXIST]. *)
Theorem npt_create_idempotent vmm v gpa gpa' s t page s' :
  mm_ok s -> ks_heap s !! vmm = Some (OVmm v) -> npt_repr (ks_pages s) (vmm.ncr3 v) t ->
  guest_page gpa' = guest_page gpa ->
  yakvm_vmm_npt_create vmm gpa false s = Ok (inr page) s' ->
  yakvm_vmm_npt_create vmm gpa' false s' = Ok (inr page) s'.
Proof.
  intros Hok Hv R Hg Hrun. apply path_eq_page in Hg.
  pose proof (wp_npt_create _ _ gpa _ _ Hok Hv R) as Hwp.
  eapply wp_ok_inv in Hwp; [|exact Hrun].
  destruct Hwp as (k & m' & t' & -> & Hok' & R' & _ & _ & a & -> & _ & Ha).
  pose proof (wp_npt_create vmm v gpa' _ _ Hok' Hv R') as Hwp.
  rewrite <- Hg in Ha. unfold wp in Hwp.
  clear Hrun. destruct (yakvm_vmm_npt_create vmm gpa' false (with_mem k m' s)) as [res s2|w].
  - destruct Hwp as (k2 & m2 & t2 & -> & _ & _ & He2 & Hid & Hres). rewrite Hid by eauto.
    pose proof (lookup_weaken _ _ _ _ Ha (ext_sub _ _ _ _ _ He2)) as Ha2.
    destruct res as [e|page2]; [by destruct Hres as (_ & ? & _); congruence|].
    destruct Hres as (a2 & -> & _ & Ha2'). rewrite Ha2 in Ha2'. by injection Ha2' as <-.
  - destruct Hwp as (_ & x & Hx). congruence.
Qed.

(** Asking for a guest page whose leaf is there but not present, as that of an
    MMIO page is, fails the assertion on the entry: the kernel panics. *)
Theorem npt_create_hidden_panics vmm v gpa is_mmio s t a :
  mm_ok s -> ks_heap s !! vmm = Some (OVmm v) -> npt_repr (ks_pages s) (vmm.ncr3 v) t ->
  t !! path gpa = Some (a, false) ->
  yakvm_vmm_npt_create vmm gpa is_mmio s = Stop Panicked.
Proof.
  intros Hok Hv R Ha. apply wp_stops. unfold yakvm_vmm_npt_create.
  apply wp_bind. eapply wp_get_obj; [done..|]. apply wp_bind.
  eapply wp_mono; [eapply wp_stop_mono; [by apply wp_npt_create_all|by intros w []]|].
  intros res s2 (k & m' & t' & _ & _ & _ & He & _ & Hres). exfalso.
  pose proof (lookup_weaken _ _ _ _ Ha (ext_sub _ _ _ _ _ He)) as Ha'.
  destruct res as [e|[[entry table] idx]]; [naive_solver congruence|].
  destruct Hres as (q & b & a' & _ & _ & _ & Hn & _). congruence.
Qed.


(** The pages two calls return are the same exactly when the guest pages are:
    no two guest pages share a page, and a guest page never has two. *)
Theorem npt_create_injective vmm v gpa gpa' s t page page' s' s'' :
  mm_ok s -> ks_heap s !! vmm = Some (OVmm v) -> npt_repr (ks_pages s) (vmm.ncr3 v) t ->
  yakvm_vmm_npt_create vmm gpa false s = Ok (inr page) s' ->
  yakvm_vmm_npt_create vmm gpa' false s' = Ok (inr page') s'' ->
  (page = page' <-> guest_page gpa = guest_page gpa').
Proof.
  intros Hok Hv R Hrun Hrun'. pose proof (wp_npt_create _ _ gpa _ _ Hok Hv R) as Hwp.
  eapply wp_ok_inv in Hwp; [|exact Hrun]. clear Hrun.
  destruct Hwp as (k & m' & t' & -> & Hok' & R' & _ & _ & a & -> & Hp & Ha).
  pose proof (wp_npt_create vmm v gpa' _ _ Hok' Hv R') as Hwp.
  eapply wp_ok_inv in Hwp; [|exact Hrun']. clear Hrun'.
  destruct Hwp as (k2 & m2 & t2 & _ & _ & R2 & He & _ & a2 & -> & Hp2 & Ha2).
  pose proof (lookup_weaken _ _ _ _ Ha (ext_sub _ _ _ _ _ He)) as Ha'.
  rewrite <- path_eq_page. split; intros Heq.
  - rewrite Heq, Hp2 in Hp. subst a2. by eapply (repr_inj _ _ _ R2).
  - rewrite Heq, Ha2 in Ha'. by injection Ha' as ->.
Qed.

(** C11: two guests' tables that share no page never come to share one, and what
    one guest's accesses do to its table leaves the translation of the other. *)
Theorem npt_create_isolates vmm v gpa s t page s' root2 t2 :
  mm_ok s -> ks_heap s !! vmm = Some (OVmm v) -> npt_repr (ks_pages s) (vmm.ncr3 v) t ->
  npt_repr (ks_pages s) root2 t2 -> tree_pages t ## tree_pages t2 ->
  yakvm_vmm_npt_create vmm gpa false s = Ok page s' ->
  npt_repr (ks_pages s') root2 t2 /\
  (exists t', npt_repr (ks_pages s') (vmm.ncr3 v) t' /\ tree_pages t' ## tree_pages t2) /\
  forall gpa', hw_translate (ks_pages s') root2 gpa' = hw_translate (ks_pages s) root2 gpa'.
Proof.
  intros Hok Hv R R2 Hd Hrun. pose proof (wp_npt_create _ _ gpa _ _ Hok Hv R) as Hwp.
  eapply wp_ok_inv in Hwp; [|exact Hrun].
  destruct Hwp as (k & m' & t' & -> & _ & R' & He & _). mem_simpl.
  assert (tree_pages t' ## tree_pages t2) as Hd'.
  { eapply npt_ext_apart; [done|by eapply repr_pages_dom|done]. }
  assert (npt_repr m' root2 t2) as R2'.
  { eapply npt_repr_frame; [done|]. intros x Hx. apply (ext_frame _ _ _ _ _ He). set_solver. }
  split; [done|]. split; [by exists t'|].
  intros gpa'. by rewrite (hw_translate_repr R2'), (hw_translate_repr R2).
Qed.

(** C18: [yakvm_destroy_vmm] terminates, frees exactly the pages of the table,
    data pages included and hidden ones too, each once, and the object. *)
Theorem destroy_vmm_frees a v t s :
  mm_ok s -> ks_heap s !! a = Some (OVmm v) -> npt_repr (ks_pages s) (vmm.ncr3 v) t ->
  exists s', yakvm_destroy_vmm a s = Ok tt s' /\ mm_ok s' /\
    ks_heap s' = delete a (ks_heap s) /\
    dom (ks_pages s') = dom (ks_pages s) ∖ tree_pages t /\
    forall x, x ∉ tree_pages t -> ks_pages s' !! x = ks_pages s !! x.
Proof.
  intros Hok Hv R. pose proof (wp_destroy_vmm _ _ _ _ Hok Hv R) as H.
  apply wp_never_ok in H as ([] & s' & Hrun & Hok' & k & m' & -> & Hnone & Hframe).
  eexists. split; [exact Hrun|]. mem_simpl. split_and!; [done..| |done].
  apply set_eq. intros x. rewrite elem_of_difference, !elem_of_dom.
  destruct (decide (x ∈ tree_pages t)) as [Hx|Hx].
  - rewrite Hnone by done. split; [by intros []|by intros []].
  - rewrite Hframe by done. tauto.
Qed.

(** [yakvm_create_vmm] never panics, and the table it makes translates no
    address at all: guest memory is created by faults, the MMIO page stays
    hidden. The table is made of pages nobody else had, and other pages keep
    their contents. *)
Theorem create_vmm_translates_nothing vm s :
  mm_ok s ->
  exists res s', yakvm_create_vmm vm s = Ok res s' /\ mm_ok s' /\
    ks_pages s ⊆ ks_pages s' /\
    match res with
    | inl e => e = - ENOMEM /\ ks_heap s' = ks_heap s
    | inr a => ks_heap s !! a = None /\ IS_ERR res = false /\
        exists root t, ks_heap s' = <[a := OVmm (vmm.mk root vm)]> (ks_heap s) /\
          npt_repr (ks_pages s') root t /\ tree_pages t ## dom (ks_pages s) /\
          forall gpa, hw_translate (ks_pages s') root gpa = None
    end.
Proof.
  intros Hok. pose proof (wp_create_vmm vm s Hok) as H.
  apply wp_never_ok in H as (res & s' & Hrun & Hpost). exists res, s'. split; [done|].
  destruct res as [e|a].
  - destruct Hpost as (-> & Hok' & k & m' & -> & Hsub). by mem_simpl.
  - destruct Hpost as (Hok' & Hfr & Ha & k & m' & root & t & x & -> & Hsub & R & _ & Hd & Hx & Hpre).
    mem_simpl. split_and!; [done..|].
    exists root, t. split_and!; [done..|]. intros gpa. rewrite (hw_translate_repr R).
    destruct (t !! path gpa) as [[y []]|] eqn:Hy; [|done..].
    apply Hpre in Hy as Hp. destruct Hp as [r Hr].
    apply (f_equal length) in Hr as Hl. unfold path in Hl.
    rewrite length_app, !path_from_length in Hl. destruct r; [|simpl in Hl; lia].
    rewrite app_nil_r in Hr. congruence.
Qed.

(** C19: creating a guest's memory and destroying it gives the machine back as it
    was: no page and no object is kept or lost. *)
Theorem create_destroy_vmm vm s a s' :
  mm_ok s -> yakvm_create_vmm vm s = Ok (inr a) s' ->
  exists s'', yakvm_destroy_vmm a s' = Ok tt s'' /\
    ks_pages s'' = ks_pages s /\ ks_heap s'' = ks_heap s.
Proof.
  intros Hok Hrun. pose proof (wp_create_vmm vm s Hok) as H.
  eapply wp_ok_inv in H; [|exact Hrun].
  destruct H as (Hok' & Hfr & Ha & k & m' & root & t & x & -> & Hsub & R & Hdom & Hd & _).
  pose proof (wp_destroy_vmm a (vmm.mk root vm) t _ Hok') as H2. mem_simpl.
  specialize (H2 (lookup_insert_eq _ _ _) R).
  apply wp_never_ok in H2 as ([] & s2 & Hrun2 & Hok2 & k2 & m2 & -> & Hnone & Hframe).
  eexists. split; [exact Hrun2|]. mem_simpl. split; [|by rewrite delete_insert_id].
  apply map_eq. intros y. destruct (decide (y ∈ tree_pages t)) as [Hy|Hy].
  - rewrite Hnone by done. symmetry. apply not_elem_of_dom. set_solver.
  - rewrite Hframe by done. destruct (ks_pages s !! y) as [p|] eqn:Hp.
    + by eapply lookup_weaken.
    + apply not_elem_of_dom in Hp. apply not_elem_of_dom. rewrite Hdom. set_solver.
Qed.

End npt_properties.

(** When memory runs out part way, [yakvm_create_vmm] fails with [-ENOMEM] and
    frees the root only: the tables it had already linked below the root are
    lost, one page after one level, two after two. *)
Theorem create_vmm_leaks :
  exists s1 s2,
    @yakvm_create_vmm concrete makefile_config 1 (boot [true; true; true; false]) = Ok (inl (- ENOMEM)) s1 /\
    ks_heap s1 = ∅ /\ size (ks_pages s1) = 1%nat /\
    @yakvm_create_vmm concrete makefile_config 1 (boot [true; true; true; true; false]) = Ok (inl (- ENOMEM)) s2 /\
    ks_heap s2 = ∅ /\ size (ks_pages s2) = 2%nat.
Proof.
  exists (final (@yakvm_create_vmm concrete makefile_config 1) (boot [true; true; true; false])),
    (final (@yakvm_create_vmm concrete makefile_config 1) (boot [true; true; true; true; false])).
  split_and!; [apply result_final|..|apply result_final| |]; vm_compute; reflexivity.
Qed.

(** ** Witnesses *)

Lemma demo_mapped_run :
  yakvm_vmm_npt_create demo_vmm 0 false demo = Ok (inr demo_page) demo_mapped.
Proof. unfold demo_mapped. exact (result_final _ _ _ demo_mapped_result). Qed.

(** A second table, beside the first. *)
Definition demo_root2 : Z := 8192.
Definition demo2 : @kstate concrete :=
  KState concrete (CMM {[demo_root; demo_root2]} {[demo_vmm]} ∅ [])
    (<[demo_root2 := zero_page]> {[demo_root := zero_page]})
    {[demo_vmm := OVmm (vmm.mk demo_root 1)]} ∅ ∅ 1 0 false [] 0.
Definition demo2_tree : tree := {[ [] := (demo_root2, true) ]}.

Lemma demo2_ok : mm_ok demo2.
Proof. split; simpl; set_solver. Qed.

Lemma demo2_repr :
  npt_repr (ks_pages demo2) demo_root demo_tree /\ npt_repr (ks_pages demo2) demo_root2 demo2_tree.
Proof.
  split; [|by apply repr_root_only].
  eapply npt_repr_frame; [apply demo_repr|]. intros x (q & b & Hq)%elem_of_tree_pages.
  unfold demo_tree in Hq. apply lookup_singleton_Some in Hq as [_ [= <- _]]. done.
Qed.

Lemma demo2_apart : tree_pages demo_tree ## tree_pages demo2_tree.
Proof.
  intros x (q & b & Hq)%elem_of_tree_pages (q2 & b2 & Hq2)%elem_of_tree_pages.
  unfold demo_tree, demo2_tree in *. apply lookup_singleton_Some in Hq as [_ [= <- _]].
  by apply lookup_singleton_Some in Hq2 as [_ [=]].
Qed.

Definition demo2_page : Z := @pfn_to_page concrete 6.
Definition demo2_mapped : @kstate concrete := final (yakvm_vmm_npt_create demo_vmm 0 false) demo2.

Lemma demo2_run :
  yakvm_vmm_npt_create demo_vmm 0 false demo2 = Ok (inr demo2_page) demo2_mapped.
Proof. unfold demo2_mapped. apply result_final. vm_compute. reflexivity. Qed.

Lemma npt_create_maps_witness :
  hw_translate (ks_pages demo_mapped) demo_root 0 =
    Some (@page_to_phys concrete demo_page + 0 mod 4096) /\
  forall gpa', guest_page gpa' <> guest_page 0 ->
    hw_translate (ks_pages demo_mapped) demo_root gpa' = hw_translate (ks_pages demo) demo_root gpa'.
Proof.
  exact (npt_create_maps _ (vmm.mk demo_root 1) _ _ _ _ _ demo_ok demo_obj demo_repr demo_mapped_run).
Defined.

Lemma npt_create_refines_witness :
  wp (yakvm_vmm_npt_create demo_vmm 0 false)
    (create_post 0 demo_root demo demo_tree) (levels_stop 0 demo_tree) demo.
Proof.
  exact (npt_create_refines _ (vmm.mk demo_root 1) _ _ _ demo_ok demo_obj demo_repr).
Defined.

Lemma npt_create_idempotent_witness :
  yakvm_vmm_npt_create demo_vmm 4095 false demo_mapped = Ok (inr demo_page) demo_mapped.
Proof.
  apply (npt_create_idempotent _ (vmm.mk demo_root 1) 0 _ _ _ _ _ demo_ok demo_obj demo_repr);
    [reflexivity | exact demo_mapped_run].
Defined.

Lemma npt_create_hidden_panics_witness :
  yakvm_vmm_npt_create demo_vmm 0 false demo_hidden = Stop Panicked.
Proof.
  destruct demo_hidden_repr as (Hok & Hv & t & a & R & Ha).
  exact (npt_create_hidden_panics _ (vmm.mk demo_root 1) _ _ _ _ _ Hok Hv R Ha).
Defined.

Lemma npt_create_injective_witness : demo_page = demo_page <-> guest_page 0 = guest_page 4095.
Proof.
  apply (npt_create_injective demo_vmm (vmm.mk demo_root 1) 0 4095 demo demo_tree _ _
    demo_mapped demo_mapped demo_ok demo_obj demo_repr demo_mapped_run).
  apply result_final. vm_compute. reflexivity.
Defined.

Lemma npt_create_isolates_witness :
  npt_repr (ks_pages demo2_mapped) demo_root2 demo2_tree /\
  (exists t', npt_repr (ks_pages demo2_mapped) demo_root t' /\ tree_pages t' ## tree_pages demo2_tree) /\
  forall gpa', hw_translate (ks_pages demo2_mapped) demo_root2 gpa' =
    hw_translate (ks_pages demo2) demo_root2 gpa'.
Proof.
  destruct demo2_repr as [R R2].
  exact (npt_create_isolates demo_vmm (vmm.mk demo_root 1) 0 demo2 demo_tree _ _ _ _
    demo2_ok (lookup_singleton_eq _ _) R R2 demo2_apart demo2_run).
Defined.

Lemma destroy_vmm_frees_witness :
  exists s', yakvm_destroy_vmm demo_vmm demo = Ok tt s' /\ mm_ok s' /\
    ks_heap s' = delete demo_vmm (ks_heap demo) /\
    dom (ks_pages s') = dom (ks_pages demo) ∖ tree_pages demo_tree /\
    forall x, x ∉ tree_pages demo_tree -> ks_pages s' !! x = ks_pages demo !! x.
Proof.
  exact (destroy_vmm_frees _ (vmm.mk demo_root 1) _ _ demo_ok demo_obj demo_repr).
Defined.

Lemma create_vmm_translates_nothing_witness :
  exists res s', @yakvm_create_vmm concrete makefile_config 1 (boot []) = Ok res s' /\
    mm_ok s' /\ ks_pages (boot []) ⊆ ks_pages s' /\
    match res with
    | inl e => e = - ENOMEM /\ ks_heap s' = ks_heap (boot [])
    | inr a => ks_heap (boot []) !! a = None /\ IS_ERR res = false /\
        exists root t, ks_heap s' = <[a := OVmm (vmm.mk root 1)]> (ks_heap (boot [])) /\
          npt_repr (ks_pages s') root t /\ tree_pages t ## dom (ks_pages (boot [])) /\
          forall gpa, hw_translate (ks_pages s') root gpa = None
    end.
Proof. exact (create_vmm_translates_nothing 1 (boot []) (boot_ok [])). Defined.

Lemma create_destroy_vmm_witness :
  exists s'', yakvm_destroy_vmm 0xffff8881000000c0
      (final (@yakvm_create_vmm concrete makefile_config 1) (boot [])) = Ok tt s'' /\
    ks_pages s'' = ks_pages (boot []) /\ ks_heap s'' = ks_heap (boot []).
Proof.
  refine (create_destroy_vmm 1 (boot []) _ _ (boot_ok []) _).
  apply result_final. vm_compute. reflexivity.
Defined.
