(* ===== verification/Race.v ===== *)
(** * Page faults that race

    [yakvm_vmm_npt_create] takes no lock, and the fault handler of a machine's
    memory (driver/vm.c, [yakvm_vm_vmm_fault]) runs on any thread that maps it.
    Here a call is cut at every access to memory that others see, a [walker],
    and any number of calls on one table are interleaved by a schedule. Each
    access is atomic and seen by all at once, in the order of the source. The
    callers that can race are the page fault and [YAKVM_MMAP_PAGE], which pass
    [is_mmio] as false; the one call that passes true, and hides its page, is
    made by [yakvm_create_vmm] on a table no other thread has yet. *)

From S2P Require Import Prelude Schedule Structs Kernel Concrete Npt.

Section walkers.
Context `{K : KernelOps} `{C : Config}.

(** Where a call of [yakvm_vmm_npt_create] with [is_mmio] false is. *)
Inductive walker : Type :=
| Called (vmm : Z)                              (** at [entry = vmm->ncr3] *)
| Reading (level : nat) (entry : Z)             (** at [entry = table->entrys[index]] *)
| Allocating (level : nat) (table index : Z)    (** at [page = alloc_page()] *)
| Linking (level : nat) (table index page : Z)  (** at [table->entrys[index] = entry] *)
| Returned (r : err_ptr).

(** The checks at the end of the loop's body, and what follows: the next level,
    or after [PT] the end of the function. *)
Definition next_level (level : nat) (entry : Z) : KM walker :=
  kassert (has_flag entry _PAGE_PRESENT && has_flag entry _PAGE_RW &&
           has_flag entry _PAGE_USER) ;;
  mret (match pred level with
        | O => Returned (inr (pfn_to_page (Z.shiftr entry PAGE_SHIFT)))
        | level => Reading level entry
        end).

(** One access and the code up to the next. *)
Definition walk_step (gpa : Z) (w : walker) : KM walker :=
  match w with
  | Called vmm => v ← get_vmm vmm; mret (Reading (Z.to_nat PML4T) (vmm.ncr3 v))
  | Reading level entry =>
      index ← table_index gpa (Z.of_nat level);
      let table := yakvm_vmm_phys_to_virt entry in
      entry ← load_word table index;
      if entry =? 0 then mret (Allocating level table index)
      else next_level level entry
  | Allocating level table index =>
      page ← alloc_page;
      mret match page with
           | None => Returned (inl (- ENOMEM))
           | Some page => Linking level table index page
           end
  | Linking level table index page =>
      let entry := Z.lor (Z.lor (Z.lor (page_to_phys page) _PAGE_PRESENT) _PAGE_RW) _PAGE_USER in
      store_word table index entry ;;
      next_level level entry
  | Returned r => mret (Returned r)
  end.

(** Faults of several threads: each with the address it asks for. *)
Definition fault_step (t : Z * walker) : KM (Z * walker) :=
  w ← walk_step t.1 t.2; mret (t.1, w).

Definition start (vmm : Z) (gpas : list Z) : list (Z * walker) := (fun gpa => (gpa, Called vmm)) <$> gpas.

(** The most steps a call takes: one to start, three for a level. *)
Definition walk_steps : nat := 1 + 3 * 4.

(** The calls one after the other. *)
Definition create_calls (vmm : Z) : list Z -> KM (list (Z * walker)) :=
  calls (fun gpa => yakvm_vmm_npt_create vmm gpa false) (fun gpa r => (gpa, Returned r)).

End walkers.

(** ** A walker alone is the call *)
Section alone.
Context `{K : KernelOps} `{C : Config}.
Implicit Types (s : kstate).

(** A call that nobody disturbs, for [n] steps. *)
#[local] Abbreviation walk n gpa := (steps (walk_step gpa) n).

Lemma walk_returned n gpa r s : walk n gpa (Returned r) s = Ok (Returned r) s.
Proof. by apply steps_end. Qed.

(** Where the end of the loop leads. *)
Definition after_levels (res : Z + Z * Z * Z) : walker :=
  Returned (match res with
            | inl e => inl e
            | inr (entry, _, _) => inr (pfn_to_page (Z.shiftr entry PAGE_SHIFT))
            end).

(** What is to be shown of [l] rounds of the loop. *)
Definition walks_levels (l : nat) : Prop :=
  forall n gpa entry tbl idx r s,
    (3 * l <= n)%nat ->
    walk n gpa (Reading l entry) s =
      (res ← npt_create_levels gpa l entry tbl idx r; mret (after_levels res)) s.

(** The end of a round of the loop, before the rounds that are left. *)
Lemma walk_next l n gpa entry tbl idx r s :
  (3 * l <= n)%nat -> (forall k, l = S k -> walks_levels l) ->
  (w ← next_level (S l) entry; walk n gpa w) s =
  (kassert (has_flag entry _PAGE_PRESENT && has_flag entry _PAGE_RW &&
            has_flag entry _PAGE_USER) ;;
   res ← npt_create_levels gpa l entry tbl idx r; mret (after_levels res)) s.
Proof.
  intros Hn Hl. unfold next_level, kassert. destruct (_ && _); [|done].
  destruct l as [|k]; [apply walk_returned|by eapply Hl].
Qed.

Lemma walk_round l : (forall k, l = S k -> walks_levels l) -> walks_levels (S l).
Proof.
  intros Hl n gpa entry tbl idx r s Hn. destruct n as [|[|[|n]]]; [lia..|].
  pose proof (fun n e tbl idx r s Hn => walk_next l n gpa e tbl idx r s Hn Hl) as Hnext.
  cbn [npt_create_levels steps walk_step].
  unfold mbind, M_bind in *. destruct (table_index _ _ s) as [i s1|]; [|done].
  destruct (load_word _ _ s1) as [e s2|]; [|done].
  destruct (e =? 0).
  - unfold mret, M_ret. cbn [steps walk_step]. unfold mbind, M_bind.
    destruct (alloc_page s2) as [[pg|] s3|]; [|by apply (walk_returned (S n))|done].
    unfold mret, M_ret. cbn [steps walk_step]. unfold mbind, M_bind.
    destruct (store_word _ _ _ s3) as [[] s4|]; [|done].
    rewrite (Hnext n _ (yakvm_vmm_phys_to_virt entry) i r) by lia. by destruct (kassert _ s4).
  - specialize (Hnext (S (S n)) e). cbn [steps] in Hnext. unfold mbind, M_bind in Hnext.
    destruct (Z.of_nat (S l) =? PT).
    + rewrite (Hnext (yakvm_vmm_phys_to_virt entry) i (Some (- EEXIST))) by lia.
      unfold mret, M_ret. by destruct (kassert _ s2).
    + rewrite (Hnext (yakvm_vmm_phys_to_virt entry) i r) by lia. unfold mret, M_ret. by destruct (kassert _ s2).
Qed.

Lemma walk_levels l : walks_levels (S l).
Proof. induction l as [|l IH]; apply walk_round; [done|by intros k [= <-]]. Qed.

Lemma walk_call n vmm gpa s :
  (walk_steps <= n)%nat ->
  walk n gpa (Called vmm) s =
    (r ← yakvm_vmm_npt_create vmm gpa false; mret (Returned r)) s.
Proof.
  unfold walk_steps. intros Hn. destruct n as [|n]; [lia|]. cbn [steps walk_step].
  unfold yakvm_vmm_npt_create, mbind, M_bind. destruct (get_vmm vmm s) as [v s1|]; [|done].
  change (Z.to_nat PML4T) with 4%nat. unfold mret at 1, M_ret at 1.
  rewrite (walk_levels 3 _ _ _ 0 0 None) by lia. unfold mbind, M_bind.
  by destruct (npt_create_levels _ _ _ _ _ _ s1) as [[e|[[entry table] idx]] s2|].
Qed.

(** A fault alone. *)
Lemma fault_steps n gpa w s :
  steps fault_step n (gpa, w) s = (w ← walk n gpa w; mret (gpa, w)) s.
Proof.
  revert w s. induction n as [|n IH]; intros w s; [done|]. cbn [steps].
  unfold mbind, M_bind in *. unfold fault_step at 1, mbind, M_bind. cbn [fst snd].
  destruct (walk_step gpa w s) as [w' s'|]; [|done]. apply IH.
Qed.

(** Callers that take their turns one after the other, as a lock around the call
    would make them, do what the calls do in sequence: the walker is
    [yakvm_vmm_npt_create] with [is_mmio] false, access by access, on every
    address and in every state, whether it returns, runs out of memory, panics or
    goes astray. *)
Theorem in_turn_is_sequence vmm gpas s :
  interleave fault_step (in_turn walk_steps (length gpas)) (start vmm gpas) s = create_calls vmm gpas s.
Proof.
  apply (interleave_in_turn _ (fun gpa => yakvm_vmm_npt_create vmm gpa false)) with (Ex := never);
    [|by intros w _ []]. intros gpa s' _. rewrite fault_steps. unfold mbind, M_bind. rewrite walk_call by done.
  unfold mbind, M_bind. by destruct (yakvm_vmm_npt_create vmm gpa false s').
Qed.

End alone.
