(* ===== verification/RaceProps.v ===== *)
(** * What racing faults may do

    The invariant of Race: the table stays a tree and what is in it at the start
    stays in it, but a page that a walker links may replace one that another has
    linked since the first looked. Such a page, and what its walker hangs under
    it, is lost: no table leads to it. *)

From S2P Require Import Prelude Schedule Structs Kernel Concrete Npt NptProps Race.

(** ** Replacing a subtree *)

Definition prune (t : tree) (q : list Z) : tree :=
  filter (fun rn => ~ q `prefix_of` rn.1) t.

Definition graft (t : tree) (q : list Z) (b : Z) : tree := <[q := (b, true)]> (prune t q).

Lemma lookup_prune t q r n : prune t q !! r = Some n <-> t !! r = Some n /\ ~ q `prefix_of` r.
Proof. unfold prune. by rewrite map_lookup_filter_Some. Qed.

Lemma lookup_prune_self t q : prune t q !! q = None.
Proof.
  destruct (prune t q !! q) as [n|] eqn:Hn; [|done].
  apply lookup_prune in Hn as [_ Hn]. by destruct Hn.
Qed.

Lemma prefix_snoc_inv {A} (q r : list A) j :
  q `prefix_of` r ++ [j] -> ~ q `prefix_of` r -> q = r ++ [j].
Proof.
  intros [k Hk] Hn. destruct k as [|x k] using rev_ind; [by rewrite app_nil_r in Hk|].
  rewrite app_assoc in Hk. apply app_inj_tail in Hk as [-> _]. destruct Hn. by exists k.
Qed.

Lemma child_entry_prune t p i r j :
  (r, j) <> (p, i) -> ~ p ++ [i] `prefix_of` r ->
  child_entry (prune t (p ++ [i])) r j = child_entry t r j.
Proof.
  intros Hne Hpre. unfold child_entry.
  destruct (t !! (r ++ [j])) as [n|] eqn:Hn.
  - assert (prune t (p ++ [i]) !! (r ++ [j]) = Some n) as ->; [|done].
    apply lookup_prune. split; [done|]. intros H.
    apply prefix_snoc_inv in H; [|done]. apply app_inj_tail in H as [-> ->]. done.
  - destruct (prune t (p ++ [i]) !! (r ++ [j])) as [n|] eqn:Hp; [|done].
    apply lookup_prune in Hp as [Hp _]. congruence.
Qed.

(** Clearing an entry cuts off what is under it. *)
Lemma repr_prune m root t p i a ws :
  npt_repr m root t -> t !! p = Some (a, true) -> (length p < 4)%nat -> 0 <= i < 512 ->
  m !! a = Some (PWords ws) ->
  npt_repr (<[a := PWords (<[Z.to_nat i := 0]> ws)]> m) root (prune t (p ++ [i])).
Proof.
  intros R Hp Hl Hi Hws. split.
  - apply lookup_prune. split; [apply R|]. intros [k Hk]. by destruct p.
  - intros q n [Hq _]%lookup_prune. by eapply (repr_path _ _ _ R).
  - intros q j n [Hq Hn]%lookup_prune. destruct (repr_parent _ _ _ R _ _ _ Hq) as [x Hx].
    exists x. apply lookup_prune. split; [done|]. intros Hpre. apply Hn.
    by apply prefix_app_r.
  - intros q1 q2 x b c [H1 _]%lookup_prune [H2 _]%lookup_prune. by eapply (repr_inj _ _ _ R).
  - intros q x b [Hq _]%lookup_prune. by eapply (repr_addr _ _ _ R).
  - intros q x b [Hq Hn]%lookup_prune.
    destruct (repr_table _ _ _ R _ _ _ Hq) as (wq & Hwq & Hlq & Hcq).
    destruct (decide (x = a)) as [->|Hxa].
    + pose proof (repr_inj _ _ _ R _ _ _ _ _ Hq Hp) as ->.
      rewrite Hws in Hwq. injection Hwq as <-. eexists. rewrite lookup_insert_eq.
      split; [done|]. rewrite length_insert. split; [done|]. intros Hl4.
      split; [by apply Hcq|]. intros j Hj. destruct (decide (j = i)) as [->|Hji].
      * rewrite list_lookup_insert_eq by lia. unfold child_entry. by rewrite lookup_prune_self.
      * rewrite list_lookup_insert_ne, child_entry_prune by (congruence || lia). by apply Hcq.
    + exists wq. rewrite lookup_insert_ne by done. split; [done|]. split; [done|].
      intros Hl4. split; [by apply Hcq|]. intros j Hj.
      rewrite child_entry_prune; [by apply Hcq| |done].
      intros [= -> ->]. congruence.
Qed.

(** Writing the address of a zeroed page into an entry, whatever was there. *)
Lemma repr_graft m root t p i a ws b :
  npt_repr m root t -> t !! p = Some (a, true) -> (length p < 4)%nat -> 0 <= i < 512 ->
  m !! a = Some (PWords ws) -> m !! b = Some zero_page -> valid_pa b -> b ∉ tree_pages t ->
  npt_repr (<[a := PWords (<[Z.to_nat i := encode (b, true)]> ws)]> m) root (graft t (p ++ [i]) b).
Proof.
  intros R Hp Hl Hi Hws Hb Hvb Hnb.
  assert (a <> b) as Hab.
  { intros ->. apply Hnb, elem_of_tree_pages. eauto. }
  assert (npt_repr (delete b m) root t) as R1.
  { apply (npt_repr_frame m); [done|]. intros x Hx. rewrite lookup_delete_ne; [done|congruence]. }
  apply (repr_prune _ _ _ p i a ws) in R1; [|done..|by rewrite lookup_delete_ne].
  assert (prune t (p ++ [i]) !! p = Some (a, true)) as Hp'.
  { apply lookup_prune. split; [done|]. intros [k Hk].
    apply (f_equal length) in Hk. rewrite !length_app in Hk. simpl in Hk. lia. }
  pose proof (repr_new R1 p i a _ b Hp' Hl Hi (lookup_prune_self _ _)
    (lookup_insert_eq _ _ _) Hvb) as R2.
  rewrite (insert_insert_ne _ b a), insert_insert_eq, list_insert_insert_eq in R2 by done.
  unfold graft. rewrite <- (insert_delete_id m b zero_page Hb) at 1. apply R2.
  by rewrite lookup_insert_ne, lookup_delete_eq.
Qed.

(** ** The pages of a race

    [m0] and [t0] are the pages and the tree at the start, [t] the tree now and
    [G] the level of every page that is a table or a leaf or has been one. *)
Section forest.
Context (m0 : gmap Z page) (t0 : tree) (root : Z).

Definition level_of (p : list Z) : nat := (4 - length p)%nat.

(** What entry [i] of the table [a] may be, the tables under it being at
    [level]: nothing, a present page, or a page hidden from the start. *)
Definition entry_ok (G : gmap Z nat) (a : Z) (level : nat) (i e : Z) : Prop :=
  e = 0 \/
  (exists b, e = encode (b, true) /\ G !! b = Some level) \/
  (exists b p, e = encode (b, false) /\ t0 !! p = Some (a, true) /\
     t0 !! (p ++ [i]) = Some (b, false)).

Record forest (m : gmap Z page) (G : gmap Z nat) (t : tree) : Prop := {
  forest_repr : npt_repr m root t;
  forest_sub : t0 ⊆ t;
  forest_level p a b : t !! p = Some (a, b) -> G !! a = Some (level_of p);
  forest_addr a l : G !! a = Some l -> valid_pa a;
  forest_table a l : G !! a = Some l -> exists ws, m !! a = Some (PWords ws) /\
    length ws = 512%nat /\
    forall l', l = S l' -> forall i, 0 <= i < 512 ->
      exists e, ws !! Z.to_nat i = Some e /\ entry_ok G a l' i e;
  (** what hangs under a lost page is lost *)
  forest_lost a l ws i b :
    G !! a = Some (S l) -> a ∉ tree_pages t -> m !! a = Some (PWords ws) -> 0 <= i < 512 ->
    ws !! Z.to_nat i = Some (encode (b, true)) -> G !! b = Some l -> b ∉ tree_pages t;
  (** pages from the start keep their contents unless they are tables *)
  forest_old x y : m0 !! x = Some y ->
    (x ∈ tree_pages t0 \/ G !! x = None) /\
    ((forall l, G !! x <> Some (S l)) -> m !! x = Some y)
}.

(** The levels of a tree's pages. *)
Lemma tree_levels m t : npt_repr m root t ->
  exists G : gmap Z nat, forall a l,
    G !! a = Some l <-> exists p b, t !! p = Some (a, b) /\ l = level_of p.
Proof.
  intros R. exists (list_to_map ((fun n => (n.2.1, level_of n.1)) <$> map_to_list t)).
  intros a l. set (ns := (fun n => _) <$> _).
  assert (forall x k, (x, k) ∈ ns <-> exists p b, t !! p = Some (x, b) /\ k = level_of p) as Hns.
  { intros x k. unfold ns. rewrite list_elem_of_fmap. split.
    - intros ([p [y b]] & [= -> ->] & Hn%elem_of_map_to_list). eauto.
    - intros (p & b & Hp & ->). exists (p, (x, b)). split; [done|]. by apply elem_of_map_to_list. }
  rewrite <- elem_of_list_to_map'; [apply Hns|].
  intros k (p & b & Hp & ->)%Hns. intros (q & c & Hq & ->)%Hns.
  by rewrite (repr_inj _ _ _ R _ _ _ _ _ Hp Hq).
Qed.

Lemma forest_init : npt_repr m0 root t0 -> exists G, forest m0 G t0.
Proof.
  intros R. destruct (tree_levels _ _ R) as [G HG]. exists G. split; [done..| | | | |].
  - intros p a b Hp. apply HG. eauto.
  - intros a l (p & b & Hp & _)%HG. by eapply (repr_addr _ _ _ R).
  - intros a l (p & b & Hp & ->)%HG.
    destruct (repr_table _ _ _ R _ _ _ Hp) as (ws & Hws & Hlen & Hc).
    exists ws. split; [done|]. split; [done|]. intros l' Hl' i Hi. unfold level_of in Hl'.
    destruct Hc as [-> Hc]; [lia|]. exists (child_entry t0 p i). split; [by apply Hc|].
    unfold child_entry, entry_ok. destruct (t0 !! (p ++ [i])) as [[x c]|] eqn:Hx; [|by left].
    right. destruct c; [left|right; eauto]. exists x. split; [done|]. apply HG.
    exists (p ++ [i]), true. split; [done|]. unfold level_of. rewrite length_app. simpl. lia.
  - intros a l ws i b (p & c & Hp & _)%HG Hn. destruct Hn. apply elem_of_tree_pages. eauto.
  - intros x y Hx. split; [|done]. destruct (G !! x) as [l|] eqn:Hl; [left|by right].
    apply HG in Hl as (p & b & Hp & _). apply elem_of_tree_pages. eauto.
Qed.

(** The nodes that are not from the start. *)
Lemma forest_nodes m G t q x b :
  forest m G t -> t !! q = Some (x, b) ->
  t0 !! q = Some (x, b) \/ b = true /\ (x ∈ tree_pages t0 \/ m0 !! x = None).
Proof.
  intros F Hq. pose proof (forest_repr _ _ _ F) as R.
  destruct b.
  { right. split; [done|]. destruct (m0 !! x) as [y|] eqn:Hy; [left|by right].
    destruct (forest_old _ _ _ F _ _ Hy) as [[?|HG] _]; [done|].
    apply (forest_level _ _ _ F) in Hq. congruence. }
  left. destruct q as [|i p _] using rev_ind.
  { rewrite (repr_root _ _ _ R) in Hq. congruence. }
  destruct (repr_parent _ _ _ R _ _ _ Hq) as [a Ha].
  destruct (repr_path _ _ _ R _ _ Hq) as [Hlen [_ Hi]%Forall_app].
  rewrite length_app in Hlen. simpl in Hlen. apply Forall_inv in Hi.
  destruct (repr_lookup_entry R p a i Ha) as (ws & Hws & He); [lia|done|].
  pose proof (forest_level _ _ _ F _ _ _ Ha) as HG.
  destruct (forest_table _ _ _ F _ _ HG) as (ws' & Hws' & _ & Hok).
  rewrite Hws in Hws'. injection Hws' as <-.
  destruct (Hok (3 - length p)%nat) with (i := i) as (e & He' & He2);
    [unfold level_of; lia|done|].
  rewrite He in He'. injection He' as <-. unfold child_entry in He2. rewrite Hq in He2.
  pose proof (repr_addr _ _ _ R _ _ _ Hq) as Hvx.
  destruct He2 as [H0|[(b & Hb & HGb)|(b & p' & Hb & Hp' & Hb0)]].
  - pose proof (encode_nonzero (x, false) Hvx). lia.
  - apply encode_inj in Hb as [_ ?]; [done|done|]. by eapply (forest_addr _ _ _ F).
  - pose proof (lookup_weaken _ _ _ _ Hp' (forest_sub _ _ _ F)) as Hp2.
    pose proof (repr_inj _ _ _ R _ _ _ _ _ Ha Hp2) as <-.
    pose proof (lookup_weaken _ _ _ _ Hb0 (forest_sub _ _ _ F)) as Hb2. congruence.
Qed.

Lemma forest_pages m G t a : forest m G t -> is_Some (G !! a) -> is_Some (m !! a).
Proof. intros F [l (ws & Hws & _)%(forest_table _ _ _ F)]. eauto. Qed.

Lemma forest_old_pages m G t a : forest m G t -> m !! a = None -> m0 !! a = None.
Proof.
  intros F Ha. destruct (m0 !! a) as [y|] eqn:Hy; [|done]. exfalso.
  assert (G !! a = None) as HG.
  { destruct (G !! a) eqn:HG; [|done]. destruct (forest_pages _ _ _ a F) as [z Hz]; [eauto|].
    congruence. }
  apply (forest_old _ _ _ F) in Hy as [_ Hy]. rewrite Hy in Ha; [done|]. intros l. congruence.
Qed.

(** A page is allocated: nobody refers to it. *)
Lemma forest_alloc m G t pa :
  forest m G t -> m !! pa = None -> forest (<[pa := zero_page]> m) G t.
Proof.
  intros F Hpa.
  assert (forall x, is_Some (G !! x) -> x <> pa) as Hne.
  { intros x [? Hx]%(forest_pages _ _ _ _ F) ->. congruence. }
  assert (forall x b, (exists q, t !! q = Some (x, b)) -> x <> pa) as Hnt.
  { intros x b [q Hq]. apply Hne. apply (forest_level _ _ _ F) in Hq. eauto. }
  split; try apply F.
  - apply (npt_repr_frame m); [apply F|]. intros x (q & b & Hq)%elem_of_tree_pages.
    rewrite lookup_insert_ne; [done|]. symmetry. eapply Hnt. eauto.
  - intros a l Ha. rewrite lookup_insert_ne by (symmetry; apply Hne; eauto).
    by apply (forest_table _ _ _ F).
  - intros a l ws i b Ha. rewrite lookup_insert_ne by (symmetry; apply Hne; eauto).
    by apply (forest_lost _ _ _ F).
  - intros x y Hx. rewrite lookup_insert_ne; [by apply (forest_old _ _ _ F)|].
    intros ->. rewrite (forest_old_pages _ _ _ _ F Hpa) in Hx. done.
Qed.

(** What entry [i] of a table holds, for the levels and for the tree. *)
Lemma forest_entry m G t a l ws i b :
  forest m G t -> G !! a = Some (S l) -> m !! a = Some (PWords ws) -> 0 <= i < 512 ->
  ws !! Z.to_nat i = Some (encode (b, true)) -> valid_pa b -> G !! b = Some l.
Proof.
  intros F Ha Hws Hi Hb Hvb.
  destruct (forest_table _ _ _ F _ _ Ha) as (ws' & Hws' & _ & He).
  rewrite Hws in Hws'. injection Hws' as <-.
  destruct (He l eq_refl i Hi) as (e & He' & [->|[(x & -> & Hx)|(x & p & -> & _ & Hx)]]);
    rewrite Hb in He'; injection He' as He'.
  - pose proof (encode_nonzero (b, true) Hvb). lia.
  - apply encode_inj in He' as [-> _]; [done|done|]. by eapply (forest_addr _ _ _ F).
  - apply encode_inj in He' as [_ ?]; [done|done|].
    eapply (repr_addr _ _ _ (forest_repr _ _ _ F)).
    eapply lookup_weaken; [exact Hx|apply F].
Qed.

Lemma forest_tree_entry m G t p a c i :
  forest m G t -> t !! p = Some (a, c) -> (length p < 4)%nat -> 0 <= i < 512 ->
  exists ws, m !! a = Some (PWords ws) /\ ws !! Z.to_nat i = Some (child_entry t p i).
Proof.
  intros F Hp Hl Hi. pose proof (forest_repr _ _ _ F) as R.
  pose proof (repr_present R _ _ _ Hp Hl) as ->. by apply (repr_lookup_entry R).
Qed.

Lemma child_entry_zero m t p i :
  npt_repr m root t -> child_entry t p i = 0 -> t !! (p ++ [i]) = None.
Proof.
  intros R Heq. unfold child_entry in Heq. destruct (t !! (p ++ [i])) as [[x d]|] eqn:Hx; [|done].
  pose proof (encode_nonzero (x, d) (repr_addr _ _ _ R _ _ _ Hx)). lia.
Qed.

Context (R0 : npt_repr m0 root t0).

(** Entry [i] of the table [a] is written: where [a] is in the tree the new page
    [pa] takes the place of what was there. *)
Record links (t : tree) (a i pa : Z) (t' : tree) : Prop := {
  links_new q n : t' !! q = Some n ->
    t !! q = Some n \/ exists p, t !! p = Some (a, true) /\ q = p ++ [i] /\ n = (pa, true);
  links_old : t0 ⊆ t';
  links_in p b : t !! p = Some (a, b) -> t' !! (p ++ [i]) = Some (pa, true);
  links_self : a ∈ tree_pages t -> a ∈ tree_pages t';
  links_cut r x c j n : t !! r = Some (x, c) -> x ∉ tree_pages t' ->
    t !! (r ++ [j]) = Some n -> n.1 ∉ tree_pages t';
  links_keep : (forall p b, t !! p = Some (a, b) -> t !! (p ++ [i]) = None) -> t ⊆ t'
}.

(** An entry that was empty for a walker has nothing of the start under it. *)
Lemma slot_empty t a i p q :
  t0 ⊆ t -> (forall p b, t0 !! p = Some (a, b) -> t0 !! (p ++ [i]) = None) ->
  t !! p = Some (a, true) -> p ++ [i] `prefix_of` q -> t0 !! q = None.
Proof.
  intros Hsub Hslot Hp [k ->]. apply (repr_none_app R0).
  destruct (t0 !! p) as [[x b]|] eqn:Hp0; [|by apply (repr_none_app R0)].
  apply (Hslot p b). pose proof (lookup_weaken _ _ _ _ Hp0 Hsub). congruence.
Qed.

Lemma links_exists m G t a l i ws pa :
  forest m G t -> G !! a = Some (S l) -> m !! a = Some (PWords ws) -> 0 <= i < 512 ->
  m !! pa = Some zero_page -> G !! pa = None -> valid_pa pa ->
  (forall p b, t0 !! p = Some (a, b) -> t0 !! (p ++ [i]) = None) ->
  exists t', links t a i pa t' /\
    npt_repr (<[a := PWords (<[Z.to_nat i := encode (pa, true)]> ws)]> m) root t'.
Proof.
  intros F Ha Hws Hi Hpa HG Hvpa Hslot. pose proof (forest_repr _ _ _ F) as R.
  assert (pa ∉ tree_pages t) as Hnpa.
  { intros (q & b & Hq%(forest_level _ _ _ F))%elem_of_tree_pages. congruence. }
  destruct (decide (a ∈ tree_pages t)) as [(p & b & Hp)%elem_of_tree_pages|Hna].
  - pose proof (forest_level _ _ _ F _ _ _ Hp) as Hl. rewrite Ha in Hl.
    assert (length p < 4)%nat as Hl4 by (unfold level_of in Hl; injection Hl; lia).
    pose proof (repr_present R _ _ _ Hp Hl4) as ->.
    exists (graft t (p ++ [i]) pa). split; [|by apply repr_graft].
    assert (forall q n, q <> p ++ [i] -> graft t (p ++ [i]) pa !! q = Some n <->
      t !! q = Some n /\ ~ p ++ [i] `prefix_of` q) as Hgraft.
    { intros q n Hne. unfold graft. rewrite lookup_insert_ne by done. apply lookup_prune. }
    assert (graft t (p ++ [i]) pa !! (p ++ [i]) = Some (pa, true)) as Hnew.
    { apply lookup_insert_eq. }
    split.
    + intros q n Hq. destruct (decide (q = p ++ [i])) as [->|Hne].
      * right. exists p. split; [done|]. split; [done|]. congruence.
      * apply Hgraft in Hq as [Hq _]; [by left|done].
    + apply map_subseteq_spec. intros q n Hq.
      assert (~ p ++ [i] `prefix_of` q) as Hpre.
      { intros Hpre. rewrite (slot_empty t a i p q) in Hq; [done|apply F|done..]. }
      apply Hgraft; [by intros ->|]. split; [|done]. eapply lookup_weaken; [done|apply F].
    + intros p' b' Hp'. by pose proof (repr_inj _ _ _ R _ _ _ _ _ Hp' Hp) as ->.
    + intros _. apply elem_of_tree_pages. exists p, true. apply Hgraft.
      { intros Heq%(f_equal length). rewrite length_app in Heq. simpl in Heq. lia. }
      split; [done|]. intros [k Hk%(f_equal length)]. rewrite !length_app in Hk. simpl in Hk. lia.
    + intros r x c j [y d] Hr Hx Hy. simpl. intros (q & e & Hq)%elem_of_tree_pages.
      destruct (decide (q = p ++ [i])) as [->|Hne].
      { rewrite Hnew in Hq. injection Hq as <- <-. apply Hnpa, elem_of_tree_pages. eauto. }
      apply Hgraft in Hq as [Hq Hpre]; [|done].
      pose proof (repr_inj _ _ _ R _ _ _ _ _ Hq Hy) as ->.
      apply Hx, elem_of_tree_pages. exists r, c. apply Hgraft.
      { intros ->. by apply Hpre, prefix_app_r. }
      split; [done|]. intros Hpre'. by apply Hpre, prefix_app_r.
    + intros Hfree. apply map_subseteq_spec. intros q n Hq.
      assert (~ p ++ [i] `prefix_of` q) as Hpre.
      { intros [k ->]. rewrite (repr_none_app R) in Hq; [done|by eapply Hfree]. }
      apply Hgraft; [by intros ->|]. done.
  - exists t. split.
    + split; [by left|apply F| |done| |done].
      * intros p b Hp. destruct Hna. apply elem_of_tree_pages. eauto.
      * intros r x c j n Hr Hx. destruct Hx. apply elem_of_tree_pages. eauto.
    + apply (npt_repr_frame m); [done|]. intros x Hx. rewrite lookup_insert_ne; [done|congruence].
Qed.

Section link.
Context {m : gmap Z page} {G : gmap Z nat} {t t' : tree} {a i pa : Z} {l : nat} {ws : list Z}.
Context (F : forest m G t) (Ha : G !! a = Some (S l)) (Hws : m !! a = Some (PWords ws)).
Context (Hpa : m !! pa = Some zero_page) (HG : G !! pa = None) (Hvpa : valid_pa pa).
Context (T : links t a i pa t') (Hi : 0 <= i < 512).
#[local] Abbreviation m' := (<[a := PWords (<[Z.to_nat i := encode (pa, true)]> ws)]> m).
#[local] Abbreviation G' := (<[pa := l]> G).

Lemma link_ne : a <> pa.
Proof using HG Ha. congruence. Qed.

Lemma link_known x k : G !! x = Some k -> G' !! x = Some k.
Proof using HG. intros Hx. rewrite lookup_insert_ne; [done|congruence]. Qed.

Lemma link_tree_pages x : x ∈ tree_pages t' -> x = pa \/ x ∈ tree_pages t.
Proof using T.
  intros (q & b & [Hq|(p & _ & _ & [= -> ->])]%(links_new _ _ _ _ _ T))%elem_of_tree_pages.
  - right. apply elem_of_tree_pages. eauto.
  - by left.
Qed.

Lemma link_entry_ok x k j e : entry_ok G x k j e -> entry_ok G' x k j e.
Proof using HG.
  intros [->|[(b & -> & Hb)|H]]; [by left| |by right; right].
  right. left. exists b. split; [done|]. by apply link_known.
Qed.

Lemma link_table x k : G' !! x = Some k -> exists ws, m' !! x = Some (PWords ws) /\
  length ws = 512%nat /\
  forall k', k = S k' -> forall j, 0 <= j < 512 ->
    exists e, ws !! Z.to_nat j = Some e /\ entry_ok G' x k' j e.
Proof using F Ha Hws Hpa HG Hi.
  pose proof link_ne as Hne. intros Hx. destruct (decide (x = pa)) as [->|Hxpa].
  - exists (replicate 512 0). rewrite lookup_insert_ne by done. split; [done|].
    split; [apply length_replicate|]. intros k' _ j Hj. exists 0. split; [|by left].
    rewrite lookup_replicate_2; [done|lia].
  - rewrite lookup_insert_ne in Hx by done.
    destruct (forest_table _ _ _ F _ _ Hx) as (wx & Hwx & Hlen & He).
    destruct (decide (x = a)) as [->|Hxa].
    + rewrite lookup_insert_eq. rewrite Hws in Hwx. injection Hwx as <-.
      eexists. split; [done|]. rewrite length_insert. split; [done|].
      intros k' -> j Hj. rewrite Ha in Hx. injection Hx as <-.
      destruct (decide (j = i)) as [->|Hji].
      * exists (encode (pa, true)). rewrite list_lookup_insert_eq by lia. split; [done|].
        right. left. exists pa. split; [done|]. apply lookup_insert_eq.
      * rewrite list_lookup_insert_ne by lia.
        destruct (He _ eq_refl j Hj) as (e & He1 & He2). exists e. split; [done|].
        by apply link_entry_ok.
    + exists wx. rewrite lookup_insert_ne by done. split; [done|]. split; [done|].
      intros k' -> j Hj. destruct (He k' eq_refl j Hj) as (e & He1 & He2).
      exists e. split; [done|]. by apply link_entry_ok.
Qed.

(** A table other than [a]: what hangs under it when it is lost. *)
Lemma link_lost_other x k wx j b :
  G !! x = Some (S k) -> x <> a -> x ∉ tree_pages t' -> m !! x = Some (PWords wx) ->
  0 <= j < 512 -> wx !! Z.to_nat j = Some (encode (b, true)) -> valid_pa b ->
  b ∉ tree_pages t'.
Proof using F HG T.
  intros Hx Hxa Hnx Hwx Hj Hb Hvb Hin.
  pose proof (forest_entry _ _ _ _ _ _ _ _ F Hx Hwx Hj Hb Hvb) as HGb.
  apply link_tree_pages in Hin as Hin'. destruct Hin' as [->|Hbt]; [congruence|].
  destruct (decide (x ∈ tree_pages t)) as [(r & c & Hr)%elem_of_tree_pages|Hxt].
  - pose proof (forest_level _ _ _ F _ _ _ Hr) as Hlv. rewrite Hx in Hlv.
    destruct (forest_tree_entry _ _ _ _ _ _ j F Hr) as (w2 & Hw2 & Hc); [|done|].
    { unfold level_of in Hlv. injection Hlv. lia. }
    rewrite Hwx in Hw2. injection Hw2 as <-. rewrite Hb in Hc. injection Hc as Hc.
    symmetry in Hc. apply (child_entry_encode m root) in Hc; [|apply F|done].
    by apply (links_cut _ _ _ _ _ T _ _ _ _ _ Hr Hnx Hc).
  - by apply (forest_lost _ _ _ F x k wx j b).
Qed.

Lemma link_lost x k wx j b :
  G' !! x = Some (S k) -> x ∉ tree_pages t' -> m' !! x = Some (PWords wx) -> 0 <= j < 512 ->
  wx !! Z.to_nat j = Some (encode (b, true)) -> G' !! b = Some k -> b ∉ tree_pages t'.
Proof using F Ha Hws Hpa HG Hvpa T Hi.
  intros Hx Hnx Hwx Hj Hb HGb.
  assert (valid_pa b) as Hvb.
  { destruct (decide (b = pa)) as [->|Hne]; [done|].
    rewrite lookup_insert_ne in HGb by done. by eapply (forest_addr _ _ _ F). }
  destruct (decide (x = pa)) as [->|Hxpa].
  { pose proof link_ne. rewrite lookup_insert_ne, Hpa in Hwx by done.
    assert (wx = replicate 512 0) as -> by (unfold zero_page in *; congruence).
    apply lookup_replicate in Hb as [Hb _].
    pose proof (encode_nonzero (b, true) Hvb). lia. }
  rewrite lookup_insert_ne in Hx by done.
  destruct (decide (x = a)) as [->|Hxa].
  - rewrite lookup_insert_eq in Hwx. injection Hwx as <-.
    assert (a ∉ tree_pages t) as Hna by (intros H; by apply Hnx, (links_self _ _ _ _ _ T)).
    assert (pa ∉ tree_pages t') as Hnpa.
    { intros (q & c & [Hq|(p & Hp & _)]%(links_new _ _ _ _ _ T))%elem_of_tree_pages.
      - apply (forest_level _ _ _ F) in Hq. congruence.
      - apply Hna, elem_of_tree_pages. eauto. }
    destruct (decide (b = pa)) as [->|Hbpa]; [done|].
    intros [->|Hin]%link_tree_pages; [done|]. revert Hin.
    rewrite lookup_insert_ne in HGb by done.
    destruct (decide (j = i)) as [->|Hji].
    + apply list_lookup_insert_Some in Hb as [(_ & Heq & _)|[? _]]; [|done].
      apply encode_inj in Heq as [-> _]; done.
    + rewrite list_lookup_insert_ne in Hb by lia. by apply (forest_lost _ _ _ F a k ws j b).
  - rewrite lookup_insert_ne in Hwx by done. by apply (link_lost_other x k wx j b).
Qed.

Lemma forest_link : m0 !! pa = None -> npt_repr m' root t' -> forest m' G' t'.
Proof using F Ha Hws Hpa HG Hvpa T Hi.
  intros Hold R'. split; [done|apply T| | |exact link_table|exact link_lost|].
  - intros p x b [Hp|(q & Hq & -> & [= -> ->])]%(links_new _ _ _ _ _ T).
    + apply link_known. by eapply (forest_level _ _ _ F).
    + rewrite lookup_insert_eq. f_equal. apply (forest_level _ _ _ F) in Hq.
      rewrite Ha in Hq. injection Hq as Hq. unfold level_of in *. rewrite length_app. simpl. lia.
  - intros x k. destruct (decide (x = pa)) as [->|Hne]; [done|].
    rewrite lookup_insert_ne by done. apply (forest_addr _ _ _ F).
  - intros x y Hx. assert (x <> pa) as Hne by congruence.
    rewrite lookup_insert_ne by done. apply (forest_old _ _ _ F) in Hx as [H1 H2].
    split; [done|]. intros Hk. rewrite lookup_insert_ne; [by apply H2|].
    intros <-. by apply (Hk l).
Qed.

End link.

End forest.

(** ** Where a walker stands *)

Lemma path_snoc gpa l q :
  (l < 4)%nat -> path gpa = q ++ path_from gpa l ->
  exists p, q = p ++ [index gpa (Z.of_nat (S l))] /\ path gpa = p ++ path_from gpa (S l).
Proof.
  intros Hl Heq. assert (exists p, path gpa = p ++ path_from gpa (S l)) as [p Hp].
  { unfold path. destruct l as [|[|[|[|l]]]]; [..|lia]; cbn [path_from].
    - by exists [index gpa 4; index gpa 3; index gpa 2].
    - by exists [index gpa 4; index gpa 3].
    - by exists [index gpa 4].
    - by exists []. }
  exists p. split; [|done]. rewrite Hp in Heq. cbn [path_from] in Heq.
  rewrite cons_middle, app_assoc in Heq. by apply app_inv_tail in Heq.
Qed.

Lemma path_length_app gpa l q : path gpa = q ++ path_from gpa l -> (length q + l = 4)%nat.
Proof.
  intros H%(f_equal length). rewrite length_app in H.
  unfold path in H. rewrite !path_from_length in H. done.
Qed.

Section places.
Context (m0 : gmap Z page) (t0 : tree) (root vmm : Z).
Context (R0 : npt_repr m0 root t0).

(** The walker for [gpa] has come to page [a], with [l] levels to go: if [a] is
    in the tree it is on the path of [gpa], and it is the page that was there
    from the start if there was one. *)
Record place (G : gmap Z nat) (t : tree) (gpa : Z) (l : nat) (a : Z) : Prop := {
  place_level : G !! a = Some l;
  place_le : (l <= 4)%nat;
  place_path q b : t !! q = Some (a, b) -> path gpa = q ++ path_from gpa l /\ b = true;
  place_old q x b : path gpa = q ++ path_from gpa l -> t0 !! q = Some (x, b) -> x = a
}.

(** It has seen an empty entry in the table [a]. *)
Record slot (G : gmap Z nat) (t : tree) (gpa : Z) (l : nat) (a idx : Z) : Prop := {
  slot_place : place G t gpa l a;
  slot_index : idx = index gpa (Z.of_nat l);
  slot_level : (0 < l)%nat;
  slot_free p b : t0 !! p = Some (a, b) -> t0 !! (p ++ [idx]) = None
}.

Definition walker_ok `{K : KernelOps} (m : gmap Z page) (G : gmap Z nat) (t : tree)
    (gpa : Z) (w : walker) : Prop :=
  match w with
  | Called v => v = vmm
  | Reading l entry => (0 < l)%nat /\ place G t gpa l (yakvm_vmm_page entry)
  | Allocating l table idx => exists a, table = phys_to_virt a /\ slot G t gpa l a idx
  | Linking l table idx page => exists a, table = phys_to_virt a /\ slot G t gpa l a idx /\
      m !! page_to_phys page = Some zero_page /\ G !! page_to_phys page = None /\
      m0 !! page_to_phys page = None /\ valid_pa (page_to_phys page)
  | Returned (inl e) => e = - ENOMEM
  | Returned (inr page) => place G t gpa 0 (page_to_phys page)
  end.

(** The page a walker has taken and not yet linked. *)
Definition pending `{K : KernelOps} (w : walker) : option Z :=
  match w with Linking _ _ _ page => Some (page_to_phys page) | _ => None end.

(** The walker stands in the tree, and the entry it saw empty still is. *)
Definition on_tree `{K : KernelOps} (t : tree) (w : walker) : Prop :=
  match w with
  | Reading _ entry => yakvm_vmm_page entry ∈ tree_pages t
  | Allocating _ table idx | Linking _ table idx _ =>
      exists q a, table = phys_to_virt a /\ t !! q = Some (a, true) /\ t !! (q ++ [idx]) = None
  | Returned (inr page) => page_to_phys page ∈ tree_pages t
  | _ => True
  end.

(** Nodes are only added, on the path of [gpa]. *)
Definition grows (t : tree) (gpa : Z) (t' : tree) : Prop :=
  t ⊆ t' /\ forall q n, t' !! q = Some n -> t !! q = None -> q `prefix_of` path gpa.

(** What one walker leaves of the others' knowledge; [mine] is its own page. *)
Record evolves (mine : option Z) (m : gmap Z page) (G : gmap Z nat) (t : tree)
    (m' : gmap Z page) (G' : gmap Z nat) (t' : tree) : Prop := {
  evolves_levels : G ⊆ G';
  evolves_tree x q n : is_Some (G !! x) -> t' !! q = Some n -> n.1 = x -> t !! q = Some n;
  evolves_pages x : m !! x = Some zero_page -> G !! x = None -> Some x <> mine ->
    m' !! x = Some zero_page /\ G' !! x = None
}.

Lemma evolves_refl mine m G t : evolves mine m G t m G t.
Proof. by split. Qed.

Lemma place_evolves mine m G t m' G' t' gpa l a :
  evolves mine m G t m' G' t' -> place G t gpa l a -> place G' t' gpa l a.
Proof.
  intros E [H1 Hle H2 H3]. split; [|done|intros q b Hq|done].
  - eapply lookup_weaken; [done|apply E].
  - apply H2. by eapply (evolves_tree _ _ _ _ _ _ _ E a).
Qed.

Lemma slot_evolves mine m G t m' G' t' gpa l a i :
  evolves mine m G t m' G' t' -> slot G t gpa l a i -> slot G' t' gpa l a i.
Proof. intros E []. split; [by eapply place_evolves|done..]. Qed.

Lemma walker_ok_evolves `{K : KernelOps} mine m G t m' G' t' gpa w :
  evolves mine m G t m' G' t' -> (pending w = None \/ pending w <> mine) ->
  walker_ok m G t gpa w -> walker_ok m' G' t' gpa w.
Proof.
  intros E Hp. destruct w as [v|l e|l tb i|l tb i pg|[e|pg]]; simpl in *; try done.
  - intros [? ?]. split; [done|]. by eapply place_evolves.
  - intros (a & ? & ?). exists a. split; [done|]. by eapply slot_evolves.
  - intros (a & ? & ? & Hz & HG & ? & ?). exists a. split; [done|].
    split; [by eapply slot_evolves|].
    destruct Hp as [|Hp]; [done|].
    by destruct (evolves_pages _ _ _ _ _ _ _ E _ Hz HG Hp).
  - intros ?. by eapply place_evolves.
Qed.

(** The root of a table is where every walker starts. *)
Lemma place_root m G t gpa : forest m0 t0 root m G t -> place G t gpa 4 root.
Proof.
  intros F. pose proof (forest_repr _ _ _ _ _ _ F) as R. pose proof (repr_root _ _ _ R) as Hr.
  split.
  - by apply (forest_level _ _ _ _ _ _ F) in Hr.
  - done.
  - intros q b Hq. pose proof (repr_inj _ _ _ R _ _ _ _ _ Hq Hr) as ->.
    split; [done|]. congruence.
  - intros q x b Hq%path_length_app Hx. destruct q; [|simpl in Hq; lia].
    pose proof (repr_root _ _ _ R0). congruence.
Qed.

Section round.
Context {m : gmap Z page} {G : gmap Z nat} {t : tree} (F : forest m0 t0 root m G t).
Context {gpa a : Z} {l : nat} {ws : list Z} {e : Z}.
#[local] Abbreviation idx := (index gpa (Z.of_nat (S l))).
Context (P : place G t gpa (S l) a) (Hws : m !! a = Some (PWords ws))
        (He : ws !! Z.to_nat idx = Some e).

(** In the tree the entry read is the tree's. *)
Lemma place_child p b :
  t !! p = Some (a, b) -> child_entry t p idx = e /\ path gpa = (p ++ [idx]) ++ path_from gpa l.
Proof using F P Hws He.
  intros Hp. pose proof (place_path _ _ _ _ _ P _ _ Hp) as [Hpath _].
  pose proof (path_length_app _ _ _ Hpath) as Hlen.
  destruct (forest_tree_entry _ _ _ _ _ _ _ _ _ idx F Hp) as (w & Hw & Hc);
    [lia|apply index_range|].
  rewrite Hws in Hw. injection Hw as <-. split; [congruence|].
  rewrite Hpath, <- app_assoc. done.
Qed.

(** What was there from the start. *)
Lemma place_start q x b :
  path gpa = q ++ path_from gpa l -> t0 !! q = Some (x, b) ->
  exists p, q = p ++ [idx] /\ t0 !! p = Some (a, true) /\ t !! p = Some (a, true).
Proof using R0 F P.
  intros Hq Hx. pose proof (place_le _ _ _ _ _ P).
  destruct (path_snoc gpa l q) as (p & -> & Hp); [lia|done|].
  destruct (repr_parent _ _ _ R0 _ _ _ Hx) as [y Hy].
  pose proof (place_old _ _ _ _ _ P _ _ _ Hp Hy) as ->.
  exists p. split; [done|]. split; [done|]. eapply lookup_weaken; [done|apply F].
Qed.

Lemma place_next b : e = encode (b, true) -> G !! b = Some l -> place G t gpa l b.
Proof using R0 F P Hws He.
  intros Heq HGb. pose proof (forest_addr _ _ _ _ _ _ F _ _ HGb) as Hvb.
  pose proof (forest_repr _ _ _ _ _ _ F) as R. pose proof (place_le _ _ _ _ _ P).
  split; [done|lia| |].
  - intros q c Hq. destruct (decide (a ∈ tree_pages t)) as [(p & d & Hp)%elem_of_tree_pages|Hna].
    + destruct (place_child _ _ Hp) as [Hc Hpath]. rewrite Heq in Hc.
      apply (child_entry_encode m root) in Hc; [|done|done].
      pose proof (repr_inj _ _ _ R _ _ _ _ _ Hq Hc) as ->. split; [done|]. congruence.
    + exfalso. eapply (forest_lost _ _ _ _ _ _ F a l ws idx b); try done.
      * apply P.
      * apply index_range.
      * by rewrite <- Heq.
      * apply elem_of_tree_pages. eauto.
  - intros q x c Hq Hx. destruct (place_start _ _ _ Hq Hx) as (p & -> & _ & Hp).
    destruct (place_child _ _ Hp) as [Hc _].
    assert (t !! (p ++ [idx]) = Some (x, c)) as Hx' by (eapply lookup_weaken; [done|apply F]).
    unfold child_entry in Hc. rewrite Hx', Heq in Hc.
    apply encode_inj in Hc as [-> _]; [done| |done]. by eapply (repr_addr _ _ _ R).
Qed.

Lemma slot_next : e = 0 -> slot G t gpa (S l) a idx.
Proof using F P Hws He.
  intros Heq. split; [done|done|lia|]. intros p b Hp.
  assert (t !! p = Some (a, b)) as Hp' by (eapply lookup_weaken; [done|apply F]).
  destruct (place_child _ _ Hp') as [Hc _]. rewrite Heq in Hc.
  apply (child_entry_zero root m) in Hc; [|apply F].
  destruct (t0 !! (p ++ [idx])) as [n|] eqn:Hn; [|done].
  assert (t !! (p ++ [idx]) = Some n) by (eapply lookup_weaken; [done|apply F]). congruence.
Qed.

(** The hidden entry: only the walker that asks for that page meets it. *)
Lemma place_hidden b p :
  t0 !! p = Some (a, true) -> t0 !! (p ++ [idx]) = Some (b, false) -> t0 !! path gpa = Some (b, false).
Proof using R0 F P He.
  intros Hp Hb.
  assert (t !! p = Some (a, true)) as Hp' by (eapply lookup_weaken; [done|apply F]).
  pose proof (place_path _ _ _ _ _ P _ _ Hp') as [Hpath _].
  pose proof (path_length_app _ _ _ Hpath) as Hlen.
  destruct l as [|k].
  - rewrite Hpath. done.
  - apply (repr_present R0) in Hb; [done|]. rewrite length_app. simpl. lia.
Qed.

(** A page just linked is where its walker goes next. *)
Lemma place_linked m' G' t' pa :
  slot G t gpa (S l) a idx -> links t0 t a idx pa t' -> npt_repr m' root t' ->
  G' !! pa = Some l -> pa ∉ tree_pages t -> place G' t' gpa l pa.
Proof using R0 F P.
  intros Hs T R' HG' Hpa. pose proof (place_le _ _ _ _ _ P). split; [done|lia| |].
  - intros q c Hq. destruct (links_new _ _ _ _ _ _ T _ _ Hq) as [Hq'|(p & Hp & -> & [= ->])].
    + destruct Hpa. apply elem_of_tree_pages. eauto.
    + pose proof (place_path _ _ _ _ _ P _ _ Hp) as [Hpath _]. split; [|done].
      rewrite Hpath, <- app_assoc. done.
  - intros q x c Hq Hx. destruct (place_start _ _ _ Hq Hx) as (p & -> & Hp & _).
    rewrite (slot_free _ _ _ _ _ _ Hs _ _ Hp) in Hx. done.
Qed.

End round.

End places.

(** What a race on the table of root [root], whose tree was [t0] in [s0], leaves:
    a well-formed table that has kept what it had and gained new pages, every page
    outside of it, and for each caller that has returned, an error only for want of memory or an
    allocated page, the one that was mapped if there was one; the guest finds it
    at the address, or it is a new page that the table does not know. *)
Definition race_post `{L : KernelLaws} (s0 : kstate) (t0 : tree) (root : Z) (gpas : list Z)
    (ts : list (Z * walker)) (s' : kstate) : Prop :=
  mm_ok s' /\ ts.*1 = gpas /\ exists k m' t',
    s' = with_mem k m' s0 /\ npt_repr m' root t' /\ t0 ⊆ t' /\
    (forall x, x ∈ dom (ks_pages s0) -> x ∉ tree_pages t0 -> m' !! x = ks_pages s0 !! x) /\
    dom (ks_pages s0) ⊆ dom m' /\
    (forall q x b, t' !! q = Some (x, b) -> t0 !! q = Some (x, b) \/
       b = true /\ (x ∈ tree_pages t0 \/ ks_pages s0 !! x = None)) /\
    forall i gpa r, ts !! i = Some (gpa, Returned r) ->
      match r with
      | inl e => e = - ENOMEM
      | inr page =>
          is_Some (m' !! page_to_phys page) /\
          (forall a b, t0 !! path gpa = Some (a, b) -> page_to_phys page = a /\ b = true) /\
          (hw_translate m' root gpa = Some (page_to_phys page + gpa mod 4096) \/
           (page_to_phys page ∉ tree_pages t') /\ ks_pages s0 !! page_to_phys page = None)
      end.

(** ** Steps and schedules *)
Section race.
Context `{L : KernelLaws} `{C : Config}.
Context (s0 : kstate) (t0 : tree) (vmm : Z) (v : vmm.t).
Context (Hv : ks_heap s0 !! vmm = Some (OVmm v)).
Context (R0 : npt_repr (ks_pages s0) (vmm.ncr3 v) t0).
Implicit Types (s : kstate).

#[local] Abbreviation forest := (forest (ks_pages s0) t0 (vmm.ncr3 v)).
#[local] Abbreviation walker_ok := (walker_ok (ks_pages s0) t0 vmm).
#[local] Abbreviation place := (place t0).
#[local] Abbreviation slot := (slot t0).

(** What one step of a walker at [w] does. *)
Definition walk_post (gpa : Z) (w : walker) (m : gmap Z page) (G : gmap Z nat) (t : tree)
    (w' : walker) (s' : kstate) : Prop :=
  mm_ok s' /\ exists k m' G' t',
    s' = with_mem k m' s0 /\ forest m' G' t' /\ evolves (pending w) m G t m' G' t' /\
    walker_ok m' G' t' gpa w' /\ (forall pa, pending w' = Some pa -> m !! pa = None) /\
    (on_tree t w -> grows t gpa t' /\ on_tree t' w').

Lemma valid_pa_page pa : valid_pa pa -> page_to_phys (pfn_to_page (pa / PAGE_SIZE)) = pa.
Proof using L.
  intros (n & -> & Hn)%valid_pa_frame.
  unfold PAGE_SIZE. rewrite Z.div_mul by lia. apply page_to_phys_pfn. lia.
Qed.

Lemma wp_next_level gpa l b m G t s :
  valid_pa b -> place G t gpa l b ->
  wp (next_level (S l) (encode (b, true)))
    (fun w' s' => s' = s /\ walker_ok m G t gpa w' /\ pending w' = None /\
       (b ∈ tree_pages t -> on_tree t w')) never s.
Proof using L.
  intros Hb P. unfold next_level. rewrite encode_present, encode_rw, encode_user by done.
  simpl (kassert _). wp_steps. split; [done|]. destruct l as [|l]; cbn.
  - rewrite encode_shiftr by done. cbn. by rewrite valid_pa_page.
  - rewrite (yakvm_vmm_page_encode (b, true)) by done. split; [|done]. split; [lia|done].
Qed.

(** Steps that change no page. *)
Lemma walk_post_same gpa w m G t w' k :
  mm_ok (with_mem k m s0) -> forest m G t -> walker_ok m G t gpa w' -> pending w' = None ->
  (on_tree t w -> on_tree t w') -> walk_post gpa w m G t w' (with_mem k m s0).
Proof using.
  intros Hok F Hw Hp Ht. split; [done|]. exists k, m, G, t.
  split; [done|]. split; [done|]. split; [apply evolves_refl|]. split; [done|].
  split; [congruence|]. intros Hon. split; [|by apply Ht]. split; [done|congruence].
Qed.

Lemma wp_reading gpa l entry k m G t :
  mm_ok (with_mem k m s0) -> forest m G t -> walker_ok m G t gpa (Reading l entry) ->
  wp (walk_step gpa (Reading l entry)) (walk_post gpa (Reading l entry) m G t)
    (levels_stop gpa t0) (with_mem k m s0).
Proof using R0 L.
  intros Hok F [Hl P]. destruct l as [|l]; [lia|]. pose proof (place_le _ _ _ _ _ _ P) as Hle.
  cbn [walk_step]. apply wp_bind. eapply wp_ok; [apply table_index_spec; lia|].
  unfold yakvm_vmm_phys_to_virt. set (a := yakvm_vmm_page entry) in *. cbv zeta.
  pose proof (place_level _ _ _ _ _ _ P) as HG.
  destruct (forest_table _ _ _ _ _ _ F _ _ HG) as (ws & Hws & Hlen & Hent).
  destruct (Hent l eq_refl _ (index_range gpa (Z.of_nat (S l)))) as (e & He & Hok_e).
  apply wp_bind. eapply wp_load_word; [|exact Hws|exact He|].
  { apply valid_pa_round_trip. by eapply (forest_addr _ _ _ _ _ _ F). }
  destruct Hok_e as [->|[(b & -> & Hb)|(b & p & -> & Hp & Hb)]].
  - simpl (_ =? _). wp_steps. apply walk_post_same; [done..| |done|].
    { exists a. split; [done|]. by eapply slot_next. }
    intros (q & b & Hq)%elem_of_tree_pages. fold a in Hq.
    destruct (place_path _ _ _ _ _ _ P _ _ Hq) as [_ ->]. exists q, a.
    split; [done|]. split; [done|]. eapply child_entry_zero; [apply F|].
    by eapply place_child.
  - pose proof (forest_addr _ _ _ _ _ _ F _ _ Hb) as Hvb. rewrite encode_nonzero by done.
    eapply wp_mono; [eapply wp_stop_mono|].
    + eapply (wp_next_level gpa l b); [done|]. by eapply place_next.
    + done.
    + intros w' s' (-> & Hw & Hp & Ht). apply walk_post_same; [done..|].
      intros (q & c & Hq)%elem_of_tree_pages. fold a in Hq. apply Ht, elem_of_tree_pages.
      exists (q ++ [index gpa (Z.of_nat (S l))]), true.
      eapply child_entry_encode; [apply F|done|]. by eapply place_child.
  - pose proof (repr_addr _ _ _ R0 _ _ _ Hb) as Hvb. rewrite encode_nonzero by done.
    unfold next_level. rewrite encode_present by done. simpl (kassert _).
    split; [done|]. exists b. by eapply place_hidden.
Qed.

Lemma wp_allocating gpa l tbl i k m G t :
  mm_ok (with_mem k m s0) -> forest m G t -> walker_ok m G t gpa (Allocating l tbl i) ->
  wp (walk_step gpa (Allocating l tbl i)) (walk_post gpa (Allocating l tbl i) m G t)
    (levels_stop gpa t0) (with_mem k m s0).
Proof using L.
  intros Hok F (a & -> & Hs). cbn [walk_step]. apply wp_bind, wp_alloc_page; [done|..].
  - intros k' Hk' _. wp_steps. mem_simpl. by apply walk_post_same.
  - mem_simpl. intros k' pg pa Hpg Hvpa Hfresh _ Hok'. wp_steps. split; [done|].
    assert (G !! pa = None) as HG.
    { destruct (G !! pa) as [x|] eqn:HG; [|done].
      destruct (forest_pages _ _ _ _ _ _ _ F (ex_intro _ x HG)). congruence. }
    exists k', (<[pa := zero_page]> m), G, t. split; [done|].
    split; [by apply forest_alloc|]. split; [|split; [|split]].
    + split; [done..|]. intros x Hx HGx _. split; [|done].
      rewrite lookup_insert_ne; [done|congruence].
    + exists a. rewrite Hpg, lookup_insert_eq. split_and!; try done.
      by eapply (forest_old_pages _ _ _ _ _ _ _ F).
    + intros pa' [= <-]. by rewrite Hpg.
    + intros Hon. split; [|exact Hon]. split; [done|congruence].
Qed.

(** Linking a page leaves what the others know. *)
Lemma evolves_link m G t t' a i pa l ws ws' :
  forest m G t -> G !! a = Some (S l) -> m !! a = Some (PWords ws) ->
  m !! pa = Some zero_page -> G !! pa = None -> links t0 t a i pa t' ->
  evolves (Some pa) m G t (<[a := PWords ws']> m) (<[pa := l]> G) t'.
Proof using.
  intros F Ha Hws Hpa HG T. split.
  - by apply insert_subseteq.
  - intros x q [y b] Hx Hq Hy. simpl in Hy. subst y.
    destruct (links_new _ _ _ _ _ _ T _ _ Hq) as [?|(p & _ & _ & [= -> _])]; [done|].
    rewrite HG in Hx. by destruct Hx.
  - intros x Hx HGx Hne. rewrite !lookup_insert_ne; [done|congruence..].
Qed.

Lemma phys_to_virt_inj a b :
  valid_pa a -> valid_pa b -> phys_to_virt a = phys_to_virt b -> a = b.
Proof using L.
  intros Ha Hb Heq. by rewrite <- (valid_pa_round_trip a Ha), Heq, valid_pa_round_trip.
Qed.

Lemma grows_link m G t t' gpa l a i pa pg w' :
  forest m G t -> slot G t gpa (S l) a i -> links t0 t a i pa t' ->
  (pa ∈ tree_pages t' -> on_tree t' w') ->
  on_tree t (Linking (S l) (phys_to_virt a) i pg) ->
  grows t gpa t' /\ on_tree t' w'.
Proof using L.
  intros F [P -> _ _] T Hw' (q & a' & Heq & Hq & Hfree).
  pose proof (forest_repr _ _ _ _ _ _ F) as R.
  pose proof (forest_addr _ _ _ _ _ _ F _ _ (place_level _ _ _ _ _ _ P)) as Hva.
  pose proof (repr_addr _ _ _ R _ _ _ Hq) as Hva'.
  apply phys_to_virt_inj in Heq as <-; [|done|done].
  split; [split|].
  - apply (links_keep _ _ _ _ _ _ T). intros p b Hp.
    by pose proof (repr_inj _ _ _ R _ _ _ _ _ Hp Hq) as ->.
  - intros r n Hr Hnone. destruct (links_new _ _ _ _ _ _ T _ _ Hr) as [?|(p & Hp & -> & _)];
      [congruence|].
    destruct (place_path _ _ _ _ _ _ P _ _ Hp) as [-> _].
    exists (path_from gpa l). by rewrite <- app_assoc.
  - apply Hw', elem_of_tree_pages. exists (q ++ [index gpa (Z.of_nat (S l))]), true.
    by eapply (links_in _ _ _ _ _ _ T).
Qed.

Lemma wp_linking gpa l tbl i pg k m G t :
  mm_ok (with_mem k m s0) -> forest m G t -> walker_ok m G t gpa (Linking l tbl i pg) ->
  wp (walk_step gpa (Linking l tbl i pg)) (walk_post gpa (Linking l tbl i pg) m G t)
    (levels_stop gpa t0) (with_mem k m s0).
Proof using R0 L.
  intros Hok F (a & -> & Hs & Hz & HG & Hold & Hvpa). cbn [walk_step].
  set (pa := page_to_phys pg) in *. rewrite encode_new by done. cbv zeta.
  pose proof (slot_place _ _ _ _ _ _ _ Hs) as P. pose proof (slot_level _ _ _ _ _ _ _ Hs).
  destruct l as [|l]; [lia|].
  pose proof (place_level _ _ _ _ _ _ P) as Ha.
  pose proof (slot_index _ _ _ _ _ _ _ Hs) as Hi. subst i.
  pose proof (index_range gpa (Z.of_nat (S l))) as Hir.
  destruct (forest_table _ _ _ _ _ _ F _ _ Ha) as (ws & Hws & Hlen & _).
  destruct (links_exists _ _ _ R0 _ _ _ _ _ _ _ _ F Ha Hws Hir Hz HG Hvpa) as (t' & T & R').
  { apply Hs. }
  apply wp_bind. eapply wp_store_word; [|exact Hws|apply lookup_lt_is_Some; lia|].
  { apply valid_pa_round_trip. by eapply (forest_addr _ _ _ _ _ _ F). }
  mem_simpl. eapply wp_mono; [eapply wp_stop_mono|].
  - eapply (wp_next_level gpa l pa _ (<[pa := l]> G) t'); [done|].
    eapply place_linked; [exact R0|exact F|exact P|exact Hs|exact T|exact R'|..].
    + apply lookup_insert_eq.
    + intros (q & b & Hq%(forest_level _ _ _ _ _ _ F))%elem_of_tree_pages. congruence.
  - done.
  - intros w' s' (-> & Hw & Hp & Ht). split; [apply mm_ok_store; eauto|].
    eexists k, _, _, t'. split; [done|]. split.
    { eapply forest_link; [exact F|exact Ha|exact Hws|exact Hz|exact HG|exact Hvpa|exact T|
        exact Hir|exact Hold|exact R']. }
    split; [by eapply evolves_link|]. split; [exact Hw|]. split; [congruence|].
    intros Hon. by eapply grows_link.
Qed.

Lemma wp_walk_step gpa w k m G t :
  mm_ok (with_mem k m s0) -> forest m G t -> walker_ok m G t gpa w ->
  wp (walk_step gpa w) (walk_post gpa w m G t) (levels_stop gpa t0) (with_mem k m s0).
Proof using R0 L Hv.
  intros Hok F Hw.
  destruct w as [x|l e|l tb i|l tb i pg|r].
  - simpl in Hw. subst x. cbn [walk_step]. apply wp_bind. eapply wp_get_obj; [exact Hv|done|].
    assert (yakvm_vmm_page (vmm.ncr3 v) = vmm.ncr3 v) as Hroot.
    { apply yakvm_vmm_page_valid. eapply (repr_addr _ _ _ R0). apply (repr_root _ _ _ R0). }
    wp_steps. change (Z.to_nat PML4T) with 4%nat.
    apply walk_post_same; [done..| |done|]; cbn; rewrite Hroot.
    + split; [lia|]. by eapply place_root.
    + intros _. apply elem_of_tree_pages. exists [], true. apply (forest_repr _ _ _ _ _ _ F).
  - by apply wp_reading.
  - by apply wp_allocating.
  - by apply wp_linking.
  - cbn [walk_step]. wp_steps. apply walk_post_same; [done..|by destruct r|done].
Qed.

(** *** All of them *)
Definition threads_ok (m : gmap Z page) (G : gmap Z nat) (t : tree) (ts : list (Z * walker)) : Prop :=
  (forall i gpa w, ts !! i = Some (gpa, w) -> walker_ok m G t gpa w) /\
  (forall i j gpa gpa' w w' pa, ts !! i = Some (gpa, w) -> ts !! j = Some (gpa', w') ->
     pending w = Some pa -> pending w' = Some pa -> i = j).

(** Where the paths of two callers meet there was a table, or a page, already. *)
Definition apart (gpas : list Z) : Prop :=
  forall i j gpa gpa' q, gpas !! i = Some gpa -> gpas !! j = Some gpa' -> i <> j ->
    q `prefix_of` path gpa -> q `prefix_of` path gpa' -> is_Some (t0 !! q).

Definition all_on_tree (t : tree) (ts : list (Z * walker)) : Prop :=
  forall i gpa w, ts !! i = Some (gpa, w) -> on_tree t w.

Definition race_inv (gpas : list Z) (ts : list (Z * walker)) (s : kstate) : Prop :=
  mm_ok s /\ ts.*1 = gpas /\
  exists k m G t, s = with_mem k m s0 /\ forest m G t /\ threads_ok m G t ts /\
    (apart gpas -> all_on_tree t ts).

Definition race_stop (gpas : list Z) (w : stop) : Prop :=
  exists gpa, gpa ∈ gpas /\ levels_stop gpa t0 w.

Lemma threads_step i gpa w w' m G t m' G' t' ts :
  threads_ok m G t ts -> ts !! i = Some (gpa, w) ->
  evolves (pending w) m G t m' G' t' -> walker_ok m' G' t' gpa w' ->
  (forall pa, pending w' = Some pa -> m !! pa = None) ->
  threads_ok m' G' t' (<[i := (gpa, w')]> ts).
Proof using.
  intros [Hts Hd] Hi E Hw' Hp'.
  assert (forall j gpa' u pa, ts !! j = Some (gpa', u) -> pending u = Some pa ->
    is_Some (m !! pa)) as Hpend.
  { intros j gpa' u pa Hj Hu. destruct u; try done. injection Hu as <-.
    destruct (Hts _ _ _ Hj) as (a & _ & _ & Hz & _). eauto. }
  split.
  - intros j gpa' u [(<- & [= <- <-] & _)|[Hne Hj]]%list_lookup_insert_Some; [done|].
    eapply walker_ok_evolves; [exact E| |by eapply Hts].
    destruct (pending u) as [pa|] eqn:Hu; [right|by left]. intros Hw.
    by apply Hne, (Hd i j gpa gpa' w u pa).
  - intros j1 j2 g1 g2 u1 u2 pa
      [(<- & [= <- <-] & _)|[Hne1 H1]]%list_lookup_insert_Some
      [(<- & [= <- <-] & _)|[Hne2 H2]]%list_lookup_insert_Some Hu1 Hu2; [done|..].
    + destruct (Hpend _ _ _ _ H2 Hu2) as [? Hx]. rewrite (Hp' _ Hu1) in Hx. done.
    + destruct (Hpend _ _ _ _ H1 Hu1) as [? Hx]. rewrite (Hp' _ Hu2) in Hx. done.
    + by eapply Hd.
Qed.

(** Two callers whose paths meet in what was there do not disturb each other. *)
Lemma on_tree_grows m G t t' gpa gpa' w :
  forest m G t -> walker_ok m G t gpa w -> grows t gpa' t' ->
  (forall q, q `prefix_of` path gpa -> q `prefix_of` path gpa' -> is_Some (t0 !! q)) ->
  on_tree t w -> on_tree t' w.
Proof using L.
  intros F Hw [Hsub Hnew] Hmeet. pose proof (tree_pages_mono _ _ Hsub) as Hpages.
  assert (forall l a idx q, slot G t gpa l a idx -> t !! q = Some (a, true) ->
    t !! (q ++ [idx]) = None -> t' !! (q ++ [idx]) = None) as Hfree.
  { intros l a idx q [P -> Hl _] Hq Hnone.
    destruct (t' !! (q ++ [index gpa (Z.of_nat l)])) as [n|] eqn:Hn; [|done].
    destruct l as [|l]; [lia|]. destruct (place_path _ _ _ _ _ _ P _ _ Hq) as [Hpath _].
    destruct (Hmeet (q ++ [index gpa (Z.of_nat (S l))])) as [n' Hn'].
    - rewrite Hpath. exists (path_from gpa l). by rewrite <- app_assoc.
    - by eapply Hnew.
    - pose proof (lookup_weaken _ _ _ _ Hn' (forest_sub _ _ _ _ _ _ F)). congruence. }
  assert (forall l a b idx q, slot G t gpa l a idx -> phys_to_virt a = phys_to_virt b ->
    t !! q = Some (b, true) -> t !! (q ++ [idx]) = None ->
    exists q0 a0, phys_to_virt a = phys_to_virt a0 /\ t' !! q0 = Some (a0, true) /\
      t' !! (q0 ++ [idx]) = None) as Hslot.
  { intros l a b idx q Hs Hab Hq Hnone.
    apply phys_to_virt_inj in Hab as <-.
    - exists q, a. split; [done|]. split; [by eapply lookup_weaken|]. by eapply Hfree.
    - eapply (forest_addr _ _ _ _ _ _ F), place_level, slot_place, Hs.
    - by eapply (repr_addr _ _ _ (forest_repr _ _ _ _ _ _ F)). }
  destruct w as [x|l e|l tb i|l tb i pg|[e|pg]]; simpl in *; [done|..]; auto.
  - destruct Hw as (a & -> & Hs). intros (q & b & Hab & Hq & Hnone). by eapply Hslot.
  - destruct Hw as (a & -> & Hs & _). intros (q & b & Hab & Hq & Hnone). by eapply Hslot.
Qed.

Lemma all_on_tree_step i gpa w w' m G t t' ts :
  forest m G t -> threads_ok m G t ts -> ts !! i = Some (gpa, w) -> apart ts.*1 ->
  all_on_tree t ts -> grows t gpa t' -> on_tree t' w' -> all_on_tree t' (<[i := (gpa, w')]> ts).
Proof using L.
  intros F [Hts _] Hi Hap Hall Hg Hw' j gpa' u
    [(<- & [= <- <-] & _)|[Hne Hj]]%list_lookup_insert_Some; [done|].
  apply (on_tree_grows m G t t' gpa' gpa); [done|by eapply Hts|done| |by eapply Hall].
  intros q Hq Hq'. apply (Hap j i gpa' gpa q); [| |done..].
  - by rewrite list_lookup_fmap, Hj.
  - by rewrite list_lookup_fmap, Hi.
Qed.

Lemma wp_fault_step gpas i p ts s :
  race_inv gpas ts s -> ts !! i = Some p ->
  wp (fault_step p) (fun p' s' => race_inv gpas (<[i := p']> ts) s') (race_stop gpas) s.
Proof using R0 L Hv.
  intros (Hok & <- & k & m & G & t & -> & F & Hts & Hon) Hi. destruct p as [gpa w].
  apply wp_bind. eapply wp_mono; [eapply wp_stop_mono; [apply wp_walk_step; [done|done|]|]|].
  + destruct Hts as [Hts _]. by apply (Hts i).
  + intros x Hx. exists gpa. split; [|done].
    apply list_elem_of_fmap. exists (gpa, w). split; [done|]. by eapply list_elem_of_lookup_2.
  + intros w' s' (Hok' & k' & m' & G' & t' & -> & F' & E & Hw' & Hp' & Ht). wp_steps. simpl in *.
    assert ((<[i := (gpa, w')]> ts).*1 = ts.*1) as Hfst.
    { rewrite list_fmap_insert. apply list_insert_id. by rewrite list_lookup_fmap, Hi. }
    split; [done|]. split; [done|].
    exists k', m', G', t'. split; [done|]. split; [done|]. split; [by eapply threads_step|].
    intros Hap. destruct Ht as [Hg Hw2]; [by eapply Hon|].
    eapply all_on_tree_step; [exact F|exact Hts|exact Hi|done|by apply Hon|done|done].
Qed.

Lemma wp_race gpas sched ts s :
  race_inv gpas ts s -> wp (interleave fault_step sched ts) (race_inv gpas) (race_stop gpas) s.
Proof using R0 L Hv. apply wp_interleave. intros i p ts' s'. apply wp_fault_step. Qed.

Lemma race_start gpas : mm_ok s0 -> race_inv gpas (start vmm gpas) s0.
Proof using R0.
  intros Hok. destruct (forest_init _ _ _ R0) as [G F]. unfold start. split; [done|]. split.
  { rewrite <- list_fmap_compose. apply list_fmap_id. }
  exists (ks_mm s0), (ks_pages s0), G, t0. rewrite with_mem_id. split; [done|]. split; [done|].
  split; [split|].
  - intros i gpa w (y & [= -> ->] & _)%list_lookup_fmap_Some. done.
  - intros i j g1 g2 w1 w2 pa (y & [= -> ->] & _)%list_lookup_fmap_Some. done.
  - intros _ i gpa w (y & [= -> ->] & _)%list_lookup_fmap_Some. done.
Qed.

(** C14: any number of faults on one guest's memory, interleaved at will. Starting
    from a well-formed table, no schedule touches memory that is not allocated,
    none leaves a table that is not well formed, nothing that was mapped moves
    and no other page of the kernel changes; a panic needs a fault on the page
    hidden from the start. A call returns an error only for want of memory;
    otherwise it returns an allocated page, the one that was mapped if there was
    one, and the guest either finds that page at the address or it is a new
    page that the table does not know. *)
Theorem race_safe gpas sched :
  mm_ok s0 ->
  wp (interleave fault_step sched (start vmm gpas)) (race_post s0 t0 (vmm.ncr3 v) gpas)
    (fun w => exists gpa, gpa ∈ gpas /\ w = Panicked /\
       exists a, t0 !! path gpa = Some (a, false)) s0.
Proof using R0 L Hv.
  intros Hok. eapply wp_mono; [by apply wp_race, race_start|].
  intros ts s' (Hok' & Hg & k & m & G & t & -> & F & [Hts _] & _).
  pose proof (forest_repr _ _ _ _ _ _ F) as R.
  split; [done|]. split; [done|]. exists k, m, t. split; [done|]. split; [done|].
  split; [apply F|]. split.
  { intros x [y Hx]%elem_of_dom Hn. rewrite Hx.
    destruct (forest_old _ _ _ _ _ _ F _ _ Hx) as [[?|HG] Hm]; [done|].
    apply Hm. intros l. by rewrite HG. }
  split.
  { intros x Hx%elem_of_dom. apply elem_of_dom. destruct (m !! x) eqn:Hm; [eauto|].
    rewrite (forest_old_pages _ _ _ _ _ _ _ F Hm) in Hx. by destruct Hx. }
  split; [intros q x b Hq; by eapply forest_nodes|].
  intros i gpa r Hi. apply Hts in Hi. destruct r as [e|page]; [done|]. simpl in Hi.
  pose proof (place_level _ _ _ _ _ _ Hi) as HG. split; [|split].
  - eapply forest_pages; eauto.
  - intros a b Ha. assert (path gpa = path gpa ++ path_from gpa 0) as Hp by by rewrite app_nil_r.
    pose proof (place_old _ _ _ _ _ _ Hi _ _ _ Hp Ha) as ->. split; [done|].
    eapply (place_path _ _ _ _ _ _ Hi (path gpa)). eapply lookup_weaken; [done|apply F].
  - destruct (decide (page_to_phys page ∈ tree_pages t)) as [(q & b & Hq)%elem_of_tree_pages|Hn].
    + left. destruct (place_path _ _ _ _ _ _ Hi _ _ Hq) as [Hp ->].
      rewrite app_nil_r in Hp. rewrite (hw_translate_repr R), Hp. by rewrite Hq.
    + right. split; [done|]. destruct (ks_pages s0 !! page_to_phys page) as [y|] eqn:Hy; [|done].
      destruct (forest_old _ _ _ _ _ _ F _ _ Hy) as [[Hin|?] _]; [|congruence].
      destruct Hn. apply elem_of_tree_pages in Hin as (q & b & Hq). apply elem_of_tree_pages.
      exists q, b. eapply lookup_weaken; [done|apply F].
Qed.

(** C15: faults whose paths meet only in tables that are there already do not
    race: whatever the schedule, as long as none is on a hidden page nothing
    panics, and the page every call returns is the one the guest finds at the
    address. *)
Theorem race_apart gpas sched :
  mm_ok s0 -> apart gpas -> (forall gpa a, gpa ∈ gpas -> t0 !! path gpa <> Some (a, false)) ->
  wp (interleave fault_step sched (start vmm gpas))
    (fun ts s' => forall i gpa page, ts !! i = Some (gpa, Returned (inr page)) ->
       hw_translate (ks_pages s') (vmm.ncr3 v) gpa = Some (page_to_phys page + gpa mod 4096))
    never s0.
Proof using R0 L Hv.
  intros Hok Hap Hhid. eapply wp_mono; [eapply wp_stop_mono; [by apply wp_race, race_start|]|].
  - intros w (gpa & Hin & _ & a & Ha). by eapply Hhid.
  - intros ts s' (_ & _ & k & m & G & t & -> & F & [Hts _] & Hon) i gpa page Hi. mem_simpl.
    specialize (Hts _ _ _ Hi). specialize (Hon Hap _ _ _ Hi). simpl in Hts, Hon.
    apply elem_of_tree_pages in Hon as (q & b & Hq).
    destruct (place_path _ _ _ _ _ _ Hts _ _ Hq) as [Hp ->]. rewrite app_nil_r in Hp.
    rewrite (hw_translate_repr (forest_repr _ _ _ _ _ _ F)), Hp. by rewrite Hq.
Qed.

End race.

(** ** A schedule that loses pages *)

(** The second of two callers takes [n] turns, then the first all of its own and
    then the second the rest. With two the second has found the root empty. *)
Definition race_after (n : nat) : list nat :=
  replicate n 1%nat ++ replicate 15 0%nat ++ replicate 15 1%nat.

Definition race_schedule : list nat := race_after 2.

(** ** A caller needs its own steps only *)
Section wait_free.
Context `{K : KernelOps} `{C : Config}.
Implicit Types (s : kstate).

Definition steps_left (w : walker) : nat :=
  match w with
  | Called _ => 13
  | Reading l _ => 3 * pred l + 3
  | Allocating l _ _ => 3 * pred l + 2
  | Linking l _ _ _ => 3 * pred l + 1
  | Returned _ => 0
  end.

Lemma next_level_left l entry s w s' :
  next_level l entry s = Ok w s' -> (steps_left w <= 3 * pred l)%nat.
Proof.
  unfold next_level, kassert. destruct (_ && _); [|done]. intros [= <- _].
  destruct (pred l); simpl; lia.
Qed.

Lemma walk_step_left gpa w s w' s' :
  walk_step gpa w s = Ok w' s' -> (steps_left w' <= pred (steps_left w))%nat.
Proof.
  destruct w as [x|l e|l tb i|l tb i pg|r]; cbn [walk_step].
  - intros (v & s1 & _ & [= <- _])%bind_ok. done.
  - intros (i & s1 & _ & (e1 & s2 & _ & H)%bind_ok)%bind_ok.
    destruct (e1 =? 0); [injection H as <- _|apply next_level_left in H]; simpl; lia.
  - intros ([pg|] & s1 & _ & [= <- _])%bind_ok; simpl; lia.
  - intros ([] & s1 & _ & H%next_level_left)%bind_ok. simpl. lia.
  - by intros [= <- _].
Qed.

(** C16: the call is wait-free: whatever the others do and wherever they stop, a
    caller that has had 13 turns has returned, whatever state the kernel and the
    table are in, unless the machine stopped first. *)
Theorem race_wait_free vmm gpas sched s ts s' i gpa :
  interleave fault_step sched (start vmm gpas) s = Ok ts s' -> gpas !! i = Some gpa ->
  (13 <= turns i sched)%nat -> exists r, ts !! i = Some (gpa, Returned r).
Proof.
  intros Hrun Hi Hturns.
  destruct (interleave_left fault_step (fun p => steps_left p.2) (fun p => p.1 = gpa) sched
    (start vmm gpas) s ts s' i (gpa, Called vmm)) as ([gpa' w] & Hw & Hg & Hle); [|exact Hrun|..].
  - intros [g w] s1 [g' w'] s2 <- (w1 & s3 & Hw1%walk_step_left & [= <- <- <-])%bind_ok. done.
  - unfold start. by rewrite list_lookup_fmap, Hi.
  - done.
  - simpl in Hg, Hle. subst gpa'. destruct w; simpl in Hle; try lia. eauto.
Qed.

End wait_free.

(** ** Witnesses *)

Lemma race_safe_witness :
  wp (interleave fault_step race_schedule (start demo_vmm [0; 0])) (race_post demo demo_tree demo_root [0; 0])
    (fun w => exists gpa, gpa ∈ [0; 0] /\ w = Panicked /\
       exists a, demo_tree !! path gpa = Some (a, false)) demo.
Proof.
  exact (race_safe demo demo_tree demo_vmm _ demo_obj demo_repr [0; 0] race_schedule demo_ok).
Defined.

(** The neighbours of a mapped page: their tables are there. *)
Lemma demo_mapped_tree :
  exists t, mm_ok demo_mapped /\ npt_repr (ks_pages demo_mapped) demo_root t /\
    ks_heap demo_mapped !! demo_vmm = Some (OVmm (vmm.mk demo_root 1)) /\
    (forall q, q `prefix_of` path 0 -> is_Some (t !! q)) /\
    (forall q n, t !! q = Some n -> q `prefix_of` path 0).
Proof.
  pose proof (wp_result _ _ _ _ _ (wp_npt_create _ _ 0 _ _ demo_ok demo_obj demo_repr)
    demo_mapped_result) as Hpost.
  change (final _ demo) with demo_mapped in Hpost.
  destruct Hpost as (k & m' & t' & Hs & Hok & R' & He & _ & a & _ & _ & Ha).
  exists t'. split; [done|]. rewrite Hs in *. mem_simpl. split; [done|]. split; [done|]. split.
  - intros q [r Hr]. destruct (t' !! q) as [n|] eqn:Hq; [eauto|].
    rewrite Hr, (repr_none_app R') in Ha by done. done.
  - intros q [x b] Hq. destruct (demo_tree !! q) as [n|] eqn:Hd.
    + unfold demo_tree in Hd. apply lookup_singleton_Some in Hd as [<- _]. apply prefix_nil.
    + by apply (ext_new _ _ _ _ _ He _ _ _ Hq).
Qed.

Lemma demo_neighbours q :
  q `prefix_of` [0; 0; 0; 1] -> q `prefix_of` [0; 0; 0; 2] -> q `prefix_of` [0; 0; 0; 0].
Proof.
  intros [k1 H1] [k2 H2]. destruct q as [|a [|b [|c [|d q]]]]; simplify_eq/=.
  - by exists [0; 0; 0; 0].
  - by exists [0; 0; 0].
  - by exists [0; 0].
  - by exists [0].
Qed.

Lemma demo_apart t :
  (forall q, q `prefix_of` path 0 -> is_Some (t !! q)) -> apart t [4096; 8192].
Proof.
  intros Hin i j gpa gpa' q Hi Hj Hne Hq Hq'. apply Hin.
  change (path 0) with [0; 0; 0; 0].
  destruct i as [|[|i]], j as [|[|j]]; simplify_eq/=; by apply demo_neighbours.
Qed.

Lemma race_apart_witness :
  wp (interleave fault_step race_schedule (start demo_vmm [4096; 8192]))
    (fun ts s' => forall (i : nat) gpa page, ts !! i = Some (gpa, Returned (inr page)) ->
       hw_translate (ks_pages s') demo_root gpa = Some (@page_to_phys concrete page + gpa mod 4096))
    never demo_mapped.
Proof.
  destruct demo_mapped_tree as (t & Hok & R & Hv & Hin & Hout).
  assert (forall gpa, gpa ∈ [4096; 8192] -> t !! path gpa = None) as Hnew.
  { intros gpa Hgpa. destruct (t !! path gpa) as [n|] eqn:Hn; [|done].
    apply Hout in Hn as [k Hk]. apply elem_of_cons in Hgpa as [->|Hgpa];
      [|apply list_elem_of_singleton in Hgpa as ->]; vm_compute in Hk; done. }
  apply (race_apart demo_mapped t demo_vmm _ Hv R [4096; 8192] race_schedule Hok).
  - by apply demo_apart.
  - intros gpa a Hgpa. rewrite (Hnew gpa Hgpa). discriminate.
Defined.

Lemma race_result :
  result (interleave fault_step race_schedule (start demo_vmm [0; 0])) demo =
    Some [(0, Returned (inr 18446719884453740864)); (0, Returned (inr 18446719884453741120))].
Proof. vm_compute. reflexivity. Qed.

Lemma race_wait_free_witness :
  exists r, [(0, Returned (inr 18446719884453740864)); (0, Returned (inr 18446719884453741120))]
    !! 0%nat = Some (0, Returned r).
Proof.
  apply (race_wait_free demo_vmm [0; 0] race_schedule demo _ _ 0 0
    (result_final _ _ _ race_result)); [reflexivity|].
  apply Nat.leb_le. reflexivity.
Defined.
