(* ===== verification/RaceLoss.v ===== *)
(** * Pages that a race loses

    Two faults on one page whose tables exist: a schedule after which both have
    succeeded with a page of their own, of which the guest has one. *)

From S2P Require Import Prelude Schedule Structs Kernel Concrete Npt NptProps Race RaceProps.

Section loss.
Context `{L : KernelLaws} `{C : Config}.
Implicit Types (s : kstate).

(** ** One access, its outcome known *)
Section access.
Context {m : gmap Z page} {root : Z} {t : tree} {s : kstate} (R : npt_repr m root t).
Context (Hm : ks_pages s = m).

Lemma wp_read_entry gpa l p a e (Q : walker -> kstate -> Prop) E :
  t !! p = Some (a, true) -> (length p + S l = 4)%nat -> yakvm_vmm_page e = a ->
  let index := index gpa (Z.of_nat (S l)) in
  let x := child_entry t p index in
  (x = 0 -> Q (Allocating (S l) (phys_to_virt a) index) s) ->
  (x <> 0 -> wp (next_level (S l) x) Q E s) ->
  wp (walk_step gpa (Reading (S l) e)) Q E s.
Proof using R Hm L.
  intros Hp Hl Ha i x H0 H1. cbn [walk_step]. apply wp_bind.
  eapply wp_ok; [apply table_index_spec; lia|]. unfold yakvm_vmm_phys_to_virt. rewrite Ha.
  destruct (repr_lookup_entry R p a i Hp) as (ws & Hws & Hi); [lia|apply index_range|].
  apply wp_bind. eapply wp_load_word; [apply valid_pa_round_trip; by eapply (repr_addr _ _ _ R)|
    by rewrite Hm|exact Hi|]. fold x.
  destruct (Z.eqb_spec x 0) as [Hx|Hx]; [by apply wp_ret, H0|by apply H1].
Qed.

(** The table below is there. *)
Lemma wp_read_child gpa l p a y e (Q : walker -> kstate -> Prop) E :
  t !! p = Some (a, true) -> (length p + S (S l) = 4)%nat -> yakvm_vmm_page e = a ->
  t !! (p ++ [index gpa (Z.of_nat (S (S l)))]) = Some (y, true) ->
  Q (Reading (S l) (encode (y, true))) s ->
  wp (walk_step gpa (Reading (S (S l)) e)) Q E s.
Proof using R Hm L.
  intros Hp Hl Ha Hy HQ. pose proof (repr_addr _ _ _ R _ _ _ Hy) as Hv.
  eapply wp_read_entry; [exact Hp|lia|exact Ha|..]; unfold child_entry; rewrite Hy.
  - intros Hx. pose proof (encode_range (y, true) Hv). lia.
  - intros _. unfold next_level. rewrite encode_present, encode_rw, encode_user by done.
    simpl (kassert _). wp_steps. exact HQ.
Qed.

(** The page is not. *)
Lemma wp_read_none gpa p a e (Q : walker -> kstate -> Prop) E :
  t !! p = Some (a, true) -> length p = 3%nat -> yakvm_vmm_page e = a ->
  t !! (p ++ [index gpa 1]) = None ->
  Q (Allocating 1 (phys_to_virt a) (index gpa 1)) s ->
  wp (walk_step gpa (Reading 1 e)) Q E s.
Proof using R Hm L.
  intros Hp Hl Ha Hn HQ. eapply wp_read_entry; [exact Hp|lia|exact Ha|..]; unfold child_entry;
    change (Z.of_nat 1) with 1; rewrite Hn; done.
Qed.

(** From the root to the missing page, in five accesses. *)
Lemma wp_reach gpa vmm v a (Q : walker -> kstate -> Prop) E :
  ks_heap s !! vmm = Some (OVmm v) -> vmm.ncr3 v = root ->
  t !! take 3 (path gpa) = Some (a, true) -> t !! path gpa = None ->
  Q (Allocating 1 (phys_to_virt a) (index gpa 1)) s ->
  wp (steps (walk_step gpa) 5 (Called vmm)) Q E s.
Proof using R Hm L.
  intros Hv Hroot Ht Hn HQ.
  assert (exists b, t !! take 2 (path gpa) = Some (b, true)) as [b Hb].
  { by eapply (repr_parent _ _ _ R (take 2 (path gpa)) (index gpa 2)). }
  assert (exists c, t !! take 1 (path gpa) = Some (c, true)) as [c Hc].
  { by eapply (repr_parent _ _ _ R (take 1 (path gpa)) (index gpa 3)). }
  pose proof (repr_root _ _ _ R) as Hr.
  cbn [steps]. apply wp_bind. cbn [walk_step]. apply wp_bind. eapply wp_get_obj; [exact Hv|done|].
  apply wp_ret. change (Z.to_nat PML4T) with 4%nat. rewrite Hroot.
  assert (forall p x d, t !! p = Some (x, d) -> yakvm_vmm_page (encode (x, true)) = x) as He.
  { intros p x d Hx. apply (yakvm_vmm_page_encode (x, true)). by eapply (repr_addr _ _ _ R). }
  apply wp_bind. eapply (wp_read_child gpa 2 [] root c); [done|done| |exact Hc|].
  { apply yakvm_vmm_page_valid. by eapply (repr_addr _ _ _ R). }
  apply wp_bind. eapply (wp_read_child gpa 1 (take 1 (path gpa)) c b); [done|done|by eapply He|exact Hb|].
  apply wp_bind. eapply (wp_read_child gpa 0 (take 2 (path gpa)) b a); [done|done|by eapply He|exact Ht|].
  apply wp_bind. eapply (wp_read_none gpa (take 3 (path gpa)) a); [done|done|by eapply He|exact Hn|].
  by apply wp_ret.
Qed.

End access.

(** ** The schedule *)

Lemma wp_alone i n ts x s (Q : list (Z * walker) -> kstate -> Prop) E :
  ts !! i = Some x -> wp (steps fault_step n x) (fun x' s' => Q (<[i := x']> ts) s') E s ->
  wp (interleave fault_step (replicate n i) ts) Q E s.
Proof.
  intros Hi H. unfold wp. rewrite (interleave_alone _ _ _ _ x) by done.
  exact (wp_bind _ (fun x' => mret (<[i := x']> ts)) Q E s H).
Qed.

Lemma wp_fault_steps n gpa w s (Q : Z * walker -> kstate -> Prop) E :
  wp (steps (walk_step gpa) n w) (fun w' s' => Q (gpa, w') s') E s ->
  wp (steps fault_step n (gpa, w)) Q E s.
Proof. intros H. unfold wp. rewrite fault_steps. exact (wp_bind _ (fun w => mret (gpa, w)) Q E s H). Qed.

(** A call that has returned keeps its answer. *)
Lemma wp_answered i gpa r sched ts s :
  ts !! i = Some (gpa, Returned r) ->
  wp (interleave fault_step sched ts) (fun ts' _ => ts' !! i = Some (gpa, Returned r))
    (fun _ => True) s.
Proof.
  intros Hi. apply (wp_interleave _ (fun ts _ => ts !! i = Some (gpa, Returned r))); [|done].
  intros j x ts1 s1 H1 Hj. destruct (decide (j = i)) as [->|Hne].
  - rewrite H1 in Hj. injection Hj as <-. apply wp_bind, wp_ret, wp_ret.
    apply list_lookup_insert_eq. by eapply lookup_lt_Some.
  - unfold wp. destruct (fault_step x s1); [|done]. by rewrite list_lookup_insert_ne.
Qed.

(** Each of two callers looks for the page, finds it missing and takes one, and
    only then do they store their entries. *)
Definition losing_schedule : list nat := replicate 6 0%nat ++ replicate 6 1%nat ++ [0%nat; 1%nat].

(** What the two calls leave: [page2] is in the table, [page1] is allocated and in
    no table. *)
Definition page_lost (gpa root : Z) (t : tree) (ts : list (Z * walker)) s : Prop :=
  exists page1 page2, ts = [(gpa, Returned (inr page1)); (gpa, Returned (inr page2))] /\
    page_to_phys page1 <> page_to_phys page2 /\
    hw_translate (ks_pages s) root gpa = Some (page_to_phys page2 + gpa mod 4096) /\
    npt_repr (ks_pages s) root (<[path gpa := (page_to_phys page2, true)]> t) /\
    is_Some (ks_pages s !! page_to_phys page1) /\
    page_to_phys page1 ∉ tree_pages (<[path gpa := (page_to_phys page2, true)]> t).

Section two.
Context {s : kstate} {t : tree} {vmm : Z} {v : vmm.t} {gpa a : Z}.
Context (Hok : mm_ok s) (R : npt_repr (ks_pages s) (vmm.ncr3 v) t).
Context (Hv : ks_heap s !! vmm = Some (OVmm v)).
Context (Ht : t !! take 3 (path gpa) = Some (a, true)) (Hn : t !! path gpa = None).
#[local] Abbreviation idx := (index gpa 1).
#[local] Abbreviation tbl := (phys_to_virt a).

(** The two stores, of pages taken before them. *)
Lemma wp_two_stores page1 page2 k (m : gmap Z page) E :
  valid_pa (page_to_phys page1) -> valid_pa (page_to_phys page2) ->
  page_to_phys page1 <> page_to_phys page2 ->
  pfn_to_page (page_to_phys page1 / PAGE_SIZE) = page1 ->
  pfn_to_page (page_to_phys page2 / PAGE_SIZE) = page2 ->
  ks_pages s !! page_to_phys page1 = None -> ks_pages s !! page_to_phys page2 = None ->
  m = <[page_to_phys page2 := zero_page]> (<[page_to_phys page1 := zero_page]> (ks_pages s)) ->
  wp (interleave fault_step [0%nat; 1%nat] [(gpa, Linking 1 tbl idx page1); (gpa, Linking 1 tbl idx page2)])
    (page_lost gpa (vmm.ncr3 v) t) E (with_mem k m s).
Proof using L R Ht Hn.
  intros V1 V2 Hne P1 P2 F1 F2 ->. set (pa1 := page_to_phys page1) in *. set (pa2 := page_to_phys page2) in *.
  destruct (repr_lookup_entry R _ _ idx Ht) as (ws & Hws & Hi); [simpl; lia|apply index_range|].
  pose proof (repr_addr _ _ _ R _ _ _ Ht) as Va.
  assert (a <> pa1 /\ a <> pa2) as [N1 N2] by (split; congruence).
  assert (npt_repr (<[pa1 := zero_page]> (ks_pages s)) (vmm.ncr3 v) t) as R1.
  { eapply npt_repr_frame; [exact R|]. intros x Hx%(repr_pages_dom R)%elem_of_dom.
    apply lookup_insert_ne. intros <-. rewrite F1 in Hx. by destruct Hx. }
  assert (<[pa1 := zero_page]> (ks_pages s) !! a = Some (PWords ws)) as Hws1 by by rewrite lookup_insert_ne.
  assert (<[pa1 := zero_page]> (ks_pages s) !! pa2 = None) as F2' by by rewrite lookup_insert_ne.
  pose proof (repr_new R1 (take 3 (path gpa)) idx a ws pa2 Ht ltac:(simpl; lia) (index_range _ _) Hn
    Hws1 V2 F2') as R2.
  change (take 3 (path gpa) ++ [idx]) with (path gpa) in R2.
  assert (forall pa page s1 (Q : walker -> kstate -> Prop), pa = page_to_phys page -> valid_pa pa ->
    pfn_to_page (pa / PAGE_SIZE) = page -> (forall s2, s2 = s1 -> Q (Returned (inr page)) s2) ->
    wp (next_level 1 (encode (pa, true))) Q E s1) as Hlast.
  { intros pa page s1 Q -> V Hp HQ. unfold next_level. rewrite encode_present, encode_rw, encode_user by done.
    simpl (kassert _). wp_steps. rewrite encode_shiftr by done. cbn [fst]. rewrite Hp. by apply HQ. }
  assert (is_Some (ws !! Z.to_nat idx)) as Hlt by eauto.
  cbn [interleave]. apply wp_bind. unfold turn at 1. cbn [lookup list_lookup].
  apply wp_bind, wp_bind. cbn [walk_step fst snd]. fold pa1. rewrite encode_new by done. cbv zeta.
  apply wp_bind. eapply wp_store_word; [by apply valid_pa_round_trip| |exact Hlt|].
  { mem_simpl. by rewrite !lookup_insert_ne. }
  mem_simpl. eapply Hlast; [done..|]. intros ? ->. apply wp_ret, wp_ret. cbn [insert list_insert].
  apply wp_bind. unfold turn at 1. cbn [lookup list_lookup].
  apply wp_bind, wp_bind. cbn [walk_step fst snd]. fold pa2. rewrite encode_new by done. cbv zeta.
  apply wp_bind. eapply wp_store_word; [by apply valid_pa_round_trip| | |].
  { mem_simpl. apply lookup_insert_eq. }
  { apply lookup_lt_is_Some. rewrite length_insert. by apply lookup_lt_is_Some. }
  mem_simpl. eapply Hlast; [done..|]. intros ? ->. apply wp_ret, wp_ret, wp_ret. cbn [insert list_insert].
  rewrite list_insert_insert_eq, insert_insert_eq.
  exists page1, page2. fold pa1 pa2. mem_simpl. split_and!; [done|done| |exact R2| |].
  - rewrite (hw_translate_repr R2), lookup_insert_eq. done.
  - rewrite !lookup_insert_ne, lookup_insert_eq by congruence. eauto.
  - intros (q & b & Hq)%elem_of_tree_pages. apply lookup_insert_Some in Hq as [[_ [= Hx _]]|[_ Hq]].
    + congruence.
    + destruct (repr_page R _ _ _ Hq). congruence.
Qed.

(** A caller that finds the page missing and takes one. *)
Lemma wp_take s1 (Q : walker -> kstate -> Prop) E :
  npt_repr (ks_pages s1) (vmm.ncr3 v) t -> ks_heap s1 = ks_heap s -> mm_ok s1 ->
  (forall s2, Q (Returned (inl (- ENOMEM))) s2) ->
  (forall k page, valid_pa (page_to_phys page) -> ks_pages s1 !! page_to_phys page = None ->
     pfn_to_page (page_to_phys page / PAGE_SIZE) = page ->
     mm_ok (with_mem k (<[page_to_phys page := zero_page]> (ks_pages s1)) s1) ->
     Q (Linking 1 tbl idx page) (with_mem k (<[page_to_phys page := zero_page]> (ks_pages s1)) s1)) ->
  wp (steps (walk_step gpa) 6 (Called vmm)) Q E s1.
Proof using L Hv Ht Hn.
  intros R1 Hh Hok1 HE HQ. apply (wp_steps_add _ 5 1).
  eapply (wp_reach R1 eq_refl); [by rewrite Hh|done|exact Ht|exact Hn|].
  cbn [steps walk_step]. apply wp_bind, wp_bind, wp_alloc_page; [done|..].
  - intros k _ _. apply wp_ret, wp_ret. apply HE.
  - intros k page pa <- V F P Hok2. apply wp_ret, wp_ret. by apply HQ.
Qed.

Lemma wp_losing :
  wp (interleave fault_step losing_schedule (start vmm [gpa; gpa]))
    (fun ts s' => (exists i, ts !! i = Some (gpa, Returned (inl (- ENOMEM)))) \/
       page_lost gpa (vmm.ncr3 v) t ts s') (fun _ => True) s.
Proof using L Hok R Hv Ht Hn.
  unfold losing_schedule. apply wp_interleave_app. eapply wp_alone; [done|]. apply wp_fault_steps.
  apply wp_take; [done..| |].
  { intros s2. eapply wp_mono; [by apply (wp_answered 0)|]. intros ts' s' H. left. by exists 0%nat. }
  intros k1 page1 V1 F1 P1 Hok1. apply wp_interleave_app. eapply wp_alone; [done|].
  apply wp_fault_steps. apply wp_take; [|done|done|..].
  { mem_simpl. eapply npt_repr_frame; [exact R|]. intros x Hx%(repr_pages_dom R)%elem_of_dom.
    apply lookup_insert_ne. intros <-. rewrite F1 in Hx. by destruct Hx. }
  { intros s2. eapply wp_mono; [by apply (wp_answered 1)|]. intros ts' s' H. left. by exists 1%nat. }
  mem_simpl. intros k2 page2 V2 F2 P2 Hok2. apply lookup_insert_None in F2 as [F2 Hne].
  eapply wp_mono; [by eapply wp_two_stores|]. intros ts s' H. by right.
Qed.

End two.

(** C17: two faults on one page whose tables are there: when both look for it before
    either has stored its entry, then unless memory runs out both succeed, each
    with a page of its own; the guest has the second, in a well-formed table, and
    the first, which the first caller gives to its process as the guest's memory,
    is in no table: the guest never sees it and nothing frees it. *)
Theorem race_loses_page gpa a vmm v s t :
  mm_ok s -> npt_repr (ks_pages s) (vmm.ncr3 v) t -> ks_heap s !! vmm = Some (OVmm v) ->
  t !! take 3 (path gpa) = Some (a, true) -> t !! path gpa = None ->
  wp (interleave fault_step losing_schedule (start vmm [gpa; gpa]))
    (fun ts s' => (exists i, ts !! i = Some (gpa, Returned (inl (- ENOMEM)))) \/
       page_lost gpa (vmm.ncr3 v) t ts s') never s.
Proof.
  intros Hok R Hv Ht Hn.
  pose proof (race_safe s t vmm v Hv R [gpa; gpa] losing_schedule Hok) as H1.
  pose proof (wp_losing Hok R Hv Ht Hn) as H2.
  eapply wp_mono; [eapply wp_stop_mono; [exact (wp_both _ _ _ _ _ _ H1 H2)|]|by intros ts s' [_ H]].
  intros st (g & Hg & _ & b & Hb). apply elem_of_cons in Hg as [->|Hg]; [congruence|].
  apply list_elem_of_singleton in Hg as ->. congruence.
Qed.

End loss.

(** ** On the concrete kernel *)

Definition race_end (gpas : list Z) : @kstate concrete :=
  final (interleave fault_step race_schedule (start demo_vmm gpas)) demo.

(** What is left when the guest of [race_end] is destroyed. *)
Definition race_left (gpas : list Z) : gset Z :=
  dom (ks_pages (final (yakvm_destroy_vmm demo_vmm) (race_end gpas))).

(** Tables are lost too: two faults on the same page, one of which looks at the empty root before
    the other has filled it: both succeed with a page of their own, the guest has
    the second and the process of the first keeps one the guest never sees; when
    the guest is destroyed the first page and its three tables stay allocated
    for good. Faults on neighbouring pages that race so leave the first page not
    mapped at all, though its fault has succeeded. *)
Lemma race_loses_tables :
  (exists page1 page2,
     result (interleave fault_step race_schedule (start demo_vmm [0; 0])) demo =
       Some [(0, Returned (inr page1)); (0, Returned (inr page2))] /\
     page1 <> page2 /\
     hw_translate (ks_pages (race_end [0; 0])) demo_root 0 = Some (@page_to_phys concrete page2) /\
     result (yakvm_destroy_vmm demo_vmm) (race_end [0; 0]) = Some tt /\
     @page_to_phys concrete page1 ∈ race_left [0; 0] /\ size (race_left [0; 0]) = 4%nat) /\
  (exists page1 page2,
     result (interleave fault_step race_schedule (start demo_vmm [0; 4096])) demo =
       Some [(0, Returned (inr page1)); (4096, Returned (inr page2))] /\
     hw_translate (ks_pages (race_end [0; 4096])) demo_root 0 = None /\
     hw_translate (ks_pages (race_end [0; 4096])) demo_root 4096 = Some (@page_to_phys concrete page2)).
Proof.
  split; eexists _, _; (split; [vm_compute; reflexivity|]).
  - split; [done|]. split; [vm_compute; reflexivity|]. split; [vm_compute; reflexivity|].
    split; [|vm_compute; reflexivity]. apply (bool_decide_unpack _). vm_compute. exact I.
  - split; vm_compute; reflexivity.
Qed.

(** *** Witness *)

#[local] Abbreviation demo_losing := (interleave fault_step losing_schedule (start demo_vmm [4096; 4096])).
Definition demo_lost : list (Z * walker) :=
  [(4096, Returned (inr 18446719884453740928)); (4096, Returned (inr 18446719884453740992))].

Lemma demo_lost_result : result demo_losing demo_mapped = Some demo_lost.
Proof. vm_compute. reflexivity. Qed.

Lemma demo_lost_no_error i : demo_lost !! i <> Some (4096, Returned (inl (- ENOMEM))).
Proof. by destruct i as [|[|i]]. Qed.

(** The neighbour of a mapped page. *)
Lemma race_loses_page_witness :
  exists t, page_lost 4096 demo_root t demo_lost (final demo_losing demo_mapped).
Proof.
  destruct demo_mapped_tree as (t & Hok & R & Hv & Hin & Hout). exists t.
  assert (exists a, t !! take 3 (path 4096) = Some (a, true)) as [a Ha].
  { destruct (Hin (take 3 (path 4096))) as [[a b] Ha]; [by exists [0]|]. exists a.
    by rewrite (repr_present R _ _ _ Ha) in Ha by (apply Nat.ltb_lt; reflexivity). }
  assert (t !! path 4096 = None) as Hn.
  { destruct (t !! path 4096) as [n|] eqn:Hp; [|done]. apply Hout in Hp as [k Hk]. by vm_compute in Hk. }
  pose proof (wp_result _ _ _ _ _ (race_loses_page 4096 a demo_vmm (vmm.mk demo_root 1) demo_mapped t Hok R Hv Ha Hn)
    demo_lost_result) as H.
  cbv beta in H. destruct H as [[i Hi]|H]; [exact (False_ind _ (demo_lost_no_error i Hi))|].
  exact H.
Defined.
