(* ===== verification/Vmcb.v ===== *)
(** * The virtual machine control block: driver/cpu.c, lines 264-402

    [yakvm_vcpu_init_vmcb] puts a guest in the state a processor has after
    reset, arms the intercepts the emulator handles and gives the guest an ASID.
    The intercept vector is an array of 32-bit words that [__set_bit] writes as
    64-bit ones; the I/O permission map is an array of 64-bit words over several
    pages. *)

From S2P Require Import Prelude Structs Kernel.

Section vmcb.
Context `{K : KernelOps} `{C : Config}.

(** ** Definitions *)

Definition yakvm_vmcb_init_segment_register (seg : vmcb_seg.t)
    (selector attrib limit base : Z) : vmcb_seg.t :=
  seg <| vmcb_seg.selector := wrap 16 selector |>
      <| vmcb_seg.attrib := wrap 16 attrib |>
      <| vmcb_seg.limit := wrap 32 limit |>
      <| vmcb_seg.base := wrap 64 base |>.

Definition yakvm_vmcb_init_descriptor_table_register (seg : vmcb_seg.t)
    (limit base : Z) : vmcb_seg.t :=
  seg <| vmcb_seg.limit := wrap 32 limit |> <| vmcb_seg.base := wrap 64 base |>.

(** [__set_bit(nr, (unsigned long * )words)] on an array of [uint32_t]: a long is
    two words, the low one first. *)
Definition __set_bit (nr : Z) (words : list Z) : option (list Z) :=
  let i := (2 * Z.to_nat (nr / 64))%nat in
  lo ← words !! i;
  hi ← words !! S i;
  let l := Z.lor (Z.lor lo (Z.shiftl hi 32)) (Z.shiftl 1 (nr mod 64)) in
  Some (<[i := wrap 32 l]> (<[S i := wrap 32 (Z.shiftr l 32)]> words)).

Definition update_control (vmcb : Z) (f : control.t -> control.t) : KM unit :=
  update_vmcb vmcb (fun v => v <| vmcb.control := f (vmcb.control v) |>).

Definition update_save (vmcb : Z) (f : save.t -> save.t) : KM unit :=
  update_vmcb vmcb (fun v => v <| vmcb.save := f (vmcb.save v) |>).

Definition yakvm_vmcb_set_intercept (vmcb bit : Z) : KM unit :=
  kassert (bit <? 32 * MAX_INTERCEPT) ;;
  v ← load_vmcb vmcb;
  ws ← need (__set_bit bit (control.intercepts (vmcb.control v)));
  update_control vmcb (fun c => c <| control.intercepts := ws |>).

Definition yakvm_vmcb_set_exception_intercept (vmcb bit : Z) : KM unit :=
  yakvm_vmcb_set_intercept vmcb (INTERCEPT_EXCEPTION_OFFSET + bit).

(** [set_bit(nr, addr)]: the long that holds bit [nr] of the array at [addr]. *)
Definition set_bit (nr addr : Z) : KM unit :=
  let pa := virt_to_phys addr + 8 * (nr / 64) in
  let frame := pa / PAGE_SIZE * PAGE_SIZE in
  let i := Z.to_nat (pa mod PAGE_SIZE / 8) in
  m ← gets ks_pages;
  p ← need (m !! frame);
  ws ← need (as_words p);
  w ← need (ws !! i);
  modify (fun s => s <| ks_pages :=
    <[frame := PWords (<[i := Z.lor w (Z.shiftl 1 (nr mod 64))]> ws)]> (ks_pages s) |>).

(** [atomic_inc_return(&asid)]: an [int] *)
Definition asid_inc_return : KM Z := fun s =>
  let a := sint 32 (ks_asid s + 1) in Ok a (s <| ks_asid := a |>).

Definition data_attrib : Z :=
  Z.lor (Z.lor (Z.lor SVM_SELECTOR_P_MASK SVM_SELECTOR_S_MASK) SVM_SELECTOR_READ_MASK)
    SVM_SELECTOR_WRITE_MASK.

Definition code_attrib : Z :=
  Z.lor (Z.lor (Z.lor SVM_SELECTOR_P_MASK SVM_SELECTOR_S_MASK) SVM_SELECTOR_READ_MASK)
    SVM_SELECTOR_CODE_MASK.

(** Lines 314-350: the initial processor state. *)
Definition init_save (s : save.t) : save.t :=
  s <| save.cr0 := Z.lor (Z.lor X86_CR0_NW X86_CR0_CD) X86_CR0_ET |>
    <| save.rflags := X86_EFLAGS_FIXED |>
    <| save.rip := 0xfff0 |>
    <| save.cs := yakvm_vmcb_init_segment_register (save.cs s) 0xf000 code_attrib 0xffff 0xffff0000 |>
    <| save.ds := yakvm_vmcb_init_segment_register (save.ds s) 0 data_attrib 0xffff 0x0 |>
    <| save.es := yakvm_vmcb_init_segment_register (save.es s) 0 data_attrib 0xffff 0x0 |>
    <| save.fs := yakvm_vmcb_init_segment_register (save.fs s) 0 data_attrib 0xffff 0x0 |>
    <| save.gs := yakvm_vmcb_init_segment_register (save.gs s) 0 data_attrib 0xffff 0x0 |>
    <| save.ss := yakvm_vmcb_init_segment_register (save.ss s) 0 data_attrib 0xffff 0x0 |>
    <| save.gdtr := yakvm_vmcb_init_descriptor_table_register (save.gdtr s) 0xffff 0 |>
    <| save.idtr := yakvm_vmcb_init_descriptor_table_register (save.idtr s) 0xffff 0 |>
    <| save.ldtr := yakvm_vmcb_init_segment_register (save.ldtr s) 0 SEG_TYPE_LDT 0xffff 0x0 |>
    <| save.tr := yakvm_vmcb_init_segment_register (save.tr s) 0 SEG_TYPE_BUSY_TSS16 0xffff 0x0 |>
    <| save.dr6 := DR6_ACTIVE_LOW |>
    <| save.dr7 := DR7_FIXED_1 |>.

Definition yakvm_vcpu_init_vmcb (vcpu : Z) : KM unit :=
  v ← get_vcpu vcpu;
  let vmcb := context.vmcb (vcpu.gctx v) in
  update_save vmcb init_save ;;
  update_save vmcb (fun s => s <| save.rflags := Z.lor (save.rflags s) X86_EFLAGS_TF |>) ;;
  yakvm_vmcb_set_exception_intercept vmcb DB_VECTOR ;;
  yakvm_vmcb_set_intercept vmcb INTERCEPT_HLT ;;
  yakvm_vmcb_set_intercept vmcb INTERCEPT_IOIO_PROT ;;
  update_control vmcb (fun c => c <| control.iopm_base_pa := virt_to_phys (vcpu.iopm v) |>) ;;
  set_bit YAKVM_PIO_HAWK (vcpu.iopm v) ;;
  update_control vmcb (fun c =>
    c <| control.nested_ctl := Z.lor (control.nested_ctl c) SVM_NESTED_CTL_NP_ENABLE |>) ;;
  vm ← get_vm (vcpu.vm v);
  vmm ← get_vmm (vm.vmm vm);
  update_control vmcb (fun c => c <| control.nested_cr3 := vmm.ncr3 vmm |>) ;;
  update_save vmcb (fun s => s <| save.efer := Z.lor (save.efer s) EFER_SVME |>) ;;
  yakvm_vmcb_set_intercept vmcb INTERCEPT_VMRUN ;;
  a ← asid_inc_return;
  update_control vmcb (fun c => c <| control.asid := wrap 32 a |>) ;;
  c ← load_vmcb vmcb;
  kassert (control.asid (vmcb.control c) <? cpuid_ebx 0x8000000a).

(** ** Specification *)

(** An intercept bit of a control area (AMD64 APM volume 2, appendix B: byte
    offset 4 * word, bit within the word). *)
Definition intercepted (c : control.t) (bit : Z) : bool :=
  match control.intercepts c !! Z.to_nat (bit / 32) with
  | Some w => Z.testbit w (bit mod 32)
  | None => false
  end.

(** The processor's test of a port against the I/O permission map at [pa]: bit
    [port] of a contiguous bitmap. *)
Definition io_intercepted (m : gmap Z page) (pa port : Z) : bool :=
  let a := pa + port / 8 in
  match m !! (a / PAGE_SIZE * PAGE_SIZE) ≫= as_words with
  | Some ws => Z.testbit (default 0 (ws !! Z.to_nat (a mod PAGE_SIZE / 8)))
                 (8 * (a mod 8) + port mod 8)
  | None => false
  end.

(** The control block of a fresh vcpu. *)
Definition fresh_control (iopm ncr3 asid : Z) : control.t :=
  control.zero
    <| control.intercepts := [0; 0; 2; Z.lor (Z.shiftl 1 24) (Z.shiftl 1 27); 1; 0] |>
    <| control.iopm_base_pa := iopm |>
    <| control.asid := asid |>
    <| control.nested_ctl := 1 |>
    <| control.nested_cr3 := ncr3 |>.

Definition fresh_save : save.t :=
  (init_save save.zero) <| save.rflags := 0x102 |> <| save.efer := 0x1000 |>.

Definition fresh_vmcb (iopm ncr3 asid : Z) : vmcb.t :=
  vmcb.mk (fresh_control iopm ncr3 asid) fresh_save.

(** The consistency checks of VMRUN on a guest in real mode (AMD64 APM volume
    2, 15.5.1): those that depend on the control block. *)
Definition vmrun_consistent (nasid maxphys : Z) (v : vmcb.t) : bool :=
  let c := vmcb.control v in
  let s := vmcb.save v in
  Z.testbit (save.efer s) 12 &&
  negb (negb (Z.testbit (save.cr0 s) 30) && Z.testbit (save.cr0 s) 29) &&
  (Z.shiftr (save.cr0 s) 32 =? 0) &&
  (Z.shiftr (save.cr3 s) maxphys =? 0) && (Z.shiftr (save.cr4 s) 32 =? 0) &&
  (Z.shiftr (save.dr6 s) 32 =? 0) && (Z.shiftr (save.dr7 s) 32 =? 0) &&
  (Z.shiftr (save.efer s) 16 =? 0) &&
  negb (Z.testbit (save.efer s) 8 && Z.testbit (save.cr0 s) 31) &&
  intercepted c 128 &&
  (control.iopm_base_pa c + 3 * 4096 <=? 2 ^ maxphys) &&
  negb (Z.testbit (control.event_inj c) 31) &&
  (0 <? control.asid c) && (control.asid c <? nasid).

End vmcb.

(** ** Setting a bit *)

Lemma testbit_wrap w x i : 0 <= w -> 0 <= i < w -> Z.testbit (wrap w x) i = Z.testbit x i.
Proof. intros Hw Hi. unfold wrap. by rewrite Z.mod_pow2_bits_low by lia. Qed.

Lemma testbit_u32_high x i : 0 <= x < 2 ^ 32 -> 32 <= i -> Z.testbit x i = false.
Proof.
  intros Hx Hi. rewrite <- (Z.mod_small x (2 ^ 32)) by done.
  by rewrite Z.mod_pow2_bits_high by lia.
Qed.

Lemma testbit_one k i : 0 <= k -> Z.testbit (Z.shiftl 1 k) i = (i =? k).
Proof.
  intros Hk. rewrite Z.shiftl_1_l, Z.pow2_bits_eqb by done. by rewrite Z.eqb_sym.
Qed.

(** The two halves of a long after a bit is set. *)
Lemma set_bit_low lo hi k j :
  0 <= k -> 0 <= j < 32 ->
  Z.testbit (wrap 32 (Z.lor (Z.lor lo (Z.shiftl hi 32)) (Z.shiftl 1 k))) j =
  Z.testbit lo j || (j =? k).
Proof.
  intros Hk Hj. rewrite testbit_wrap by lia.
  rewrite !Z.lor_spec, testbit_one, Z.shiftl_spec by lia.
  by rewrite (Z.testbit_neg_r hi) by lia; rewrite orb_false_r.
Qed.

Lemma set_bit_high lo hi k j :
  0 <= lo < 2 ^ 32 -> 0 <= k -> 0 <= j < 32 ->
  Z.testbit (wrap 32 (Z.shiftr (Z.lor (Z.lor lo (Z.shiftl hi 32)) (Z.shiftl 1 k)) 32)) j =
  Z.testbit hi j || (j + 32 =? k).
Proof.
  intros Hlo Hk Hj. rewrite testbit_wrap by lia.
  rewrite Z.shiftr_spec, !Z.lor_spec, testbit_one, Z.shiftl_spec by lia.
  rewrite (testbit_u32_high lo) by lia. simpl. by replace (j + 32 - 32) with j by lia.
Qed.

Lemma __set_bit_spec nr ws :
  0 <= nr < 192 -> length ws = 6%nat -> Forall (fun w => 0 <= w < 2 ^ 32) ws ->
  exists ws', __set_bit nr ws = Some ws' /\ length ws' = 6%nat /\
    Forall (fun w => 0 <= w < 2 ^ 32) ws' /\
    forall b, 0 <= b < 192 -> exists w w', ws !! Z.to_nat (b / 32) = Some w /\
      ws' !! Z.to_nat (b / 32) = Some w' /\
      Z.testbit w' (b mod 32) = Z.testbit w (b mod 32) || (b =? nr).
Proof.
  intros Hnr Hlen Hws. unfold __set_bit.
  pose proof (Z.div_mod nr 64) as Hdm. pose proof (Z.mod_pos_bound nr 64) as Hmb.
  set (q := Z.to_nat (nr / 64)). assert (q < 3)%nat as Hq by (unfold q; lia).
  destruct (lookup_lt_is_Some_2 ws (2 * q)%nat) as [lo Hlo]; [lia|].
  destruct (lookup_lt_is_Some_2 ws (S (2 * q))%nat) as [hi Hhi]; [lia|].
  rewrite Hlo, Hhi. cbn [mbind option_bind]. eexists. split; [reflexivity|].
  assert (0 <= lo < 2 ^ 32) as Hlor by exact (Forall_lookup_1 _ _ _ _ Hws Hlo).
  split; [by rewrite !length_insert|]. split.
  { apply Forall_insert; [apply Forall_insert; [done|]|]; apply wrap_range; lia. }
  intros b Hb. destruct (lookup_lt_is_Some_2 ws (Z.to_nat (b / 32))) as [w Hw].
  { rewrite Hlen. pose proof (Z.div_mod b 32). pose proof (Z.mod_pos_bound b 32). lia. }
  exists w. rewrite Hw. pose proof (Z.div_mod b 32) as Hb1. pose proof (Z.mod_pos_bound b 32) as Hb2.
  destruct (decide (Z.to_nat (b / 32) = 2 * q)%nat) as [He|Hne].
  - rewrite He, list_lookup_insert_eq by (rewrite length_insert; lia).
    eexists. split; [done|]. split; [done|]. rewrite He, Hlo in Hw. injection Hw as ->.
    rewrite set_bit_low by lia. f_equal.
    destruct (Z.eqb_spec (b mod 32) (nr mod 64)), (Z.eqb_spec b nr); lia.
  - rewrite list_lookup_insert_ne by done.
    destruct (decide (Z.to_nat (b / 32) = S (2 * q))%nat) as [He|Hne2].
    + rewrite He, list_lookup_insert_eq by lia.
      eexists. split; [done|]. split; [done|]. rewrite He, Hhi in Hw. injection Hw as ->.
      rewrite set_bit_high by lia. f_equal.
      destruct (Z.eqb_spec (b mod 32 + 32) (nr mod 64)), (Z.eqb_spec b nr); lia.
    + rewrite list_lookup_insert_ne by done. exists w. split; [done|]. split; [done|].
      destruct (Z.eqb_spec b nr); [|by rewrite orb_false_r]. subst nr. lia.
Qed.

(** ** The pages of a vcpu *)
Section pages.
Context `{L : KernelLaws} `{C : Config} `{CO : !ConfigOk C}.
Implicit Types (s : kstate).

Lemma wp_load_vmcb addr pa p v (Q : vmcb.t -> kstate -> Prop) E s :
  virt_to_phys addr = pa -> ks_pages s !! pa = Some p -> as_vmcb p = Some v -> Q v s ->
  wp (load_vmcb addr) Q E s.
Proof. apply wp_load. Qed.

Lemma wp_store {A} (view : page -> option A) mk addr pa p a f (Q : unit -> kstate -> Prop) E s :
  virt_to_phys addr = pa -> ks_pages s !! pa = Some p -> view p = Some a ->
  Q tt (with_mem (ks_mm s) (<[pa := mk (f a)]> (ks_pages s)) s) ->
  wp (store view mk addr f) Q E s.
Proof.
  intros Ha Hp Hv HQ. unfold store. apply wp_bind. eapply wp_load; [done..|].
  apply wp_modify. rewrite Ha. by destruct s.
Qed.

Lemma as_vmcb_zero : as_vmcb zero_page = Some (vmcb.mk control.zero save.zero).
Proof. done. Qed.

(** Updates of the control block at [pa]; the new areas are named, so that they
    can be given in evaluated form. *)
Lemma wp_update_control addr pa c sv f c' (Q : unit -> kstate -> Prop) E s m k :
  virt_to_phys addr = pa -> f c = c' ->
  Q tt (with_mem k (<[pa := PVmcb (vmcb.mk c' sv)]> m) s) ->
  wp (update_control addr f) Q E (with_mem k (<[pa := PVmcb (vmcb.mk c sv)]> m) s).
Proof.
  intros Ha <- HQ. eapply wp_store; [done|apply lookup_insert_eq|done|].
  mem_simpl. by rewrite insert_insert_eq.
Qed.

Lemma wp_update_save addr pa p c sv f sv' (Q : unit -> kstate -> Prop) E s m k :
  virt_to_phys addr = pa -> as_vmcb p = Some (vmcb.mk c sv) -> f sv = sv' ->
  Q tt (with_mem k (<[pa := PVmcb (vmcb.mk c sv')]> m) s) ->
  wp (update_save addr f) Q E (with_mem k (<[pa := p]> m) s).
Proof.
  intros Ha Hp <- HQ. eapply wp_store; [done|apply lookup_insert_eq|done|].
  mem_simpl. by rewrite insert_insert_eq.
Qed.

Lemma wp_set_intercept addr pa c sv bit ws c' (Q : unit -> kstate -> Prop) E s m k :
  virt_to_phys addr = pa -> bit < 192 ->
  __set_bit bit (control.intercepts c) = Some ws ->
  c <| control.intercepts := ws |> = c' ->
  Q tt (with_mem k (<[pa := PVmcb (vmcb.mk c' sv)]> m) s) ->
  wp (yakvm_vmcb_set_intercept addr bit) Q E (with_mem k (<[pa := PVmcb (vmcb.mk c sv)]> m) s).
Proof.
  intros Ha Hb Hws <- HQ. unfold yakvm_vmcb_set_intercept. apply wp_bind.
  apply wp_kassert; [by apply Z.ltb_lt|]. apply wp_bind.
  eapply wp_load_vmcb; [done|apply lookup_insert_eq|done|].
  apply wp_bind. eapply wp_need; [done|]. by eapply wp_update_control.
Qed.

Lemma wp_asid_inc_return (Q : Z -> kstate -> Prop) E s m k :
  0 < ks_asid s < 2 ^ 31 - 1 ->
  Q (ks_asid s + 1) (with_mem k m (s <| ks_asid := ks_asid s + 1 |>)) ->
  wp asid_inc_return Q E (with_mem k m s).
Proof.
  intros Hs HQ. unfold wp, asid_inc_return.
  change (ks_asid (with_mem k m s)) with (ks_asid s). by rewrite sint_small by lia.
Qed.

(** Where bit [nr] of the array of longs at [pa] lies. *)
Definition bit_frame (pa nr : Z) : Z := (pa + 8 * (nr / 64)) / PAGE_SIZE * PAGE_SIZE.
Definition bit_word (pa nr : Z) : nat := Z.to_nat ((pa + 8 * (nr / 64)) mod PAGE_SIZE / 8).

Lemma wp_set_bit nr addr pa ws w (Q : unit -> kstate -> Prop) E s :
  virt_to_phys addr = pa -> ks_pages s !! bit_frame pa nr = Some (PWords ws) ->
  ws !! bit_word pa nr = Some w ->
  Q tt (with_mem (ks_mm s) (<[bit_frame pa nr :=
     PWords (<[bit_word pa nr := Z.lor w (Z.shiftl 1 (nr mod 64))]> ws)]> (ks_pages s)) s) ->
  wp (set_bit nr addr) Q E s.
Proof.
  intros Ha Hp Hw HQ. unfold set_bit. wp_step. wp_step. rewrite Ha.
  fold (bit_frame pa nr). fold (bit_word pa nr). rewrite Hp. wp_steps.
  eapply wp_need; [done|]. wp_steps. rewrite Hw. wp_steps. by destruct s.
Qed.

(** The map with the one bit [yakvm_vcpu_init_vmcb] sets. *)
Definition iopm_word (pa : Z) : list Z :=
  <[bit_word pa YAKVM_PIO_HAWK := Z.shiftl 1 (YAKVM_PIO_HAWK mod 64)]> (replicate 512 0).

Lemma wp_init_vmcb_pages vcpu v vm_v vmm_v g i pages s :
  ks_heap s !! vcpu = Some (OVcpu v) ->
  ks_heap s !! vcpu.vm v = Some (OVm vm_v) ->
  ks_heap s !! vm.vmm vm_v = Some (OVmm vmm_v) ->
  virt_to_phys (context.vmcb (vcpu.gctx v)) = g -> virt_to_phys (vcpu.iopm v) = i ->
  ks_pages s = <[g := zero_page]> pages ->
  bit_frame i YAKVM_PIO_HAWK <> g -> pages !! bit_frame i YAKVM_PIO_HAWK = Some zero_page ->
  0 < ks_asid s < 2 ^ 31 - 1 ->
  wp (yakvm_vcpu_init_vmcb vcpu)
    (fun _ s' => ks_asid s + 1 < cpuid_ebx 0x8000000a /\
       s' = (with_mem (ks_mm s)
         (<[g := PVmcb (fresh_vmcb i (vmm.ncr3 vmm_v) (ks_asid s + 1))]>
           (<[bit_frame i YAKVM_PIO_HAWK := PWords (iopm_word i)]> pages)) s)
         <| ks_asid := ks_asid s + 1 |>)
    (fun w => w = Panicked /\ cpuid_ebx 0x8000000a <= ks_asid s + 1) s.
Proof.
  intros Hv Hvm Hvmm Hg Hi Hpg Hne Hio Hasid. unfold yakvm_vcpu_init_vmcb.
  apply wp_bind. eapply wp_get_obj; [done..|]. cbv beta.
  set (addr := context.vmcb (vcpu.gctx v)) in *. rewrite Hi.
  rewrite <- (with_mem_id s), Hpg at 1.
  apply wp_bind. eapply wp_update_save; [done|apply as_vmcb_zero|reflexivity|].
  apply wp_bind. eapply wp_update_save; [done|reflexivity|cbv; reflexivity|].
  do 3 (apply wp_bind; eapply wp_set_intercept; [done|done|cbv; reflexivity|cbv; reflexivity|]).
  apply wp_bind. eapply wp_update_control; [done|cbv; reflexivity|].
  apply wp_bind. eapply wp_set_bit; [done|mem_simpl; by rewrite lookup_insert_ne| |].
  { apply lookup_replicate_2. unfold bit_word, PAGE_SIZE.
    pose proof (Z.mod_pos_bound (i + 8 * (YAKVM_PIO_HAWK / 64)) 4096).
    apply Nat2Z.inj_lt. rewrite Z2Nat.id by (apply Z.div_pos; lia).
    apply Z.div_lt_upper_bound; lia. }
  mem_simpl. rewrite (insert_insert_ne pages (bit_frame _ _) g) by done.
  apply wp_bind. eapply wp_update_control; [done|cbv; reflexivity|].
  apply wp_bind. eapply wp_get_obj; [done..|].
  apply wp_bind. eapply wp_get_obj; [done..|].
  apply wp_bind. eapply wp_update_control; [done|cbv -[vmm.ncr3]; reflexivity|].
  apply wp_bind. eapply wp_update_save; [done|reflexivity|cbv; reflexivity|].
  apply wp_bind. eapply wp_set_intercept; [done|done|cbv; reflexivity|cbv -[vmm.ncr3]; reflexivity|].
  apply wp_bind, wp_asid_inc_return; [done|].
  apply wp_bind. eapply wp_update_control; [done|reflexivity|].
  apply wp_bind. eapply wp_load_vmcb; [done|apply lookup_insert_eq|done|]. cbn.
  rewrite wrap_small by lia. unfold wp, kassert.
  destruct (Z.ltb_spec (ks_asid s + 1) (cpuid_ebx 0x8000000a)); [|by split].
  by split.
Qed.

(** [yakvm_vcpu_init_vmcb] on a fresh vcpu: the control block becomes
    [fresh_vmcb], one bit of the I/O map is set and the counter of ASIDs goes
    up; it panics when the processor has no such ASID. *)
Lemma wp_init_vmcb vcpu v vm_v vmm_v g i s :
  ks_heap s !! vcpu = Some (OVcpu v) ->
  ks_heap s !! vcpu.vm v = Some (OVm vm_v) ->
  ks_heap s !! vm.vmm vm_v = Some (OVmm vmm_v) ->
  virt_to_phys (context.vmcb (vcpu.gctx v)) = g -> virt_to_phys (vcpu.iopm v) = i ->
  ks_pages s !! g = Some zero_page -> bit_frame i YAKVM_PIO_HAWK <> g ->
  ks_pages s !! bit_frame i YAKVM_PIO_HAWK = Some zero_page ->
  0 < ks_asid s < 2 ^ 31 - 1 ->
  wp (yakvm_vcpu_init_vmcb vcpu)
    (fun _ s' => ks_asid s + 1 < cpuid_ebx 0x8000000a /\
       s' = with_mem (ks_mm s)
         (<[g := PVmcb (fresh_vmcb i (vmm.ncr3 vmm_v) (ks_asid s + 1))]>
           (<[bit_frame i YAKVM_PIO_HAWK := PWords (iopm_word i)]> (ks_pages s)))
         (s <| ks_asid := ks_asid s + 1 |>))
    (fun w => w = Panicked /\ cpuid_ebx 0x8000000a <= ks_asid s + 1) s.
Proof.
  intros Hv Hvm Hvmm Hg Hi Hpg Hne Hio Hasid.
  eapply wp_init_vmcb_pages; try done. by rewrite insert_id.
Qed.

(** The bit of a port lies in one of the first two pages of the map. *)
Lemma bit_frame_in n c port :
  0 <= port < 2 ^ 16 -> 2 <= c -> bit_frame (n * PAGE_SIZE) port ∈ frames n c.
Proof.
  intros Hp Hc. unfold bit_frame, PAGE_SIZE. apply elem_of_frames.
  assert (0 <= port / 64 < 1024) as Hq.
  { split; [apply Z.div_pos; lia|apply Z.div_lt_upper_bound; lia]. }
  exists (8 * (port / 64) / 4096). rewrite Z.add_comm, Z.div_add by lia. split; [|unfold PAGE_SIZE; lia].
  split; [apply Z.div_pos; lia|]. apply Z.lt_le_trans with 2; [|done].
  apply Z.div_lt_upper_bound; lia.
Qed.

End pages.
