(* ===== verification/VcpuRun.v ===== *)
(** * The world switch: driver/vcpu_run.S

    The assembly routine is a list of instructions with an interpreter. Its
    memory is the two [struct context] its arguments point to, as arrays of
    64-bit words, and the part of the stack it pushes; the SVM instructions act
    on the processor and on the pages of the driver. What a guest does between
    VMRUN and #VMEXIT is a parameter. *)

From S2P Require Import Prelude Structs Kernel Npt Vmcb.

(** ** Registers *)

Inductive reg : Type :=
| RAX | RBX | RCX | RDX | RDI | RSI | RBP | R8 | R9 | R10 | R11 | R12 | R13 | R14 | R15.

(** The general purpose registers; the stack pointer is the state of the
    stack. *)
Module gprs.
Record t : Type := mk {
  rax : Z; rbx : Z; rcx : Z; rdx : Z; rdi : Z; rsi : Z; rbp : Z;
  r8 : Z; r9 : Z; r10 : Z; r11 : Z; r12 : Z; r13 : Z; r14 : Z; r15 : Z
}.
#[global] Instance eta_t : Eta t := fun r =>
  mk (rax r) (rbx r) (rcx r) (rdx r) (rdi r) (rsi r) (rbp r)
    (r8 r) (r9 r) (r10 r) (r11 r) (r12 r) (r13 r) (r14 r) (r15 r).

Definition get (r : reg) (g : t) : Z :=
  match r with
  | RAX => rax g | RBX => rbx g | RCX => rcx g | RDX => rdx g | RDI => rdi g
  | RSI => rsi g | RBP => rbp g | R8 => r8 g | R9 => r9 g | R10 => r10 g
  | R11 => r11 g | R12 => r12 g | R13 => r13 g | R14 => r14 g | R15 => r15 g
  end.

Definition set (r : reg) (x : Z) (g : t) : t :=
  match r with
  | RAX => g <| rax := x |> | RBX => g <| rbx := x |> | RCX => g <| rcx := x |>
  | RDX => g <| rdx := x |> | RDI => g <| rdi := x |> | RSI => g <| rsi := x |>
  | RBP => g <| rbp := x |> | R8 => g <| r8 := x |> | R9 => g <| r9 := x |>
  | R10 => g <| r10 := x |> | R11 => g <| r11 := x |> | R12 => g <| r12 := x |>
  | R13 => g <| r13 := x |> | R14 => g <| r14 := x |> | R15 => g <| r15 := x |>
  end.
End gprs.

(** ** The processor *)

(** What a guest may do that reaches the host, unless the control block
    intercepts it (AMD64 APM volume 2, 15.9 to 15.11 and 15.33): an instruction
    that acts on host physical memory or on the processor the host will run on
    (VMLOAD and VMSAVE, whose operand is a host physical address when they are not
    virtualised, STGI, CLGI, SKINIT, INVD), told by its bit of the intercept
    vector; an access to a port; a write to a model specific register that
    VMRUN does not switch. *)
Inductive host_act : Type :=
| HostInstr (bit : Z)
| HostPort (port : Z)
| HostMsr (msr : Z).

(** Whether it leaves the guest instead. The driver gives the processor no map of
    registers, so none of them counts as intercepted. *)
Definition covered (m : gmap Z page) (c : control.t) (a : host_act) : bool :=
  match a with
  | HostInstr bit => intercepted c bit
  | HostPort port =>
      intercepted c INTERCEPT_IOIO_PROT && io_intercepted m (control.iopm_base_pa c) port
  | HostMsr _ => false
  end.

(** A guest runs until #VMEXIT: from the rest of the world, the pages, the
    control block at [pa], the registers and the state VMLOAD put in the
    processor. [hsave] is where VMRUN keeps the host's state. [guest_acts] are the
    acts on the host the guest tries on the way. *)
Class Processor (K : KernelOps) : Type := {
  guest_run : umem -> gmap Z page -> Z -> Z -> gprs.t -> hidden.t ->
    umem * gmap Z page * gprs.t * hidden.t;
  guest_acts : umem -> gmap Z page -> Z -> Z -> gprs.t -> hidden.t -> list host_act
}.

(** The guest keeps to its virtual machine: whatever it tries on the host is
    intercepted. *)
Definition confined `{P : Processor} (u : umem) (m : gmap Z page) (hsave pa : Z) (g : gprs.t)
    (hd : hidden.t) (c : control.t) : bool :=
  forallb (covered m c) (guest_acts u m hsave pa g hd).

(** The members of a control block a #VMEXIT leaves as they are. *)
Definition same_setup (v v' : vmcb.t) : Prop :=
  let c := vmcb.control v in
  let c' := vmcb.control v' in
  control.intercepts c' = control.intercepts c /\
  control.iopm_base_pa c' = control.iopm_base_pa c /\
  control.asid c' = control.asid c /\ control.nested_ctl c' = control.nested_ctl c /\
  control.nested_cr3 c' = control.nested_cr3 c.

(** Documented behaviour of the processor with nested paging: a confined guest
    writes the pages its nested table maps as present and writable, and nothing
    else; VMRUN writes the host save area and #VMEXIT the control block. Of a
    guest that is not confined nothing is said. The accessed and dirty bits that
    the walk sets in the entries of the table (bits 5 and 6) are left out of the
    words of a page: no reader of an entry sees them ([ad_bits_unread] in Npt). *)
Class ProcessorLaws (K : KernelOps) (P : Processor K) : Prop := {
  guest_run_pages u m hsave pa g hd u' m' g' hd' p v t :
    m !! pa = Some p -> as_vmcb p = Some v ->
    npt_repr m (control.nested_cr3 (vmcb.control v)) t -> pa ∉ tree_pages t ->
    confined u m hsave pa g hd (vmcb.control v) = true ->
    guest_run u m hsave pa g hd = (u', m', g', hd') ->
    dom m' = dom m /\
    (exists v', m' !! pa = Some (PVmcb v') /\ same_setup v v') /\
    (forall q x, t !! q = Some (x, true) -> length q = 4%nat ->
       exists ws, m' !! x = Some (PWords ws) /\ length ws = 512%nat) /\
    (forall x, x <> pa -> x <> hsave ->
       (forall q, length q = 4%nat -> t !! q <> Some (x, true)) -> m' !! x = m !! x)
}.

Section svm.
Context `{K : KernelOps} `{P : !Processor K}.

(** The processor the caller runs on. *)
Definition this_cpu : KM pcpu.t := fun s =>
  match ks_cpus s !! ks_cpu s with Some c => Ok c s | None => Stop BadAccess end.

Definition update_cpu (f : pcpu.t -> pcpu.t) : KM unit :=
  modify (fun s => s <| ks_cpus := alter f (ks_cpu s) (ks_cpus s) |>).

(** An SVM instruction is undefined, and stops the kernel, unless EFER.SVME. *)
Definition svm_enabled : KM unit :=
  c ← this_cpu; kassert (has_flag (pcpu.efer c) EFER_SVME).

Definition vmcb_at (pa : Z) : KM vmcb.t :=
  m ← gets ks_pages; p ← need (m !! pa); need (as_vmcb p).

Definition hidden_of (s : save.t) : hidden.t :=
  hidden.mk (save.fs s) (save.gs s) (save.tr s) (save.ldtr s) (save.kernel_gs_base s)
    (save.star s) (save.lstar s) (save.cstar s) (save.sfmask s) (save.sysenter_cs s)
    (save.sysenter_esp s) (save.sysenter_eip s).

Definition save_hidden (h : hidden.t) (s : save.t) : save.t :=
  s <| save.fs := hidden.fs h |> <| save.gs := hidden.gs h |>
    <| save.tr := hidden.tr h |> <| save.ldtr := hidden.ldtr h |>
    <| save.kernel_gs_base := hidden.kernel_gs_base h |>
    <| save.star := hidden.star h |> <| save.lstar := hidden.lstar h |>
    <| save.cstar := hidden.cstar h |> <| save.sfmask := hidden.sfmask h |>
    <| save.sysenter_cs := hidden.sysenter_cs h |>
    <| save.sysenter_esp := hidden.sysenter_esp h |>
    <| save.sysenter_eip := hidden.sysenter_eip h |>.

Definition vmload (pa : Z) : KM unit :=
  svm_enabled ;;
  v ← vmcb_at pa;
  update_cpu (fun c => c <| pcpu.extra := hidden_of (vmcb.save v) |>).

Definition vmsave (pa : Z) : KM unit :=
  svm_enabled ;;
  c ← this_cpu;
  v ← vmcb_at pa;
  modify (fun s => s <| ks_pages := <[pa := PVmcb (v <| vmcb.save :=
    save_hidden (pcpu.extra c) (vmcb.save v) |>)]> (ks_pages s) |>).

Definition clgi : KM unit := svm_enabled ;; update_cpu (fun c => c <| pcpu.gif := false |>).
Definition stgi : KM unit := svm_enabled ;; update_cpu (fun c => c <| pcpu.gif := true |>).

(** From VMRUN to #VMEXIT: RAX is the host's again, GIF is clear. A guest that
    reaches the host has escaped: the model ends there. *)
Definition guest_mode (hsave pa : Z) (b : vmcb.t) (g : gprs.t) (extra : hidden.t) : KM gprs.t := fun s =>
  let '(u, m', g', hd) := guest_run (ks_user s) (ks_pages s) hsave pa g extra in
  if negb (confined (ks_user s) (ks_pages s) hsave pa g extra (vmcb.control b)) then Stop Escaped
  else Ok (g' <| gprs.rax := gprs.rax g |>)
    (s <| ks_user := u |> <| ks_pages := m' |>
       <| ks_cpus := alter (fun c => c <| pcpu.extra := hd |> <| pcpu.gif := false |>)
                       (ks_cpu s) (ks_cpus s) |>).

(** VMRUN outside of its protocol (interrupts held off by GIF, no migration to
    another processor, a host save area of the driver's) is undefined. *)
Definition vmrun (pa : Z) (g : gprs.t) : KM gprs.t :=
  svm_enabled ;;
  c ← this_cpu;
  m ← gets ks_pages;
  need (if negb (pcpu.gif c) && (0 <? pcpu.preempt c) then Some tt else None) ;;
  need (m !! pcpu.hsave_pa c) ;;
  b ← vmcb_at pa;
  guest_mode (pcpu.hsave_pa c) pa b g (pcpu.extra c).

End svm.

(** ** The routine *)

Inductive instr : Type :=
| Store (src : reg) (off : Z) (base : reg)     (** mov %src, off(%base) *)
| Load (off : Z) (base dst : reg)              (** mov off(%base), %dst *)
| Mov (src dst : reg)
| Push (r : reg)
| Pop (r : reg)
| Vmload (r : reg)
| Vmrun (r : reg)
| Vmsave (r : reg)
| Ret.

(** Lines 17-87. *)
Definition _yakvm_vcpu_run_code : list instr :=
  [ (* save host registers *)
   Store RBX YAKVM_VCPU_CONTEXT_RBX_OFF RSI;
   Store RCX YAKVM_VCPU_CONTEXT_RCX_OFF RSI;
   Store RBP YAKVM_VCPU_CONTEXT_RBP_OFF RSI;
   Store R8 YAKVM_VCPU_CONTEXT_R8_OFF RSI;
   Store R9 YAKVM_VCPU_CONTEXT_R9_OFF RSI;
   Store R10 YAKVM_VCPU_CONTEXT_R10_OFF RSI;
   Store R11 YAKVM_VCPU_CONTEXT_R11_OFF RSI;
   Store R12 YAKVM_VCPU_CONTEXT_R12_OFF RSI;
   Store R13 YAKVM_VCPU_CONTEXT_R13_OFF RSI;
   Store R14 YAKVM_VCPU_CONTEXT_R14_OFF RSI;
   Store R15 YAKVM_VCPU_CONTEXT_R15_OFF RSI;
   Push RSI; Push RDI; Push RDX;
   (* load guest registers *)
   Mov RDI RAX;
   Load YAKVM_VCPU_CONTEXT_RBX_OFF RAX RBX;
   Load YAKVM_VCPU_CONTEXT_RCX_OFF RAX RCX;
   Load YAKVM_VCPU_CONTEXT_RDX_OFF RAX RDX;
   Load YAKVM_VCPU_CONTEXT_RDI_OFF RAX RDI;
   Load YAKVM_VCPU_CONTEXT_RSI_OFF RAX RSI;
   Load YAKVM_VCPU_CONTEXT_RBP_OFF RAX RBP;
   Load YAKVM_VCPU_CONTEXT_R8_OFF RAX R8;
   Load YAKVM_VCPU_CONTEXT_R9_OFF RAX R9;
   Load YAKVM_VCPU_CONTEXT_R10_OFF RAX R10;
   Load YAKVM_VCPU_CONTEXT_R11_OFF RAX R11;
   Load YAKVM_VCPU_CONTEXT_R12_OFF RAX R12;
   Load YAKVM_VCPU_CONTEXT_R13_OFF RAX R13;
   Load YAKVM_VCPU_CONTEXT_R14_OFF RAX R14;
   Load YAKVM_VCPU_CONTEXT_R15_OFF RAX R15;
   (* run vm *)
   Pop RAX; Vmload RAX; Vmrun RAX; Vmsave RAX;
   (* save guest registers *)
   Pop RAX;
   Store RBX YAKVM_VCPU_CONTEXT_RBX_OFF RAX;
   Store RCX YAKVM_VCPU_CONTEXT_RCX_OFF RAX;
   Store RDX YAKVM_VCPU_CONTEXT_RDX_OFF RAX;
   Store RDI YAKVM_VCPU_CONTEXT_RDI_OFF RAX;
   Store RSI YAKVM_VCPU_CONTEXT_RSI_OFF RAX;
   Store RBP YAKVM_VCPU_CONTEXT_RBP_OFF RAX;
   Store R8 YAKVM_VCPU_CONTEXT_R8_OFF RAX;
   Store R9 YAKVM_VCPU_CONTEXT_R9_OFF RAX;
   Store R10 YAKVM_VCPU_CONTEXT_R10_OFF RAX;
   Store R11 YAKVM_VCPU_CONTEXT_R11_OFF RAX;
   Store R12 YAKVM_VCPU_CONTEXT_R12_OFF RAX;
   Store R13 YAKVM_VCPU_CONTEXT_R13_OFF RAX;
   Store R14 YAKVM_VCPU_CONTEXT_R14_OFF RAX;
   Store R15 YAKVM_VCPU_CONTEXT_R15_OFF RAX;
   (* load host registers except %rdi and %rdx *)
   Pop RSI;
   Load YAKVM_VCPU_CONTEXT_R15_OFF RSI R15;
   Load YAKVM_VCPU_CONTEXT_R14_OFF RSI R14;
   Load YAKVM_VCPU_CONTEXT_R13_OFF RSI R13;
   Load YAKVM_VCPU_CONTEXT_R12_OFF RSI R12;
   Load YAKVM_VCPU_CONTEXT_R11_OFF RSI R11;
   Load YAKVM_VCPU_CONTEXT_R10_OFF RSI R10;
   Load YAKVM_VCPU_CONTEXT_R9_OFF RSI R9;
   Load YAKVM_VCPU_CONTEXT_R8_OFF RSI R8;
   Load YAKVM_VCPU_CONTEXT_RBP_OFF RSI RBP;
   Load YAKVM_VCPU_CONTEXT_RCX_OFF RSI RCX;
   Load YAKVM_VCPU_CONTEXT_RBX_OFF RSI RBX;
   Ret].

(** The members of a [struct context] as an array of words, in the order of
    include/cpu.h, and back. *)
Definition context_words (c : context.t) : list Z :=
  [context.vmcb c; context.rbx c; context.rcx c; context.rdx c; context.rdi c;
   context.rsi c; context.rbp c; context.r8 c; context.r9 c; context.r10 c;
   context.r11 c; context.r12 c; context.r13 c; context.r14 c; context.r15 c].

Definition words_context (ws : list Z) : option context.t :=
  match ws with
  | [a; b; c; d; e; f; g; h; i; j; k; l; m; n; o] =>
      Some (context.mk a b c d e f g h i j k l m n o)
  | _ => None
  end.

(** The machine: registers, the words pushed since the call, the contexts at
    [gbase] and [hbase], and the kernel's state. *)
Record asm `{KernelOps} : Type := Asm {
  a_regs : gprs.t;
  a_stack : list Z;
  a_gbase : Z;
  a_gctx : list Z;
  a_hbase : Z;
  a_hctx : list Z;
  a_ks : kstate
}.

#[global] Instance eta_asm `{K : KernelOps} : Eta asm := fun a =>
  Asm K (a_regs a) (a_stack a) (a_gbase a) (a_gctx a) (a_hbase a) (a_hctx a) (a_ks a).

Section machine.
Context `{K : KernelOps} `{P : !Processor K}.

Definition reads (r : reg) : M asm Z := gets (fun a => gprs.get r (a_regs a)).
Definition writes (r : reg) (x : Z) : M asm unit :=
  modify (fun a => a <| a_regs := gprs.set r x (a_regs a) |>).

(** The word of a context at an address: which context and its index. *)
Definition slot (gbase hbase addr : Z) : option (bool * nat) :=
  let at_ (base : Z) (b : bool) : option (bool * nat) :=
    let off := addr - base in
    if (0 <=? off) && (off <? 120) && (off mod 8 =? 0)
    then Some (b, Z.to_nat (off / 8)) else None in
  match at_ gbase true with Some x => Some x | None => at_ hbase false end.

Definition load64 (addr : Z) : M asm Z :=
  a ← gets id;
  b ← need (slot (a_gbase a) (a_hbase a) addr);
  need ((if b.1 : bool then a_gctx a else a_hctx a) !! b.2).

Definition store64 (addr x : Z) : M asm unit :=
  a ← gets id;
  b ← need (slot (a_gbase a) (a_hbase a) addr);
  if b.1 : bool then modify (fun a => a <| a_gctx := <[b.2 := x]> (a_gctx a) |>)
  else modify (fun a => a <| a_hctx := <[b.2 := x]> (a_hctx a) |>).

Definition push (x : Z) : M asm unit := modify (fun a => a <| a_stack := x :: a_stack a |>).
Definition pop : M asm Z := fun a =>
  match a_stack a with
  | [] => Stop BadAccess
  | x :: l => Ok x (a <| a_stack := l |>)
  end.

(** A step of the kernel's state. *)
Definition lift {A} (m : KM A) : M asm A := fun a =>
  match m (a_ks a) with
  | Ok x s => Ok x (a <| a_ks := s |>)
  | Stop w => Stop w
  end.

Definition exec_instr (i : instr) : M asm unit :=
  match i with
  | Store src off base => b ← reads base; x ← reads src; store64 (b + off) x
  | Load off base dst => b ← reads base; x ← load64 (b + off); writes dst x
  | Mov src dst => x ← reads src; writes dst x
  | Push r => x ← reads r; push x
  | Pop r => x ← pop; writes r x
  | Vmload r => x ← reads r; lift (vmload x)
  | Vmrun r =>
      x ← reads r; a ← gets id;
      g ← lift (vmrun x (a_regs a));
      modify (fun a => a <| a_regs := g |>)
  | Vmsave r => x ← reads r; lift (vmsave x)
  | Ret => mret tt
  end.

(** RET takes the return address, so it needs the stack of the call. *)
Fixpoint exec (l : list instr) : M asm unit :=
  match l with
  | [] => halt BadAccess
  | Ret :: _ => a ← gets id; need (if a_stack a is [] then Some tt else None)
  | i :: l => exec_instr i ;; exec l
  end.

(** The call of line 99 of driver/cpu.c, [_yakvm_vcpu_run(&vcpu->gctx,
    &vcpu->hctx, virt_to_phys(vcpu->gctx.vmcb))] with the caller's other
    registers in [g]: the registers it returns with. [&vcpu->hctx] is the
    context after [&vcpu->gctx] in [struct vcpu]; the address of the first is
    the vcpu's plus the size of its lock. *)
Definition _yakvm_vcpu_run (vcpu vmcb_pa lock_size : Z) (g : gprs.t) : KM gprs.t := fun s =>
  match ks_heap s !! vcpu with
  | Some (OVcpu v) =>
      let gbase := vcpu + lock_size in
      let hbase := gbase + 120 in
      let a := Asm K (g <| gprs.rdi := gbase |> <| gprs.rsi := hbase |> <| gprs.rdx := vmcb_pa |>)
                 [] gbase (context_words (vcpu.gctx v)) hbase (context_words (vcpu.hctx v)) s in
      match exec _yakvm_vcpu_run_code a with
      | Ok _ a' =>
          match words_context (a_gctx a'), words_context (a_hctx a') with
          | Some gc, Some hc =>
              Ok (a_regs a') ((a_ks a') <| ks_heap := <[vcpu :=
                OVcpu (v <| vcpu.gctx := gc |> <| vcpu.hctx := hc |>)]> (ks_heap (a_ks a')) |>)
          | _, _ => Stop BadAccess
          end
      | Stop w => Stop w
      end
  | _ => Stop BadAccess
  end.

End machine.

(** ** Symbolic execution of the routine *)

Lemma slot_at (g h : Z) (b : bool) off :
  h = g + 120 -> 0 <= off < 120 -> off mod 8 = 0 ->
  slot g h ((if b then g else h) + off) = Some (b, Z.to_nat (off / 8)).
Proof.
  intros -> Hoff Hm. unfold slot. destruct b.
  - replace (g + off - g) with off by lia. rewrite Hm.
    destruct (Z.leb_spec 0 off), (Z.ltb_spec off 120); try lia. done.
  - replace (g + 120 + off - g) with (120 + off) by lia.
    replace (g + 120 + off - (g + 120)) with off by lia. rewrite Hm.
    destruct (Z.ltb_spec (120 + off) 120); [lia|]. rewrite andb_false_r. simpl.
    destruct (Z.leb_spec 0 off), (Z.ltb_spec off 120); try lia. done.
Qed.

(** The registers a guest is entered with. *)
Definition guest_regs (c : context.t) (rax : Z) : gprs.t :=
  gprs.mk rax (context.rbx c) (context.rcx c) (context.rdx c) (context.rdi c) (context.rsi c)
    (context.rbp c) (context.r8 c) (context.r9 c) (context.r10 c) (context.r11 c)
    (context.r12 c) (context.r13 c) (context.r14 c) (context.r15 c).

(** The context of a guest that left with the registers [g]. *)
Definition guest_saved (g : gprs.t) (c : context.t) : context.t :=
  context.mk (context.vmcb c) (gprs.rbx g) (gprs.rcx g) (gprs.rdx g) (gprs.rdi g) (gprs.rsi g)
    (gprs.rbp g) (gprs.r8 g) (gprs.r9 g) (gprs.r10 g) (gprs.r11 g)
    (gprs.r12 g) (gprs.r13 g) (gprs.r14 g) (gprs.r15 g).

(** The host's context: the registers the routine saves. *)
Definition host_saved (g : gprs.t) (c : context.t) : context.t :=
  context.mk (context.vmcb c) (gprs.rbx g) (gprs.rcx g) (context.rdx c) (context.rdi c)
    (context.rsi c) (gprs.rbp g) (gprs.r8 g) (gprs.r9 g) (gprs.r10 g) (gprs.r11 g)
    (gprs.r12 g) (gprs.r13 g) (gprs.r14 g) (gprs.r15 g).

(** The registers the routine returns with: the caller's [g], but for the
    addresses of the contexts in RAX and RSI and what the guest left in RDI and
    RDX. *)
Definition returned (g : gprs.t) (gbase hbase : Z) (guest : gprs.t) : gprs.t :=
  g <| gprs.rax := gbase |> <| gprs.rsi := hbase |>
    <| gprs.rdi := gprs.rdi guest |> <| gprs.rdx := gprs.rdx guest |>.

Section symbolic.
Context `{K : KernelOps} `{P : !Processor K}.
Context (gb hb : Z) (Hhb : hb = gb + 120).
Implicit Types (s : kstate) (E : stop -> Prop) (Q : unit -> asm -> Prop).

Lemma exec_store (b : bool) src off base l Q E regs st gw hw gw' hw' s :
  gprs.get base regs = (if b then gb else hb) -> 0 <= off < 120 -> off mod 8 = 0 ->
  (if b then <[Z.to_nat (off / 8) := gprs.get src regs]> gw else gw) = gw' ->
  (if b then hw else <[Z.to_nat (off / 8) := gprs.get src regs]> hw) = hw' ->
  wp (exec l) Q E (Asm K regs st gb gw' hb hw' s) ->
  wp (exec (Store src off base :: l)) Q E (Asm K regs st gb gw hb hw s).
Proof.
  intros Hb Hoff Hm Hg Hh H. cbn [exec]. apply wp_bind. unfold exec_instr, reads. wp_steps.
  cbn [a_regs]. rewrite Hb. unfold store64. wp_steps. cbn [a_gbase a_hbase id].
  rewrite slot_at by done. wp_steps. destruct b; cbn [fst snd]; apply wp_modify; by subst.
Qed.

Lemma exec_load (b : bool) off base dst l Q E regs st gw hw x regs' s :
  gprs.get base regs = (if b then gb else hb) -> 0 <= off < 120 -> off mod 8 = 0 ->
  (if b then gw else hw) !! Z.to_nat (off / 8) = Some x -> gprs.set dst x regs = regs' ->
  wp (exec l) Q E (Asm K regs' st gb gw hb hw s) ->
  wp (exec (Load off base dst :: l)) Q E (Asm K regs st gb gw hb hw s).
Proof.
  intros Hb Hoff Hm Hx Hr H. cbn [exec]. apply wp_bind. unfold exec_instr, reads. wp_steps.
  cbn [a_regs]. rewrite Hb. unfold load64. wp_steps. cbn [a_gbase a_hbase id].
  rewrite slot_at by done. wp_steps. destruct b; cbn [fst snd a_gctx a_hctx]; rewrite Hx;
    wp_steps; apply wp_modify; by subst.
Qed.

Lemma exec_mov src dst l Q E regs regs' st gw hw s :
  gprs.set dst (gprs.get src regs) regs = regs' ->
  wp (exec l) Q E (Asm K regs' st gb gw hb hw s) ->
  wp (exec (Mov src dst :: l)) Q E (Asm K regs st gb gw hb hw s).
Proof. by intros <-. Qed.

Lemma exec_push r x l Q E regs st gw hw s :
  gprs.get r regs = x ->
  wp (exec l) Q E (Asm K regs (x :: st) gb gw hb hw s) ->
  wp (exec (Push r :: l)) Q E (Asm K regs st gb gw hb hw s).
Proof. by intros <-. Qed.

Lemma exec_pop r x l Q E regs regs' st gw hw s :
  gprs.set r x regs = regs' ->
  wp (exec l) Q E (Asm K regs' st gb gw hb hw s) ->
  wp (exec (Pop r :: l)) Q E (Asm K regs (x :: st) gb gw hb hw s).
Proof. by intros <-. Qed.

Lemma wp_lift {A} (m : KM A) (Q : A -> asm -> Prop) E regs st gw hw s :
  wp m (fun x s' => Q x (Asm K regs st gb gw hb hw s')) E s ->
  wp (lift m) Q E (Asm K regs st gb gw hb hw s).
Proof. unfold wp, lift. cbn [a_ks]. by destruct (m s). Qed.

Lemma exec_vmload r x l Q E regs st gw hw s :
  gprs.get r regs = x ->
  wp (vmload x) (fun _ s' => wp (exec l) Q E (Asm K regs st gb gw hb hw s')) E s ->
  wp (exec (Vmload r :: l)) Q E (Asm K regs st gb gw hb hw s).
Proof. intros <- H. cbn [exec]. apply wp_bind, wp_bind, wp_gets. by apply wp_lift. Qed.

Lemma exec_vmsave r x l Q E regs st gw hw s :
  gprs.get r regs = x ->
  wp (vmsave x) (fun _ s' => wp (exec l) Q E (Asm K regs st gb gw hb hw s')) E s ->
  wp (exec (Vmsave r :: l)) Q E (Asm K regs st gb gw hb hw s).
Proof. intros <- H. cbn [exec]. apply wp_bind, wp_bind, wp_gets. by apply wp_lift. Qed.

Lemma exec_vmrun r x l Q E regs st gw hw s :
  gprs.get r regs = x ->
  wp (vmrun x regs) (fun g s' => wp (exec l) Q E (Asm K g st gb gw hb hw s')) E s ->
  wp (exec (Vmrun r :: l)) Q E (Asm K regs st gb gw hb hw s).
Proof.
  intros <- H. cbn [exec]. apply wp_bind, wp_bind, wp_gets, wp_bind, wp_gets, wp_bind.
  by apply wp_lift.
Qed.

End symbolic.

(** Runs the next instruction; the registers and the contexts stay evaluated. *)
Ltac asm_ctx :=
  lazymatch goal with
  | H : ?h = ?g + 120 |- wp (exec (Store _ _ ?r :: _)) _ _ (Asm _ ?regs _ ?g _ ?h _ _) =>
      let b := eval cbv in (gprs.get r regs) in
      first [ constr_eq b g; eapply (exec_store g h H true)
            | constr_eq b h; eapply (exec_store g h H false) ];
      [reflexivity|done|reflexivity|cbv; reflexivity|cbv; reflexivity|]
  | H : ?h = ?g + 120 |- wp (exec (Load _ ?r _ :: _)) _ _ (Asm _ ?regs _ ?g _ ?h _ _) =>
      let b := eval cbv in (gprs.get r regs) in
      first [ constr_eq b g; eapply (exec_load g h H true)
            | constr_eq b h; eapply (exec_load g h H false) ];
      [reflexivity|done|reflexivity|cbv; reflexivity|cbv; reflexivity|]
  end.
Ltac asm_step :=
  lazymatch goal with
  | |- wp (exec (Store _ _ _ :: _)) _ _ _ => asm_ctx
  | |- wp (exec (Load _ _ _ :: _)) _ _ _ => asm_ctx
  | |- wp (exec (Mov _ _ :: _)) _ _ _ => eapply exec_mov; [cbv; reflexivity|]
  | |- wp (exec (Push _ :: _)) _ _ _ => eapply exec_push; [cbv; reflexivity|]
  | |- wp (exec (Pop _ :: _)) _ _ _ => eapply exec_pop; [cbv; reflexivity|]
  end.

Section routine.
Context `{K : KernelOps} `{P : !Processor K}.
Implicit Types (s : kstate) (E : stop -> Prop).

(** The routine is its three SVM instructions between two register switches. *)
Lemma wp_exec_code gb hb g gc hc pa (Q : unit -> asm -> Prop) E s :
  hb = gb + 120 -> gprs.rdi g = gb -> gprs.rsi g = hb -> gprs.rdx g = pa ->
  wp (vmload pa ;; g' ← vmrun pa (guest_regs gc pa); vmsave (gprs.rax g') ;; mret g')
    (fun g' s' => Q tt (Asm K (returned g gb hb g') [] gb (context_words (guest_saved g' gc))
       hb (context_words (host_saved g hc)) s')) E s ->
  wp (exec _yakvm_vcpu_run_code) Q E (Asm K g [] gb (context_words gc) hb (context_words hc) s).
Proof.
  intros Hhb Hdi Hsi Hdx H.
  destruct g as [rax rbx rcx rdx rdi rsi rbp r8 r9 r10 r11 r12 r13 r14 r15].
  cbn in Hdi, Hsi, Hdx. subst rdi rsi rdx.
  destruct gc as [gv g0 g1 g2 g3 g4 g5 g6 g7 g8 g9 ga gbb gcc gd].
  destruct hc as [hv h0 h1 h2 h3 h4 h5 h6 h7 h8 h9 ha hbb hcc hd].
  unfold context_words, _yakvm_vcpu_run_code.
  cbn [context.vmcb context.rbx context.rcx context.rdx context.rdi context.rsi context.rbp
    context.r8 context.r9 context.r10 context.r11 context.r12 context.r13 context.r14 context.r15].
  repeat asm_step.
  eapply exec_vmload; [reflexivity|]. apply wp_bind_inv in H.
  eapply wp_mono; [exact H|]. intros [] s1 H1. apply wp_bind_inv in H1.
  eapply exec_vmrun; [reflexivity|].
  eapply wp_mono; [exact H1|]. intros g' s2 H2. apply wp_bind_inv in H2.
  eapply exec_vmsave; [reflexivity|].
  eapply wp_mono; [exact H2|]. intros [] s3 H3.
  destruct g'. repeat asm_step. exact H3.
Qed.

Lemma words_context_words c : words_context (context_words c) = Some c.
Proof. by destruct c. Qed.

(** The routine, called from C. *)
Lemma wp__yakvm_vcpu_run vcpu pa lock_size v g (Q : gprs.t -> kstate -> Prop) E s :
  ks_heap s !! vcpu = Some (OVcpu v) ->
  let gbase := vcpu + lock_size in
  wp (vmload pa ;; g' ← vmrun pa (guest_regs (vcpu.gctx v) pa); vmsave (gprs.rax g') ;; mret g')
    (fun g' s' => Q (returned g gbase (gbase + 120) g')
       (with_heap (<[vcpu := OVcpu (v <| vcpu.gctx := guest_saved g' (vcpu.gctx v) |>
                                      <| vcpu.hctx := host_saved g (vcpu.hctx v) |>)]>
                    (ks_heap s')) s')) E s ->
  wp (_yakvm_vcpu_run vcpu pa lock_size g) Q E s.
Proof.
  intros Hv gbase H. unfold _yakvm_vcpu_run, wp at 1. rewrite Hv. fold gbase.
  pose (g0 := g <| gprs.rdi := gbase |> <| gprs.rsi := gbase + 120 |> <| gprs.rdx := pa |>).
  change (g <| gprs.rdi := gbase |> <| gprs.rsi := gbase + 120 |> <| gprs.rdx := pa |>) with g0.
  pose (Q' := fun (_ : unit) (a : asm) => exists g' s',
    a = Asm K (returned g gbase (gbase + 120) g') [] gbase
          (context_words (guest_saved g' (vcpu.gctx v))) (gbase + 120)
          (context_words (host_saved g (vcpu.hctx v))) s' /\
    Q (returned g gbase (gbase + 120) g')
       (with_heap (<[vcpu := OVcpu (v <| vcpu.gctx := guest_saved g' (vcpu.gctx v) |>
                                      <| vcpu.hctx := host_saved g (vcpu.hctx v) |>)]>
                    (ks_heap s')) s')).
  assert (wp (exec _yakvm_vcpu_run_code) Q' E
    (Asm K g0 [] gbase (context_words (vcpu.gctx v)) (gbase + 120)
       (context_words (vcpu.hctx v)) s)) as Hx.
  { apply wp_exec_code with (pa := pa); [done..|].
    eapply wp_mono; [exact H|]. intros g' s' HQ. exists g', s'. split; [|done]. by destruct g. }
  unfold wp in Hx. destruct (exec _ _) as [[] a'|w]; [|done].
  destruct Hx as (g' & s' & -> & HQ). cbn [a_gctx a_hctx a_regs a_ks].
  by rewrite !words_context_words.
Qed.

End routine.

(** ** The processor's steps

    [machine m h c u s] is [s] with the pages [m], the objects [h], the current
    processor in state [c] and the world [u]. *)
Definition machine `{K : KernelOps} (m : gmap Z page) (h : gmap Z obj) (c : pcpu.t) (u : umem)
    (s : kstate) : kstate :=
  s <| ks_pages := m |> <| ks_heap := h |> <| ks_user := u |>
    <| ks_cpus := <[ks_cpu s := c]> (ks_cpus s) |>.

Section processor.
Context `{K : KernelOps} `{P : !Processor K}.
Implicit Types (s : kstate) (E : stop -> Prop) (m : gmap Z page).

Lemma machine_id s c :
  ks_cpus s !! ks_cpu s = Some c -> s = machine (ks_pages s) (ks_heap s) c (ks_user s) s.
Proof. intros Hc. unfold machine. destruct s; cbn in *. by rewrite list_insert_id. Qed.

Lemma machine_cpu m h c u s c0 :
  ks_cpus s !! ks_cpu s = Some c0 ->
  ks_cpus (machine m h c u s) !! ks_cpu (machine m h c u s) = Some c.
Proof. intros Hc. apply list_lookup_insert_eq. by eapply lookup_lt_Some. Qed.

Context {s : kstate} {c0 : pcpu.t} (Hc0 : ks_cpus s !! ks_cpu s = Some c0).

Lemma alter_current f c : alter f (ks_cpu s) (<[ks_cpu s := c]> (ks_cpus s)) =
  <[ks_cpu s := f c]> (ks_cpus s).
Proof using Hc0.
  apply list_eq. intros i. destruct (decide (i = ks_cpu s)) as [->|Hne].
  - rewrite list_lookup_alter_eq, !list_lookup_insert_eq by (by eapply lookup_lt_Some). done.
  - by rewrite list_lookup_alter_ne, !list_lookup_insert_ne by done.
Qed.

Lemma machine_alter f m m' h c u u' :
  let s1 := machine m h c u s in
  s1 <| ks_user := u' |> <| ks_pages := m' |> <| ks_cpus := alter f (ks_cpu s1) (ks_cpus s1) |> =
  machine m' h (f c) u' s.
Proof using Hc0. unfold machine. cbn. by rewrite alter_current. Qed.

Lemma wp_update_cpu f m h c u (Q : unit -> kstate -> Prop) E :
  Q tt (machine m h (f c) u s) -> wp (update_cpu f) Q E (machine m h c u s).
Proof using Hc0.
  intros HQ. apply wp_modify.
  replace (_ <| ks_cpus := _ |>) with (machine m h (f c) u s); [done|].
  symmetry. apply (machine_alter f m m h c u u).
Qed.

Lemma wp_this_cpu m h c u (Q : pcpu.t -> kstate -> Prop) E :
  Q c (machine m h c u s) -> wp this_cpu Q E (machine m h c u s).
Proof using Hc0. intros HQ. unfold wp, this_cpu. by rewrite (machine_cpu _ _ _ _ _ _ Hc0). Qed.

Lemma wp_svm_enabled m h c u (Q : unit -> kstate -> Prop) E :
  has_flag (pcpu.efer c) EFER_SVME = true -> Q tt (machine m h c u s) ->
  wp svm_enabled Q E (machine m h c u s).
Proof using Hc0. intros He HQ. apply wp_bind, wp_this_cpu. by apply wp_kassert. Qed.

Lemma wp_vmcb_at pa p b m h c u (Q : vmcb.t -> kstate -> Prop) E :
  m !! pa = Some p -> as_vmcb p = Some b -> Q b (machine m h c u s) ->
  wp (vmcb_at pa) Q E (machine m h c u s).
Proof.
  intros Hp Hb HQ. apply wp_bind, wp_gets, wp_bind. change (ks_pages (machine m h c u s)) with m. rewrite Hp.
  eapply wp_need; [done|]. by eapply wp_need.
Qed.

Lemma wp_vmload pa p b m h c u (Q : unit -> kstate -> Prop) E :
  has_flag (pcpu.efer c) EFER_SVME = true -> m !! pa = Some p -> as_vmcb p = Some b ->
  Q tt (machine m h (c <| pcpu.extra := hidden_of (vmcb.save b) |>) u s) ->
  wp (vmload pa) Q E (machine m h c u s).
Proof using Hc0.
  intros He Hp Hb HQ. apply wp_bind, wp_svm_enabled; [done|].
  apply wp_bind. eapply wp_vmcb_at; [done..|]. by apply wp_update_cpu.
Qed.

Lemma wp_vmsave pa p b m h c u (Q : unit -> kstate -> Prop) E :
  has_flag (pcpu.efer c) EFER_SVME = true -> m !! pa = Some p -> as_vmcb p = Some b ->
  Q tt (machine (<[pa := PVmcb (b <| vmcb.save := save_hidden (pcpu.extra c) (vmcb.save b) |>)]> m)
          h c u s) ->
  wp (vmsave pa) Q E (machine m h c u s).
Proof using Hc0.
  intros He Hp Hb HQ. apply wp_bind, wp_svm_enabled; [done|].
  apply wp_bind, wp_this_cpu. apply wp_bind. eapply wp_vmcb_at; [done..|]. by apply wp_modify.
Qed.

Lemma wp_gif (b : bool) m h c u (Q : unit -> kstate -> Prop) E :
  has_flag (pcpu.efer c) EFER_SVME = true ->
  Q tt (machine m h (c <| pcpu.gif := b |>) u s) ->
  wp (if b then stgi else clgi) Q E (machine m h c u s).
Proof using Hc0.
  intros He HQ. destruct b; (apply wp_bind, wp_svm_enabled; [done|]); by apply wp_update_cpu.
Qed.

Lemma wp_vmrun pa p b g m h c u (Q : gprs.t -> kstate -> Prop) E :
  has_flag (pcpu.efer c) EFER_SVME = true -> pcpu.gif c = false -> 0 < pcpu.preempt c ->
  is_Some (m !! pcpu.hsave_pa c) -> m !! pa = Some p -> as_vmcb p = Some b ->
  E Escaped ->
  (forall u' m' g' hd, guest_run u m (pcpu.hsave_pa c) pa g (pcpu.extra c) = (u', m', g', hd) ->
     confined u m (pcpu.hsave_pa c) pa g (pcpu.extra c) (vmcb.control b) = true ->
     Q (g' <| gprs.rax := gprs.rax g |>)
       (machine m' h (c <| pcpu.extra := hd |> <| pcpu.gif := false |>) u' s)) ->
  wp (vmrun pa g) Q E (machine m h c u s).
Proof using Hc0.
  intros He Hg Hpr [x Hx] Hp Hb Hesc HQ. apply wp_bind, wp_svm_enabled; [done|].
  apply wp_bind, wp_this_cpu, wp_bind, wp_gets, wp_bind.
  rewrite Hg, (proj2 (Z.ltb_lt _ _)) by done. apply wp_need with tt; [done|].
  apply wp_bind, wp_need with x; [done|]. apply wp_bind. eapply wp_vmcb_at; [done..|].
  unfold wp, guest_mode. change (ks_user (machine m h c u s)) with u. change (ks_pages (machine m h c u s)) with m.
  destruct (guest_run _ _ _ _ _ _) as [[[u' m'] g'] hd] eqn:Hrun.
  destruct (confined _ _ _ _ _ _ _) eqn:Hconf; simpl negb; cbv iota; [|exact Hesc].
  rewrite (machine_alter (fun c => c <| pcpu.extra := hd |> <| pcpu.gif := false |>)).
  by apply HQ.
Qed.

End processor.
