(* ===== verification/Vcpu.v ===== *)
(** * Virtual processors: driver/cpu.c

    A vcpu is a kmalloc'ed object with four pages (the guest's and the host's
    control block, the host save area, the page shared with userspace) and an
    I/O permission map of several. [yakvm_create_vcpu] makes one or gives back
    everything it took, [yakvm_vcpu_run] does one world switch. *)

From S2P Require Import Prelude Structs Kernel Npt Vmcb VcpuRun.

(** The compiler and the calls in the kernel: the size of [struct mutex] and the
    caller's registers at the call of the assembly routine. *)
Class Abi (K : KernelOps) : Type := {
  sizeof_mutex : Z;
  caller_regs : umem -> gprs.t
}.

Section vcpu.
Context `{K : KernelOps} `{P : !Processor K} `{A : !Abi K} `{C : Config}.

(** ** Definitions *)

(** [mutex_lock_killable], of which [killed] tells whether a fatal signal comes
    first; a lock that is held is waited for, here by its holder. *)
Definition mutex_lock_killable (vcpu : Z) (killed : bool) : KM Z :=
  v ← get_vcpu vcpu;
  if killed : bool then mret (- EINTR)
  else if vcpu.lock v then halt Deadlocked
  else update_vcpu vcpu (fun v => v <| vcpu.lock := true |>) ;; mret 0.

Definition mutex_unlock (vcpu : Z) : KM unit :=
  update_vcpu vcpu (fun v => v <| vcpu.lock := false |>).

Definition preempt_disable : KM unit :=
  update_cpu (fun c => c <| pcpu.preempt := pcpu.preempt c + 1 |>).
Definition preempt_enable : KM unit :=
  update_cpu (fun c => c <| pcpu.preempt := pcpu.preempt c - 1 |>).
Definition wrmsrl_VM_HSAVE_PA (pa : Z) : KM unit :=
  update_cpu (fun c => c <| pcpu.hsave_pa := pa |>).

(** share error information from vcpu to userspace *)
Definition yakvm_vcpu_share_err_to_user (vcpu : Z) : KM unit :=
  v ← get_vcpu vcpu;
  let state := vcpu.state v in
  b ← load_vmcb (context.vmcb (vcpu.gctx v));
  let control := vmcb.control b in
  let save := vmcb.save b in
  update_state state (fun st => st <| state.exit_code := control.exit_code control |>) ;;
  update_state state (fun st => st <| state.exit_info_1 := control.exit_info_1 control |>) ;;
  update_state state (fun st => st <| state.exit_info_2 := control.exit_info_2 control |>) ;;
  update_state state (fun st => st <| state.cs := vmcb_seg.base (save.cs save) |>) ;;
  update_state state (fun st => st <| state.rip := save.rip save |>).

(** run virtual machine with vmrun *)
Definition yakvm_vcpu_run (vcpu : Z) : KM Z :=
  preempt_disable ;;
  v ← get_vcpu vcpu;
  wrmsrl_VM_HSAVE_PA (virt_to_phys (vcpu.hsave v)) ;;
  clgi ;;
  vmsave (virt_to_phys (context.vmcb (vcpu.hctx v))) ;;
  u ← gets ks_user;
  _yakvm_vcpu_run vcpu (virt_to_phys (context.vmcb (vcpu.gctx v))) sizeof_mutex (caller_regs u) ;;
  v ← get_vcpu vcpu;
  vmload (virt_to_phys (context.vmcb (vcpu.hctx v))) ;;
  stgi ;;
  preempt_enable ;;
  yakvm_vcpu_share_err_to_user vcpu ;;
  mret 0.

(** Lines 125-143: the registers of a vcpu; the members are as wide as their
    sources, but for [cs] and [ss]. *)
Definition regs_of (c : context.t) (b : vmcb.t) : registers.t :=
  let s := vmcb.save b in
  registers.mk (save.rax s) (context.rbx c) (context.rcx c) (context.rdx c) (context.rdi c)
    (context.rsi c) (context.rbp c) (save.rsp s) (context.r8 c) (context.r9 c)
    (context.r10 c) (context.r11 c) (context.r12 c) (context.r13 c) (context.r14 c)
    (context.r15 c) (save.rip s) (wrap 16 (vmcb_seg.base (save.cs s)))
    (wrap 16 (vmcb_seg.base (save.ss s))).

(** copy vcpu registers state to userspace *)
Definition yakvm_vcpu_get_regs (vcpu dest : Z) : KM Z :=
  v ← get_vcpu vcpu;
  b ← load_vmcb (context.vmcb (vcpu.gctx v));
  u ← gets ks_user;
  let '(r, u) := copy_to_user u dest (regs_of (vcpu.gctx v) b) in
  modify (fun s => s <| ks_user := u |>) ;;
  mret (if r =? 0 then 0 else - EFAULT).

(** Lines 167-185, the members of the control block. *)
Definition set_save (r : registers.t) (s : save.t) : save.t :=
  s <| save.rax := registers.rax r |>
    <| save.rsp := registers.rsp r |>
    <| save.rip := registers.rip r |>
    <| save.cs := (save.cs s) <| vmcb_seg.base := registers.cs r |> |>
    <| save.ss := (save.ss s) <| vmcb_seg.base := registers.ss r |> |>.

(** Lines 167-185, the members of the context. *)
Definition set_context (r : registers.t) (c : context.t) : context.t :=
  c <| context.rbx := registers.rbx r |>
    <| context.rcx := registers.rcx r |>
    <| context.rdx := registers.rdx r |>
    <| context.rdi := registers.rdi r |>
    <| context.rsi := registers.rsi r |>
    <| context.rbp := registers.rbp r |>
    <| context.r8 := registers.r8 r |>
    <| context.r9 := registers.r9 r |>
    <| context.r10 := registers.r10 r |>
    <| context.r11 := registers.r11 r |>
    <| context.r12 := registers.r12 r |>
    <| context.r13 := registers.r13 r |>
    <| context.r14 := registers.r14 r |>
    <| context.r15 := registers.r15 r |>.

(** copy vcpu registers state from userspace *)
Definition yakvm_vcpu_set_regs (vcpu src : Z) : KM Z :=
  u ← gets ks_user;
  let '(r, regs) := copy_from_user u src in
  if negb (r =? 0) then mret (- EFAULT)
  else
    v ← get_vcpu vcpu;
    update_save (context.vmcb (vcpu.gctx v)) (set_save regs) ;;
    update_vcpu vcpu (fun v => v <| vcpu.gctx := set_context regs (vcpu.gctx v) |>) ;;
    mret 0.

Definition yakvm_vcpu_ioctl (vcpu ioctl arg : Z) (killed : bool) : KM Z :=
  l ← mutex_lock_killable vcpu killed;
  if negb (l =? 0) then mret (- EINTR)
  else
    r ← (if ioctl =? YAKVM_RUN then yakvm_vcpu_run vcpu
         else if ioctl =? YAKVM_GET_REGS then yakvm_vcpu_get_regs vcpu arg
         else if ioctl =? YAKVM_SET_REGS then yakvm_vcpu_set_regs vcpu arg
         else mret (- EINVAL));
    mutex_unlock vcpu ;;
    mret r.

(** share the vcpu state with kernel and userspace *)
Definition yakvm_vcpu_state_mmap (vcpu vm_pgoff vm_start vm_end : Z) : KM Z :=
  v ← get_vcpu vcpu;
  if negb (vm_pgoff =? 0) then mret (- EINVAL)
  else if negb (wrap 64 (vm_end - vm_start) =? PAGE_SIZE) then mret (- EINVAL)
  else
    u ← gets ks_user;
    let '(r, u) := remap_pfn_range u vm_start
                     (Z.shiftr (virt_to_phys (vcpu.state v)) PAGE_SHIFT) PAGE_SIZE in
    modify (fun s => s <| ks_user := u |>) ;;
    mret (if r <? 0 then r else 0).

Definition iopm_order : Z := get_order (KiB 12).

(** create the vcpu *)
Definition yakvm_create_vcpu (vm : Z) : KM err_ptr :=
  vcpu ← kmalloc (OVcpu vcpu.zero);
  match vcpu with None => mret (inl (- ENOMEM)) | Some vcpu =>
  let free_vcpu := kfree vcpu ;; mret (inl (- ENOMEM)) in
  gvmcb ← alloc_page;
  match gvmcb with None => free_vcpu | Some gvmcb =>
  let free_gvmcb := __free_page gvmcb ;; free_vcpu in
  hvmcb ← alloc_page;
  match hvmcb with None => free_gvmcb | Some hvmcb =>
  let free_hvmcb := __free_page hvmcb ;; free_gvmcb in
  hsave ← alloc_page;
  match hsave with None => free_hvmcb | Some hsave =>
  let free_hsave := __free_page hsave ;; free_hvmcb in
  state ← alloc_page;
  match state with None => free_hsave | Some state =>
  let free_state := __free_page state ;; free_hsave in
  iopm ← alloc_pages iopm_order;
  match iopm with None => free_state | Some iopm =>
  update_vcpu vcpu (fun v => v <| vcpu.lock := false |>) ;;
  update_vcpu vcpu (fun v =>
    v <| vcpu.gctx := (vcpu.gctx v) <| context.vmcb := page_address gvmcb |> |>) ;;
  update_vcpu vcpu (fun v =>
    v <| vcpu.hctx := (vcpu.hctx v) <| context.vmcb := page_address hvmcb |> |>) ;;
  update_vcpu vcpu (fun v => v <| vcpu.hsave := page_address hsave |>) ;;
  update_vcpu vcpu (fun v => v <| vcpu.iopm := page_address iopm |>) ;;
  update_vcpu vcpu (fun v => v <| vcpu.state := page_address state |>) ;;
  update_vcpu vcpu (fun v => v <| vcpu.vm := vm |>) ;;
  yakvm_vcpu_init_vmcb vcpu ;;
  mret (inr vcpu)
  end end end end end end.

(** destroy the vcpu *)
Definition yakvm_destroy_vcpu (vcpu : Z) : KM unit :=
  v ← get_vcpu vcpu;
  free_page (vcpu.state v) ;;
  free_pages (vcpu.iopm v) iopm_order ;;
  free_page (vcpu.hsave v) ;;
  free_page (context.vmcb (vcpu.hctx v)) ;;
  free_page (context.vmcb (vcpu.gctx v)) ;;
  kfree vcpu.

(** ** Specification *)

(** The physical addresses of a vcpu's pages; [io] is a page frame number. *)
Record places : Type := Places { at_g : Z; at_h : Z; at_hsave : Z; at_state : Z; at_io : Z }.

Definition io_frames (pl : places) : gset Z := frames (at_io pl) (2 ^ iopm_order).

Definition place_pages (pl : places) : gset Z :=
  {[at_g pl; at_h pl; at_hsave pl; at_state pl]} ∪ io_frames pl.

Lemma elem_of_place_pages pl x :
  x ∈ place_pages pl <->
  x = at_g pl \/ x = at_h pl \/ x = at_hsave pl \/ x = at_state pl \/ x ∈ io_frames pl.
Proof. unfold place_pages. rewrite !elem_of_union, !elem_of_singleton. tauto. Qed.

(** The members of [v] point to the places, which are distinct pages. *)
Record placed (v : vcpu.t) (pl : places) : Prop := {
  placed_g : context.vmcb (vcpu.gctx v) = phys_to_virt (at_g pl);
  placed_h : context.vmcb (vcpu.hctx v) = phys_to_virt (at_h pl);
  placed_hsave : vcpu.hsave v = phys_to_virt (at_hsave pl);
  placed_state : vcpu.state v = phys_to_virt (at_state pl);
  placed_io : vcpu.iopm v = phys_to_virt (at_io pl * PAGE_SIZE);
  placed_valid : Forall valid_pa [at_g pl; at_h pl; at_hsave pl; at_state pl];
  placed_io_valid : 0 < at_io pl /\ at_io pl + 2 ^ iopm_order <= 2 ^ 40;
  placed_distinct : NoDup [at_g pl; at_h pl; at_hsave pl; at_state pl];
  placed_apart : Forall (fun x => x ∉ io_frames pl) [at_g pl; at_h pl; at_hsave pl; at_state pl]
}.

(** The pages of a vcpu hold what their users expect: the guest's control block
    for the table [ncr3] and the I/O map, one the host can be saved in, the
    shared page; all of them are there. *)
Record vcpu_pages (m : gmap Z page) (pl : places) (ncr3 : Z) : Prop := {
  pages_g : exists b, (m !! at_g pl) ≫= as_vmcb = Some b /\
    control.nested_cr3 (vmcb.control b) = ncr3 /\
    control.iopm_base_pa (vmcb.control b) = at_io pl * PAGE_SIZE;
  pages_h : is_Some ((m !! at_h pl) ≫= as_vmcb);
  pages_hsave : is_Some (m !! at_hsave pl);
  pages_state : is_Some ((m !! at_state pl) ≫= as_state);
  pages_io : io_frames pl ⊆ dom m
}.

End vcpu.

(** ** Creating a vcpu *)
Section create.
Context `{L : KernelLaws} `{P : !Processor K} `{A : !Abi K} `{C : Config} `{CO : !ConfigOk C}.
Implicit Types (s : kstate).

Lemma iopm_order_range : 0 <= iopm_order /\ 3 <= 2 ^ iopm_order.
Proof.
  unfold iopm_order. destruct (get_order_range (KiB 12)) as [H1 H2]; [unfold KiB; lia|].
  split; [lia|]. unfold KiB, PAGE_SIZE in *. lia.
Qed.

(** The vcpu object [yakvm_create_vcpu] makes. *)
Definition fresh_vcpu (vm : Z) (pl : places) : vcpu.t :=
  vcpu.mk false (context.zero <| context.vmcb := phys_to_virt (at_g pl) |>)
    (context.zero <| context.vmcb := phys_to_virt (at_h pl) |>)
    (phys_to_virt (at_hsave pl)) (phys_to_virt (at_io pl * PAGE_SIZE))
    (phys_to_virt (at_state pl)) vm.

(** [-ENOMEM] and nothing changed but the allocators' state; or a new object and
    new pages beside the old ones, the control block ready for a guest. *)
Definition create_vcpu_post (vm ncr3 : Z) (s : kstate) (res : err_ptr) (s' : kstate) : Prop :=
  match res with
  | inl e => e = - ENOMEM /\ mm_ok s' /\ exists k, s' = with_mem k (ks_pages s) s
  | inr a => mm_ok s' /\ ks_heap s !! a = None /\ 0 < a < 2 ^ 64 - 4096 /\
      ks_asid s + 1 < cpuid_ebx 0x8000000a /\
      exists k m' pl,
        s' = with_heap (<[a := OVcpu (fresh_vcpu vm pl)]> (ks_heap s))
               (with_mem k m' (s <| ks_asid := ks_asid s + 1 |>)) /\
        placed (fresh_vcpu vm pl) pl /\
        place_pages pl ## dom (ks_pages s) /\ ks_pages s ⊆ m' /\
        dom m' = dom (ks_pages s) ∪ place_pages pl /\
        m' !! at_g pl = Some (PVmcb (fresh_vmcb (at_io pl * PAGE_SIZE) ncr3 (ks_asid s + 1))) /\
        m' !! at_h pl = Some zero_page /\ m' !! at_hsave pl = Some zero_page /\
        m' !! at_state pl = Some zero_page /\
        forall x, x ∈ io_frames pl -> m' !! x = Some
          (if decide (x = bit_frame (at_io pl * PAGE_SIZE) YAKVM_PIO_HAWK)
           then PWords (iopm_word (at_io pl * PAGE_SIZE)) else zero_page)
  end.

(** The last step, all pages at hand: the members are set and the control block
    initialised. *)
Definition init_vcpu (vcpu vm gvmcb hvmcb hsave state iopm : Z) : KM err_ptr :=
  update_vcpu vcpu (fun v => v <| vcpu.lock := false |>) ;;
  update_vcpu vcpu (fun v =>
    v <| vcpu.gctx := (vcpu.gctx v) <| context.vmcb := page_address gvmcb |> |>) ;;
  update_vcpu vcpu (fun v =>
    v <| vcpu.hctx := (vcpu.hctx v) <| context.vmcb := page_address hvmcb |> |>) ;;
  update_vcpu vcpu (fun v => v <| vcpu.hsave := page_address hsave |>) ;;
  update_vcpu vcpu (fun v => v <| vcpu.iopm := page_address iopm |>) ;;
  update_vcpu vcpu (fun v => v <| vcpu.state := page_address state |>) ;;
  update_vcpu vcpu (fun v => v <| vcpu.vm := vm |>) ;;
  yakvm_vcpu_init_vmcb vcpu ;;
  mret (inr vcpu).

Lemma placed_fresh vm pl :
  Forall valid_pa [at_g pl; at_h pl; at_hsave pl; at_state pl] ->
  0 < at_io pl /\ at_io pl + 2 ^ iopm_order <= 2 ^ 40 ->
  NoDup [at_g pl; at_h pl; at_hsave pl; at_state pl] ->
  Forall (fun x => x ∉ io_frames pl) [at_g pl; at_h pl; at_hsave pl; at_state pl] ->
  placed (fresh_vcpu vm pl) pl.
Proof. by split. Qed.

Lemma io_valid n c x : 0 < n -> n + c <= 2 ^ 40 -> x ∈ frames n c -> valid_pa x.
Proof.
  intros Hn Hc (i & Hi & ->)%elem_of_frames. unfold valid_pa, PAGE_SIZE.
  split; [nia|apply Z_mod_mult].
Qed.

(** [m] is [m0] with fresh pages of zeroes at [X]. *)
Definition zeroed (X : gset Z) (m0 m : gmap Z page) : Prop :=
  (forall x, x ∈ X -> m !! x = Some zero_page /\ m0 !! x = None) /\
  (forall x, x ∉ X -> m !! x = m0 !! x).

Lemma zeroed_insert X m0 m x :
  zeroed X m0 m -> m !! x = None -> zeroed (X ∪ {[x]}) m0 (<[x := zero_page]> m).
Proof.
  intros [Hin Hout] Hx. assert (x ∉ X) as Hnx.
  { intros H%Hin. destruct H. congruence. }
  split.
  - intros y [Hy| ->%elem_of_singleton]%elem_of_union.
    + rewrite lookup_insert_ne by set_solver. by apply Hin.
    + rewrite lookup_insert_eq. split; [done|]. by rewrite <- Hout.
  - intros y Hy. rewrite lookup_insert_ne by set_solver. apply Hout. set_solver.
Qed.

Lemma zeroed_frames X F Y m0 m m' :
  zeroed X m0 m -> F ## dom m -> (forall x, x ∈ F -> m' !! x = Some zero_page) ->
  (forall x, x ∉ F -> m' !! x = m !! x) -> Y = X ∪ F -> zeroed Y m0 m'.
Proof.
  intros [Hin Hout] Hd HF HnF ->. split.
  - intros x Hx. destruct (decide (x ∈ F)) as [H|H].
    + split; [by apply HF|]. destruct (decide (x ∈ X)) as [H'|H']; [by apply Hin|].
      rewrite <- Hout by done. apply not_elem_of_dom. set_solver.
    + rewrite HnF by done. apply Hin. set_solver.
  - intros x Hx. rewrite HnF by set_solver. apply Hout. set_solver.
Qed.

Lemma zeroed_fresh X m0 m x : zeroed X m0 m -> m !! x = None -> x ∉ X.
Proof. intros [Hin _] Hx H%Hin. destruct H. congruence. Qed.

Lemma zeroed_facts X m0 m :
  zeroed X m0 m -> X ## dom m0 /\ m0 ⊆ m /\ dom m = dom m0 ∪ X.
Proof.
  intros [Hin Hout]. split_and!.
  - intros x Hx [y Hy]%elem_of_dom. apply Hin in Hx as [_ Hx]. congruence.
  - apply map_subseteq_spec. intros x y Hx. rewrite Hout; [done|].
    intros [_ H]%Hin. congruence.
  - apply set_eq. intros x. rewrite elem_of_union, !elem_of_dom.
    destruct (decide (x ∈ X)) as [H|H]; [|rewrite Hout by done; tauto].
    apply Hin in H as H'. destruct H' as [-> ->]. split; eauto.
Qed.

Lemma place_pages_bit_frame pl v :
  placed v pl ->
  bit_frame (at_io pl * PAGE_SIZE) YAKVM_PIO_HAWK ∈ io_frames pl.
Proof.
  intros Hpl. destruct iopm_order_range. apply bit_frame_in; [apply pio_hawk_port|lia].
Qed.

Lemma at_io_valid pl v : placed v pl -> valid_pa (at_io pl * PAGE_SIZE).
Proof.
  intros Hpl. destruct iopm_order_range, (placed_io_valid _ _ Hpl).
  apply (io_valid (at_io pl) (2 ^ iopm_order)); try done.
  apply elem_of_frames. exists 0. split; [lia|]. f_equal. lia.
Qed.

(** The pages of a new vcpu once its control block and its permission map are
    written into the zeroed ones. *)
Lemma zeroed_written v pl m0 m G I :
  placed v pl -> zeroed (place_pages pl) m0 m ->
  let bf := bit_frame (at_io pl * PAGE_SIZE) YAKVM_PIO_HAWK in
  let m' := <[at_g pl := G]> (<[bf := I]> m) in
  place_pages pl ## dom m0 /\ m0 ⊆ m' /\ dom m' = dom m0 ∪ place_pages pl /\
  m' !! at_g pl = Some G /\ m' !! at_h pl = Some zero_page /\
  m' !! at_hsave pl = Some zero_page /\ m' !! at_state pl = Some zero_page /\
  forall x, x ∈ io_frames pl -> m' !! x = Some (if decide (x = bf) then I else zero_page).
Proof.
  intros Hpl Hz bf m'. pose proof (place_pages_bit_frame _ _ Hpl) as Hbf. fold bf in Hbf.
  destruct (zeroed_facts _ _ _ Hz) as (Hd & Hsub & Hdom). destruct Hz as [Hin Hout].
  pose proof (placed_apart _ _ Hpl) as Ap. rewrite !Forall_cons in Ap.
  pose proof (placed_distinct _ _ Hpl) as Nd. rewrite !NoDup_cons, !not_elem_of_cons in Nd.
  assert (forall x, x ∈ place_pages pl -> at_g pl <> x -> bf <> x -> m' !! x = Some zero_page) as Hm'.
  { intros x Hx N1 N2. unfold m'. rewrite !lookup_insert_ne by done. by apply Hin. }
  assert (at_g pl ∈ place_pages pl) as Pg by (rewrite elem_of_place_pages; tauto).
  assert (bf ∈ place_pages pl) as Pb by (rewrite elem_of_place_pages; tauto).
  split; [done|]. split.
  { apply map_subseteq_spec. intros x y Hx. unfold m'.
    assert (x ∉ place_pages pl) as Hnx by (intros [_ H]%Hin; congruence).
    rewrite !lookup_insert_ne by (intros <-; done). by rewrite Hout. }
  split; [unfold m'; rewrite !dom_insert_L; set_solver|].
  split; [apply lookup_insert_eq|].
  do 3 (split; [apply Hm'; [rewrite elem_of_place_pages; tauto|tauto|intuition congruence]|]).
  intros x Hx. destruct (decide (x = bf)) as [->|Hne].
  - unfold m'. rewrite lookup_insert_ne by intuition congruence. apply lookup_insert_eq.
  - apply Hm'; [rewrite elem_of_place_pages; tauto|intuition congruence|done].
Qed.

Lemma wp_init_vcpu a vm gvmcb hvmcb hsave state iopm pl vm_v vmm_v k m s
    (E : stop -> Prop) :
  (cpuid_ebx 0x8000000a <= ks_asid s + 1 -> E Panicked) ->
  mm_ok (with_heap (<[a := OVcpu vcpu.zero]> (ks_heap s)) (with_mem k m s)) ->
  ks_heap s !! a = None -> 0 < a < 2 ^ 64 - 4096 ->
  ks_heap s !! vm = Some (OVm vm_v) -> ks_heap s !! vm.vmm vm_v = Some (OVmm vmm_v) ->
  page_to_phys gvmcb = at_g pl -> page_to_phys hvmcb = at_h pl ->
  page_to_phys hsave = at_hsave pl -> page_to_phys state = at_state pl ->
  page_to_phys iopm = at_io pl * PAGE_SIZE ->
  placed (fresh_vcpu vm pl) pl -> zeroed (place_pages pl) (ks_pages s) m ->
  0 < ks_asid s < 2 ^ 31 - 1 ->
  wp (init_vcpu a vm gvmcb hvmcb hsave state iopm)
    (create_vcpu_post vm (vmm.ncr3 vmm_v) s) E
    (with_heap (<[a := OVcpu vcpu.zero]> (ks_heap s)) (with_mem k m s)).
Proof.
  intros HE Hok Hfr Ha Hvm Hvmm Hg Hh Hhs Hst Hio Hpl Hz Hasid.
  assert (a <> vm) as Hne1 by congruence. assert (a <> vm.vmm vm_v) as Hne2 by congruence.
  pose proof (place_pages_bit_frame _ _ Hpl) as Hbf. pose proof Hz as [Hin Hout].
  pose proof (placed_apart _ _ Hpl) as Hap. rewrite !Forall_cons in Hap.
  pose proof (placed_valid _ _ Hpl) as Hv. rewrite !Forall_cons in Hv. destruct Hv as (Hvg & _).
  pose proof (at_io_valid _ _ Hpl) as Hvio.
  unfold init_vcpu.
  do 7 (apply wp_bind; eapply wp_update_vcpu; [apply lookup_insert_eq|]; mem_simpl;
        rewrite insert_insert_eq).
  unfold page_address. rewrite Hg, Hh, Hhs, Hst, Hio.
  change (OVcpu _) with (OVcpu (fresh_vcpu vm pl)).
  apply wp_bind. eapply wp_mono; [eapply wp_stop_mono|].
  { eapply (wp_init_vmcb a (fresh_vcpu vm pl)); mem_simpl.
    - apply lookup_insert_eq.
    - simpl. by rewrite lookup_insert_ne.
    - by rewrite lookup_insert_ne.
    - by apply valid_pa_round_trip.
    - by apply valid_pa_round_trip.
    - apply Hin. rewrite elem_of_place_pages. tauto.
    - intuition congruence.
    - apply Hin. rewrite elem_of_place_pages. tauto.
    - done. }
  { intros w [-> Hw]. by apply HE. }
  intros [] s' [Hlt ->]. mem_simpl. apply wp_ret.
  change (ks_asid (with_heap _ _)) with (ks_asid s) in *.
  destruct (zeroed_written _ _ _ _ (PVmcb (fresh_vmcb (at_io pl * PAGE_SIZE) (vmm.ncr3 vmm_v)
    (ks_asid s + 1))) (PWords (iopm_word (at_io pl * PAGE_SIZE))) Hpl Hz)
    as (Hd & Hsub & Hdom & Hw).
  split.
  { eapply mm_ok_sub; [exact Hok|done| |simpl; by rewrite !dom_insert_L|done].
    mem_simpl. rewrite Hdom. destruct (zeroed_facts _ _ _ Hz) as (_ & _ & ->). done. }
  split; [done|]. split; [done|]. split; [done|].
  eexists k, _, pl. done.
Qed.

Lemma distinct4 (a b c d : Z) :
  b ∉ (∅ ∪ {[a]} : gset Z) -> c ∉ (∅ ∪ {[a]} ∪ {[b]} : gset Z) ->
  d ∉ (∅ ∪ {[a]} ∪ {[b]} ∪ {[c]} : gset Z) -> NoDup [a; b; c; d].
Proof.
  intros H1 H2 H3. rewrite !NoDup_cons, !not_elem_of_cons.
  rewrite !not_elem_of_union, !not_elem_of_singleton in *.
  split_and!; try apply not_elem_of_nil; try apply NoDup_nil; try done; intros ->; tauto.
Qed.

Lemma apart4 (F D X : gset Z) (a b c d : Z) :
  F ## D -> D = X ∪ (∅ ∪ {[a]} ∪ {[b]} ∪ {[c]} ∪ {[d]}) ->
  Forall (fun x => x ∉ F) [a; b; c; d].
Proof. intros Hd ->. rewrite !Forall_cons. set_solver. Qed.

(** One more page, with what undoes it. *)
Ltac next_page U Z p x m U' Z' :=
  apply (from_pages_alloc _ _ _ _ _ _ _ U);
  let Hp := fresh "H" p in let Vx := fresh "V" x in let Fx := fresh "F" x in
  intros p x Hp Vx Fx;
  pose proof (zeroed_insert _ _ _ _ Z Fx) as Z';
  pose proof (from_pages_free _ _ _ _ _ _ _ _ Hp Vx Fx U) as U';
  set (m := <[x := zero_page]> _) in Z', U' |- *; clearbody m.

(** [yakvm_create_vcpu]: everything or nothing; it panics only when the processor
    has no ASID left. *)
Lemma wp_create_vcpu vm vm_v vmm_v s :
  mm_ok s -> 0 < ks_asid s < 2 ^ 31 - 1 ->
  ks_heap s !! vm = Some (OVm vm_v) -> ks_heap s !! vm.vmm vm_v = Some (OVmm vmm_v) ->
  wp (yakvm_create_vcpu vm) (create_vcpu_post vm (vmm.ncr3 vmm_v) s)
    (fun w => w = Panicked /\ cpuid_ebx 0x8000000a <= ks_asid s + 1) s.
Proof.
  intros Hok Hasid Hvm Hvmm. unfold yakvm_create_vcpu.
  apply wp_bind, wp_kmalloc; [done|..].
  { intros k Hk. apply wp_ret. split; [done|]. split; [done|]. by exists k. }
  intros k a Ha Hr Hok1.
  set (E := fun w => w = Panicked /\ _). set (Q := create_vcpu_post _ _ _).
  set (h := <[a := OVcpu vcpu.zero]> (ks_heap s)) in *.
  assert (from_pages h (ks_pages s) s Q E (kfree a ;; mret (inl (- ENOMEM)))) as U0.
  { intros k1 Hk1. apply wp_bind, wp_kfree; [done|exists (OVcpu vcpu.zero); apply lookup_insert_eq|].
    intros k2 Hk2. mem_simpl. unfold h in *. rewrite delete_insert_id in * by done.
    apply wp_ret. split; [done|]. split; [by destruct s|]. exists k2. by destruct s. }
  assert (zeroed ∅ (ks_pages s) (ks_pages s)) as Z0 by (split; [set_solver|done]).
  revert k Hok1. fold (from_pages h (ks_pages s) s Q E).
  next_page U0 Z0 gv g m1 U1 Z1.
  next_page U1 Z1 hv hh m2 U2 Z2.
  next_page U2 Z2 hs hsv m3 U3 Z3.
  next_page U3 Z3 st stt m4 U4 Z4.
  destruct iopm_order_range as [Ho1 Ho2].
  intros k Hok4. apply wp_bind, wp_alloc_pages; [done|done|intros k' Hk'; by apply U4|].
  mem_simpl. intros k' iopm n m5 Hio Hn Hmax Hfr Hin Hout Hok5. mem_simpl.
  set (pl := Places g hh hsv stt n).
  assert (zeroed (place_pages pl) (ks_pages s) m5) as Z5.
  { eapply zeroed_frames; [exact Z4|exact Hfr|done|done|].
    unfold place_pages, io_frames. simpl. clear. set_solver. }
  assert (placed (fresh_vcpu vm pl) pl) as Hpl.
  { pose proof (zeroed_fresh _ _ _ _ Z1 Fhh). pose proof (zeroed_fresh _ _ _ _ Z2 Fhsv).
    pose proof (zeroed_fresh _ _ _ _ Z3 Fstt).
    destruct (zeroed_facts _ _ _ Z4) as (_ & _ & Hd4).
    apply placed_fresh; simpl; [by repeat (constructor; [done|])|done|..].
    - by apply distinct4.
    - by eapply apart4. }
  eapply wp_init_vcpu; try done; [exact Hgv|exact Hhv|exact Hhs|exact Hst|exact Hio].
Qed.

(** ** Destroying a vcpu *)

(** One more page of [s] freed. *)
Lemma wp_free_one (P' : Z -> Prop) pa addr s s1 :
  freed P' s s1 -> virt_to_phys addr = pa -> valid_pa pa -> pa ∈ dom (ks_pages s) -> ~ P' pa ->
  wp (free_page addr) (fun _ s' => freed (fun x => P' x \/ x = pa) s s') never s1.
Proof.
  intros Hf Ha Hv Hin HP. destruct Hf as (k & m' & -> & Hok & N & F).
  apply elem_of_dom in Hin.
  eapply wp_mono; [eapply wp_free_page_freed; [done|exact Ha|done|mem_simpl; by rewrite F]|].
  intros [] s' Hs'. eapply freed_trans; [|by exists k, m'|exact Hs']. by intros x Hx ->.
Qed.

Lemma wp_free_many (P' : Z -> Prop) n o addr s s1 :
  freed P' s s1 -> 0 <= o -> virt_to_phys addr = n * PAGE_SIZE ->
  frames n (2 ^ o) ⊆ dom (ks_pages s) -> (forall x, x ∈ frames n (2 ^ o) -> ~ P' x) ->
  wp (free_pages addr o) (fun _ s' => freed (fun x => P' x \/ x ∈ frames n (2 ^ o)) s s') never s1.
Proof.
  intros Hf Ho Ha Hin HP. destruct Hf as (k & m' & -> & Hok & N & F).
  eapply wp_free_pages; [done|done|exact Ha| |].
  { mem_simpl. intros x Hx. apply elem_of_dom. rewrite F by by apply HP.
    apply elem_of_dom. by apply Hin. }
  intros k2 m2 Hok2 N2 F2. mem_simpl. exists k2, m2. split; [done|]. split; [done|]. split.
  - intros x [Hx|Hx]; [|by apply N2]. rewrite F2; [by apply N|]. intros H. by apply (HP x).
  - intros x Hx. rewrite F2, F; tauto.
Qed.

(** [yakvm_destroy_vcpu] frees the pages of the vcpu, each once, and the object. *)
Lemma wp_destroy_vcpu a v pl s :
  mm_ok s -> ks_heap s !! a = Some (OVcpu v) -> placed v pl ->
  place_pages pl ⊆ dom (ks_pages s) ->
  wp (yakvm_destroy_vcpu a)
    (fun _ s' => mm_ok s' /\ exists k m',
       s' = with_heap (delete a (ks_heap s)) (with_mem k m' s) /\
       (forall x, x ∈ place_pages pl -> m' !! x = None) /\
       (forall x, x ∉ place_pages pl -> m' !! x = ks_pages s !! x)) never s.
Proof.
  intros Hok Hv Hpl Hin. unfold yakvm_destroy_vcpu. apply wp_bind.
  eapply wp_get_obj; [done..|].
  destruct Hpl as [Eg Eh Ehs Est Eio Val Vio Nd Ap]. destruct iopm_order_range as [Ho1 Ho2].
  rewrite !Forall_cons in Val, Ap. destruct Val as (V1 & V2 & V3 & V4 & _).
  destruct Ap as (A1 & A2 & A3 & A4 & _). rewrite !NoDup_cons, !not_elem_of_cons in Nd.
  destruct Nd as ((? & ? & ? & _) & (? & ? & _) & (? & _) & _).
  assert (forall x, x ∈ place_pages pl -> x ∈ dom (ks_pages s)) as Hd by (intros x; apply Hin).
  setoid_rewrite elem_of_place_pages in Hd.
  rewrite Eg, Eh, Ehs, Est, Eio.
  apply wp_bind. eapply wp_mono; [eapply (wp_free_one (fun _ => False) (at_state pl));
    [apply freed_nothing; [done|tauto]|by apply valid_pa_round_trip|done|apply Hd; tauto|tauto]|].
  intros [] s1 F1. apply wp_bind. eapply wp_mono; [eapply (wp_free_many _ (at_io pl));
    [exact F1|done|apply virt_phys; unfold PAGE_SIZE; lia|intros x Hx; apply Hd; tauto|]|].
  { simpl. intros x Hx [[]| ->]. by apply A4. }
  intros [] s2 F2. apply wp_bind. eapply wp_mono; [eapply (wp_free_one _ (at_hsave pl));
    [exact F2|by apply valid_pa_round_trip|done|apply Hd; tauto|]|].
  { simpl. unfold io_frames in *. naive_solver. }
  intros [] s3 F3. apply wp_bind. eapply wp_mono; [eapply (wp_free_one _ (at_h pl));
    [exact F3|by apply valid_pa_round_trip|done|apply Hd; tauto|]|].
  { simpl. unfold io_frames in *. naive_solver. }
  intros [] s4 F4. apply wp_bind. eapply wp_mono; [eapply (wp_free_one _ (at_g pl));
    [exact F4|by apply valid_pa_round_trip|done|apply Hd; tauto|]|].
  { simpl. unfold io_frames in *. naive_solver. }
  intros [] s5 (k & m' & -> & Hok5 & N & F).
  apply wp_kfree; [done|mem_simpl; eauto|]. intros k' Hok'. mem_simpl.
  split; [done|]. exists k', m'. split; [done|]. setoid_rewrite elem_of_place_pages. split.
  - intros x Hx. apply N. unfold io_frames in Hx. tauto.
  - intros x Hx. apply F. unfold io_frames in Hx. tauto.
Qed.

End create.
