(* ===== verification/VcpuSwitch.v ===== *)
(** * Running a vcpu: the facts

    What one YAKVM_RUN does to the processor, to the vcpu and to memory, and
    what the calls on its registers do. *)

From S2P Require Import Prelude Structs Kernel Npt Vmcb VcpuRun Vcpu.

Lemma is_Some_bind {A B} (o : option A) (f : A -> option B) : is_Some (o ≫= f) -> is_Some o.
Proof. destruct o; [eauto|by intros []]. Qed.

(** ** The registers of a vcpu *)
Section registers.
Context `{L : KernelLaws} `{P : !Processor K} `{A : !Abi K} `{C : Config}.
Implicit Types (s : kstate).

(** The vcpu at [c], with its places and its control block. *)
Definition at_vcpu s (c : Z) (v : vcpu.t) (pl : places) (b : vmcb.t) : Prop :=
  ks_heap s !! c = Some (OVcpu v) /\ placed v pl /\
  (ks_pages s !! at_g pl) ≫= as_vmcb = Some b.

Lemma at_vcpu_user s c v pl b u : at_vcpu s c v pl b -> at_vcpu (s <| ks_user := u |>) c v pl b.
Proof. done. Qed.

Lemma at_vcpu_page s c v pl b :
  at_vcpu s c v pl b -> virt_to_phys (context.vmcb (vcpu.gctx v)) = at_g pl /\
    exists p, ks_pages s !! at_g pl = Some p /\ as_vmcb p = Some b.
Proof.
  intros (_ & Hpl & Hb). split.
  - rewrite (placed_g _ _ Hpl). apply valid_pa_round_trip.
    pose proof (placed_valid _ _ Hpl) as Hv. by apply Forall_cons in Hv as [? _].
  - destruct (ks_pages s !! at_g pl) as [p|]; [|done]. by exists p.
Qed.

Lemma wp_get_regs c v pl b dest s (Q : Z -> kstate -> Prop) E :
  at_vcpu s c v pl b ->
  (forall r u, copy_to_user (ks_user s) dest (regs_of (vcpu.gctx v) b) = (r, u) ->
     Q (if r =? 0 then 0 else - EFAULT) (s <| ks_user := u |>)) ->
  wp (yakvm_vcpu_get_regs c dest) Q E s.
Proof.
  intros H HQ. destruct (at_vcpu_page _ _ _ _ _ H) as (Hg & p & Hp & Hb). destruct H as (Hv & _).
  unfold yakvm_vcpu_get_regs. apply wp_bind. eapply wp_get_obj; [done..|].
  apply wp_bind. eapply wp_load_vmcb; [done..|]. apply wp_bind, wp_gets.
  destruct (copy_to_user _ _ _) as [r u]. apply wp_bind, wp_modify, wp_ret. by apply HQ.
Qed.

Lemma wp_set_regs c v pl b src s (Q : Z -> kstate -> Prop) E :
  at_vcpu s c v pl b ->
  (forall r regs, copy_from_user (ks_user s) src = (r, regs) -> r <> 0 -> Q (- EFAULT) s) ->
  (forall regs s', copy_from_user (ks_user s) src = (0, regs) ->
     at_vcpu s' c (v <| vcpu.gctx := set_context regs (vcpu.gctx v) |>) pl
       (b <| vmcb.save := set_save regs (vmcb.save b) |>) ->
     ks_user s' = ks_user s -> (forall x, x <> at_g pl -> ks_pages s' !! x = ks_pages s !! x) ->
     Q 0 s') ->
  wp (yakvm_vcpu_set_regs c src) Q E s.
Proof.
  intros H HE HQ. destruct (at_vcpu_page _ _ _ _ _ H) as (Hg & p & Hp & Hb). destruct H as (Hv & Hpl & _).
  unfold yakvm_vcpu_set_regs. apply wp_bind, wp_gets.
  destruct (copy_from_user (ks_user s) src) as [r regs] eqn:Hc.
  destruct (Z.eqb_spec r 0) as [->|Hr]; cbn [negb]; [|apply wp_ret; by eapply HE].
  apply wp_bind. eapply wp_get_obj; [done..|].
  apply wp_bind. eapply wp_store; [done..|]. apply wp_bind. eapply wp_update_vcpu; [done|].
  apply wp_ret. apply (HQ regs); [done| |done|].
  - split; [apply lookup_insert_eq|]. split; [by destruct Hpl|]. cbn. by rewrite lookup_insert_eq.
  - intros x Hx. by apply lookup_insert_ne.
Qed.

Lemma unlocked v : vcpu.lock v = false -> v <| vcpu.lock := true |> <| vcpu.lock := false |> = v.
Proof. destruct v; simpl. by intros ->. Qed.

Lemma at_vcpu_locked s c v pl b :
  at_vcpu s c v pl b ->
  at_vcpu (with_heap (<[c := OVcpu (v <| vcpu.lock := true |>)]> (ks_heap s)) s)
    c (v <| vcpu.lock := true |>) pl b.
Proof.
  intros (_ & Hpl & Hb). split; [apply lookup_insert_eq|]. split; [by destruct Hpl|exact Hb].
Qed.

(** The call [ioctl] on a vcpu whose lock is free. *)
Lemma wp_vcpu_locked c v ioctl arg s (Q : Z -> kstate -> Prop) E :
  ks_heap s !! c = Some (OVcpu v) -> vcpu.lock v = false ->
  wp (if ioctl =? YAKVM_RUN then yakvm_vcpu_run c
      else if ioctl =? YAKVM_GET_REGS then yakvm_vcpu_get_regs c arg
      else if ioctl =? YAKVM_SET_REGS then yakvm_vcpu_set_regs c arg
      else mret (- EINVAL))
    (fun r s2 => exists v', ks_heap s2 !! c = Some (OVcpu v') /\
       Q r (with_heap (<[c := OVcpu (v' <| vcpu.lock := false |>)]> (ks_heap s2)) s2)) E
    (with_heap (<[c := OVcpu (v <| vcpu.lock := true |>)]> (ks_heap s)) s) ->
  wp (yakvm_vcpu_ioctl c ioctl arg false) Q E s.
Proof.
  intros Hv Hl Hbody. unfold yakvm_vcpu_ioctl, mutex_lock_killable. apply wp_bind, wp_bind.
  eapply wp_get_obj; [exact Hv|done|]. rewrite Hl. apply wp_bind. eapply wp_update_vcpu; [exact Hv|].
  apply wp_ret. simpl. apply wp_bind. eapply wp_mono; [exact Hbody|].
  intros r s2 (v' & Hv' & HQ). apply wp_bind. eapply wp_update_vcpu; [exact Hv'|]. by apply wp_ret.
Qed.

Lemma relocked c v s :
  ks_heap s !! c = Some (OVcpu v) -> vcpu.lock v = false ->
  <[c := OVcpu (v <| vcpu.lock := true |> <| vcpu.lock := false |>)]>
    (<[c := OVcpu (v <| vcpu.lock := true |>)]> (ks_heap s)) = ks_heap s.
Proof. intros Hv Hl. by rewrite insert_insert_eq, unlocked, insert_id. Qed.

(** Mapping the shared page of a vcpu is refused unless it is one page from offset
    0, and then maps the vcpu's page and no other. *)
Lemma state_mmap_maps c v pl b pgoff start end_ s :
  at_vcpu s c v pl b ->
  yakvm_vcpu_state_mmap c pgoff start end_ s =
    (if (pgoff =? 0) && (wrap 64 (end_ - start) =? PAGE_SIZE) then
      let '(r, u) := remap_pfn_range (ks_user s) start (at_state pl / PAGE_SIZE) PAGE_SIZE in
      Ok (if r <? 0 then r else 0) (s <| ks_user := u |>)
    else Ok (- EINVAL) s).
Proof.
  intros (Hv & Hpl & _). unfold yakvm_vcpu_state_mmap, get_vcpu, get_obj, mbind, M_bind.
  cbn [gets]. rewrite Hv. cbn [need mret M_ret as_vcpu].
  rewrite (placed_state _ _ Hpl), valid_pa_round_trip.
  2: { pose proof (placed_valid _ _ Hpl) as Val. rewrite !Forall_cons in Val. tauto. }
  rewrite Z.shiftr_div_pow2 by done. change (2 ^ PAGE_SHIFT) with PAGE_SIZE.
  destruct (pgoff =? 0), (wrap 64 (end_ - start) =? PAGE_SIZE); try done. cbn [negb andb].
  by destruct (remap_pfn_range _ _ _ _).
Qed.

End registers.

(** ** A run *)
Section run.
Context `{L : KernelLaws} `{P : !Processor K} `{PL : !ProcessorLaws K P} `{A : !Abi K} `{C : Config}.
Implicit Types (s : kstate).

(** What a guest and the switches around it do to the pages: the vcpu's own
    pages and the data pages of its table change, the host's hidden state is
    where it was put. *)
Lemma guest_run_frame m pl ncr3 t u g hd :
  vcpu_pages m pl ncr3 -> npt_repr m ncr3 t -> place_pages pl ## tree_pages t ->
  NoDup [at_g pl; at_h pl; at_hsave pl; at_state pl] ->
  Forall (fun x => x ∉ io_frames pl) [at_g pl; at_h pl; at_hsave pl; at_state pl] ->
  forall u' m' g' hd' b0, guest_run u m (at_hsave pl) (at_g pl) g hd = (u', m', g', hd') ->
    (m !! at_g pl) ≫= as_vmcb = Some b0 ->
    confined u m (at_hsave pl) (at_g pl) g hd (vmcb.control b0) = true ->
    dom m' = dom m /\ npt_repr m' ncr3 t /\
    (exists b, m' !! at_g pl = Some (PVmcb b) /\
       control.nested_cr3 (vmcb.control b) = ncr3 /\
       control.iopm_base_pa (vmcb.control b) = at_io pl * PAGE_SIZE) /\
    m' !! at_h pl = m !! at_h pl /\ m' !! at_state pl = m !! at_state pl /\
    (forall x, x ∈ io_frames pl -> m' !! x = m !! x) /\
    (forall x, x ∉ place_pages pl -> x ∉ tree_pages t -> m' !! x = m !! x).
Proof.
  intros Vp R Hd Nd Ap u' m' g' hd' b0 Hrun Hb0 Hconf.
  destruct (pages_g _ _ _ Vp) as (b & Hb & Hn & Hio). rewrite Hb in Hb0. injection Hb0 as <-.
  destruct (m !! at_g pl) as [p|] eqn:Hp; [|done]. simpl in Hb. subst ncr3.
  assert (at_g pl ∉ tree_pages t) as Hg.
  { intros Hx. apply (Hd (at_g pl)); [|done]. rewrite elem_of_place_pages. tauto. }
  destruct (guest_run_pages _ _ _ _ _ _ _ _ _ _ _ _ _ Hp Hb R Hg Hconf Hrun)
    as (Hdom & (b' & Hb' & Hset) & Hdata & Hframe).
  destruct Hset as (_ & Hio' & _ & _ & Hn').
  rewrite !NoDup_cons, !not_elem_of_cons in Nd. rewrite !Forall_cons in Ap.
  assert (forall q x c, t !! q = Some (x, c) -> x ∉ place_pages pl) as Hnp.
  { intros q x c0 Hq Hx. apply (Hd x Hx), elem_of_tree_pages. eauto. }
  assert (forall x, x ∈ place_pages pl -> x <> at_g pl -> x <> at_hsave pl -> m' !! x = m !! x) as Hpl.
  { intros x Hx N1 N2. apply Hframe; [done..|]. intros q _ Hq. by eapply Hnp. }
  setoid_rewrite elem_of_place_pages in Hpl. setoid_rewrite elem_of_place_pages in Hnp.
  split; [done|]. split.
  { eapply npt_repr_data; [done|..].
    - intros q x c0 Hq Hl. apply Hnp in Hq as Hx.
      apply Hframe; [tauto|tauto|]. intros q' Hl' Hq'.
      destruct c0; [|].
      + assert (q = q') as <- by (eapply (repr_inj _ _ _ R); done). lia.
      + assert (q = q') as <- by (eapply (repr_inj _ _ _ R); done). lia.
    - intros q x [] Hq Hl; [by eapply Hdata|].
      destruct (repr_table _ _ _ R _ _ _ Hq) as (ws & Hws & Hlen & _).
      exists ws. split; [|done]. rewrite <- Hws. apply Hnp in Hq as Hx.
      apply Hframe; [tauto|tauto|]. intros q' Hl' Hq'.
      assert (q = q') as <- by (eapply (repr_inj _ _ _ R); done). congruence. }
  split; [exists b'; split_and!; congruence|].
  split; [apply Hpl; [tauto|naive_solver..]|].
  split; [apply Hpl; [tauto|naive_solver..]|].
  split; [intros x Hx; apply Hpl; [tauto|naive_solver..]|].
  intros x Hx Hx'. rewrite elem_of_place_pages in Hx. apply Hframe; [tauto|tauto|].
  intros q _ Hq. apply Hx', elem_of_tree_pages. eauto.
Qed.

(** What [share_err_to_user] tells of a control block. *)
Definition exit_state (b : vmcb.t) : state.t :=
  let c := vmcb.control b in
  state.mk (control.exit_code c) (control.exit_info_1 c) (control.exit_info_2 c)
    (vmcb_seg.base (save.cs (vmcb.save b))) (save.rip (vmcb.save b)).

Lemma wp_update_state addr pa p st f m h c u s (Q : unit -> kstate -> Prop) E :
  virt_to_phys addr = pa -> m !! pa = Some p -> as_state p = Some st ->
  Q tt (machine (<[pa := PState (f st)]> m) h c u s) ->
  wp (update_state addr f) Q E (machine m h c u s).
Proof. intros Ha Hp Hst HQ. by eapply wp_store. Qed.

Lemma wp_update_state_again addr pa st f m h c u s (Q : unit -> kstate -> Prop) E :
  virt_to_phys addr = pa ->
  Q tt (machine (<[pa := PState (f st)]> m) h c u s) ->
  wp (update_state addr f) Q E (machine (<[pa := PState st]> m) h c u s).
Proof.
  intros Ha HQ. eapply wp_update_state; [done|apply lookup_insert_eq|done|].
  by rewrite insert_insert_eq.
Qed.

Lemma wp_share_err a v pl b st m h c u s (Q : unit -> kstate -> Prop) E :
  h !! a = Some (OVcpu v) -> placed v pl ->
  m !! at_g pl = Some (PVmcb b) -> (m !! at_state pl) ≫= as_state = Some st ->
  Q tt (machine (<[at_state pl := PState (exit_state b)]> m) h c u s) ->
  wp (yakvm_vcpu_share_err_to_user a) Q E (machine m h c u s).
Proof.
  intros Hv Hpl Hb Hst HQ. destruct Hpl as [Eg _ _ Est _ Val _ _ _].
  rewrite !Forall_cons in Val. destruct Val as (V1 & _ & _ & V4 & _).
  unfold yakvm_vcpu_share_err_to_user. apply wp_bind. eapply wp_get_obj; [done..|].
  rewrite Eg, Est. apply wp_bind. eapply wp_load_vmcb; [by apply valid_pa_round_trip|done..|].
  destruct (m !! at_state pl) as [p|] eqn:Hp; [|done].
  apply wp_bind. eapply wp_update_state; [by apply valid_pa_round_trip|exact Hp|exact Hst|].
  do 3 (apply wp_bind; apply wp_update_state_again; [by apply valid_pa_round_trip|]).
  apply wp_update_state_again; [by apply valid_pa_round_trip|]. exact HQ.
Qed.

Lemma hidden_of_save hd sv : hidden_of (save_hidden hd sv) = hd.
Proof. by destruct hd. Qed.

(** The host's control block may hold any state. *)
Lemma host_saved_pages m pl ncr3 t hb :
  vcpu_pages m pl ncr3 -> npt_repr m ncr3 t -> place_pages pl ## tree_pages t ->
  at_g pl <> at_h pl -> at_h pl <> at_hsave pl -> at_h pl <> at_state pl ->
  vcpu_pages (<[at_h pl := PVmcb hb]> m) pl ncr3 /\ npt_repr (<[at_h pl := PVmcb hb]> m) ncr3 t.
Proof.
  intros [Pg Ph Phs Pst Pio] R Hd N1 N2 N3. split.
  - split.
    + by rewrite lookup_insert_ne.
    + rewrite lookup_insert_eq. by exists hb.
    + by rewrite lookup_insert_ne.
    + by rewrite lookup_insert_ne.
    + rewrite dom_insert_L. set_solver.
  - eapply npt_repr_frame; [done|]. intros x Hx. rewrite lookup_insert_ne; [done|].
    intros <-. apply (Hd (at_h pl)); [|done]. rewrite elem_of_place_pages. tauto.
Qed.

(** One run. The vcpu's pages and its table stay what they are, memory that is
    neither the vcpu's nor a data page of its guest is not touched, and the
    processor is given back as it was. *)
Definition run_post (a : Z) (v : vcpu.t) (pl : places) (ncr3 : Z) (t : tree) (c : pcpu.t)
    (s s' : kstate) : Prop :=
  exists m' v' u' b,
    s' = machine m' (<[a := OVcpu v']> (ks_heap s))
           (c <| pcpu.hsave_pa := at_hsave pl |>) u' s /\
    placed v' pl /\ vcpu.lock v' = vcpu.lock v /\ vcpu.vm v' = vcpu.vm v /\
    dom m' = dom (ks_pages s) /\ vcpu_pages m' pl ncr3 /\ npt_repr m' ncr3 t /\
    (forall x, x ∉ place_pages pl -> x ∉ tree_pages t -> m' !! x = ks_pages s !! x) /\
    m' !! at_g pl = Some (PVmcb b) /\ m' !! at_state pl = Some (PState (exit_state b)).

(** The pages a run leaves: the processor has written the guest's control block
    and data, the driver the host's control block and the shared page. *)
Lemma switched_pages m m2 pl ncr3 t hb b3 st :
  NoDup [at_g pl; at_h pl; at_hsave pl; at_state pl] ->
  vcpu_pages m pl ncr3 -> place_pages pl ## tree_pages t ->
  let m1 := <[at_h pl := PVmcb hb]> m in
  dom m2 = dom m1 -> npt_repr m2 ncr3 t ->
  is_Some (m2 !! at_g pl) -> m2 !! at_h pl = m1 !! at_h pl -> is_Some (m2 !! at_state pl) ->
  (forall x, x ∉ place_pages pl -> x ∉ tree_pages t -> m2 !! x = m1 !! x) ->
  control.nested_cr3 (vmcb.control b3) = ncr3 ->
  control.iopm_base_pa (vmcb.control b3) = at_io pl * PAGE_SIZE ->
  let m4 := <[at_state pl := PState st]> (<[at_g pl := PVmcb b3]> m2) in
  dom m4 = dom m /\ vcpu_pages m4 pl ncr3 /\ npt_repr m4 ncr3 t /\
  (forall x, x ∉ place_pages pl -> x ∉ tree_pages t -> m4 !! x = m !! x) /\
  m4 !! at_g pl = Some (PVmcb b3) /\ m4 !! at_state pl = Some (PState st).
Proof.
  intros Nd Vp Hd m1 Hdom R2 Hg Fh Hst Fr Hn3 Hio3 m4.
  rewrite !NoDup_cons, !not_elem_of_cons in Nd.
  destruct Nd as ((N1 & N2 & N3 & _) & (N4 & N5 & _) & (N6 & _) & _).
  setoid_rewrite elem_of_place_pages in Fr.
  assert (forall x, x ∈ tree_pages t -> at_g pl <> x /\ at_state pl <> x) as Hnt.
  { intros x Hx. split; intros <-; eapply Hd; try exact Hx; rewrite elem_of_place_pages; tauto. }
  assert (dom m4 = dom m) as Hd4.
  { assert (is_Some (m !! at_h pl)) as Hh.
    { destruct (pages_h _ _ _ Vp) as [x Hx]. by destruct (m !! at_h pl). }
    unfold m4. rewrite !dom_insert_lookup_L; [|done|by rewrite lookup_insert_ne].
    rewrite Hdom. by apply dom_insert_lookup_L. }
  assert (m4 !! at_g pl = Some (PVmcb b3)) as Hg4.
  { unfold m4. rewrite lookup_insert_ne by done. apply lookup_insert_eq. }
  assert (m4 !! at_state pl = Some (PState st)) as Hst4 by apply lookup_insert_eq.
  split; [done|]. split; [split|split; [|split; [|done]]].
  - exists b3. by rewrite Hg4.
  - exists hb. unfold m4. rewrite !lookup_insert_ne, Fh by done. unfold m1. by rewrite lookup_insert_eq.
  - apply elem_of_dom. rewrite Hd4. apply elem_of_dom, Vp.
  - rewrite Hst4. eauto.
  - rewrite Hd4. apply Vp.
  - eapply npt_repr_frame; [exact R2|]. intros x Hx. destruct (Hnt x Hx). unfold m4.
    by rewrite !lookup_insert_ne.
  - intros x Hx Hx'. rewrite elem_of_place_pages in Hx. unfold m4.
    rewrite !lookup_insert_ne, Fr by (done || (intros <-; tauto)).
    unfold m1. by rewrite lookup_insert_ne by (intros <-; tauto).
Qed.

(** The guest has escaped: it did something that reaches the host and that its
    control block does not intercept. *)
Definition escapes (st : stop) : Prop := st = Escaped.

Lemma wp_vcpu_run a v pl ncr3 t c s :
  ks_heap s !! a = Some (OVcpu v) -> placed v pl ->
  vcpu_pages (ks_pages s) pl ncr3 -> npt_repr (ks_pages s) ncr3 t ->
  place_pages pl ## tree_pages t ->
  ks_cpus s !! ks_cpu s = Some c -> has_flag (pcpu.efer c) EFER_SVME = true ->
  0 <= pcpu.preempt c -> pcpu.gif c = true ->
  wp (yakvm_vcpu_run a) (fun r s' => r = 0 /\ run_post a v pl ncr3 t c s s') escapes s.
Proof.
  intros Hv Hpl Vp R Hd Hc He Hpr Hgif.
  pose proof Hpl as Hpl'. destruct Hpl' as [Eg Eh Ehs Est _ Val Vio Nd Ap].
  rewrite !Forall_cons in Val. destruct Val as (V1 & V2 & V3 & V4 & _).
  set (s0 := s) at 1. rewrite (machine_id s c Hc) at 1. subst s0.
  set (m := ks_pages s) in *. set (h := ks_heap s) in *.
  unfold yakvm_vcpu_run.
  apply wp_bind, (wp_update_cpu Hc).
  apply wp_bind. eapply wp_get_obj; [done..|].
  rewrite Ehs, (valid_pa_round_trip _ V3).
  apply wp_bind, (wp_update_cpu Hc).
  apply wp_bind, (wp_gif Hc false); [done|].
  destruct (pages_h _ _ _ Vp) as [hb Hhb].
  destruct (m !! at_h pl) as [hp|] eqn:Hhp; [|done]. simpl in Hhb.
  rewrite Eh, Eg, (valid_pa_round_trip _ V2), (valid_pa_round_trip _ V1).
  apply wp_bind. eapply (wp_vmsave Hc); [done|exact Hhp|exact Hhb|].
  set (c1 := c <| pcpu.preempt := pcpu.preempt c + 1 |> <| pcpu.hsave_pa := at_hsave pl |>
               <| pcpu.gif := false |>).
  set (hb' := hb <| vmcb.save := save_hidden (pcpu.extra c1) (vmcb.save hb) |>).
  set (m1 := <[at_h pl := PVmcb hb']> m).
  pose proof Nd as Nd'. rewrite !NoDup_cons, !not_elem_of_cons in Nd'.
  destruct Nd' as ((N1 & N2 & N3 & _) & (N4 & N5 & _) & (N6 & _) & _).
  pose proof Ap as Ap'. rewrite !Forall_cons in Ap'. destruct Ap' as (A1 & A2 & A3 & A4 & _).
  destruct (host_saved_pages m pl ncr3 t hb' Vp R Hd) as (Vp1 & R1); [done..|].
  fold m1 in Vp1, R1.
  destruct (pages_g _ _ _ Vp1) as (b & Hb & _ & _).
  destruct (m1 !! at_g pl) as [p|] eqn:Hp; [|done]. simpl in Hb.
  apply wp_bind, wp_gets, wp_bind, wp__yakvm_vcpu_run with (v := v); [done|].
  apply wp_bind. eapply (wp_vmload Hc); [done|exact Hp|exact Hb|].
  apply wp_bind. eapply (wp_vmrun Hc); [done|done|simpl; lia| |exact Hp|exact Hb|done|].
  { apply (pages_hsave _ _ _ Vp1). }
  cbv beta. intros u2 m2 g2 hd Hrun Hconf.
  assert ((m1 !! at_g pl) ≫= as_vmcb = Some b) as Hb0 by (by rewrite Hp).
  destruct (guest_run_frame _ _ _ _ _ _ _ Vp1 R1 Hd Nd Ap _ _ _ _ _ Hrun Hb0 Hconf)
    as (Hdom & R2 & (b2 & Hb2 & Hn2 & Hio2) & Fh & Fst & Fio & Fr).
  apply wp_bind. eapply (wp_vmsave Hc); [done|exact Hb2|done|]. apply wp_ret.
  set (b3 := b2 <| vmcb.save := save_hidden hd (vmcb.save b2) |>).
  set (m3 := <[at_g pl := PVmcb b3]> m2).
  set (v' := v <| vcpu.gctx := guest_saved (g2 <| gprs.rax := at_g pl |>) (vcpu.gctx v) |>
               <| vcpu.hctx := host_saved (caller_regs (ks_user s)) (vcpu.hctx v) |>).
  set (c3 := c1 <| pcpu.extra := hd |>).
  change (with_heap _ _) with (machine m3 (<[a := OVcpu v']> h) c3 u2 s).
  assert (placed v' pl) as Hpl' by (by destruct Hpl).
  apply wp_bind. eapply wp_get_obj; [apply lookup_insert_eq|done|].
  rewrite (placed_h _ _ Hpl'), (valid_pa_round_trip _ V2).
  apply wp_bind. eapply (wp_vmload Hc (at_h pl) (PVmcb hb') hb'); [done| |done|].
  { unfold m3. rewrite lookup_insert_ne by done. rewrite Fh. apply lookup_insert_eq. }
  apply wp_bind, (wp_gif Hc true); [done|].
  apply wp_bind, (wp_update_cpu Hc).
  apply wp_bind. destruct (pages_state _ _ _ Vp1) as [st Hst].
  eapply (wp_share_err a v' pl b3 st); [apply lookup_insert_eq|done|apply lookup_insert_eq| |].
  { unfold m3. rewrite lookup_insert_ne by done. by rewrite Fst. }
  apply wp_ret. split; [done|].
  destruct (switched_pages m m2 pl ncr3 t hb' b3 (exit_state b3) Nd Vp Hd Hdom R2)
    as (Hd4 & Vp4 & R4 & F4 & Hg4 & Hst4); [eauto|done| |done..|].
  { rewrite Fst. by apply (is_Some_bind _ _ (ex_intro _ st Hst)). }
  eexists _, v', u2, b3. split; [|by split_and!].
  match goal with |- machine _ _ ?c4 _ _ = _ =>
    assert (c4 = c <| pcpu.hsave_pa := at_hsave pl |>) as ->; [|done] end.
  unfold c3, c1, hb'. destruct c as [pr gf ef hs ex]. simpl in Hgif. subst gf.
  cbv -[hidden_of save_hidden Z.add Z.sub vmcb.save]. f_equal; [lia|]. apply hidden_of_save.
Qed.

(** ** The calls on a vcpu *)

(** What the call [ioctl] on the vcpu [c] answers and does, of the control block
    [b] and the object [v] it has before. *)
Definition vcpu_effect (c : Z) (v : vcpu.t) (pl : places) (b : vmcb.t) (ioctl arg : Z) (killed : bool)
    s (r : Z) s' : Prop :=
  if killed then r = - EINTR /\ s' = s
  else if ioctl =? YAKVM_RUN then
    r = 0 /\ exists v' b', at_vcpu s' c v' pl b' /\ vcpu.vm v' = vcpu.vm v /\ vcpu.lock v' = false /\
      ks_pages s' !! at_state pl = Some (PState (exit_state b'))
  else if ioctl =? YAKVM_GET_REGS then
    let '(e, u) := copy_to_user (ks_user s) arg (regs_of (vcpu.gctx v) b) in
    r = (if e =? 0 then 0 else - EFAULT) /\ s' = s <| ks_user := u |>
  else if ioctl =? YAKVM_SET_REGS then
    let '(e, regs) := copy_from_user (ks_user s) arg in
    if e =? 0 then
      r = 0 /\
      at_vcpu s' c (v <| vcpu.gctx := set_context regs (vcpu.gctx v) |>) pl
        (b <| vmcb.save := set_save regs (vmcb.save b) |>) /\
      ks_user s' = ks_user s /\ forall x, x <> at_g pl -> ks_pages s' !! x = ks_pages s !! x
    else r = - EFAULT /\ s' = s
  else r = - EINVAL /\ s' = s.

Lemma wp_vcpu_effect a v pl b ncr3 t cpu ioctl arg killed s :
  at_vcpu s a v pl b -> vcpu.lock v = false ->
  vcpu_pages (ks_pages s) pl ncr3 -> npt_repr (ks_pages s) ncr3 t ->
  place_pages pl ## tree_pages t ->
  ks_cpus s !! ks_cpu s = Some cpu -> has_flag (pcpu.efer cpu) EFER_SVME = true ->
  0 <= pcpu.preempt cpu -> pcpu.gif cpu = true ->
  wp (yakvm_vcpu_ioctl a ioctl arg killed) (vcpu_effect a v pl b ioctl arg killed s) escapes s.
Proof.
  intros Hat Hl Vp R Hd Hcpu He Hpr Hg. pose proof Hat as (Hv & Hpl & Hb).
  pose proof (at_vcpu_locked _ _ _ _ _ Hat) as Hat1.
  assert (forall e, vcpu_effect a v pl b ioctl arg killed s e s ->
    exists v', ks_heap (with_heap (<[a := OVcpu (v <| vcpu.lock := true |>)]> (ks_heap s)) s) !! a = Some (OVcpu v') /\
      vcpu_effect a v pl b ioctl arg killed s e
        (with_heap (<[a := OVcpu (v' <| vcpu.lock := false |>)]>
           (<[a := OVcpu (v <| vcpu.lock := true |>)]> (ks_heap s))) s)) as Hsame.
  { intros e H. exists (v <| vcpu.lock := true |>). split; [apply lookup_insert_eq|].
    rewrite relocked by done. by destruct s. }
  destruct killed.
  { unfold yakvm_vcpu_ioctl, mutex_lock_killable. apply wp_bind, wp_bind.
    eapply wp_get_obj; [exact Hv|done|]. apply wp_ret. simpl. by apply wp_ret. }
  eapply wp_vcpu_locked; [done|done|]. unfold vcpu_effect in *.
  destruct (ioctl =? YAKVM_RUN).
  { eapply wp_mono; [by eapply (wp_vcpu_run a _ pl ncr3 t cpu); [apply Hat1|apply Hat1|..]|].
    intros r s2 (-> & m' & v' & u' & b' & -> & Hpl' & Hlk & Hvm & _ & _ & _ & _ & Hg' & Hst).
    exists v'. split; [apply lookup_insert_eq|]. split; [done|].
    exists (v' <| vcpu.lock := false |>), b'. split; [|done].
    split; [apply lookup_insert_eq|]. split; [by destruct Hpl'|]. cbn. by rewrite Hg'. }
  destruct (ioctl =? YAKVM_GET_REGS).
  { eapply wp_get_regs; [exact Hat1|]. intros r u Hu. exists (v <| vcpu.lock := true |>).
    split; [apply lookup_insert_eq|].
    change (copy_to_user (ks_user s) arg (regs_of (vcpu.gctx v) b) = (r, u)) in Hu. rewrite Hu.
    split; [done|]. cbn [ks_heap set_field]. mem_simpl.
    change (ks_heap (with_heap ?h s <| ks_user := u |>)) with h. rewrite relocked by done. by destruct s. }
  destruct (ioctl =? YAKVM_SET_REGS); [|by apply wp_ret, Hsame].
  eapply wp_set_regs; [exact Hat1|..].
  { intros r regs Hc Hr. change (copy_from_user (ks_user s) arg = (r, regs)) in Hc.
    rewrite Hc, (proj2 (Z.eqb_neq _ _) Hr) in *. by apply Hsame. }
  intros regs s2 Hc (Hv2 & Hpl2 & Hb2) Hu Hf. change (copy_from_user (ks_user s) arg = (0, regs)) in Hc.
  rewrite Hc. eexists. split; [exact Hv2|]. split; [done|]. split; [|done].
  split; [|split; [by destruct Hpl2|exact Hb2]]. cbn. rewrite lookup_insert_eq.
  do 2 f_equal. by destruct v as [lk]; simpl in Hl; subst lk.
Qed.

End run.
