(* ===== verification/Vm.v ===== *)
(** * Virtual machines: driver/vm.c

    A [struct vm] counts the descriptors that refer to it, its own and that of
    its vcpu; the last one to go destroys it, with its memory and its vcpu. *)

From S2P Require Import Prelude Structs Kernel Npt Vmcb VcpuRun Vcpu.

Section vm.
Context `{K : KernelOps} `{P : !Processor K} `{A : !Abi K} `{C : Config}.

(** ** Definitions *)

(** [mutex_lock(&vm->lock)] *)
Definition vm_mutex_lock (vm : Z) : KM unit :=
  v ← get_vm vm;
  if vm.lock v then halt Deadlocked else update_vm vm (fun v => v <| vm.lock := true |>).

Definition vm_mutex_unlock (vm : Z) : KM unit :=
  update_vm vm (fun v => v <| vm.lock := false |>).

(** get the vm: [atomic_inc], on an [int] *)
Definition yakvm_get_vm (vm : Z) : KM unit :=
  update_vm vm (fun v => v <| vm.refcount := sint 32 (vm.refcount v + 1) |>).

(** destroy the vm and relative resources *)
Definition yakvm_destroy_vm (vm : Z) : KM unit :=
  v ← get_vm vm;
  yakvm_destroy_vmm (vm.vmm v) ;;
  v ← get_vm vm;
  (if negb (vm.vcpu v =? 0) then yakvm_destroy_vcpu (vm.vcpu v) else mret tt) ;;
  kfree vm.

Definition atomic_dec_and_test (vm : Z) : KM bool :=
  v ← get_vm vm;
  let r := sint 32 (vm.refcount v - 1) in
  update_vm vm (fun v => v <| vm.refcount := r |>) ;;
  mret (r =? 0).

(** put the vm *)
Definition yakvm_put_vm (vm : Z) : KM unit :=
  b ← atomic_dec_and_test vm;
  if b : bool then yakvm_destroy_vm vm else mret tt.

Definition yakvm_vm_release (vm : Z) : KM Z := yakvm_put_vm vm ;; mret 0.

(** driver/cpu.c, line 23 *)
Definition yakvm_vcpu_release (vcpu : Z) : KM Z :=
  v ← get_vcpu vcpu;
  yakvm_put_vm (vcpu.vm v) ;;
  mret 0.

(** create the vcpu and return the vcpu fd *)
Definition yakvm_vm_ioctl_create_vcpu (vm : Z) : KM Z :=
  vcpu ← yakvm_create_vcpu vm;
  match vcpu with
  | inl _ => mret (PTR_ERR (inr vm))
  | inr vcpu =>
      let destroy_vcpu (r : Z) := yakvm_destroy_vcpu vcpu ;; mret r in
      let put_vm (r : Z) :=
        vm_mutex_lock vm ;;
        update_vm vm (fun v => v <| vm.vcpu := 0 |>) ;;
        vm_mutex_unlock vm ;;
        yakvm_put_vm vm ;;
        destroy_vcpu r in
      vm_mutex_lock vm ;;
      v ← get_vm vm;
      if negb (vm.vcpu v =? 0) then vm_mutex_unlock vm ;; destroy_vcpu (- EEXIST)
      else
        update_vm vm (fun v => v <| vm.vcpu := vcpu |>) ;;
        vm_mutex_unlock vm ;;
        yakvm_get_vm vm ;;
        fd ← anon_inode_getfd (FVcpu vcpu);
        if fd <? 0 then put_vm fd else mret fd
  end.

(** map the gpa to a host physical page *)
Definition yakvm_vm_ioctl_mmap_page (vm gpa : Z) : KM Z :=
  v ← get_vm vm;
  page ← yakvm_vmm_npt_create (vm.vmm v) gpa false;
  mret (if IS_ERR page then PTR_ERR page else 0).

Definition yakvm_vm_ioctl (vm ioctl arg : Z) : KM Z :=
  if ioctl =? YAKVM_CREATE_VCPU then yakvm_vm_ioctl_create_vcpu vm
  else if ioctl =? YAKVM_MMAP_PAGE then yakvm_vm_ioctl_mmap_page vm arg
  else mret (- EINVAL).

(** [get_page] *)
Definition get_page (page : Z) : KM unit :=
  modify (fun s => s <| ks_mm := get_page_op (ks_mm s) (page_to_phys page) |>).

(** map the vm physical memory to host physical memory: the result and
    [vmf->page] *)
Definition yakvm_vm_vmm_fault (vm address vm_start : Z) : KM (Z * option Z) :=
  v ← get_vm vm;
  page ← yakvm_vmm_npt_create (vm.vmm v) (wrap 64 (address - vm_start)) false;
  match page with
  | inl _ => mret (PTR_ERR page, None)
  | inr page => get_page page ;; mret (0, Some page)
  end.

(** expose vm physical memory to userspace: the mapping's faults go to
    [yakvm_vm_vmm_fault] *)
Definition yakvm_vm_mmap (vm : Z) : KM Z := mret 0.

(** [snprintf(vm->id, sizeof(vm->id), "kvm-%d", task_pid_nr(current))] *)
Definition YAKVM_VM_MAX_ID : nat := 32.
Definition vm_id : string := String.substring 0 (YAKVM_VM_MAX_ID - 1) ("kvm-" +:+ pretty task_pid).

(** create the vm *)
Definition yakvm_create_vm : KM err_ptr :=
  vm ← kmalloc (OVm vm.zero);
  match vm with
  | None => mret (inl (- ENOMEM))
  | Some vm =>
      vmm ← yakvm_create_vmm vm;
      match vmm with
      | inl _ => kfree vm ;; mret (inl (PTR_ERR vmm))
      | inr vmm =>
          update_vm vm (fun v => v <| vm.lock := false |>) ;;
          update_vm vm (fun v => v <| vm.refcount := 1 |>) ;;
          update_vm vm (fun v => v <| vm.id := vm_id |>) ;;
          update_vm vm (fun v => v <| vm.vmm := vmm |>) ;;
          mret (inr vm)
      end
  end.

End vm.
