(* ===== verification/Creators.v ===== *)
(** * Callers of [YAKVM_CREATE_VCPU] that race

    driver/vm.c, [yakvm_vm_ioctl_create_vcpu]: several threads may ask for the vcpu
    of one machine. Here a call is cut at every access to the machine, a
    [creator]: the lock, the reads and writes of [vm->vcpu] it protects, the
    reference counter, the descriptor. A vcpu that is being built or destroyed is
    its caller's alone, so that each of these is one step; the allocators and the
    counter of ASIDs synchronise themselves. *)

From S2P Require Import Prelude Schedule Structs Kernel Npt Vmcb VcpuRun Vcpu Vm.

Section creators.
Context `{K : KernelOps} `{P : !Processor K} `{A : !Abi K} `{C : Config}.

(** Where a call is. *)
Inductive creator : Type :=
| Asked                        (** at [vcpu = yakvm_create_vcpu(vm)] *)
| Built (c : Z)                (** at [mutex_lock(&vm->lock)] *)
| Inside (c : Z)               (** at [if (vm->vcpu)] *)
| Leaving (c : Z)              (** at the [mutex_unlock] before [-EEXIST] *)
| Placing (c : Z)              (** at [vm->vcpu = vcpu] *)
| Placed (c : Z)               (** at the [mutex_unlock] after it *)
| Published (c : Z)            (** at [yakvm_get_vm(vm)] *)
| Counted (c : Z)              (** at [fd = anon_inode_getfd(...)] *)
| Refused (c r : Z)            (** at [put_vm:], its [mutex_lock] *)
| Clearing (c r : Z)           (** at [vm->vcpu = NULL] *)
| Cleared (c r : Z)            (** at the [mutex_unlock] after it *)
| Dropping (c r : Z)           (** at [yakvm_put_vm(vm)] *)
| Unwanted (c r : Z)           (** at [destroy_vcpu:] *)
| Answered (r : Z).

(** [mutex_lock]: a caller that finds the lock taken waits where it is. *)
Definition try_lock (vm : Z) (wait enter : creator) : KM creator :=
  v ← get_vm vm;
  if vm.lock v then mret wait
  else update_vm vm (fun v => v <| vm.lock := true |>) ;; mret enter.

Definition create_step (vm : Z) (t : creator) : KM creator :=
  match t with
  | Asked =>
      vcpu ← yakvm_create_vcpu vm;
      mret match vcpu with
           | inl _ => Answered (PTR_ERR (inr vm))
           | inr c => Built c
           end
  | Built c => try_lock vm t (Inside c)
  | Inside c =>
      v ← get_vm vm;
      mret (if negb (vm.vcpu v =? 0) then Leaving c else Placing c)
  | Leaving c => vm_mutex_unlock vm ;; mret (Unwanted c (- EEXIST))
  | Placing c => update_vm vm (fun v => v <| vm.vcpu := c |>) ;; mret (Placed c)
  | Placed c => vm_mutex_unlock vm ;; mret (Published c)
  | Published c => yakvm_get_vm vm ;; mret (Counted c)
  | Counted c =>
      fd ← anon_inode_getfd (FVcpu c);
      mret (if fd <? 0 then Refused c fd else Answered fd)
  | Refused c r => try_lock vm t (Clearing c r)
  | Clearing c r => update_vm vm (fun v => v <| vm.vcpu := 0 |>) ;; mret (Cleared c r)
  | Cleared c r => vm_mutex_unlock vm ;; mret (Dropping c r)
  | Dropping c r => yakvm_put_vm vm ;; mret (Unwanted c r)
  | Unwanted c r => yakvm_destroy_vcpu c ;; mret (Answered r)
  | Answered r => mret (Answered r)
  end.

(** The most steps a call takes that does not wait. *)
Definition create_steps : nat := 12.

Definition creators (n : nat) : list creator := replicate n Asked.

(** ** A creator alone is the call *)
Implicit Types (s : kstate).

Lemma steps_answered vm n r s : steps (create_step vm) n (Answered r) s = Ok (Answered r) s.
Proof. by apply steps_end. Qed.

(** One step and those after it. *)
Lemma steps_next vm n t s (m : KM creator) (k : creator -> KM creator) :
  create_step vm t s = m s ->
  (forall t' s', m s = Ok t' s' -> steps (create_step vm) n t' s' = k t' s') ->
  steps (create_step vm) (S n) t s = (m ≫= k) s.
Proof.
  intros Hm Hk. cbn [steps]. unfold mbind, M_bind. rewrite Hm.
  destruct (m s) as [t' s'|w] eqn:Hs; [by apply Hk|done].
Qed.


(** The next access of a creator. *)
#[local] Ltac next := unfold mret, M_ret; cbn [create_step]; unfold try_lock, mbind, M_bind.

(** From the label [put_vm:] to the end. *)
Lemma refused_alone vm c r n s :
  let put_vm :=
    vm_mutex_lock vm ;;
    update_vm vm (fun v => v <| vm.vcpu := 0 |>) ;;
    vm_mutex_unlock vm ;;
    yakvm_put_vm vm ;;
    yakvm_destroy_vcpu c ;; mret r in
  put_vm s <> Stop Deadlocked ->
  steps (create_step vm) (5 + n) (Refused c r) s = (r ← put_vm; mret (Answered r)) s.
Proof.
  unfold vm_mutex_lock. cbn [Nat.add]. rewrite ?(Nat.add_comm 5). cbn [steps]. next.
  destruct (get_vm vm s) as [v s1|]; [|done]. destruct (vm.lock v); [done|]. intros _.
  destruct (update_vm vm _ s1) as [[] s2|]; [|done]. next.
  destruct (update_vm vm _ s2) as [[] s3|]; [|done]. next.
  destruct (vm_mutex_unlock vm s3) as [[] s4|]; [|done]. next.
  destruct (yakvm_put_vm vm s4) as [[] s5|]; [|done]. next.
  destruct (yakvm_destroy_vcpu c s5) as [[] s6|]; [|done]. apply steps_answered.
Qed.

(** A creator that nobody disturbs is [yakvm_vm_ioctl_create_vcpu], step by step:
    the same answer in the same state, or the same stop, whatever state it starts
    in; only where the handler would wait for ever for the lock the creator waits
    too. *)
Lemma creator_alone vm s :
  yakvm_vm_ioctl_create_vcpu vm s <> Stop Deadlocked ->
  steps (create_step vm) create_steps Asked s =
    (r ← yakvm_vm_ioctl_create_vcpu vm; mret (Answered r)) s.
Proof.
  unfold create_steps, yakvm_vm_ioctl_create_vcpu. rewrite (steps_add _ 7 5). cbn [steps]. next.
  destruct (yakvm_create_vcpu vm s) as [[e|c] s1|]; [done| |done].
  unfold vm_mutex_lock at 1 3. next.
  destruct (get_vm vm s1) as [v s2|]; [|done]. destruct (vm.lock v); [done|].
  destruct (update_vm vm _ s2) as [[] s3|]; [|done]. next.
  destruct (get_vm vm s3) as [v2 s4|]; [|done]. destruct (negb _).
  { intros _. next. destruct (vm_mutex_unlock vm s4) as [[] s5|]; [|done]. next.
    by destruct (yakvm_destroy_vcpu c s5) as [[] s6|]. }
  next. destruct (update_vm vm _ s4) as [[] s5|]; [|done]. next.
  destruct (vm_mutex_unlock vm s5) as [[] s6|]; [|done]. next.
  destruct (yakvm_get_vm vm s6) as [[] s7|]; [|done]. next.
  destruct (anon_inode_getfd _ s7) as [fd s8|]; [|done].
  destruct (fd <? 0); [|by intros _].
  intros Hd. apply (refused_alone vm c fd 0 s8) in Hd. exact Hd.
Qed.

End creators.
