(* ===== verification/Driver.v ===== *)
(** * The module: driver/main.c and the system calls

    [yakvm_init] and [yakvm_exit] load and unload the driver, [yakvm_dev_ioctl]
    creates virtual machines; [syscall] lists what userspace and the scheduler
    can do to the driver and [step] does it, through the file operations of the
    descriptor. *)

From S2P Require Import Prelude Structs Kernel Npt Vmcb VcpuRun Vcpu Vm.

Section driver.
Context `{K : KernelOps} `{P : !Processor K} `{A : !Abi K} `{C : Config}.

(** ** Definitions *)

(** create the vm and return the vm fd *)
Definition yakvm_dev_ioctl_create_vm : KM Z :=
  vm ← yakvm_create_vm;
  match vm with
  | inl _ => mret (PTR_ERR vm)
  | inr vm =>
      r ← anon_inode_getfd (FVm vm);
      if r <? 0 then yakvm_destroy_vm vm ;; mret r else mret r
  end.

Definition yakvm_dev_ioctl (ioctl : Z) : KM Z :=
  if ioctl =? YAKVM_CREATE_VM then yakvm_dev_ioctl_create_vm else mret (- EINVAL).

Definition YAKVM_INUSE : Z := 1.
Definition YAKVM_UNUSE : Z := 0.
Definition X86_VENDOR_AMD : Z := 2.

(** check whether cpu support SVM *)
Definition is_svm_supported : KM bool :=
  cpu ← gets ks_cpu;
  if negb (x86_vendor cpu =? X86_VENDOR_AMD) then mret false
  else if negb (cpu_has_svm cpu) then mret false
  else mret true.

Definition yakvm_cpu_svm_enable (c : pcpu.t) : pcpu.t :=
  c <| pcpu.efer := Z.lor (pcpu.efer c) EFER_SVME |>.

(** [on_each_cpu(func, NULL, 1)] *)
Definition on_each_cpu (func : pcpu.t -> pcpu.t) : KM unit :=
  modify (fun s => s <| ks_cpus := func <$> ks_cpus s |>).

(** [atomic_xchg(&yakvm_status, v)] *)
Definition status_xchg (v : Z) : KM Z := fun s => Ok (ks_status s) (s <| ks_status := v |>).

Definition misc_register : KM Z := fun s =>
  let '(r, k) := misc_register_op (ks_mm s) in
  Ok r (s <| ks_mm := k |> <| ks_misc := ks_misc s || (r =? 0) |>).

Definition misc_deregister : KM unit :=
  modify (fun s => s <| ks_mm := misc_deregister_op (ks_mm s) |> <| ks_misc := false |>).

Definition yakvm_init : KM Z :=
  old ← status_xchg YAKVM_INUSE;
  if old =? YAKVM_INUSE then mret (- EBUSY)
  else
    b ← is_svm_supported;
    if negb b then mret (- EOPNOTSUPP)
    else
      ret ← misc_register;
      if negb (ret =? 0) then mret ret
      else on_each_cpu yakvm_cpu_svm_enable ;; mret 0.

(** [insmod]: the data of the module is what its initialisers say, whatever an
    earlier load left ([yakvm_status] is [ATOMIC_INIT(YAKVM_UNUSE)]); then
    [module_init]. A module whose [yakvm_init] fails is discarded. *)
Definition insmod : KM Z :=
  modify (fun s => s <| ks_status := YAKVM_UNUSE |>) ;;
  yakvm_init.

Definition yakvm_exit : KM unit :=
  misc_deregister ;;
  old ← status_xchg YAKVM_UNUSE;
  kassert (old =? YAKVM_INUSE).

(** ** System calls *)

Inductive syscall : Type :=
| SysOpen                                         (** open /dev/yakvm *)
| SysClose (fd : Z)                               (** the last close of a descriptor *)
| SysIoctl (fd ioctl arg : Z) (killed : bool)
| SysMmap (fd pgoff vm_start vm_end : Z)
| SysFault (fd address vm_start : Z)              (** an access to a mapping of [fd] *)
| SysMigrate (cpu : nat).                         (** the scheduler moves the caller *)

Definition EBADF : Z := 9.
Definition ENODEV : Z := 19.
Definition ENXIO : Z := 6.

(** The release of a file, by its operations. *)
Definition release (f : file) : KM Z :=
  match f with
  | FDev => mret 0
  | FVm vm => yakvm_vm_release vm
  | FVcpu vcpu => yakvm_vcpu_release vcpu
  end.

Definition close_fd (fd : Z) : KM unit :=
  modify (fun s => s <| ks_mm := putfd_op (ks_mm s) fd |> <| ks_files := delete fd (ks_files s) |>).

Definition step (c : syscall) : KM Z :=
  files ← gets ks_files;
  match c with
  | SysOpen =>
      b ← gets ks_misc;
      if negb b then mret (- ENXIO) else anon_inode_getfd FDev
  | SysClose fd =>
      match files !! fd with
      | None => mret (- EBADF)
      | Some f => close_fd fd ;; release f
      end
  | SysIoctl fd ioctl arg killed =>
      match files !! fd with
      | None => mret (- EBADF)
      | Some FDev => yakvm_dev_ioctl ioctl
      | Some (FVm vm) => yakvm_vm_ioctl vm ioctl arg
      | Some (FVcpu vcpu) => yakvm_vcpu_ioctl vcpu ioctl arg killed
      end
  | SysMmap fd pgoff vm_start vm_end =>
      match files !! fd with
      | None => mret (- EBADF)
      | Some FDev => mret (- ENODEV)
      | Some (FVm vm) => yakvm_vm_mmap vm
      | Some (FVcpu vcpu) => yakvm_vcpu_state_mmap vcpu pgoff vm_start vm_end
      end
  | SysFault fd address vm_start =>
      match files !! fd with
      | Some (FVm vm) => r ← yakvm_vm_vmm_fault vm address vm_start; mret r.1
      | _ => mret (- EFAULT)
      end
  | SysMigrate cpu =>
      n ← gets (fun s => length (ks_cpus s));
      if (cpu <? n)%nat then modify (fun s => s <| ks_cpu := cpu |>) ;; mret 0 else mret 0
  end.

Fixpoint run (l : list syscall) : KM (list Z) :=
  match l with
  | [] => mret []
  | c :: l => r ← step c; rs ← run l; mret (r :: rs)
  end.

End driver.
