(* ===== verification/System.v ===== *)
(** * The system invariant

    The abstract state of the driver is a map of virtual machines: each has a
    nested table (a tree of pages), perhaps a vcpu (an object and its places) and
    at most two descriptors. [inv] relates it to the concrete state: every
    object, every page and every descriptor belongs to exactly one machine, but
    for the pages a failed creation lost. *)

From S2P Require Import Prelude Structs Kernel Npt Vmcb VcpuRun Vcpu Vm Driver.

(** ** The abstract state *)
Record avm `{KernelOps} : Type := AVm {
  w_vmm : Z;
  w_root : Z;
  w_tree : tree;
  w_vcpu : option (Z * places);
  w_fd : option Z;
  w_vfd : option Z
}.

#[global] Instance eta_avm `{K : KernelOps} : Eta avm := fun w =>
  AVm K (w_vmm w) (w_root w) (w_tree w) (w_vcpu w) (w_fd w) (w_vfd w).

Abbreviation world := (gmap Z avm).

Section abstract.
Context `{K : KernelOps} `{C : Config}.

Definition held {T} (o : option T) : Z := if o is Some _ then 1 else 0.

(** The references to a machine: its open descriptors. *)
Definition refs (w : avm) : Z := held (w_fd w) + held (w_vfd w).

Definition vcpu_addr (w : avm) : Z := if w_vcpu w is Some (c, _) then c else 0.

Definition vm_pages (w : avm) : gset Z :=
  tree_pages (w_tree w) ∪ (if w_vcpu w is Some (_, pl) then place_pages pl else ∅).

Definition vm_objs (a : Z) (w : avm) : gset Z :=
  {[a; w_vmm w]} ∪ (if w_vcpu w is Some (c, _) then {[c]} else ∅).

Lemma elem_of_vm_pages w x :
  x ∈ vm_pages w <->
  x ∈ tree_pages (w_tree w) \/ exists c pl, w_vcpu w = Some (c, pl) /\ x ∈ place_pages pl.
Proof. unfold vm_pages. destruct (w_vcpu w) as [[c pl]|]; set_solver. Qed.

Lemma elem_of_vm_objs a w x :
  x ∈ vm_objs a w <-> x = a \/ x = w_vmm w \/ exists pl, w_vcpu w = Some (x, pl).
Proof. unfold vm_objs. destruct (w_vcpu w) as [[c pl]|]; set_solver. Qed.

(** A vcpu's object and pages. *)
Definition vcpu_ok (m : gmap Z page) (h : gmap Z obj) (a root : Z) (t : tree) (c : Z)
    (pl : places) : Prop :=
  0 < c /\ place_pages pl ## tree_pages t /\ vcpu_pages m pl root /\
  exists v, h !! c = Some (OVcpu v) /\ placed v pl /\ vcpu.lock v = false /\ vcpu.vm v = a.

(** The MMIO page is hidden, and only that page is. *)
Definition tree_mmio (t : tree) : Prop :=
  (exists x, t !! path YAKVM_MMIO_HAWK = Some (x, false)) /\
  forall q x, t !! q = Some (x, false) -> q = path YAKVM_MMIO_HAWK.

(** One machine, at address [a]. *)
Record vm_ok (m : gmap Z page) (h : gmap Z obj) (a : Z) (w : avm) : Prop := {
  vm_obj : exists id,
    h !! a = Some (OVm (vm.mk false (refs w) (vcpu_addr w) (w_vmm w) id));
  vm_vmm : h !! w_vmm w = Some (OVmm (vmm.mk (w_root w) a));
  vm_tree : npt_repr m (w_root w) (w_tree w);
  vm_vcpu c pl : w_vcpu w = Some (c, pl) -> vcpu_ok m h a (w_root w) (w_tree w) c pl;
  vm_vfd : w_vcpu w = None -> w_vfd w = None;
  vm_refs : 0 < refs w;
  vm_mmio : tree_mmio (w_tree w)
}.

(** The descriptors of machines are those the machines have. *)
Record files_ok (f : gmap Z file) (W : world) : Prop := {
  fd_vm fd a : f !! fd = Some (FVm a) <-> exists w, W !! a = Some w /\ w_fd w = Some fd;
  fd_vcpu fd c : f !! fd = Some (FVcpu c) <->
    exists a w pl, W !! a = Some w /\ w_vcpu w = Some (c, pl) /\ w_vfd w = Some fd
}.

(** A processor between two system calls. *)
Definition cpu_idle (c : pcpu.t) : Prop := pcpu.gif c = true /\ pcpu.preempt c = 0.
Definition cpu_svm (c : pcpu.t) : Prop := has_flag (pcpu.efer c) EFER_SVME = true.

Record cpus_ok (s : kstate) : Prop := {
  cpus_here : (ks_cpu s < length (ks_cpus s))%nat;
  cpus_idle : Forall cpu_idle (ks_cpus s);
  cpus_svm : ks_misc s = true \/ ks_files s <> ∅ -> Forall cpu_svm (ks_cpus s)
}.

Definition asid_ok (s : kstate) : Prop := 0 < ks_asid s < 2 ^ 31 - 1.

End abstract.

Record inv `{KernelLaws} `{Config} (s : kstate) (W : world) (lost : gset Z) : Prop := {
  inv_mm : mm_ok s;
  inv_vm a w : W !! a = Some w -> vm_ok (ks_pages s) (ks_heap s) a w;
  inv_objs x : is_Some (ks_heap s !! x) -> exists a w, W !! a = Some w /\ x ∈ vm_objs a w;
  inv_pages x : is_Some (ks_pages s !! x) ->
    x ∈ lost \/ exists a w, W !! a = Some w /\ x ∈ vm_pages w;
  inv_apart a w b w' : W !! a = Some w -> W !! b = Some w' -> a <> b -> vm_pages w ## vm_pages w';
  inv_lost a w : W !! a = Some w -> vm_pages w ## lost;
  inv_lost_dom : lost ⊆ dom (ks_pages s);
  inv_files : files_ok (ks_files s) W;
  inv_asid : asid_ok s;
  inv_cpus : cpus_ok s
}.

Section invariant.
Context `{L : KernelLaws} `{C : Config}.
Implicit Types (s : kstate) (W : world) (w : avm).

(** ** Machines do not overlap *)

Lemma vcpu_pages_in m pl ncr3 x : vcpu_pages m pl ncr3 -> x ∈ place_pages pl -> is_Some (m !! x).
Proof.
  intros [(b & Hb & _) Ph Phs Pst Pio] [->|[->|[->|[->|Hx]]]]%elem_of_place_pages.
  - by destruct (m !! at_g pl).
  - destruct (m !! at_h pl); [done|by destruct Ph].
  - done.
  - destruct (m !! at_state pl); [done|by destruct Pst].
  - by apply elem_of_dom, Pio.
Qed.

Lemma vm_pages_in m h a w x : vm_ok m h a w -> x ∈ vm_pages w -> is_Some (m !! x).
Proof.
  intros Hok [Hx|(c & pl & Hv & Hx)]%elem_of_vm_pages.
  - apply elem_of_dom. by apply (repr_pages_dom (vm_tree _ _ _ _ Hok)).
  - destruct (vm_vcpu _ _ _ _ Hok _ _ Hv) as (_ & _ & Vp & _). by eapply vcpu_pages_in.
Qed.

(** What an object says of its owner. *)
Definition owner_is (a : Z) (x : Z) (o : obj) : Prop :=
  match o with
  | OVm _ => x = a
  | OVmm v => vmm.vm v = a
  | OVcpu v => vcpu.vm v = a
  end.

Lemma vm_objs_owner m h a w x :
  vm_ok m h a w -> x ∈ vm_objs a w -> exists o, h !! x = Some o /\ owner_is a x o.
Proof.
  intros Hok [->|[->|(pl & Hv)]]%elem_of_vm_objs.
  - destruct (vm_obj _ _ _ _ Hok) as [id ->]. by eexists.
  - rewrite (vm_vmm _ _ _ _ Hok). by eexists.
  - destruct (vm_vcpu _ _ _ _ Hok _ _ Hv) as (_ & _ & _ & v & -> & _ & _ & Ha). by eexists.
Qed.

Lemma vm_objs_apart m h a w b w' x :
  vm_ok m h a w -> vm_ok m h b w' -> a <> b -> x ∈ vm_objs a w -> x ∉ vm_objs b w'.
Proof.
  intros Ha Hb Hne Hx Hx'.
  destruct (vm_objs_owner _ _ _ _ _ Ha Hx) as (o & Ho & H1).
  destruct (vm_objs_owner _ _ _ _ _ Hb Hx') as (o' & Ho' & H2).
  rewrite Ho in Ho'. injection Ho' as <-. destruct o; simpl in *; congruence.
Qed.

(** A machine is a matter of its own pages and objects. *)
Lemma vm_ok_frame m h m' h' a w :
  vm_ok m h a w ->
  (forall x, x ∈ vm_pages w -> m' !! x = m !! x) ->
  (forall x, x ∈ vm_objs a w -> h' !! x = h !! x) -> vm_ok m' h' a w.
Proof.
  intros [Ho Hmm Ht Hv Hf Hr Hmmio] Hm Hh.
  setoid_rewrite elem_of_vm_pages in Hm. setoid_rewrite elem_of_vm_objs in Hh.
  assert (npt_repr m' (w_root w) (w_tree w)) as Ht'.
  { eapply npt_repr_frame; [done|]. intros x Hx. apply Hm. by left. }
  split; [| |done| |done..].
  - destruct Ho as [id Ho]. exists id. rewrite Hh; [done|by left].
  - rewrite Hh; [done|by right; left].
  - intros c pl Hc. destruct (Hv _ _ Hc) as (H0 & Hd & Vp & v & Hvc & Hrest).
    assert (forall x, x ∈ place_pages pl -> m' !! x = m !! x) as Hpl.
    { intros x Hx. apply Hm. right. eauto. }
    split; [done|]. split; [done|]. split.
    + setoid_rewrite elem_of_place_pages in Hpl. destruct Vp as [Pg Ph Phs Pst Pio].
      split; [rewrite Hpl by tauto; done..|].
      intros x Hx. apply elem_of_dom. rewrite Hpl by tauto. by apply elem_of_dom, Pio.
    + exists v. split; [|done]. rewrite Hh; eauto.
Qed.

(** ** Changing one machine *)

Definition opt_pages (o : option avm) : gset Z := if o is Some w then vm_pages w else ∅.
Definition opt_objs (a : Z) (o : option avm) : gset Z := if o is Some w then vm_objs a w else ∅.

(** The machine at [a] becomes [new]; the others keep their pages and objects.
    Pages that belong to no machine any more are lost: [extra]. *)
Definition changes (a : Z) (new : option avm) (extra : gset Z) (s : kstate) (W : world)
    (s' : kstate) : Prop :=
  (forall x, x ∉ opt_pages (W !! a) -> is_Some (ks_pages s !! x) ->
     ks_pages s' !! x = ks_pages s !! x) /\
  (forall x, x ∉ opt_objs a (W !! a) -> is_Some (ks_heap s !! x) ->
     ks_heap s' !! x = ks_heap s !! x) /\
  (forall x, is_Some (ks_pages s' !! x) ->
     x ∈ opt_pages new \/ x ∈ extra \/ (x ∉ opt_pages (W !! a)) /\ is_Some (ks_pages s !! x)) /\
  (forall x, is_Some (ks_heap s' !! x) ->
     x ∈ opt_objs a new \/ (x ∉ opt_objs a (W !! a)) /\ is_Some (ks_heap s !! x)) /\
  (forall x, x ∈ opt_pages new -> x ∈ opt_pages (W !! a) \/ ks_pages s !! x = None) /\
  (forall x, x ∈ extra -> ks_pages s !! x = None /\ is_Some (ks_pages s' !! x) /\ x ∉ opt_pages new).

Definition update (a : Z) (new : option avm) (W : world) : world := partial_alter (fun _ => new) a W.

Section change.
Context {a : Z} {new : option avm} {extra : gset Z} {s : kstate} {W : world} {lost : gset Z}
  {s' : kstate}.
Context (I : inv s W lost) (Ch : changes a new extra s W s').

(** The other machines share nothing with the one that changes. *)
Lemma change_apart b wb : b <> a -> W !! b = Some wb ->
  (forall x, x ∈ vm_pages wb -> x ∉ opt_pages (W !! a)) /\
  (forall x, x ∈ vm_objs b wb -> x ∉ opt_objs a (W !! a)).
Proof using I.
  intros Hne Hb. destruct (W !! a) as [w|] eqn:Hw; [|split; intros; apply not_elem_of_empty].
  split; intros x Hx Hx'.
  - by eapply (inv_apart _ _ _ I _ _ _ _ Hb Hw Hne).
  - by eapply (vm_objs_apart _ _ b wb a w); eauto using inv_vm.
Qed.

Lemma change_lookup b wb : update a new W !! b = Some wb ->
  b = a /\ new = Some wb \/ b <> a /\ W !! b = Some wb.
Proof using.
  unfold update. destruct (decide (b = a)) as [->|Hne].
  - rewrite lookup_partial_alter_eq. by left.
  - rewrite lookup_partial_alter_ne by done. by right.
Qed.

Lemma change_keep b wb : b <> a -> W !! b = Some wb -> update a new W !! b = Some wb.
Proof using. intros Hne Hb. unfold update. by rewrite lookup_partial_alter_ne. Qed.

Lemma change_vm b wb : b <> a -> W !! b = Some wb -> vm_ok (ks_pages s') (ks_heap s') b wb.
Proof using I Ch.
  intros Hne Hb. destruct (change_apart _ _ Hne Hb) as [H1 H2]. destruct Ch as (Fp & Fh & _).
  pose proof (inv_vm _ _ _ I _ _ Hb) as Hok. eapply vm_ok_frame; [done|..].
  - intros x Hx. apply Fp; [by apply H1|]. by eapply vm_pages_in.
  - intros x Hx. apply Fh; [by apply H2|].
    destruct (vm_objs_owner _ _ _ _ _ Hok Hx) as (o & -> & _). eauto.
Qed.

(** What is new was free. *)
Lemma change_disjoint b wb : b <> a -> W !! b = Some wb -> opt_pages new ## vm_pages wb.
Proof using I Ch.
  intros Hne Hb x Hx Hx'. destruct Ch as (_ & _ & _ & _ & Np & _).
  destruct (Np x Hx) as [H|H]; [by eapply (proj1 (change_apart _ _ Hne Hb))|].
  apply (vm_pages_in _ _ _ _ _ (inv_vm _ _ _ I _ _ Hb)) in Hx'. rewrite H in Hx'. by destruct Hx'.
Qed.

Lemma change_objs x : is_Some (ks_heap s' !! x) ->
  exists b wb, update a new W !! b = Some wb /\ x ∈ vm_objs b wb.
Proof using I Ch.
  destruct Ch as (_ & _ & _ & Dh & _). intros Hx. destruct (Dh x Hx) as [Hn|[Hn Hs]].
  - destruct new as [w|]; [|by apply not_elem_of_empty in Hn].
    exists a, w. split; [apply lookup_partial_alter_eq|done].
  - destruct (inv_objs _ _ _ I _ Hs) as (b & wb & Hb & Hxb). exists b, wb. split; [|done].
    apply change_keep; [|done]. intros ->. by rewrite Hb in Hn.
Qed.

Lemma change_pages x : is_Some (ks_pages s' !! x) ->
  x ∈ lost ∪ extra \/ exists b wb, update a new W !! b = Some wb /\ x ∈ vm_pages wb.
Proof using I Ch.
  destruct Ch as (_ & _ & Dp & _). intros Hx. destruct (Dp x Hx) as [Hn|[He|[Hn Hs]]].
  - right. destruct new as [w|]; [|by apply not_elem_of_empty in Hn].
    exists a, w. split; [apply lookup_partial_alter_eq|done].
  - left. apply elem_of_union. by right.
  - destruct (inv_pages _ _ _ I _ Hs) as [Hl|(b & wb & Hb & Hxb)].
    { left. apply elem_of_union. by left. }
    right. exists b, wb. split; [|done]. apply change_keep; [|done]. intros ->. by rewrite Hb in Hn.
Qed.

Lemma change_lost b wb : update a new W !! b = Some wb -> vm_pages wb ## lost ∪ extra.
Proof using I Ch.
  destruct Ch as (_ & _ & _ & _ & Np & Ex).
  intros Hb. apply disjoint_union_r. apply change_lookup in Hb as [[-> Hn]|[Hne Hb]].
  - rewrite Hn in *. split.
    + intros x Hx Hl. destruct (Np x Hx) as [H|H].
      * destruct (W !! a) as [w|] eqn:Hw; [|by apply not_elem_of_empty in H].
        by eapply (inv_lost _ _ _ I).
      * apply (inv_lost_dom _ _ _ I), elem_of_dom in Hl. rewrite H in Hl. by destruct Hl.
    + intros x Hx He. by destruct (Ex x He) as (_ & _ & []).
  - split; [by eapply (inv_lost _ _ _ I)|].
    intros x Hx He. destruct (Ex x He) as (Hn & _).
    apply (vm_pages_in _ _ _ _ _ (inv_vm _ _ _ I _ _ Hb)) in Hx. rewrite Hn in Hx. by destruct Hx.
Qed.

Lemma change_lost_dom : lost ∪ extra ⊆ dom (ks_pages s').
Proof using I Ch.
  destruct Ch as (Fp & _ & _ & _ & _ & Ex).
  intros x [Hl|He]%elem_of_union; apply elem_of_dom; [|by apply Ex].
  assert (x ∉ opt_pages (W !! a)) as Hn.
  { destruct (W !! a) as [w|] eqn:Hw; [|apply not_elem_of_empty]. intros Hx.
    by eapply (inv_lost _ _ _ I). }
  apply (inv_lost_dom _ _ _ I), elem_of_dom in Hl. by rewrite Fp.
Qed.

End change.

Lemma inv_change a new extra s W lost s' :
  inv s W lost -> changes a new extra s W s' -> mm_ok s' ->
  (forall w, new = Some w -> vm_ok (ks_pages s') (ks_heap s') a w) ->
  files_ok (ks_files s') (update a new W) -> asid_ok s' -> cpus_ok s' ->
  inv s' (update a new W) (lost ∪ extra).
Proof.
  intros I Ch Hmm Hnew Hf Ha Hc. split; try done.
  - intros b wb [[-> Hn]|[Hne Hb]]%change_lookup; [by apply Hnew|]. by eapply change_vm.
  - intros x. by eapply change_objs.
  - intros x. by eapply change_pages.
  - intros b wb c wc [[-> Hb]|[Hba Hb]]%change_lookup [[-> Hc']|[Hca Hc']]%change_lookup Hne; [done|..].
    + pose proof (change_disjoint I Ch _ _ Hca Hc') as Hd. by rewrite Hb in Hd.
    + pose proof (change_disjoint I Ch _ _ Hba Hb) as Hd. rewrite Hc' in Hd. by symmetry.
    + by eapply (inv_apart _ _ _ I).
  - intros b wb. by eapply change_lost.
  - by eapply change_lost_dom.
Qed.

End invariant.
