(* ===== verification/Handlers.v ===== *)
(** * The handlers keep the system invariant

    One lemma per handler: from a state with the invariant it returns, or panics
    for a stated reason, and leaves a state with the invariant in which one
    machine has changed in a stated way and the pages of the others have not. *)

From S2P Require Import Prelude Structs Kernel Npt Vmcb VcpuRun Vcpu VcpuSwitch Vm Driver System.

Section handlers.
Context `{L : KernelLaws} `{P : !Processor K} `{PL : !ProcessorLaws K P} `{A : !Abi K}
  `{C : Config} `{CO : !ConfigOk C}.
Implicit Types (s : kstate) (W : world) (w : avm).

(** [s] with other open files. *)
Definition with_files (f : gmap Z file) s : kstate := s <| ks_files := f |>.

(** The machine at [a] becomes [new], the invariant holds again and no page is
    lost. *)
Definition vm_post (a : Z) (new : option avm) s W (lost : gset Z) s' : Prop :=
  changes a new ∅ s W s' /\ inv s' (update a new W) lost.

Lemma inv_change_all a new s W lost s' :
  inv s W lost -> changes a new ∅ s W s' -> mm_ok s' ->
  (forall w, new = Some w -> vm_ok (ks_pages s') (ks_heap s') a w) ->
  files_ok (ks_files s') (update a new W) -> asid_ok s' -> cpus_ok s' ->
  inv s' (update a new W) lost.
Proof. intros. rewrite <- (union_empty_r_L lost). by eapply inv_change. Qed.

Lemma update_same a W : update a (W !! a) W = W.
Proof. unfold update. by apply partial_alter_self. Qed.

Lemma update_none a W : W !! a = None -> update a None W = W.
Proof. intros H. etrans; [|apply (update_same a)]. by rewrite H. Qed.

Lemma update_lookup a new W : update a new W !! a = new.
Proof. apply lookup_partial_alter_eq. Qed.

Lemma update_lookup_ne a b new W : b <> a -> update a new W !! b = W !! b.
Proof. intros Hne. by apply lookup_partial_alter_ne. Qed.

(** The processors are what they were. *)
Lemma cpus_ok_same s s' :
  cpus_ok s -> ks_cpus s' = ks_cpus s -> ks_cpu s' = ks_cpu s -> ks_misc s' = ks_misc s ->
  ks_files s' = ks_files s -> cpus_ok s'.
Proof. intros [C1 C2 C3] H1 H2 H3 H4. split; rewrite ?H1, ?H2, ?H3, ?H4; done. Qed.

Lemma cpus_ok_files s s' :
  cpus_ok s -> ks_cpus s' = ks_cpus s -> ks_cpu s' = ks_cpu s -> Forall cpu_svm (ks_cpus s) ->
  cpus_ok s'.
Proof. intros [C1 C2 C3] H1 H2 H3. split; rewrite ?H1, ?H2; done. Qed.

(** Nothing but the objects and pages of a machine changed. *)
Lemma changes_same a s W s' lost :
  inv s W lost -> ks_pages s' = ks_pages s -> ks_heap s' = ks_heap s ->
  changes a (W !! a) ∅ s W s'.
Proof.
  intros I Hp Hh. unfold changes. rewrite Hp, Hh. split_and!; [done|done|..].
  - intros x Hx. destruct (decide (x ∈ opt_pages (W !! a))); tauto.
  - intros x Hx. destruct (decide (x ∈ opt_objs a (W !! a))); tauto.
  - tauto.
  - intros x Hx. by apply not_elem_of_empty in Hx.
Qed.

(** ** Descriptors *)

Lemma wp_anon_inode_getfd f (Q : Z -> kstate -> Prop) E s :
  mm_ok s ->
  (forall k fd, - 4095 <= fd < 0 -> mm_ok (with_mem k (ks_pages s) s) ->
     Q fd (with_mem k (ks_pages s) s)) ->
  (forall k fd, 0 <= fd < 2 ^ 31 -> ks_files s !! fd = None -> kernel_fd fd ->
     mm_ok (with_files (<[fd := f]> (ks_files s)) (with_mem k (ks_pages s) s)) ->
     Q fd (with_files (<[fd := f]> (ks_files s)) (with_mem k (ks_pages s) s))) ->
  wp (anon_inode_getfd f) Q E s.
Proof.
  intros [H1 H2 H3] Hn Hs. unfold wp, anon_inode_getfd.
  destruct (getfd_op (ks_mm s)) as [fd k] eqn:Hop.
  pose proof (getfd_ok _ _ _ Hop) as (Hp & Ho & Hr & Hf).
  destruct (Z.leb_spec 0 fd) as [Hle|Hlt].
  - assert (kernel_fd fd) as Hk by (split; [done|]; exists (ks_mm s); by rewrite Hop).
    rewrite bool_decide_true in Hf by done. destruct Hf as [Hfr Hf].
    apply (Hs k fd); [lia| |done|].
    + apply not_elem_of_dom. set_solver.
    + split; simpl; [by rewrite Hp|by rewrite Ho|]. rewrite dom_insert_L, Hf. set_solver.
  - rewrite bool_decide_false in Hf by lia. apply (Hn k fd); [lia|].
    split; simpl; [by rewrite Hp|by rewrite Ho|by rewrite Hf].
Qed.

Lemma files_ok_other f W fd :
  files_ok f W -> f !! fd = None -> files_ok (<[fd := FDev]> f) W.
Proof.
  intros [Fv Fc] Hn. split.
  - intros fd' a. destruct (decide (fd' = fd)) as [->|Hne].
    + rewrite lookup_insert_eq, <- Fv. split; [done|]. congruence.
    + by rewrite lookup_insert_ne.
  - intros fd' c. destruct (decide (fd' = fd)) as [->|Hne].
    + rewrite lookup_insert_eq, <- Fc. split; [done|]. congruence.
    + by rewrite lookup_insert_ne.
Qed.

(** A descriptor tells its machine. *)
Lemma files_vm s W lost fd a :
  inv s W lost -> ks_files s !! fd = Some (FVm a) ->
  exists w, W !! a = Some w /\ w_fd w = Some fd.
Proof. intros I. apply (fd_vm _ _ (inv_files _ _ _ I)). Qed.

Lemma files_vcpu s W lost fd c :
  inv s W lost -> ks_files s !! fd = Some (FVcpu c) ->
  exists a w pl, W !! a = Some w /\ w_vcpu w = Some (c, pl) /\ w_vfd w = Some fd.
Proof. intros I. apply (fd_vcpu _ _ (inv_files _ _ _ I)). Qed.

(** ** Destroying a machine *)

(** What [yakvm_destroy_vm] needs of a machine: its object may hold any count. *)
Record vm_dying (m : gmap Z page) (h : gmap Z obj) (a : Z) (w : avm) : Prop := {
  dying_obj : exists v, h !! a = Some (OVm v) /\ vm.vmm v = w_vmm w /\ vm.vcpu v = vcpu_addr w;
  dying_vmm : h !! w_vmm w = Some (OVmm (vmm.mk (w_root w) a));
  dying_tree : npt_repr m (w_root w) (w_tree w);
  dying_vcpu c pl : w_vcpu w = Some (c, pl) -> vcpu_ok m h a (w_root w) (w_tree w) c pl
}.

Lemma vm_ok_dying m h a w : vm_ok m h a w -> vm_dying m h a w.
Proof. intros [[id Ho] Hm Ht Hv _ _ _]. split; try done. by eexists. Qed.

Lemma wp_destroy_vm a w s :
  mm_ok s -> vm_dying (ks_pages s) (ks_heap s) a w ->
  wp (yakvm_destroy_vm a)
    (fun _ s' => mm_ok s' /\ exists k m' h',
       s' = with_heap h' (with_mem k m' s) /\
       (forall x, x ∈ vm_pages w -> m' !! x = None) /\
       (forall x, x ∉ vm_pages w -> m' !! x = ks_pages s !! x) /\
       (forall x, x ∈ vm_objs a w -> h' !! x = None) /\
       (forall x, x ∉ vm_objs a w -> h' !! x = ks_heap s !! x)) never s.
Proof.
  intros Hok [(v & Hv & Hvmm & Hvc) Hmm Ht Hc]. unfold yakvm_destroy_vm.
  assert (a <> w_vmm w) as Hne by congruence.
  apply wp_bind. eapply wp_get_obj; [done..|]. rewrite Hvmm.
  apply wp_bind. eapply wp_mono; [by eapply wp_destroy_vmm|].
  intros [] s1 (Hok1 & k1 & m1 & -> & N1 & F1). mem_simpl.
  apply wp_bind. eapply wp_get_obj; [mem_simpl; by rewrite lookup_delete_ne|done|].
  rewrite Hvc.
  destruct (w_vcpu w) as [[c pl]|] eqn:Hw; unfold vcpu_addr; rewrite Hw.
  - destruct (Hc _ _ eq_refl) as (Hc0 & Hd & Vp & vc & Hvc' & Hpl & _ & Hva).
    rewrite (proj2 (Z.eqb_neq _ _)) by lia. simpl negb. cbv iota.
    apply wp_bind. eapply wp_mono; [eapply (wp_destroy_vcpu c vc pl); [done| |done|]|].
    { mem_simpl. rewrite lookup_delete_ne by congruence. done. }
    { mem_simpl. intros x Hx. apply elem_of_dom. rewrite F1 by set_solver. by eapply vcpu_pages_in. }
    intros [] s2 (Hok2 & k2 & m2 & -> & N2 & F2). mem_simpl.
    eapply wp_kfree; [done|mem_simpl; rewrite !lookup_delete_ne by congruence; eauto|].
    intros k3 Hok3. mem_simpl. split; [done|]. exists k3, m2, (delete a (delete c (delete (w_vmm w) (ks_heap s)))).
    split; [done|]. split_and!.
    + intros x [Hx|(c' & pl' & Hw' & Hx)]%elem_of_vm_pages.
      * rewrite F2 by set_solver. by apply N1.
      * rewrite Hw in Hw'. injection Hw' as <- <-. by apply N2.
    + intros x Hx. rewrite elem_of_vm_pages in Hx.
      rewrite F2, F1; [done|tauto|]. intros Hx'. apply Hx. right. eauto.
    + intros x Hx%elem_of_vm_objs. rewrite Hw in Hx. apply lookup_delete_None.
      destruct Hx as [->|[->|(pl' & [= <- <-])]]; [by left|right..];
        apply lookup_delete_None; [right; apply lookup_delete_eq|by left].
    + intros x Hx. rewrite elem_of_vm_objs in Hx.
      rewrite !lookup_delete_ne; [done|..]; intros <-; apply Hx; eauto.
  - simpl negb. cbv iota. apply wp_bind, wp_ret. 
    eapply wp_kfree; [done|mem_simpl; rewrite !lookup_delete_ne by congruence; eauto|].
    intros k3 Hok3. mem_simpl. split; [done|]. exists k3, m1, (delete a (delete (w_vmm w) (ks_heap s))).
    split; [done|]. split_and!.
    + intros x [Hx|(c' & pl' & Hw' & Hx)]%elem_of_vm_pages; [by apply N1|congruence].
    + intros x Hx. rewrite elem_of_vm_pages in Hx. apply F1. tauto.
    + intros x [->|[->|(pl' & Hw')]]%elem_of_vm_objs; [apply lookup_delete_eq| |congruence].
      apply lookup_delete_None. right. apply lookup_delete_eq.
    + intros x Hx. rewrite elem_of_vm_objs in Hx. rewrite !lookup_delete_ne; [done|..]; intros <-; apply Hx; eauto.
Qed.

(** ** Putting a machine *)

Lemma refs_range w : 0 <= refs w <= 2.
Proof. unfold refs, held. destruct (w_fd w), (w_vfd w); lia. Qed.

Lemma wp_dec a v s (Q : bool -> kstate -> Prop) E :
  ks_heap s !! a = Some (OVm v) -> - 2 ^ 31 < vm.refcount v <= 2 ^ 31 ->
  Q (vm.refcount v - 1 =? 0)
    (with_heap (<[a := OVm (v <| vm.refcount := vm.refcount v - 1 |>)]> (ks_heap s)) s) ->
  wp (atomic_dec_and_test a) Q E s.
Proof.
  intros Hv Hr HQ. unfold atomic_dec_and_test. apply wp_bind. eapply wp_get_obj; [done..|].
  rewrite sint_small by lia. apply wp_bind. eapply wp_update_vm; [done|]. by apply wp_ret.
Qed.

(** The machine without one of its descriptors. *)
Record dropped (w w' : avm) : Prop := {
  drop_vmm : w_vmm w' = w_vmm w;
  drop_root : w_root w' = w_root w;
  drop_tree : w_tree w' = w_tree w;
  drop_vcpu : w_vcpu w' = w_vcpu w;
  drop_refs : refs w' = refs w - 1;
  drop_vfd : w_vcpu w' = None -> w_vfd w' = None
}.

Lemma dropped_pages w w' : dropped w w' -> vm_pages w' = vm_pages w.
Proof. intros [? ? Ht Hv ? ?]. unfold vm_pages. by rewrite Ht, Hv. Qed.

Lemma dropped_objs a w w' : dropped w w' -> vm_objs a w' = vm_objs a w.
Proof. intros [Hm ? ? Hv ? ?]. unfold vm_objs. by rewrite Hm, Hv. Qed.

Lemma vm_vmm_ne m h a w : vm_ok m h a w -> a <> w_vmm w.
Proof. intros [[id Ho] Hm _ _ _ _ _]. congruence. Qed.

Lemma vcpu_ok_put m h a root t c pl v :
  vcpu_ok m h a root t c pl -> is_Some (h !! a ≫= as_vm) -> vcpu_ok m (<[a := OVm v]> h) a root t c pl.
Proof.
  intros (H0 & Hd & Vp & vc & Hvc & Hr) Ha. split; [done|]. split; [done|]. split; [done|].
  exists vc. split; [|done]. rewrite lookup_insert_ne; [done|].
  intros <-. rewrite Hvc in Ha. by destruct Ha.
Qed.

Definition put_result (w' : avm) : option avm := if refs w' =? 0 then None else Some w'.

(** What a machine that has grown, or is what it was, has changed. *)
Lemma changes_grow a w w' s W s' :
  W !! a = Some w ->
  (forall x, x ∉ vm_pages w' -> ks_pages s' !! x = ks_pages s !! x) ->
  (forall x, x ∉ vm_objs a w' -> ks_heap s' !! x = ks_heap s !! x) ->
  (forall x, x ∈ vm_pages w -> x ∈ vm_pages w') ->
  (forall x, x ∈ vm_pages w' -> x ∈ vm_pages w \/ ks_pages s !! x = None) ->
  (forall x, x ∈ vm_objs a w -> x ∈ vm_objs a w') ->
  (forall x, x ∈ vm_objs a w' -> x ∈ vm_objs a w \/ ks_heap s !! x = None) ->
  changes a (Some w') ∅ s W s'.
Proof.
  intros Hw Fp Fh Sp Np So No. unfold changes. rewrite Hw. simpl. split_and!.
  - intros x Hx [p Hp]. apply Fp. intros H. destruct (Np x H); [done|congruence].
  - intros x Hx [p Hp]. apply Fh. intros H. destruct (No x H); [done|congruence].
  - intros x Hx. destruct (decide (x ∈ vm_pages w')) as [|Hn]; [by left|]. right. right.
    split; [by intros H%Sp|]. by rewrite <- Fp.
  - intros x Hx. destruct (decide (x ∈ vm_objs a w')) as [|Hn]; [by left|]. right.
    split; [by intros H%So|]. by rewrite <- Fh.
  - done.
  - intros x Hx. by apply not_elem_of_empty in Hx.
Qed.

(** A machine that is gone. *)
Lemma changes_gone a w s W s' :
  W !! a = Some w ->
  (forall x, x ∈ vm_pages w -> ks_pages s' !! x = None) ->
  (forall x, x ∉ vm_pages w -> ks_pages s' !! x = ks_pages s !! x) ->
  (forall x, x ∈ vm_objs a w -> ks_heap s' !! x = None) ->
  (forall x, x ∉ vm_objs a w -> ks_heap s' !! x = ks_heap s !! x) ->
  changes a None ∅ s W s'.
Proof.
  intros Hw N1 F1 N2 F2. unfold changes. rewrite Hw. simpl. split_and!.
  - intros x Hx _. by apply F1.
  - intros x Hx _. by apply F2.
  - intros x [p Hx]. right. right. destruct (decide (x ∈ vm_pages w)) as [Hi|Hi].
    { rewrite N1 in Hx by done. done. }
    rewrite F1 in Hx by done. eauto.
  - intros x [p Hx]. right. destruct (decide (x ∈ vm_objs a w)) as [Hi|Hi].
    { rewrite N2 in Hx by done. done. }
    rewrite F2 in Hx by done. eauto.
  - intros x Hx. by apply not_elem_of_empty in Hx.
  - intros x Hx. by apply not_elem_of_empty in Hx.
Qed.

(** The machine's object rewritten. *)
Lemma put_other a w v s x :
  x ∉ vm_objs a w -> <[a := OVm v]> (ks_heap s) !! x = ks_heap s !! x.
Proof. intros Hx. apply lookup_insert_ne. intros <-. apply Hx, elem_of_vm_objs. by left. Qed.

(** A machine with a reference less that is still referred to. *)
Lemma dropped_vm_ok m h a w w' id :
  vm_ok m h a w -> dropped w w' -> refs w' <> 0 ->
  vm_ok m (<[a := OVm (vm.mk false (refs w') (vcpu_addr w) (w_vmm w) id)]> h) a w'.
Proof.
  intros Hok D Hz. pose proof (vm_vmm_ne _ _ _ _ Hok) as Hne. pose proof (refs_range w').
  destruct Hok as [[id0 Ho] Hvmm Ht Hv Hvf Hr Hmmio].
  split; rewrite ?(drop_root _ _ D), ?(drop_tree _ _ D), ?(drop_vmm _ _ D), ?(drop_vcpu _ _ D).
  - exists id. unfold vcpu_addr. rewrite (drop_vcpu _ _ D). apply lookup_insert_eq.
  - by rewrite lookup_insert_ne.
  - done.
  - intros c pl Hc. eapply vcpu_ok_put; [by apply Hv|]. rewrite Ho. by eexists.
  - rewrite <- (drop_vcpu _ _ D). apply D.
  - lia.
  - done.
Qed.

Lemma dropped_dying m h a w w' id r :
  vm_ok m h a w -> dropped w w' ->
  vm_dying m (<[a := OVm (vm.mk false r (vcpu_addr w) (w_vmm w) id)]> h) a w'.
Proof.
  intros Hok D. pose proof (vm_vmm_ne _ _ _ _ Hok) as Hne.
  destruct Hok as [[id0 Ho] Hvmm Ht Hv _ _ _].
  split; rewrite ?(drop_root _ _ D), ?(drop_tree _ _ D), ?(drop_vmm _ _ D), ?(drop_vcpu _ _ D).
  - eexists. split; [apply lookup_insert_eq|]. simpl. unfold vcpu_addr. by rewrite (drop_vcpu _ _ D).
  - by rewrite lookup_insert_ne.
  - done.
  - intros c pl Hc. eapply vcpu_ok_put; [by apply Hv|]. rewrite Ho. by eexists.
Qed.

(** No page is touched, and of the objects only that at [a]. *)
Definition survives (a : Z) s s' : Prop :=
  ks_pages s' = ks_pages s /\ forall x, x <> a -> ks_heap s' !! x = ks_heap s !! x.

Lemma wp_put_vm a w w' s s1 W lost :
  inv s W lost -> W !! a = Some w -> dropped w w' ->
  ks_pages s1 = ks_pages s -> ks_heap s1 = ks_heap s -> mm_ok s1 -> asid_ok s1 -> cpus_ok s1 ->
  files_ok (ks_files s1) (update a (put_result w') W) ->
  wp (yakvm_put_vm a) (fun _ s' => vm_post a (put_result w') s W lost s' /\
    (refs w' <> 0 -> survives a s s') /\
    ks_files s' = ks_files s1 /\ ks_asid s' = ks_asid s1) never s1.
Proof.
  intros I Hw D Hp Hh Hmm Has Hcp Hf. pose proof (inv_vm _ _ _ I _ _ Hw) as Hok.
  destruct (vm_obj _ _ _ _ Hok) as [id Ho]. pose proof (refs_range w).
  pose proof (vm_refs _ _ _ _ Hok).
  unfold yakvm_put_vm. apply wp_bind. eapply wp_dec; [by rewrite Hh|simpl; lia|]. simpl.
  rewrite <- (drop_refs _ _ D), Hh. set (h1 := <[a := OVm _]> (ks_heap s)).
  assert (mm_ok (with_heap h1 s1)) as Hmm1.
  { eapply mm_ok_sub; [exact Hmm|done|done| |done]. unfold h1. simpl.
    rewrite dom_insert_lookup_L; [by rewrite Hh|eauto]. }
  pose proof (dropped_objs a _ _ D) as Eo. pose proof (dropped_pages _ _ D) as Ep.
  unfold put_result in *. destruct (Z.eqb_spec (refs w') 0) as [Hz|Hz].
  - eapply wp_mono; [eapply (wp_destroy_vm a w'); [done|simpl; rewrite Hp; by eapply dropped_dying]|].
    intros [] s' (Hok' & k & m' & h' & -> & N1 & F1 & N2 & F2). mem_simpl.
    rewrite Ep in *. rewrite Eo in *. rewrite Hp in F1.
    assert (changes a None ∅ s W (with_heap h' (with_mem k m' s1))) as Hch.
    { eapply changes_gone; [done..|]. intros x Hx. mem_simpl. rewrite F2 by done.
      by eapply put_other. }
    split; [|done]. split; [done|]. eapply inv_change_all; [done..| |done|done|]; [done|].
    destruct Hcp. by split.
  - apply wp_ret.
    assert (changes a (Some w') ∅ s W (with_heap h1 s1)) as Hch.
    { eapply changes_grow; [done|..]; rewrite ?Ep, ?Eo; simpl; rewrite ?Hp; try done; try tauto.
      intros x Hx. by eapply put_other. }
    split; [|split; [intros _; split; [done|intros x Hx; by apply lookup_insert_ne]|done]].
    split; [done|]. eapply inv_change_all; [done..| |done|done|by destruct Hcp].
    intros ? [= <-]. simpl. rewrite Hp. by apply dropped_vm_ok.
Qed.

(** What closing the descriptor [fd] of the machine at [a], [w'] without it,
    leaves. *)
Definition close_post (a : Z) w' (fd : Z) s W lost (r : Z) s' : Prop :=
  vm_post a (put_result w') s W lost s' /\ (refs w' <> 0 -> survives a s s') /\
  r = 0 /\ ks_files s' = delete fd (ks_files s) /\ ks_asid s' = ks_asid s.

(** ** Closing a descriptor *)

Lemma put_result_lookup a w' W b wb :
  update a (put_result w') W !! b = Some wb ->
  b = a /\ wb = w' \/ b <> a /\ W !! b = Some wb.
Proof.
  destruct (decide (b = a)) as [->|Hne].
  - rewrite update_lookup. unfold put_result. destruct (refs w' =? 0); naive_solver.
  - rewrite update_lookup_ne by done. naive_solver.
Qed.

Lemma put_result_other a w' W b wb :
  b <> a -> W !! b = Some wb -> update a (put_result w') W !! b = Some wb.
Proof. intros. by rewrite update_lookup_ne. Qed.

Lemma put_result_self a w' W : 0 < refs w' -> update a (put_result w') W !! a = Some w'.
Proof. intros. rewrite update_lookup. unfold put_result. by rewrite (proj2 (Z.eqb_neq _ _)) by lia. Qed.

Lemma files_close_vm f W a w fd :
  files_ok f W -> W !! a = Some w -> w_fd w = Some fd ->
  files_ok (delete fd f) (update a (put_result (w <| w_fd := None |>)) W).
Proof.
  intros [Fv Fc] Hw Hfd. assert (f !! fd = Some (FVm a)) as Hf by (apply Fv; eauto).
  set (w' := w <| w_fd := None |>). split.
  - intros fd' b. split.
    + intros [Hne Hb]%lookup_delete_Some. apply Fv in Hb as Hb'. destruct Hb' as (wb & Hwb & Hfb).
      exists wb. split; [|done]. apply put_result_other; congruence.
    + intros (wb & [[-> ->]|[Hne Hwb]]%put_result_lookup & Hfb); [done|].
      apply lookup_delete_Some. split; [|apply Fv; eauto]. intros <-.
      assert (f !! fd = Some (FVm b)) as Hf2 by (apply Fv; eauto). congruence.
  - intros fd' c. split.
    + intros [Hne Hb]%lookup_delete_Some. apply Fc in Hb as (b & wb & pl & Hwb & Hc & Hfb).
      destruct (decide (b = a)) as [->|Hba].
      * assert (wb = w) as -> by congruence. exists a, w', pl.
        split; [|done]. apply put_result_self. unfold refs, w'. simpl. by rewrite Hfb.
      * exists b, wb, pl. split; [|done]. by apply put_result_other.
    + intros (b & wb & pl & Hwb & Hc & Hfb). apply lookup_delete_Some.
      assert (f !! fd' = Some (FVcpu c)) as Hf2.
      { apply put_result_lookup in Hwb as [[-> ->]|[Hne Hwb]]; apply Fc; [by exists a, w, pl|eauto 6]. }
      split; congruence.
Qed.

Lemma files_close_vcpu f W a w fd c pl :
  files_ok f W -> W !! a = Some w -> w_vcpu w = Some (c, pl) -> w_vfd w = Some fd ->
  (forall b wb pl', W !! b = Some wb -> w_vcpu wb = Some (c, pl') -> b = a) ->
  files_ok (delete fd f) (update a (put_result (w <| w_vfd := None |>)) W).
Proof.
  intros [Fv Fc] Hw Hvc Hfd Hu. assert (f !! fd = Some (FVcpu c)) as Hf by (apply Fc; eauto 6).
  set (w' := w <| w_vfd := None |>). split.
  - intros fd' b. split.
    + intros [Hne Hb]%lookup_delete_Some. apply Fv in Hb as (wb & Hwb & Hfb).
      destruct (decide (b = a)) as [->|Hba].
      * assert (wb = w) as -> by congruence. exists w'. split; [|done].
        apply put_result_self. unfold refs, w'. simpl. by rewrite Hfb.
      * exists wb. split; [|done]. by apply put_result_other.
    + intros (wb & Hwb & Hfb). apply lookup_delete_Some.
      assert (f !! fd' = Some (FVm b)) as Hf2.
      { apply put_result_lookup in Hwb as [[-> ->]|[Hne Hwb]]; apply Fv; [by exists w|eauto]. }
      split; congruence.
  - intros fd' c'. split.
    + intros [Hne Hb]%lookup_delete_Some. apply Fc in Hb as Hb'.
      destruct Hb' as (b & wb & pl' & Hwb & Hc & Hfb).
      exists b, wb, pl'. split; [|done]. apply put_result_other; congruence.
    + intros (b & wb & pl' & [[-> ->]|[Hne Hwb]]%put_result_lookup & Hc & Hfb); [done|].
      assert (f !! fd' = Some (FVcpu c')) as Hf2 by (apply Fc; eauto 6).
      apply lookup_delete_Some. split; [|done]. intros <-. apply Hne.
      assert (c' = c) as -> by congruence. by eapply Hu.
Qed.

(** A vcpu belongs to one machine. *)
Lemma vcpu_owner s W lost a b w wb c pl pl' :
  inv s W lost -> W !! a = Some w -> W !! b = Some wb ->
  w_vcpu w = Some (c, pl) -> w_vcpu wb = Some (c, pl') -> b = a.
Proof.
  intros I Hw Hb Hc Hc'. destruct (decide (b = a)) as [|Hne]; [done|]. exfalso.
  eapply (vm_objs_apart _ _ b wb a w c); eauto using inv_vm; rewrite elem_of_vm_objs; eauto.
Qed.

(** Closing any descriptor, up to the release of its file. *)
Lemma closed_ok s W lost fd f :
  inv s W lost -> ks_files s !! fd = Some f ->
  let s1 := s <| ks_mm := putfd_op (ks_mm s) fd |> <| ks_files := delete fd (ks_files s) |> in
  mm_ok s1 /\ asid_ok s1 /\ cpus_ok s1.
Proof.
  intros I Hf s1. destruct (inv_mm _ _ _ I) as [H1 H2 H3].
  destruct (putfd_used (ks_mm s) fd) as (U1 & U2 & U3).
  { apply H3. by eapply elem_of_dom_2. }
  split; [|split; [apply I|]].
  - split; simpl; [by rewrite U2|by rewrite U3|]. rewrite dom_delete_L, U1. set_solver.
  - destruct (inv_cpus _ _ _ I) as [C1 C2 C3]. split; [done|done|]. simpl. intros Hm. apply C3.
    right. intros He. by rewrite He in Hf.
Qed.

Lemma wp_close_vm s W lost fd a w :
  inv s W lost -> ks_files s !! fd = Some (FVm a) -> W !! a = Some w -> w_fd w = Some fd ->
  wp (step (SysClose fd))
    (close_post a (w <| w_fd := None |>) fd s W lost) never s.
Proof.
  intros I Hf Hw Hfd. unfold step. apply wp_bind, wp_gets. rewrite Hf.
  apply wp_bind, wp_modify. destruct (closed_ok _ _ _ _ _ I Hf) as (Hmm & Ha & Hc).
  apply wp_bind. eapply wp_mono; [eapply (wp_put_vm a w); try done|intros [] s' (Hs' & Hsv & Hf' & Ha'); by apply wp_ret].
  - split; try done; [|apply (vm_vfd _ _ _ _ (inv_vm _ _ _ I _ _ Hw))]. unfold refs. simpl. rewrite Hfd. simpl. lia.
  - apply files_close_vm; [apply I|done..].
Qed.

Lemma wp_close_vcpu s W lost fd a w c pl :
  inv s W lost -> ks_files s !! fd = Some (FVcpu c) -> W !! a = Some w ->
  w_vcpu w = Some (c, pl) -> w_vfd w = Some fd ->
  wp (step (SysClose fd))
    (close_post a (w <| w_vfd := None |>) fd s W lost) never s.
Proof.
  intros I Hf Hw Hvc Hfd. unfold step. apply wp_bind, wp_gets. rewrite Hf.
  apply wp_bind, wp_modify. destruct (closed_ok _ _ _ _ _ I Hf) as (Hmm & Ha & Hc).
  destruct (vm_vcpu _ _ _ _ (inv_vm _ _ _ I _ _ Hw) _ _ Hvc) as (_ & _ & _ & v & Hv & _ & _ & Hva).
  apply wp_bind. eapply wp_get_obj; [exact Hv|done|]. rewrite Hva.
  apply wp_bind. eapply wp_mono; [eapply (wp_put_vm a w); try done|intros [] s' (Hs' & Hsv & Hf' & Ha'); by apply wp_ret].
  - split; try done. unfold refs. simpl. rewrite Hfd. simpl. lia.
  - eapply files_close_vcpu; [apply I|done..|]. intros b wb pl' Hb Hc'. by eapply vcpu_owner.
Qed.

(** ** Steps that change no machine *)

Lemma inv_files_only s W lost s' :
  inv s W lost -> ks_pages s' = ks_pages s -> ks_heap s' = ks_heap s -> mm_ok s' ->
  files_ok (ks_files s') W -> asid_ok s' -> cpus_ok s' -> inv s' W lost.
Proof.
  intros I Hp Hh Hmm Hf Ha Hc. destruct I. split; rewrite ?Hp, ?Hh; done.
Qed.

Lemma vm_post_same a s W lost s' :
  inv s W lost -> ks_pages s' = ks_pages s -> ks_heap s' = ks_heap s -> inv s' W lost ->
  vm_post a (W !! a) s W lost s'.
Proof.
  intros I Hp Hh I'. split; [by eapply changes_same|].
  by rewrite update_same.
Qed.

Lemma wp_close_dev s W lost fd :
  inv s W lost -> ks_files s !! fd = Some FDev ->
  wp (step (SysClose fd)) (fun r s' => ks_pages s' = ks_pages s /\ inv s' W lost /\
    r = 0 /\ ks_files s' = delete fd (ks_files s) /\ ks_asid s' = ks_asid s) never s.
Proof.
  intros I Hf. unfold step. apply wp_bind, wp_gets. rewrite Hf.
  apply wp_bind, wp_modify, wp_ret. destruct (closed_ok _ _ _ _ _ I Hf) as (Hmm & Ha & Hc).
  split; [done|]. split; [|done]. eapply inv_files_only; try done.
  destruct (inv_files _ _ _ I) as [Fv Fc]. split; simpl.
  - intros fd' a. rewrite <- Fv. rewrite lookup_delete_Some. naive_solver.
  - intros fd' c. rewrite <- Fc. rewrite lookup_delete_Some. naive_solver.
Qed.

Lemma wp_open s W lost :
  inv s W lost ->
  wp (step SysOpen) (fun r s' => ks_pages s' = ks_pages s /\ inv s' W lost /\
    ks_asid s' = ks_asid s /\ (ks_misc s = false -> r = - ENXIO) /\
    (r < 0 /\ ks_files s' = ks_files s \/
     0 <= r /\ ks_misc s = true /\ kernel_fd r /\ ks_files s !! r = None /\ ks_files s' = <[r := FDev]> (ks_files s)))
    never s.
Proof.
  intros I. unfold step. apply wp_bind, wp_gets, wp_bind, wp_gets.
  destruct (ks_misc s) eqn:Hmisc; simpl; [|by apply wp_ret; split_and!; try done; left].
  destruct (inv_cpus _ _ _ I) as [C1 C2 C3].
  apply wp_anon_inode_getfd; [apply I|..].
  - intros k fd Hfd Hok. split; [done|]. split; [|split; [done|split; [done|left; split; [lia|done]]]].
    eapply inv_files_only; try done; apply I.
  - intros k fd Hfd Hfr Hk Hok. split; [done|]. split; [|split; [done|split; [done|right; split; [lia|done]]]].
    eapply inv_files_only; try done; [apply files_ok_other; [apply I|done]|apply I|].
    split; [done|done|]. intros _. apply C3. by left.
Qed.

(** ** Creating a machine *)

(** A machine just created: nothing of it was there before, its table maps the
    path of the MMIO page only, and that page is hidden. *)
Definition fresh_vm (s : kstate) (a : Z) (m' : gmap Z page) (w : avm) : Prop :=
  ks_heap s !! a = None /\ ks_heap s !! w_vmm w = None /\ a <> w_vmm w /\ 0 < a < 2 ^ 64 - 4096 /\
  ks_pages s ⊆ m' /\ npt_repr m' (w_root w) (w_tree w) /\
  dom m' = dom (ks_pages s) ∪ tree_pages (w_tree w) /\
  tree_pages (w_tree w) ## dom (ks_pages s) /\ w_vcpu w = None /\ w_vfd w = None /\
  (exists x, w_tree w !! path YAKVM_MMIO_HAWK = Some (x, false)) /\
  (forall q n, w_tree w !! q = Some n -> q `prefix_of` path YAKVM_MMIO_HAWK).

Lemma wp_create_vm s :
  mm_ok s ->
  wp yakvm_create_vm (fun res s' => mm_ok s' /\
    match res with
    | inl e => e = - ENOMEM /\ exists k m', s' = with_mem k m' s /\ ks_pages s ⊆ m'
    | inr a => exists k m' w, fresh_vm s a m' w /\ w_fd w = None /\
        s' = with_heap (<[a := OVm (vm.mk false 1 0 (w_vmm w) vm_id)]>
               (<[w_vmm w := OVmm (vmm.mk (w_root w) a)]> (ks_heap s))) (with_mem k m' s)
    end) never s.
Proof.
  intros Hok. unfold yakvm_create_vm. apply wp_bind, wp_kmalloc; [done|..].
  { intros k Hk. apply wp_ret. split; [done|]. split; [done|]. by eexists _, _. }
  intros k a Ha Hr Hok1. apply wp_bind. eapply wp_mono; [by apply wp_create_vmm|].
  intros [e|vmm] s1 Hs1.
  - destruct Hs1 as (-> & Hok2 & k2 & m2 & -> & Hsub). mem_simpl.
    apply wp_bind, wp_kfree; [done|mem_simpl; rewrite lookup_insert_eq; eauto|].
    intros k3 Hok3. mem_simpl. rewrite delete_insert_id in * by done.
    apply wp_ret. split; [done|]. split; [done|]. exists k3, m2. by destruct s.
  - destruct Hs1 as (Hok2 & Hfr & Hvr & k2 & m2 & root & t & x & -> & Hsub & R & Hdom & Hd & Hx & Hpre).
    mem_simpl. assert (a <> vmm) as Hne.
    { intros ->. by rewrite lookup_insert_eq in Hfr. }
    rewrite lookup_insert_ne in Hfr by done.
    rewrite insert_insert_ne in * by done.
    do 4 (apply wp_bind; eapply wp_update_vm; [apply lookup_insert_eq|]; mem_simpl;
          rewrite insert_insert_eq).
    apply wp_ret. split.
    { eapply mm_ok_sub; [exact Hok2|done|done| |done]. simpl. rewrite !dom_insert_L. done. }
    exists k2, m2, (AVm K vmm root t None None None). split; [|done].
    unfold fresh_vm. simpl. split_and!; eauto; lia.
Qed.

Lemma fresh_vm_mmio s a m' w : fresh_vm s a m' w -> tree_mmio (w_tree w).
Proof.
  intros (_ & _ & _ & _ & _ & R & _ & _ & _ & _ & Hx & Hp). split; [done|].
  intros q x Hq. destruct (Hp _ _ Hq) as [r Hr].
  assert (length q = 4%nat) as Hl.
  { destruct (repr_path _ _ _ R _ _ Hq) as [Hl _]. destruct (decide (length q < 4)%nat); [|lia].
    by pose proof (repr_present R _ _ _ Hq ltac:(done)). }
  apply (f_equal length) in Hr as Hlen. unfold path in Hlen.
  rewrite length_app, path_from_length in Hlen. destruct r; [|simpl in Hlen; lia].
  by rewrite app_nil_r in Hr.
Qed.

Lemma files_new_vm f W a w fd :
  files_ok f W -> W !! a = None -> f !! fd = None -> w_vcpu w = None -> w_vfd w = None ->
  files_ok (<[fd := FVm a]> f) (update a (Some (w <| w_fd := Some fd |>)) W).
Proof.
  intros [Fv Fc] Hw Hf Hc Hv. set (w' := w <| w_fd := Some fd |>). split.
  - intros fd' b. destruct (decide (fd' = fd)) as [->|Hne].
    + rewrite lookup_insert_eq. split.
      * intros [= <-]. exists w'. by rewrite update_lookup.
      * intros (wb & Hwb & Hfb). destruct (decide (b = a)) as [->|Hba]; [done|].
        rewrite update_lookup_ne in Hwb by done.
        assert (f !! fd = Some (FVm b)) by (apply Fv; eauto). congruence.
    + rewrite lookup_insert_ne by done. rewrite Fv. split.
      * intros (wb & Hwb & Hfb). exists wb. rewrite update_lookup_ne by congruence. done.
      * intros (wb & Hwb & Hfb). destruct (decide (b = a)) as [->|Hba].
        -- rewrite update_lookup in Hwb. injection Hwb as <-. simpl in Hfb. congruence.
        -- rewrite update_lookup_ne in Hwb by done. eauto.
  - intros fd' c. destruct (decide (fd' = fd)) as [->|Hne].
    + rewrite lookup_insert_eq. split; [done|].
      intros (b & wb & pl & Hwb & Hcb & Hfb). exfalso. destruct (decide (b = a)) as [->|Hba].
      * rewrite update_lookup in Hwb. injection Hwb as <-. simpl in Hfb. congruence.
      * rewrite update_lookup_ne in Hwb by done.
        assert (f !! fd = Some (FVcpu c)) by (apply Fc; eauto 6). congruence.
    + rewrite lookup_insert_ne by done. rewrite Fc. split.
      * intros (b & wb & pl & Hwb & Hr). exists b, wb, pl.
        rewrite update_lookup_ne by congruence. done.
      * intros (b & wb & pl & Hwb & Hcb & Hfb). destruct (decide (b = a)) as [->|Hba].
        -- rewrite update_lookup in Hwb. injection Hwb as <-. simpl in Hfb. congruence.
        -- rewrite update_lookup_ne in Hwb by done. eauto 6.
Qed.

(** Pages taken and given to no machine are lost. *)
Lemma inv_lose s W lost k m' :
  inv s W lost -> mm_ok (with_mem k m' s) -> ks_pages s ⊆ m' ->
  inv (with_mem k m' s) W (lost ∪ dom m' ∖ dom (ks_pages s)).
Proof.
  intros I Hok Hsub. assert (W !! fresh (dom W) = None) as Ha by apply not_elem_of_dom, is_fresh.
  set (a := fresh (dom W)) in *. clearbody a.
  assert (changes a None (dom m' ∖ dom (ks_pages s)) s W (with_mem k m' s)) as Hch.
  { unfold changes. rewrite Ha. simpl. mem_simpl. split_and!.
    - intros x _ [p Hp]. rewrite Hp. by eapply lookup_weaken.
    - done.
    - intros x Hx. right. rewrite elem_of_difference, !elem_of_dom.
      destruct (ks_pages s !! x) eqn:Hp; [right; split; [set_solver|eauto]|].
      left. split; [done|by intros []].
    - intros x Hx. right. split; [set_solver|done].
    - set_solver.
    - intros x Hx. apply elem_of_difference in Hx as [H1 H2]. rewrite elem_of_dom in H1.
      split; [by apply not_elem_of_dom|]. split; [done|set_solver]. }
  rewrite <- (update_none a W) by done. eapply inv_change; try done; try apply I.
  - rewrite update_none by done. apply I.
  - by eapply cpus_ok_same; [apply I|..].
Qed.

(** ** A machine just created *)
Section fresh.
Context {s : kstate} {a : Z} {m' : gmap Z page} {w : avm} (F : fresh_vm s a m' w).
#[local] Abbreviation h1 := (<[a := OVm (vm.mk false 1 0 (w_vmm w) vm_id)]>
  (<[w_vmm w := OVmm (vmm.mk (w_root w) a)]> (ks_heap s))).

Lemma fresh_dying : vm_dying m' h1 a w.
Proof using F.
  destruct F as (Ha & Hvm & Hne & Har & Hsub & R & Hdom & Hd & Hvc & Hvfd & _). split.
  - eexists. split; [apply lookup_insert_eq|]. unfold vcpu_addr. by rewrite Hvc.
  - by rewrite lookup_insert_ne, lookup_insert_eq.
  - done.
  - by rewrite Hvc.
Qed.

(** Destroyed again it leaves what there was. *)
Lemma fresh_undone (m4 : gmap Z page) (h4 : gmap Z obj) :
  (forall x, x ∈ vm_pages w -> m4 !! x = None) ->
  (forall x, x ∉ vm_pages w -> m4 !! x = m' !! x) ->
  (forall x, x ∈ vm_objs a w -> h4 !! x = None) ->
  (forall x, x ∉ vm_objs a w -> h4 !! x = h1 !! x) ->
  m4 = ks_pages s /\ h4 = ks_heap s.
Proof using F.
  destruct F as (Ha & Hvm & Hne & Har & Hsub & R & Hdom & Hd & Hvc & Hvfd & _).
  assert (vm_pages w = tree_pages (w_tree w)) as Ep.
  { unfold vm_pages. rewrite Hvc. apply union_empty_r_L. }
  assert (forall x, x ∈ vm_objs a w <-> x = a \/ x = w_vmm w) as Eo.
  { intros x. rewrite elem_of_vm_objs, Hvc. naive_solver. }
  rewrite Ep. setoid_rewrite Eo. intros N1 F1 N2 F2. split.
  - by eapply pages_restored.
  - apply map_eq. intros x.
    destruct (decide (x = a)) as [->|N3]; [rewrite N2 by tauto; congruence|].
    destruct (decide (x = w_vmm w)) as [->|N4]; [rewrite N2 by tauto; congruence|].
    rewrite F2 by tauto. by rewrite !lookup_insert_ne.
Qed.

Lemma fresh_changes W lost fd s4 :
  inv s W lost -> ks_pages s4 = m' -> ks_heap s4 = h1 ->
  W !! a = None /\ changes a (Some (w <| w_fd := Some fd |>)) ∅ s W s4.
Proof using F.
  destruct F as (Ha & Hvm & Hne & Har & Hsub & R & Hdom & Hd & Hvc & Hvfd & _).
  intros I Hp Hh. assert (W !! a = None) as HWa.
  { destruct (W !! a) as [w0|] eqn:Hw; [|done].
    destruct (vm_obj _ _ _ _ (inv_vm _ _ _ I _ _ Hw)) as [id Hid]. congruence. }
  split; [done|]. unfold changes. rewrite HWa. simpl opt_pages. simpl opt_objs. rewrite Hp, Hh.
  split_and!.
  - intros x _ [p Hx]. rewrite Hx. by eapply lookup_weaken.
  - intros x _ [o Ho]. rewrite !lookup_insert_ne; congruence.
  - intros x Hx. apply elem_of_dom in Hx. rewrite Hdom in Hx.
    apply elem_of_union in Hx as [Hx|Hx]; [|by left; apply elem_of_vm_pages; left].
    right. right. split; [apply not_elem_of_empty|by apply elem_of_dom].
  - intros x Hx. destruct (decide (x = a)) as [->|N1]; [left; apply elem_of_vm_objs; by left|].
    destruct (decide (x = w_vmm w)) as [->|N2]; [left; apply elem_of_vm_objs; by right; left|].
    rewrite !lookup_insert_ne in Hx by done. right. split; [apply not_elem_of_empty|done].
  - intros x [Hx|(c & pl & Hc & _)]%elem_of_vm_pages; [|simpl in Hc; congruence].
    right. apply not_elem_of_dom. intros H. by apply (Hd x).
  - intros x Hx. by apply not_elem_of_empty in Hx.
Qed.

Lemma fresh_ok fd : vm_ok m' h1 a (w <| w_fd := Some fd |>).
Proof using F.
  pose proof (fresh_vm_mmio _ _ _ _ F) as Hmmio.
  destruct F as (Ha & Hvm & Hne & Har & Hsub & R & Hdom & Hd & Hvc & Hvfd & _). split; simpl.
  - exists vm_id. unfold refs, vcpu_addr. simpl. rewrite Hvc, Hvfd. apply lookup_insert_eq.
  - by rewrite lookup_insert_ne, lookup_insert_eq.
  - done.
  - by rewrite Hvc.
  - done.
  - unfold refs. simpl. rewrite Hvfd. simpl. lia.
  - done.
Qed.

End fresh.

(** A new machine with the descriptor [r]; or an error, with pages lost only when
    memory ran out. *)
Lemma wp_dev_ioctl_create_vm s W lost :
  inv s W lost -> Forall cpu_svm (ks_cpus s) ->
  wp yakvm_dev_ioctl_create_vm (fun r s' => ks_asid s' = ks_asid s /\
    ((0 <= r /\ exists a w, W !! a = None /\ vm_post a (Some w) s W lost s' /\
       w_fd w = Some r /\ fresh_vm s a (ks_pages s') w /\ kernel_fd r /\
       ks_files s !! r = None /\ ks_files s' = <[r := FVm a]> (ks_files s)) \/
    (r < 0 /\ ks_files s' = ks_files s /\ ks_pages s ⊆ ks_pages s' /\ exists lost', lost ⊆ lost' /\ inv s' W lost' /\
       (r <> - ENOMEM -> lost' = lost)))) never s.
Proof.
  intros I Hsvm. unfold yakvm_dev_ioctl_create_vm. apply wp_bind.
  eapply wp_mono; [apply wp_create_vm; apply I|].
  intros [e|a] s1 [Hok1 Hs1].
  - destruct Hs1 as (-> & k & m' & -> & Hsub). apply wp_ret.
    split; [done|]. right. split; [done|]. split; [done|]. split; [done|].
    eexists. split; [|split; [by eapply inv_lose|done]]. apply union_subseteq_l.
  - destruct Hs1 as (k & m' & w & F & Hfd & ->).
    apply wp_bind, wp_anon_inode_getfd; [done|..]; mem_simpl.
    + intros k3 fd Hfd3 Hok3. rewrite (proj2 (Z.ltb_lt _ _)) by lia.
      apply wp_bind. eapply wp_mono; [eapply (wp_destroy_vm a w); [done|by apply fresh_dying]|].
      intros [] s3 (Hok4 & k4 & m4 & h4 & -> & N1 & F1 & N2 & F2). mem_simpl. apply wp_ret.
      split; [done|]. right. split; [lia|]. split; [done|]. destruct (fresh_undone F m4 h4 N1 F1 N2 F2) as [-> ->].
      split; [done|]. exists lost. split; [done|]. split; [|done].
      eapply inv_files_only; try done; try apply I. by eapply cpus_ok_same; [apply I|..].
    + intros k3 fd Hfd3 Hfree Hk Hok3. rewrite (proj2 (Z.ltb_ge _ _)) by lia. apply wp_ret.
      split; [done|]. left. split; [lia|]. exists a, (w <| w_fd := Some fd |>).
      set (s4 := with_files _ _) in *.
      destruct (fresh_changes F W lost fd s4 I eq_refl eq_refl) as [HWa Hch].
      split; [done|]. split; [|by split_and!].
      split; [done|]. eapply inv_change_all; try done; try apply I.
      * intros ? [= <-]. by apply fresh_ok.
      * apply files_new_vm; [apply I|done|done|by apply F..].
      * eapply cpus_ok_files; [apply I|done..].
Qed.

End handlers.
