(* ===== verification/HandlersVcpu.v ===== *)
(** * The handlers of memory and vcpus keep the system invariant

    Page creation, vcpu creation and the calls on a vcpu, each as a change of one
    machine. *)

From S2P Require Import Prelude Structs Kernel Npt Vmcb VcpuRun Vcpu VcpuSwitch Vm.
From S2P Require Import Driver System Handlers.

Section handlers.
Context `{L : KernelLaws} `{P : !Processor K} `{PL : !ProcessorLaws K P} `{A : !Abi K}
  `{C : Config} `{CO : !ConfigOk C}.
Implicit Types (s : kstate) (W : world) (w : avm).

(** ** A machine that keeps what it has *)

(** The descriptors do not change. *)
Lemma files_ok_keep f W a w w' :
  files_ok f W -> W !! a = Some w -> w_fd w' = w_fd w -> w_vfd w' = w_vfd w ->
  w_vcpu w' = w_vcpu w -> files_ok f (update a (Some w') W).
Proof.
  intros [Fv Fc] Hw E1 E2 E3. split.
  - intros fd b. rewrite Fv. destruct (decide (b = a)) as [->|Hne].
    + rewrite update_lookup. split; [|naive_solver congruence].
      intros (w0 & Hw0 & Hfd). exists w'. split; [done|]. congruence.
    + by rewrite update_lookup_ne.
  - intros fd c. rewrite Fc. split.
    + intros (b & wb & pl & Hb & Hr). destruct (decide (b = a)) as [->|Hne].
      * exists a, w', pl. rewrite update_lookup. assert (wb = w) as -> by congruence.
        by rewrite E2, E3.
      * exists b, wb, pl. by rewrite update_lookup_ne.
    + intros (b & wb & pl & Hb & Hr). destruct (decide (b = a)) as [->|Hne].
      * rewrite update_lookup in Hb. injection Hb as <-. exists a, w, pl. by rewrite <- E2, <- E3.
      * rewrite update_lookup_ne in Hb by done. eauto.
Qed.

(** The machine at [a] with another tree, or its pages and vcpu rewritten. *)
Lemma vm_post_keep a w w' s W lost s' :
  inv s W lost -> W !! a = Some w -> mm_ok s' ->
  (forall x, x ∉ vm_pages w' -> ks_pages s' !! x = ks_pages s !! x) ->
  (forall x, x ∉ vm_objs a w -> ks_heap s' !! x = ks_heap s !! x) ->
  (forall x, x ∈ vm_pages w -> x ∈ vm_pages w') ->
  (forall x, x ∈ vm_pages w' -> x ∈ vm_pages w \/ ks_pages s !! x = None) ->
  vm_objs a w' = vm_objs a w -> vm_ok (ks_pages s') (ks_heap s') a w' ->
  w_fd w' = w_fd w -> w_vfd w' = w_vfd w -> w_vcpu w' = w_vcpu w ->
  ks_files s' = ks_files s -> asid_ok s' -> cpus_ok s' ->
  vm_post a (Some w') s W lost s'.
Proof.
  intros I Hw Hmm Fp Fh Sp Np Eo Hok E1 E2 E3 Ef Ha Hc.
  assert (changes a (Some w') ∅ s W s') as Hch.
  { eapply changes_grow; try done; rewrite Eo; [done..|]. tauto. }
  split; [done|]. eapply inv_change_all; try done.
  - by intros ? [= <-].
  - rewrite Ef. eapply files_ok_keep; [apply I|done..].
Qed.

(** ** Guest memory *)

Lemma vcpu_ok_tree m m' h a root t t' c pl :
  vcpu_ok m h a root t c pl -> (forall x, x ∈ place_pages pl -> m' !! x = m !! x) ->
  place_pages pl ## tree_pages t' -> vcpu_ok m' h a root t' c pl.
Proof.
  intros (H0 & Hd & Vp & Hv) Hm Hd'. split; [done|]. split; [done|]. split; [|done].
  setoid_rewrite elem_of_place_pages in Hm. destruct Vp as [Pg Ph Phs Pst Pio].
  split; [rewrite Hm by tauto; done..|].
  intros x Hx. apply elem_of_dom. rewrite Hm by tauto. by apply elem_of_dom, Pio.
Qed.

Lemma tree_mmio_ext gpa m t m' t' : npt_ext gpa m t m' t' -> tree_mmio t -> tree_mmio t'.
Proof.
  intros He [[x Hx] Hq]. split.
  - exists x. eapply lookup_weaken; [done|apply He].
  - intros q y Hy. destruct (t !! q) as [[z b]|] eqn:Hz.
    + pose proof (lookup_weaken _ _ _ _ Hz (ext_sub _ _ _ _ _ He)). apply (Hq q z). congruence.
    + by destruct (ext_new _ _ _ _ _ He _ _ _ Hy Hz) as (_ & ? & _).
Qed.

(** A machine whose tree has grown by new pages. *)
Lemma vm_ok_tree m m' h a w t' :
  vm_ok m h a w -> npt_repr m' (w_root w) t' ->
  (forall x, x ∈ tree_pages t' -> x ∈ tree_pages (w_tree w) \/ m !! x = None) ->
  (forall x, is_Some (m !! x) -> x ∉ tree_pages (w_tree w) -> m' !! x = m !! x) ->
  tree_mmio t' -> vm_ok m' h a (w <| w_tree := t' |>).
Proof.
  intros [Ho Hm Ht Hv Hf Hr Hmmio] R' Hnew Hframe Hmmio'. split; try done.
  intros c pl Hc. pose proof (Hv _ _ Hc) as Hvc. destruct Hvc as (_ & Hd & Vp & _).
  eapply vcpu_ok_tree; [by apply Hv|..].
  - intros x Hx. apply Hframe; [by eapply vcpu_pages_in|]. intros Hx'. by apply (Hd x).
  - intros x Hx Hx'. destruct (Hnew _ Hx') as [H|H]; [by eapply Hd|].
    destruct (vcpu_pages_in _ _ _ _ Vp Hx). congruence.
Qed.

Lemma ext_new_pages gpa m t m' t' x :
  npt_ext gpa m t m' t' -> x ∈ tree_pages t' -> x ∈ tree_pages t \/ m !! x = None.
Proof.
  intros He (q & b & Hq)%elem_of_tree_pages. destruct (t !! q) as [[y c]|] eqn:Hq0.
  - left. pose proof (lookup_weaken _ _ _ _ Hq0 (ext_sub _ _ _ _ _ He)).
    apply elem_of_tree_pages. exists q, c. congruence.
  - right. by destruct (ext_new _ _ _ _ _ He _ _ _ Hq Hq0) as (_ & _ & H).
Qed.

(** A page asked for in a machine: its tree grows along the path of [gpa]; a
    panic only on a hidden page. *)
Lemma wp_vm_npt_create a w gpa s W lost :
  inv s W lost -> W !! a = Some w ->
  wp (yakvm_vmm_npt_create (w_vmm w) gpa false)
    (fun res s' => exists t', vm_post a (Some (w <| w_tree := t' |>)) s W lost s' /\
       create_post gpa (w_root w) s (w_tree w) res s' /\ ks_files s' = ks_files s /\
       match res with
       | inl e => e = - ENOMEM /\ t' !! path gpa = None
       | inr page => exists x, page = pfn_to_page (x / PAGE_SIZE) /\ page_to_phys page = x /\
           t' !! path gpa = Some (x, true)
       end)
    (levels_stop gpa (w_tree w)) s.
Proof.
  intros I Hw. pose proof (inv_vm _ _ _ I _ _ Hw) as Hok.
  eapply wp_mono; [eapply wp_npt_create; [apply I|apply Hok|apply Hok]|].
  intros res s' Hpost. pose proof Hpost as (k & m' & t' & -> & Hmm & R' & He & Hid & Hres). simpl in R', He.
  exists t'. split; [|split; [done|]; split; [done|]].
  2:{ destruct res; [naive_solver|done]. }
  pose proof (tree_pages_mono _ _ (ext_sub _ _ _ _ _ He)) as Hsub.
  pose proof (fun x => ext_new_pages _ _ _ _ _ x He) as Hnew.
  eapply vm_post_keep; try done; mem_simpl.
  - intros x Hx. rewrite elem_of_vm_pages in Hx. apply (ext_frame _ _ _ _ _ He). cbn in Hx. tauto.
  - intros x. rewrite !elem_of_vm_pages. cbn. intros [Hx|Hx]; [left; by apply Hsub|by right].
  - intros x. rewrite !elem_of_vm_pages. cbn. intros [Hx|Hx]; [|tauto]. destruct (Hnew _ Hx); tauto.
  - eapply vm_ok_tree; [exact Hok|done|exact Hnew| |by eapply tree_mmio_ext, Hok].
    intros x Hx Hn. apply (ext_frame _ _ _ _ _ He). intros Hx'.
    destruct (Hnew _ Hx') as [?|H]; [done|]. rewrite H in Hx. by destruct Hx.
  - apply I.
  - by eapply cpus_ok_same; [apply I|..].
Qed.

(** ** Calls on a vcpu *)

(** [s2] is [s] with the vcpu at [c], its pages and the data of its guest
    rewritten. *)
Record touched (a c root : Z) (pl : places) (t : tree) s s2 : Prop := {
  t_heap : exists v', ks_heap s2 = <[c := OVcpu v']> (ks_heap s) /\ placed v' pl /\ vcpu.vm v' = a;
  t_vcpu : vcpu_pages (ks_pages s2) pl root;
  t_tree : npt_repr (ks_pages s2) root t;
  t_frame x : x ∉ place_pages pl -> x ∉ tree_pages t -> ks_pages s2 !! x = ks_pages s !! x;
  t_dom : dom (ks_pages s2) = dom (ks_pages s);
  t_mm : ks_mm s2 = ks_mm s;
  t_files : ks_files s2 = ks_files s;
  t_asid : ks_asid s2 = ks_asid s;
  t_cpus : cpus_ok s2
}.

(** The vcpu [c] of the machine [w] at [a]. *)
Definition vcpu_of (a : Z) (w : avm) (c : Z) (pl : places) s W (lost : gset Z) : Prop :=
  inv s W lost /\ W !! a = Some w /\ w_vcpu w = Some (c, pl).

Lemma touched_post a w c pl s W lost s2 h3 v :
  vcpu_of a w c pl s W lost -> touched a c (w_root w) pl (w_tree w) s s2 ->
  h3 = <[c := OVcpu v]> (ks_heap s) -> placed v pl -> vcpu.vm v = a -> vcpu.lock v = false ->
  vm_post a (Some w) s W lost (with_heap h3 s2).
Proof.
  intros (I & Hw & Hc) [Th Tv Tt Tf Td Tm Tfi Ta Tc] -> Hpl Hva Hl.
  pose proof (inv_vm _ _ _ I _ _ Hw) as Hok.
  assert (c ∈ vm_objs a w) as Hco by (apply elem_of_vm_objs; eauto).
  destruct (vm_vcpu _ _ _ _ Hok _ _ Hc) as (H0 & Hd & _ & v0 & Hv0 & _).
  eapply vm_post_keep; try done.
  - eapply mm_ok_sub; [apply I|done|by mem_simpl; rewrite Td| |by mem_simpl; rewrite Tfi].
    simpl. rewrite dom_insert_lookup_L; [done|eauto].
  - intros x Hx. rewrite elem_of_vm_pages in Hx. apply Tf; [|tauto].
    intros H. apply Hx. right. eauto.
  - intros x Hx. simpl. apply lookup_insert_ne. congruence.
  - tauto.
  - simpl. destruct Hok as [[id Ho] Hm Ht Hv Hf Hr Hmmio]. split; try done.
    + exists id. rewrite lookup_insert_ne; [done|congruence].
    + rewrite lookup_insert_ne; [done|congruence].
    + intros c' pl' Hc'. rewrite Hc in Hc'. injection Hc' as <- <-.
      split; [done|]. split; [done|]. split; [done|]. exists v. by rewrite lookup_insert_eq.
  - unfold asid_ok. change (ks_asid (with_heap _ s2)) with (ks_asid s2). rewrite Ta. apply I.
  - by eapply cpus_ok_same; [exact Tc|..].
Qed.

(** The stops of a call on a vcpu: its guest may escape. *)
Definition vcpu_stop (ioctl : Z) (killed : bool) (st : stop) : Prop :=
  st = Escaped /\ ioctl = YAKVM_RUN /\ killed = false.

Lemma wp_vcpu_ioctl a w c pl s W lost ioctl arg killed :
  vcpu_of a w c pl s W lost ->
  (forall v s1, ks_heap s !! c = Some (OVcpu v) ->
     s1 = with_heap (<[c := OVcpu (v <| vcpu.lock := true |>)]> (ks_heap s)) s ->
     wp (if ioctl =? YAKVM_RUN then yakvm_vcpu_run c
         else if ioctl =? YAKVM_GET_REGS then yakvm_vcpu_get_regs c arg
         else if ioctl =? YAKVM_SET_REGS then yakvm_vcpu_set_regs c arg
         else mret (- EINVAL))
       (fun _ s2 => touched a c (w_root w) pl (w_tree w) s s2)
       (fun st => st = Escaped /\ ioctl = YAKVM_RUN) s1) ->
  wp (yakvm_vcpu_ioctl c ioctl arg killed) (fun _ s' => vm_post a (Some w) s W lost s' /\
    ks_files s' = ks_files s /\ ks_asid s' = ks_asid s) (vcpu_stop ioctl killed) s.
Proof.
  intros Hv Hbody. pose proof Hv as (I & Hw & Hc).
  destruct (vm_vcpu _ _ _ _ (inv_vm _ _ _ I _ _ Hw) _ _ Hc) as (H0 & Hd & Vp & v & Hv0 & Hpl & Hl & Hva).
  unfold yakvm_vcpu_ioctl, mutex_lock_killable. apply wp_bind, wp_bind.
  eapply wp_get_obj; [exact Hv0|done|]. rewrite Hl. destruct killed.
  - apply wp_ret. simpl. apply wp_ret. split; [|done]. rewrite <- Hw. by apply vm_post_same.
  - apply wp_bind. eapply wp_update_vcpu; [exact Hv0|]. apply wp_ret. simpl.
    apply wp_bind. eapply wp_mono; [eapply wp_stop_mono; [by eapply Hbody|by intros st [-> ->]]|].
    intros r s2 Ht. pose proof Ht as Ht'. destruct Ht' as [(v' & Hh & Hpl' & Hva') _ _ _ _ _ Tfi Ta _].
    apply wp_bind. eapply wp_update_vcpu; [rewrite Hh; apply lookup_insert_eq|]. apply wp_ret.
    split; [|done]. eapply touched_post; [done|done|by rewrite Hh, insert_insert_eq|by destruct Hpl'|done|done].
Qed.

(** A machine has a descriptor, so the processors have SVM. *)
Lemma inv_svm s W lost a w : inv s W lost -> W !! a = Some w -> Forall cpu_svm (ks_cpus s).
Proof.
  intros I Hw. apply (cpus_svm _ (inv_cpus _ _ _ I)). right. intros He.
  pose proof (inv_vm _ _ _ I _ _ Hw) as Hok. pose proof (vm_refs _ _ _ _ Hok) as Hr.
  destruct (inv_files _ _ _ I) as [Fv Fc]. unfold refs in Hr.
  destruct (w_fd w) as [fd|] eqn:Hfd.
  { assert (ks_files s !! fd = Some (FVm a)) as H by (apply Fv; eauto). by rewrite He in H. }
  destruct (w_vfd w) as [fd|] eqn:Hvfd; [|simpl in Hr; lia].
  destruct (w_vcpu w) as [[c pl]|] eqn:Hc; [|by rewrite (vm_vfd _ _ _ _ Hok Hc) in Hvfd].
  assert (ks_files s !! fd = Some (FVcpu c)) as H by (apply Fc; eauto 6). by rewrite He in H.
Qed.

Lemma placed_same v v' pl :
  placed v pl -> context.vmcb (vcpu.gctx v') = context.vmcb (vcpu.gctx v) ->
  context.vmcb (vcpu.hctx v') = context.vmcb (vcpu.hctx v) ->
  vcpu.hsave v' = vcpu.hsave v -> vcpu.state v' = vcpu.state v -> vcpu.iopm v' = vcpu.iopm v ->
  placed v' pl.
Proof. intros [] H1 H2 H3 H4 H5. split; congruence. Qed.

Lemma cpus_ok_insert c0 c s s2 :
  cpus_ok s -> ks_cpus s !! ks_cpu s = Some c0 -> cpu_idle c -> (cpu_svm c0 -> cpu_svm c) ->
  ks_cpus s2 = <[ks_cpu s := c]> (ks_cpus s) -> ks_cpu s2 = ks_cpu s -> ks_misc s2 = ks_misc s ->
  ks_files s2 = ks_files s -> cpus_ok s2.
Proof.
  intros [C1 C2 C3] Hc0 Hi Hs E1 E2 E3 E4. split; rewrite E1, ?E2, ?E3, ?E4.
  - by rewrite length_insert.
  - by apply Forall_insert.
  - intros H. specialize (C3 H). apply Forall_insert; [done|].
    apply Hs. by eapply (Forall_lookup_1 _ _ _ _ C3).
Qed.

Lemma wp_run_touched a w c pl s W lost v s1 :
  vcpu_of a w c pl s W lost -> ks_heap s !! c = Some (OVcpu v) ->
  s1 = with_heap (<[c := OVcpu (v <| vcpu.lock := true |>)]> (ks_heap s)) s ->
  wp (yakvm_vcpu_run c) (fun _ s2 => touched a c (w_root w) pl (w_tree w) s s2) escapes s1.
Proof.
  intros (I & Hw & Hc) Hv ->. set (s1 := with_heap _ s).
  pose proof (inv_vm _ _ _ I _ _ Hw) as Hok.
  destruct (vm_vcpu _ _ _ _ Hok _ _ Hc) as (H0 & Hd & Vp & v0 & Hv0 & Hpl & Hl & Hva).
  rewrite Hv in Hv0. injection Hv0 as <-.
  destruct (inv_cpus _ _ _ I) as [C1 C2 C3].
  destruct (lookup_lt_is_Some_2 _ _ C1) as [c0 Hc0].
  destruct (Forall_lookup_1 _ _ _ _ C2 Hc0) as [Hgif Hpre].
  pose proof (Forall_lookup_1 _ _ _ _ (inv_svm _ _ _ _ _ I Hw) Hc0) as Hsvm.
  eapply wp_mono.
  { eapply (wp_vcpu_run c _ pl (w_root w) (w_tree w) c0 s1).
    - apply lookup_insert_eq.
    - by destruct Hpl.
    - done.
    - apply Hok.
    - done.
    - done.
    - done.
    - lia.
    - done. }
  intros r s2 (_ & m' & v' & u' & b & -> & Hpl' & Hlk & Hvm & Hdom & Vp' & R' & Hf & _ & _).
  split; try done.
  - exists v'. split; [|by rewrite Hvm]. unfold machine. simpl. by rewrite insert_insert_eq.
  - eapply cpus_ok_insert; [apply I|exact Hc0| | |done..]; [by split|done].
Qed.

Lemma wp_get_regs_touched a w c pl s W lost v s1 arg :
  vcpu_of a w c pl s W lost -> ks_heap s !! c = Some (OVcpu v) ->
  s1 = with_heap (<[c := OVcpu (v <| vcpu.lock := true |>)]> (ks_heap s)) s ->
  wp (yakvm_vcpu_get_regs c arg) (fun _ s2 => touched a c (w_root w) pl (w_tree w) s s2) never s1.
Proof.
  intros (I & Hw & Hc) Hv ->.
  pose proof (inv_vm _ _ _ I _ _ Hw) as Hok.
  destruct (vm_vcpu _ _ _ _ Hok _ _ Hc) as (H0 & Hd & Vp & v0 & Hv0 & Hpl & Hl & Hva).
  rewrite Hv in Hv0. injection Hv0 as <-.
  destruct (pages_g _ _ _ Vp) as (b & Hb & _). destruct (ks_pages s !! at_g pl) as [p|] eqn:Hp; [|done].
  pose proof (placed_valid _ _ Hpl) as Val. rewrite !Forall_cons in Val. destruct Val as (V1 & _).
  unfold yakvm_vcpu_get_regs. apply wp_bind. eapply wp_get_obj; [apply lookup_insert_eq|done|].
  apply wp_bind. eapply wp_load_vmcb; [|exact Hp|exact Hb|].
  { simpl. rewrite (placed_g _ _ Hpl). by apply valid_pa_round_trip. }
  apply wp_bind, wp_gets. destruct (copy_to_user _ _ _) as [r u].
  apply wp_bind, wp_modify, wp_ret. split; try done.
  - eexists. split; [done|]. split; [by eapply placed_same|done].
  - apply Hok.
  - by eapply cpus_ok_same; [apply I|..].
Qed.

Lemma wp_set_regs_touched a w c pl s W lost v s1 arg :
  vcpu_of a w c pl s W lost -> ks_heap s !! c = Some (OVcpu v) ->
  s1 = with_heap (<[c := OVcpu (v <| vcpu.lock := true |>)]> (ks_heap s)) s ->
  wp (yakvm_vcpu_set_regs c arg) (fun _ s2 => touched a c (w_root w) pl (w_tree w) s s2) never s1.
Proof.
  intros (I & Hw & Hc) Hv ->.
  pose proof (inv_vm _ _ _ I _ _ Hw) as Hok.
  destruct (vm_vcpu _ _ _ _ Hok _ _ Hc) as (H0 & Hd & Vp & v0 & Hv0 & Hpl & Hl & Hva).
  rewrite Hv in Hv0. injection Hv0 as <-.
  pose proof (placed_valid _ _ Hpl) as Val. rewrite !Forall_cons in Val. destruct Val as (V1 & _).
  pose proof (placed_distinct _ _ Hpl) as Nd. rewrite !NoDup_cons, !not_elem_of_cons in Nd.
  pose proof Vp as Vp'. destruct Vp' as [(b & Hb & Hn & Hio) Ph Phs Pst Pio].
  destruct (ks_pages s !! at_g pl) as [p|] eqn:Hp; [|done].
  unfold yakvm_vcpu_set_regs. apply wp_bind, wp_gets. change (ks_user (with_heap _ s)) with (ks_user s).
  destruct (copy_from_user (ks_user s) arg) as [r regs].
  destruct (negb (r =? 0)); [apply wp_ret|apply wp_bind; eapply wp_get_obj; [apply lookup_insert_eq|done|]].
  { split; try done; [|apply Hok|by eapply cpus_ok_same; [apply I|..]].
    eexists. split; [done|]. split; [by eapply placed_same|done]. }
  apply wp_bind. eapply wp_store; [|exact Hp|exact Hb|].
  { simpl. rewrite (placed_g _ _ Hpl). by apply valid_pa_round_trip. }
  mem_simpl. apply wp_bind. eapply wp_update_vcpu; [mem_simpl; apply lookup_insert_eq|]. apply wp_ret.
  mem_simpl. rewrite insert_insert_eq.
  assert (at_g pl ∉ tree_pages (w_tree w)) as Hg.
  { intros H. apply (Hd (at_g pl)); [|done]. rewrite elem_of_place_pages. tauto. }
  split; try done; mem_simpl.
  - eexists. split; [done|]. split; [by eapply placed_same|done].
  - split.
    + eexists. rewrite lookup_insert_eq. split; [done|]. done.
    + by rewrite lookup_insert_ne by tauto.
    + by rewrite lookup_insert_ne by tauto.
    + by rewrite lookup_insert_ne by tauto.
    + rewrite dom_insert_lookup_L by eauto. done.
  - eapply npt_repr_frame; [apply Hok|]. intros x Hx. apply lookup_insert_ne. by intros <-.
  - intros x Hx _. apply lookup_insert_ne. intros <-. apply Hx. rewrite elem_of_place_pages. tauto.
  - apply dom_insert_lookup_L. eauto.
  - by eapply cpus_ok_same; [apply I|..].
Qed.

(** Any call on a vcpu keeps the invariant. *)
Lemma wp_vcpu_kept a w c pl s W lost ioctl arg killed :
  vcpu_of a w c pl s W lost ->
  wp (yakvm_vcpu_ioctl c ioctl arg killed) (fun _ s' => vm_post a (Some w) s W lost s' /\
    ks_files s' = ks_files s /\ ks_asid s' = ks_asid s) (vcpu_stop ioctl killed) s.
Proof.
  intros Hv. eapply wp_vcpu_ioctl; [done|]. intros v s1 Hc Hs1.
  assert (forall m Q, wp (A := Z) m Q never s1 ->
    wp m Q (fun st => st = Escaped /\ ioctl = YAKVM_RUN) s1) as Hnever.
  { intros m Q H. eapply wp_stop_mono; [done|]. by intros st []. }
  destruct (Z.eqb_spec ioctl YAKVM_RUN) as [Hrun|_].
  { eapply wp_stop_mono; [by eapply wp_run_touched|]. by intros st ->. }
  destruct (ioctl =? YAKVM_GET_REGS); [by eapply Hnever, wp_get_regs_touched|].
  destruct (ioctl =? YAKVM_SET_REGS); [by eapply Hnever, wp_set_regs_touched|].
  apply wp_ret. subst s1. destruct Hv as (I & Hw & Hvc).
  pose proof (inv_vm _ _ _ I _ _ Hw) as Hok.
  destruct (vm_vcpu _ _ _ _ Hok _ _ Hvc) as (H0 & Hd & Vp & v0 & Hv0 & Hpl & Hl & Hva).
  rewrite Hc in Hv0. injection Hv0 as <-.
  split; try done; [|apply Hok|by eapply cpus_ok_same; [apply I|..]].
  eexists. split; [done|]. split; [by eapply placed_same|done].
Qed.

(** Any call on a vcpu: what it keeps and what it does. *)
Lemma wp_vcpu_call a w c pl s W lost ioctl arg killed :
  vcpu_of a w c pl s W lost ->
  wp (yakvm_vcpu_ioctl c ioctl arg killed) (fun r s' =>
    (vm_post a (Some w) s W lost s' /\ ks_files s' = ks_files s /\ ks_asid s' = ks_asid s) /\
    exists v b, at_vcpu s c v pl b /\ vcpu_effect c v pl b ioctl arg killed s r s')
    (vcpu_stop ioctl killed) s.
Proof.
  intros Hv. pose proof Hv as (I & Hw & Hc). pose proof (inv_vm _ _ _ I _ _ Hw) as Hok.
  destruct (vm_vcpu _ _ _ _ Hok _ _ Hc) as (H0 & Hd & Vp & v & Hv0 & Hpl & Hl & Hva).
  destruct (pages_g _ _ _ Vp) as (b & Hb & _ & _).
  destruct (inv_cpus _ _ _ I) as [C1 C2 C3].
  destruct (lookup_lt_is_Some_2 _ _ C1) as [c0 Hc0].
  destruct (Forall_lookup_1 _ _ _ _ C2 Hc0) as [Hgif Hpre].
  pose proof (Forall_lookup_1 _ _ _ _ (inv_svm _ _ _ _ _ I Hw) Hc0) as Hsvm.
  eapply wp_both with (E2 := escapes); [by eapply wp_vcpu_kept|].
  eapply wp_mono; [eapply (wp_vcpu_effect c v pl b (w_root w) (w_tree w) c0); [by split|done|exact Vp|apply Hok|done|exact Hc0|done|lia|done]|].
  intros r s' H. by exists v, b.
Qed.

(** ** Creating a vcpu *)

Lemma inv_asid_only s W lost s' :
  inv s W lost -> ks_pages s' = ks_pages s -> ks_heap s' = ks_heap s -> mm_ok s' ->
  ks_files s' = ks_files s -> ks_cpus s' = ks_cpus s -> ks_cpu s' = ks_cpu s ->
  ks_misc s' = ks_misc s -> asid_ok s' -> inv s' W lost.
Proof.
  intros I Hp Hh Hmm Hf H1 H2 H3 Ha. eapply inv_files_only; try done.
  - rewrite Hf. apply I.
  - by eapply cpus_ok_same; [apply I|..].
Qed.

(** The pages of a vcpu just created. *)
Lemma fresh_vcpu_pages m pl ncr3 asid :
  m !! at_g pl = Some (PVmcb (fresh_vmcb (at_io pl * PAGE_SIZE) ncr3 asid)) ->
  m !! at_h pl = Some zero_page -> m !! at_hsave pl = Some zero_page ->
  m !! at_state pl = Some zero_page -> io_frames pl ⊆ dom m -> vcpu_pages m pl ncr3.
Proof.
  intros Hg Hh Hhs Hst Hio. split; rewrite ?Hg, ?Hh, ?Hhs, ?Hst; [|by eexists..|done].
  eexists. by split_and!.
Qed.

Definition with_vcpu (w : avm) (c : Z) (pl : places) (fd : Z) : avm :=
  w <| w_vcpu := Some (c, pl) |> <| w_vfd := Some fd |>.

Lemma files_new_vcpu f W a w c pl fd :
  files_ok f W -> W !! a = Some w -> f !! fd = None -> w_vcpu w = None -> w_vfd w = None ->
  files_ok (<[fd := FVcpu c]> f) (update a (Some (with_vcpu w c pl fd)) W).
Proof.
  intros [Fv Fc] Hw Hf Hvc Hvf. set (w' := with_vcpu w c pl fd). split.
  - intros fd' b. destruct (decide (fd' = fd)) as [->|Hne].
    + rewrite lookup_insert_eq. split; [done|]. intros (wb & Hwb & Hfb). exfalso.
      assert (f !! fd = Some (FVm b)); [|congruence]. apply Fv.
      destruct (decide (b = a)) as [->|Hba].
      * rewrite update_lookup in Hwb. injection Hwb as <-. by exists w.
      * rewrite update_lookup_ne in Hwb by done. eauto.
    + rewrite lookup_insert_ne by done. rewrite Fv. destruct (decide (b = a)) as [->|Hba].
      * rewrite update_lookup. split.
        -- intros (wb & Hwb & Hfb). exists w'. split; [done|]. simpl. congruence.
        -- intros (wb & [= <-] & Hfb). by exists w.
      * by rewrite update_lookup_ne.
  - intros fd' c'. destruct (decide (fd' = fd)) as [->|Hne].
    + rewrite lookup_insert_eq. split.
      * intros [= <-]. exists a, w', pl. by rewrite update_lookup.
      * intros (b & wb & pl' & Hwb & Hcb & Hfb). destruct (decide (b = a)) as [->|Hba].
        -- rewrite update_lookup in Hwb. injection Hwb as <-. simpl in Hcb. congruence.
        -- rewrite update_lookup_ne in Hwb by done.
           assert (f !! fd = Some (FVcpu c')) by (apply Fc; eauto 6). congruence.
    + rewrite lookup_insert_ne by done. rewrite Fc. split.
      * intros (b & wb & pl' & Hwb & Hcb & Hfb). exists b, wb, pl'.
        rewrite update_lookup_ne by congruence. done.
      * intros (b & wb & pl' & Hwb & Hcb & Hfb). destruct (decide (b = a)) as [->|Hba].
        -- rewrite update_lookup in Hwb. injection Hwb as <-. simpl in Hfb. congruence.
        -- rewrite update_lookup_ne in Hwb by done. eauto 6.
Qed.

Lemma wp_vm_lock vm v s (Q : unit -> kstate -> Prop) E :
  ks_heap s !! vm = Some (OVm v) -> vm.lock v = false ->
  Q tt (with_heap (<[vm := OVm (v <| vm.lock := true |>)]> (ks_heap s)) s) ->
  wp (vm_mutex_lock vm) Q E s.
Proof.
  intros Hv Hl HQ. unfold vm_mutex_lock. apply wp_bind. eapply wp_get_obj; [exact Hv|done|].
  rewrite Hl. by eapply wp_update_vm.
Qed.

(** The possible results of [YAKVM_CREATE_VCPU] and the machine each leaves. *)
Definition create_vcpu_result (a : Z) (w : avm) (s s' : kstate) (r : Z) (w' : avm) : Prop :=
  (w' = w /\ r = PTR_ERR (inr a)) \/
  (w' = w /\ w_vcpu w <> None /\ r = - EEXIST) \/
  (w' = w /\ w_vcpu w = None /\ - 4095 <= r < 0) \/
  (0 <= r /\ w_vcpu w = None /\ exists c pl, w' = with_vcpu w c pl r /\
     ks_pages s' !! at_g pl =
       Some (PVmcb (fresh_vmcb (at_io pl * PAGE_SIZE) (w_root w) (ks_asid s + 1))) /\
     ks_asid s' = ks_asid s + 1).

(** A vcpu just created, beside a machine that is otherwise what it was. *)
Record new_vcpu s (a : Z) w (c : Z) (pl : places) (m' : gmap Z page) : Prop := {
  new_free : ks_heap s !! c = None;
  new_range : 0 < c < 2 ^ 64 - 4096;
  new_asid : ks_asid s + 1 < cpuid_ebx 0x8000000a;
  new_placed : placed (fresh_vcpu a pl) pl;
  new_apart : place_pages pl ## dom (ks_pages s);
  new_sub : ks_pages s ⊆ m';
  new_dom : dom m' = dom (ks_pages s) ∪ place_pages pl;
  new_g : m' !! at_g pl =
    Some (PVmcb (fresh_vmcb (at_io pl * PAGE_SIZE) (w_root w) (ks_asid s + 1)));
  new_h : m' !! at_h pl = Some zero_page;
  new_hsave : m' !! at_hsave pl = Some zero_page;
  new_state : m' !! at_state pl = Some zero_page
}.

Section new_vcpu.
Context {s : kstate} {W : world} {lost : gset Z} {a c : Z} {w : avm} {id : string}
  {pl : places} {m' : gmap Z page}.
#[local] Abbreviation s0 := (s <| ks_asid := ks_asid s + 1 |>).
#[local] Abbreviation h1 := (<[c := OVcpu (fresh_vcpu a pl)]> (ks_heap s)).
#[local] Abbreviation vm_of w := (vm.mk false (refs w) (vcpu_addr w) (w_vmm w) id).
Context (I : inv s W lost) (Hw : W !! a = Some w) (Ho : ks_heap s !! a = Some (OVm (vm_of w))).
Context (N : new_vcpu s a w c pl m').

Lemma new_ne : a <> c /\ w_vmm w <> c.
Proof using I Hw Ho N.
  pose proof (vm_vmm _ _ _ _ (inv_vm _ _ _ I _ _ Hw)). pose proof (new_free _ _ _ _ _ _ N).
  split; congruence.
Qed.

Lemma new_asid_ok : asid_ok s0.
Proof using I N.
  pose proof (inv_asid _ _ _ I) as H. pose proof (new_asid _ _ _ _ _ _ N).
  pose proof cpuid_asids. unfold asid_ok in *. simpl. lia.
Qed.

Lemma new_frame x : x ∉ place_pages pl -> m' !! x = ks_pages s !! x.
Proof using N.
  intros Hx. destruct (ks_pages s !! x) eqn:Hp; [by eapply lookup_weaken, N|].
  apply not_elem_of_dom. apply not_elem_of_dom in Hp. rewrite (new_dom _ _ _ _ _ _ N). by apply not_elem_of_union.
Qed.

Lemma new_put (Hne : a <> c) k v :
  mm_ok (with_heap h1 (with_mem k m' s0)) ->
  mm_ok (with_heap (<[a := OVm v]> h1) (with_mem k m' s0)).
Proof using Ho. intros H. apply mm_ok_put; [done|]. rewrite lookup_insert_ne by done. eauto. Qed.

Lemma new_back (Hne : a <> c) v : v = vm_of w -> <[a := OVm v]> h1 = h1.
Proof using Ho. intros ->. apply insert_id. by rewrite lookup_insert_ne. Qed.

(** It is undone by [yakvm_destroy_vcpu]. *)
Lemma wp_undo_vcpu k E :
  mm_ok (with_heap h1 (with_mem k m' s0)) ->
  wp (yakvm_destroy_vcpu c)
    (fun _ s' => vm_post a (Some w) s W lost s' /\ ks_asid s' = ks_asid s + 1 /\
       ks_files s' = ks_files s) E
    (with_heap h1 (with_mem k m' s0)).
Proof using I Hw N.
  intros Hmm. apply wp_stop_mono with (E := never); [|by intros st []].
  eapply wp_mono; [eapply wp_destroy_vcpu; [done|apply lookup_insert_eq|apply N|]|].
  { mem_simpl. rewrite (new_dom _ _ _ _ _ _ N). apply union_subseteq_r. }
  intros [] s' (Hmm' & k' & m2 & -> & Nn & F). mem_simpl.
  assert (m2 = ks_pages s) as -> by (eapply pages_restored; [apply N..|done|done]).
  rewrite delete_insert_id in * by apply N.
  split; [|done].
  rewrite <- Hw. apply vm_post_same; [done..|]. eapply inv_asid_only; try done. apply new_asid_ok.
Qed.

(** The descriptor was refused: the machine forgets the vcpu, which is destroyed. *)
Lemma wp_uninstall k v (fd : Z) E :
  w_vcpu w = None -> vm.refcount v = 2 -> vm.lock v = false ->
  v <| vm.vcpu := 0 |> <| vm.refcount := 1 |> = vm_of w ->
  mm_ok (with_heap (<[a := OVm v]> h1) (with_mem k m' s0)) ->
  wp (vm_mutex_lock a ;;
      update_vm a (fun v => v <| vm.vcpu := 0 |>) ;;
      vm_mutex_unlock a ;;
      yakvm_put_vm a ;;
      yakvm_destroy_vcpu c ;; mret fd)
    (fun r s' => r = fd /\ vm_post a (Some w) s W lost s' /\ ks_asid s' = ks_asid s + 1 /\
       ks_files s' = ks_files s) E
    (with_heap (<[a := OVm v]> h1) (with_mem k m' s0)).
Proof using I Hw Ho N.
  intros Hvc Hr Hl Hback Hmm. destruct new_ne as [Hne _]. destruct v as [l r vc vmm i].
  simpl in Hr, Hl. subst l r. cbn in Hback.
  apply wp_bind. eapply wp_vm_lock; [mem_simpl; apply lookup_insert_eq|done|].
  mem_simpl. rewrite insert_insert_eq.
  do 2 (apply wp_bind; eapply wp_update_vm; [mem_simpl; apply lookup_insert_eq|]; mem_simpl;
    rewrite insert_insert_eq).
  apply wp_bind. unfold yakvm_put_vm. apply wp_bind.
  eapply wp_dec; [mem_simpl; apply lookup_insert_eq|simpl; lia|].
  simpl. apply wp_ret. mem_simpl. rewrite insert_insert_eq, (new_back Hne) by exact Hback.
  apply wp_bind. eapply wp_mono; [apply wp_undo_vcpu|].
  - eapply mm_ok_sub; [exact Hmm|done|done| |done]. mem_simpl.
    rewrite !dom_insert_L. clear. set_solver.
  - intros [] s' Hs'. by apply wp_ret.
Qed.

(** The machine with the vcpu, once its descriptor is open. *)
Lemma installed_ok v (fd : Z) :
  w_vcpu w = None -> v = vm_of (with_vcpu w c pl fd) ->
  vm_ok m' (<[a := OVm v]> h1) a (with_vcpu w c pl fd).
Proof using I Hw Ho N.
  intros Hvc ->. destruct new_ne as [Hne Hne2]. pose proof (inv_vm _ _ _ I _ _ Hw) as Hok.
  pose proof (new_apart _ _ _ _ _ _ N) as Hd. pose proof (vm_vmm_ne _ _ _ _ Hok).
  split.
  - exists id. by rewrite lookup_insert_eq.
  - change (w_vmm (with_vcpu w c pl fd)) with (w_vmm w).
    rewrite !lookup_insert_ne by congruence. apply Hok.
  - eapply npt_repr_frame; [apply Hok|]. intros x Hx. apply new_frame. intros Hx'.
    by apply (Hd x Hx'), (repr_pages_dom (vm_tree _ _ _ _ Hok)).
  - intros c' pl' [= <- <-]. split; [by apply N|]. split.
    { intros x Hx Hx'. by apply (Hd x Hx), (repr_pages_dom (vm_tree _ _ _ _ Hok)). }
    split.
    { eapply fresh_vcpu_pages; try apply N. rewrite (new_dom _ _ _ _ _ _ N). intros x Hx.
      apply elem_of_union. right. rewrite elem_of_place_pages. tauto. }
    exists (fresh_vcpu a pl). rewrite lookup_insert_ne, lookup_insert_eq by done.
    split; [done|]. split; [apply N|done].
  - done.
  - unfold with_vcpu, refs. cbn. unfold held. destruct (w_fd w); lia.
  - apply Hok.
Qed.

Lemma installed_changes v (fd : Z) s4 :
  w_vcpu w = None -> ks_pages s4 = m' -> ks_heap s4 = <[a := OVm v]> h1 ->
  changes a (Some (with_vcpu w c pl fd)) ∅ s W s4.
Proof using I Hw Ho N.
  intros Hvc Hp Hh. set (w' := with_vcpu w c pl fd).
  assert (forall x, x ∈ vm_pages w' <-> x ∈ vm_pages w \/ x ∈ place_pages pl) as Ep.
  { intros x. rewrite !elem_of_vm_pages, Hvc. unfold w', with_vcpu. cbn. naive_solver. }
  assert (forall x, x ∈ vm_objs a w' <-> x ∈ vm_objs a w \/ x = c) as Eo.
  { intros x. rewrite !elem_of_vm_objs, Hvc. unfold w', with_vcpu. cbn. naive_solver. }
  eapply changes_grow; [done|..]; rewrite ?Hp, ?Hh.
  - intros x Hx. apply new_frame. rewrite Ep in Hx. tauto.
  - intros x Hx. rewrite Eo, elem_of_vm_objs in Hx.
    rewrite !lookup_insert_ne; [done|intros <-; tauto..].
  - intros x Hx. rewrite Ep. by left.
  - intros x Hx. apply Ep in Hx as [Hx|Hx]; [by left|right].
    apply not_elem_of_dom. intros Hx2. by apply (new_apart _ _ _ _ _ _ N x).
  - intros x Hx. rewrite Eo. by left.
  - intros x Hx. apply Eo in Hx as [Hx| ->]; [by left|right; apply N].
Qed.

Lemma installed_post v (fd : Z) k :
  w_vcpu w = None -> v = vm_of (with_vcpu w c pl fd) -> ks_files s !! fd = None ->
  let s4 := with_files (<[fd := FVcpu c]> (ks_files s))
              (with_mem k m' (with_heap (<[a := OVm v]> h1) s0)) in
  mm_ok s4 -> vm_post a (Some (with_vcpu w c pl fd)) s W lost s4.
Proof using I Hw Ho N.
  intros Hvc Hv Hfree s4 Hmm. pose proof (inv_vm _ _ _ I _ _ Hw) as Hok.
  pose proof (installed_changes v fd s4 Hvc eq_refl eq_refl) as Hch.
  split; [exact Hch|]. eapply inv_change_all; [exact I|exact Hch|exact Hmm|..].
  - intros ? [= <-]. by apply installed_ok.
  - apply files_new_vcpu; [apply I|done..|]. by apply Hok.
  - apply new_asid_ok.
  - eapply cpus_ok_files; [apply I|done|done|]. by eapply inv_svm.
Qed.

End new_vcpu.

Lemma refs_no_vcpu m h a w : vm_ok m h a w -> w_vcpu w = None -> w_vfd w = None /\ refs w = 1.
Proof.
  intros Hok Hvc. pose proof (vm_vfd _ _ _ _ Hok Hvc) as Hvf. split; [done|].
  pose proof (vm_refs _ _ _ _ Hok). unfold refs in *. rewrite Hvf in *.
  destruct (w_fd w); simpl in *; lia.
Qed.

Lemma wp_vm_ioctl_create_vcpu a w s W lost :
  inv s W lost -> W !! a = Some w ->
  wp (yakvm_vm_ioctl_create_vcpu a)
    (fun r s' => exists w', vm_post a (Some w') s W lost s' /\ create_vcpu_result a w s s' r w' /\
       (w' = w /\ r = PTR_ERR (inr a) /\ ks_asid s' = ks_asid s /\ ks_pages s' = ks_pages s /\
          ks_files s' = ks_files s \/
        ks_asid s' = ks_asid s + 1 /\ ks_asid s + 1 < cpuid_ebx 0x8000000a /\
        (w' = w /\ ks_files s' = ks_files s \/
         exists c pl, w' = with_vcpu w c pl r /\ kernel_fd r /\ ks_files s !! r = None /\
           ks_files s' = <[r := FVcpu c]> (ks_files s))))
    (fun st => st = Panicked /\ cpuid_ebx 0x8000000a <= ks_asid s + 1) s.
Proof.
  intros I Hw. pose proof (inv_vm _ _ _ I _ _ Hw) as Hok.
  destruct (vm_obj _ _ _ _ Hok) as [id Ho]. pose proof (vm_vmm _ _ _ _ Hok) as Hm.
  unfold yakvm_vm_ioctl_create_vcpu. apply wp_bind.
  eapply wp_mono; [eapply wp_create_vcpu; [apply I|apply I|exact Ho|exact Hm]|].
  intros [e|c] s1 Hs1.
  { destruct Hs1 as (-> & Hmm & k & ->). apply wp_ret. exists w. split; [|by split_and!; left].
    rewrite <- Hw. apply vm_post_same; [done..|]. eapply inv_asid_only; try done. apply I. }
  destruct Hs1 as (Hmm & Hc & Hcr & Hasid & k & m' & pl & -> & Hpl & Hd & Hs & Hdom & Hg & Hh & Hhs & Hst & Hio).
  assert (new_vcpu s a w c pl m') as N by done.
  destruct (new_ne I Hw Ho N) as [Hne _].
  apply wp_bind. eapply wp_vm_lock; [mem_simpl; rewrite lookup_insert_ne by done; exact Ho|done|].
  mem_simpl. apply wp_bind. eapply wp_get_obj; [apply lookup_insert_eq|done|]. simpl.
  destruct (w_vcpu w) as [[c0 pl0]|] eqn:Hvc.
  - destruct (vm_vcpu _ _ _ _ Hok _ _ Hvc) as (Hc0 & _).
    unfold vcpu_addr at 1. rewrite Hvc, (proj2 (Z.eqb_neq _ _)) by lia. simpl negb. cbv iota.
    apply wp_bind. eapply wp_update_vm; [mem_simpl; apply lookup_insert_eq|]. mem_simpl.
    rewrite insert_insert_eq. rewrite (new_back Ho Hne) by done. apply wp_bind.
    eapply wp_mono; [by eapply (wp_undo_vcpu I Hw N)|].
    intros [] s' (Hs' & Has & Hfi). apply wp_ret. exists w. split; [done|].
    split; [right; left; by rewrite Hvc|]. right. split; [done|]. split; [done|by left].
  - unfold vcpu_addr at 1. rewrite Hvc. simpl negb. cbv iota.
    do 3 (apply wp_bind; eapply wp_update_vm; [mem_simpl; apply lookup_insert_eq|]; mem_simpl;
      rewrite insert_insert_eq).
    destruct (refs_no_vcpu _ _ _ _ Hok Hvc) as [Hvf Hr1]. simpl. rewrite Hr1.
    apply wp_bind, wp_anon_inode_getfd; [by apply (new_put Ho Hne)|..]; mem_simpl.
    + intros k3 fd Hfd Hok3. rewrite (proj2 (Z.ltb_lt _ _)) by lia.
      eapply wp_mono; [eapply (wp_uninstall I Hw Ho N); [done..| |exact Hok3]|].
      { rewrite Hr1. unfold vcpu_addr. by rewrite Hvc. }
      intros r s' (-> & Hs' & Has & Hfi). exists w. split; [done|]. split; [|right; split; [done|]; split; [done|by left]].
      right. right. left. split; [done|]. split; [done|lia].
    + intros k3 fd Hfd Hfree Hk Hok3. rewrite (proj2 (Z.ltb_ge _ _)) by lia. apply wp_ret.
      exists (with_vcpu w c pl fd). split; [eapply (installed_post I Hw Ho N); [done| |done|exact Hok3]|].
      { unfold with_vcpu, refs in *. cbn in *. rewrite Hvf in Hr1. rewrite Z.add_0_r in Hr1.
        by rewrite Hr1. }
      split; [|right; split; [done|]; split; [done|right; by exists c, pl]].
      right. right. right. split; [lia|]. split; [done|]. by exists c, pl.
Qed.

End handlers.
