(* ===== verification/Spec.v ===== *)
(** * The abstract specification of the driver

    What each system call does to the abstract state: the machines of System,
    the open files, the counter of address space identifiers, the memory of
    userspace and the contents of the pages. [abstract_step] is read case by
    case; where it leaves a choice, the choice is the kernel's (an address, a
    descriptor, a want of memory) or the guest's. *)

From S2P Require Import Prelude Structs Kernel Npt Vmcb VcpuRun Vcpu VcpuSwitch Vm.
From S2P Require Import Driver System Handlers HandlersVcpu.

Section spec.
Context `{L : KernelLaws} `{P : !Processor K} `{A : !Abi K} `{C : Config}.
Implicit Types (s : kstate) (W : world) (w : avm).

(** The call is refused: it answers [e] and nothing at all has changed. *)
Definition refused (e r : Z) s s' W W' : Prop := r = e /\ s' = s /\ W' = W.

(** The machines, the files and the identifiers are what they were. *)
Definition aside s s' W W' : Prop :=
  W' = W /\ ks_pages s' = ks_pages s /\ ks_files s' = ks_files s /\ ks_asid s' = ks_asid s.

(** Opening the device gives a descriptor that was free, or an error; without the
    device there is none to open. *)
Definition opens s (r : Z) s' W W' : Prop :=
  W' = W /\ ks_pages s' = ks_pages s /\ ks_asid s' = ks_asid s /\
  (ks_misc s = false -> r = - ENXIO) /\
  (r < 0 /\ ks_files s' = ks_files s \/
   0 <= r /\ kernel_fd r /\ ks_files s !! r = None /\ ks_files s' = <[r := FDev]> (ks_files s)).

(** Closing a descriptor takes one reference from its machine, and the last one
    takes the machine; while there is another no page and no other object is
    touched. *)
Definition closes (a : Z) w' (fd : Z) s (r : Z) s' W W' : Prop :=
  r = 0 /\ W' = update a (put_result w') W /\
  ks_files s' = delete fd (ks_files s) /\ ks_asid s' = ks_asid s /\
  (refs w' <> 0 -> survives a s s').

(** A machine is created with nothing but the hidden MMIO page, or is not. *)
Definition creates_vm s (r : Z) s' W W' : Prop :=
  ks_asid s' = ks_asid s /\
  ((0 <= r /\ exists a w, W !! a = None /\ W' = <[a := w]> W /\ w_fd w = Some r /\
      fresh_vm s a (ks_pages s') w /\ kernel_fd r /\
      ks_files s !! r = None /\ ks_files s' = <[r := FVm a]> (ks_files s)) \/
   (r < 0 /\ W' = W /\ ks_files s' = ks_files s /\ ks_pages s ⊆ ks_pages s')).

(** A vcpu is created, with a descriptor and an identifier of its own, or is not. *)
Definition creates_vcpu (a : Z) w s (r : Z) s' W W' : Prop :=
  exists w', W' = <[a := w']> W /\ create_vcpu_result a w s s' r w' /\
    (w' = w /\ r = PTR_ERR (inr a) /\ ks_asid s' = ks_asid s \/ ks_asid s' = ks_asid s + 1) /\
    (w' = w /\ ks_files s' = ks_files s \/
     exists c pl, w' = with_vcpu w c pl r /\ kernel_fd r /\ ks_files s !! r = None /\
       ks_files s' = <[r := FVcpu c]> (ks_files s)).

(** The page of [gpa] is mapped, unless memory runs out: the machine's table grows
    along the path of [gpa] by pages that were free, and keeps the contents of
    its memory. *)
Definition maps_page (a : Z) w (gpa : Z) s (r : Z) s' W W' : Prop :=
  exists t', W' = <[a := w <| w_tree := t' |>]> W /\
    npt_ext gpa (ks_pages s) (w_tree w) (ks_pages s') t' /\
    ks_files s' = ks_files s /\ ks_asid s' = ks_asid s /\ ks_user s' = ks_user s /\
    (r = 0 /\ (exists x, t' !! path gpa = Some (x, true)) \/
     r = - ENOMEM /\ t' !! path gpa = None).

(** A call on a vcpu changes no machine, and does to its vcpu what
    [vcpu_effect] says. *)
Definition calls_vcpu (c : Z) (ioctl arg : Z) (killed : bool) s (r : Z) s' W W' : Prop :=
  W' = W /\ ks_files s' = ks_files s /\ ks_asid s' = ks_asid s /\
  exists a w pl v b, W !! a = Some w /\ w_vcpu w = Some (c, pl) /\
    at_vcpu s c v pl b /\ vcpu_effect c v pl b ioctl arg killed s r s'.

(** A mapping of a vcpu is its shared page, and one page long. *)
Definition maps_state (c : Z) (pgoff start end_ : Z) s (r : Z) s' W W' : Prop :=
  exists a w pl, W !! a = Some w /\ w_vcpu w = Some (c, pl) /\
    if (pgoff =? 0) && (wrap 64 (end_ - start) =? PAGE_SIZE) then
      let '(e, u) := remap_pfn_range (ks_user s) start (at_state pl / PAGE_SIZE) PAGE_SIZE in
      r = (if e <? 0 then e else 0) /\ s' = s <| ks_user := u |> /\ W' = W
    else refused (- EINVAL) r s s' W W'.

(** The abstract step. *)
Definition abstract_step (c : syscall) s (r : Z) s' W W' : Prop :=
  match c with
  | SysOpen => opens s r s' W W'
  | SysClose fd =>
      match ks_files s !! fd with
      | None => refused (- EBADF) r s s' W W'
      | Some FDev =>
          r = 0 /\ W' = W /\ ks_pages s' = ks_pages s /\ ks_asid s' = ks_asid s /\
          ks_files s' = delete fd (ks_files s)
      | Some (FVm a) => exists w, W !! a = Some w /\
          closes a (w <| w_fd := None |>) fd s r s' W W'
      | Some (FVcpu c) => exists a w pl, W !! a = Some w /\ w_vcpu w = Some (c, pl) /\
          closes a (w <| w_vfd := None |>) fd s r s' W W'
      end
  | SysIoctl fd ioctl arg killed =>
      match ks_files s !! fd with
      | None => refused (- EBADF) r s s' W W'
      | Some FDev =>
          if ioctl =? YAKVM_CREATE_VM then creates_vm s r s' W W'
          else refused (- EINVAL) r s s' W W'
      | Some (FVm a) => exists w, W !! a = Some w /\
          if ioctl =? YAKVM_CREATE_VCPU then creates_vcpu a w s r s' W W'
          else if ioctl =? YAKVM_MMAP_PAGE then maps_page a w arg s r s' W W'
          else refused (- EINVAL) r s s' W W'
      | Some (FVcpu c) => calls_vcpu c ioctl arg killed s r s' W W'
      end
  | SysMmap fd pgoff start end_ =>
      match ks_files s !! fd with
      | None => refused (- EBADF) r s s' W W'
      | Some FDev => refused (- ENODEV) r s s' W W'
      | Some (FVm a) => refused 0 r s s' W W'
      | Some (FVcpu c) => maps_state c pgoff start end_ s r s' W W'
      end
  | SysFault fd address start =>
      match ks_files s !! fd with
      | Some (FVm a) => exists w, W !! a = Some w /\
          maps_page a w (wrap 64 (address - start)) s r s' W W'
      | _ => refused (- EFAULT) r s s' W W'
      end
  | SysMigrate cpu =>
      r = 0 /\ W' = W /\
      s' = (if (cpu <? length (ks_cpus s))%nat then s <| ks_cpu := cpu |> else s)
  end.

(** ** Whose machine a call is on *)

(** The descriptor a call is made on. *)
Definition syscall_fd (c : syscall) : option Z :=
  match c with
  | SysClose fd | SysIoctl fd _ _ _ | SysMmap fd _ _ _ | SysFault fd _ _ => Some fd
  | SysOpen | SysMigrate _ => None
  end.

Definition acts_on (c : syscall) (w : avm) : Prop :=
  exists fd, syscall_fd c = Some fd /\ (w_fd w = Some fd \/ w_vfd w = Some fd).

(** The other machines are what they were, to the contents of their pages. *)
Definition others_kept (c : syscall) s W s' W' : Prop :=
  forall b wb, W !! b = Some wb -> ~ acts_on c wb ->
    W' !! b = Some wb /\ forall x, x ∈ vm_pages wb -> ks_pages s' !! x = ks_pages s !! x.

(** A call that returns: the abstract step, in a state of the invariant, with
    pages lost only when memory ran out. *)
Definition step_post (c : syscall) s W (lost : gset Z) (r : Z) s' : Prop :=
  exists W' lost', inv s' W' lost' /\ abstract_step c s r s' W W' /\
    lost ⊆ lost' /\ (r <> - ENOMEM -> lost' = lost) /\ others_kept c s W s' W'.

(** ** The calls that do not return *)

(** The reasons of a panic: the processor has no ASID left for a new vcpu, or the
    page asked for is the MMIO page. *)
Definition asks_page (c : syscall) (fd gpa : Z) : Prop :=
  (exists k, c = SysIoctl fd YAKVM_MMAP_PAGE gpa k) \/
  (exists address start, c = SysFault fd address start /\ gpa = wrap 64 (address - start)).

Definition panic_reason (c : syscall) s W : Prop :=
  (exists fd arg k, c = SysIoctl fd YAKVM_CREATE_VCPU arg k /\
     cpuid_ebx 0x8000000a <= ks_asid s + 1) \/
  (exists fd gpa a w, asks_page c fd gpa /\ W !! a = Some w /\ w_fd w = Some fd /\
     guest_page gpa = guest_page YAKVM_MMIO_HAWK).

(** The calls that run a guest: what the guest does may leave its machine. *)
Definition runs_guest (c : syscall) : Prop := exists fd arg, c = SysIoctl fd YAKVM_RUN arg false.

Definition step_stop (c : syscall) s W (st : stop) : Prop :=
  st = Panicked /\ panic_reason c s W \/ st = Escaped /\ runs_guest c.

End spec.
