(* ===== verification/Safety.v ===== *)
(** * The driver refines its specification

    Every system call, from any state with the invariant, does the abstract step
    of Spec and leaves the invariant; or it panics for one of two reasons, or its
    guest escapes. In particular no memory is used after it is freed, nothing is
    freed twice and no lock is waited for by its holder. *)

From S2P Require Import Prelude Structs Kernel Npt Vmcb VcpuRun Vcpu VcpuSwitch Vm.
From S2P Require Import Driver System Handlers HandlersVcpu Spec.

Section safety.
Context `{L : KernelLaws} `{P : !Processor K} `{PL : !ProcessorLaws K P} `{A : !Abi K}
  `{C : Config} `{CO : !ConfigOk C}.
Implicit Types (s : kstate) (W : world) (w : avm).

Lemma vm_post_step c a new s W lost r s' :
  inv s W lost -> vm_post a new s W lost s' ->
  (forall w, W !! a = Some w -> acts_on c w) ->
  abstract_step c s r s' W (update a new W) -> step_post c s W lost r s'.
Proof.
  intros I [Hch I'] Ha Hs. exists (update a new W), lost. split; [done|]. split; [done|].
  split; [done|]. split; [done|]. intros b wb Hb Hn. destruct (decide (b = a)) as [->|Hne].
  { destruct Hn. by apply Ha. }
  split; [by rewrite update_lookup_ne|]. intros x Hx. destruct Hch as (Fp & _). apply Fp.
  - destruct (W !! a) as [w|] eqn:Hw; [|apply not_elem_of_empty]. intros Hx'.
    by eapply (inv_apart _ _ _ I b wb a w).
  - eapply vm_pages_in; [|done]. by eapply inv_vm.
Qed.

Lemma same_step c s W lost r s' :
  ks_pages s' = ks_pages s -> inv s' W lost -> abstract_step c s r s' W W ->
  step_post c s W lost r s'.
Proof.
  intros Hp I' Hs. exists W, lost. split_and!; try done.
  intros b wb Hb _. split; [done|]. by rewrite Hp.
Qed.

Lemma acts_vm c fd (a : Z) W w :
  syscall_fd c = Some fd -> W !! a = Some w -> w_fd w = Some fd \/ w_vfd w = Some fd ->
  forall w', W !! a = Some w' -> acts_on c w'.
Proof. intros Hc Hw Hfd w' Hw'. exists fd. split; [done|]. by simplify_eq. Qed.

(** ** Opening and closing *)

Lemma wp_open_step s W lost :
  inv s W lost -> wp (step SysOpen) (step_post SysOpen s W lost) never s.
Proof.
  intros I. eapply wp_mono; [by apply wp_open|]. intros r s' (Hp & I' & Ha & Hm & Hr).
  apply same_step; [done..|]. split_and!; try done. destruct Hr as [?|(? & _ & ?)]; [by left|by right].
Qed.

Lemma wp_close_step fd s W lost :
  inv s W lost -> wp (step (SysClose fd)) (step_post (SysClose fd) s W lost) never s.
Proof.
  intros I. destruct (ks_files s !! fd) as [[|a|v]|] eqn:Hf.
  - eapply wp_mono; [by eapply wp_close_dev|]. intros r s' (Hp & I' & Hr & Hfi & Ha).
    apply same_step; [done..|]. cbn [abstract_step]. rewrite Hf. by split_and!.
  - destruct (files_vm _ _ _ _ _ I Hf) as (w & Hw & Hfd).
    eapply wp_mono; [by eapply wp_close_vm|]. intros r s' (Hpost & Hs & Hr & Hfi & Ha).
    eapply vm_post_step; [exact I|exact Hpost|by eapply (acts_vm _ fd); [|exact Hw|left]|].
    cbn [abstract_step]. rewrite Hf. exists w. split; [done|]. by split_and!.
  - destruct (files_vcpu _ _ _ _ _ I Hf) as (a & w & pl & Hw & Hv & Hfd).
    eapply wp_mono; [by eapply wp_close_vcpu|]. intros r s' (Hpost & Hs & Hr & Hfi & Ha).
    eapply vm_post_step; [exact I|exact Hpost|by eapply (acts_vm _ fd); [|exact Hw|right]|].
    cbn [abstract_step]. rewrite Hf. exists a, w, pl. split; [done|]. split; [done|]. by split_and!.
  - unfold step. apply wp_bind, wp_gets. rewrite Hf. apply wp_ret, same_step; [done..|].
    cbn [abstract_step]. by rewrite Hf.
Qed.

(** ** The ioctls *)

Lemma wp_dev_ioctl fd ioctl arg k s W lost :
  inv s W lost -> ks_files s !! fd = Some FDev ->
  wp (yakvm_dev_ioctl ioctl) (step_post (SysIoctl fd ioctl arg k) s W lost) never s.
Proof.
  intros I Hf. unfold yakvm_dev_ioctl.
  destruct (ioctl =? YAKVM_CREATE_VM) eqn:Hi.
  2: { apply wp_ret, same_step; [done..|]. cbn [abstract_step]. by rewrite Hf, Hi. }
  eapply wp_mono; [eapply wp_dev_ioctl_create_vm; [done|]|].
  { apply (cpus_svm _ (inv_cpus _ _ _ I)). right. intros He. by rewrite He in Hf. }
  intros r s' (Hasid & [(Hr & a & w & Ha & Hpost & Hfd & Hfresh & Hk & Hfree & Hfi)|
    (Hr & Hfi & Hsub & lost' & Hl & I' & Hno)]).
  - eapply vm_post_step; [done|done|congruence|]. cbn [abstract_step]. rewrite Hf, Hi.
    split; [done|]. left. split; [done|]. exists a, w. by split_and!.
  - exists W, lost'. split; [done|]. split.
    { cbn [abstract_step]. rewrite Hf, Hi. split; [done|]. right. by split_and!. }
    split; [done|]. split; [done|]. intros b wb Hb _.
    split; [done|]. intros x Hx.
    destruct (vm_pages_in _ _ _ _ _ (inv_vm _ _ _ I _ _ Hb) Hx) as [p Hp].
    rewrite Hp. by eapply lookup_weaken.
Qed.

(** A page asked for, through the ioctl or by a fault: the result of the handler
    for the page [res] of the walk. *)
Definition answer (res : err_ptr) : Z := if res is inl e then e else 0.

Lemma wp_asks_page c fd a w gpa s W lost (Q : err_ptr -> kstate -> Prop) :
  inv s W lost -> W !! a = Some w -> w_fd w = Some fd -> asks_page c fd gpa ->
  (forall res s' t', vm_post a (Some (w <| w_tree := t' |>)) s W lost s' ->
     maps_page a w gpa s (answer res) s' W (update a (Some (w <| w_tree := t' |>)) W) -> Q res s') ->
  wp (yakvm_vmm_npt_create (w_vmm w) gpa false) Q (step_stop c s W) s.
Proof.
  intros I Hw Hfd Hc HQ. eapply wp_mono; [eapply wp_stop_mono; [by eapply wp_vm_npt_create|]|].
  - intros st [-> [x Hx]]. left. split; [done|]. right. exists fd, gpa, a, w. split_and!; [done..|].
    apply path_eq_page. by eapply (vm_mmio _ _ _ _ (inv_vm _ _ _ I _ _ Hw)).
  - intros res s' (t' & Hpost & (k & m' & t1 & -> & _ & R1 & He & _) & _ & Hres).
    apply (HQ _ _ t'); [done|]. exists t'. split; [done|]. assert (t1 = t') as ->.
    { eapply npt_repr_unique; [exact R1|].
      exact (vm_tree _ _ _ _ (inv_vm _ _ _ (proj2 Hpost) a _ (update_lookup _ _ _))). }
    split_and!; try done. destruct res; naive_solver.
Qed.

Lemma wp_vm_ioctl fd ioctl arg k a w s W lost :
  inv s W lost -> ks_files s !! fd = Some (FVm a) -> W !! a = Some w -> w_fd w = Some fd ->
  wp (yakvm_vm_ioctl a ioctl arg) (step_post (SysIoctl fd ioctl arg k) s W lost)
    (step_stop (SysIoctl fd ioctl arg k) s W) s.
Proof.
  intros I Hf Hw Hfd. set (c := SysIoctl fd ioctl arg k).
  assert (forall w', W !! a = Some w' -> acts_on c w') as Hall by (eapply (acts_vm c fd); eauto).
  destruct (vm_obj _ _ _ _ (inv_vm _ _ _ I _ _ Hw)) as [id Ho].
  unfold yakvm_vm_ioctl. destruct (ioctl =? YAKVM_CREATE_VCPU) eqn:H1.
  { eapply wp_mono; [eapply wp_stop_mono; [by eapply wp_vm_ioctl_create_vcpu|]|].
    - intros st [-> Hlt]. left. split; [done|]. left. exists fd, arg, k. split; [|done].
      unfold c. by apply Z.eqb_eq in H1 as ->.
    - intros r s' (w' & Hpost & Hres & Ha). eapply vm_post_step; [done..|].
      unfold c. cbn [abstract_step]. rewrite Hf. exists w. split; [done|]. rewrite H1.
      exists w'. split; [done|]. split; [done|]. tauto. }
  destruct (ioctl =? YAKVM_MMAP_PAGE) eqn:H2.
  - unfold yakvm_vm_ioctl_mmap_page. apply wp_bind. eapply wp_get_obj; [exact Ho|done|]. simpl.
    apply wp_bind. eapply wp_asks_page; [done..| |].
    { left. exists k. unfold c. by apply Z.eqb_eq in H2 as ->. }
    intros res s' t' Hpost Hm. apply wp_ret. eapply vm_post_step; [done..|].
    unfold c. cbn [abstract_step]. rewrite Hf. exists w. split; [done|]. rewrite H1, H2.
    by destruct res.
  - apply wp_ret, same_step; [done..|]. unfold c. cbn [abstract_step]. rewrite Hf.
    exists w. split; [done|]. by rewrite H1, H2.
Qed.

Lemma wp_vcpu_ioctl_step fd ioctl arg k c s W lost :
  inv s W lost -> ks_files s !! fd = Some (FVcpu c) ->
  wp (yakvm_vcpu_ioctl c ioctl arg k) (step_post (SysIoctl fd ioctl arg k) s W lost)
    (step_stop (SysIoctl fd ioctl arg k) s W) s.
Proof.
  intros I Hf. destruct (files_vcpu _ _ _ _ _ I Hf) as (a & w & pl & Hw & Hv & Hfd).
  eapply wp_mono; [eapply wp_stop_mono; [by eapply wp_vcpu_call|]|].
  - intros st (-> & -> & ->). right. split; [done|]. by exists fd, arg.
  - intros r s' ((Hpost & Hfi & Ha) & v & b & Hat & He).
    eapply vm_post_step; [exact I|exact Hpost|by eapply (acts_vm _ fd); [|exact Hw|right]|].
    cbn [abstract_step]. rewrite Hf. rewrite <- Hw, update_same.
    split_and!; [done..|]. by exists a, w, pl, v, b.
Qed.

(** ** Mappings and faults *)

Lemma wp_fault fd address start a w s W lost :
  inv s W lost -> ks_files s !! fd = Some (FVm a) -> W !! a = Some w -> w_fd w = Some fd ->
  wp (yakvm_vm_vmm_fault a address start)
    (fun r s' => step_post (SysFault fd address start) s W lost r.1 s')
    (step_stop (SysFault fd address start) s W) s.
Proof.
  intros I Hf Hw Hfd. set (c := SysFault fd address start).
  assert (forall w', W !! a = Some w' -> acts_on c w') as Hall by (eapply (acts_vm c fd); eauto).
  destruct (vm_obj _ _ _ _ (inv_vm _ _ _ I _ _ Hw)) as [id Ho].
  unfold yakvm_vm_vmm_fault. apply wp_bind. eapply wp_get_obj; [exact Ho|done|]. simpl.
  apply wp_bind. eapply wp_asks_page; [done..|by right; exists address, start|].
  intros [e|page] s' t' Hpost Hm; [apply wp_ret|apply wp_bind, wp_modify, wp_ret];
    (eapply vm_post_step; [done| |done|]).
  - exact Hpost.
  - unfold c. cbn [abstract_step]. rewrite Hf. by exists w.
  - destruct Hpost as [Hch I']. split; [exact Hch|]. eapply inv_asid_only; try done; [|apply I'].
    destruct (inv_mm _ _ _ I') as [H1 H2 H3].
    destruct (get_page_used (ks_mm s') (page_to_phys page)) as (U1 & U2 & U3).
    split; simpl; [by rewrite U1|by rewrite U2|by rewrite U3].
  - unfold c. cbn [abstract_step]. rewrite Hf. by exists w.
Qed.

Lemma wp_sys_fault_step fd address start s W lost :
  inv s W lost ->
  wp (step (SysFault fd address start)) (step_post (SysFault fd address start) s W lost)
    (step_stop (SysFault fd address start) s W) s.
Proof.
  intros I. unfold step. apply wp_bind, wp_gets.
  destruct (ks_files s !! fd) as [[|a|v]|] eqn:Hf;
    try (apply wp_ret, same_step; [done..|cbn [abstract_step]; by rewrite Hf]).
  destruct (files_vm _ _ _ _ _ I Hf) as (w & Hw & Hfd).
  apply wp_bind. eapply wp_mono; [by eapply wp_fault|]. intros r s' Hpost. by apply wp_ret.
Qed.

Lemma wp_mmap_step fd pgoff start end_ s W lost :
  inv s W lost ->
  wp (step (SysMmap fd pgoff start end_)) (step_post (SysMmap fd pgoff start end_) s W lost) never s.
Proof.
  intros I. unfold step. apply wp_bind, wp_gets. destruct (ks_files s !! fd) as [[|a|v]|] eqn:Hf;
    try (apply wp_ret, same_step; [done..|cbn [abstract_step]; by rewrite Hf]).
  destruct (files_vcpu _ _ _ _ _ I Hf) as (a & w & pl & Hw & Hv & Hfd).
  destruct (vm_vcpu _ _ _ _ (inv_vm _ _ _ I _ _ Hw) _ _ Hv) as (_ & _ & Vp & vc & Hvc & Hpl & _).
  destruct (pages_g _ _ _ Vp) as (b & Hb & _).
  assert (at_vcpu s v vc pl b) as Hat by done. unfold wp.
  rewrite (state_mmap_maps _ _ _ _ pgoff start end_ _ Hat).
  assert (forall r s', maps_state v pgoff start end_ s r s' W W ->
    abstract_step (SysMmap fd pgoff start end_) s r s' W W) as Hstep.
  { intros r s' H. cbn [abstract_step]. by rewrite Hf. }
  destruct ((pgoff =? 0) && _) eqn:Hc.
  - destruct (remap_pfn_range _ _ _ _) as [r u] eqn:Hu. apply same_step; [done|..].
    + eapply inv_asid_only; try done; [|apply I]. by eapply mm_ok_sub; [apply I|..].
    + apply Hstep. exists a, w, pl. split; [done|]. split; [done|]. by rewrite Hc, Hu.
  - apply same_step; [done|done|]. apply Hstep. exists a, w, pl. split; [done|]. split; [done|].
    by rewrite Hc.
Qed.

Lemma wp_migrate_step cpu s W lost :
  inv s W lost -> wp (step (SysMigrate cpu)) (step_post (SysMigrate cpu) s W lost) never s.
Proof.
  intros I. unfold step. apply wp_bind, wp_gets, wp_bind, wp_gets.
  destruct (Nat.ltb_spec cpu (length (ks_cpus s))) as [Hlt|Hge].
  - apply wp_bind, wp_modify, wp_ret, same_step; [done|..].
    + eapply inv_files_only; try done; try apply I.
      * by eapply mm_ok_sub; [apply I|..].
      * destruct (inv_cpus _ _ _ I). by split.
    + cbn [abstract_step]. by rewrite (proj2 (Nat.ltb_lt _ _) Hlt).
  - apply wp_ret, same_step; [done..|]. cbn [abstract_step]. by rewrite (proj2 (Nat.ltb_ge _ _) Hge).
Qed.

(** ** The step of the system *)

Lemma wp_ioctl_step fd ioctl arg k s W lost :
  inv s W lost ->
  wp (step (SysIoctl fd ioctl arg k)) (step_post (SysIoctl fd ioctl arg k) s W lost)
    (step_stop (SysIoctl fd ioctl arg k) s W) s.
Proof.
  intros I. unfold step. apply wp_bind, wp_gets. destruct (ks_files s !! fd) as [[|a|v]|] eqn:Hf.
  - eapply wp_stop_mono; [by eapply wp_dev_ioctl|]. by intros ? [].
  - destruct (files_vm _ _ _ _ _ I Hf) as (w & Hw & Hfd). by eapply wp_vm_ioctl.
  - by eapply wp_vcpu_ioctl_step.
  - apply wp_ret, same_step; [done..|]. cbn [abstract_step]. by rewrite Hf.
Qed.

Lemma wp_syscall c s W lost :
  inv s W lost -> wp (step c) (step_post c s W lost) (step_stop c s W) s.
Proof.
  intros I. assert (forall T (m : KM T) Q, wp m Q never s -> wp m Q (step_stop c s W) s) as Hnever.
  { intros T m Q H. eapply wp_stop_mono; [done|]. by intros ? []. }
  destruct c.
  - by apply Hnever, wp_open_step.
  - by apply Hnever, wp_close_step.
  - by apply wp_ioctl_step.
  - by apply Hnever, wp_mmap_step.
  - by apply wp_sys_fault_step.
  - by apply Hnever, wp_migrate_step.
Qed.

End safety.
