(* ===== verification/Machine.v ===== *)
(** * A concrete machine

    The concrete kernel of Concrete with a processor whose guest halts at once,
    for evaluating the whole driver on concrete system calls. *)

From S2P Require Import Prelude Structs Kernel Concrete Npt Vmcb VcpuRun Vcpu Vm Driver.

(** A guest that writes RBX and halts. *)
Definition halting_guest : Processor concrete := {|
  guest_run u m hsave pa g hd :=
    match (m !! pa) ≫= as_vmcb with
    | Some b =>
        (u, <[pa := PVmcb (b <| vmcb.control :=
                (vmcb.control b) <| control.exit_code := SVM_EXIT_HLT |> |>)]> m,
         g <| gprs.rbx := 42 |>, hd)
    | None => (u, m, g, hd)
    end;
  guest_acts u m hsave pa g hd := []
|}.

#[global] Instance halting_laws : ProcessorLaws concrete halting_guest.
Proof.
  split. intros u m hsave pa g hd u' m' g' hd' p v t Hp Hv R Hpa. intros _. simpl. rewrite Hp. simpl.
  rewrite Hv. intros [= <- <- <- <-]. split; [by apply dom_insert_lookup_L|].
  split; [eexists; split; [apply lookup_insert_eq|done]|]. split.
  - intros q x Hq Hl. destruct (repr_table _ _ _ R _ _ _ Hq) as (ws & Hws & Hlen & _).
    exists ws. split; [|done]. rewrite lookup_insert_ne; [done|]. intros ->.
    apply Hpa, elem_of_tree_pages. eauto.
  - intros x Hx _ _. by apply lookup_insert_ne.
Qed.

Definition concrete_abi : Abi concrete := {|
  sizeof_mutex := 32;
  caller_regs _ := gprs.mk 0 1 2 3 4 5 6 8 9 10 11 12 13 14 15
|}.

Definition go (script : list bool) (l : list syscall) : outcome (@kstate concrete) (list Z) :=
  @run concrete halting_guest concrete_abi makefile_config l
    (final insmod (boot script)).

Definition demo_calls : list syscall :=
  [SysOpen; SysIoctl 3 YAKVM_CREATE_VM 0 false; SysIoctl 4 YAKVM_CREATE_VCPU 0 false;
   SysIoctl 4 YAKVM_MMAP_PAGE 4096 false; SysIoctl 5 YAKVM_RUN 0 false;
   SysIoctl 5 YAKVM_GET_REGS 1 false; SysFault 4 8192 0; SysClose 4; SysIoctl 5 YAKVM_RUN 0 false; SysClose 5; SysClose 3].
