(* ===== verification/SafetyProps.v ===== *)
(** * What the driver guarantees

    The properties of the whole driver over the facts of Safety, with the runs of
    the concrete machine that witness them. *)

From S2P Require Import Prelude Structs Kernel Concrete Npt Vmcb VcpuRun Vcpu VcpuSwitch.
From S2P Require Import Vm Driver System Handlers HandlersVcpu Spec Safety Machine.

(** ** Loading and unloading *)
Section loading.
Context `{L : KernelLaws} `{P : !Processor K} `{PL : !ProcessorLaws K P} `{A : !Abi K}
  `{C : Config} `{CO : !ConfigOk C}.
Implicit Types (s : kstate) (W : world) (w : avm).

Lemma svme_enabled c : cpu_svm (yakvm_cpu_svm_enable c).
Proof.
  unfold cpu_svm, yakvm_cpu_svm_enable. change EFER_SVME with (2 ^ 12).
  rewrite has_flag_testbit by lia. cbn [pcpu.efer set_field].
  by rewrite Z.lor_spec, orb_true_r.
Qed.

Lemma svm_enable_idle c : cpu_idle c -> cpu_idle (yakvm_cpu_svm_enable c).
Proof. done. Qed.

Lemma wp_status_xchg v s (Q : Z -> kstate -> Prop) E :
  Q (ks_status s) (s <| ks_status := v |>) -> wp (status_xchg v) Q E s.
Proof. done. Qed.

Lemma inv_status s W lost v : inv s W lost -> inv (s <| ks_status := v |>) W lost.
Proof.
  intros I. eapply inv_files_only; try done; try apply I.
  - by eapply mm_ok_sub; [apply I|..].
  - by eapply cpus_ok_same; [apply I|..].
Qed.

(** ** The state of a machine without the driver *)
Record booted (s : kstate) : Prop := {
  boot_mm : mm_ok s;
  boot_pages : ks_pages s = ∅;
  boot_heap : ks_heap s = ∅;
  boot_files : ks_files s = ∅;
  boot_asid : asid_ok s;
  boot_misc : ks_misc s = false;
  boot_cpu : (ks_cpu s < length (ks_cpus s))%nat;
  boot_cpus : Forall cpu_idle (ks_cpus s)
}.

Lemma booted_inv s : booted s -> inv s ∅ ∅.
Proof.
  intros [Hmm Hp Hh Hf Ha Hm Hc Hcs]. split; try done.
  - intros x. rewrite Hh, lookup_empty. by intros [].
  - intros x. rewrite Hp, lookup_empty. by intros [].
  - rewrite Hf. split; intros *; rewrite ?lookup_empty; naive_solver.
  - split; [done..|]. rewrite Hm, Hf. by intros [].
Qed.

Lemma inv_enabled s W lost k b :
  inv s W lost -> mm_ok (with_mem k (ks_pages s) s) ->
  inv (with_mem k (ks_pages s) s <| ks_misc := b |>
         <| ks_cpus := yakvm_cpu_svm_enable <$> ks_cpus s |>) W lost.
Proof.
  intros I Hk. eapply inv_files_only; try done; try apply I.
  - by eapply mm_ok_sub; [apply Hk|..].
  - destruct (inv_cpus _ _ _ I) as [H1 H2 _]. split; simpl.
    + by rewrite length_map.
    + apply Forall_fmap. by eapply Forall_impl; [exact H2|].
    + intros _. apply Forall_fmap, Forall_true. apply svme_enabled.
Qed.

Lemma inv_misc s W lost k b :
  inv s W lost -> mm_ok (with_mem k (ks_pages s) s) -> (b = true -> ks_misc s = true) ->
  inv (with_mem k (ks_pages s) s <| ks_misc := b |>) W lost.
Proof.
  intros I Hk Hb. eapply inv_files_only; try done; try apply I.
  - by eapply mm_ok_sub; [apply Hk|..].
  - destruct (inv_cpus _ _ _ I) as [H1 H2 H3]. split; simpl; [done..|].
    intros [H|H]; apply H3; [left; auto|by right].
Qed.

(** Loading the driver: what a successful [yakvm_init] leaves. *)
Definition loaded (s : kstate) : Prop :=
  ks_misc s = true /\ ks_status s = YAKVM_INUSE /\ Forall cpu_svm (ks_cpus s).

Lemma misc_mem s r k : mm_ok s -> misc_register_op (ks_mm s) = (r, k) -> mm_ok (with_mem k (ks_pages s) s).
Proof.
  intros [H1 H2 H3] Hk. destruct (misc_register_used _ _ _ Hk) as (U1 & U2 & U3).
  split; simpl; [by rewrite U1|by rewrite U2|by rewrite U3].
Qed.

Lemma misc_exit_mem s : mm_ok s -> mm_ok (with_mem (misc_deregister_op (ks_mm s)) (ks_pages s) s).
Proof.
  intros [H1 H2 H3]. destruct (misc_deregister_used (ks_mm s)) as (U1 & U2 & U3).
  split; simpl; [by rewrite U1|by rewrite U2|by rewrite U3].
Qed.

Lemma wp_svm_supported s (Q : bool -> kstate -> Prop) E :
  Q ((x86_vendor (ks_cpu s) =? X86_VENDOR_AMD) && cpu_has_svm (ks_cpu s)) s ->
  wp is_svm_supported Q E s.
Proof.
  intros H. unfold is_svm_supported. apply wp_bind, wp_gets.
  destruct (x86_vendor (ks_cpu s) =? _), (cpu_has_svm (ks_cpu s)); by apply wp_ret.
Qed.

Lemma wp_misc_register s (Q : Z -> kstate -> Prop) E :
  mm_ok s ->
  (forall r k, mm_ok (with_mem k (ks_pages s) s) ->
     Q r (with_mem k (ks_pages s) s <| ks_misc := ks_misc s || (r =? 0) |>)) ->
  wp misc_register Q E s.
Proof.
  intros Hok H. unfold misc_register, wp.
  destruct (misc_register_op (ks_mm s)) as [r k] eqn:Hk. exact (H r k (misc_mem _ _ _ Hok Hk)).
Qed.

(** The result of loading the driver. *)
Definition init_post s W lost (r : Z) s' : Prop :=
  inv s' W lost /\ ks_files s' = ks_files s /\ (r = 0 -> loaded s') /\
  (r <> 0 -> ks_cpus s' = ks_cpus s /\ ks_misc s' = ks_misc s /\ ks_pages s' = ks_pages s /\
     ks_heap s' = ks_heap s).

Lemma wp_yakvm_init s W lost : inv s W lost -> wp yakvm_init (init_post s W lost) never s.
Proof.
  intros I. unfold yakvm_init. apply wp_bind, wp_status_xchg.
  pose proof (inv_status _ _ _ YAKVM_INUSE I) as I1.
  assert (forall e, e <> 0 -> init_post s W lost e (s <| ks_status := YAKVM_INUSE |>)) as Hfail.
  { intros e He. split; [done|]. by split_and!. }
  destruct (Z.eqb_spec (ks_status s) YAKVM_INUSE) as [Hs|Hs]; [apply wp_ret, Hfail; discriminate|].
  apply wp_bind, wp_svm_supported. destruct (negb _); [apply wp_ret, Hfail; discriminate|].
  apply wp_bind, wp_misc_register; [apply I1|]. intros r k Hk.
  destruct (Z.eqb_spec r 0) as [->|Hr]; cbn [negb].
  - apply wp_bind, wp_modify, wp_ret. rewrite orb_true_r.
    split; [exact (inv_enabled _ _ _ _ true I1 Hk)|].
    split_and!; [done| |done]. intros _. split_and!; [done..|].
    apply Forall_fmap, Forall_true. apply svme_enabled.
  - apply wp_ret. rewrite orb_false_r. split; [by apply inv_misc|]. by split_and!.
Qed.

Lemma wp_init s W lost : inv s W lost -> wp insmod (init_post s W lost) never s.
Proof. intros I. exact (wp_yakvm_init _ _ _ (inv_status _ _ _ YAKVM_UNUSE I)). Qed.

Lemma wp_exit s W lost :
  inv s W lost -> ks_files s = ∅ ->
  wp yakvm_exit (fun _ s' => inv s' W lost /\ ks_files s' = ks_files s /\
      ks_status s' = YAKVM_UNUSE /\ ks_misc s' = false /\ ks_cpus s' = ks_cpus s)
    (fun st => st = Panicked /\ ks_status s <> YAKVM_INUSE) s.
Proof.
  intros I Hf. unfold yakvm_exit. apply wp_bind, wp_modify, wp_bind, wp_status_xchg.
  assert (inv (with_mem (misc_deregister_op (ks_mm s)) (ks_pages s) s <| ks_misc := false |>) W lost) as I1.
  { apply inv_misc; [done| |done]. apply misc_exit_mem, I. }
  lazymatch goal with |- wp (kassert ?b) _ _ _ => change b with (ks_status s =? YAKVM_INUSE) end.
  destruct (Z.eqb_spec (ks_status s) YAKVM_INUSE).
  - apply wp_ret. split; [exact (inv_status _ _ _ _ I1)|done].
  - by apply (conj (eq_refl Panicked)).
Qed.

End loading.

(** ** Runs *)
Section runs.
Context `{L : KernelLaws} `{P : !Processor K} `{PL : !ProcessorLaws K P} `{A : !Abi K}
  `{C : Config} `{CO : !ConfigOk C}.
Implicit Types (s : kstate) (W : world) (w : avm).

(** The calls that can stop the machine at all: those that can panic the kernel
    and those that run a guest. *)
Definition may_panic (c : syscall) : Prop :=
  (exists fd arg k, c = SysIoctl fd YAKVM_CREATE_VCPU arg k) \/
  (exists fd gpa, asks_page c fd gpa /\ guest_page gpa = guest_page YAKVM_MMIO_HAWK).

Definition may_stop (c : syscall) (st : stop) : Prop :=
  st = Panicked /\ may_panic c \/ st = Escaped /\ runs_guest c.

Lemma stop_may c s W st : step_stop c s W st -> may_stop c st.
Proof.
  intros [[-> [(fd & arg & k & -> & _)|(fd & gpa & a & w & Hc & _ & _ & Hg)]]|[-> Hr]]; [left..|by right].
  - split; [done|]. left. by exists fd, arg, k.
  - split; [done|]. right. by exists fd, gpa.
Qed.

Definition trace_post (l : list syscall) (lost : gset Z) (rs : list Z) s' : Prop :=
  length rs = length l /\ exists W' lost', inv s' W' lost' /\
    (- ENOMEM ∉ rs -> lost' = lost).

(** One of the calls has stopped the machine. *)
Definition trace_stop (l : list syscall) (st : stop) : Prop := exists c, c ∈ l /\ may_stop c st.

Lemma wp_run l s W lost : inv s W lost -> wp (run l) (trace_post l lost) (trace_stop l) s.
Proof.
  revert s W lost. induction l as [|c l IH]; intros s W lost I; cbn [run].
  { apply wp_ret. split; [done|]. by exists W, lost. }
  apply wp_bind. eapply wp_mono; [eapply wp_stop_mono; [by apply wp_syscall|]|].
  { intros st H%stop_may. exists c. split; [by left|done]. }
  intros r s1 (W1 & lost1 & I1 & _ & _ & Hl & _).
  apply wp_bind. eapply wp_mono; [eapply wp_stop_mono; [by eapply IH|]|].
  { intros st (d & Hd & Hm). exists d. split; [by right|done]. }
  intros rs s2 [Hlen (W2 & lost2 & I2 & Hl2)]. apply wp_ret. split; [simpl; congruence|].
  exists W2, lost2. split; [done|]. intros Hn. apply not_elem_of_cons in Hn as [Hr Hn].
  rewrite Hl2 by done. by apply Hl.
Qed.

(** The driver is loaded and the calls of [l] are made. *)
Lemma wp_loaded_run l s :
  booted s -> wp (insmod ;; run l) (trace_post l ∅) (trace_stop l) s.
Proof.
  intros Hb%booted_inv. apply wp_bind.
  eapply wp_mono; [eapply wp_stop_mono; [by apply wp_init|by intros st []]|].
  intros r s1 (I1 & _). by eapply wp_run.
Qed.

(** With no file open no machine is left. *)
Lemma inv_no_files s W lost :
  inv s W lost -> ks_files s = ∅ -> W = ∅ /\ ks_heap s = ∅ /\ dom (ks_pages s) = lost.
Proof.
  intros I Hf. assert (W = ∅) as ->.
  { apply map_empty. intros a. destruct (W !! a) as [w|] eqn:Hw; [exfalso|done].
    pose proof (inv_vm _ _ _ I _ _ Hw) as Hok.
    assert (forall fd f, ks_files s !! fd <> Some f) as Hno by (intros *; by rewrite Hf).
    destruct (w_fd w) as [fd|] eqn:Hfd.
    { apply (Hno fd (FVm a)), (fd_vm _ _ (inv_files _ _ _ I)). eauto. }
    destruct (w_vfd w) as [fd|] eqn:Hvfd.
    - destruct (w_vcpu w) as [[c pl]|] eqn:Hv.
      + apply (Hno fd (FVcpu c)), (fd_vcpu _ _ (inv_files _ _ _ I)). eauto 10.
      + pose proof (vm_vfd _ _ _ _ Hok Hv). congruence.
    - pose proof (vm_refs _ _ _ _ Hok) as Hr. unfold refs in Hr. rewrite Hfd, Hvfd in Hr.
      simpl in Hr. lia. }
  split; [done|]. split.
  - apply map_empty. intros x. destruct (ks_heap s !! x) eqn:Hx; [exfalso|done].
    destruct (inv_objs _ _ _ I x) as (a & w & Hw & _); [by eexists|]. by rewrite lookup_empty in Hw.
  - apply set_eq. intros x. split; [|by apply (inv_lost_dom _ _ _ I)].
    intros Hx%elem_of_dom. destruct (inv_pages _ _ _ I x Hx) as [Hl|(a & w & Hw & _)]; [done|].
    by rewrite lookup_empty in Hw.
Qed.

(** C1: from a machine without the driver, the driver is loaded and then any sequence
    of system calls made: the run returns a result for each, in a state of the
    invariant; or it panics, and has asked for the MMIO page or created a vcpu; or
    a guest it ran has escaped, that is has done something to the host that its
    control block does not intercept. It never uses memory it does not own, never
    frees twice and never waits for a lock its own caller holds. *)
Theorem run_safe s l :
  booted s ->
  wp (insmod ;; run l)
    (fun rs s' => length rs = length l /\ exists W lost, inv s' W lost)
    (fun st => st = Panicked /\ (exists c, c ∈ l /\ may_panic c) \/
       st = Escaped /\ exists c, c ∈ l /\ runs_guest c) s.
Proof.
  intros Hb. eapply wp_mono; [eapply wp_stop_mono; [by apply wp_loaded_run|]|].
  - intros st (c & Hc & [[-> H]|[-> H]]); [left|right]; eauto.
  - intros rs s2 (Hlen & W & lost & I2 & _). eauto.
Qed.

(** C4: nothing leaks: when every descriptor is closed again, whatever was done in
    between, no object of the driver is left, and no page either unless some
    call had failed for want of memory. (A run in which a guest escapes does not
    get that far.) *)
Theorem run_no_leak s l rs s' :
  booted s -> (insmod ;; run l) s = Ok rs s' -> ks_files s' = ∅ ->
  ks_heap s' = ∅ /\ (- ENOMEM ∉ rs -> ks_pages s' = ∅).
Proof.
  intros Hb Hrun Hf. pose proof (wp_loaded_run l _ Hb) as Hwp.
  eapply wp_ok_inv in Hwp; [|exact Hrun]. destruct Hwp as (_ & W & lost & I & Hl).
  destruct (inv_no_files _ _ _ I Hf) as (_ & Hh & Hp). split; [done|].
  intros Hn. apply dom_empty_inv_L. rewrite Hp. by apply Hl.
Qed.

(** The table behind a descriptor: that of its machine, or the one that the
    control block of its vcpu has the processor walk. *)
Definition table_of s (f : file) : option Z :=
  match f with
  | FDev => None
  | FVm a =>
      v ← (ks_heap s !! a) ≫= as_vm; m ← (ks_heap s !! vm.vmm v) ≫= as_vmm; Some (vmm.ncr3 m)
  | FVcpu c =>
      v ← (ks_heap s !! c) ≫= as_vcpu;
      b ← (ks_pages s !! virt_to_phys (context.vmcb (vcpu.gctx v))) ≫= as_vmcb;
      Some (control.nested_cr3 (vmcb.control b))
  end.

Lemma inv_table s W lost fd f :
  inv s W lost -> ks_files s !! fd = Some f -> f <> FDev ->
  exists a w, W !! a = Some w /\ table_of s f = Some (w_root w).
Proof.
  intros I Hf Hne. destruct f as [|a|c]; [done|..].
  - destruct (files_vm _ _ _ _ _ I Hf) as (w & Hw & _). exists a, w. split; [done|].
    destruct (inv_vm _ _ _ I _ _ Hw) as [[id Ho] Hm _ _ _ _ _]. cbn. rewrite Ho. cbn. by rewrite Hm.
  - destruct (files_vcpu _ _ _ _ _ I Hf) as (a & w & pl & Hw & Hv & _). exists a, w. split; [done|].
    destruct (vm_vcpu _ _ _ _ (inv_vm _ _ _ I _ _ Hw) _ _ Hv) as (_ & _ & Vp & v & Hvc & Hpl & _).
    destruct (pages_g _ _ _ Vp) as (b & Hb & Hn & _).
    assert (at_vcpu s c v pl b) as Hat by done. destruct (at_vcpu_page _ _ _ _ _ Hat) as (Hg & p & Hp & Hpb).
    cbn. rewrite Hvc. cbn. rewrite Hg, Hp. cbn. by rewrite Hpb, <- Hn.
Qed.

(** C5: the MMIO page is never part of a guest's memory: after any run of calls, page
    requests for it included, neither the table of a machine nor the one that the
    control block of a vcpu has the processor walk translates an address of that
    page, so that each access of the guest to it leaves the guest. *)
Theorem mmio_never_mapped s l rs s' fd f gpa :
  booted s -> (insmod ;; run l) s = Ok rs s' ->
  ks_files s' !! fd = Some f -> f <> FDev -> guest_page gpa = guest_page YAKVM_MMIO_HAWK ->
  exists root, table_of s' f = Some root /\ hw_translate (ks_pages s') root gpa = None.
Proof.
  intros Hb Hrun Hf Hne Hg. pose proof (wp_loaded_run l _ Hb) as Hwp.
  eapply wp_ok_inv in Hwp; [|exact Hrun]. destruct Hwp as (_ & W & lost & I & _).
  destruct (inv_table _ _ _ _ _ I Hf Hne) as (a & w & Hw & Ht). exists (w_root w). split; [done|].
  pose proof (inv_vm _ _ _ I _ _ Hw) as Hok. rewrite (hw_translate_repr (vm_tree _ _ _ _ Hok)).
  apply path_eq_page in Hg. destruct (vm_mmio _ _ _ _ Hok) as [[x Hx] _]. by rewrite Hg, Hx.
Qed.

End runs.

(** ** System calls *)
Section calls.
Context `{L : KernelLaws} `{P : !Processor K} `{PL : !ProcessorLaws K P} `{A : !Abi K}
  `{C : Config} `{CO : !ConfigOk C}.
Implicit Types (s : kstate) (W : world) (w : avm).

(** C3: the driver refines its specification: every system call does the abstract
    step of Spec, which says for each call what it answers and what becomes of
    the machines, the files, the identifiers and the memory it may write; loses
    pages only when it returns [-ENOMEM]; leaves the other machines as they are;
    and stops only in a panic, for want of an ASID or on the MMIO page, or with a
    guest that escapes. *)
Theorem syscall_refines c s W lost :
  inv s W lost ->
  wp (step c)
    (fun r s' => exists W' lost', inv s' W' lost' /\ abstract_step c s r s' W W' /\
       lost ⊆ lost' /\ (r <> - ENOMEM -> lost' = lost) /\ others_kept c s W s' W')
    (step_stop c s W) s.
Proof. apply wp_syscall. Qed.


(** What closing a descriptor leaves of its machine: nothing, or all of it, the
    vcpu, its pages, the tables and the guest's memory with what they hold, with
    one reference. *)
Definition closed_machine (a : Z) (w : avm) s s' : Prop :=
  if refs w =? 1 then
    (forall x, x ∈ vm_objs a w -> ks_heap s' !! x = None) /\
    (forall x, x ∈ vm_pages w -> ks_pages s' !! x = None)
  else survives a s s' /\
    exists id, ks_heap s' !! a = Some (OVm (vm.mk false 1 (vcpu_addr w) (w_vmm w) id)).

Lemma vm_post_gone a w s W lost s' :
  inv s W lost -> W !! a = Some w -> vm_post a None s W lost s' ->
  (forall x, x ∈ vm_objs a w -> ks_heap s' !! x = None) /\
  (forall x, x ∈ vm_pages w -> ks_pages s' !! x = None).
Proof.
  intros I Hw [(_ & _ & Dp & Dh & _) _]. rewrite Hw in Dp, Dh. split; intros x Hx.
  - destruct (ks_heap s' !! x) eqn:Ho; [exfalso|done].
    destruct (Dh x) as [H|[H _]]; [by eexists|by apply not_elem_of_empty in H|done].
  - destruct (ks_pages s' !! x) eqn:Ho; [exfalso|done].
    destruct (Dp x) as [H|[H|[H _]]]; [by eexists|by apply not_elem_of_empty in H..|done].
Qed.

Lemma close_post_closed a w w' fd s W lost r s' :
  inv s W lost -> W !! a = Some w -> refs w' = refs w - 1 ->
  w_vmm w' = w_vmm w -> w_vcpu w' = w_vcpu w ->
  close_post a w' fd s W lost r s' -> closed_machine a w s s'.
Proof.
  intros I Hw Hr Em Ev (Hpost & Hs & _). unfold closed_machine, put_result in *.
  pose proof (refs_range w). rewrite Hr in Hpost, Hs.
  pose proof (vm_refs _ _ _ _ (inv_vm _ _ _ I _ _ Hw)).
  destruct (Z.eqb_spec (refs w) 1) as [H1|H1].
  - rewrite H1 in Hpost. by eapply vm_post_gone.
  - split; [apply Hs; lia|]. replace (refs w) with 2 in * by lia. cbn in Hpost. destruct Hpost as [_ I'].
    destruct (vm_obj _ _ _ _ (inv_vm _ _ _ I' a w' (update_lookup _ _ _))) as [id Ho]. exists id.
    unfold vcpu_addr in *. rewrite Ho, Ev, Em. by replace (refs w') with 1 by lia.
Qed.

Lemma wp_close s W lost a w fd :
  inv s W lost -> W !! a = Some w -> w_fd w = Some fd \/ w_vfd w = Some fd ->
  wp (step (SysClose fd)) (fun r s' => r = 0 /\ closed_machine a w s s') never s.
Proof.
  intros I Hw Hfd. pose proof (inv_vm _ _ _ I _ _ Hw) as Hok. destruct Hfd as [Hfd|Hfd].
  - assert (ks_files s !! fd = Some (FVm a)) as Hf by (apply (inv_files _ _ _ I); eauto).
    eapply wp_mono; [by eapply wp_close_vm|].
    intros r s' Hpost. split; [apply Hpost|]. eapply close_post_closed; [done..| | | |exact Hpost]; try done.
    unfold refs. rewrite Hfd. cbn [w_fd w_vfd set_field]. simpl. lia.
  - destruct (w_vcpu w) as [[c pl]|] eqn:Hv.
    2: { pose proof (vm_vfd _ _ _ _ Hok Hv). congruence. }
    assert (ks_files s !! fd = Some (FVcpu c)) as Hf by (apply (inv_files _ _ _ I); eauto 10).
    eapply wp_mono; [by eapply wp_close_vcpu|].
    intros r s' Hpost. split; [apply Hpost|]. eapply close_post_closed; [done..| | | |exact Hpost]; try done.
    unfold refs. rewrite Hfd. cbn [w_fd w_vfd set_field]. simpl. lia.
Qed.

(** C8: reference counting: closing the first of a machine's two descriptors, in
    either order, keeps the machine with one reference and touches nothing else:
    not the vcpu's object, nor its pages, nor the tables or the guest's memory;
    closing the last one frees all its objects and pages. *)
Theorem close_counts s W lost a w fd :
  inv s W lost -> W !! a = Some w -> w_fd w = Some fd \/ w_vfd w = Some fd ->
  exists s', step (SysClose fd) s = Ok 0 s' /\ closed_machine a w s s'.
Proof.
  intros I Hw Hfd. destruct (wp_never_ok _ _ _ (wp_close _ _ _ _ _ _ I Hw Hfd)) as (r & s' & Hrun & -> & Hc).
  by exists s'.
Qed.

(** C9: guest memory is what userspace sees: when a fault at [address] in a mapping
    of the machine made at [start] succeeds, the page given to userspace is the
    one to which the guest's table translates [address - start]. *)
Theorem fault_shares_guest_page s W lost a w fd address start page s' :
  inv s W lost -> W !! a = Some w -> w_fd w = Some fd ->
  yakvm_vm_vmm_fault a address start s = Ok (0, Some page) s' ->
  hw_translate (ks_pages s') (w_root w) (wrap 64 (address - start)) =
    Some (page_to_phys page + wrap 64 (address - start) mod 4096) /\
  page_to_phys page ∈ dom (ks_pages s').
Proof.
  intros I Hw Hfd Hrun. destruct (vm_obj _ _ _ _ (inv_vm _ _ _ I _ _ Hw)) as [id Ho].
  set (gpa := wrap 64 (address - start)).
  assert (wp (yakvm_vm_vmm_fault a address start) (fun r s' => forall page, r = (0, Some page) ->
    hw_translate (ks_pages s') (w_root w) gpa = Some (page_to_phys page + gpa mod 4096) /\
    page_to_phys page ∈ dom (ks_pages s')) (fun _ => True) s) as Hwp;
    [|eapply wp_ok_inv in Hwp; [|exact Hrun]; by apply Hwp].
  unfold yakvm_vm_vmm_fault. apply wp_bind. eapply wp_get_obj; [exact Ho|done|]. simpl.
  apply wp_bind. eapply wp_mono; [eapply wp_stop_mono; [by eapply wp_vm_npt_create|done]|].
  intros [e|p] s1 (t' & Hpost & _ & _ & Hres); [by apply wp_ret|].
  destruct Hres as (x & -> & Hx & Ht). apply wp_bind, wp_modify, wp_ret. intros page' [= <-].
  destruct Hpost as [_ I']. pose proof (inv_vm _ _ _ I' a _ (update_lookup _ _ _)) as Hok.
  pose proof (vm_tree _ _ _ _ Hok) as R. cbn [w_root w_tree set_field] in R.
  cbn [ks_pages set_field]. fold gpa in Ht. rewrite (hw_translate_repr R), Ht, Hx. split; [done|].
  apply elem_of_dom, (vm_pages_in _ _ _ _ _ Hok), elem_of_vm_pages. left.
  apply elem_of_tree_pages. eauto.
Qed.

(** The ioctl that maps a guest page answers 0 exactly when the guest's table
    translates the page afterwards, and [-ENOMEM] otherwise. *)
Theorem mmap_page_maps s W lost a w gpa r s' :
  inv s W lost -> W !! a = Some w ->
  yakvm_vm_ioctl a YAKVM_MMAP_PAGE gpa s = Ok r s' ->
  (r = 0 /\ exists pa, hw_translate (ks_pages s') (w_root w) gpa = Some pa) \/
  (r = - ENOMEM /\ hw_translate (ks_pages s') (w_root w) gpa = None).
Proof.
  intros I Hw Hrun. destruct (vm_obj _ _ _ _ (inv_vm _ _ _ I _ _ Hw)) as [id Ho].
  assert (wp (yakvm_vm_ioctl_mmap_page a gpa) (fun r s' =>
    (r = 0 /\ exists pa, hw_translate (ks_pages s') (w_root w) gpa = Some pa) \/
    (r = - ENOMEM /\ hw_translate (ks_pages s') (w_root w) gpa = None)) (fun _ => True) s) as Hwp;
    [|by eapply wp_ok_inv in Hwp].
  unfold yakvm_vm_ioctl_mmap_page. apply wp_bind. eapply wp_get_obj; [exact Ho|done|]. simpl.
  apply wp_bind. eapply wp_mono; [eapply wp_stop_mono; [by eapply wp_vm_npt_create|done]|].
  intros res s1 (t' & [_ I'] & _ & _ & Hres). apply wp_ret.
  pose proof (vm_tree _ _ _ _ (inv_vm _ _ _ I' a _ (update_lookup _ _ _))) as R.
  cbn [w_root w_tree set_field] in R. rewrite (hw_translate_repr R). destruct res as [e|p].
  - right. by destruct Hres as [-> ->].
  - left. destruct Hres as (x & _ & _ & ->). eauto.
Qed.

(** C10: creating a vcpu succeeds only on a machine without one, and then gives it a
    fresh address space identifier and a control block that walks the machine's
    table; otherwise the machine is as it was, pages, objects and references
    included. *)
Theorem create_vcpu_cases s W lost a w r s' :
  inv s W lost -> W !! a = Some w -> yakvm_vm_ioctl a YAKVM_CREATE_VCPU 0 s = Ok r s' ->
  exists w', inv s' (<[a := w']> W) lost /\ create_vcpu_result a w s s' r w'.
Proof.
  intros I Hw Hrun. pose proof (wp_vm_ioctl_create_vcpu _ _ _ _ _ I Hw) as Hwp.
  eapply wp_ok_inv in Hwp; [|exact Hrun].
  destruct Hwp as (w' & [_ I'] & Hres & _). exists w'. split; [exact I'|exact Hres].
Qed.

(** C21: when no vcpu can be created the call answers the low half of the machine's
    address, whatever the error was: a number userspace takes for a descriptor
    when bit 31 of the address is clear. *)
Theorem create_vcpu_error_masked vm arg s e s' :
  yakvm_create_vcpu vm s = Ok (inl e) s' ->
  yakvm_vm_ioctl vm YAKVM_CREATE_VCPU arg s = Ok (sint 32 vm) s' /\
  (Z.testbit vm 31 = false -> 0 <= sint 32 vm).
Proof.
  intros Hrun. split.
  - unfold yakvm_vm_ioctl. rewrite Z.eqb_refl. unfold yakvm_vm_ioctl_create_vcpu, mbind, M_bind.
    by rewrite Hrun.
  - intros Hb. unfold sint. destruct (Z.ltb_spec (vm mod 2 ^ 32) (2 ^ (32 - 1))) as [_|Hge];
      [by apply Z.mod_pos_bound|exfalso].
    assert (Z.testbit (vm mod 2 ^ 32) 31 = true) as Ht; [|rewrite Z.mod_pow2_bits_low in Ht by lia; congruence].
    pose proof (Z.mod_pos_bound vm (2 ^ 32)).
    rewrite Z.testbit_true by lia.
    replace (vm mod 2 ^ 32 / 2 ^ 31) with 1; [done|].
    apply Z.div_unique with (r := vm mod 2 ^ 32 - 2 ^ 31); lia.
Qed.

(** A machine without the driver has nothing of it. *)
Lemma inv_booted s W lost : inv s W lost -> ks_files s = ∅ -> lost = ∅ -> ks_misc s = false -> booted s.
Proof.
  intros I Hf Hl Hm. destruct (inv_no_files _ _ _ I Hf) as (_ & Hh & Hp). destruct (inv_cpus _ _ _ I).
  split; try done; [apply I|apply dom_empty_inv_L; congruence|apply I].
Qed.

(** C20: loading and unloading: a load that fails changes no processor and leaves the
    machine as a machine without the driver, on which the next load starts
    afresh; one that succeeds leaves the device open to userspace and SVM enabled
    on every processor, and the driver can be unloaded again at once, without
    the panic of its assertion, to such a machine. *)
Theorem load_unload s :
  booted s ->
  wp insmod (fun r s' =>
    (r <> 0 -> booted s' /\ ks_cpus s' = ks_cpus s) /\
    (r = 0 -> loaded s' /\ exists s'', yakvm_exit s' = Ok tt s'' /\ booted s'' /\
       ks_cpus s'' = ks_cpus s')) never s.
Proof.
  intros Hb. pose proof (boot_files _ Hb) as Hf.
  eapply wp_mono; [apply wp_init, booted_inv, Hb|].
  intros r s' (I & Hf' & Hok & Hno). rewrite Hf in Hf'. split.
  - intros Hr. destruct (Hno Hr) as (Hc & Hm & _). split; [|done].
    eapply inv_booted; [exact I|done..|]. rewrite Hm. apply Hb.
  - intros Hr. pose proof (Hok Hr) as Hl. split; [done|].
    pose proof (wp_exit _ _ _ I Hf') as Hwp. unfold wp in Hwp. destruct Hl as (_ & Hst & _).
    destruct (yakvm_exit s') as [[] s''|w]; [|naive_solver]. exists s''. split; [done|].
    destruct Hwp as (I' & Hf'' & _ & Hm & Hc). split; [|done].
    eapply inv_booted; [exact I'|congruence|done..].
Qed.

(** ** Address space identifiers *)

Lemma abstract_asid c s r s' W W' : abstract_step c s r s' W W' -> ks_asid s <= ks_asid s'.
Proof.
  destruct c as [|fd|fd ioctl arg k|fd pgoff start end_|fd address start|cpu]; cbn [abstract_step];
    unfold refused; try (destruct (ks_files s !! fd) as [[|a|v]|]).
  all: try (intros (_ & -> & _); lia).
  - intros (_ & _ & -> & _). lia.
  - intros (_ & _ & _ & -> & _). lia.
  - intros (w & _ & _ & _ & _ & -> & _). lia.
  - intros (b & w & pl & _ & _ & _ & _ & _ & -> & _). lia.
  - destruct (ioctl =? _); [intros (-> & _); lia|intros (_ & -> & _); lia].
  - intros (w & _ & H). destruct (ioctl =? _).
    { destruct H as (w' & _ & _ & [(_ & _ & ->)| ->] & _); lia. }
    destruct (ioctl =? _); [|by destruct H as (_ & -> & _); lia].
    destruct H as (t' & _ & _ & _ & -> & _). lia.
  - intros (_ & _ & -> & _). lia.
  - intros (b & w & pl & _ & _ & H). destruct (_ && _); [|by destruct H as (_ & -> & _); lia].
    destruct (remap_pfn_range _ _ _ _). destruct H as (_ & -> & _). done.
  - intros (w & _ & t' & _ & _ & _ & -> & _). lia.
  - intros (_ & _ & ->). by destruct (cpu <? _)%nat.
Qed.

Lemma wp_run_asid l s W lost :
  inv s W lost -> wp (run l) (fun _ s' => (exists W' lost', inv s' W' lost') /\ ks_asid s <= ks_asid s')
    (trace_stop l) s.
Proof.
  revert s W lost. induction l as [|c l IH]; intros s W lost I; cbn [run].
  { apply wp_ret. split; [eauto|lia]. }
  apply wp_bind. eapply wp_mono; [eapply wp_stop_mono; [by apply wp_syscall|]|].
  { intros st H%stop_may. exists c. split; [by left|done]. }
  intros r s1 (W1 & lost1 & I1 & Hs%abstract_asid & _).
  apply wp_bind. eapply wp_mono; [eapply wp_stop_mono; [by eapply IH|]|].
  { intros st (d & Hd & Hm). exists d. split; [by right|done]. }
  intros rs s2 [HI Ha]. apply wp_ret. split; [done|lia].
Qed.

(** C22: address space identifiers are not recycled: once the counter has reached the
    last identifier of the processor, whatever calls are made, the closing of every
    machine included, the creation of a vcpu panics the kernel for ever after, or
    runs out of memory before it asks for one: it never gives a vcpu. *)
Theorem asid_never_recycled l s W lost :
  inv s W lost -> cpuid_ebx 0x8000000a <= ks_asid s + 1 ->
  wp (run l) (fun _ s' => forall fd a arg k, ks_files s' !! fd = Some (FVm a) ->
      wp (step (SysIoctl fd YAKVM_CREATE_VCPU arg k))
        (fun r s'' => r = PTR_ERR (inr a) /\ ks_files s'' = ks_files s' /\ ks_pages s'' = ks_pages s')
        (fun st => st = Panicked) s')
    (trace_stop l) s.
Proof.
  intros I Hx. eapply wp_mono; [by eapply wp_run_asid|].
  intros rs s' [(W' & lost' & I') Ha] fd a arg k Hf.
  destruct (files_vm _ _ _ _ _ I' Hf) as (w & Hw & _).
  unfold step. apply wp_bind, wp_gets. rewrite Hf. unfold yakvm_vm_ioctl. rewrite Z.eqb_refl.
  eapply wp_mono; [eapply wp_stop_mono; [by eapply wp_vm_ioctl_create_vcpu|by intros st [-> _]]|].
  intros r s'' (w' & _ & _ & [(_ & Hr & _ & Hp & Hfi)|(_ & ? & _)]); [done|lia].
Qed.

End calls.

(** ** The concrete machine *)
Section concrete_runs.
#[local] Existing Instance concrete.
#[local] Existing Instance concrete_laws.
#[local] Existing Instance halting_guest.
#[local] Existing Instance concrete_abi.
#[local] Existing Instance makefile_config.

(** The state a script and a list of calls lead to. *)
Definition ran (script : list bool) (l : list syscall) : kstate :=
  final (insmod ;; run l) (boot script).

Definition answers (script : list bool) (l : list syscall) : option (list Z) :=
  result (insmod ;; run l) (boot script).

Lemma boot_booted script : booted (boot script).
Proof.
  split; [apply boot_ok|done|done|done|done|done|simpl; lia|by repeat constructor].
Qed.

Lemma ran_ok script l rs :
  answers script l = Some rs -> (insmod ;; run l) (boot script) = Ok rs (ran script l).
Proof. apply result_final. Qed.

Lemma ran_inv script l rs :
  answers script l = Some rs -> exists W lost, inv (ran script l) W lost.
Proof.
  intros H%ran_ok.
  pose proof (wp_loaded_run l _ (boot_booted script)) as Hwp.
  eapply wp_ok_inv in Hwp; [|exact H]. destruct Hwp as (_ & W & lost & I & _). eauto.
Qed.

Definition stopped (script : list bool) (l : list syscall) : option stop :=
  match (insmod ;; run l) (boot script) with Ok _ _ => None | Stop w => Some w end.

Lemma ran_stop script l w :
  stopped script l = Some w -> (insmod ;; run l) (boot script) = Stop w.
Proof. unfold stopped. destruct ((insmod ;; run l) (boot script)); congruence. Qed.

(** One machine with a vcpu; then a second machine. *)
Definition demo_vm : list syscall :=
  [SysOpen; SysIoctl 3 YAKVM_CREATE_VM 0 false; SysIoctl 4 YAKVM_CREATE_VCPU 0 false].
Definition demo_vms : list syscall := demo_vm ++ [SysIoctl 3 YAKVM_CREATE_VM 0 false].
Definition demo_a : Z := 0xffff8881000000c0.
Definition demo_c : Z := 0xffff888100000240.
Definition demo_b : Z := 0xffff888100000300.

Lemma demo_vm_answers : answers [] demo_vm = Some [3; 4; 5].
Proof. vm_compute. reflexivity. Qed.

Lemma demo_vms_answers : answers [] demo_vms = Some [3; 4; 5; 6].
Proof. vm_compute. reflexivity. Qed.

Lemma demo_vm_file : ks_files (ran [] demo_vm) !! 4 = Some (FVm demo_a).
Proof. vm_compute. reflexivity. Qed.

Lemma demo_vms_file : ks_files (ran [] demo_vms) !! 6 = Some (FVm demo_b) /\
  ks_files (ran [] demo_vms) !! 5 = Some (FVcpu demo_c).
Proof. split; vm_compute; reflexivity. Qed.

Lemma demo_vms_owner : vcpu.vm <$> ((ks_heap (ran [] demo_vms) !! demo_c) ≫= as_vcpu) = Some demo_a.
Proof. vm_compute. reflexivity. Qed.

(** The machine of a descriptor. *)
Lemma ran_machine script l rs fd a :
  answers script l = Some rs -> ks_files (ran script l) !! fd = Some (FVm a) ->
  exists W lost w, inv (ran script l) W lost /\ W !! a = Some w /\ w_fd w = Some fd.
Proof.
  intros (W & lost & I)%ran_inv Hf. destruct (files_vm _ _ _ _ _ I Hf) as (w & Hw & Hfd).
  by exists W, lost, w.
Qed.

Lemma demo_machine :
  exists W lost w, inv (ran [] demo_vm) W lost /\ W !! demo_a = Some w /\ w_fd w = Some 4.
Proof. exact (ran_machine _ _ _ _ _ demo_vm_answers demo_vm_file). Qed.

(** *** Witnesses *)
Lemma run_safe_witness :
  wp (insmod ;; run demo_calls)
    (fun rs s' => length rs = length demo_calls /\ exists W lost, inv s' W lost)
    (fun st => st = Panicked /\ (exists c, c ∈ demo_calls /\ may_panic c) \/
       st = Escaped /\ exists c, c ∈ demo_calls /\ runs_guest c) (boot []).
Proof. exact (run_safe (boot []) demo_calls (boot_booted [])). Defined.

Lemma demo_calls_answers : answers [] demo_calls = Some [3; 4; 5; 0; 0; 0; 0; 0; 0; 0; 0].
Proof. vm_compute. reflexivity. Qed.

Lemma demo_calls_files : ks_files (ran [] demo_calls) = ∅.
Proof. vm_compute. reflexivity. Qed.

Lemma run_no_leak_witness :
  ks_heap (ran [] demo_calls) = ∅ /\ ks_pages (ran [] demo_calls) = ∅.
Proof.
  destruct (run_no_leak (boot []) demo_calls _ _ (boot_booted [])
    (ran_ok _ _ _ demo_calls_answers) demo_calls_files) as [Hh Hp].
  split; [exact Hh|]. apply Hp. apply (bool_decide_unpack _). exact I.
Defined.

Lemma demo_first_result : result (step (SysIoctl 5 YAKVM_RUN 0 false)) (ran [] demo_vm) = Some 0.
Proof. vm_compute. reflexivity. Qed.

Lemma syscall_refines_witness :
  exists W lost W', inv (ran [] demo_vm) W lost /\
    abstract_step (SysIoctl 5 YAKVM_RUN 0 false) (ran [] demo_vm) 0
      (final (step (SysIoctl 5 YAKVM_RUN 0 false)) (ran [] demo_vm)) W W'.
Proof.
  destruct (ran_inv _ _ _ demo_vm_answers) as (W & lost & I).
  destruct (wp_ok_inv _ _ _ _ _ _ (syscall_refines _ _ _ _ I) (result_final _ _ _ demo_first_result))
    as (W' & lost' & _ & H & _).
  exists W, lost, W'. split; [exact I|exact H].
Defined.

(** The vcpu's descriptor is not of the second machine. *)
Lemma acts_not s W lost b wb fd c v :
  inv s W lost -> W !! b = Some wb -> ks_files s !! fd = Some (FVcpu c) ->
  (ks_heap s !! c) ≫= as_vcpu = Some v -> vcpu.vm v <> b ->
  forall ioctl arg k, ~ acts_on (SysIoctl fd ioctl arg k) wb.
Proof.
  intros I Hb Hf Hv Hne ioctl arg k (fd' & Hfd & Ha). injection Hfd as <-.
  pose proof (inv_files _ _ _ I) as Hfs. destruct Ha as [Ha|Ha].
  - assert (ks_files s !! fd = Some (FVm b)) by (apply (fd_vm _ _ Hfs); eauto). congruence.
  - pose proof (inv_vm _ _ _ I _ _ Hb) as Hok.
    destruct (w_vcpu wb) as [[c' pl]|] eqn:Hc; [|pose proof (vm_vfd _ _ _ _ Hok Hc); congruence].
    assert (ks_files s !! fd = Some (FVcpu c')) as Hf' by (apply (fd_vcpu _ _ Hfs); eauto 10).
    rewrite Hf in Hf'. injection Hf' as <-.
    destruct (vm_vcpu _ _ _ _ Hok _ _ Hc) as (_ & _ & _ & v' & Hv' & _ & _ & Hvm).
    rewrite Hv' in Hv. injection Hv as ->. congruence.
Qed.

Definition demo_run : syscall := SysIoctl 5 YAKVM_RUN 0 false.

Lemma demo_run_result : result (step demo_run) (ran [] demo_vms) = Some 0.
Proof. vm_compute. reflexivity. Qed.

Lemma demo_run_ok : step demo_run (ran [] demo_vms) = Ok 0 (final (step demo_run) (ran [] demo_vms)).
Proof. exact (result_final _ _ _ demo_run_result). Qed.

Lemma demo_not_acts W lost wb :
  inv (ran [] demo_vms) W lost -> W !! demo_b = Some wb -> ~ acts_on demo_run wb.
Proof.
  intros I Hb. pose proof demo_vms_owner as Ho. unfold demo_run.
  destruct ((ks_heap (ran [] demo_vms) !! demo_c) ≫= as_vcpu) as [v|] eqn:Hv; [|done].
  eapply acts_not; [exact I|exact Hb|exact (proj2 demo_vms_file)|exact Hv|].
  injection Ho as ->. done.
Qed.


(** The table of the machine, and that of the vcpu's control block. *)
Lemma mmio_never_mapped_witness :
  exists root, table_of (ran [] demo_vm) (FVm demo_a) = Some root /\
    hw_translate (ks_pages (ran [] demo_vm)) root (YAKVM_MMIO_HAWK + 8) = None.
Proof.
  refine (mmio_never_mapped _ _ _ _ 4 _ (YAKVM_MMIO_HAWK + 8) (boot_booted []) (ran_ok _ _ _ demo_vm_answers)
    demo_vm_file _ _).
  - discriminate.
  - vm_compute. reflexivity.
Defined.

Lemma close_counts_witness :
  exists w s', step (SysClose 4) (ran [] demo_vm) = Ok 0 s' /\
    closed_machine demo_a w (ran [] demo_vm) s'.
Proof.
  destruct demo_machine as (W & lost & w & I & Hw & Hfd). exists w.
  exact (close_counts _ _ _ _ _ _ I Hw (or_introl Hfd)).
Defined.

Definition demo_address : Z := 0x7f0000001000.
Definition demo_start : Z := 0x7f0000000000.
#[local] Abbreviation demo_fault := (yakvm_vm_vmm_fault demo_a demo_address demo_start).

Lemma demo_fault_result :
  exists page, result demo_fault (ran [] demo_vm) = Some (0, Some page).
Proof. eexists. vm_compute. reflexivity. Qed.

Lemma fault_shares_guest_page_witness :
  exists w page, hw_translate (ks_pages (final demo_fault (ran [] demo_vm))) (w_root w)
      (wrap 64 (demo_address - demo_start)) =
    Some (page_to_phys page + wrap 64 (demo_address - demo_start) mod 4096).
Proof.
  destruct demo_machine as (W & lost & w & I & Hw & Hfd).
  destruct demo_fault_result as [page Hres]. exists w, page.
  exact (proj1 (fault_shares_guest_page _ _ _ _ _ _ demo_address demo_start _ _ I Hw Hfd (result_final _ _ _ Hres))).
Defined.

#[local] Abbreviation demo_mmap := (yakvm_vm_ioctl demo_a YAKVM_MMAP_PAGE 0x2345).

Lemma demo_mmap_result : result demo_mmap (ran [] demo_vm) = Some 0.
Proof. vm_compute. reflexivity. Qed.

Lemma mmap_page_maps_witness :
  exists w, (0 = 0 /\ exists pa,
      hw_translate (ks_pages (final demo_mmap (ran [] demo_vm))) (w_root w) 0x2345 = Some pa) \/
    (0 = - ENOMEM /\
      hw_translate (ks_pages (final demo_mmap (ran [] demo_vm))) (w_root w) 0x2345 = None).
Proof.
  destruct demo_machine as (W & lost & w & I & Hw & _). exists w.
  exact (mmap_page_maps _ _ _ _ _ _ _ _ I Hw (result_final _ _ _ demo_mmap_result)).
Defined.

(** A second vcpu for the same machine. *)
#[local] Abbreviation demo_second := (yakvm_vm_ioctl demo_a YAKVM_CREATE_VCPU 0).

Lemma demo_second_result : result demo_second (ran [] demo_vm) = Some (- EEXIST).
Proof. vm_compute. reflexivity. Qed.

Lemma create_vcpu_cases_witness :
  exists W lost w w', inv (final demo_second (ran [] demo_vm)) (<[demo_a := w']> W) lost /\
    create_vcpu_result demo_a w (ran [] demo_vm) (final demo_second (ran [] demo_vm)) (- EEXIST) w'.
Proof.
  destruct demo_machine as (W & lost & w & I & Hw & _). exists W, lost, w.
  exact (create_vcpu_cases _ _ _ _ _ _ _ I Hw (result_final _ _ _ demo_second_result)).
Defined.

(** The machine of [demo_vm] without its vcpu, and no memory for one. *)
Definition demo_poor : kstate := ran (replicate 11 true ++ [false]) (take 2 demo_vm).

Lemma demo_poor_result : result (yakvm_create_vcpu demo_a) demo_poor = Some (inl (- ENOMEM)).
Proof. vm_compute. reflexivity. Qed.

Lemma create_vcpu_error_masked_witness :
  yakvm_vm_ioctl demo_a YAKVM_CREATE_VCPU 0 demo_poor =
    Ok (sint 32 demo_a) (final (yakvm_create_vcpu demo_a) demo_poor) /\
  sint 32 demo_a = 192 /\ 0 <= sint 32 demo_a.
Proof.
  destruct (create_vcpu_error_masked demo_a 0 demo_poor _ _ (result_final _ _ _ demo_poor_result))
    as [H1 H2].
  split; [exact H1|]. split; [reflexivity|]. apply H2. reflexivity.
Defined.

Lemma demo_init_result : result insmod (boot []) = Some 0.
Proof. vm_compute. reflexivity. Qed.

Lemma load_unload_witness :
  loaded (final insmod (boot [])) /\
  exists s'', yakvm_exit (final insmod (boot [])) = Ok tt s'' /\ booted s''.
Proof.
  pose proof (wp_ok_inv _ _ _ _ _ _ (load_unload _ (boot_booted [])) (result_final _ _ _ demo_init_result))
    as [_ H].
  destruct (H eq_refl) as (H1 & s'' & H2 & H3 & _). split; [exact H1|]. exists s''. split; [exact H2|exact H3].
Defined.

(** Creating and destroying [n] machines, one after the other. *)
Definition one_by_one (n : nat) : list syscall :=
  SysOpen :: concat (replicate n
    [SysIoctl 3 YAKVM_CREATE_VM 0 false; SysIoctl 4 YAKVM_CREATE_VCPU 0 false; SysClose 5; SysClose 4]).

(** On a processor with 16 identifiers fourteen machines can be created and destroyed
    one after the other, each time giving back all memory; the fifteenth panics
    the kernel. *)
Lemma one_by_one_answers : is_Some (answers [] (one_by_one 14)).
Proof. eexists. vm_compute. reflexivity. Qed.

Lemma one_by_one_end :
  ks_asid (ran [] (one_by_one 14)) = 15 /\ ks_heap (ran [] (one_by_one 14)) = ∅ /\
  ks_pages (ran [] (one_by_one 14)) = ∅ /\
  (insmod ;; run (one_by_one 15)) (boot []) = Stop Panicked.
Proof. split_and!; [vm_compute; reflexivity..|]. apply ran_stop. vm_compute. reflexivity. Qed.

Definition demo_again : list syscall := [SysOpen; SysIoctl 3 YAKVM_CREATE_VM 0 false].

Lemma asid_never_recycled_witness :
  wp (run demo_again) (fun _ s' => forall fd a arg k, ks_files s' !! fd = Some (FVm a) ->
      wp (step (SysIoctl fd YAKVM_CREATE_VCPU arg k))
        (fun r s'' => r = PTR_ERR (inr a) /\ ks_files s'' = ks_files s' /\ ks_pages s'' = ks_pages s')
        (fun st => st = Panicked) s')
    (trace_stop demo_again) (ran [] (one_by_one 14)).
Proof.
  destruct one_by_one_answers as [rs Hrs]. destruct (ran_inv _ _ _ Hrs) as (W & lost & I).
  refine (asid_never_recycled demo_again _ _ _ I _). rewrite (proj1 one_by_one_end).
  vm_compute. discriminate.
Defined.

End concrete_runs.
