(* ===== verification/RaceSystem.v ===== *)
(** * Races in the whole system

    Faults that race leave the invariant of the system: what they lose counts as
    lost, and every later call finds the state it expects. So the safety of runs
    extends to runs in which threads ask for pages at once. *)

From S2P Require Import Prelude Schedule Structs Kernel Concrete Npt NptProps Race RaceProps.
From S2P Require Import Vmcb VcpuRun Vcpu Vm Driver System Handlers HandlersVcpu Spec Safety Machine SafetyProps.

Section races.
Context `{L : KernelLaws} `{P : !Processor K} `{PL : !ProcessorLaws K P} `{A : !Abi K}
  `{C : Config} `{CO : !ConfigOk C}.
Implicit Types (s : kstate) (W : world) (w : avm).

(** What happens to the driver: a system call, or calls of [YAKVM_MMAP_PAGE] on
    the machine of [fd] by several threads, one for each of [gpas], that take
    their turns as [sched] says. *)
Inductive event : Type :=
| Call (c : syscall)
| Mmaps (fd : Z) (gpas : list Z) (sched : list nat).

Definition happen (e : event) : KM unit :=
  match e with
  | Call c => step c ;; mret tt
  | Mmaps fd gpas sched =>
      files ← gets ks_files;
      match files !! fd with
      | Some (FVm vm) =>
          v ← get_vm vm;
          interleave fault_step sched (start (vm.vmm v) gpas) ;;
          mret tt
      | _ => mret tt
      end
  end.

Fixpoint happens (l : list event) : KM unit :=
  match l with
  | [] => mret tt
  | e :: l => happen e ;; happens l
  end.

(** How an event may stop the machine. *)
Definition event_may_stop (e : event) (st : stop) : Prop :=
  match e with
  | Call c => may_stop c st
  | Mmaps fd gpas sched =>
      st = Panicked /\ exists gpa, gpa ∈ gpas /\ guest_page gpa = guest_page YAKVM_MMIO_HAWK
  end.

(** The pages a race takes and no table holds. *)
Definition race_lost (m m' : gmap Z page) (t' : tree) : gset Z :=
  dom m' ∖ dom m ∖ tree_pages t'.

(** What the nodes of the tree say of its pages and of the hidden ones. *)
Definition nodes_kept (m : gmap Z page) (t t' : tree) : Prop :=
  forall q x b, t' !! q = Some (x, b) -> t !! q = Some (x, b) \/
    b = true /\ (x ∈ tree_pages t \/ m !! x = None).

Lemma nodes_kept_pages m t t' x :
  nodes_kept m t t' -> x ∈ tree_pages t' -> x ∈ tree_pages t \/ m !! x = None.
Proof.
  intros Hn (q & b & Hq)%elem_of_tree_pages. destruct (Hn _ _ _ Hq) as [H|[_ H]]; [left|done].
  apply elem_of_tree_pages. eauto.
Qed.

Lemma nodes_kept_mmio m t t' : nodes_kept m t t' -> t ⊆ t' -> tree_mmio t -> tree_mmio t'.
Proof.
  intros Hn Hsub [[x Hx] Hq]. split.
  - exists x. by eapply lookup_weaken.
  - intros q y Hy. destruct (Hn _ _ _ Hy) as [H|[? _]]; [by eapply Hq|done].
Qed.

(** The pages of a machine whose tree has gained nodes, and those that are lost,
    make up what the machine has changed. *)
Lemma race_changes a w t' s W lost k m' :
  inv s W lost -> W !! a = Some w -> w_tree w ⊆ t' -> npt_repr m' (w_root w) t' ->
  nodes_kept (ks_pages s) (w_tree w) t' -> dom (ks_pages s) ⊆ dom m' ->
  (forall x, x ∈ dom (ks_pages s) -> x ∉ tree_pages (w_tree w) -> m' !! x = ks_pages s !! x) ->
  changes a (Some (w <| w_tree := t' |>)) (race_lost (ks_pages s) m' t') s W (with_mem k m' s).
Proof.
  intros I Hw Hsub R' Hnodes Hdom Hframe. pose proof (inv_vm _ _ _ I _ _ Hw) as Hok.
  pose proof (fun x => nodes_kept_pages _ _ _ x Hnodes) as Hnew.
  pose proof (tree_pages_mono _ _ Hsub) as Hmono.
  assert (forall x, x ∈ vm_pages (w <| w_tree := t' |>) -> x ∈ vm_pages w \/ ks_pages s !! x = None)
    as Hpages.
  { intros x. rewrite !elem_of_vm_pages. cbn. intros [Hx|Hx]; [|tauto].
    destruct (Hnew _ Hx); tauto. }
  unfold changes, race_lost. rewrite Hw. cbn [opt_pages opt_objs]. mem_simpl. split_and!.
  - intros x Hx Hs%elem_of_dom. apply Hframe; [done|]. rewrite elem_of_vm_pages in Hx. tauto.
  - done.
  - intros x Hx%elem_of_dom. destruct (decide (x ∈ vm_pages (w <| w_tree := t' |>))); [by left|].
    right. rewrite elem_of_vm_pages in n. cbn in n.
    destruct (decide (x ∈ dom (ks_pages s))) as [Hd|Hd].
    + right. split; [|by apply elem_of_dom]. rewrite elem_of_vm_pages.
      intros [H|H]; [apply Hmono in H|]; tauto.
    + left. apply elem_of_difference. rewrite elem_of_difference. tauto.
  - intros x Hx. destruct (decide (x ∈ vm_objs a w)) as [H|H]; [by left|by right].
  - exact Hpages.
  - intros x ([Hm Hn]%elem_of_difference & Ht)%elem_of_difference.
    split; [by apply not_elem_of_dom|]. split; [by apply elem_of_dom|].
    rewrite elem_of_vm_pages. cbn. intros [?|(c & pl & Hc & Hx)]; [done|].
    destruct (vm_vcpu _ _ _ _ Hok _ _ Hc) as (_ & _ & Vp & _).
    by apply Hn, elem_of_dom, (vcpu_pages_in _ _ _ _ Vp).
Qed.

(** C13: faults that race on the machine at [a] are a step of the abstract system:
    the machine's tree gains nodes and keeps those it had, the pages no table
    holds any more are added to the lost ones, every other machine, vcpu and
    descriptor is as it was; only a fault on the MMIO page panics. *)
Theorem race_refines a w gpas sched s W lost :
  inv s W lost -> W !! a = Some w ->
  wp (interleave fault_step sched (start (w_vmm w) gpas))
    (fun ts s' => exists t', w_tree w ⊆ t' /\
       inv s' (<[a := w <| w_tree := t' |>]> W)
         (lost ∪ race_lost (ks_pages s) (ks_pages s') t') /\
       ks_heap s' = ks_heap s /\ ks_files s' = ks_files s)
    (fun st => st = Panicked /\ exists gpa, gpa ∈ gpas /\
       guest_page gpa = guest_page YAKVM_MMIO_HAWK) s.
Proof.
  intros I Hw. pose proof (inv_vm _ _ _ I _ _ Hw) as Hok.
  eapply wp_mono; [eapply wp_stop_mono; [eapply (race_safe s (w_tree w)); [apply Hok..|apply I]|]|].
  { intros st (gpa & Hin & -> & x & Hx). split; [done|]. exists gpa. split; [done|].
    apply path_eq_page. by apply (vm_mmio _ _ _ _ Hok) in Hx. }
  intros ts s' (Hmm & _ & k & m' & t' & -> & R' & Hsub & Hframe & Hdom & Hnodes & _).
  exists t'. split; [done|]. split; [|done].
  eapply inv_change; [exact I|by eapply race_changes|done|..].
  - intros ? [= <-]. mem_simpl. eapply vm_ok_tree; [exact Hok|done|..].
    + intros x. by apply nodes_kept_pages.
    + intros x Hx%elem_of_dom. by apply Hframe.
    + eapply nodes_kept_mmio; [exact Hnodes|done|apply Hok].
  - eapply files_ok_keep; [apply I|exact Hw|done..].
  - apply I.
  - by eapply cpus_ok_same; [apply I|..].
Qed.

Lemma wp_happen e s W lost :
  inv s W lost ->
  wp (happen e) (fun _ s' => exists W' lost', inv s' W' lost' /\ lost ⊆ lost')
    (event_may_stop e) s.
Proof.
  intros I. destruct e as [c|fd gpas sched]; cbn [happen].
  - apply wp_bind. eapply wp_mono; [eapply wp_stop_mono; [by apply wp_syscall|]|].
    + intros st H. by eapply stop_may.
    + intros r s' (W' & lost' & I' & _ & Hl & _). apply wp_ret. eauto.
  - wp_steps. destruct (ks_files s !! fd) as [[|a|c]|] eqn:Hf; try (apply wp_ret; by eauto).
    apply (fd_vm _ _ (inv_files _ _ _ I)) in Hf as (w & Hw & _).
    pose proof (inv_vm _ _ _ I _ _ Hw) as Hok. destruct (vm_obj _ _ _ _ Hok) as [id Ho].
    apply wp_bind. eapply wp_get_obj; [exact Ho|done|]. cbn [vm.vmm].
    apply wp_bind. eapply wp_mono; [by eapply race_refines|].
    intros ts s' (t' & _ & I' & _). apply wp_ret. eexists _, _. split; [exact I'|]. set_solver.
Qed.

Lemma wp_happens l s W lost :
  inv s W lost ->
  wp (happens l) (fun _ s' => exists W' lost', inv s' W' lost' /\ lost ⊆ lost')
    (fun st => exists e, e ∈ l /\ event_may_stop e st) s.
Proof.
  revert s W lost. induction l as [|e l IH]; intros s W lost I; cbn [happens].
  { apply wp_ret. eauto. }
  apply wp_bind. eapply wp_mono; [eapply wp_stop_mono; [by eapply wp_happen|]|].
  { intros st H. exists e. split; [by left|done]. }
  intros [] s1 (W1 & lost1 & I1 & H1).
  eapply wp_mono; [eapply wp_stop_mono; [by eapply IH|]|].
  { intros st (d & Hd & Hm). exists d. split; [by right|done]. }
  intros [] s2 (W2 & lost2 & I2 & H2). exists W2, lost2. split; [done|]. set_solver.
Qed.

(** C12: the driver is loaded on a machine without it and then anything happens,
    system calls and races of page requests in any order: memory that is not owned
    is never used, nothing is freed twice, no caller waits for its own lock; a
    panic needs a request for the MMIO page or the creation of a vcpu, and the
    only other stop is a guest that escapes; and when all descriptors are closed
    again every object is freed, whatever pages the races have lost. *)
Theorem races_safe s l :
  booted s ->
  wp (insmod ;; happens l)
    (fun _ s' => exists W lost, inv s' W lost /\
       (ks_files s' = ∅ -> ks_heap s' = ∅))
    (fun st => exists e, e ∈ l /\ event_may_stop e st) s.
Proof.
  intros Hb%booted_inv. apply wp_bind.
  eapply wp_mono; [eapply wp_stop_mono; [by apply wp_init|by intros st []]|].
  intros r s1 (I1 & _). eapply wp_mono; [by eapply wp_happens|].
  intros [] s2 (W & lost & I2 & _). exists W, lost. split; [done|].
  intros Hf. by destruct (inv_no_files _ _ _ I2 Hf) as (_ & ? & _).
Qed.

End races.

(** ** Witnesses *)
#[local] Existing Instance concrete.
#[local] Existing Instance concrete_laws.
#[local] Existing Instance halting_guest.
#[local] Existing Instance concrete_abi.
#[local] Existing Instance makefile_config.

Lemma race_refines_witness :
  exists W lost w, inv (ran [] demo_vm) W lost /\ W !! demo_a = Some w /\
    wp (interleave fault_step (race_after 4) (start (w_vmm w) [0x200000; 0x200000]))
      (fun ts s' => exists t', w_tree w ⊆ t' /\
         inv s' (<[demo_a := w <| w_tree := t' |>]> W)
           (lost ∪ race_lost (ks_pages (ran [] demo_vm)) (ks_pages s') t') /\
         ks_heap s' = ks_heap (ran [] demo_vm) /\ ks_files s' = ks_files (ran [] demo_vm))
      (fun st => st = Panicked /\ exists gpa, gpa ∈ [0x200000; 0x200000] /\
         guest_page gpa = guest_page YAKVM_MMIO_HAWK) (ran [] demo_vm).
Proof.
  destruct demo_machine as (W & lost & w & I & Hw & _). exists W, lost, w.
  split; [exact I|]. split; [exact Hw|].
  exact (race_refines _ _ [0x200000; 0x200000] (race_after 4) _ _ _ I Hw).
Defined.

(** A machine, a race for a page whose table is
    missing, a run of the vcpu, and everything closed. *)
Definition race_events : list event :=
  (Call <$> demo_vm) ++
  [Mmaps 4 [0x200000; 0x200000] (race_after 4); Call (SysIoctl 5 YAKVM_RUN 0 false);
   Call (SysClose 5); Call (SysClose 4); Call (SysClose 3)].

Lemma races_safe_witness :
  wp (insmod ;; happens race_events)
    (fun _ s' => exists W lost, inv s' W lost /\ (ks_files s' = ∅ -> ks_heap s' = ∅))
    (fun st => exists e, e ∈ race_events /\ event_may_stop e st) (boot []).
Proof. exact (races_safe (boot []) race_events (boot_booted [])). Defined.

(** There the race has lost a page and its table, and nothing else is left: no later
    call notices. *)
Lemma race_events_end :
  let s := final (insmod ;; happens race_events) (boot []) in
  result (insmod ;; happens race_events) (boot []) = Some tt /\
  ks_files s = ∅ /\ ks_heap s = ∅ /\ size (dom (ks_pages s)) = 2%nat.
Proof. split_and!; vm_compute; reflexivity. Qed.
