(* ===== verification/VcpuProps.v ===== *)
(** * What the control block, the switch and the vcpu guarantee

    The properties of driver/cpu.c, driver/vcpu_run.S and the declarations of
    include/cpu.h over the facts of Vmcb, VcpuRun, Vcpu and VcpuSwitch, with the
    runs of the concrete machine that witness them. *)

From S2P Require Import Prelude Structs Kernel Concrete Npt Vmcb VcpuRun Vcpu VcpuSwitch.
From S2P Require Import Vm Driver System Handlers HandlersVcpu Spec Safety Machine SafetyProps.

(** ** Declarations *)

(** The packed structures have the size the static assertions ask for and
    every member the offset that its name or its comment gives it. *)
Theorem vmcb_layout :
  sizeof_packed control_fields = 1024 /\
  sizeof_packed control_fields + sizeof_packed save_fields <= PAGE_SIZE /\
  Forall (fun '(n, off) => offsetof true control_fields n = Some off)
    [("intercepts", 0); ("avic_backing_page", 0xe0); ("reserved_6", 0xe8);
     ("avic_logical_id", 0xf0); ("avic_physical_id", 0xf8); ("reserved_sw", 0x3e0)]%string /\
  Forall (fun '(n, off) => offsetof true save_fields n = Some off)
    [("reserved_0xa0", 0xa0); ("reserved_0xcc", 0xcc); ("reserved_0xd8", 0xd8);
     ("reserved_0x180", 0x180); ("reserved_0x248", 0x248); ("reserved_0x298", 0x298);
     ("spec_ctrl", 0x2e0)]%string.
Proof. split; [done|]. split; [done|]. split; repeat constructor. Qed.

(** The member of [struct context] that holds a register. *)
Definition reg_name (r : reg) : option string :=
  match r with
  | RBX => Some "rbx" | RCX => Some "rcx" | RDX => Some "rdx" | RDI => Some "rdi"
  | RSI => Some "rsi" | RBP => Some "rbp" | R8 => Some "r8" | R9 => Some "r9"
  | R10 => Some "r10" | R11 => Some "r11" | R12 => Some "r12" | R13 => Some "r13"
  | R14 => Some "r14" | R15 => Some "r15" | RAX => None
  end%string.

(** An access of the routine goes to the member of its register. *)
Definition access_ok (i : instr) : bool :=
  match i with
  | Store r off _ | Load off _ r =>
      bool_decide (reg_name r ≫= offsetof false context_fields = Some off)
  | _ => true
  end.

(** The offsets of include/vcpu_run.h are those of the members of [struct
    context], and every load and store of the assembly routine uses the offset
    of the register it moves. *)
Theorem context_offsets :
  offsetof false context_fields "vmcb" = Some YAKVM_VCPU_CONTEXT_VMCB_OFF /\
  forall i, i ∈ _yakvm_vcpu_run_code -> access_ok i = true.
Proof.
  split; [done|]. intros i Hi. revert i Hi. apply Forall_forall.
  by repeat (constructor; [vm_compute; reflexivity|]).
Qed.

(** The codes of the exits the driver arms are the numbers of the intercept
    bits, which is how the processor derives an exit code from an intercept. *)
Theorem armed_exit_codes :
  INTERCEPT_EXCEPTION_OFFSET + DB_VECTOR = SVM_EXIT_EXCP_BASE + DB_VECTOR /\
  INTERCEPT_HLT = SVM_EXIT_HLT /\ INTERCEPT_IOIO_PROT = SVM_EXIT_IOIO /\
  Forall (fun '(i, e) => assoc i intercept_bits = assoc e svm_exit_codes)
    [("INTERCEPT_CR0_READ", "SVM_EXIT_READ_CR0"); ("INTERCEPT_CR8_WRITE", "SVM_EXIT_WRITE_CR8");
     ("INTERCEPT_DR7_READ", "SVM_EXIT_READ_DR7"); ("INTERCEPT_DR7_WRITE", "SVM_EXIT_WRITE_DR7");
     ("INTERCEPT_INTR", "SVM_EXIT_INTR"); ("INTERCEPT_NMI", "SVM_EXIT_NMI");
     ("INTERCEPT_VINTR", "SVM_EXIT_VINTR"); ("INTERCEPT_SELECTIVE_CR0", "SVM_EXIT_CR0_SEL_WRITE");
     ("INTERCEPT_STORE_IDTR", "SVM_EXIT_IDTR_READ"); ("INTERCEPT_LOAD_TR", "SVM_EXIT_TR_WRITE");
     ("INTERCEPT_RDTSC", "SVM_EXIT_RDTSC"); ("INTERCEPT_CPUID", "SVM_EXIT_CPUID");
     ("INTERCEPT_HLT", "SVM_EXIT_HLT"); ("INTERCEPT_IOIO_PROT", "SVM_EXIT_IOIO");
     ("INTERCEPT_MSR_PROT", "SVM_EXIT_MSR"); ("INTERCEPT_SHUTDOWN", "SVM_EXIT_SHUTDOWN");
     ("INTERCEPT_VMRUN", "SVM_EXIT_VMRUN"); ("INTERCEPT_XSETBV", "SVM_EXIT_XSETBV");
     ("TRAP_EFER_WRITE", "SVM_EXIT_EFER_WRITE_TRAP"); ("TRAP_CR8_WRITE", "SVM_EXIT_CR8_WRITE_TRAP");
     ("INTERCEPT_INVPCID", "SVM_EXIT_INVPCID")]%string.
Proof. do 3 (split; [reflexivity|]). by repeat constructor. Qed.

(** ** The control block of a fresh vcpu *)
Section fresh.
Context `{L : KernelLaws} `{P : !Processor K} `{A : !Abi K} `{C : Config} `{CO : !ConfigOk C}.
Implicit Types (s : kstate).

(** The intercepts the driver arms. *)
Definition armed : list Z := [INTERCEPT_EXCEPTION_OFFSET + DB_VECTOR; INTERCEPT_HLT; INTERCEPT_IOIO_PROT; INTERCEPT_VMRUN].

Lemma small_bit (Q : Z -> Prop) n :
  Forall Q (seqZ 0 n) -> forall b, 0 <= b < n -> Q b.
Proof. intros H b Hb. rewrite Forall_forall in H. apply H, elem_of_seqZ. lia. Qed.

Lemma fresh_intercepts iopm ncr3 asid bit :
  0 <= bit < 192 ->
  intercepted (fresh_control iopm ncr3 asid) bit = bool_decide (bit ∈ armed).
Proof.
  revert bit. change (intercepted (fresh_control iopm ncr3 asid)) with
    (intercepted (fresh_control 0 0 0)).
  apply small_bit. by repeat (constructor; [vm_compute; reflexivity|]).
Qed.

Lemma fresh_consistent iopm ncr3 asid nasid maxphys :
  32 <= maxphys -> iopm + 3 * 4096 <= 2 ^ maxphys -> 0 < asid < nasid ->
  vmrun_consistent nasid maxphys (fresh_vmcb iopm ncr3 asid) = true.
Proof.
  intros Hm Hi Ha. unfold vmrun_consistent. rewrite !andb_true_iff.
  change (save.cr3 _) with 0. rewrite Z.shiftr_0_l.
  split_and!; try reflexivity; [by apply Z.leb_le|apply Z.ltb_lt; apply Ha..].
Qed.

(** The word and the bit of a port. *)
Lemma port_place n port :
  0 <= port < 2 ^ 16 ->
  let a := n * PAGE_SIZE + port / 8 in
  a / PAGE_SIZE * PAGE_SIZE = bit_frame (n * PAGE_SIZE) port /\
  Z.to_nat (a mod PAGE_SIZE / 8) = bit_word (n * PAGE_SIZE) port /\
  8 * (a mod 8) + port mod 8 = port mod 64.
Proof.
  intros Hp. unfold bit_frame, bit_word, PAGE_SIZE. cbv zeta.
  split; [|split; [f_equal|]]; Z.to_euclidean_division_equations; lia.
Qed.

(** The map of a fresh vcpu: the one port is intercepted. *)
Lemma fresh_io m n port :
  (forall x, x ∈ frames n (2 ^ iopm_order) -> m !! x = Some
     (if decide (x = bit_frame (n * PAGE_SIZE) YAKVM_PIO_HAWK)
      then PWords (iopm_word (n * PAGE_SIZE)) else zero_page)) ->
  0 <= port < 2 ^ 16 ->
  io_intercepted m (n * PAGE_SIZE) port = (port =? YAKVM_PIO_HAWK).
Proof.
  intros Hm Hp. pose proof pio_hawk_port as Hh. destruct iopm_order_range as [_ Ho].
  unfold io_intercepted. destruct (port_place n port Hp) as (-> & -> & ->).
  destruct (port_place n YAKVM_PIO_HAWK Hh) as (Fh & Wh & _).
  destruct (port_place n port Hp) as (Fp & Wp & _).
  rewrite Hm by (apply bit_frame_in; [done|lia]).
  assert (port <> YAKVM_PIO_HAWK -> bit_frame (n * PAGE_SIZE) port = bit_frame (n * PAGE_SIZE) YAKVM_PIO_HAWK ->
    bit_word (n * PAGE_SIZE) port = bit_word (n * PAGE_SIZE) YAKVM_PIO_HAWK ->
    port mod 64 <> YAKVM_PIO_HAWK mod 64) as Hne.
  { unfold bit_frame, bit_word, PAGE_SIZE. intros H1 H2 H3%(f_equal Z.of_nat).
    rewrite !Z2Nat.id in H3 by (apply Z.div_pos; [apply Z.mod_pos_bound|]; lia).
    Z.to_euclidean_division_equations; lia. }
  assert (bit_word (n * PAGE_SIZE) port < 512)%nat as Hw.
  { unfold bit_word, PAGE_SIZE. apply Nat2Z.inj_lt.
    rewrite Z2Nat.id by (apply Z.div_pos; [apply Z.mod_pos_bound|]; lia).
    Z.to_euclidean_division_equations; lia. }
  assert (forall w, (replicate 512 0 !! w : option Z) = Some 0 \/ (replicate 512 0 !! w : option Z) = None) as H0.
  { intros w. destruct (replicate 512 0 !! w) eqn:E; [|by right].
    left. by apply lookup_replicate in E as [-> _]. }
  destruct (Z.eqb_spec port YAKVM_PIO_HAWK) as [->|Hpe].
  - rewrite decide_True by done. cbn [mbind option_bind as_words]. unfold iopm_word.
    rewrite list_lookup_insert_eq by (by rewrite length_replicate). cbn [default from_option id].
    rewrite testbit_one by (apply Z.mod_pos_bound; lia). by rewrite Z.eqb_refl.
  - assert (forall b, Z.testbit (default 0 (replicate 512 0 !! bit_word (n * PAGE_SIZE) port)) b = false) as Hz.
    { intros b. destruct (H0 (bit_word (n * PAGE_SIZE) port)) as [-> | ->]; apply Z.bits_0. }
    destruct (decide (_ = _)) as [E|_]; unfold zero_page; cbn [mbind option_bind as_words]; [|by rewrite Hz].
    unfold iopm_word.
    destruct (decide (bit_word (n * PAGE_SIZE) YAKVM_PIO_HAWK = bit_word (n * PAGE_SIZE) port)) as [Ew|Ew];
      [|by rewrite list_lookup_insert_ne, Hz by done].
    rewrite Ew, list_lookup_insert_eq by (by rewrite length_replicate). cbn [default from_option id].
    rewrite testbit_one by (apply Z.mod_pos_bound; lia). apply Z.eqb_neq. by apply Hne.
Qed.

(** The control block of the vcpu at [a]. *)
Definition guest_vmcb (a : Z) s : option vmcb.t :=
  v ← (ks_heap s !! a) ≫= as_vcpu;
  (ks_pages s !! virt_to_phys (context.vmcb (vcpu.gctx v))) ≫= as_vmcb.

Lemma created vm vm_v vmm_v s a s' :
  mm_ok s -> asid_ok s ->
  ks_heap s !! vm = Some (OVm vm_v) -> ks_heap s !! vm.vmm vm_v = Some (OVmm vmm_v) ->
  yakvm_create_vcpu vm s = Ok (inr a) s' ->
  exists n, 0 < n /\ n + 3 <= 2 ^ 40 /\ ks_asid s + 1 < cpuid_ebx 0x8000000a /\
    guest_vmcb a s' = Some (fresh_vmcb (n * PAGE_SIZE) (vmm.ncr3 vmm_v) (ks_asid s + 1)) /\
    forall x, x ∈ frames n (2 ^ iopm_order) -> ks_pages s' !! x = Some
      (if decide (x = bit_frame (n * PAGE_SIZE) YAKVM_PIO_HAWK)
       then PWords (iopm_word (n * PAGE_SIZE)) else zero_page).
Proof.
  intros Hok Ha Hvm Hvmm Hrun. pose proof (wp_create_vcpu _ _ _ _ Hok Ha Hvm Hvmm) as Hwp.
  eapply wp_ok_inv in Hwp; [|exact Hrun].
  destruct Hwp as (_ & _ & _ & Has & k & m' & pl & -> & Hpl & _ & _ & _ & Hg & _ & _ & _ & Hio).
  destruct iopm_order_range as [_ Ho]. destruct (placed_io_valid _ _ Hpl).
  exists (at_io pl). split_and!; [done|lia|done| |done].
  unfold guest_vmcb. mem_simpl. rewrite lookup_insert_eq. cbn [mbind option_bind as_vcpu].
  rewrite (placed_g _ _ Hpl), valid_pa_round_trip, Hg; [done|].
  pose proof (placed_valid _ _ Hpl) as Hv. by apply Forall_cons in Hv as [? _].
Qed.

(** C25: a new vcpu's guest leaves on a debug exception, HLT, an intercepted port and
    VMRUN, and on nothing else the intercept vector could name. *)
Theorem create_vcpu_arms vm vm_v vmm_v s a s' bit :
  mm_ok s -> asid_ok s ->
  ks_heap s !! vm = Some (OVm vm_v) -> ks_heap s !! vm.vmm vm_v = Some (OVmm vmm_v) ->
  yakvm_create_vcpu vm s = Ok (inr a) s' -> 0 <= bit < 32 * MAX_INTERCEPT ->
  exists b, guest_vmcb a s' = Some b /\
    intercepted (vmcb.control b) bit = bool_decide (bit ∈ armed).
Proof.
  intros Hok Ha Hvm Hvmm Hrun Hb.
  destruct (created _ _ _ _ _ _ Hok Ha Hvm Hvmm Hrun) as (n & _ & _ & _ & Hg & _).
  eexists. split; [exact Hg|]. by apply fresh_intercepts.
Qed.

(** C26: of the 65536 ports of a new vcpu's guest exactly the emulated one leaves the
    guest: the I/O permission map the control block points to has its bit alone. *)
Theorem create_vcpu_ports vm vm_v vmm_v s a s' port :
  mm_ok s -> asid_ok s ->
  ks_heap s !! vm = Some (OVm vm_v) -> ks_heap s !! vm.vmm vm_v = Some (OVmm vmm_v) ->
  yakvm_create_vcpu vm s = Ok (inr a) s' -> 0 <= port < 2 ^ 16 ->
  exists b, guest_vmcb a s' = Some b /\
    io_intercepted (ks_pages s') (control.iopm_base_pa (vmcb.control b)) port =
      (port =? YAKVM_PIO_HAWK).
Proof.
  intros Hok Ha Hvm Hvmm Hrun Hb.
  destruct (created _ _ _ _ _ _ Hok Ha Hvm Hvmm Hrun) as (n & _ & _ & _ & Hg & Hio).
  eexists. split; [exact Hg|]. by apply fresh_io.
Qed.

(** The instructions that act on host physical memory or on the host's
    processor. *)
Definition host_instrs : list Z := value_of intercept_bits <$>
  ["INTERCEPT_VMLOAD"; "INTERCEPT_VMSAVE"; "INTERCEPT_STGI"; "INTERCEPT_CLGI"; "INTERCEPT_SKINIT";
   "INTERCEPT_INVD"]%string.

(** The acts that reach the host: those instructions, the model specific registers
    and the ports that are not emulated. *)
Definition reaches_host (a : host_act) : Prop :=
  match a with
  | HostInstr bit => bit ∈ host_instrs
  | HostPort port => 0 <= port < 2 ^ 16 /\ port <> YAKVM_PIO_HAWK
  | HostMsr _ => True
  end.

Lemma fresh_uncovered m n ncr3 asid act :
  (forall x, x ∈ frames n (2 ^ iopm_order) -> m !! x = Some
     (if decide (x = bit_frame (n * PAGE_SIZE) YAKVM_PIO_HAWK)
      then PWords (iopm_word (n * PAGE_SIZE)) else zero_page)) ->
  reaches_host act -> covered m (fresh_control (n * PAGE_SIZE) ncr3 asid) act = false.
Proof.
  intros Hm Ha. destruct act as [bit|port|msr]; cbn [covered reaches_host] in *; [| |done].
  - rewrite (fresh_intercepts (n * PAGE_SIZE) ncr3 asid).
    + apply bool_decide_eq_false. revert bit Ha. apply Forall_forall.
      repeat (constructor; [vm_compute; by intros H; repeat (apply elem_of_cons in H as [H|H]; [done|]); apply elem_of_nil in H|]).
      constructor.
    + revert bit Ha. apply Forall_forall. repeat (constructor; [vm_compute; split; [discriminate|reflexivity]|]).
      constructor.
  - destruct Ha as [Hp Hne]. change (control.iopm_base_pa _) with (n * PAGE_SIZE).
    rewrite (fresh_io m n port Hm Hp), (proj2 (Z.eqb_neq _ _) Hne). apply andb_false_r.
Qed.


(** C24: the control block of a new vcpu passes the consistency checks of VMRUN on a
    processor with 52-bit physical addresses, walks the machine's table and has
    the next address space identifier, which the processor has. *)
Theorem create_vcpu_consistent vm vm_v vmm_v s a s' :
  mm_ok s -> asid_ok s ->
  ks_heap s !! vm = Some (OVm vm_v) -> ks_heap s !! vm.vmm vm_v = Some (OVmm vmm_v) ->
  yakvm_create_vcpu vm s = Ok (inr a) s' ->
  exists b, guest_vmcb a s' = Some b /\
    vmrun_consistent (cpuid_ebx 0x8000000a) 52 b = true /\
    control.nested_cr3 (vmcb.control b) = vmm.ncr3 vmm_v /\
    Z.testbit (control.nested_ctl (vmcb.control b)) 0 = true /\
    control.asid (vmcb.control b) = ks_asid s + 1 /\ 1 < ks_asid s + 1 < cpuid_ebx 0x8000000a.
Proof.
  intros Hok Ha Hvm Hvmm Hrun.
  destruct (created _ _ _ _ _ _ Hok Ha Hvm Hvmm Hrun) as (n & Hn & Hmax & Has & Hg & _).
  pose proof Ha as [Ha1 _]. eexists. split; [exact Hg|]. split; [|split_and!; (reflexivity || lia)].
  apply fresh_consistent; [done|unfold PAGE_SIZE; lia|lia].
Qed.

(** C23: creating a vcpu takes everything or nothing: on [-ENOMEM] every page and
    object is given back and the others are as they were; on success its pages
    are new ones, and zero but for the control block and the bit of the port; it
    stops the kernel only when the processor has no identifier left. *)
Theorem create_vcpu_all_or_nothing vm vm_v vmm_v s :
  mm_ok s -> asid_ok s ->
  ks_heap s !! vm = Some (OVm vm_v) -> ks_heap s !! vm.vmm vm_v = Some (OVmm vmm_v) ->
  wp (yakvm_create_vcpu vm) (create_vcpu_post vm (vmm.ncr3 vmm_v) s)
    (fun w => w = Panicked /\ cpuid_ebx 0x8000000a <= ks_asid s + 1) s.
Proof. apply wp_create_vcpu. Qed.

(** C27: creating a vcpu and destroying it gives memory back as it was; only the
    identifier is spent. *)
Theorem create_destroy_vcpu vm vm_v vmm_v s a s' :
  mm_ok s -> asid_ok s ->
  ks_heap s !! vm = Some (OVm vm_v) -> ks_heap s !! vm.vmm vm_v = Some (OVmm vmm_v) ->
  yakvm_create_vcpu vm s = Ok (inr a) s' ->
  exists s'', yakvm_destroy_vcpu a s' = Ok tt s'' /\ ks_pages s'' = ks_pages s /\
    ks_heap s'' = ks_heap s /\ ks_asid s'' = ks_asid s + 1.
Proof.
  intros Hok Ha Hvm Hvmm Hrun. pose proof (wp_create_vcpu _ _ _ _ Hok Ha Hvm Hvmm) as Hwp.
  eapply wp_ok_inv in Hwp; [|exact Hrun].
  destruct Hwp as (Hok' & Hfr & _ & _ & k & m' & pl & -> & Hpl & Hd & Hsub & Hdom & _).
  assert (place_pages pl ⊆ dom m') as Hin by (rewrite Hdom; apply union_subseteq_r).
  pose proof (wp_destroy_vcpu a (fresh_vcpu vm pl) pl _ Hok' (lookup_insert_eq _ _ _) Hpl Hin) as H2.
  apply wp_never_ok in H2 as ([] & s2 & Hrun2 & _ & k2 & m2 & -> & Hnone & Hframe).
  eexists. split; [exact Hrun2|]. mem_simpl.
  split; [by apply (pages_restored (place_pages pl) _ m')|].
  split; [by rewrite delete_insert_id|done].
Qed.

End fresh.

(** ** Witnesses *)
Section witnesses.
#[local] Existing Instance concrete.
#[local] Existing Instance concrete_laws.
#[local] Existing Instance halting_guest.
#[local] Existing Instance concrete_abi.
#[local] Existing Instance makefile_config.

(** A machine without a vcpu, and its creation of one. *)
Definition demo_bare : kstate := ran [] (take 2 demo_vm).
Definition demo_born : kstate := final (yakvm_create_vcpu demo_a) demo_bare.

Lemma demo_bare_answers : answers [] (take 2 demo_vm) = Some [3; 4].
Proof. vm_compute. reflexivity. Qed.

Lemma demo_bare_file : ks_files (ran [] (take 2 demo_vm)) !! 4 = Some (FVm demo_a).
Proof. vm_compute. reflexivity. Qed.

Lemma demo_bare_ok :
  mm_ok demo_bare /\ asid_ok demo_bare /\ exists vm_v vmm_v,
    ks_heap demo_bare !! demo_a = Some (OVm vm_v) /\
    ks_heap demo_bare !! vm.vmm vm_v = Some (OVmm vmm_v).
Proof.
  destruct (ran_machine _ _ _ _ _ demo_bare_answers demo_bare_file) as (W & lost & w & I & Hw & _).
  fold demo_bare in I. split; [apply I|]. split; [apply I|].
  pose proof (inv_vm _ _ _ I _ _ Hw) as Hok. destruct (vm_obj _ _ _ _ Hok) as [id Ho].
  eexists _, _. split; [exact Ho|]. apply (vm_vmm _ _ _ _ Hok).
Qed.

Lemma demo_born_result : result (yakvm_create_vcpu demo_a) demo_bare = Some (inr demo_c).
Proof. vm_compute. reflexivity. Qed.

Lemma demo_born_run : yakvm_create_vcpu demo_a demo_bare = Ok (inr demo_c) demo_born.
Proof. exact (result_final _ _ _ demo_born_result). Qed.

Lemma create_vcpu_arms_witness :
  exists b, guest_vmcb demo_c demo_born = Some b /\
    intercepted (vmcb.control b) INTERCEPT_HLT = bool_decide (INTERCEPT_HLT ∈ armed).
Proof.
  destruct demo_bare_ok as (Hok & Ha & vm_v & vmm_v & Hvm & Hvmm).
  apply (create_vcpu_arms _ _ _ _ _ _ INTERCEPT_HLT Hok Ha Hvm Hvmm demo_born_run).
  split; [discriminate|reflexivity].
Defined.

Lemma create_vcpu_ports_witness :
  exists b, guest_vmcb demo_c demo_born = Some b /\
    io_intercepted (ks_pages demo_born) (control.iopm_base_pa (vmcb.control b)) 0x3f8 =
      (0x3f8 =? YAKVM_PIO_HAWK).
Proof.
  destruct demo_bare_ok as (Hok & Ha & vm_v & vmm_v & Hvm & Hvmm).
  apply (create_vcpu_ports _ _ _ _ _ _ 0x3f8 Hok Ha Hvm Hvmm demo_born_run).
  split; [discriminate|reflexivity].
Defined.


Lemma create_vcpu_consistent_witness :
  exists b, guest_vmcb demo_c demo_born = Some b /\
    vmrun_consistent (cpuid_ebx 0x8000000a) 52 b = true.
Proof.
  destruct demo_bare_ok as (Hok & Ha & vm_v & vmm_v & Hvm & Hvmm).
  destruct (create_vcpu_consistent _ _ _ _ _ _ Hok Ha Hvm Hvmm demo_born_run) as (b & Hb & H & _).
  exists b. split; [exact Hb|exact H].
Defined.

Lemma create_vcpu_all_or_nothing_witness :
  exists ncr3, wp (yakvm_create_vcpu demo_a) (create_vcpu_post demo_a ncr3 demo_bare)
    (fun w => w = Panicked /\ cpuid_ebx 0x8000000a <= ks_asid demo_bare + 1) demo_bare.
Proof.
  destruct demo_bare_ok as (Hok & Ha & vm_v & vmm_v & Hvm & Hvmm). exists (vmm.ncr3 vmm_v).
  exact (create_vcpu_all_or_nothing _ _ _ _ Hok Ha Hvm Hvmm).
Defined.

Lemma create_destroy_vcpu_witness :
  exists s, yakvm_destroy_vcpu demo_c demo_born = Ok tt s /\ ks_pages s = ks_pages demo_bare /\
    ks_heap s = ks_heap demo_bare.
Proof.
  destruct demo_bare_ok as (Hok & Ha & vm_v & vmm_v & Hvm & Hvmm).
  destruct (create_destroy_vcpu _ _ _ _ _ _ Hok Ha Hvm Hvmm demo_born_run) as (s & H1 & H2 & H3 & _).
  exists s. split; [exact H1|]. split; [exact H2|exact H3].
Defined.

End witnesses.
