(* ===== verification/SwitchProps.v ===== *)
(** * What running a vcpu and its registers guarantee

    The assembly routine is equal to a reference definition, a run gives the
    processor back, the registers of a vcpu go to userspace and come back. *)

From S2P Require Import Prelude Structs Kernel Concrete Npt Vmcb VcpuRun Vcpu VcpuSwitch.
From S2P Require Import Vm Driver System Handlers HandlersVcpu Spec Safety Machine SafetyProps VcpuProps.

(** ** The assembly routine *)
Section routine.
Context `{K : KernelOps} `{P : !Processor K}.
Implicit Types (s : kstate).

(** The reference: load the guest's hidden state, run it with the registers of
    its context, save both; the guest's registers go to its context, the
    caller's to the host's, and the caller has its own again. *)
Definition reference_run (vcpu pa lock_size : Z) (g : gprs.t) : KM gprs.t :=
  v ← get_vcpu vcpu;
  vmload pa ;;
  g' ← vmrun pa (guest_regs (vcpu.gctx v) pa);
  vmsave (gprs.rax g') ;;
  modify (fun s => s <| ks_heap := <[vcpu :=
    OVcpu (v <| vcpu.gctx := guest_saved g' (vcpu.gctx v) |>
             <| vcpu.hctx := host_saved g (vcpu.hctx v) |>)]> (ks_heap s) |>) ;;
  mret (returned g (vcpu + lock_size) (vcpu + lock_size + 120) g').

Lemma reference_run_unfold vcpu v pa lock_size g s :
  ks_heap s !! vcpu = Some (OVcpu v) ->
  reference_run vcpu pa lock_size g s =
    match (vmload pa ;; g' ← vmrun pa (guest_regs (vcpu.gctx v) pa); vmsave (gprs.rax g') ;; mret g') s with
    | Ok g' s' => Ok (returned g (vcpu + lock_size) (vcpu + lock_size + 120) g')
        (with_heap (<[vcpu := OVcpu (v <| vcpu.gctx := guest_saved g' (vcpu.gctx v) |>
                                       <| vcpu.hctx := host_saved g (vcpu.hctx v) |>)]>
                      (ks_heap s')) s')
    | Stop w => Stop w
    end.
Proof.
  intros Hv. unfold reference_run, get_vcpu, get_obj, mbind, M_bind. cbn [gets]. rewrite Hv.
  cbn [need mret M_ret as_vcpu]. destruct (vmload pa s) as [[] s1|]; [|done].
  destruct (vmrun pa _ s1) as [g' s2|]; [|done]. by destruct (vmsave (gprs.rax g') s2) as [[] s3|].
Qed.

(** C29: the assembly routine, executed instruction by instruction, is the reference
    definition: same registers, contexts and memory, and the same stop. *)
Theorem routine_is_reference vcpu v pa lock_size g s :
  ks_heap s !! vcpu = Some (OVcpu v) ->
  _yakvm_vcpu_run vcpu pa lock_size g s = reference_run vcpu pa lock_size g s.
Proof.
  intros Hv. assert (wp (_yakvm_vcpu_run vcpu pa lock_size g)
    (fun g' s' => reference_run vcpu pa lock_size g s = Ok g' s')
    (fun w => reference_run vcpu pa lock_size g s = Stop w) s) as H.
  2: { unfold wp in H. by destruct (_yakvm_vcpu_run _ _ _ _ s). }
  eapply wp__yakvm_vcpu_run; [done|]. rewrite (reference_run_unfold _ _ _ _ _ _ Hv).
  eapply wp_mono; [eapply wp_stop_mono; [apply wp_self|]|]; [intros w Hw|intros g' s' Hr];
    cbv beta; [by rewrite Hw|by rewrite Hr].
Qed.


(** C30: whatever the guest leaves in the registers, the routine returns to its caller
    with every register that the calling convention has it preserve, and with
    RCX and R8 to R11 too. *)
Theorem callee_saved_kept vcpu v pa lock_size g s g' s' r :
  ks_heap s !! vcpu = Some (OVcpu v) ->
  _yakvm_vcpu_run vcpu pa lock_size g s = Ok g' s' ->
  r ∈ [RBX; RBP; R12; R13; R14; R15] ++ [RCX; R8; R9; R10; R11] ->
  gprs.get r g' = gprs.get r g.
Proof.
  intros Hv Hrun Hr. assert (exists gx, g' = returned g (vcpu + lock_size) (vcpu + lock_size + 120) gx) as [gx ->].
  { assert (wp (_yakvm_vcpu_run vcpu pa lock_size g) (fun g' _ => exists gx, g' =
      returned g (vcpu + lock_size) (vcpu + lock_size + 120) gx) (fun _ => True) s) as H;
      [|by eapply wp_ok_inv in H].
    eapply wp__yakvm_vcpu_run; [done|].
    eapply wp_mono; [eapply wp_stop_mono; [apply wp_self|done]|eauto]. }
  destruct g. revert r Hr. apply Forall_forall. by repeat constructor.
Qed.

End routine.

(** ** Registers and system calls of a vcpu *)
Section registers.
Context `{L : KernelLaws} `{P : !Processor K} `{A : !Abi K} `{C : Config}.
Implicit Types (s : kstate).

(** The members of [struct registers] that are narrower than their source. *)
Definition regs_ok (r : registers.t) : Prop :=
  0 <= registers.cs r < 2 ^ 16 /\ 0 <= registers.ss r < 2 ^ 16.

Definition truncated (s : save.t) : save.t :=
  s <| save.cs := (save.cs s) <| vmcb_seg.base := wrap 16 (vmcb_seg.base (save.cs s)) |> |>
    <| save.ss := (save.ss s) <| vmcb_seg.base := wrap 16 (vmcb_seg.base (save.ss s)) |> |>.

Lemma regs_of_set r c b :
  regs_ok r -> regs_of (set_context r c) (b <| vmcb.save := set_save r (vmcb.save b) |>) = r.
Proof.
  intros [Hcs Hss]. destruct r. unfold regs_of, set_context, set_save. simpl in *.
  by rewrite !wrap_small by done.
Qed.

Lemma set_regs_of c b :
  set_context (regs_of c b) c = c /\ set_save (regs_of c b) (vmcb.save b) = truncated (vmcb.save b).
Proof. by destruct c, b as [? []]. Qed.

(** C31: the registers userspace gives a vcpu are those it reads back, all nineteen. *)
Theorem set_get_regs c v pl b src dest regs s s1 s2 :
  at_vcpu s c v pl b -> copy_from_user (ks_user s) src = (0, regs) -> regs_ok regs ->
  yakvm_vcpu_set_regs c src s = Ok 0 s1 -> yakvm_vcpu_get_regs c dest s1 = Ok 0 s2 ->
  copy_from_user (ks_user s2) dest = (0, regs).
Proof.
  intros H Hc Hr H1 H2.
  assert (wp (yakvm_vcpu_set_regs c src) (fun r s1 => r = 0 -> exists v' b', at_vcpu s1 c v' pl b' /\
    regs_of (vcpu.gctx v') b' = regs) (fun _ => True) s) as Hwp.
  { eapply wp_set_regs; [done|done|]. intros regs' s' Hc' Hat _ _ _. rewrite Hc in Hc'.
    injection Hc' as <-. do 2 eexists. split; [exact Hat|]. by apply regs_of_set. }
  eapply wp_ok_inv in Hwp; [|exact H1]. destruct (Hwp eq_refl) as (v' & b' & Hat & Hregs).
  assert (wp (yakvm_vcpu_get_regs c dest) (fun r s2 => r = 0 ->
    copy_from_user (ks_user s2) dest = (0, regs)) (fun _ => True) s1) as Hwp2;
    [|eapply wp_ok_inv in Hwp2; [|exact H2]; by apply Hwp2].
  eapply wp_get_regs; [done|]. intros r u Hu Hr0. rewrite Hregs in Hu.
  destruct (Z.eqb_spec r 0) as [->|]; [|done]. by eapply copy_round_trip.
Qed.

(** Reading the registers and writing them back is not the identity: the bases of
    CS and SS lose all but their low 16 bits, everything else stays. *)
Theorem get_set_regs c v pl b buf s s1 s2 :
  at_vcpu s c v pl b ->
  yakvm_vcpu_get_regs c buf s = Ok 0 s1 -> yakvm_vcpu_set_regs c buf s1 = Ok 0 s2 ->
  at_vcpu s2 c v pl (b <| vmcb.save := truncated (vmcb.save b) |>).
Proof.
  intros H H1 H2.
  assert (wp (yakvm_vcpu_get_regs c buf) (fun r s1 => r = 0 -> at_vcpu s1 c v pl b /\
    copy_from_user (ks_user s1) buf = (0, regs_of (vcpu.gctx v) b)) (fun _ => True) s) as Hwp.
  { eapply wp_get_regs; [done|]. intros r u Hu Hr0. destruct (Z.eqb_spec r 0) as [->|]; [|done].
    split; [done|]. by eapply copy_round_trip. }
  eapply wp_ok_inv in Hwp; [|exact H1]. destruct (Hwp eq_refl) as [Hat Hc].
  assert (wp (yakvm_vcpu_set_regs c buf) (fun r s2 => r = 0 ->
    at_vcpu s2 c v pl (b <| vmcb.save := truncated (vmcb.save b) |>)) (fun _ => True) s1) as Hwp2;
    [|eapply wp_ok_inv in Hwp2; [|exact H2]; by apply Hwp2].
  eapply wp_set_regs; [done|done|]. intros regs s' Hc' Hat' _ _ _. rewrite Hc in Hc'.
  injection Hc' as <-. destruct (set_regs_of (vcpu.gctx v) b) as [E1 E2]. rewrite E1, E2 in Hat'.
  by destruct v.
Qed.

(** A call on a vcpu that a signal interrupts or that names no operation changes
    nothing and leaves the lock free; one made while the lock is held waits. *)
Theorem vcpu_ioctl_errors c v ioctl arg s :
  ks_heap s !! c = Some (OVcpu v) ->
  yakvm_vcpu_ioctl c ioctl arg true s = Ok (- EINTR) s /\
  (vcpu.lock v = true -> yakvm_vcpu_ioctl c ioctl arg false s = Stop Deadlocked) /\
  (vcpu.lock v = false -> ioctl ∉ [YAKVM_RUN; YAKVM_GET_REGS; YAKVM_SET_REGS] ->
   yakvm_vcpu_ioctl c ioctl arg false s = Ok (- EINVAL) s).
Proof.
  intros Hv.
  split.
  { unfold yakvm_vcpu_ioctl, mutex_lock_killable, get_vcpu, get_obj, mbind, M_bind.
    cbn [gets]. by rewrite Hv. }
  split; [intros Hl|intros Hl Hn].
  - apply wp_stops. unfold yakvm_vcpu_ioctl, mutex_lock_killable. apply wp_bind, wp_bind.
    eapply wp_get_obj; [done..|]. by rewrite Hl.
  - rewrite !not_elem_of_cons in Hn. destruct Hn as (N1 & N2 & N3 & _).
    apply Z.eqb_neq in N1, N2, N3.
    assert (wp (yakvm_vcpu_ioctl c ioctl arg false) (fun r s' => r = - EINVAL /\ s' = s) never s) as Hwp;
      [|by apply wp_never_ok in Hwp as (r & s' & -> & -> & ->)].
    unfold yakvm_vcpu_ioctl, mutex_lock_killable. rewrite N1, N2, N3. apply wp_bind, wp_bind.
    eapply wp_get_obj; [done..|]. rewrite Hl. apply wp_bind. eapply wp_update_vcpu; [done|]. apply wp_ret.
    apply wp_bind, wp_ret, wp_bind. eapply wp_update_vcpu; [apply lookup_insert_eq|]. apply wp_ret.
    split; [done|]. mem_simpl. rewrite insert_insert_eq.
    replace (v <| vcpu.lock := true |> <| vcpu.lock := false |>) with v by (destruct v; by simpl in Hl; subst).
    rewrite insert_id by done. by destruct s.
Qed.

End registers.

(** ** A run *)
Section run.
Context `{L : KernelLaws} `{P : !Processor K} `{PL : !ProcessorLaws K P} `{A : !Abi K}
  `{C : Config} `{CO : !ConfigOk C}.
Implicit Types (s : kstate) (W : world) (w : avm).


End run.

(** ** Witnesses *)
Section witnesses.
#[local] Existing Instance concrete.
#[local] Existing Instance concrete_laws.
#[local] Existing Instance halting_guest.
#[local] Existing Instance concrete_abi.
#[local] Existing Instance makefile_config.

Lemma demo_vm_vcpu_file : ks_files (ran [] demo_vm) !! 5 = Some (FVcpu demo_c).
Proof. vm_compute. reflexivity. Qed.

(** The vcpu of [demo_vm]. *)
Lemma demo_vcpu :
  exists W lost a w pl v b, inv (ran [] demo_vm) W lost /\ W !! a = Some w /\
    w_vcpu w = Some (demo_c, pl) /\ at_vcpu (ran [] demo_vm) demo_c v pl b /\ vcpu.lock v = false.
Proof.
  destruct (ran_inv _ _ _ demo_vm_answers) as (W & lost & I).
  destruct (files_vcpu _ _ _ _ _ I demo_vm_vcpu_file) as (a & w & pl & Hw & Hv & _).
  destruct (vm_vcpu _ _ _ _ (inv_vm _ _ _ I _ _ Hw) _ _ Hv) as (_ & _ & Vp & v & Hvc & Hpl & Hl & _).
  destruct (pages_g _ _ _ Vp) as (b & Hb & _).
  exists W, lost, a, w, pl, v, b. split; [exact I|]. split; [exact Hw|]. split; [exact Hv|].
  split; [|exact Hl]. split; [exact Hvc|]. split; [exact Hpl|exact Hb].
Qed.

Definition demo_gprs : gprs.t := gprs.mk 0 1 2 3 4 5 6 8 9 10 11 12 13 14 15.

Lemma routine_is_reference_witness :
  _yakvm_vcpu_run demo_c 4096 32 demo_gprs (ran [] demo_vm) =
    reference_run demo_c 4096 32 demo_gprs (ran [] demo_vm).
Proof.
  destruct demo_vcpu as (W & lost & a & w & pl & v & b & _ & _ & _ & (Hv & _) & _).
  exact (routine_is_reference demo_c v 4096 32 demo_gprs (ran [] demo_vm) Hv).
Defined.

(** The processor as the driver leaves it for the routine. *)
Definition demo_ready : kstate :=
  final (preempt_disable ;; v ← get_vcpu demo_c; wrmsrl_VM_HSAVE_PA (virt_to_phys (vcpu.hsave v)) ;;
         clgi) (ran [] demo_vm).

Definition demo_gpa : Z :=
  default 0 ((fun v => virt_to_phys (context.vmcb (vcpu.gctx v))) <$>
             ((ks_heap demo_ready !! demo_c) ≫= as_vcpu)).

#[local] Abbreviation demo_switch := (_yakvm_vcpu_run demo_c demo_gpa 32 demo_gprs).

Lemma demo_switch_result :
  exists g v, result demo_switch demo_ready = Some g /\ ks_heap demo_ready !! demo_c = Some (OVcpu v).
Proof. eexists _, _. split; vm_compute; reflexivity. Qed.

Lemma callee_saved_kept_witness :
  exists g, result demo_switch demo_ready = Some g /\ gprs.get RBX g = gprs.get RBX demo_gprs.
Proof.
  destruct demo_switch_result as (g & v & Hg & Hv). exists g. split; [exact Hg|].
  apply (callee_saved_kept _ _ _ _ _ _ _ _ RBX Hv (result_final _ _ _ Hg)). by left.
Defined.

Definition demo_regs : registers.t := registers.mk 1 2 3 4 5 6 7 8 9 10 11 12 13 14 15 16 17 18 19.
(** The same machine, the registers written at address 1000 of userspace. *)
Definition demo_written : kstate :=
  (ran [] demo_vm) <| ks_user := <[1000 := demo_regs]> (ks_user (ran [] demo_vm)) |>.

Lemma demo_written_vcpu : exists v pl b, at_vcpu demo_written demo_c v pl b.
Proof.
  destruct demo_vcpu as (W & lost & a & w & pl & v & b & _ & _ & _ & H & _). exists v, pl, b.
  unfold demo_written. apply at_vcpu_user, H.
Qed.

#[local] Abbreviation demo_set := (yakvm_vcpu_set_regs demo_c 1000).
#[local] Abbreviation demo_get := (yakvm_vcpu_get_regs demo_c 2000).

Lemma demo_set_results :
  copy_from_user (ks_user demo_written) 1000 = (0, demo_regs) /\
  result demo_set demo_written = Some 0 /\ result demo_get (final demo_set demo_written) = Some 0.
Proof. split; [|split]; vm_compute; reflexivity. Qed.

Lemma set_get_regs_witness :
  copy_from_user (ks_user (final demo_get (final demo_set demo_written))) 2000 = (0, demo_regs).
Proof.
  destruct demo_written_vcpu as (v & pl & b & H). destruct demo_set_results as (H0 & H1 & H2).
  refine (set_get_regs _ _ _ _ _ _ demo_regs _ _ _ H H0 _ (result_final _ _ _ H1) (result_final _ _ _ H2)).
  repeat split; discriminate.
Defined.

#[local] Abbreviation demo_reset := (yakvm_vcpu_set_regs demo_c 2000).

Lemma demo_get_results :
  result demo_get (ran [] demo_vm) = Some 0 /\ result demo_reset (final demo_get (ran [] demo_vm)) = Some 0.
Proof. split; vm_compute; reflexivity. Qed.

Lemma get_set_regs_witness :
  exists v pl b, at_vcpu (final demo_reset (final demo_get (ran [] demo_vm))) demo_c v pl
    (b <| vmcb.save := truncated (vmcb.save b) |>).
Proof.
  destruct demo_vcpu as (W & lost & a & w & pl & v & b & _ & _ & _ & H & _).
  destruct demo_get_results as [H1 H2]. exists v, pl, b.
  exact (get_set_regs _ _ _ _ _ _ _ _ H (result_final _ _ _ H1) (result_final _ _ _ H2)).
Defined.

Lemma vcpu_ioctl_errors_witness :
  yakvm_vcpu_ioctl demo_c YAKVM_RUN 0 true (ran [] demo_vm) = Ok (- EINTR) (ran [] demo_vm) /\
  yakvm_vcpu_ioctl demo_c 0 0 false (ran [] demo_vm) = Ok (- EINVAL) (ran [] demo_vm).
Proof.
  destruct demo_vcpu as (W & lost & a & w & pl & v & b & _ & _ & _ & (Hv & _) & Hl).
  split; [exact (proj1 (vcpu_ioctl_errors _ _ YAKVM_RUN 0 _ Hv))|].
  apply (proj2 (proj2 (vcpu_ioctl_errors _ _ 0 0 _ Hv)) Hl). apply (bool_decide_unpack _). exact I.
Defined.

Lemma state_mmap_maps_witness :
  yakvm_vcpu_state_mmap demo_c 1 0 4096 (ran [] demo_vm) = Ok (- EINVAL) (ran [] demo_vm).
Proof.
  destruct demo_vcpu as (W & lost & a & w & pl & v & b & _ & _ & _ & H & _).
  exact (state_mmap_maps _ _ _ _ 1 0 4096 _ H).
Defined.

Lemma demo_cpu : exists cpu, ks_cpus (ran [] demo_vm) !! ks_cpu (ran [] demo_vm) = Some cpu.
Proof. eexists. vm_compute. reflexivity. Qed.

Lemma demo_vcpu_run_result : result (yakvm_vcpu_run demo_c) (ran [] demo_vm) = Some 0.
Proof. vm_compute. reflexivity. Qed.


End witnesses.
