(* ===== verification/Emulator.v ===== *)
(** * The emulator: tool/

    The process that runs a guest: it creates a machine and a vcpu through the
    driver's descriptors, loads the guest's binary into the machine's memory and
    emulates two devices of one byte. [Host] is what it asks of the kernel and
    of its own address space. *)

From S2P Require Import Prelude Structs.

(** ** The interface

    Answers of system calls are the kernel's: a negative error number on
    failure. [user_*] are plain accesses to mapped memory. *)
Class Host (S : Type) : Type := {
  sys_open_dev : M S Z;                              (** open("/dev/yakvm") *)
  sys_open_bin : string -> M S Z;                    (** open(bin, O_RDONLY) *)
  sys_fstat : Z -> M S (Z * Z);                      (** the answer and [st_size] *)
  sys_read : Z -> Z -> Z -> M S Z;                   (** read(fd, address, size) *)
  sys_close : Z -> M S Z;
  sys_ioctl : Z -> Z -> Z -> M S Z;
  sys_get_regs : Z -> M S (Z * registers.t);         (** ioctl(fd, YAKVM_GET_REGS, &regs) *)
  sys_set_regs : Z -> registers.t -> M S Z;          (** ioctl(fd, YAKVM_SET_REGS, &regs) *)
  sys_mmap : Z -> Z -> M S Z;                        (** mmap of a length of a descriptor *)
  sys_munmap : Z -> Z -> M S Z;
  user_state : Z -> M S state.t;                     (** [*(struct state * )address] *)
  user_byte : Z -> M S Z                             (** [*(uint8_t * )address] *)
}.

(** [enum mode] of tool/cpu.h. *)
Inductive mode : Type := RUNNING | HLT.

#[global] Instance mode_eq_dec : EqDecision mode.
Proof. solve_decision. Defined.

(** [struct cpu] of tool/cpu.h. *)
Module cpu.
Record t : Type := mk {
  state : Z;
  mode : mode;
  fd : Z
}.
#[global] Instance eta_t : Eta t := fun r => mk (state r) (mode r) (fd r).
End cpu.

(** [struct vm] of tool/emulator.h. *)
Module tool_vm.
Record t : Type := mk {
  vmfd : Z;
  cpu : cpu.t;
  memory : Z
}.
#[global] Instance eta_t : Eta t := fun r => mk (vmfd r) (cpu r) (memory r).
End tool_vm.

(** The emulator's state: [struct vm], the two devices, [errno] and the system
    below. *)
Record emu {S : Type} : Type := Emu {
  e_vm : tool_vm.t;
  e_pio_hawk : Z;
  e_mmio_hawk : Z;
  e_errno : Z;
  e_sys : S
}.
Arguments emu S : clear implicits.
Arguments Emu {S}.

#[global] Instance eta_emu S : Eta (emu S) := fun e =>
  Emu (e_vm e) (e_pio_hawk e) (e_mmio_hawk e) (e_errno e) (e_sys e).

(** ** Arguments: tool/arguments.c

    The parser callback of argp: what argp tells it, and what it does. *)
Inductive argp_key : Type :=
| ARGP_KEY_ARG (arg : string)
| ARGP_KEY_NO_ARGS
| ARGP_KEY_OTHER.

Definition ARGP_ERR_UNKNOWN : Z := E2BIG.

Section arguments.
Context {S : Type}.

(** The [bin] and the answer; [argp_usage] exits. *)
Definition parse_opt (key : argp_key) (bin : option string) : M S (option string * Z) :=
  match key with
  | ARGP_KEY_ARG arg => mret (Some arg, 0)
  | ARGP_KEY_NO_ARGS => halt Aborted
  | ARGP_KEY_OTHER => mret (bin, ARGP_ERR_UNKNOWN)
  end.

(** [emulator_parse_arguments], for the calls argp makes of the callback. *)
Fixpoint emulator_parse_arguments (keys : list argp_key) (bin : option string) : M S string :=
  match keys with
  | [] => match bin with Some b => mret b | None => halt Aborted end
  | k :: keys => a ← parse_opt k bin; emulator_parse_arguments keys a.1
  end.

End arguments.

Section emulator.
Context {S : Type} `{H : Host S} `{C : Config}.

Definition EM : Type -> Type := M (emu S).

(** [assert] of the C library. *)
Definition uassert (b : bool) : EM unit := if b then mret tt else halt Aborted.

Definition under_sys {A} (m : M S A) : EM A := fun e =>
  match m (e_sys e) with
  | Ok a s => Ok a (e <| e_sys := s |>)
  | Stop w => Stop w
  end.

(** The C library's wrapper of a system call: an answer in [-4095, -1] becomes
    -1 and [errno]. *)
Definition libc (m : M S Z) : EM Z :=
  r ← under_sys m;
  if (-4096 <? r) && (r <? 0)
  then modify (fun e => e <| e_errno := - r |>) ;; mret (-1)
  else mret r.

Definition errno : EM Z := gets e_errno.
Definition the_vm : EM tool_vm.t := gets e_vm.
Definition set_vm (f : tool_vm.t -> tool_vm.t) : EM unit := modify (fun e => e <| e_vm := f (e_vm e) |>).
Definition set_cpu (f : cpu.t -> cpu.t) : EM unit :=
  set_vm (fun v => v <| tool_vm.cpu := f (tool_vm.cpu v) |>).

Definition ioctl (fd nr arg : Z) : EM Z := libc (sys_ioctl fd nr arg).
Definition close (fd : Z) : EM Z := libc (sys_close fd).
Definition mmap (len fd : Z) : EM Z := libc (sys_mmap len fd).
Definition munmap (address len : Z) : EM Z := libc (sys_munmap address len).
Definition MAP_FAILED : Z := -1.

(** [assert(ioctl(fd, YAKVM_GET_REGS, &regs) == 0)], the registers read. *)
Definition get_regs (fd : Z) : EM registers.t :=
  a ← under_sys (sys_get_regs fd);
  uassert (a.1 =? 0) ;;
  mret a.2.

(** [assert(ioctl(fd, YAKVM_SET_REGS, &regs) == 0)] *)
Definition set_regs (fd : Z) (regs : registers.t) : EM unit :=
  r ← under_sys (sys_set_regs fd regs);
  uassert (r =? 0).

(** ** Devices: tool/devices.c *)
Definition yakvm_device_pio_get : EM Z := x ← gets e_pio_hawk; mret (wrap 8 (x + 1)).
Definition yakvm_device_pio_set (val : Z) : EM unit :=
  modify (fun e => e <| e_pio_hawk := wrap 8 val |>).
Definition yakvm_device_mmio_get : EM Z := x ← gets e_mmio_hawk; mret (wrap 8 (x - 1)).
Definition yakvm_device_mmio_set (val : Z) : EM unit :=
  modify (fun e => e <| e_mmio_hawk := wrap 8 val |>).

(** ** I/O intercept information: tool/cpu.h *)
Definition SVM_IOIO_TYPE_OUT : Z := 0.
Definition SVM_IOIO_TYPE_IN : Z := 1.
Definition SVM_IOIO_TYPE_MASK : Z := 1.
Definition SVM_IOIO_TYPE_SHIFT : Z := 0.
Definition svm_ioio_type (info : Z) : Z :=
  wrap 8 (Z.land (Z.shiftr info SVM_IOIO_TYPE_SHIFT) SVM_IOIO_TYPE_MASK).
Definition SVM_IOIO_SZ8_MASK : Z := 1.
Definition SVM_IOIO_SZ8_SHIFT : Z := 4.
Definition svm_ioio_is_size8 (info : Z) : bool :=
  negb (Z.land (Z.shiftr info SVM_IOIO_SZ8_SHIFT) SVM_IOIO_SZ8_MASK =? 0).
Definition SVM_IOIO_PORT_MASK : Z := Z.shiftl 1 16 - 1.
Definition SVM_IOIO_PORT_SHIFT : Z := 16.
Definition svm_ioio_port (info : Z) : Z :=
  wrap 16 (Z.land (Z.shiftr info SVM_IOIO_PORT_SHIFT) SVM_IOIO_PORT_MASK).

(** ** Memory: tool/memory.h and tool/memory.c *)

(** transfer the gpa to its physical page address *)
Definition yakvm_page (pa : Z) : Z := Z.land pa PAGE_MASK.

(** load the bin to [YAKVM_ENTRY] *)
Definition yakvm_load_bin (memory : Z) (bin : string) : EM Z :=
  fd ← libc (sys_open_bin bin);
  if fd =? -1 then e ← errno; mret e
  else
    let close_fd (ret : Z) := c ← close fd; uassert (c =? 0) ;; mret ret in
    a ← under_sys (sys_fstat fd);
    let '(r, st_size) := a in
    ret ← libc (mret r);
    if ret =? -1 then e ← errno; close_fd e
    else if YAKVM_MEMORY <? st_size then close_fd (- E2BIG)
    else
      ret ← libc (sys_read fd (memory + YAKVM_ENTRY) st_size);
      if ret =? -1 then e ← errno; close_fd e
      else uassert (ret =? st_size) ;; close_fd 0.

Definition yakvm_create_memory (bin : string) : EM Z :=
  v ← the_vm;
  a ← mmap YAKVM_MEMORY (tool_vm.vmfd v);
  set_vm (fun v => v <| tool_vm.memory := a |>) ;;
  if a =? MAP_FAILED then e ← errno; mret e
  else
    ret ← yakvm_load_bin a bin;
    if negb (ret =? 0) then c ← munmap a YAKVM_MEMORY; uassert (c =? 0) ;; mret ret
    else mret 0.

Definition yakvm_destroy_memory : EM unit :=
  v ← the_vm;
  c ← munmap (tool_vm.memory v) YAKVM_MEMORY;
  uassert (c =? 0).

(** ** The vcpu: tool/cpu.c *)

(** [sizeof(struct state)] with its padding *)
Definition sizeof_state : Z := 40.

Definition yakvm_create_cpu : EM Z :=
  v ← the_vm;
  fd ← ioctl (tool_vm.vmfd v) YAKVM_CREATE_VCPU 0;
  set_cpu (fun c => c <| cpu.fd := fd |>) ;;
  if fd <? 0 then e ← errno; mret e
  else
    r ← ioctl (tool_vm.vmfd v) YAKVM_CREATE_VCPU 0;
    e ← errno;
    uassert ((r =? -1) && (e =? EEXIST)) ;;
    a ← mmap sizeof_state fd;
    set_cpu (fun c => c <| cpu.state := a |>) ;;
    if a =? MAP_FAILED then
      e ← errno; c ← close fd; uassert (c =? 0) ;; mret e
    else
      regs ← get_regs fd;
      uassert (YAKVM_ENTRY mod PAGE_SIZE =? 0) ;;
      uassert (YAKVM_STACK mod PAGE_SIZE =? 0) ;;
      set_regs fd (regs <| registers.cs := wrap 16 YAKVM_ENTRY |> <| registers.rip := 0 |>
                        <| registers.ss := wrap 16 YAKVM_STACK |> <| registers.rsp := 0x1000 |>) ;;
      set_cpu (fun c => c <| cpu.mode := RUNNING |>) ;;
      mret 0.

Definition yakvm_destroy_cpu : EM unit :=
  v ← the_vm;
  c ← munmap (cpu.state (tool_vm.cpu v)) sizeof_state;
  uassert (c =? 0) ;;
  c ← close (cpu.fd (tool_vm.cpu v));
  uassert (c =? 0).

(** [vm->cpu.state->...] and [vm->memory[i]] *)
Definition cpu_state : EM state.t := v ← the_vm; under_sys (user_state (cpu.state (tool_vm.cpu v))).
Definition memory_at (i : Z) : EM Z := v ← the_vm; under_sys (user_byte (tool_vm.memory v + i)).

(** Emulating the mmio instruction. *)
Definition yakvm_vcpu_handle_mmio : EM unit :=
  v ← the_vm;
  st ← cpu_state;
  let fd := cpu.fd (tool_vm.cpu v) in
  let ip := wrap 32 (state.cs st + state.rip st) in
  b ← memory_at ip;
  uassert (b =? 0x67) ;;
  regs ← get_regs fd;
  opcode ← memory_at (wrap 32 (ip + 1));
  let operands :=
    m ← memory_at (wrap 32 (ip + 2));
    uassert (m =? 0x02) ;;
    uassert (registers.rdx regs =? YAKVM_MMIO_HAWK) in
  regs ← (if opcode =? 0x88 then operands ;; yakvm_device_mmio_set (registers.rax regs) ;; mret regs
          else if opcode =? 0x8a then
            operands ;; x ← yakvm_device_mmio_get; mret (regs <| registers.rax := x |>)
          else uassert false ;; mret regs);
  set_regs fd (regs <| registers.rip := wrap 64 (registers.rip regs + 3) |>).

Definition yakvm_cpu_handle_npf : EM unit :=
  st ← cpu_state;
  if state.exit_info_2 st =? YAKVM_MMIO_HAWK then yakvm_vcpu_handle_mmio
  else
    v ← the_vm;
    r ← ioctl (tool_vm.vmfd v) YAKVM_MMAP_PAGE (yakvm_page (state.exit_info_2 st));
    uassert (r =? 0).

Definition yakvm_cpu_handle_ioio : EM unit :=
  v ← the_vm;
  st ← cpu_state;
  let fd := cpu.fd (tool_vm.cpu v) in
  let info := wrap 32 (state.exit_info_1 st) in
  uassert (svm_ioio_is_size8 info) ;;
  uassert (svm_ioio_port info =? YAKVM_PIO_HAWK) ;;
  regs ← get_regs fd;
  regs ← (if svm_ioio_type info =? SVM_IOIO_TYPE_IN
          then x ← yakvm_device_pio_get; mret (regs <| registers.rax := x |>)
          else yakvm_device_pio_set (registers.rax regs) ;; mret regs);
  st ← cpu_state;
  set_regs fd (regs <| registers.rip := state.exit_info_2 st |>).

Definition yakvm_cpu_handle_exit : EM Z :=
  st ← cpu_state;
  let code := state.exit_code st in
  if code =? SVM_EXIT_NPF then yakvm_cpu_handle_npf ;; mret 0
  else if code =? SVM_EXIT_EXCP_BASE + DB_VECTOR then
    memory_at (wrap 64 (state.cs st + state.rip st)) ;; mret 0
  else if code =? SVM_EXIT_HLT then set_cpu (fun c => c <| cpu.mode := HLT |>) ;; mret 0
  else if code =? SVM_EXIT_IOIO then yakvm_cpu_handle_ioio ;; mret 0
  else mret (- EINVAL).

(** One iteration of the loop of [yakvm_cpu_run]. *)
Definition cpu_run_step : EM unit :=
  v ← the_vm;
  r ← ioctl (cpu.fd (tool_vm.cpu v)) YAKVM_RUN 0;
  uassert (r =? 0) ;;
  r ← yakvm_cpu_handle_exit;
  uassert (r =? 0).

(** The loop, for at most [fuel] iterations: whether it came to an end. *)
Fixpoint yakvm_cpu_run (fuel : nat) : EM bool :=
  v ← the_vm;
  match cpu.mode (tool_vm.cpu v) with
  | HLT => mret true
  | RUNNING =>
      match fuel with
      | O => mret false
      | Datatypes.S fuel => cpu_run_step ;; yakvm_cpu_run fuel
      end
  end.

(** ** main: tool/emulator.c

    For the calls argp makes of the parser callback. [None] when the loop has run
    [fuel] iterations and goes on. *)
Definition main (keys : list argp_key) (fuel : nat) : EM (option Z) :=
  bin ← emulator_parse_arguments keys None;
  yakvmfd ← libc sys_open_dev;
  let close_yakvmfd (ret : Z) := close yakvmfd ;; mret (Some ret) in
  vmfd ← ioctl yakvmfd YAKVM_CREATE_VM 0;
  set_vm (fun v => v <| tool_vm.vmfd := vmfd |>) ;;
  if vmfd <? 0 then e ← errno; close_yakvmfd e
  else
    let close_vmfd (ret : Z) := close vmfd ;; close_yakvmfd ret in
    ret ← yakvm_create_memory bin;
    if negb (ret =? 0) then close_vmfd ret
    else
      let destroy_memory (ret : Z) := yakvm_destroy_memory ;; close_vmfd ret in
      ret ← yakvm_create_cpu;
      if negb (ret =? 0) then destroy_memory ret
      else
        b ← yakvm_cpu_run fuel;
        if b : bool then yakvm_destroy_cpu ;; destroy_memory ret else mret None.

End emulator.
