(* ===== verification/EmulatorProps.v ===== *)
(** * What the emulator does, over its interface

    [HostLaws] is what the emulator relies on in the system below: a running
    guest has registers, an exit, and memory, and the descriptors and mappings of
    [struct vm] reach them. The theorems of this file hold of every such system;
    Process discharges the laws for the driver. *)

From S2P Require Import Prelude Structs Emulator.

(** A stopped guest, as the emulator sees it: [g_byte] are the bytes of mapped
    guest memory. *)
Record guest : Type := Guest {
  g_regs : registers.t;
  g_exit : state.t;
  g_byte : Z -> option Z
}.

#[global] Instance eta_guest : Eta guest := fun g => Guest (g_regs g) (g_exit g) (g_byte g).

Definition narrow (r : registers.t) : Prop :=
  0 <= registers.cs r < 2 ^ 16 /\ 0 <= registers.ss r < 2 ^ 16.

Definition page_of (gpa : Z) : Z := (gpa / 4096) mod 2 ^ 36.

(** [running s v g]: in [s] the descriptors and the addresses of [v] are those of
    the guest [g]. *)
Class HostLaws (S : Type) `{H : Host S} `{C : Config} : Type := {
  running : S -> tool_vm.t -> guest -> Prop;
  running_mode s v g m :
    running s v g -> running s (v <| tool_vm.cpu := (tool_vm.cpu v) <| cpu.mode := m |> |>) g;
  running_narrow s v g : running s v g -> narrow (g_regs g);
  host_get_regs s v g :
    running s v g -> exists s', running s' v g /\
      sys_get_regs (cpu.fd (tool_vm.cpu v)) s = Ok (0, g_regs g) s';
  host_set_regs s v g regs :
    running s v g -> narrow regs -> exists s', running s' v (g <| g_regs := regs |>) /\
      sys_set_regs (cpu.fd (tool_vm.cpu v)) regs s = Ok 0 s';
  host_state s v g :
    running s v g -> user_state (cpu.state (tool_vm.cpu v)) s = Ok (g_exit g) s;
  host_byte s v g i x :
    running s v g -> 0 <= i < YAKVM_MEMORY -> g_byte g i = Some x ->
    exists s', running s' v g /\ user_byte (tool_vm.memory v + i) s = Ok x s';
  host_page s v g i j :
    running s v g -> page_of i = page_of j -> is_Some (g_byte g i) -> is_Some (g_byte g j);
  host_run s v g :
    running s v g ->
    wp (sys_ioctl (cpu.fd (tool_vm.cpu v)) YAKVM_RUN 0)
      (fun r s' => r = 0 /\ exists g', running s' v g') (fun st => st = Escaped) s;
  host_map s v g gpa :
    running s v g -> page_of gpa <> page_of YAKVM_MMIO_HAWK ->
    exists r s' g', running s' v g' /\ sys_ioctl (tool_vm.vmfd v) YAKVM_MMAP_PAGE gpa s = Ok r s' /\
      g_regs g' = g_regs g /\ g_exit g' = g_exit g /\
      (forall i x, g_byte g i = Some x -> g_byte g' i = Some x) /\
      (r = 0 /\ is_Some (g_byte g' gpa) \/ r = - ENOMEM)
}.

(** ** Decoding *)

(** The information of an intercepted port access (AMD64 APM volume 2, 15.10.2):
    type, size flags, port. *)
Definition ioio_info (type : bool) (flags port : Z) : Z :=
  Z.b2z type + 2 * flags + 2 ^ 16 * port.

Lemma ioio_type_spec type flags port :
  0 <= flags < 2 ^ 15 -> 0 <= port < 2 ^ 16 -> svm_ioio_type (ioio_info type flags port) = Z.b2z type.
Proof.
  intros Hf Hp. unfold svm_ioio_type, SVM_IOIO_TYPE_SHIFT, SVM_IOIO_TYPE_MASK, ioio_info.
  rewrite Z.shiftr_0_r. change 1 with (Z.ones 1). rewrite Z.land_ones by lia.
  rewrite wrap_small; destruct type; simpl; Z.to_euclidean_division_equations; lia.
Qed.

Lemma ioio_size8_spec type flags port :
  0 <= flags < 2 ^ 15 -> 0 <= port < 2 ^ 16 ->
  svm_ioio_is_size8 (ioio_info type flags port) = Z.testbit flags 3.
Proof.
  intros Hf Hp. unfold svm_ioio_is_size8, SVM_IOIO_SZ8_SHIFT, SVM_IOIO_SZ8_MASK, ioio_info.
  change 1 with (Z.ones 1). rewrite Z.land_ones, Z.shiftr_div_pow2 by lia.
  rewrite Z.testbit_eqb by lia. destruct type; simpl; f_equal; apply Bool.eq_true_iff_eq;
    rewrite !Z.eqb_eq || rewrite negb_true_iff, Z.eqb_neq, Z.eqb_eq;
    Z.to_euclidean_division_equations; lia.
Qed.

Lemma ioio_port_spec type flags port :
  0 <= flags < 2 ^ 15 -> 0 <= port < 2 ^ 16 -> svm_ioio_port (ioio_info type flags port) = port.
Proof.
  intros Hf Hp. unfold svm_ioio_port, SVM_IOIO_PORT_SHIFT, SVM_IOIO_PORT_MASK, ioio_info.
  change (Z.shiftl 1 16 - 1) with (Z.ones 16). rewrite Z.land_ones, Z.shiftr_div_pow2 by lia.
  rewrite wrap_small; destruct type; simpl; Z.to_euclidean_division_equations; lia.
Qed.

Section handlers.
Context {S : Type} `{HL : HostLaws S}.
Implicit Types (e : emu S) (g : guest) (E : stop -> Prop).

Definition e_running e g : Prop := running (e_sys e) (e_vm e) g.

(** The emulator's own data. *)
Definition e_data e : Z * Z := (e_pio_hawk e, e_mmio_hawk e).

(** ** Rules for the calls *)

Lemma wp_under {A} (m : M S A) (Q : A -> emu S -> Prop) E e a s :
  m (e_sys e) = Ok a s -> Q a (e <| e_sys := s |>) -> wp (under_sys m) Q E e.
Proof. intros Hm HQ. unfold wp, under_sys. by rewrite Hm. Qed.

Lemma wp_uassert b (Q : unit -> emu S -> Prop) E e : b = true -> Q tt e -> wp (uassert b) Q E e.
Proof. by intros ->. Qed.

Lemma wp_refuse b (Q : unit -> emu S -> Prop) E e :
  b = false -> E Aborted -> wp (uassert b) Q E e.
Proof. by intros ->. Qed.

Lemma wp_libc (m : M S Z) (Q : Z -> emu S -> Prop) E e r s :
  m (e_sys e) = Ok r s -> 0 <= r -> Q r (e <| e_sys := s |>) -> wp (libc m) Q E e.
Proof.
  intros Hm Hr HQ. unfold libc. apply wp_bind. eapply wp_under; [exact Hm|].
  destruct (Z.ltb_spec r 0); [lia|]. rewrite andb_false_r. by apply wp_ret.
Qed.

Lemma wp_libc_error (m : M S Z) (Q : Z -> emu S -> Prop) E e r s :
  m (e_sys e) = Ok r s -> -4096 < r < 0 -> Q (-1) (e <| e_sys := s |> <| e_errno := - r |>) ->
  wp (libc m) Q E e.
Proof.
  intros Hm Hr HQ. unfold libc. apply wp_bind. eapply wp_under; [exact Hm|].
  destruct (Z.ltb_spec r 0); [|lia]. destruct (Z.ltb_spec (-4096) r); [|lia].
  apply wp_bind, wp_modify, wp_ret. exact HQ.
Qed.

(** The system below has moved: the guest and the emulator's data are the same. *)
Definition moved e s : emu S := e <| e_sys := s |>.

Lemma wp_emu_get_regs e g (Q : registers.t -> emu S -> Prop) E :
  e_running e g ->
  (forall s, running s (e_vm e) g -> Q (g_regs g) (moved e s)) ->
  wp (get_regs (cpu.fd (tool_vm.cpu (e_vm e)))) Q E e.
Proof.
  intros Hr HQ. destruct (host_get_regs _ _ _ Hr) as (s & Hr' & Hs).
  unfold get_regs. apply wp_bind. eapply wp_under; [exact Hs|].
  apply wp_bind, wp_uassert; [done|]. apply wp_ret. by apply HQ.
Qed.

Lemma wp_emu_set_regs e g regs (Q : unit -> emu S -> Prop) E :
  e_running e g -> narrow regs ->
  (forall s, running s (e_vm e) (g <| g_regs := regs |>) -> Q tt (moved e s)) ->
  wp (set_regs (cpu.fd (tool_vm.cpu (e_vm e))) regs) Q E e.
Proof.
  intros Hr Hn HQ. destruct (host_set_regs _ _ _ _ Hr Hn) as (s & Hr' & Hs).
  unfold set_regs. apply wp_bind. eapply wp_under; [exact Hs|].
  apply wp_uassert; [done|]. by apply HQ.
Qed.

Lemma moved_same e : moved e (e_sys e) = e.
Proof. by destruct e. Qed.

Lemma wp_cpu_state e g (Q : state.t -> emu S -> Prop) E :
  e_running e g -> Q (g_exit g) e -> wp cpu_state Q E e.
Proof.
  intros Hr HQ. unfold cpu_state. apply wp_bind, wp_gets.
  eapply wp_under; [by apply host_state|]. fold (moved e (e_sys e)). by rewrite moved_same.
Qed.

Lemma wp_memory_at e g i x (Q : Z -> emu S -> Prop) E :
  e_running e g -> 0 <= i < YAKVM_MEMORY -> g_byte g i = Some x ->
  (forall s, running s (e_vm e) g -> Q x (moved e s)) -> wp (memory_at i) Q E e.
Proof.
  intros Hr Hi Hx HQ. destruct (host_byte _ _ _ _ _ Hr Hi Hx) as (s & Hr' & Hs).
  unfold memory_at. apply wp_bind, wp_gets. eapply wp_under; [exact Hs|]. by apply HQ.
Qed.

(** ** Port I/O *)

(** What an intercepted access to the emulated port does to the registers and to
    the device. *)
Definition ioio_regs (is_in : bool) (pio : Z) (next : Z) (r : registers.t) : registers.t :=
  (if is_in then r <| registers.rax := (pio + 1) mod 256 |> else r) <| registers.rip := next |>.

Definition ioio_device (is_in : bool) (pio : Z) (r : registers.t) : Z :=
  if is_in then pio else registers.rax r mod 256.

(** C35: an intercepted byte access to the emulated port: OUT stores the low byte of RAX
    in the device, IN makes RAX the device's byte plus one, the guest goes on at
    the next instruction, and nothing else of the guest changes; an access of
    another size or to another port stops the emulator. *)
Theorem handle_ioio_emulates e g is_in flags port :
  e_running e g -> 0 <= flags < 2 ^ 15 -> 0 <= port < 2 ^ 16 ->
  state.exit_info_1 (g_exit g) = ioio_info is_in flags port ->
  if Z.testbit flags 3 && (port =? YAKVM_PIO_HAWK) then
    exists s, yakvm_cpu_handle_ioio e =
        Ok tt (e <| e_sys := s |> <| e_pio_hawk := ioio_device is_in (e_pio_hawk e) (g_regs g) |>) /\
      running s (e_vm e) (g <| g_regs := ioio_regs is_in (e_pio_hawk e)
                                 (state.exit_info_2 (g_exit g)) (g_regs g) |>)
  else yakvm_cpu_handle_ioio e = Stop Aborted.
Proof.
  intros Hr Hf Hp Hi.
  assert (wrap 32 (ioio_info is_in flags port) = ioio_info is_in flags port) as Hw.
  { apply wrap_small. unfold ioio_info. destruct is_in; simpl; lia. }
  destruct (Z.testbit flags 3 && (port =? YAKVM_PIO_HAWK)) eqn:Hb.
  - apply andb_true_iff in Hb as [Hb1 Hb2].
    assert (wp yakvm_cpu_handle_ioio (fun _ e' => exists s, running s (e_vm e) (g <| g_regs :=
        ioio_regs is_in (e_pio_hawk e) (state.exit_info_2 (g_exit g)) (g_regs g) |>) /\
      e' = (e <| e_sys := s |> <| e_pio_hawk := ioio_device is_in (e_pio_hawk e) (g_regs g) |>))
      never e) as Hwp; [|by apply wp_never_ok in Hwp as ([] & e' & -> & s & Hs & ->); exists s].
    unfold yakvm_cpu_handle_ioio. apply wp_bind, wp_gets. apply wp_bind, (wp_cpu_state _ g); [exact Hr|].
    rewrite Hi, Hw, ioio_size8_spec, ioio_port_spec, ioio_type_spec by done.
    apply wp_bind, wp_uassert; [done|]. apply wp_bind, wp_uassert; [done|].
    apply wp_bind, (wp_emu_get_regs _ g); [done|]. intros s1 Hr1. apply wp_bind.
    pose proof (running_narrow _ _ _ Hr1) as Hn.
    destruct is_in; cbn [Z.b2z Z.eqb SVM_IOIO_TYPE_IN].
    + apply wp_bind, wp_bind, wp_gets, wp_ret, wp_ret.
      apply wp_bind, (wp_cpu_state _ g); [exact Hr1|].
      apply (wp_emu_set_regs (moved e s1) g); [exact Hr1|exact Hn|]. intros s2 Hr2.
      exists s2. split; [exact Hr2|]. by destruct e.
    + apply wp_bind, wp_modify, wp_ret. apply wp_bind, (wp_cpu_state _ g); [exact Hr1|].
      match goal with |- wp (set_regs _ _) _ _ ?e2 => apply (wp_emu_set_regs e2 g); [exact Hr1|exact Hn|] end.
      intros s2 Hr2. exists s2. split; [exact Hr2|]. by destruct e.
  - apply wp_stops. unfold yakvm_cpu_handle_ioio. apply wp_bind, wp_gets.
    apply wp_bind, (wp_cpu_state _ g); [exact Hr|].
    rewrite Hi, Hw, ioio_size8_spec, ioio_port_spec by done. apply wp_bind.
    destruct (Z.testbit flags 3); [|by apply wp_refuse].
    apply wp_uassert; [done|]. by apply wp_bind, wp_refuse.
Qed.

(** ** Memory-mapped I/O *)

Definition mmio_regs (is_in : bool) (mmio : Z) (r : registers.t) : registers.t :=
  (if is_in then r <| registers.rax := (mmio - 1) mod 256 |> else r)
    <| registers.rip := (registers.rip r + 3) mod 2 ^ 64 |>.

Definition mmio_device (is_in : bool) (mmio : Z) (r : registers.t) : Z :=
  if is_in then mmio else registers.rax r mod 256.

(** The instructions the emulator knows: [mov %al, (%edx)] and [mov (%edx), %al]
    with a 32-bit address. *)
Definition mmio_decode (b0 b1 b2 : Z) : option bool :=
  if (b0 =? 0x67) && (b2 =? 0x02) then
    if b1 =? 0x88 then Some false else if b1 =? 0x8a then Some true else None
  else None.

(** The register or the device is written. *)
Definition mmio_op (is_in : bool) (regs : registers.t) : M (emu S) registers.t :=
  if is_in then x ← yakvm_device_mmio_get; mret (regs <| registers.rax := x |>)
  else yakvm_device_mmio_set (registers.rax regs) ;; mret regs.

Definition operands (i : Z) (regs : registers.t) : M (emu S) unit :=
  m ← memory_at i; uassert (m =? 0x02) ;; uassert (registers.rdx regs =? YAKVM_MMIO_HAWK).

Definition mmio_done (is_in : bool) e g e' : Prop :=
  exists s, running s (e_vm e) (g <| g_regs := mmio_regs is_in (e_mmio_hawk e) (g_regs g) |>) /\
    e' = (e <| e_sys := s |> <| e_mmio_hawk := mmio_device is_in (e_mmio_hawk e) (g_regs g) |>).

Lemma wp_operands e g m (Q : unit -> emu S -> Prop) E i :
  e_running e g -> 0 <= i < YAKVM_MEMORY -> g_byte g i = Some m ->
  (m = 0x02 -> registers.rdx (g_regs g) = YAKVM_MMIO_HAWK ->
     forall s, running s (e_vm e) g -> Q tt (moved e s)) ->
  (m <> 0x02 \/ registers.rdx (g_regs g) <> YAKVM_MMIO_HAWK -> E Aborted) ->
  wp (operands i (g_regs g)) Q E e.
Proof.
  intros Hr Hi Hb HQ HE. apply wp_bind, (wp_memory_at _ g _ m); [done..|]. intros s1 Hr1.
  apply wp_bind. destruct (Z.eqb_spec m 0x02) as [->|]; [|apply wp_refuse; auto].
  apply wp_uassert; [done|].
  destruct (Z.eqb_spec (registers.rdx (g_regs g)) YAKVM_MMIO_HAWK); [|apply wp_refuse; auto].
  apply wp_uassert; [done|]. by apply HQ.
Qed.

(** From the operands on. *)
Lemma wp_mmio_access is_in e s g i m :
  running s (e_vm e) g -> 0 <= i < YAKVM_MEMORY -> g_byte g i = Some m ->
  wp (regs ← (operands i (g_regs g) ;; mmio_op is_in (g_regs g));
      set_regs (cpu.fd (tool_vm.cpu (e_vm e)))
        (regs <| registers.rip := wrap 64 (registers.rip regs + 3) |>))
    (fun _ e' => m = 0x02 /\ registers.rdx (g_regs g) = YAKVM_MMIO_HAWK /\ mmio_done is_in e g e')
    (fun w => w = Aborted /\ (m <> 0x02 \/ registers.rdx (g_regs g) <> YAKVM_MMIO_HAWK)) (moved e s).
Proof.
  intros Hr Hi Hm. apply wp_bind, wp_bind, (wp_operands (moved e s) g m); [done..| |auto].
  intros -> Hrdx s1 Hr1. pose proof (running_narrow _ _ _ Hr1) as Hn.
  assert (forall regs e2, running (e_sys e2) (e_vm e) g -> e_vm e2 = e_vm e -> narrow regs ->
    mmio_regs is_in (e_mmio_hawk e) (g_regs g) = regs ->
    (forall s, moved e2 s = (e <| e_sys := s |>
       <| e_mmio_hawk := mmio_device is_in (e_mmio_hawk e) (g_regs g) |>)) ->
    wp (set_regs (cpu.fd (tool_vm.cpu (e_vm e))) regs) (fun _ e' => 0x02 = 0x02 /\
      registers.rdx (g_regs g) = YAKVM_MMIO_HAWK /\ mmio_done is_in e g e')
      (fun w => w = Aborted /\ (0x02 <> 0x02 \/ registers.rdx (g_regs g) <> YAKVM_MMIO_HAWK)) e2) as Hset.
  { intros regs e2 H2 Hv Hnr <- He2. rewrite <- Hv. apply (wp_emu_set_regs e2 g); [by rewrite <- Hv in H2|done|].
    intros s3 H3. split_and!; [done..|]. exists s3. rewrite <- Hv. by split. }
  destruct is_in; unfold mmio_op.
  - apply wp_bind, wp_bind, wp_gets, wp_ret, wp_ret. apply Hset; [exact Hr1|done|exact Hn|done|by destruct e].
  - apply wp_bind, wp_modify, wp_ret. apply Hset; [exact Hr1|done|exact Hn|done|by destruct e].
Qed.

(** C36: an access to the MMIO page by one of the two instructions the emulator knows,
    with EDX at the page: the store puts the low byte of RAX in the device, the
    load makes RAX the device's byte minus one, RIP goes past the three bytes and
    nothing else of the guest changes; any other instruction stops the emulator. *)
Theorem handle_mmio_emulates e g b0 b1 b2 :
  let ip := wrap 32 (state.cs (g_exit g) + state.rip (g_exit g)) in
  e_running e g -> ip + 2 < YAKVM_MEMORY -> YAKVM_MEMORY <= 2 ^ 32 ->
  g_byte g ip = Some b0 -> g_byte g (ip + 1) = Some b1 -> g_byte g (ip + 2) = Some b2 ->
  match mmio_decode b0 b1 b2 with
  | Some is_in =>
      if registers.rdx (g_regs g) =? YAKVM_MMIO_HAWK then
        exists s, yakvm_vcpu_handle_mmio e =
            Ok tt (e <| e_sys := s |> <| e_mmio_hawk := mmio_device is_in (e_mmio_hawk e) (g_regs g) |>) /\
          running s (e_vm e) (g <| g_regs := mmio_regs is_in (e_mmio_hawk e) (g_regs g) |>)
      else yakvm_vcpu_handle_mmio e = Stop Aborted
  | None => yakvm_vcpu_handle_mmio e = Stop Aborted
  end.
Proof.
  intros ip Hr Hip Hmem B0 B1 B2.
  assert (0 <= ip < 2 ^ 32) as Hi by (apply wrap_range; lia).
  assert (wp yakvm_vcpu_handle_mmio (fun _ e' => exists is_in, mmio_decode b0 b1 b2 = Some is_in /\
      registers.rdx (g_regs g) = YAKVM_MMIO_HAWK /\ mmio_done is_in e g e')
    (fun w => w = Aborted /\ (mmio_decode b0 b1 b2 = None \/
      registers.rdx (g_regs g) <> YAKVM_MMIO_HAWK)) e) as Hwp.
  2: { unfold wp in Hwp. destruct (yakvm_vcpu_handle_mmio e) as [[] e'|w].
       - destruct Hwp as (is_in & -> & Hrdx & s & Hs & ->). rewrite (proj2 (Z.eqb_eq _ _) Hrdx). by exists s.
       - destruct Hwp as [-> Hno]. destruct (mmio_decode b0 b1 b2); [|done].
         destruct Hno as [|Hno]; [done|]. by rewrite (proj2 (Z.eqb_neq _ _) Hno). }
  unfold yakvm_vcpu_handle_mmio. apply wp_bind, wp_gets. apply wp_bind, (wp_cpu_state _ g); [exact Hr|].
  fold ip. rewrite !(wrap_small 32 (ip + _)) by lia.
  apply wp_bind, (wp_memory_at _ g _ b0); [done|lia|done|]. intros s1 Hr1. apply wp_bind.
  unfold mmio_decode.
  destruct (Z.eqb_spec b0 0x67); [apply wp_uassert; [done|]|apply wp_refuse; auto].
  apply wp_bind, (wp_emu_get_regs (moved e s1) g); [exact Hr1|]. intros s2 Hr2.
  apply wp_bind, (wp_memory_at _ g _ b1); [exact Hr2|lia|done|]. intros s3 Hr3.
  assert (forall is_in (o : option bool), o = (if b2 =? 0x02 then Some is_in else None) ->
    wp (regs ← (operands (ip + 2) (g_regs g) ;; mmio_op is_in (g_regs g));
        set_regs (cpu.fd (tool_vm.cpu (e_vm e)))
          (regs <| registers.rip := wrap 64 (registers.rip regs + 3) |>))
      (fun _ e' => exists is_in, o = Some is_in /\ registers.rdx (g_regs g) = YAKVM_MMIO_HAWK /\
         mmio_done is_in e g e')
      (fun w => w = Aborted /\ (o = None \/ registers.rdx (g_regs g) <> YAKVM_MMIO_HAWK)) (moved e s3)) as Hop.
  { intros is_in o ->. eapply wp_mono; [eapply wp_stop_mono; [apply (wp_mmio_access is_in e s3 g _ b2); [exact Hr3|lia|done]|]|].
    - intros w [-> [Hm|Hm]]; (split; [done|]); [left|by right]. by rewrite (proj2 (Z.eqb_neq _ _) Hm).
    - intros [] e' (-> & Hx & Hd). by exists is_in. }
  destruct (Z.eqb_spec b1 0x88); [|destruct (Z.eqb_spec b1 0x8a)].
  - by apply (Hop false).
  - by apply (Hop true).
  - apply wp_bind, wp_bind, wp_refuse; [done|]. split; [done|]. left. by destruct (b2 =? 2).
Qed.

(** ** Exits *)

Lemma yakvm_page_base pa : u64 pa -> yakvm_page pa = pa / 4096 * 4096.
Proof.
  intros Hpa. unfold yakvm_page. change PAGE_MASK with (not64 (Z.ones 12)).
  rewrite land_not64, ldiff_ones_mod by (done || lia). change (2 ^ 12) with 4096.
  pose proof (Z.div_mod pa 4096). lia.
Qed.

Lemma page_of_base pa : u64 pa -> page_of (yakvm_page pa) = page_of pa.
Proof. intros Hpa. rewrite yakvm_page_base by done. unfold page_of. by rewrite Z.div_mul. Qed.

(** The codes handled are distinct. *)
Lemma exit_codes_differ :
  (SVM_EXIT_HLT =? SVM_EXIT_NPF) = false /\
  (SVM_EXIT_HLT =? SVM_EXIT_EXCP_BASE + DB_VECTOR) = false /\
  (SVM_EXIT_EXCP_BASE + DB_VECTOR =? SVM_EXIT_NPF) = false.
Proof. done. Qed.

Lemma wp_handle_exit e g (Q : Z -> emu S -> Prop) E (body : M (emu S) Z) :
  e_running e g ->
  body = (let code := state.exit_code (g_exit g) in
    if code =? SVM_EXIT_NPF then yakvm_cpu_handle_npf ;; mret 0
    else if code =? SVM_EXIT_EXCP_BASE + DB_VECTOR then
      memory_at (wrap 64 (state.cs (g_exit g) + state.rip (g_exit g))) ;; mret 0
    else if code =? SVM_EXIT_HLT then set_cpu (fun c => c <| cpu.mode := HLT |>) ;; mret 0
    else if code =? SVM_EXIT_IOIO then yakvm_cpu_handle_ioio ;; mret 0
    else mret (- EINVAL)) ->
  wp body Q E e -> wp yakvm_cpu_handle_exit Q E e.
Proof.
  intros Hr -> Hb. unfold yakvm_cpu_handle_exit. by apply wp_bind, (wp_cpu_state _ g).
Qed.

(** C37: a nested page fault outside of the MMIO page: the handler makes one call, for
    the page of the faulting address, which keeps the registers and every byte of
    memory. When the call answers 0 the handler has repaired the fault: the address
    is mapped, so that the access succeeds when the guest repeats it, and the
    emulator and its devices are as they were. The only other answer is
    [-ENOMEM], on which the emulator stops. *)
Theorem handle_npf_maps e g :
  e_running e g -> state.exit_code (g_exit g) = SVM_EXIT_NPF -> u64 (state.exit_info_2 (g_exit g)) ->
  page_of (state.exit_info_2 (g_exit g)) <> page_of YAKVM_MMIO_HAWK ->
  exists r s g',
    sys_ioctl (tool_vm.vmfd (e_vm e)) YAKVM_MMAP_PAGE (yakvm_page (state.exit_info_2 (g_exit g)))
      (e_sys e) = Ok r s /\
    running s (e_vm e) g' /\ g_regs g' = g_regs g /\
    (forall i x, g_byte g i = Some x -> g_byte g' i = Some x) /\
    (r = 0 /\ yakvm_cpu_handle_exit e = Ok 0 (e <| e_sys := s |>) /\
       is_Some (g_byte g' (state.exit_info_2 (g_exit g))) \/
     r = - ENOMEM /\ yakvm_cpu_handle_exit e = Stop Aborted).
Proof.
  intros Hr Hcode Hu Hpage. set (gpa := state.exit_info_2 (g_exit g)) in *.
  destruct (host_map _ _ _ (yakvm_page gpa) Hr) as (r & s & g' & Hr' & Hs & Hregs & _ & Hb & Hres).
  { by rewrite page_of_base. }
  exists r, s, g'. split_and!; [done..|].
  assert (wp yakvm_cpu_handle_exit (fun r' e' => r' = 0 /\ e' = moved e s /\ r = 0)
    (fun st => st = Aborted /\ r = - ENOMEM) e) as Hwp.
  { eapply wp_handle_exit; [done|done|]. rewrite Hcode. cbn [Z.eqb Pos.eqb SVM_EXIT_NPF].
    change (SVM_EXIT_NPF =? SVM_EXIT_NPF) with true. cbv iota zeta.
    apply wp_bind. unfold yakvm_cpu_handle_npf. apply wp_bind, (wp_cpu_state _ g); [done|].
    fold gpa. destruct (Z.eqb_spec gpa YAKVM_MMIO_HAWK) as [Heq|_]; [by rewrite Heq in Hpage|].
    apply wp_bind, wp_gets, wp_bind. unfold ioctl. destruct Hres as [[-> _]| ->].
    - eapply wp_libc; [exact Hs|done|]. apply wp_uassert; [done|]. by apply wp_ret.
    - eapply wp_libc_error; [exact Hs|done|]. by apply wp_refuse. }
  unfold wp in Hwp. destruct (yakvm_cpu_handle_exit e) as [r' e'|st].
  - destruct Hwp as (-> & -> & ->). left. destruct Hres as [[_ Hp]|Hres]; [|done].
    split_and!; [done..|]. eapply host_page; [exact Hr'| |exact Hp]. by apply page_of_base.
  - destruct Hwp as [-> ->]. right. by split.
Qed.

(** C38: the other exits: HLT ends the loop and changes nothing else; a debug exception
    on an instruction whose first byte is mapped reads it for the log and changes
    nothing; a code the emulator does not handle is answered with [-EINVAL] and stops the loop. *)
Theorem handle_exit_rest e g :
  let code := state.exit_code (g_exit g) in
  let ip := wrap 64 (state.cs (g_exit g) + state.rip (g_exit g)) in
  e_running e g ->
  (code = SVM_EXIT_HLT -> yakvm_cpu_handle_exit e =
     Ok 0 (e <| e_vm := (e_vm e) <| tool_vm.cpu := (tool_vm.cpu (e_vm e)) <| cpu.mode := HLT |> |> |>)) /\
  (code = SVM_EXIT_EXCP_BASE + DB_VECTOR -> ip < YAKVM_MEMORY -> is_Some (g_byte g ip) ->
     exists s, yakvm_cpu_handle_exit e = Ok 0 (e <| e_sys := s |>) /\ running s (e_vm e) g) /\
  (code ∉ [SVM_EXIT_NPF; SVM_EXIT_EXCP_BASE + DB_VECTOR; SVM_EXIT_HLT; SVM_EXIT_IOIO] ->
     yakvm_cpu_handle_exit e = Ok (- EINVAL) e /\
     forall s, sys_ioctl (cpu.fd (tool_vm.cpu (e_vm e))) YAKVM_RUN 0 s = Ok 0 (e_sys e) ->
       cpu_run_step (e <| e_sys := s |>) = Stop Aborted).
Proof.
  intros code ip Hr. split; [|split].
  - intros Hc. apply wp_exact. eapply wp_handle_exit; [done|done|]. cbv zeta. fold code.
    destruct exit_codes_differ as (D1 & D2 & _). rewrite Hc, D1, D2, Z.eqb_refl. apply wp_bind, wp_modify, wp_ret. by split.
  - intros Hc Hip [x Hx].
    assert (wp yakvm_cpu_handle_exit (fun r e' => r = 0 /\ exists s, e' = moved e s /\ running s (e_vm e) g)
      never e) as Hwp; [|by apply wp_never_ok in Hwp as (r & e' & Hrun & -> & s & -> & Hs); exists s].
    eapply wp_handle_exit; [done|done|]. cbv zeta. fold code ip.
    destruct exit_codes_differ as (_ & _ & D3). rewrite Hc, D3, Z.eqb_refl.
    apply wp_bind, (wp_memory_at _ g _ x); [done| |done|].
    { split; [apply wrap_range; lia|done]. }
    intros s Hs. apply wp_ret. split; [done|]. by exists s.
  - rewrite !not_elem_of_cons, <- !Z.eqb_neq. intros (N1 & N2 & N3 & N4 & _).
    assert (yakvm_cpu_handle_exit e = Ok (- EINVAL) e) as Hexit.
    { apply wp_exact. eapply wp_handle_exit; [done|done|]. cbv zeta. fold code. rewrite N1, N2, N3, N4. by apply wp_ret. }
    split; [done|]. intros s Hs. apply wp_stops. unfold cpu_run_step, ioctl. apply wp_bind, wp_gets, wp_bind.
    eapply wp_libc; [exact Hs|done|]. apply wp_bind, wp_uassert; [done|]. apply wp_bind.
    eapply (wp_ok _ _ _ _ (- EINVAL) e); [rewrite <- Hexit; by destruct e|]. by apply wp_refuse.
Qed.

(** *** The loop *)

Definition cpu_mode (e : emu S) : mode := cpu.mode (tool_vm.cpu (e_vm e)).

(** [iterations n e e']: [n] rounds of the loop lead from [e] to [e'], each started
    with the guest running. *)
Inductive iterations : nat -> emu S -> emu S -> Prop :=
| iterations_none e : iterations 0 e e
| iterations_more n e e1 e' :
    cpu_mode e = RUNNING -> cpu_run_step e = Ok tt e1 -> iterations n e1 e' ->
    iterations (Datatypes.S n) e e'.

Lemma cpu_run_halted fuel e : cpu_mode e = HLT -> yakvm_cpu_run fuel e = Ok true e.
Proof. unfold cpu_mode. intros Hm. destruct fuel; cbn; unfold mbind, M_bind; cbn; by rewrite Hm. Qed.

Lemma cpu_run_running fuel e :
  cpu_mode e = RUNNING ->
  yakvm_cpu_run (Datatypes.S fuel) e = (cpu_run_step ;; yakvm_cpu_run fuel) e.
Proof. unfold cpu_mode. intros Hm. cbn. unfold mbind, M_bind. cbn. by rewrite Hm. Qed.


End handlers.
