(* ===== verification/GuestMemory.v ===== *)
(** * Bytes of guest memory

    A data page of a guest is an array of 64-bit words; the guest and the
    emulator access it by bytes, through the nested page table. *)

From S2P Require Import Prelude Structs Kernel Npt.

(** Byte [a mod 4096] of a page of words, and its update. *)
Definition byte_index (a : Z) : nat := Z.to_nat (a mod PAGE_SIZE / 8).
Definition byte_shift (a : Z) : Z := 8 * (a mod 8).

Definition byte_of (ws : list Z) (a : Z) : option Z :=
  w ← ws !! byte_index a;
  Some (Z.land (Z.shiftr w (byte_shift a)) 255).

Definition set_byte (ws : list Z) (a x : Z) : list Z :=
  alter (fun w => Z.lor (Z.ldiff w (Z.shiftl 255 (byte_shift a))) (Z.shiftl (wrap 8 x) (byte_shift a)))
    (byte_index a) ws.

(** The page behind a guest physical address, and its byte there. *)
Definition guest_words (m : gmap Z page) (root gpa : Z) : option (list Z) :=
  pa ← hw_walk m 4 root gpa;
  p ← m !! pa;
  as_words p.

Definition guest_byte (m : gmap Z page) (root gpa : Z) : option Z :=
  ws ← guest_words m root gpa;
  byte_of ws gpa.

(** A store to a page that is present. *)
Definition guest_store (m : gmap Z page) (root gpa x : Z) : option (gmap Z page) :=
  pa ← hw_walk m 4 root gpa;
  ws ← guest_words m root gpa;
  Some (<[pa := PWords (set_byte ws gpa x)]> m).

Lemma set_byte_length ws a x : length (set_byte ws a x) = length ws.
Proof. apply length_alter. Qed.

Lemma byte_index_range a : (byte_index a < 512)%nat.
Proof.
  unfold byte_index, PAGE_SIZE. pose proof (Z.mod_pos_bound a 4096).
  apply Nat2Z.inj_lt. rewrite Z2Nat.id; Z.to_euclidean_division_equations; lia.
Qed.

Lemma byte_of_some ws a : length ws = 512%nat -> exists x, byte_of ws a = Some x /\ 0 <= x < 256.
Proof.
  intros Hl. destruct (lookup_lt_is_Some_2 ws (byte_index a)) as [w Hw].
  { rewrite Hl. apply byte_index_range. }
  unfold byte_of. rewrite Hw. eexists. split; [done|].
  change 255 with (Z.ones 8). rewrite Z.land_ones by lia. by apply Z.mod_pos_bound.
Qed.

Section facts.
Context {m : gmap Z page} {root : Z} {t : tree}.
Hypothesis R : npt_repr m root t.

Lemma hw_walk_path gpa :
  hw_walk m 4 root gpa = match t !! path gpa with Some (x, true) => Some x | _ => None end.
Proof using R.
  rewrite (hw_walk_repr R gpa 4 [] root (repr_root _ _ _ R) eq_refl).
  change ([] ++ path_from gpa 4) with (path gpa). by destruct (t !! path gpa) as [[x []]|].
Qed.

(** The page of an address is the leaf of its path. *)
Lemma guest_words_repr gpa :
  guest_words m root gpa =
    match t !! path gpa with Some (x, true) => (m !! x) ≫= as_words | _ => None end.
Proof using R.
  unfold guest_words. rewrite hw_walk_path. by destruct (t !! path gpa) as [[x []]|].
Qed.

Lemma leaf_words gpa x b :
  t !! path gpa = Some (x, b) -> exists ws, m !! x = Some (PWords ws) /\ length ws = 512%nat.
Proof using R.
  intros Ht. destruct (repr_table _ _ _ R _ _ _ Ht) as (ws & Hws & Hl & _). by exists ws.
Qed.

(** A byte is there when the page is. *)
Lemma guest_byte_some gpa :
  is_Some (guest_byte m root gpa) <-> exists x, t !! path gpa = Some (x, true).
Proof using R.
  unfold guest_byte. rewrite guest_words_repr. split.
  - intros [y Hy]. destruct (t !! path gpa) as [[x []]|]; [eauto|done..].
  - intros [x Hx]. rewrite Hx. destruct (leaf_words _ _ _ Hx) as (ws & -> & Hl).
    destruct (byte_of_some ws gpa Hl) as (y & Hy & _). exists y. exact Hy.
Qed.

(** A store leaves the tables alone and writes one data page. *)
Lemma guest_store_spec gpa x m' :
  guest_store m root gpa x = Some m' ->
  exists pa ws, t !! path gpa = Some (pa, true) /\ m !! pa = Some (PWords ws) /\
    length ws = 512%nat /\ m' = <[pa := PWords (set_byte ws gpa x)]> m.
Proof using R.
  unfold guest_store. rewrite guest_words_repr, hw_walk_path.
  destruct (t !! path gpa) as [[pa []]|] eqn:Ht; [|done..].
  destruct (leaf_words _ _ _ Ht) as (ws & Hws & Hl). rewrite Hws. intros [= <-].
  by exists pa, ws.
Qed.

End facts.

(** Bytes depend on the data pages alone. *)
Lemma guest_byte_same m m' root t gpa :
  npt_repr m root t -> npt_repr m' root t ->
  (forall x, t !! path gpa = Some (x, true) -> m' !! x = m !! x) ->
  guest_byte m' root gpa = guest_byte m root gpa.
Proof.
  intros R R' Hm. unfold guest_byte. rewrite (guest_words_repr R), (guest_words_repr R').
  destruct (t !! path gpa) as [[x []]|]; [|done..]. by rewrite Hm.
Qed.
