(* ===== verification/Guest.v ===== *)
(** * The guest: tool/guest.h and tool/guest.c

    The guest's primitives are inline assembly: each is the instructions of its
    template, after those that put the operands where the constraints ask for
    them, encoded for 16-bit code. [interpreter] is a processor that executes
    these instructions from guest memory, one for each VMRUN when the trap flag
    is set, with the exits AMD64 APM volume 2 chapter 15 gives them. *)

From S2P Require Import Prelude Structs Kernel Npt Vmcb VcpuRun GuestMemory.

(** ** Instructions *)
Inductive insn : Type :=
| mov_al (x : Z)           (** mov $x, %al *)
| mov_edx (x : Z)          (** mov $x, %edx *)
| outb_al_dx               (** outb %al, %dx *)
| inb_dx_al                (** inb %dx, %al *)
| movb_al_edx              (** movb %al, (%edx) *)
| movb_edx_al              (** movb (%edx), %al *)
| cmp_al (x : Z)           (** cmp $x, %al *)
| jne (disp : Z)           (** jne .+2+disp *)
| halt_insn.               (** hlt *)

(** The bytes of an instruction in 16-bit code (AMD64 APM volume 3); 0x66 and
    0x67 are the prefixes for 32-bit operands and addresses. *)
Definition encode_insn (i : insn) : list Z :=
  match i with
  | mov_al x => [0xb0; wrap 8 x]
  | mov_edx x => [0x66; 0xba; wrap 8 x; wrap 8 (Z.shiftr x 8); wrap 8 (Z.shiftr x 16); wrap 8 (Z.shiftr x 24)]
  | outb_al_dx => [0xee]
  | inb_dx_al => [0xec]
  | movb_al_edx => [0x67; 0x88; 0x02]
  | movb_edx_al => [0x67; 0x8a; 0x02]
  | cmp_al x => [0x3c; wrap 8 x]
  | jne d => [0x75; wrap 8 d]
  | halt_insn => [0xf4]
  end.

Definition insn_size (i : insn) : Z := Z.of_nat (length (encode_insn i)).
Definition code_size (l : list insn) : Z := Z.of_nat (length (l ≫= encode_insn)).

Definition insn_ok (i : insn) : Prop :=
  match i with
  | mov_al x | cmp_al x => 0 <= x < 2 ^ 8
  | mov_edx x => 0 <= x < 2 ^ 32
  | jne d => - 2 ^ 7 <= d < 2 ^ 7
  | _ => True
  end.

(** ** The primitives: tool/guest.h *)
Definition hlt : list insn := [halt_insn].
Definition pio_out8 (port val : Z) : list insn := [mov_al val; mov_edx port; outb_al_dx].
Definition pio_in8 (port : Z) : list insn := [mov_edx port; inb_dx_al].
Definition mmio_out8 (addr val : Z) : list insn := [mov_al val; mov_edx addr; movb_al_edx].
Definition mmio_in8 (addr : Z) : list insn := [mov_edx addr; movb_edx_al].

(** [while (f() != x) { ; }], the result of [f] in AL *)
Definition while_ne (f : list insn) (x : Z) : list insn :=
  f ++ [cmp_al x; jne (- (code_size (f ++ [cmp_al x]) + 2))].

(** ** The program: tool/guest.c *)
Definition entry `{Config} : list insn :=
  pio_out8 YAKVM_PIO_HAWK 1 ++
  while_ne (pio_in8 YAKVM_PIO_HAWK) 2 ++
  mmio_out8 YAKVM_MMIO_HAWK 3 ++
  while_ne (mmio_in8 YAKVM_MMIO_HAWK) 2 ++
  hlt.

(** The guest's binary. *)
Definition binary (l : list insn) : list Z := l ≫= encode_insn.

(** ** Decoding

    [fetch rd a]: the instruction at [a] and its size, the address of the byte
    that is not there, or no instruction of the ones above. *)
Inductive fetched : Type :=
| Fetched (i : insn) (size : Z)
| FetchFault (a : Z)
| Undefined.

Section fetch.
Context (rd : Z -> option Z).

Definition fetch_byte (a : Z) (k : Z -> fetched) : fetched :=
  match rd a with Some x => k x | None => FetchFault a end.

Definition fetch (a : Z) : fetched :=
  fetch_byte a (fun op =>
  if op =? 0xb0 then fetch_byte (a + 1) (fun x => Fetched (mov_al x) 2)
  else if op =? 0xee then Fetched outb_al_dx 1
  else if op =? 0xec then Fetched inb_dx_al 1
  else if op =? 0x3c then fetch_byte (a + 1) (fun x => Fetched (cmp_al x) 2)
  else if op =? 0x75 then fetch_byte (a + 1) (fun x => Fetched (jne (sint 8 x)) 2)
  else if op =? 0xf4 then Fetched halt_insn 1
  else if op =? 0x66 then
    fetch_byte (a + 1) (fun op =>
    if op =? 0xba then
      fetch_byte (a + 2) (fun x0 => fetch_byte (a + 3) (fun x1 =>
      fetch_byte (a + 4) (fun x2 => fetch_byte (a + 5) (fun x3 =>
      Fetched (mov_edx (x0 + 2 ^ 8 * x1 + 2 ^ 16 * x2 + 2 ^ 24 * x3)) 6))))
    else Undefined)
  else if op =? 0x67 then
    fetch_byte (a + 1) (fun op => fetch_byte (a + 2) (fun modrm =>
    if negb (modrm =? 0x02) then Undefined
    else if op =? 0x88 then Fetched movb_al_edx 3
    else if op =? 0x8a then Fetched movb_edx_al 3
    else Undefined))
  else Undefined).
End fetch.

(** Bytes at an address. *)
Fixpoint bytes_at (rd : Z -> option Z) (a : Z) (l : list Z) : Prop :=
  match l with
  | [] => True
  | x :: l => rd a = Some x /\ bytes_at rd (a + 1) l
  end.

(** Fetching what was encoded. *)
Lemma fetch_encode rd a i :
  insn_ok i -> bytes_at rd a (encode_insn i) -> fetch rd a = Fetched i (insn_size i).
Proof.
  intros Hok Hb. destruct i as [x|x| | | | |x|d|]; unfold fetch, fetch_byte; cbn [encode_insn bytes_at insn_ok] in Hb, Hok;
    
    replace (a + 1 + 1) with (a + 2) in Hb by lia; replace (a + 2 + 1) with (a + 3) in Hb by lia;
    replace (a + 3 + 1) with (a + 4) in Hb by lia; replace (a + 4 + 1) with (a + 5) in Hb by lia;
    destruct_and?;
    repeat match goal with H : rd _ = Some _ |- _ => rewrite H; clear H; cbn [Z.eqb Pos.eqb negb] end;
    try done.
  - by rewrite wrap_small by lia.
  - change (insn_size _) with 6. do 2 f_equal. unfold wrap. rewrite !Z.shiftr_div_pow2 by lia.
    Z.to_euclidean_division_equations. lia.
  - by rewrite wrap_small by lia.
  - change (insn_size _) with 2. do 2 f_equal. unfold wrap, sint.
    change (2 ^ (8 - 1)) with 128. change (2 ^ 8) with 256. change (2 ^ 7) with 128 in *.
    rewrite Z.mod_mod by lia. destruct (Z.ltb_spec (d mod 256) 128);
      Z.to_euclidean_division_equations; lia.
Qed.

(** ** A processor

    The state of a guest between two exits: its control block, the registers
    that are not there, its memory. *)
Section interpreter.
Implicit Types (b : vmcb.t) (g : gprs.t) (m : gmap Z page).

Definition ZF : Z := 6.

Definition upd_save (f : save.t -> save.t) b : vmcb.t := b <| vmcb.save := f (vmcb.save b) |>.

(** #VMEXIT with a code and its information. *)
Definition exit_with (code info1 info2 : Z) b : vmcb.t :=
  b <| vmcb.control := (vmcb.control b) <| control.exit_code := code |>
         <| control.exit_info_1 := info1 |> <| control.exit_info_2 := info2 |> |>.

(** Exit information of a nested page fault (15.25.6) and of an access to a
    port (15.10.2). *)
Definition npf_info (write fetch : bool) : Z :=
  2 ^ 32 + 4 + 2 * Z.b2z write + 16 * Z.b2z fetch.
Definition port_info (type : bool) (port : Z) : Z := Z.b2z type + 2 ^ 4 + 2 ^ 16 * port.

Definition al b : Z := wrap 8 (save.rax (vmcb.save b)).
Definition set_al (x : Z) b : vmcb.t :=
  upd_save (fun s => s <| save.rax := Z.lor (Z.ldiff (save.rax s) 255) (wrap 8 x) |>) b.
Definition set_zf (z : bool) b : vmcb.t :=
  upd_save (fun s => s <| save.rflags :=
    (if z then Z.setbit (save.rflags s) ZF else Z.clearbit (save.rflags s) ZF) |>) b.

Definition pc b : Z := wrap 64 (vmcb_seg.base (save.cs (vmcb.save b)) + save.rip (vmcb.save b)).
Definition next_ip (size : Z) b : Z := wrap 16 (save.rip (vmcb.save b) + size).

(** An instruction has been executed: with the trap flag a debug exception
    follows it, else an interrupt arrives. *)
Definition retire (ip : Z) b : vmcb.t :=
  let b := upd_save (fun s => s <| save.rip := ip |>) b in
  if has_flag (save.rflags (vmcb.save b)) X86_EFLAGS_TF
  then exit_with (SVM_EXIT_EXCP_BASE + DB_VECTOR) 0 0 b
  else exit_with (value_of svm_exit_codes "SVM_EXIT_INTR") 0 0 b.

(** One instruction. *)
Definition execute (i : insn) (size : Z) (root : Z) m b g : gmap Z page * vmcb.t * gprs.t :=
  let next := next_ip size b in
  let c := vmcb.control b in
  let ports := io_intercepted m (control.iopm_base_pa c) (wrap 16 (gprs.rdx g)) in
  let address := wrap 32 (gprs.rdx g) in
  match i with
  | mov_al x => (m, retire next (set_al x b), g)
  | mov_edx x => (m, retire next b, g <| gprs.rdx := x |>)
  | outb_al_dx =>
      if ports then (m, exit_with SVM_EXIT_IOIO (port_info false (wrap 16 (gprs.rdx g))) next b, g)
      else (m, retire next b, g)
  | inb_dx_al =>
      if ports then (m, exit_with SVM_EXIT_IOIO (port_info true (wrap 16 (gprs.rdx g))) next b, g)
      else (m, retire next (set_al 255 b), g)
  | movb_al_edx =>
      match guest_store m root address (al b) with
      | Some m => (m, retire next b, g)
      | None => (m, exit_with SVM_EXIT_NPF (npf_info true false) address b, g)
      end
  | movb_edx_al =>
      match guest_byte m root address with
      | Some x => (m, retire next (set_al x b), g)
      | None => (m, exit_with SVM_EXIT_NPF (npf_info false false) address b, g)
      end
  | cmp_al x => (m, retire next (set_zf (al b =? wrap 8 x) b), g)
  | jne d => (m, retire (if Z.testbit (save.rflags (vmcb.save b)) ZF then next else wrap 16 (next + d)) b, g)
  | halt_insn => (m, exit_with SVM_EXIT_HLT 0 0 b, g)
  end.

(** An instruction it does not know shuts the guest down. *)
Definition guest_step m b g : gmap Z page * vmcb.t * gprs.t :=
  let root := control.nested_cr3 (vmcb.control b) in
  match fetch (guest_byte m root) (pc b) with
  | Fetched i size => execute i size root m b g
  | FetchFault a => (m, exit_with SVM_EXIT_NPF (npf_info false true) a b, g)
  | Undefined => (m, exit_with (value_of svm_exit_codes "SVM_EXIT_SHUTDOWN") 0 0 b, g)
  end.

(** The accesses to a port are the only acts of the guest's instructions on the
    host. *)
Definition port_acts m b g : list host_act :=
  match fetch (guest_byte m (control.nested_cr3 (vmcb.control b))) (pc b) with
  | Fetched outb_al_dx _ | Fetched inb_dx_al _ => [HostPort (wrap 16 (gprs.rdx g))]
  | _ => []
  end.

Definition interpreter (K : KernelOps) : Processor K := {|
  guest_run u m hsave pa g hd :=
    match (m !! pa) ≫= as_vmcb with
    | Some b =>
        let '(m, b, g) := guest_step m b g in
        (u, <[pa := PVmcb b]> m, g, hd)
    | None => (u, m, g, hd)
    end;
  guest_acts u m hsave pa g hd :=
    match (m !! pa) ≫= as_vmcb with
    | Some b => port_acts m b g
    | None => []
    end
|}.

(** A step stores into a page of the guest at most, and leaves the setup. *)
Definition stored m m' (root : Z) : Prop :=
  m' = m \/ exists a x, guest_store m root a x = Some m'.

Lemma retire_setup ip b : same_setup b (retire ip b).
Proof. unfold retire. by destruct (has_flag _ _). Qed.

Lemma guest_step_spec m b g m' b' g' :
  guest_step m b g = (m', b', g') ->
  same_setup b b' /\ stored m m' (control.nested_cr3 (vmcb.control b)).
Proof.
  unfold guest_step, execute. destruct (fetch _ _) as [i n|a|];
    [|by intros [= <- <- <-]; (split; [done|by left])..].
  assert (forall ip b0, same_setup b b0 -> same_setup b (retire ip b0)) as Hr.
  { intros ip b0 Hb. unfold retire. by destruct (has_flag _ _). }
  destruct i; try (intros [= <- <- <-]; (split; [by try apply Hr|by left])).
  - destruct (io_intercepted _ _ _); intros [= <- <- <-]; (split; [by try apply Hr|by left]).
  - destruct (io_intercepted _ _ _); intros [= <- <- <-]; (split; [by try apply Hr|by left]).
  - destruct (guest_store _ _ _ _) eqn:Hst; intros [= <- <- <-]; (split; [by try apply Hr|]).
    + right. by eexists _, _.
    + by left.
  - destruct (guest_byte _ _ _); intros [= <- <- <-]; (split; [by try apply Hr|by left]).
Qed.

End interpreter.

(** The interpreter keeps to what a processor with nested paging does. *)
#[global] Instance interpreter_laws (K : KernelOps) : ProcessorLaws K (interpreter K).
Proof.
  split. intros u m hsave pa g hd u' m' g' hd' p v t Hp Hv R Hpa _. simpl. rewrite Hp. simpl.
  rewrite Hv. destruct (guest_step m v g) as [[m1 b1] g1] eqn:Hs. intros [= <- <- <- <-].
  destruct (guest_step_spec _ _ _ _ _ _ Hs) as [Hset Hst].
  assert (forall q x c, t !! q = Some (x, c) -> x <> pa) as Hne.
  { intros q x c Hq ->. apply Hpa, elem_of_tree_pages. eauto. }
  assert (dom m1 = dom m /\ m1 !! pa = m !! pa /\
    (forall q x, t !! q = Some (x, true) -> length q = 4%nat ->
       exists ws, m1 !! x = Some (PWords ws) /\ length ws = 512%nat) /\
    (forall x, (forall q, length q = 4%nat -> t !! q <> Some (x, true)) -> m1 !! x = m !! x))
    as (Hd & Hpa1 & Hl & Hf).
  { assert (forall q x, t !! q = Some (x, true) ->
      exists ws, m !! x = Some (PWords ws) /\ length ws = 512%nat) as Hm.
    { intros q x Hq. destruct (repr_table _ _ _ R _ _ _ Hq) as (ws & Hws & Hlen & _). eauto. }
    destruct Hst as [->|(a & y & Hst)]; [by split_and!; eauto|].
    destruct (guest_store_spec R _ _ _ Hst) as (x & ws & Hx & Hws & Hlen & ->).
    split_and!.
    - rewrite dom_insert_lookup_L; [done|eauto].
    - apply lookup_insert_ne. by eapply Hne.
    - intros q z Hq Hlq. destruct (decide (z = x)) as [->|Hzx].
      + rewrite lookup_insert_eq. eexists. split; [done|]. by rewrite set_byte_length.
      + rewrite lookup_insert_ne by done. eauto.
    - intros z Hz. apply lookup_insert_ne. intros <-. by apply (Hz (path a)). }
  split_and!.
  - rewrite dom_insert_lookup_L; [done|]. rewrite Hpa1. eauto.
  - exists b1. split; [apply lookup_insert_eq|done].
  - intros q x Hq Hlq. rewrite lookup_insert_ne by (intros <-; by eapply Hne). eauto.
  - intros x Hx _ Hq. rewrite lookup_insert_ne by done. by apply Hf.
Qed.
