(* ===== verification/Process.v ===== *)
(** * The emulator's process over the driver

    [proc] is a process with descriptors of the driver and mappings of them; its
    system calls are steps of Driver, its accesses to mapped memory go through
    the page of the mapping, which the driver's fault handler finds. This is an
    instance of the interface of Emulator. *)

From S2P Require Import Prelude Structs Kernel Npt Vmcb VcpuRun Vcpu Vm Driver.
From S2P Require Import Emulator GuestMemory.

(** A mapping: where it starts, its length and its descriptor. *)
Module mapping.
Record t : Type := mk {
  start : Z;
  len : Z;
  fd : Z
}.
Definition holds (address : Z) (x : t) : bool :=
  (start x <=? address) && (address <? start x + len x).
End mapping.

(** The process outside of the driver: where it keeps its [struct registers],
    where mmap puts a mapping, and the file with the guest's binary. *)
Class Userland (K : KernelOps) : Type := {
  regs_buf : Z;
  mmap_place : list mapping.t -> Z -> Z;
  bin_open : Z;               (** the answer of open(bin) *)
  bin_stat : Z;               (** the answer of fstat *)
  bin_bytes : list Z
}.

(** The buffer can be accessed. *)
Class UserlandOk (K : KernelOps) (U : Userland K) : Prop :=
  regs_buf_ok u r : (copy_to_user u regs_buf r).1 = 0.

Record proc `{KernelOps} : Type := Proc {
  p_ks : kstate;
  p_maps : list mapping.t;
  p_closed : gset Z          (** closed, but still mapped *)
}.

#[global] Instance eta_proc `{K : KernelOps} : Eta proc := fun p =>
  Proc K (p_ks p) (p_maps p) (p_closed p).

Section process.
Context `{K : KernelOps} `{P : !Processor K} `{A : !Abi K} `{U : !Userland K} `{C : Config}.

Definition PM : Type -> Type := M proc.

(** A system call of the driver. *)
Definition sys {T} (m : KM T) : PM T := fun p =>
  match m (p_ks p) with
  | Ok a s => Ok a (p <| p_ks := s |>)
  | Stop w => Stop w
  end.

Definition mapped_fd (fd : Z) (l : list mapping.t) : bool :=
  existsb (fun x => mapping.fd x =? fd) l.

(** The last reference to a descriptor of the driver goes with its last
    mapping. *)
Definition close_file (fd : Z) : PM Z :=
  if fd =? bin_open then mret 0
  else
    l ← gets p_maps;
    if mapped_fd fd l then modify (fun p => p <| p_closed := {[fd]} ∪ p_closed p |>) ;; mret 0
    else sys (step (SysClose fd)).

Definition round_up (len : Z) : Z := (len + 4095) / 4096 * 4096.

Definition mmap_file (len fd : Z) : PM Z :=
  l ← gets p_maps;
  let start := mmap_place l (round_up len) in
  r ← sys (step (SysMmap fd 0 start (start + round_up len)));
  if r <? 0 then mret r
  else modify (fun p => p <| p_maps := mapping.mk start (round_up len) fd :: p_maps p |>) ;; mret start.

Definition munmap_file (address len : Z) : PM Z :=
  l ← gets p_maps;
  match List.find (fun x => mapping.start x =? address) l with
  | None => mret 0
  | Some x =>
      let l' := List.filter (fun y => negb (mapping.start y =? address)) l in
      closed ← gets p_closed;
      modify (fun p => p <| p_maps := l' |>) ;;
      if bool_decide (mapping.fd x ∈ closed) && negb (mapped_fd (mapping.fd x) l') then
        modify (fun p => p <| p_closed := p_closed p ∖ {[mapping.fd x]} |>) ;;
        sys (step (SysClose (mapping.fd x))) ;; mret 0
      else mret 0
  end.

(** The page behind an address of guest memory: the fault handler's, by the page
    of the address. A signal stops the process. *)
Definition fault_page (address : Z) : PM (option Z) :=
  l ← gets p_maps;
  files ← gets (fun p => ks_files (p_ks p));
  match List.find (mapping.holds address) l with
  | None => halt BadAccess
  | Some x =>
      match files !! mapping.fd x with
      | Some (FVm vm) =>
          r ← sys (yakvm_vm_vmm_fault vm (address - address mod PAGE_SIZE) (mapping.start x));
          mret (if r.1 =? 0 then r.2 else None)
      | _ => halt BadAccess
      end
  end.

Definition read_byte (address : Z) : PM Z :=
  p ← fault_page address;
  match p with
  | None => halt Aborted
  | Some page =>
      m ← gets (fun p => ks_pages (p_ks p));
      ws ← need ((m !! page_to_phys page) ≫= as_words);
      need (byte_of ws address)
  end.

(** A store by the kernel's read: whether it could be made. *)
Definition write_byte (address x : Z) : PM bool :=
  p ← fault_page address;
  match p with
  | None => mret false
  | Some page =>
      m ← gets (fun p => ks_pages (p_ks p));
      ws ← need ((m !! page_to_phys page) ≫= as_words);
      modify (fun p => p <| p_ks := (p_ks p) <| ks_pages :=
        <[page_to_phys page := PWords (set_byte ws address x)]> (ks_pages (p_ks p)) |> |>) ;;
      mret true
  end.

(** The bytes of a file stored from [address] on, as far as memory goes. *)
Fixpoint write_bytes (address : Z) (l : list Z) : PM Z :=
  match l with
  | [] => mret 0
  | x :: l =>
      maps ← gets p_maps;
      if negb (existsb (mapping.holds address) maps) then mret 0
      else
        b ← write_byte address x;
        if b : bool then n ← write_bytes (address + 1) l; mret (n + 1) else mret 0
  end.

Definition read_file (fd address size : Z) : PM Z :=
  if negb (fd =? bin_open) then mret (- EBADF)
  else
    let l := take (Z.to_nat size) bin_bytes in
    n ← write_bytes address l;
    mret (if (n =? 0) && negb (length l =? 0)%nat then - EFAULT else n).

(** The page a vcpu shares. *)
Definition shared_state (address : Z) : PM state.t :=
  l ← gets p_maps;
  files ← gets (fun p => ks_files (p_ks p));
  match List.find (fun x => mapping.start x =? address) l with
  | None => halt BadAccess
  | Some x =>
      match files !! mapping.fd x with
      | Some (FVcpu c) =>
          v ← sys (get_vcpu c);
          m ← gets (fun p => ks_pages (p_ks p));
          need ((m !! virt_to_phys (vcpu.state v)) ≫= as_state)
      | _ => halt BadAccess
      end
  end.

Definition ask_regs (fd : Z) : PM (Z * registers.t) :=
  r ← sys (step (SysIoctl fd YAKVM_GET_REGS regs_buf false));
  u ← gets (fun p => ks_user (p_ks p));
  mret (r, (copy_from_user u regs_buf).2).

Definition tell_regs (fd : Z) (regs : registers.t) : PM Z :=
  modify (fun p => p <| p_ks := (p_ks p) <| ks_user :=
    (copy_to_user (ks_user (p_ks p)) regs_buf regs).2 |> |>) ;;
  sys (step (SysIoctl fd YAKVM_SET_REGS regs_buf false)).

#[global] Instance process : Host proc := {|
  sys_open_dev := sys (step SysOpen);
  sys_open_bin _ := mret bin_open;
  sys_fstat fd := mret (if fd =? bin_open then bin_stat else - EBADF, Z.of_nat (length bin_bytes));
  sys_read := read_file;
  sys_close := close_file;
  sys_ioctl fd nr arg := sys (step (SysIoctl fd nr arg false));
  sys_get_regs := ask_regs;
  sys_set_regs := tell_regs;
  sys_mmap := mmap_file;
  sys_munmap := munmap_file;
  user_state := shared_state;
  user_byte := read_byte
|}.

End process.
