(* ===== verification/ProcessProps.v ===== *)
(** * The driver as the emulator's system

    The laws of EmulatorProps hold of a process over the driver: [guest_at] says
    what guest is behind a pair of descriptors, the lemmas after it what each
    call of the emulator does to it. With the laws the theorems of EmulatorProps
    are about the emulator and the driver together. *)

From S2P Require Import Prelude Structs Kernel Npt Vmcb VcpuRun Vcpu VcpuSwitch Vm.
From S2P Require Import Driver System Handlers HandlersVcpu Spec Safety SwitchProps.
From S2P Require Import GuestMemory Emulator EmulatorProps Process.

(** ** A guest behind its descriptors *)
Section guest.
Context `{L : KernelLaws} `{P : !Processor K} `{PL : !ProcessorLaws K P} `{A : !Abi K}
  `{C : Config} `{CO : !ConfigOk C}.
Implicit Types (s : kstate) (W : world) (w : avm) (lost : gset Z).

(** The machine [w] at [a] has the descriptor [vmfd], its vcpu [c] the descriptor
    [vfd]; [g] are the vcpu's registers, the page it shares and the bytes of the
    pages present. *)
Record seen s W (lost : gset Z) (a : Z) w (c : Z) (pl : places) (v : vcpu.t) (b : vmcb.t)
    (vmfd vfd : Z) (g : guest) : Prop := {
  seen_inv : inv s W lost;
  seen_vm : W !! a = Some w;
  seen_vcpu : w_vcpu w = Some (c, pl);
  seen_fd : w_fd w = Some vmfd;
  seen_vfd : w_vfd w = Some vfd;
  seen_at : at_vcpu s c v pl b;
  seen_regs : g_regs g = regs_of (vcpu.gctx v) b;
  seen_exit : (ks_pages s !! at_state pl) ≫= as_state = Some (g_exit g);
  seen_byte i : g_byte g i = guest_byte (ks_pages s) (w_root w) i
}.

Arguments seen_inv {_ _ _ _ _ _ _ _ _ _ _ _} _.
Arguments seen_vm {_ _ _ _ _ _ _ _ _ _ _ _} _.
Arguments seen_vcpu {_ _ _ _ _ _ _ _ _ _ _ _} _.
Arguments seen_fd {_ _ _ _ _ _ _ _ _ _ _ _} _.
Arguments seen_vfd {_ _ _ _ _ _ _ _ _ _ _ _} _.
Arguments seen_at {_ _ _ _ _ _ _ _ _ _ _ _} _.
Arguments seen_regs {_ _ _ _ _ _ _ _ _ _ _ _} _.
Arguments seen_exit {_ _ _ _ _ _ _ _ _ _ _ _} _.
Arguments seen_byte {_ _ _ _ _ _ _ _ _ _ _ _} _ _.

Definition guest_at s (vmfd vfd : Z) (g : guest) : Prop :=
  exists W (lost : gset Z) a w c pl v b, seen s W lost a w c pl v b vmfd vfd g.

Section facts.
Context {s : kstate} {W : world} {lost : gset Z} {a : Z} {w : avm} {c : Z} {pl : places} {v : vcpu.t} {b : vmcb.t} {vmfd vfd : Z} {g : guest}.
Hypothesis H : seen s W lost a w c pl v b vmfd vfd g.

Lemma seen_ok : vm_ok (ks_pages s) (ks_heap s) a w.
Proof using H. eapply inv_vm; apply H. Qed.

Lemma seen_file_vm : ks_files s !! vmfd = Some (FVm a).
Proof using H. apply (fd_vm _ _ (inv_files _ _ _ (seen_inv H))). exists w. by destruct H. Qed.

Lemma seen_file_vcpu : ks_files s !! vfd = Some (FVcpu c).
Proof using H.
  apply (fd_vcpu _ _ (inv_files _ _ _ (seen_inv H))).
  exists a, w, pl. by destruct H.
Qed.

Lemma seen_vcpu_ok :
  place_pages pl ## tree_pages (w_tree w) /\ vcpu_pages (ks_pages s) pl (w_root w) /\
  vcpu.lock v = false.
Proof using H.
  destruct (vm_vcpu _ _ _ _ seen_ok _ _ (seen_vcpu H))
    as (_ & Hd & Vp & v0 & Hv0 & _ & Hl & _).
  destruct (seen_at H) as (Hv & _). split; [done|]. split; [done|]. congruence.
Qed.

Lemma seen_distinct : at_g pl <> at_state pl.
Proof using H.
  destruct (seen_at H) as (_ & Hpl & _).
  pose proof (placed_distinct _ _ Hpl) as Nd. rewrite !NoDup_cons, !not_elem_of_cons in Nd. tauto.
Qed.

End facts.

(** The bytes of a page are there together. *)
Lemma present_page s vmfd vfd g i j :
  guest_at s vmfd vfd g -> guest_page i = guest_page j -> is_Some (g_byte g i) -> is_Some (g_byte g j).
Proof.
  intros (W & lost & a & w & c & pl & v & b & H) Hij%path_eq_page.
  rewrite !(seen_byte H), !(guest_byte_some (vm_tree _ _ _ _ (seen_ok H))). by rewrite Hij.
Qed.

(** There is a guest behind every pair of descriptors of one machine. *)
Lemma guest_at_files s W lost vmfd vfd a c :
  inv s W lost -> ks_files s !! vmfd = Some (FVm a) -> ks_files s !! vfd = Some (FVcpu c) ->
  vcpu.vm <$> ((ks_heap s !! c) ≫= as_vcpu) = Some a -> exists g, guest_at s vmfd vfd g.
Proof.
  intros I Hm Hc Ha. destruct (files_vm _ _ _ _ _ I Hm) as (w & Hw & Hfd).
  destruct (files_vcpu _ _ _ _ _ I Hc) as (a' & w' & pl & Hw' & Hv & Hvfd).
  destruct (vm_vcpu _ _ _ _ (inv_vm _ _ _ I _ _ Hw') _ _ Hv) as (_ & _ & Vp & v & Hvc & Hpl & _ & Hva).
  rewrite Hvc in Ha. simpl in Ha. assert (a' = a) as -> by congruence. assert (w' = w) as -> by congruence.
  destruct (pages_g _ _ _ Vp) as (b & Hb & _). destruct (pages_state _ _ _ Vp) as [st Hst].
  exists (Guest (regs_of (vcpu.gctx v) b) st (guest_byte (ks_pages s) (w_root w))).
  by exists W, lost, a, w, c, pl, v, b.
Qed.

(** Its bytes, by the objects of the driver. *)
Lemma guest_at_byte s vmfd vfd g a v u i :
  guest_at s vmfd vfd g -> ks_files s !! vmfd = Some (FVm a) -> ks_heap s !! a = Some (OVm v) ->
  ks_heap s !! vm.vmm v = Some (OVmm u) -> g_byte g i = guest_byte (ks_pages s) (vmm.ncr3 u) i.
Proof.
  intros (W & lost & a' & w & c & pl & vc & b & H) Hf Hv Hu. rewrite (seen_byte H).
  assert (a' = a) as -> by (pose proof (seen_file_vm H); congruence).
  destruct (vm_obj _ _ _ _ (seen_ok H)) as [id Ho]. pose proof (vm_vmm _ _ _ _ (seen_ok H)) as Hm.
  assert (v = vm.mk false (refs w) (vcpu_addr w) (w_vmm w) id) as -> by congruence.
  simpl in Hu. assert (u = vmm.mk (w_root w) a) as -> by congruence. done.
Qed.

(** *** Calls on the vcpu *)

(** A call through the descriptor: the invariant and the machine are kept, the
    vcpu changes as its specification says. *)
Lemma wp_call s W lost a w c pl v b vmfd vfd g ioctl arg :
  seen s W lost a w c pl v b vmfd vfd g ->
  wp (step (SysIoctl vfd ioctl arg false))
    (fun r s' => inv s' W lost /\ vcpu_effect c v pl b ioctl arg false s r s')
    (vcpu_stop ioctl false) s.
Proof.
  intros H. unfold step. apply wp_bind, wp_gets. rewrite (seen_file_vcpu H).
  eapply wp_mono; [eapply (wp_vcpu_call a w c pl s W lost); split_and!; apply H|].
  intros r s' (([_ I'] & _) & v0 & b0 & (Hv0 & _ & Hb0) & He).
  rewrite <- (seen_vm H), update_same in I'. split; [done|].
  destruct (seen_at H) as (Hv & _ & Hb). rewrite Hv in Hv0. rewrite Hb in Hb0. by simplify_eq.
Qed.

(** A call other than YAKVM_RUN returns. *)
Lemma wp_call_returns ioctl (m : KM Z) Q s :
  ioctl <> YAKVM_RUN -> wp m Q (vcpu_stop ioctl false) s -> wp m Q never s.
Proof. intros Hi H. eapply wp_stop_mono; [exact H|]. by intros st (_ & ? & _). Qed.

(** The registers reach the buffer, the guest is the same. *)
Lemma step_get_regs s vmfd vfd g buf :
  guest_at s vmfd vfd g -> (forall r, (copy_to_user (ks_user s) buf r).1 = 0) ->
  exists s', step (SysIoctl vfd YAKVM_GET_REGS buf false) s = Ok 0 s' /\ guest_at s' vmfd vfd g /\
    copy_from_user (ks_user s') buf = (0, g_regs g).
Proof.
  intros (W & lost & a & w & c & pl & v & b & H) Hbuf.
  pose proof (wp_call_returns YAKVM_GET_REGS _ _ _ ltac:(done)
    (wp_call _ _ _ _ _ _ _ _ _ _ _ _ YAKVM_GET_REGS buf H)) as Hwp.
  apply wp_never_ok in Hwp as (r & s' & Hrun & I' & He). unfold vcpu_effect in He.
  change (YAKVM_GET_REGS =? YAKVM_RUN) with false in He. rewrite Z.eqb_refl in He. cbv iota in He.
  pose proof (Hbuf (regs_of (vcpu.gctx v) b)) as Hr.
  destruct (copy_to_user (ks_user s) buf (regs_of (vcpu.gctx v) b)) as [e u] eqn:Hu.
  simpl in Hr. subst e. destruct He as [-> ->]. exists (s <| ks_user := u |>). split; [done|].
  destruct H as [Hi Hw Hvc Hfd Hvfd Hat Hregs Hexit Hbyte]. split.
  - by exists W, lost, a, w, c, pl, v, b.
  - rewrite Hregs. by apply (copy_round_trip _ _ _ _ Hu).
Qed.

(** The registers in the buffer become the guest's. *)
Lemma step_set_regs s vmfd vfd g buf regs :
  guest_at s vmfd vfd g -> copy_from_user (ks_user s) buf = (0, regs) -> regs_ok regs ->
  exists s', step (SysIoctl vfd YAKVM_SET_REGS buf false) s = Ok 0 s' /\
    guest_at s' vmfd vfd (g <| g_regs := regs |>).
Proof.
  intros (W & lost & a & w & c & pl & v & b & H) Hbuf Hregs.
  pose proof (wp_call_returns YAKVM_SET_REGS _ _ _ ltac:(done)
    (wp_call _ _ _ _ _ _ _ _ _ _ _ _ YAKVM_SET_REGS buf H)) as Hwp.
  apply wp_never_ok in Hwp as (r & s' & Hrun & I' & He). unfold vcpu_effect in He.
  change (YAKVM_SET_REGS =? YAKVM_RUN) with false in He.
  change (YAKVM_SET_REGS =? YAKVM_GET_REGS) with false in He. rewrite Z.eqb_refl, Hbuf in He.
  destruct He as (-> & Hat' & _ & Hf). exists s'. split; [done|].
  destruct (seen_vcpu_ok H) as (Hd & _ & _). pose proof (seen_distinct H) as Hne.
  pose proof (vm_tree _ _ _ _ (seen_ok H)) as R.
  destruct H as [Hi Hw Hvc Hfd Hvfd Hat _ Hexit Hbyte].
  eexists W, lost, a, w, c, pl, _, _. split; try done.
  - symmetry. by apply regs_of_set.
  - by rewrite Hf.
  - intros i. change (g_byte (g <| g_regs := regs |>) i) with (g_byte g i). rewrite Hbyte. symmetry.
    eapply guest_byte_same; [exact R|exact (vm_tree _ _ _ _ (inv_vm _ _ _ I' _ _ Hw))|].
    intros x Hx. apply Hf. intros ->. apply (Hd (at_g pl)).
    + rewrite elem_of_place_pages. tauto.
    + apply elem_of_tree_pages. eauto.
Qed.

(** The guest runs, and unless it escapes it stays behind its descriptors. *)
Lemma step_run s vmfd vfd g :
  guest_at s vmfd vfd g ->
  wp (step (SysIoctl vfd YAKVM_RUN 0 false)) (fun r s' => r = 0 /\ exists g', guest_at s' vmfd vfd g')
    (fun st => st = Escaped) s.
Proof.
  intros (W & lost & a & w & c & pl & v & b & H).
  eapply wp_mono; [eapply wp_stop_mono; [exact (wp_call _ _ _ _ _ _ _ _ _ _ _ _ YAKVM_RUN 0 H)|by intros st [-> _]]|].
  intros r s' (I' & -> & v' & b' & Hat' & _ & _ & Hst). split; [done|].
  exists (Guest (regs_of (vcpu.gctx v') b') (exit_state b') (guest_byte (ks_pages s') (w_root w))).
  destruct H as [Hi Hw Hvc Hfd Hvfd _ _ _ _]. exists W, lost, a, w, c, pl, v', b'. split; try done.
  cbn. by rewrite Hst.
Qed.

(** *** Stores to guest memory *)

(** A data page of a machine rewritten. *)
Lemma inv_data s W lost a w q x ws :
  inv s W lost -> W !! a = Some w -> w_tree w !! q = Some (x, true) -> length q = 4%nat ->
  length ws = 512%nat ->
  inv (with_mem (ks_mm s) (<[x := PWords ws]> (ks_pages s)) s) W lost.
Proof.
  intros I Hw Hq Hlq Hlen. set (s' := with_mem _ _ s). pose proof (inv_vm _ _ _ I _ _ Hw) as Hok.
  pose proof (vm_tree _ _ _ _ Hok) as R.
  assert (x ∈ tree_pages (w_tree w)) as Hx by (apply elem_of_tree_pages; eauto).
  assert (npt_repr (ks_pages s') (w_root w) (w_tree w)) as R'.
  { eapply npt_repr_data; [exact R|..].
    - intros p y c Hp Hl. apply lookup_insert_ne. intros <-.
      pose proof (repr_inj _ _ _ R _ _ _ _ _ Hp Hq) as ->. lia.
    - intros p y c Hp Hl. destruct (repr_table _ _ _ R _ _ _ Hp) as (ws0 & Hws & Hl0 & _).
      destruct (decide (y = x)) as [->|Hne].
      + exists ws. split; [apply lookup_insert_eq|done].
      + exists ws0. split; [|done]. rewrite <- Hws. by apply lookup_insert_ne. }
  assert (vm_post a (Some w) s W lost s') as [_ I'].
  { eapply vm_post_keep; try done.
    - apply mm_ok_store; [rewrite with_mem_id; apply I|by eapply repr_page].
    - intros y Hy. apply lookup_insert_ne. intros <-. apply Hy, elem_of_vm_pages. by left.
    - tauto.
    - destruct Hok as [Ho Hm Ht Hv Hf Hr Hmmio]. split; try done.
      intros c pl Hc. pose proof (Hv _ _ Hc) as Hvc. destruct Hvc as (_ & Hd & _).
      eapply vcpu_ok_tree; [by apply Hv| |done].
      intros y Hy. apply lookup_insert_ne. intros <-. by apply (Hd x).
    - apply I.
    - by eapply cpus_ok_same; [apply I|..]. }
  rewrite <- Hw, update_same in I'. exact I'.
Qed.

(** The page can be rewritten. *)
Definition writable s vmfd vfd (pa : Z) : Prop :=
  forall ws, length ws = 512%nat ->
    exists g, guest_at (s <| ks_pages := <[pa := PWords ws]> (ks_pages s) |>) vmfd vfd g.

Lemma seen_writable s W lost a w c pl v b vmfd vfd g q pa :
  seen s W lost a w c pl v b vmfd vfd g -> w_tree w !! q = Some (pa, true) -> length q = 4%nat ->
  writable s vmfd vfd pa.
Proof.
  intros H Hq Hlq ws Hlen. destruct (seen_vcpu_ok H) as (Hd & _ & _).
  pose proof (inv_data _ _ _ _ _ _ _ _ (seen_inv H) (seen_vm H) Hq Hlq Hlen) as I'.
  assert (forall x, x ∈ place_pages pl -> <[pa := PWords ws]> (ks_pages s) !! x = ks_pages s !! x) as Hf.
  { intros x Hx. apply lookup_insert_ne. intros <-. apply (Hd pa Hx), elem_of_tree_pages. eauto. }
  setoid_rewrite elem_of_place_pages in Hf.
  exists (g <| g_byte := guest_byte (<[pa := PWords ws]> (ks_pages s)) (w_root w) |>).
  destruct H as [Hi Hw Hvc Hfd Hvfd (Hv & Hpl & Hb) Hregs Hexit Hbyte].
  exists W, lost, a, w, c, pl, v, b. split; try done.
  - split; [exact Hv|]. split; [exact Hpl|]. cbn. by rewrite Hf by tauto.
  - cbn. by rewrite Hf by tauto.
Qed.

(** *** Pages of the machine *)

(** [g'] is [g] with more memory. *)
Definition grown (g g' : guest) : Prop :=
  g_regs g' = g_regs g /\ g_exit g' = g_exit g /\
  forall i x, g_byte g i = Some x -> g_byte g' i = Some x.

(** A page asked for is there afterwards, or memory ran out; asking for the
    hidden page stops the kernel. *)
Definition page_there s vmfd vfd (g : guest) (gpa : Z) (res : err_ptr) s' : Prop :=
  guest_page gpa <> guest_page YAKVM_MMIO_HAWK /\ (is_Some (g_byte g gpa) -> s' = s) /\
  exists g', guest_at s' vmfd vfd g' /\ grown g g' /\
    match res with
    | inl e => e = - ENOMEM /\ g_byte g gpa = None
    | inr page => exists ws, ks_pages s' !! page_to_phys page = Some (PWords ws) /\ length ws = 512%nat /\
        writable s' vmfd vfd (page_to_phys page) /\
        forall i, guest_page i = guest_page gpa -> g_byte g' i = byte_of ws i
    end.

Lemma wp_page_there s W lost a w c pl v b vmfd vfd g gpa :
  seen s W lost a w c pl v b vmfd vfd g ->
  wp (yakvm_vmm_npt_create (w_vmm w) gpa false) (page_there s vmfd vfd g gpa)
    (fun st => st = Panicked /\ guest_page gpa = guest_page YAKVM_MMIO_HAWK) s.
Proof.
  intros H. pose proof (seen_ok H) as Hok. destruct (vm_mmio _ _ _ _ Hok) as [[xh Hh] Hq].
  destruct (seen_vcpu_ok H) as (Hd & Vp & Hl).
  eapply wp_mono; [eapply wp_stop_mono; [eapply wp_vm_npt_create; apply H|]|].
  { intros st [-> [x Hx]]. split; [done|]. by apply path_eq_page, (Hq _ x). }
  intros res s' (t'' & [_ I'] & (k & m' & t' & -> & Hmm & R' & He & Hid & Hres) & _ & _).
  assert (guest_page gpa <> guest_page YAKVM_MMIO_HAWK) as Hne.
  { intros Hg%path_eq_page. rewrite <- Hg in Hh.
    pose proof (lookup_weaken _ _ _ _ Hh (ext_sub _ _ _ _ _ He)) as Hh'.
    destruct res; [destruct Hres as (_ & Hn & _)|destruct Hres as (x & _ & _ & Hn)]; congruence. }
  split; [done|]. split.
  { rewrite (seen_byte H). intros Hs. apply Hid.
    apply (guest_byte_some (vm_tree _ _ _ _ Hok)) in Hs as [x Hx]. by eexists. }
  simpl in R'.
  assert (forall x, x ∈ place_pages pl -> m' !! x = ks_pages s !! x) as Hpl'.
  { intros x Hx. apply (ext_frame _ _ _ _ _ He). intros (q & d & Hqx)%elem_of_tree_pages.
    destruct (w_tree w !! q) as [[y e]|] eqn:Hqw.
    - pose proof (lookup_weaken _ _ _ _ Hqw (ext_sub _ _ _ _ _ He)).
      apply (Hd x Hx), elem_of_tree_pages. exists q, e. congruence.
    - destruct (ext_new _ _ _ _ _ He _ _ _ Hqx Hqw) as (_ & _ & Hn).
      destruct (vcpu_pages_in _ _ _ _ Vp Hx). congruence. }
  setoid_rewrite elem_of_place_pages in Hpl'.
  set (g' := Guest (g_regs g) (g_exit g) (guest_byte m' (w_root w))).
  set (w' := w <| w_tree := t'' |>).
  assert (seen (with_mem k m' s) (update a (Some w') W) lost a w' c pl v b vmfd vfd g') as S'.
  { destruct H as [Hi Hw Hvc Hfd Hvfd Hat Hregs Hexit Hbyte]. destruct Hat as (Hv & Hpl & Hb).
    split; try done.
    - apply update_lookup.
    - split; [exact Hv|]. split; [exact Hpl|]. mem_simpl. rewrite Hpl' by tauto. exact Hb.
    - mem_simpl. rewrite Hpl' by tauto. exact Hexit. }
  exists g'. split; [|split].
  - by exists (update a (Some w') W), lost, a, w', c, pl, v, b.
  - split; [done|]. split; [done|]. intros i x. rewrite (seen_byte H). unfold g'. cbn [g_byte]. intros Hx.
    destruct (proj1 (guest_byte_some (vm_tree _ _ _ _ Hok) i)) as [y Hy]; [by eexists|].
    pose proof (lookup_weaken _ _ _ _ Hy (ext_sub _ _ _ _ _ He)) as Hy'.
    unfold guest_byte in *. rewrite (guest_words_repr (vm_tree _ _ _ _ Hok)), Hy in Hx.
    rewrite (guest_words_repr R'), Hy'. by rewrite (ext_data _ _ _ _ _ He _ _ _ Hy eq_refl).
  - destruct res as [e|page].
    { destruct Hres as (-> & Hn & _). split; [done|]. apply eq_None_not_Some. intros Hs.
      rewrite (seen_byte H) in Hs. apply (guest_byte_some (vm_tree _ _ _ _ Hok)) in Hs as [y Hy].
      pose proof (lookup_weaken _ _ _ _ Hy (ext_sub _ _ _ _ _ He)). congruence. }
    destruct Hres as (x & -> & Hx & Ht).
    destruct (leaf_words R' _ _ _ Ht) as (ws & Hws & Hlen). exists ws. rewrite Hx.
    split; [exact Hws|]. split; [done|]. split.
    { pose proof (vm_tree _ _ _ _ (seen_ok S')) as R''. apply (seen_writable _ _ _ _ _ _ _ _ _ _ _ _ (path gpa) _ S'); [|exact (path_from_length gpa 4)].
      pose proof (hw_walk_path R'' gpa : hw_walk m' 4 (w_root w) gpa = _) as Hp. rewrite (hw_walk_path R'), Ht in Hp.
      destruct (w_tree w' !! path gpa) as [[y []]|]; [|done..]. congruence. }
    intros i Hi%path_eq_page. unfold g'. cbn [g_byte]. unfold guest_byte.
    rewrite (guest_words_repr R'), Hi, Ht. by rewrite Hws.
Qed.

(** YAKVM_MMAP_PAGE. *)
Lemma step_map s vmfd vfd g gpa :
  guest_at s vmfd vfd g ->
  wp (step (SysIoctl vmfd YAKVM_MMAP_PAGE gpa false))
    (fun r s' => guest_page gpa <> guest_page YAKVM_MMIO_HAWK /\
       exists g', guest_at s' vmfd vfd g' /\ grown g g' /\
         (r = 0 /\ is_Some (g_byte g' gpa) \/ r = - ENOMEM))
    (fun st => st = Panicked /\ guest_page gpa = guest_page YAKVM_MMIO_HAWK) s.
Proof.
  intros (W & lost & a & w & c & pl & v & b & H). destruct (vm_obj _ _ _ _ (seen_ok H)) as [id Ho].
  unfold step. apply wp_bind, wp_gets. rewrite (seen_file_vm H). unfold yakvm_vm_ioctl, yakvm_vm_ioctl_mmap_page.
  cbn [Z.eqb Pos.eqb YAKVM_MMAP_PAGE YAKVM_CREATE_VCPU].
  apply wp_bind. eapply wp_get_obj; [exact Ho|done|]. cbn [vm.vmm].
  apply wp_bind. eapply wp_mono; [by eapply wp_page_there|].
  intros res s' (Hne & _ & g' & Hg' & Hgr & Hres). apply wp_ret. split; [done|].
  exists g'. split; [done|]. split; [done|]. destruct res as [e|page]; [right; by destruct Hres|left].
  split; [done|]. destruct Hres as (ws & _ & Hlen & _ & Hb). rewrite Hb by done.
  destruct (byte_of_some ws gpa Hlen) as (x & -> & _). by eexists.
Qed.

Lemma guest_at_mm s vmfd vfd g p :
  guest_at s vmfd vfd g -> guest_at (s <| ks_mm := get_page_op (ks_mm s) p |>) vmfd vfd g.
Proof.
  intros (W & lost & a & w & c & pl & v & b & [Hi Hw Hvc Hfd Hvfd Hat Hregs Hexit Hbyte]).
  exists W, lost, a, w, c, pl, v, b. split; try done.
  eapply inv_asid_only; try done; [|apply Hi].
  destruct (inv_mm _ _ _ Hi) as [H1 H2 H3]. destruct (get_page_used (ks_mm s) p) as (U1 & U2 & U3).
  split; simpl; [by rewrite U1|by rewrite U2|by rewrite U3].
Qed.

(** The fault handler. *)
Lemma wp_fault_there s W lost a w c pl v b vmfd vfd g address start i :
  seen s W lost a w c pl v b vmfd vfd g -> wrap 64 (address - start) = i ->
  wp (yakvm_vm_vmm_fault a address start)
    (fun r s' => guest_page i <> guest_page YAKVM_MMIO_HAWK /\
       (is_Some (g_byte g i) -> guest_at s' vmfd vfd g) /\
       exists g', guest_at s' vmfd vfd g' /\ grown g g' /\
         (r = (- ENOMEM, None) /\ g_byte g i = None \/
          exists page ws, r = (0, Some page) /\ ks_pages s' !! page_to_phys page = Some (PWords ws) /\
            length ws = 512%nat /\ writable s' vmfd vfd (page_to_phys page) /\ forall j, guest_page j = guest_page i -> g_byte g' j = byte_of ws j))
    (fun st => st = Panicked /\ guest_page i = guest_page YAKVM_MMIO_HAWK) s.
Proof.
  intros H <-. destruct (vm_obj _ _ _ _ (seen_ok H)) as [id Ho].
  unfold yakvm_vm_vmm_fault. apply wp_bind. eapply wp_get_obj; [exact Ho|done|]. cbn [vm.vmm].
  apply wp_bind. eapply wp_mono; [by eapply wp_page_there|].
  intros res s' (Hne & Hid & g' & Hg' & Hgr & Hres).
  assert (is_Some (g_byte g (wrap 64 (address - start))) -> guest_at s' vmfd vfd g) as Hsame.
  { intros Hs. rewrite Hid by done. by exists W, lost, a, w, c, pl, v, b. }
  destruct res as [e|page].
  - apply wp_ret. split; [done|]. split; [done|]. exists g'. destruct Hres as [-> Hn]. by eauto.
  - apply wp_bind, wp_modify, wp_ret. split; [done|]. split; [intros Hs; by apply guest_at_mm, Hsame|].
    exists g'. split; [by apply guest_at_mm|].
    split; [done|]. right. destruct Hres as (ws & Hws & Hlen & Hwr & Hb). exists page, ws.
    split; [done|]. split; [done|]. split; [done|]. split; [|done].
    intros ws' Hl'. destruct (Hwr ws' Hl') as [g2 Hg2]. exists g2. exact (guest_at_mm _ _ _ _ (page_to_phys page) Hg2).
Qed.

End guest.

(** ** The process *)
Section process.
Context `{L : KernelLaws} `{P : !Processor K} `{PL : !ProcessorLaws K P} `{A : !Abi K}
  `{U : !Userland K} `{UO : !UserlandOk K U} `{C : Config} `{CO : !ConfigOk C}.
Implicit Types (p : proc) (v : tool_vm.t) (g : guest).

(** The descriptors and the mappings of [struct vm] are those of the guest. *)
Record attached p v g : Prop := {
  att_guest : guest_at (p_ks p) (tool_vm.vmfd v) (cpu.fd (tool_vm.cpu v)) g;
  att_state : exists x,
    List.find (fun x => mapping.start x =? cpu.state (tool_vm.cpu v)) (p_maps p) = Some x /\
    mapping.fd x = cpu.fd (tool_vm.cpu v);
  att_align : tool_vm.memory v mod PAGE_SIZE = 0;
  att_memory i : 0 <= i < YAKVM_MEMORY -> exists x,
    List.find (mapping.holds (tool_vm.memory v + i)) (p_maps p) = Some x /\
    mapping.start x = tool_vm.memory v /\ mapping.fd x = tool_vm.vmfd v
}.

Lemma attached_ks p v g s g' :
  attached p v g -> guest_at s (tool_vm.vmfd v) (cpu.fd (tool_vm.cpu v)) g' ->
  attached (p <| p_ks := s |>) v g'.
Proof. by intros [_ H2 H3 H4] H. Qed.

Lemma sys_ok {T} (m : KM T) p a s : m (p_ks p) = Ok a s -> sys m p = Ok a (p <| p_ks := s |>).
Proof. unfold sys. by intros ->. Qed.

Lemma wp_sys {T} (m : KM T) p (Q : T -> proc -> Prop) E :
  wp m (fun a s => Q a (p <| p_ks := s |>)) E (p_ks p) -> wp (sys m) Q E p.
Proof. unfold wp, sys. by destruct (m (p_ks p)). Qed.

(** The address of a guest's byte in the process and the fault on its page. *)
Lemma fault_address mem i :
  mem mod 4096 = 0 ->
  guest_page (wrap 64 (mem + i - (mem + i) mod PAGE_SIZE - mem)) = guest_page i.
Proof.
  intros Hm. apply Z.mod_divide in Hm as [n ->]; [|lia]. unfold PAGE_SIZE, guest_page, wrap.
  rewrite (Z.add_comm (n * 4096)), Z_mod_plus_full.
  replace (i + n * 4096 - i mod 4096 - n * 4096) with (i / 4096 * 4096)
    by (pose proof (Z.div_mod i 4096); lia).
  change (2 ^ 64) with (4096 * 2 ^ 52). rewrite (Z.mul_comm _ 4096), Z.mul_mod_distr_l by lia.
  rewrite Z.mul_comm, Z.div_mul by lia.
  change (2 ^ 52) with (2 ^ 36 * 2 ^ 16). rewrite Z.rem_mul_r, Z.mul_comm, Z_mod_plus_full, Z.mod_mod by lia.
  done.
Qed.

Lemma byte_of_offset ws mem i : mem mod 4096 = 0 -> byte_of ws (mem + i) = byte_of ws i.
Proof.
  intros Hm. apply Z.mod_divide in Hm as [n ->]; [|lia].
  unfold byte_of, byte_index, byte_shift, PAGE_SIZE. rewrite (Z.add_comm (n * 4096)), Z_mod_plus_full.
  replace (i + n * 4096) with (i + n * 512 * 8) by lia. by rewrite Z_mod_plus_full.
Qed.

(** The page behind an address of guest memory, created if it is not there. *)
Lemma wp_fault_page p v g i :
  attached p v g -> 0 <= i < YAKVM_MEMORY ->
  wp (fault_page (tool_vm.memory v + i))
    (fun o p' => guest_page i <> guest_page YAKVM_MMIO_HAWK /\
       (is_Some (g_byte g i) -> attached p' v g) /\
       exists g', attached p' v g' /\ grown g g' /\
         (o = None /\ g_byte g i = None \/
          exists page ws, o = Some page /\ ks_pages (p_ks p') !! page_to_phys page = Some (PWords ws) /\
            length ws = 512%nat /\
            writable (p_ks p') (tool_vm.vmfd v) (cpu.fd (tool_vm.cpu v)) (page_to_phys page) /\
            g_byte g' i = byte_of ws i))
    (fun st => st = Panicked /\ guest_page i = guest_page YAKVM_MMIO_HAWK) p.
Proof.
  intros H Hi. destruct (att_memory _ _ _ H i Hi) as (x & Hx & Hs & Hf).
  pose proof (att_align _ _ _ H) as Hal. destruct (att_guest _ _ _ H) as (W & lost & a & w & c & pl & vc & b & S).
  unfold fault_page. apply wp_bind, wp_gets, wp_bind, wp_gets.
  rewrite Hx, Hf, (seen_file_vm S), Hs. apply wp_bind, wp_sys.
  set (gpa := wrap 64 (tool_vm.memory v + i - (tool_vm.memory v + i) mod PAGE_SIZE - tool_vm.memory v)).
  assert (guest_page gpa = guest_page i) as Hg by (by apply fault_address).
  assert (is_Some (g_byte g i) -> is_Some (g_byte g gpa)) as Hp.
  { intros Hp. by eapply present_page; [apply H| |]. }
  eapply wp_mono; [eapply wp_stop_mono; [by apply (wp_fault_there _ _ _ _ _ _ _ _ _ _ _ _ _ _ gpa S)|]|].
  { intros st [-> Hst]. split; [done|]. congruence. }
  intros r s' (Hne & Hsame & g' & Hg' & Hgr & Hr). apply wp_ret. rewrite Hg in Hne.
  split; [done|]. split; [intros Hi'; eapply attached_ks; [done|]; auto|].
  exists g'. split; [by eapply attached_ks|]. split; [done|].
  destruct Hr as [[-> Hn]|(page & ws & -> & Hws & Hlen & Hwr & Hb)]; cbn.
  - left. split; [done|]. apply eq_None_not_Some. intros Hi'%Hp. rewrite Hn in Hi'. by destruct Hi'.
  - right. exists page, ws. by split_and!; auto.
Qed.

(** Reading a byte of guest memory. *)
Lemma wp_read_byte p v g i :
  attached p v g -> 0 <= i < YAKVM_MEMORY ->
  wp (read_byte (tool_vm.memory v + i))
    (fun x p' => guest_page i <> guest_page YAKVM_MMIO_HAWK /\ (is_Some (g_byte g i) -> attached p' v g) /\
       exists g', attached p' v g' /\ grown g g' /\ g_byte g' i = Some x)
    (fun st => st = Panicked /\ guest_page i = guest_page YAKVM_MMIO_HAWK \/
               st = Aborted /\ g_byte g i = None /\ guest_page i <> guest_page YAKVM_MMIO_HAWK) p.
Proof.
  intros H Hi. unfold read_byte. apply wp_bind.
  eapply wp_mono; [eapply wp_stop_mono; [by apply wp_fault_page|]|]; [by left|].
  intros o p' (Hne & Hsame & g' & Hg' & Hgr & Ho).
  destruct Ho as [[-> Hn]|(page & ws & -> & Hws & Hlen & _ & Hb)]; [by right|].
  apply wp_bind, wp_gets, wp_bind. apply (wp_need _ ws); [by rewrite Hws|].
  rewrite (byte_of_offset _ _ _ (att_align _ _ _ H)).
  destruct (byte_of_some ws i Hlen) as (y & Hy & _). rewrite Hy. apply wp_ret.
  split; [done|]. split; [done|]. exists g'. split; [done|]. split; [done|]. by rewrite Hb.
Qed.

(** Storing bytes keeps the guest attached. *)
Lemma wp_write_byte p v g i x :
  attached p v g -> 0 <= i < YAKVM_MEMORY ->
  wp (write_byte (tool_vm.memory v + i) x) (fun _ p' => exists g', attached p' v g')
    (fun st => st = Panicked) p.
Proof.
  intros H Hi. unfold write_byte. apply wp_bind.
  eapply wp_mono; [eapply wp_stop_mono; [by apply wp_fault_page|]|]; [by intros st []|].
  intros o p' (_ & _ & g' & Hg' & _ & Ho).
  destruct Ho as [[-> _]|(page & ws & -> & Hws & Hlen & Hwr & _)]; [apply wp_ret; by exists g'|].
  apply wp_bind, wp_gets, wp_bind. apply (wp_need _ ws); [by rewrite Hws|].
  apply wp_bind, wp_modify, wp_ret.
  destruct (Hwr (set_byte ws (tool_vm.memory v + i) x)) as [g2 Hg2]; [by rewrite set_byte_length|].
  exists g2. by eapply attached_ks.
Qed.

Lemma wp_write_bytes p v g i l :
  attached p v g -> 0 <= i -> i + Z.of_nat (length l) <= YAKVM_MEMORY ->
  wp (write_bytes (tool_vm.memory v + i) l) (fun _ p' => exists g', attached p' v g')
    (fun st => st = Panicked) p.
Proof.
  revert p g i. induction l as [|x l IH]; intros p g i H H0 Hl; cbn [write_bytes length] in *.
  { apply wp_ret. by exists g. }
  apply wp_bind, wp_gets. destruct (negb _); [apply wp_ret; by exists g|].
  apply wp_bind. eapply wp_mono; [eapply wp_write_byte; [done|lia]|].
  intros [] p' [g' Hg']; [|apply wp_ret; by exists g'].
  apply wp_bind. rewrite <- Z.add_assoc. eapply wp_mono; [eapply IH; [done|lia..]|].
  intros n p2 Hp2. by apply wp_ret.
Qed.

(** The laws. *)
Lemma attached_set_regs p v g regs :
  attached p v g -> narrow regs -> exists p', attached p' v (g <| g_regs := regs |>) /\
    sys_set_regs (cpu.fd (tool_vm.cpu v)) regs p = Ok 0 p'.
Proof.
  intros H Hn.
  set (u := (copy_to_user (ks_user (p_ks p)) regs_buf regs).2).
  set (s0 := (p_ks p) <| ks_user := u |>).
  assert (guest_at s0 (tool_vm.vmfd v) (cpu.fd (tool_vm.cpu v)) g) as Hg0.
  { destruct (att_guest _ _ _ H) as (W & lost & a & w & c & pl & vc & b & S).
    destruct S as [Hi Hw Hvc Hfd Hvfd Hat Hregs Hexit Hbyte].
    exists W, lost, a, w, c, pl, vc, b. split; try done.
    eapply inv_asid_only; try done; [|apply Hi]. by eapply mm_ok_sub; [apply Hi|..]. }
  destruct (step_set_regs s0 _ _ _ regs_buf regs Hg0) as (s' & Hs & Hg); [|exact Hn|].
  { pose proof (regs_buf_ok (ks_user (p_ks p)) regs) as Hr.
    destruct (copy_to_user (ks_user (p_ks p)) regs_buf regs) as [r u'] eqn:Hu. simpl in Hr. subst r.
    by apply (copy_round_trip _ _ _ _ Hu). }
  exists (p <| p_ks := s' |>). split; [by eapply attached_ks|]. 
  exact (sys_ok _ (p <| p_ks := s0 |>) _ _ Hs).
Qed.

Lemma attached_state p v g :
  attached p v g -> user_state (cpu.state (tool_vm.cpu v)) p = Ok (g_exit g) p.
Proof.
  intros H. destruct (att_state _ _ _ H) as (x & Hx & Hf).
  destruct (att_guest _ _ _ H) as (W & lost & a & w & c & pl & vc & b & S).
  pose proof (seen_file_vcpu S) as Hfile. destruct S as [Hi Hw Hvc Hfd Hvfd (Hv & Hpl & _) _ Hexit _].
  simpl. unfold shared_state, get_vcpu, get_obj, sys, mbind, M_bind. cbn [gets]. rewrite Hx, Hf, Hfile, Hv. cbn.
  rewrite (placed_state _ _ Hpl), valid_pa_round_trip.
  2: { pose proof (placed_valid _ _ Hpl) as Val. rewrite !Forall_cons in Val. tauto. }
  destruct (ks_pages (p_ks p) !! at_state pl) as [pg|]; [|done]. cbn in Hexit |- *.
  rewrite Hexit. by destruct p.
Qed.

Lemma attached_byte p v g i x :
  attached p v g -> 0 <= i < YAKVM_MEMORY -> g_byte g i = Some x ->
  exists p', attached p' v g /\ user_byte (tool_vm.memory v + i) p = Ok x p'.
Proof.
  intros H Hi Hx. pose proof (wp_read_byte p v g i H Hi) as Hwp.
  unfold wp in Hwp. simpl. destruct (read_byte _ _) as [y p'|st].
  + destruct Hwp as (_ & Hsame & g' & _ & (_ & _ & Hgb) & Hy). rewrite Hx in Hsame.
    pose proof (Hgb _ _ Hx). exists p'. split; [by apply Hsame|]. congruence.
  + exfalso. destruct (att_guest _ _ _ H) as (W & lost & a & w & c & pl & vc & b & S).
    destruct Hwp as [[_ Hg%path_eq_page]|(_ & Hn & _)]; [|congruence].
    destruct (vm_mmio _ _ _ _ (seen_ok S)) as [[xh Hh] _]. rewrite <- Hg in Hh.
    assert (is_Some (g_byte g i)) as Hp by (by rewrite Hx).
    destruct S as [Hi' Hw _ _ _ _ _ _ Hbyte]. rewrite Hbyte in Hp.
    apply (guest_byte_some (vm_tree _ _ _ _ (inv_vm _ _ _ Hi' _ _ Hw))) in Hp as [y Hy]. congruence.
Qed.

#[global] Instance process_laws : HostLaws proc.
Proof using L PL UO CO.
  refine {| running := attached |}.
  - intros p v g m [H1 H2 H3 H4]. by split.
  - intros p v g [(W & lost & a & w & c & pl & vc & b & S) _ _ _].
    destruct S as [_ _ _ _ _ _ -> _ _]. split; apply wrap_range; lia.
  - intros p v g H. destruct (step_get_regs _ _ _ _ regs_buf (att_guest _ _ _ H)) as (s' & Hs & Hg & Hc).
    { intros r. apply regs_buf_ok. }
    exists (p <| p_ks := s' |>). split; [by eapply attached_ks|]. simpl. unfold ask_regs, mbind, M_bind.
    rewrite (sys_ok _ _ _ _ Hs). cbn. by rewrite Hc.
  - exact attached_set_regs.
  - exact attached_state.
  - exact attached_byte.
  - intros p v g i j H. apply (present_page _ _ _ _ _ _ (att_guest _ _ _ H)).
  - intros p v g H. pose proof (step_run _ _ _ _ (att_guest _ _ _ H)) as Hwp.
    cbn [sys_ioctl process]. unfold wp, sys in *. destruct (step _ _) as [r s'|st]; [|done].
    destruct Hwp as (-> & g' & Hg). split; [done|]. exists g'. by eapply attached_ks.
  - intros p v g gpa H Hne. pose proof (step_map _ _ _ _ gpa (att_guest _ _ _ H)) as Hwp.
    unfold wp in Hwp. destruct (step _ _) as [r s'|st] eqn:Hs; [|by destruct Hwp].
    destruct Hwp as (_ & g' & Hg & (Hgr & Hge & Hgb) & Hr).
    exists r, (p <| p_ks := s' |>), g'. split; [by eapply attached_ks|]. split; [by apply sys_ok|].
    by split_and!.
Defined.

(** ** The hidden page *)

(** C34: a guest that touches the MMIO page anywhere but at its first byte stops the
    host: the emulator asks the driver for the page, whose entry is hidden, and
    the driver's assertion panics. *)
Theorem hidden_page_panics_host (e : emu proc) g :
  running (e_sys e) (e_vm e) g -> state.exit_code (g_exit g) = SVM_EXIT_NPF ->
  u64 (state.exit_info_2 (g_exit g)) ->
  page_of (state.exit_info_2 (g_exit g)) = page_of YAKVM_MMIO_HAWK ->
  state.exit_info_2 (g_exit g) <> YAKVM_MMIO_HAWK ->
  yakvm_cpu_handle_exit e = Stop Panicked.
Proof using L PL UO CO.
  intros Hr Hcode Hu Hpage Hne. apply wp_stops. eapply wp_handle_exit; [done|done|]. cbv zeta.
  rewrite Hcode, Z.eqb_refl. apply wp_bind. unfold yakvm_cpu_handle_npf.
  apply wp_bind, (wp_cpu_state _ g); [done|]. rewrite (proj2 (Z.eqb_neq _ _) Hne).
  apply wp_bind, wp_gets, wp_bind. unfold ioctl, libc. apply wp_bind.
  pose proof (step_map _ _ _ _ (yakvm_page (state.exit_info_2 (g_exit g))) (att_guest _ _ _ Hr)) as Hwp.
  assert (guest_page (yakvm_page (state.exit_info_2 (g_exit g))) = guest_page YAKVM_MMIO_HAWK) as Hg.
  { exact (eq_trans (page_of_base _ Hu) Hpage). }
  unfold wp, under_sys, sys_ioctl, process, sys in *. unfold wp in Hwp.
  destruct (step _ (p_ks (e_sys e))) as [r s|st]; [by destruct Hwp|by destruct Hwp].
Qed.

End process.

