(* ===== verification/GuestRun.v ===== *)
(** * The guest of the repository on the whole system

    The emulator over the driver over the interpreter of Guest, on concrete
    binaries: what the repository's integration test runs, evaluated, and the
    states that witness the theorems on the emulator. *)

From S2P Require Import Prelude Structs Kernel Concrete Npt Vmcb VcpuRun Vcpu Vm Driver.
From S2P Require Import System Handlers HandlersVcpu Spec Safety Machine SafetyProps SwitchProps.
From S2P Require Import GuestMemory Guest Emulator EmulatorProps Process ProcessProps.

(** A process whose mappings are put above the others, and the binary it runs. *)
Definition userland (l : list Z) : Userland concrete := {|
  regs_buf := 0x7ffc00001000;
  mmap_place maps _ := foldr (fun x => Z.max (mapping.start x + mapping.len x)) 0x7f0000000000 maps;
  bin_open := 1000;
  bin_stat := 0;
  bin_bytes := l
|}.

#[global] Instance userland_ok l : UserlandOk concrete (userland l).
Proof. intros u r. simpl. done. Qed.

Section system.
#[local] Existing Instance concrete.
#[local] Existing Instance concrete_laws.
#[local] Existing Instance concrete_abi.
#[local] Existing Instance makefile_config.
#[local] Instance the_cpu : Processor concrete := interpreter concrete.
#[local] Instance the_laws : ProcessorLaws concrete the_cpu := interpreter_laws concrete.

(** The emulator before [main], on a kernel that has just loaded the driver and
    whose allocators follow a script. *)
Definition before_main (script : list bool) : emu proc :=
  Emu (tool_vm.mk 0 (cpu.mk 0 RUNNING 0) 0) 0 0 0
    (Proc concrete (final insmod (boot script)) [] ∅).

Definition emulate (prog : list insn) (script : list bool) (fuel : nat) :
    outcome (emu proc) (option Z) :=
  @main proc (@process concrete the_cpu concrete_abi (userland (binary prog)) makefile_config)
    makefile_config [ARGP_KEY_ARG "guest/guest.bin"] fuel (before_main script).

(** Nothing is left: no file, no page, no object, no mapping. *)
Definition all_gone (e : emu proc) : bool :=
  let s := p_ks (e_sys e) in
  bool_decide (ks_files s = ∅) && bool_decide (dom (ks_pages s) = ∅) &&
  bool_decide (dom (ks_heap s) = ∅) && bool_decide (p_maps (e_sys e) = []).

(** The guest of the repository comes to its end on the whole system: the emulator
    returns 0 with 1 written to the port and 3 to the MMIO page, as the guest
    waits for, and everything the driver allocated is freed. *)
Theorem guest_runs_to_end :
  match emulate entry [] 20 with
  | Ok r e => r = Some 0 /\ e_data e = (1, 3) /\ all_gone e = true
  | Stop _ => False
  end.
Proof. vm_compute. by split_and!. Qed.

(** How an emulation may end when memory runs out: with an answer and nothing left
    but pages, or by an assertion of the emulator. *)
Definition ends_well (o : outcome (emu proc) (option Z)) : bool :=
  match o with
  | Ok (Some _) e => bool_decide (ks_files (p_ks (e_sys e)) = ∅) &&
      bool_decide (dom (ks_heap (p_ks (e_sys e))) = ∅) && bool_decide (p_maps (e_sys e) = [])
  | Ok None _ => false
  | Stop w => bool_decide (w = Aborted)
  end.

(** The answers of the script that are left. *)
Definition left_over (o : outcome (emu proc) (option Z)) : list bool :=
  match o with Ok _ e => c_script (ks_mm (p_ks (e_sys e))) | Stop _ => [] end.

(** The run makes 24 requests of the kernel's allocators; whichever of them is the
    one that fails, the emulator returns with every descriptor closed, every
    object freed and nothing mapped, or is stopped by an assertion of its own:
    the kernel never panics, nothing is used after it was freed and no lock is
    waited for. *)
Theorem one_failed_allocation :
  left_over (emulate entry (replicate 25 true) 20) = [true] /\
  Forall (fun k => ends_well (emulate entry (replicate k true ++ [false]) 20) = true) (seq 0 24).
Proof. split; [vm_compute; reflexivity|]. repeat (constructor; [vm_compute; reflexivity|]). constructor. Qed.

(** ** States of the emulator *)

(** A machine and its vcpu, mapped by the process. *)
Definition demo_ks : kstate := final (insmod ;; run demo_vm) (boot []).
Definition demo_memory : Z := 0x7f0000000000.
Definition demo_state_page : Z := demo_memory + YAKVM_MEMORY.
Definition demo_tool_vm : tool_vm.t :=
  tool_vm.mk 4 (cpu.mk demo_state_page RUNNING 5) demo_memory.
Definition demo_attached : proc :=
  Proc concrete demo_ks
    [mapping.mk demo_memory YAKVM_MEMORY 4; mapping.mk demo_state_page PAGE_SIZE 5] ∅.

Definition start_regs : registers.t :=
  registers.zero <| registers.cs := YAKVM_ENTRY |> <| registers.ss := YAKVM_STACK |>.

#[local] Instance the_userland : Userland concrete := userland [].

(** The binary at the entry, the registers at their start, [n] exits later. *)
Definition loaded_with (prog : list insn) : proc :=
  final (write_bytes (demo_memory + YAKVM_ENTRY) (binary prog)) demo_attached.
Definition started (prog : list insn) : proc := final (tell_regs 5 start_regs) (loaded_with prog).
Definition ran_for (prog : list insn) (n : nat) : proc :=
  Nat.iter n (final (sys_ioctl 5 YAKVM_RUN 0)) (started prog).
Definition demo_emu (prog : list insn) (n : nat) : emu proc :=
  Emu demo_tool_vm 0 0 0 (ran_for prog n).

Lemma demo_ks_answers : result (insmod ;; run demo_vm) (boot []) = Some [3; 4; 5].
Proof. vm_compute. reflexivity. Qed.

Lemma demo_ks_files :
  ks_files demo_ks !! 4 = Some (FVm demo_a) /\ ks_files demo_ks !! 5 = Some (FVcpu demo_c) /\
  vcpu.vm <$> ((ks_heap demo_ks !! demo_c) ≫= as_vcpu) = Some demo_a.
Proof. split_and!; vm_compute; reflexivity. Qed.

Lemma demo_attached_ok : exists g, attached demo_attached demo_tool_vm g.
Proof.
  pose proof (wp_loaded_run demo_vm _ (boot_booted [])) as Hwp.
  destruct (wp_result _ _ _ _ _ Hwp demo_ks_answers) as (_ & W & lost & I & _).
  destruct demo_ks_files as (F1 & F2 & F3).
  destruct (guest_at_files _ _ _ _ _ _ _ I F1 F2 F3) as [g Hg]. exists g. split.
  - exact Hg.
  - exists (mapping.mk demo_state_page PAGE_SIZE 5). split; vm_compute; reflexivity.
  - reflexivity.
  - clear I Hwp Hg F1 F2 F3. intros i Hi. exists (mapping.mk demo_memory YAKVM_MEMORY 4). split; [|split; reflexivity].
    change (p_maps demo_attached) with [mapping.mk demo_memory YAKVM_MEMORY 4; mapping.mk demo_state_page PAGE_SIZE 5].
    change (tool_vm.memory demo_tool_vm) with demo_memory.
    cbn [List.find]. unfold mapping.holds. cbn [mapping.start mapping.len].
    replace (demo_memory <=? demo_memory + i) with true by (symmetry; apply Z.leb_le; lia).
    replace (demo_memory + i <? demo_memory + YAKVM_MEMORY) with true by (symmetry; apply Z.ltb_lt; lia).
    reflexivity.
Qed.

(** Every such state is a running guest's. *)
Lemma demo_running prog n k :
  Z.of_nat (length (binary prog)) <= 1024 ->
  result (write_bytes (demo_memory + YAKVM_ENTRY) (binary prog)) demo_attached = Some k ->
  exists g, running (e_sys (demo_emu prog n)) demo_tool_vm g.
Proof.
  intros Hlen Hk. destruct demo_attached_ok as [g0 H0].
  assert (exists g, attached (loaded_with prog) demo_tool_vm g) as [g1 H1].
  { refine (wp_result _ _ _ _ _ (wp_write_bytes demo_attached demo_tool_vm g0 YAKVM_ENTRY (binary prog) H0 _ _) Hk).
    - by apply Z.leb_le.
    - change YAKVM_MEMORY with 1048576. change YAKVM_ENTRY with 4096. lia. }
  assert (running (loaded_with prog) demo_tool_vm g1) as R1 by exact H1.
  destruct (host_set_regs _ _ _ start_regs R1) as (p2 & H2 & Hs2); [by split|].
  induction n as [|n [g IH]].
  - eexists. change (e_sys (demo_emu prog 0)) with (started prog). unfold started.
    change (tell_regs 5 start_regs (loaded_with prog) = Ok 0 p2) in Hs2.
    unfold final. rewrite Hs2. exact H2.
  - pose proof (host_run _ _ _ IH) as Hwp.
    change (e_sys (demo_emu prog (S n))) with (final (sys_ioctl 5 YAKVM_RUN 0) (ran_for prog n)).
    change (e_sys (demo_emu prog n)) with (ran_for prog n) in *.
    change (cpu.fd (tool_vm.cpu demo_tool_vm)) with 5 in Hwp. unfold wp in Hwp. unfold final.
    destruct (sys_ioctl 5 YAKVM_RUN 0 (ran_for prog n)) as [r p3|st]; [|by exists g].
    exact (proj2 Hwp).
Qed.

(** The exit the emulator sees there. *)
Lemma demo_exit prog n g st :
  running (e_sys (demo_emu prog n)) demo_tool_vm g ->
  result (user_state demo_state_page) (ran_for prog n) = Some st -> g_exit g = st.
Proof.
  intros Hr Hs. pose proof (host_state _ _ _ Hr) as H.
  change (user_state demo_state_page (ran_for prog n) = Ok (g_exit g) (ran_for prog n)) in H.
  unfold result in Hs. rewrite H in Hs. congruence.
Qed.
(** The guest's registers there. *)
Lemma demo_regs_read prog n g r :
  running (e_sys (demo_emu prog n)) demo_tool_vm g ->
  result (sys_get_regs 5) (ran_for prog n) = Some (0, r) -> g_regs g = r.
Proof.
  intros Hr Hs. destruct (host_get_regs _ _ _ Hr) as (p & _ & H).
  change (sys_get_regs 5 (ran_for prog n) = Ok (0, g_regs g) p) in H.
  unfold result in Hs. rewrite H in Hs. congruence.
Qed.

(** The bytes of guest memory there. *)
Definition demo_byte_of (s : kstate) (i : Z) : option Z :=
  v ← (ks_heap s !! demo_a) ≫= as_vm;
  u ← (ks_heap s !! vm.vmm v) ≫= as_vmm;
  guest_byte (ks_pages s) (vmm.ncr3 u) i.

Lemma demo_byte prog n g i x :
  running (e_sys (demo_emu prog n)) demo_tool_vm g ->
  ks_files (p_ks (ran_for prog n)) !! 4 = Some (FVm demo_a) ->
  demo_byte_of (p_ks (ran_for prog n)) i = Some x -> g_byte g i = Some x.
Proof.
  intros Hr Hf Hx. pose proof (att_guest _ _ _ Hr) as Hg. unfold demo_byte_of in Hx.
  change (e_sys (demo_emu prog n)) with (ran_for prog n) in Hg.
  set (s := p_ks (ran_for prog n)) in *. clearbody s.
  destruct (ks_heap s !! demo_a) as [[v| |]|] eqn:Hv; simpl in Hx; try done.
  destruct (ks_heap s !! vm.vmm v) as [[|u|]|] eqn:Hu; simpl in Hx; try done.
  by rewrite (guest_at_byte _ _ _ _ _ _ _ i Hg Hf Hv Hu).
Qed.

(** *** Witnesses *)

#[local] Abbreviation demo_out := (demo_emu (pio_out8 YAKVM_PIO_HAWK 1) 3).

Lemma demo_out_running : exists g, running (e_sys demo_out) demo_tool_vm g /\
  g_exit g = state.mk SVM_EXIT_IOIO (ioio_info false 8 YAKVM_PIO_HAWK) 9 4096 8 /\
  registers.rax (g_regs g) = 1.
Proof.
  destruct (demo_running (pio_out8 YAKVM_PIO_HAWK 1) 3 9) as [g Hg]; [by apply Z.leb_le|vm_compute; reflexivity|].
  exists g. split; [exact Hg|]. split.
  - apply (demo_exit _ _ _ _ Hg). vm_compute. reflexivity.
  - erewrite (demo_regs_read _ _ _ _ Hg); [|vm_compute; reflexivity]. reflexivity.
Qed.

Lemma handle_ioio_emulates_witness :
  exists e, yakvm_cpu_handle_ioio demo_out = Ok tt e /\ e_pio_hawk e = 1.
Proof.
  destruct demo_out_running as (g & Hg & He & Hrax).
  pose proof (handle_ioio_emulates demo_out g false 8 YAKVM_PIO_HAWK Hg) as H.
  destruct H as (s & Hs & _); [split; [by apply Z.leb_le|by apply Z.ltb_lt]..|by rewrite He|].
  rewrite Hs. eexists. split; [reflexivity|]. unfold ioio_device. cbn [e_pio_hawk set_field].
  rewrite Hrax. reflexivity.
Defined.

#[local] Abbreviation demo_store := (demo_emu (mmio_out8 YAKVM_MMIO_HAWK 3) 3).

Lemma demo_store_running : exists g, running (e_sys demo_store) demo_tool_vm g /\
  g_exit g = state.mk SVM_EXIT_NPF (npf_info true false) 0 4096 8 /\
  registers.rdx (g_regs g) = YAKVM_MMIO_HAWK /\ registers.rax (g_regs g) = 3 /\
  g_byte g 4104 = Some 0x67 /\ g_byte g 4105 = Some 0x88 /\ g_byte g 4106 = Some 0x02.
Proof.
  destruct (demo_running (mmio_out8 YAKVM_MMIO_HAWK 3) 3 11) as [g Hg]; [by apply Z.leb_le|vm_compute; reflexivity|].
  exists g. split; [exact Hg|]. split; [apply (demo_exit _ _ _ _ Hg); vm_compute; reflexivity|].
  do 2 (split; [erewrite (demo_regs_read _ _ _ _ Hg); [|vm_compute; reflexivity]; reflexivity|]).
  split_and!; apply (demo_byte _ _ _ _ _ Hg); vm_compute; reflexivity.
Qed.

Lemma handle_mmio_emulates_witness :
  exists e, yakvm_vcpu_handle_mmio demo_store = Ok tt e /\ e_mmio_hawk e = 3.
Proof.
  destruct demo_store_running as (g & Hg & He & Hrdx & Hrax & B0 & B1 & B2).
  pose proof (handle_mmio_emulates demo_store g 0x67 0x88 0x02) as H.
  rewrite He, Hrdx in H. change (wrap 32 _) with 4104 in H.
  specialize (H Hg ltac:(by apply Z.ltb_lt) ltac:(by apply Z.leb_le) B0 B1 B2).
  destruct H as (s & Hs & _). rewrite Hs. eexists. split; [reflexivity|].
  unfold mmio_device. cbn [e_mmio_hawk set_field]. rewrite Hrax. reflexivity.
Defined.

(** A store to a page that is not mapped; one to the MMIO page, past its first
    byte. *)
Definition demo_touch (address : Z) : list insn := [mov_edx address; movb_al_edx].

Lemma demo_touch_running address k st :
  result (write_bytes (demo_memory + YAKVM_ENTRY) (binary (demo_touch address))) demo_attached = Some k ->
  result (user_state demo_state_page) (ran_for (demo_touch address) 2) = Some st ->
  exists g, running (e_sys (demo_emu (demo_touch address) 2)) demo_tool_vm g /\ g_exit g = st.
Proof.
  intros Hk Hst. destruct (demo_running (demo_touch address) 2 k) as [g Hg]; [by apply Z.leb_le|exact Hk|].
  exists g. split; [exact Hg|]. by apply (demo_exit _ _ _ _ Hg).
Qed.

#[local] Abbreviation demo_fault := (demo_emu (demo_touch 0x8000) 2).

Lemma demo_fault_handled : result yakvm_cpu_handle_exit demo_fault = Some 0.
Proof. vm_compute. reflexivity. Qed.

Lemma handle_npf_maps_witness :
  exists s g, yakvm_cpu_handle_exit demo_fault = Ok 0 (demo_fault <| e_sys := s |>) /\
    running s demo_tool_vm g /\ is_Some (g_byte g 0x8000).
Proof.
  destruct (demo_touch_running 0x8000 9 (state.mk SVM_EXIT_NPF (npf_info true false) 0x8000 4096 6))
    as (g & Hg & He); [vm_compute; reflexivity..|].
  pose proof (handle_npf_maps demo_fault g Hg) as H. rewrite He in H.
  destruct H as (r & s & g' & _ & Hg' & _ & _ & [(_ & Hs & Hb)|[_ Hs]]);
    [reflexivity|split; [by apply Z.leb_le|by apply Z.ltb_lt]|done| |].
  - exists s, g'. split; [exact Hs|]. split; [exact Hg'|exact Hb].
  - exfalso. exact (result_stop _ _ _ _ demo_fault_handled Hs).
Defined.

#[local] Abbreviation demo_hidden := (demo_emu (demo_touch 4) 2).

Lemma hidden_page_panics_host_witness : yakvm_cpu_handle_exit demo_hidden = Stop Panicked.
Proof.
  destruct (demo_touch_running 4 9 (state.mk SVM_EXIT_NPF (npf_info true false) 4 4096 6))
    as (g & Hg & He); [vm_compute; reflexivity..|].
  apply (hidden_page_panics_host demo_hidden g Hg); rewrite He;
    [reflexivity|split; [by apply Z.leb_le|by apply Z.ltb_lt]|reflexivity|done].
Defined.

#[local] Abbreviation demo_hlt := (demo_emu hlt 1).

Lemma demo_hlt_running : exists g, running (e_sys demo_hlt) demo_tool_vm g /\
  g_exit g = state.mk SVM_EXIT_HLT 0 0 4096 0.
Proof.
  destruct (demo_running hlt 1 1) as [g Hg]; [by apply Z.leb_le|vm_compute; reflexivity|].
  exists g. split; [exact Hg|]. apply (demo_exit _ _ _ _ Hg). vm_compute. reflexivity.
Qed.

Lemma handle_exit_rest_witness :
  exists e, yakvm_cpu_handle_exit demo_hlt = Ok 0 e /\ cpu.mode (tool_vm.cpu (e_vm e)) = HLT.
Proof.
  destruct demo_hlt_running as (g & Hg & He).
  destruct (handle_exit_rest demo_hlt g Hg) as (H & _). rewrite He in H.
  rewrite H by reflexivity. eexists. split; reflexivity.
Defined.

End system.

